(* ===== verification/_CoqProject ===== *)
-Q . S2P
Prelude.v
Totals.v
Reader.v
GoNet.v
InfoModel.v
Interpret.v
TemplateCache.v
Interleave.v
IpfixDecoder.v
IpfixFacts.v
IpfixDecode.v
IpfixWire.v
IpfixMessage.v
IpfixProps.v
IpfixTypes.v
IpfixShared.v
IpfixSource.v
NetflowDecoder.v
NetflowFacts.v
NetflowMessage.v
NetflowProps.v
NetflowTypes.v
NetflowShared.v
Packet.v
PacketWire.v
SFlow.v
SFlowFacts.v
SFlowWire.v
SFlowProps.v
GoFloat.v
Json.v
Marshal.v
MarshalIpfix.v
MarshalNetflow.v
SFlowJson.v
Mirror.v
Collector.v
MQRuns.v
IpfixWorkers.v
NetflowCollector.v
NetflowWorkers.v
SFlowCollector.v
Workers.v
Discovery.v
GoStrings.v
Flags.v
Options.v
GoPrintf.v
Exchanger.v
Producers.v
Lifecycle.v
Dispatcher.v
Buffers.v
BufferFacts.v
BufferDrains.v
BufferService.v
Stats.v
GoJson.v
CacheFile.v
IpfixCacheFile.v
NetflowCacheFile.v
Monitor.v
Disc.v
Cluster.v
Hammer.v
StressRuns.v
StressSamples.v
Consumers.v
ConsumerRuns.v
EndToEnd.v
