(* ===== verification/Prelude.v ===== *)
(** * A verification development for vFlow

    vFlow is a collector for IPFIX, NetFlow v9 and sFlow: UDP datagrams come in, workers
    decode them and publish one JSON text per message to a message queue; datagrams can
    be mirrored to another collector, and collectors exchange IPFIX templates.  Around the
    collector are its configuration, an HTTP service for its counters, a monitor that polls
    that service, consumers of the published messages and a stress tool.  This library
    models the program's own code (under src/) as executable definitions over explicit
    state and proves what makes it correct, and where it is not, exactly when.

    ** Parts and files

    - This file: machine integers as [Z] with their wrap-around, bytes, errors, the
      result type [res] and the state monad [M] of fallible Go code ([Panic] is a
      run-time panic, [NoFuel] an exhausted loop bound), the predicate [safe] with its
      rules, tactics, hint databases and the shared lemmas.  [Totals]: sums over lists,
      with which the invariants of queues and buffers are counted.
    - [Reader]: src/reader/reader.go, the big-endian cursor all decoders but sFlow's use.
    - [GoNet], [GoFloat], [GoStrings], [GoPrintf]: the functions of Go's standard library
      that the sources print and parse with (strconv, encoding/hex, net.IP,
      net.HardwareAddr, err.Error(), strings, path, and fmt.Fprintf without operands).
    - [InfoModel]: src/ipfix/rfc5102_model.go, field types, the table of elements and
      LoadExtElements.  [Interpret]: src/ipfix/interpret.go.
    - [TemplateCache]: src/ipfix/memcache.go and src/netflow/v9/memcache.go, one sharded
      cache over any template type.  The class [StoreOps] is what the decoders call, the
      class [TemplateStore] adds the laws that theorems use, [MemCache_store] discharges
      it.
    - [Interleave]: programs that reach shared state only through [StoreOps], run at the
      same time.  A program that works the same way on every store is [Parametric]; what a
      worker has done is the list of its accesses with their answers ([history]), from
      which [replay] recovers where it stands, so that a schedule is a list of worker
      numbers and every access is one step.
    - [IpfixDecoder]: src/ipfix/decoder.go, method by method.  [IpfixFacts] (safety,
      progress and divergence of the loops), [IpfixDecode] (Decode as a whole),
      [IpfixWire] (template records on the wire), [IpfixMessage] (abstract meaning of
      messages and the refinement), [IpfixProps] (further properties and examples),
      [IpfixTypes] (the types of decoded values), [IpfixShared] (Decode on two stores: what
      it depends on, and that it is [Parametric]), [IpfixSource] (where templates come
      from).
    - [NetflowDecoder], [NetflowFacts], [NetflowMessage], [NetflowProps], [NetflowTypes],
      [NetflowShared]: the same for src/netflow/v9/decoder.go; [NetflowDecoder] also holds the instance of
      the template cache of src/netflow/v9/memcache.go.
    - [Packet]: src/packet/, the dissector of sampled headers; [PacketWire]: frames on the
      wire and that it reads them back.
    - [SFlow]: src/sflow/; [SFlowFacts] (termination), [SFlowWire] (datagrams on the wire
      and the round trip), [SFlowProps] (where it panics).
    - [Json]: JSON values, their text and a parser; [Marshal], [MarshalIpfix],
      [MarshalNetflow]: src/ipfix/marshal.go and src/netflow/v9/marshal.go.
    - [Mirror]: the header templates of src/mirror/ and the sender of
      src/vflow/ipfix_unix.go; the class [IP] is the Go interface, [HeaderTpl] what the
      sender relies on, with an instance for each IP version.
    - [Collector], [NetflowCollector], [SFlowCollector]: the workers of
      src/vflow/ipfix.go, netflow_v9.go and sflow.go, which compose caches, decoders and
      marshallers.  [SFlowJson]: json.Marshal on the structs of sFlow datagrams, as the
      sFlow worker uses it.  [Workers]: the supervisor dynWorkers as a transition
      system.  [IpfixWorkers], [NetflowWorkers]: several workers of a collector at once on
      the shared cache.
    - [Lifecycle]: run and shutdown of the three collectors and main of
      src/vflow/vflow.go, as labelled transition systems of the reader, the workers, the
      shutdown and the signal.
    - [Dispatcher]: mirrorIPFIXDispatcher of src/vflow/ipfix_unix.go with its channels and
      workers, and the raw socket of src/mirror/mirror.go.
    - [Buffers]: the same goroutines of the collectors and of the mirror with the memory
      they share: the sync.Pool of receive buffers and the arrays the messages are slices
      of.  The class [Memory] is what they do with buffers; its instances are the heap and
      a memory of values.  [BufferFacts] (ownership, the refinement of heap to values, what
      happens to each datagram), [BufferDrains] (the workers finish), [BufferService] (a
      collector on shared buffers is the service of [Lifecycle]).
    - [Discovery]: the node table and the template requests of
      src/ipfix/memcache_rpc.go; [Disc]: src/disc/disc.go, and joining the multicast group
      in both; [Cluster]: the server and client of the exchange, and a cluster of nodes
      that receive datagrams, hear of each other and answer each other.
    - [Flags]: package flag for any table of flags.  [Options]: src/vflow/options.go.
      [Stats]: src/vflow/stats.go and the status methods of the collectors, with
      encoding/json on structs of numbers.
    - [GoJson]: the part of encoding/json that writes and reads numbers, slices, pointers,
      maps and structs, as a record of an encoder and a decoder over an old value, with
      the round trips.  [CacheFile], [IpfixCacheFile], [NetflowCacheFile]: the text of the
      template files, from Dump to GetCache.
    - [Exchanger]: the NetFlow exchanger of src/mirror/udp_mirror.go.
    - [Producers]: src/producer/; the record of an MQueue's operations, the class
      [MQueueSpec] of what Producer relies on, and an instance for each of the four queues.
    - [Monitor]: src/monitor/.  [Consumers]: the data and the rows of src/consumers/;
      [ConsumerRuns]: their flags, loops and goroutines.  [MQRuns]: the channel
      between the workers and the producer.  [EndToEnd]: workers, channel, producer, topic
      and consumer.  [Hammer]: the packets of
      src/stress/; [StressRuns]: its flags and goroutines; [StressSamples]: its recorded
      datagrams, and what the collectors do with them.

    A Go method on a struct is a definition in the monad over that struct's state, with
    the source's guards and early returns; slices and indices carry their bounds checks;
    unsigned arithmetic wraps where the source computes at a width.  Decoders of one
    package call the reader by [zoom]ing into it.  Goroutines that share channels are
    transition systems with a label per step, so that a schedule is a list of labels
    ([exec_with] below) and an invariant holds after every schedule.

    ** Parameters

    Code outside the repository is an argument: the YAML and JSON readers, the clients of
    Kafka, NSQ, NATS and ClickHouse, sockets and files, the clock, the environment, the
    order in which a Go map is iterated.  A call that may fail is given by its number, so
    that every pattern of failures is covered.  What is assumed of them is stated where it
    is used: the JSON reader gives back a value whose strings need no escapes and are valid
    UTF-8 from its compact text ([reads_back] of [Json]; used in [Monitor], [Consumers] and
    the cache files), and a number below 2^53 survives the conversion to a float and back
    ([Consumers]); each such theorem has an instance with concrete functions.  In [Cluster]
    a dialled address reaches the node that listens there, and a call runs the method
    registered under that name.

    ** What the theorems show

    - Refinement: Decode (IPFIX and NetFlow v9) returns what an abstract semantics of
      messages prescribes and updates the cache accordingly (for options records the
      semantics follows the code in keeping one scope field and reading it last); the three
      workers offer the message queue the JSON of the messages a stream of well-formed
      datagrams means, the IPFIX and NetFlow ones in every interleaving on the shared cache
      without a race on a template, and in the one channel of a collector every text is
      taken or, when 1000 wait, dropped; the ClickHouse consumer stores one row per record
      of a decoded message that has a JSON text and AS numbers and protocols of full width,
      and end to end the rows are those of the messages handed over, for one worker
      ([datagrams_to_rows]) and for workers that publish while the producer takes
      ([workers_to_rows]);
      the sharded cache is one map; every producer meets the contract of the queue
      interface, in which each message is sent, given up after its retries, or, by Kafka,
      dropped for the error of an earlier one.
    - Shared memory: an array has one owner at a time, so that messages which are slices
      of pooled buffers cannot be told from messages that carry their bytes
      ([buffers_refine]); no datagram is lost, changed or decoded twice
      ([buffers_conserve]), and the collector is the service of [Lifecycle]
      ([collector_serves]).
    - Concurrency: in every interleaving no IPFIX or NetFlow worker panics, one at an access
      can make it, and the cache stays well-formed; a worker that uses up its loop bound,
      without races, is in the record loop that never ends; which races lose records; the goroutines of the ClickHouse
      consumer and of the stress tool lose and invent nothing.
    - Types: a decoded field has the id of an element of the model and a value of that
      element's type and range, raw bytes only if they are too few.  Equivalence: Decode gives the same on all caches that
      agree on the exporter's keys; template ids of one exporter never collide in the
      hash; the discovery package and the template exchange compute the same live nodes.
    - Cluster: every template a node holds stands in a datagram that some node received
      from that exporter; after an exchange a node decodes what its peer decodes, if they
      agreed on the exporter's other templates.
    - Round trips: integers, templates, sFlow datagrams (but for the priorities of switch
      data, and up to the last record of each kind), Ethernet frames (but for the fragment
      fields of IPv4), JSON texts, mirrored packets, and the template file across a restart.
    - Outcomes: what each decoder returns on every input, that the IPFIX and NetFlow
      decoders and their workers never panic, what an sFlow worker does with any bytes,
      and exactly when the dissector, the sFlow router record and the mirror panic.
    - Termination: SFDecode always ends; Decode ends except on an exactly described kind
      of datagram, on which it provably never does.
    - Invariants: queue bounds, cache well-formedness, the size of the worker pool in
      every interleaving (up to the goroutines that a round of the supervisor overlooks), the conservation of datagrams by a collector and by the mirror's
      dispatcher in every interleaving, the liveness of discovered nodes.
    - Start and stop: which source decides each option, that main stops every collector
      before it returns and has it call Dump, whatever comes of that, that the workers, as
      long as decoders return, decode all that is queued ([collector_drains]) and the consumer stores all it is given ([pipeline_drains]), both with a bound on the
      steps, and the schedule in which shutdown closes a channel its reader still sends on.
    - Monitor: what two runs store, with the restart of the server and equal times.
    - Behaviour that differs from what the code or its comments intend is stated as
      theorems too (lost scope fields, overwritten errors, unescaped strings, wrapped
      counters, hash collisions, wrong IPv6 lengths, exchange rules that never match, a
      dispatcher that stalls, messages used as format strings, records that overtake their
      template, cache files with too few shards, misread priorities and fragment fields, a
      limit on workers that uncounted goroutines exceed, a mirror that panics on 4-byte
      addresses).
    - Validation: the recorded traffic of the stress tool is decoded and published
      ([recorded_traffic] of [StressSamples]).

    ** Fuel

    The loops of decodeSet and Decode are bounded by unread input, not by a counter; they
    take a fuel, and running out of it is the result [NoFuel], never an error or a value.
    Every set consumes its four header bytes and every finished record at least one, so
    the datagram's length plus one is enough for both loops whenever the source's loops
    end; the theorems Decode_diverges_iff and v9_Decode_diverges_iff say that with this
    much fuel [NoFuel] means real divergence, and the theorems on outcomes and on workers
    use them: with this much fuel, [NoFuel] stands for the loop that never ends.  The record loops of sFlow are bounded in
    the same way by SFDecode_terminates.  The scan of a format string takes the length
    of the format, of which every round consumes a byte; the retries of the raw-socket
    producer recurse on the configured maximum plus one.  Other loops recurse on their
    counter or list.

    ** Not modelled

    The wire format of net/rpc and the clients of Kafka, NSQ, NATS, ClickHouse and HTTP:
    they are parameters.  The usage text that package flag prints, the dates and prefixes of
    log lines, time.ParseDuration and net.ParseIP, and the system calls
    under sockets.  A locked method is one step.  In [IpfixWorkers] and [NetflowWorkers] a
    worker's steps are its accesses to the cache, and it collects what it offers to the
    channels of the mirror and of the message queue; the offers of all workers and the
    producer's receives then meet at the one channel in any order ([MQRuns]), which is
    faithful because a send with a default never blocks and its outcome changes nothing in
    the worker.  YAML files are the values their library would parse.
    src/vflow/ipfix_windows.go is an empty function.

    In [Buffers] an access to a byte and a copy are single steps; what a worker decodes is
    the bytes it looks at, a decode may return, go on or panic ([BPanic]), and the decoders
    themselves are modelled on byte lists, which [buffers_refine] justifies.  The sizes of the buffers are natural numbers: a negative
    size in the configuration panics in [make] at the first datagram.  Time is not
    modelled: a sleep, a ticker or a deadline may end at any step. *)

From stdpp Require Export base list gmap strings numbers.
From Stdlib Require Export Strings.Byte.
From Stdlib Require Import Zbitwise.

Declare Scope vflow_scope.
Delimit Scope vflow_scope with vflow.
Open Scope vflow_scope.
Open Scope Z_scope.

(** * Machine integers

    A Go integer of width [w] is a [Z]; the conversions below are the
    wrap-around of the conversion expressions [uint16(x)], [int8(x)], ... *)

Definition wrapU (w : Z) (x : Z) : Z := x mod 2 ^ w.
Definition wrapS (w : Z) (x : Z) : Z := (x + 2 ^ (w - 1)) mod 2 ^ w - 2 ^ (w - 1).

Notation "'uint8' x" := (wrapU 8 x) (at level 10, x at level 9) : vflow_scope.
Notation "'uint16' x" := (wrapU 16 x) (at level 10, x at level 9) : vflow_scope.
Notation "'uint32' x" := (wrapU 32 x) (at level 10, x at level 9) : vflow_scope.
Notation "'uint64' x" := (wrapU 64 x) (at level 10, x at level 9) : vflow_scope.
Notation "'int8' x" := (wrapS 8 x) (at level 10, x at level 9) : vflow_scope.
Notation "'int16' x" := (wrapS 16 x) (at level 10, x at level 9) : vflow_scope.
Notation "'int32' x" := (wrapS 32 x) (at level 10, x at level 9) : vflow_scope.
Notation "'int64' x" := (wrapS 64 x) (at level 10, x at level 9) : vflow_scope.

(** * Bytes and byte slices *)

Definition u8 (b : byte) : Z := Z.of_N (Byte.to_N b).
Definition byte_of_Z (z : Z) : byte := default x00 (Byte.of_N (Z.to_N (z mod 256))).

#[global] Instance byte_eq_dec : EqDecision byte := Byte.byte_eq_dec.

(** The bytes of a Go literal [[]byte{0x0, 0xa, ...}]. *)
Definition bytes (l : list Z) : list byte := map byte_of_Z l.

(** [len(b)] as a Go [int]. *)
Definition len {A} (l : list A) : Z := Z.of_nat (length l).

(** Big-endian numbers ([encoding/binary.BigEndian]). *)
Definition be_decode (bs : list byte) : Z :=
  fold_left (fun acc b => acc * 256 + u8 b) bs 0.

Fixpoint be_encode (n : nat) (z : Z) : list byte :=
  match n with
  | O => []
  | S n' => byte_of_Z (z / 256 ^ Z.of_nat n') :: be_encode n' z
  end.

(** * Errors

    One constructor per error value of the sources ([errors.New]) and one per
    [fmt.Errorf] format, carrying the formatted arguments. *)

Inductive GoError : Type :=
(* reader/reader.go *)
| errReader
(* io *)
| EOF
| ErrUnexpectedEOF
(* ipfix/decoder.go *)
| errIpfixVersion (version : Z)
| errIpfixUnknownTemplate (raddr : string) (id : Z)
| errIpfixElement (id : Z)
| errIpfixElementScope (id : Z)
(* netflow/v9/decoder.go *)
| errNetflowVersion (version : Z)
| errNetflowUnknownTemplate (raddr : string) (id : Z)
| errNetflowElement (id : Z)
| errNetflowElementScope (id : Z)
(* combineErrors: errors.New of the joined messages *)
| errMultiple (errs : list GoError)
(* ipfix/marshal.go and netflow/v9/marshal.go *)
| errUknownMarshalDataType
(* ipfix/memcache_rpc.go *)
| errNotAvail
(* packet *)
| errUnknownEtherType
| errUnknownHeaderProtocol
| errShortEthernetHeaderLength
| errShortIPv4HeaderLength
| errShortIPv6HeaderLength
| errShortEthernetLength
| errUnknownTransportLayer
| errUnknownL3Protocol
| errShortTCPHeaderLength
| errShortUDPHeaderLength
| errICMPHLenTooSHort
(* sflow *)
| errNoneEnterpriseStandard
| errDataLengthUnknown
| errSFVersionNotSupport
| errMaxOutEthernetLength
(* encoding/json *)
| errMarshalIP (addr : string).

(** * Results and the state monad of fallible Go code

    A Go function [func (r *S) f() (A, error)] is a function [S -> S * res A].
    [Err v e] is the return of [(v, e)] with a non-nil [e], [v = None] being a
    nil or unspecified value; [Panic] is a run-time panic (index or slice bounds
    out of range, nil dereference); [NoFuel] says that a loop bound given to an
    unbounded loop of the source was exhausted. *)

Inductive res (A : Type) : Type :=
| Ok (a : A)
| Err (v : option A) (e : GoError)
| Panic
| NoFuel.
Arguments Ok {A} a.
Arguments Err {A} v e.
Arguments Panic {A}.
Arguments NoFuel {A}.

Definition M (S A : Type) : Type := S -> S * res A.

#[global] Instance M_ret {S} : MRet (M S) := fun A a s => (s, Ok a).

#[global] Instance M_bind {S} : MBind (M S) := fun A B k m s =>
  match m s with
  | (s', Ok a) => k a s'
  | (s', Err _ e) => (s', Err None e)
  | (s', Panic) => (s', Panic)
  | (s', NoFuel) => (s', NoFuel)
  end.

(** [return v, e]. *)
Definition fail {S A} (v : option A) (e : GoError) : M S A := fun s => (s, Err v e).
Definition panic {S A} : M S A := fun s => (s, Panic).
Definition nofuel {S A} : M S A := fun s => (s, NoFuel).
Definition get {S} : M S S := fun s => (s, Ok s).
Definition put {S} (s : S) : M S () := fun _ => (s, Ok tt).
Definition modify {S} (f : S -> S) : M S () := fun s => (f s, Ok tt).

(** [v, err := m()] followed by code that inspects [err] itself. *)
Definition try {S A} (m : M S A) : M S (A + GoError) := fun s =>
  match m s with
  | (s', Ok a) => (s', Ok (inl a))
  | (s', Err _ e) => (s', Ok (inr e))
  | (s', Panic) => (s', Panic)
  | (s', NoFuel) => (s', NoFuel)
  end.

(** A method of a field of the state, run on that field. *)
Definition zoom {S T A} (proj : T -> S) (upd : S -> T -> T) (m : M S A) : M T A :=
  fun t => let '(s', o) := m (proj t) in (upd s' t, o).

(** A pure value of [res] inside the monad (a method that does not touch the
    state but may fail). *)
Definition lift_res {S A} (o : res A) : M S A := fun s => (s, o).

(** [b[i]] and [b[lo:hi]] of a slice, with Go's bounds checks ([hi] is checked
    against [len b]: no slice expression modelled here reaches into spare
    capacity). *)
Definition index {S A} (b : list A) (i : Z) : M S A := fun s =>
  match (if i <? 0 then None else b !! Z.to_nat i) with
  | Some x => (s, Ok x)
  | None => (s, Panic)
  end.

Definition slice {S A} (b : list A) (lo hi : Z) : M S (list A) := fun s =>
  if (0 <=? lo) && (lo <=? hi) && (hi <=? len b)
  then (s, Ok (take (Z.to_nat (hi - lo)) (drop (Z.to_nat lo) b)))
  else (s, Panic).

(** [binary.BigEndian.Uint16(b)] and its siblings: the number in the first [n]
    bytes of [b], a panic when [b] is shorter. *)
Definition BigEndian_Uint {S} (n : Z) (b : list byte) : M S Z :=
  p ← slice b 0 n;
  mret (be_decode p).

(** The byte a successful [b[i]] yields. *)
Definition byte_at (b : list byte) (i : Z) : byte := default x00 (b !! Z.to_nat i).

(** * Properties of monadic code

    [safe P Q m]: from a state satisfying [P], [m] does not panic, ends in a state
    satisfying [P], and a value it returns without error satisfies [Q].  The rules
    below close [safe] under the monad's operations, which is how the component files
    establish it. *)

Definition safe {S A} (P : S -> Prop) (Q : A -> Prop) (m : M S A) : Prop :=
  forall s, P s -> P (m s).1 /\
    match (m s).2 with Ok a => Q a | Panic => False | _ => True end.

(** A result that is neither a panic nor an exhausted loop bound. *)
Definition returns {A} (o : res A) : Prop :=
  match o with Ok _ | Err _ _ => True | _ => False end.

(** * Tactics *)

(** Unfold the monad's operations. *)
Ltac unmonad :=
  unfold mret, M_ret, mbind, M_bind, try, fail, panic, nofuel, get, put, modify,
    zoom, lift_res in *.

(** Case analysis on the tests of conditionals, boolean tests turned into facts. *)
Ltac case_test :=
  match goal with
  | |- context [if (?a =? ?b) then _ else _] => destruct (Z.eqb_spec a b)
  | |- context [if (?a <? ?b) then _ else _] => destruct (Z.ltb_spec a b)
  | |- context [if (?a <=? ?b) then _ else _] => destruct (Z.leb_spec a b)
  | |- context [if (?a >? ?b) then _ else _] => destruct (Z.gtb_spec a b)
  | |- context [if (?a >=? ?b) then _ else _] => destruct (Z.geb_spec a b)
  | |- context [if ?c then _ else _] => let E := fresh "E" in destruct c eqn:E
  end.

(** Case analysis on the run of a monadic computation [m s]. *)
Ltac case_run m s :=
  let E := fresh "E" in destruct (m s) as [? []] eqn:E.

(** A decidable closed proposition, by evaluating its decision. *)
Ltac by_decide := apply (bool_decide_unpack _); vm_compute; exact I.

Create HintDb vflow.
Create Rewrite HintDb len.

(** * Lemmas: machine integers *)

Lemma wrapU_range w x : 0 <= w -> 0 <= wrapU w x < 2 ^ w.
Proof. intros. unfold wrapU. apply Z.mod_pos_bound. by apply Z.pow_pos_nonneg. Qed.

Lemma wrapU_small w x : 0 <= x < 2 ^ w -> wrapU w x = x.
Proof. intros. unfold wrapU. by apply Z.mod_small. Qed.

Lemma wrapU_add_l w a b : wrapU w (wrapU w a + b) = wrapU w (a + b).
Proof. unfold wrapU. by rewrite Zplus_mod_idemp_l. Qed.

Lemma wrapS_range w x : 0 < w -> - 2 ^ (w - 1) <= wrapS w x < 2 ^ (w - 1).
Proof.
  intros Hw. unfold wrapS.
  pose proof (Z.mod_pos_bound (x + 2 ^ (w - 1)) (2 ^ w) ltac:(apply Z.pow_pos_nonneg; lia)).
  assert (2 ^ w = 2 * 2 ^ (w - 1)) by (rewrite <- Z.pow_succ_r by lia; f_equal; lia).
  lia.
Qed.

Lemma wrapS_small w x : 0 < w -> - 2 ^ (w - 1) <= x < 2 ^ (w - 1) -> wrapS w x = x.
Proof.
  intros Hw Hx. assert (2 ^ w = 2 * 2 ^ (w - 1)) by (rewrite <- Z.pow_succ_r by lia; f_equal; lia).
  unfold wrapS. rewrite Z.mod_small; lia.
Qed.

Lemma wrapS_wrapU w x : 0 < w -> wrapU w (wrapS w x) = wrapU w x.
Proof.
  intros Hw. unfold wrapS, wrapU.
  rewrite Zminus_mod_idemp_l. f_equal. lia.
Qed.

(** [a<<n | b] when [b] fits in [n] bits. *)
Lemma lor_shiftl a b n : 0 <= n -> 0 <= b < 2 ^ n -> Z.lor (Z.shiftl a n) b = a * 2 ^ n + b.
Proof.
  intros Hn Hb. rewrite <- Z.shiftl_mul_pow2 by done. symmetry. apply Z.add_nocarry_lor.
  apply Z.bits_inj'. intros i Hi. rewrite Z.land_spec, Z.bits_0.
  destruct (Z.lt_ge_cases i n); [by rewrite Z.shiftl_spec_low|].
  rewrite <- (Z.mod_small b (2 ^ n)) by done. rewrite Z.mod_pow2_bits_high by lia.
  apply andb_false_r.
Qed.

(** * Lemmas: bytes *)

Lemma u8_range b : 0 <= u8 b < 256.
Proof. unfold u8. pose proof (Byte.to_N_bounded b). lia. Qed.

Lemma u8_byte_of_Z z : u8 (byte_of_Z z) = z mod 256.
Proof.
  unfold u8, byte_of_Z.
  pose proof (Z.mod_pos_bound z 256 ltac:(lia)) as Hb.
  destruct (Byte.of_N (Z.to_N (z mod 256))) as [b|] eqn:E; simpl.
  - apply Byte.to_of_N in E. rewrite E. lia.
  - apply Byte.of_N_None_iff in E. lia.
Qed.

Lemma u8_inj b1 b2 : u8 b1 = u8 b2 -> b1 = b2.
Proof.
  unfold u8. intros H%N2Z.inj.
  pose proof (Byte.of_to_N b1). pose proof (Byte.of_to_N b2). congruence.
Qed.

Lemma byte_of_Z_u8 b : byte_of_Z (u8 b) = b.
Proof.
  apply u8_inj. rewrite u8_byte_of_Z. pose proof (u8_range b). by apply Z.mod_small.
Qed.

Lemma byte_of_Z_mod z : byte_of_Z (z mod 256) = byte_of_Z z.
Proof. unfold byte_of_Z. by rewrite Z.mod_mod. Qed.

(** * Lemmas: slices *)

Lemma len_nonneg {A} (l : list A) : 0 <= len l.
Proof. unfold len. lia. Qed.

Lemma len_nil {A} : len (@nil A) = 0.
Proof. done. Qed.

Lemma len_cons {A} (x : A) l : len (x :: l) = 1 + len l.
Proof. unfold len. simpl. lia. Qed.

Lemma len_app {A} (l1 l2 : list A) : len (l1 ++ l2) = len l1 + len l2.
Proof. unfold len. rewrite length_app. lia. Qed.

Lemma len_drop {A} n (l : list A) : 0 <= n <= len l -> len (drop (Z.to_nat n) l) = len l - n.
Proof. unfold len. rewrite length_drop. lia. Qed.

Lemma len_dropn {A} (n : nat) (l : list A) :
  Z.of_nat n <= len l -> len (drop n l) = len l - Z.of_nat n.
Proof. unfold len. rewrite length_drop. lia. Qed.

Lemma len_take {A} n (l : list A) : 0 <= n <= len l -> len (take (Z.to_nat n) l) = n.
Proof. unfold len. rewrite length_take. lia. Qed.

Lemma take_len_app {A} (l1 l2 : list A) : take (Z.to_nat (len l1)) (l1 ++ l2) = l1.
Proof. unfold len. rewrite Nat2Z.id. by rewrite take_app_length. Qed.

Lemma drop_len_app {A} (l1 l2 : list A) : drop (Z.to_nat (len l1)) (l1 ++ l2) = l2.
Proof. unfold len. rewrite Nat2Z.id. by rewrite drop_app_length. Qed.

Lemma len_replicate {A} n (x : A) : len (replicate n x) = Z.of_nat n.
Proof. unfold len. by rewrite length_replicate. Qed.

Lemma len_be_encode n z : len (be_encode n z) = Z.of_nat n.
Proof. unfold len. f_equal. revert z; induction n; intros; simpl; auto. Qed.

Lemma length_be_encode n z : length (be_encode n z) = n.
Proof. revert z; induction n; intros; simpl; auto. Qed.

(** * Lemmas: big-endian numbers *)

Lemma be_decode_acc bs acc :
  fold_left (fun a b => a * 256 + u8 b) bs acc = acc * 256 ^ len bs + be_decode bs.
Proof.
  unfold be_decode. revert acc. induction bs as [|b bs IH]; intros acc; cbn [fold_left].
  - rewrite len_nil. lia.
  - rewrite IH, (IH (0 * 256 + u8 b)), len_cons, Z.pow_add_r by (pose proof (len_nonneg bs); lia).
    lia.
Qed.

Lemma be_decode_cons b bs : be_decode (b :: bs) = u8 b * 256 ^ len bs + be_decode bs.
Proof. unfold be_decode at 1. simpl fold_left. rewrite be_decode_acc. lia. Qed.

Lemma be_decode_app l1 l2 : be_decode (l1 ++ l2) = be_decode l1 * 256 ^ len l2 + be_decode l2.
Proof. unfold be_decode at 1. rewrite fold_left_app. apply be_decode_acc. Qed.

Lemma be_decode_range bs : 0 <= be_decode bs < 256 ^ len bs.
Proof.
  induction bs as [|b bs IH].
  - done.
  - rewrite be_decode_cons, len_cons, Z.pow_add_r by (pose proof (len_nonneg bs); lia).
    pose proof (u8_range b). nia.
Qed.

Lemma be_decode_encode n z : be_decode (be_encode n z) = z mod 256 ^ Z.of_nat n.
Proof.
  induction n as [|n IH].
  - simpl. by rewrite Z.mod_1_r.
  - cbn [be_encode]. rewrite be_decode_cons, len_be_encode, IH, u8_byte_of_Z.
    rewrite Nat2Z.inj_succ, Z.pow_succ_r by lia.
    rewrite (Z.mul_comm 256), Z.rem_mul_r by lia. lia.
Qed.

Lemma be_decode_encode_small n z :
  0 <= z < 256 ^ Z.of_nat n -> be_decode (be_encode n z) = z.
Proof. intros. rewrite be_decode_encode. by apply Z.mod_small. Qed.

Lemma be_encode_decode bs : be_encode (length bs) (be_decode bs) = bs.
Proof.
  assert (forall bs acc, be_encode (length bs) (acc * 256 ^ len bs + be_decode bs) = bs) as H.
  { clear. induction bs as [|b bs IH]; intros acc; [done|].
    cbn [length be_encode]. rewrite be_decode_cons, len_cons.
    rewrite Z.pow_add_r, Z.pow_1_r by (pose proof (len_nonneg bs); lia).
    f_equal.
    - pose proof (be_decode_range bs) as Hr. unfold len in *.
      replace (acc * (256 * 256 ^ Z.of_nat (length bs)) +
        (u8 b * 256 ^ Z.of_nat (length bs) + be_decode bs))
        with ((acc * 256 + u8 b) * 256 ^ Z.of_nat (length bs) + be_decode bs) by lia.
      rewrite Z.div_add_l by lia. rewrite (Z.div_small (be_decode bs)) by done.
      rewrite <- byte_of_Z_mod, Z.add_0_r, Z.add_comm, Z.mod_add by lia.
      rewrite byte_of_Z_mod. apply byte_of_Z_u8.
    - etransitivity; [|apply (IH (acc * 256 + u8 b))]. f_equal. ring. }
  specialize (H bs 0). by rewrite Z.mul_0_l, Z.add_0_l in H.
Qed.

(** * Lemmas: indexing *)

Lemma index_ok {S} (b : list byte) i (s : S) :
  0 <= i < len b -> index b i s = (s, Ok (byte_at b i)).
Proof.
  intros Hi. unfold index, byte_at. destruct (Z.ltb_spec i 0); [lia|].
  destruct (b !! Z.to_nat i) eqn:E; [done|].
  apply lookup_ge_None in E. unfold len in Hi. lia.
Qed.

Lemma index_panic {S A} (b : list A) i (s : S) :
  i < 0 \/ len b <= i -> index b i s = (s, Panic).
Proof.
  intros Hi. unfold index. destruct (Z.ltb_spec i 0); [done|].
  destruct (b !! Z.to_nat i) eqn:E; [|done].
  apply lookup_lt_Some in E. unfold len in Hi. lia.
Qed.

Lemma slice_ok {S A} (b : list A) lo hi (s : S) :
  0 <= lo <= hi -> hi <= len b ->
  slice b lo hi s = (s, Ok (take (Z.to_nat (hi - lo)) (drop (Z.to_nat lo) b))).
Proof.
  intros. unfold slice.
  destruct (Z.leb_spec 0 lo), (Z.leb_spec lo hi), (Z.leb_spec hi (len b)); simpl; lia || done.
Qed.

Lemma slice_panic {S A} (b : list A) lo hi (s : S) :
  lo < 0 \/ hi < lo \/ len b < hi -> slice b lo hi s = (s, Panic).
Proof.
  intros. unfold slice.
  destruct (Z.leb_spec 0 lo), (Z.leb_spec lo hi), (Z.leb_spec hi (len b)); simpl; lia || done.
Qed.

Lemma slice_from {S A} (b : list A) lo (s : S) :
  0 <= lo <= len b -> slice b lo (len b) s = (s, Ok (drop (Z.to_nat lo) b)).
Proof.
  intros Hlo. rewrite slice_ok by lia. do 2 f_equal. apply take_ge. rewrite length_drop.
  unfold len. lia.
Qed.

Lemma BigEndian_Uint_ok {S} n b (s : S) :
  0 <= n <= len b -> BigEndian_Uint n b s = (s, Ok (be_decode (take (Z.to_nat n) b))).
Proof.
  intros Hn. unfold BigEndian_Uint. unmonad. rewrite slice_ok by lia.
  by rewrite Z.sub_0_r, drop_0.
Qed.

(** * Lemmas: running the monad *)

Lemma bind_modify {S A} (f : S -> S) (m : M S A) s : (modify f;; m) s = m (f s).
Proof. done. Qed.

Lemma bind_get {S A} (k : S -> M S A) s : (get ≫= k) s = k s s.
Proof. done. Qed.

Lemma bind_run {S A B} (m : M S A) (k : A -> M S B) s s' a :
  m s = (s', Ok a) -> (m ≫= k) s = k a s'.
Proof. intros H. unfold mbind, M_bind. by rewrite H. Qed.

(** * Lemmas: closure of [safe] under the monad *)

Section monad_rules.
Context {S : Type} (P : S -> Prop).

Lemma safe_ret {A} (Q : A -> Prop) a : Q a -> safe P Q (mret a).
Proof. intros Ha s Hs. done. Qed.

Lemma safe_bind {A B} (Q : A -> Prop) (Q' : B -> Prop) (m : M S A) (k : A -> M S B) :
  safe P Q m -> (forall a, Q a -> safe P Q' (k a)) -> safe P Q' (m ≫= k).
Proof.
  intros Hm Hk s Hs. unmonad. destruct (Hm s Hs) as [H1 H2].
  destruct (m s) as [s' []]; simpl in *; try done. by apply Hk.
Qed.

Lemma safe_weaken {A} (Q Q' : A -> Prop) (m : M S A) :
  safe P Q m -> (forall a, Q a -> Q' a) -> safe P Q' m.
Proof.
  intros Hm HQ s Hs. destruct (Hm s Hs) as [H1 H2]. split; [done|].
  destruct (m s).2; auto.
Qed.

Lemma safe_fail {A} (Q : A -> Prop) v e : safe P Q (fail v e).
Proof. intros s Hs. done. Qed.

Lemma safe_nofuel {A} (Q : A -> Prop) : safe P Q nofuel.
Proof. intros s Hs. done. Qed.

Lemma safe_get : safe P P get.
Proof. intros s Hs. done. Qed.

Lemma safe_modify f : (forall s, P s -> P (f s)) -> safe P (fun _ => True) (modify f).
Proof. intros Hf s Hs. split; [by apply Hf|done]. Qed.

Lemma safe_try {A} (Q : A -> Prop) (m : M S A) :
  safe P Q m -> safe P (fun r => match r with inl a => Q a | inr _ => True end) (try m).
Proof.
  intros Hm s Hs. unmonad. destruct (Hm s Hs) as [H1 H2].
  by destruct (m s) as [s' []].
Qed.

End monad_rules.

Arguments bind_run {S A B m k s s' a} _.

#[export] Hint Resolve safe_ret safe_fail safe_nofuel safe_get : vflow.
#[export] Hint Rewrite @len_nil @len_cons @len_app @len_replicate len_be_encode length_be_encode : len.

(** * Partial correctness *)

(** [m] keeps [P], and its results satisfy [Q]; it may panic. *)
Definition keeps {S A} (P : S -> Prop) (Q : A -> Prop) (m : M S A) : Prop :=
  forall s, P s -> P (m s).1 /\ match (m s).2 with Ok a => Q a | _ => True end.

Section keeps.
Context {S : Type} (P : S -> Prop).

Lemma keeps_ret {A} (Q : A -> Prop) a : Q a -> keeps P Q (mret a).
Proof. by intros H s Hs. Qed.

Lemma keeps_fail {A} (Q : A -> Prop) v e : keeps P Q (fail v e).
Proof. by intros s Hs. Qed.

Lemma keeps_panic {A} (Q : A -> Prop) : keeps P Q panic.
Proof. by intros s Hs. Qed.

Lemma keeps_nofuel {A} (Q : A -> Prop) : keeps P Q nofuel.
Proof. by intros s Hs. Qed.

Lemma keeps_bind {A B} (Q : A -> Prop) (R : B -> Prop) (m : M S A) (k : A -> M S B) :
  keeps P Q m -> (forall a, Q a -> keeps P R (k a)) -> keeps P R (m ≫= k).
Proof.
  intros Hm Hk s Hs. unfold mbind, M_bind. destruct (Hm s Hs) as [H1 H2].
  destruct (m s) as [s' [a|v e| |]]; try done. by apply Hk.
Qed.

(** The result does not matter. *)
Lemma keeps_seq {A B} (R : B -> Prop) (m : M S A) (k : A -> M S B) :
  keeps P (fun _ => True) m -> (forall a, keeps P R (k a)) -> keeps P R (m ≫= k).
Proof. intros Hm Hk. apply (keeps_bind _ _ _ _ Hm). auto. Qed.

Lemma keeps_get : keeps P P get.
Proof. by intros s Hs. Qed.

Lemma keeps_modify f : (forall s, P s -> P (f s)) -> keeps P (fun _ => True) (modify f).
Proof. intros H s Hs. split; [by apply H|done]. Qed.

Lemma keeps_state {A} (Q : A -> Prop) (m : M S A) :
  (forall s, (m s).1 = s) -> (forall s, match (m s).2 with Ok a => Q a | _ => True end) ->
  keeps P Q m.
Proof. intros H1 H2 s Hs. rewrite H1. split; [done|apply H2]. Qed.

Lemma keeps_index {A} (b : list A) i : keeps P (fun _ => True) (index b i).
Proof. apply keeps_state; intros s; unfold index; by repeat case_match. Qed.

Lemma keeps_slice {A} (b : list A) lo hi :
  keeps P (fun c => len c = hi - lo) (slice b lo hi).
Proof.
  apply keeps_state; intros s; unfold slice;
    destruct ((0 <=? lo) && (lo <=? hi) && (hi <=? len b)) eqn:H; try done.
  apply andb_true_iff in H as [[H1 H2]%andb_true_iff H3]. cbn [snd]. unfold len in *.
  rewrite length_take, length_drop. lia.
Qed.

Lemma keeps_any {A} (m : M S A) : (forall s, P s -> P (m s).1) -> keeps P (fun _ => True) m.
Proof. intros H s Hs. split; [by apply H|]. by destruct (_).2. Qed.

Lemma keeps_try {A} (Q : A -> Prop) (m : M S A) :
  keeps P Q m -> keeps P (fun x => match x with inl a => Q a | inr _ => True end) (try m).
Proof.
  intros Hm s Hs. destruct (Hm s Hs) as [H1 H2]. unfold try. by destruct (m s) as [s' []].
Qed.

End keeps.

(** A computation that succeeds with a value that passes a test, by evaluation. *)
Lemma eval_some {A} (x : option A) (test : A -> bool) :
  match x with Some a => test a | None => false end = true -> exists a, x = Some a /\ test a = true.
Proof. destruct x; [eauto|done]. Qed.

(** ** Sequences of labelled steps *)

(** What a label does to a state, [None] when it cannot happen, and the effect of a
    sequence of labels: the interleavings of goroutines are such sequences. *)
Section labels.
Context {L S : Type} (step : L -> S -> option S).

Fixpoint exec_with (ls : list L) (s : S) : option S :=
  match ls with
  | [] => Some s
  | l :: ls' => match step l s with Some s' => exec_with ls' s' | None => None end
  end.

Lemma exec_with_app ls1 ls2 s :
  exec_with (ls1 ++ ls2) s =
  match exec_with ls1 s with Some s' => exec_with ls2 s' | None => None end.
Proof.
  revert s. induction ls1 as [|l ls1 IH]; intros s; [done|]. cbn.
  destruct (step l s); [apply IH|done].
Qed.

(** Invariants by induction on the sequence. *)
Lemma exec_with_inv (P : S -> Prop) :
  (forall l s s', P s -> step l s = Some s' -> P s') ->
  forall ls s s', P s -> exec_with ls s = Some s' -> P s'.
Proof.
  intros Hp ls. induction ls as [|l ls IH]; intros s s' Hs; cbn; [by intros [= <-]|].
  destruct (step l s) eqn:E; [|done]. eauto.
Qed.

(** The same, for steps with labels of the sequence only. *)
Lemma exec_with_inv_in (P : S -> Prop) ls :
  (forall l s s', In l ls -> P s -> step l s = Some s' -> P s') ->
  forall s s', P s -> exec_with ls s = Some s' -> P s'.
Proof.
  induction ls as [|l ls IH]; intros Hp s s' Hs; cbn; [by intros [= <-]|].
  destruct (step l s) as [s1|] eqn:E; [|done]. apply IH.
  - intros l' s2 s3 Hin. apply Hp. by right.
  - by apply (Hp l s s1); [left|..].
Qed.

End labels.
