(* ===== verification/Totals.v ===== *)
(** Sums over lists.  The invariants of the queues and of the buffers count what each
    goroutine and channel holds; a step changes one element of a list, and the sum changes
    by the difference, which leaves linear arithmetic.  Two lists in which everything has
    the same count are permutations of each other. *)

From S2P Require Import Prelude.

Open Scope Z_scope.

(** Sums over a list of which one element is replaced. *)
Definition total {A} (f : A -> Z) (l : list A) : Z := fold_right (fun a n => f a + n) 0 l.

Lemma total_app {A} (f : A -> Z) l1 l2 : total f (l1 ++ l2) = total f l1 + total f l2.
Proof. induction l1 as [|a l1 IH]; cbn; [done|]. unfold total in *. lia. Qed.

Lemma total_snoc {A} (f : A -> Z) l a : total f (l ++ [a]) = total f l + f a.
Proof. rewrite total_app. cbn. lia. Qed.

Lemma total_insert {A} (f : A -> Z) (l : list A) i x y :
  l !! i = Some x -> total f (<[i := y]> l) = total f l - f x + f y.
Proof.
  revert i. induction l as [|z l IH]; intros [|i] H; try done; [cbn in *; simplify_eq; lia|].
  change (<[S i := y]> (z :: l)) with (z :: <[i := y]> l). cbn. specialize (IH i H). unfold total in *. lia.
Qed.

Lemma total_delete {A} (f : A -> Z) (l : list A) i x :
  l !! i = Some x -> total f (delete i l) = total f l - f x.
Proof.
  revert i. induction l as [|z l IH]; intros [|i] H; try done; [cbn in *; simplify_eq; lia|].
  change (delete (S i) (z :: l)) with (z :: delete i l). cbn. specialize (IH i H). unfold total in *. lia.
Qed.

Lemma total_bind {A B} (f : B -> Z) (g : A -> list B) (l : list A) :
  total f (l ≫= g) = total (fun a => total f (g a)) l.
Proof.
  induction l as [|a l IH]; [done|]. change ((a :: l) ≫= g) with (g a ++ (l ≫= g)).
  by rewrite total_app, IH.
Qed.

Lemma total_const {A} (l : list A) : total (fun _ => 1) l = len l.
Proof. induction l as [|a l IH]; [done|]. rewrite len_cons, <- IH. done. Qed.

(** Lists with the same sums of everything are permutations of each other. *)
Lemma totals_permutation {A} `{EqDecision A} (l1 l2 : list A) :
  (forall f : A -> Z, total f l1 = total f l2) -> Permutation l1 l2.
Proof.
  intros H. apply (Permutation_count_occ (fun x y => decide (x = y))). intros x. apply Nat2Z.inj.
  assert (forall l, Z.of_nat (count_occ (fun x y => decide (x = y)) l x) =
    total (fun y => if decide (y = x) then 1 else 0) l) as E.
  { induction l as [|y l IH]; [done|]. cbn. unfold total in IH. case_decide; lia. }
  by rewrite !E, H.
Qed.

Lemma total_zero {A} (f : A -> Z) (l : list A) : (forall a, In a l -> f a = 0) -> total f l = 0.
Proof. induction l as [|a l IH]; [done|]. intros H. cbn. rewrite (H a) by (by left). apply IH. intros. apply H. by right. Qed.

Lemma total_concat {A} (f : A -> Z) (l : list (list A)) : total f (concat l) = total (total f) l.
Proof. induction l as [|a l IH]; [done|]. cbn [concat]. by rewrite total_app, IH. Qed.

Lemma total_ext {A} (f g : A -> Z) (l : list A) : (forall a, f a = g a) -> total f l = total g l.
Proof. intros H. induction l as [|a l IH]; [done|]. cbn. unfold total in *. by rewrite H, IH. Qed.

Lemma total_bounds {A} (f : A -> Z) (l : list A) b : Forall (fun a => f a <= b) l -> total f l <= b * len l.
Proof.
  induction 1 as [|a l Ha _ IH]; [change (0 <= b * 0); lia|]. rewrite len_cons. unfold total in *. cbn. lia.
Qed.

Lemma total_map {A B} (f : B -> Z) (g : A -> B) (l : list A) : total f (map g l) = total (fun a => f (g a)) l.
Proof. induction l as [|a l IH]; [done|]. cbn. unfold total in *. by rewrite IH. Qed.

Lemma total_plus {A} (f g : A -> Z) (l : list A) : total (fun a => f a + g a) l = total f l + total g l.
Proof. induction l as [|a l IH]; [done|]. cbn. unfold total in *. lia. Qed.

Lemma total_scale {A} k (f : A -> Z) (l : list A) : total (fun a => k * f a) l = k * total f l.
Proof. induction l as [|a l IH]; cbn; [lia|]. unfold total in *. lia. Qed.

Lemma len_filter_snoc {A} (q : A -> bool) l a :
  len (List.filter q (l ++ [a])) = len (List.filter q l) + (if q a then 1 else 0).
Proof. rewrite List.filter_app, len_app. cbn. by destruct (q a). Qed.

Lemma total_nonneg {A} (f : A -> Z) (l : list A) : (forall a, 0 <= f a) -> 0 <= total f l.
Proof. intros H. induction l as [|a l IH]; [done|]. specialize (H a). unfold total in *. cbn. lia. Qed.

(** An element counts for no more than the list it is in. *)
Lemma total_elem {A} (f : A -> Z) (l : list A) a : (forall a, 0 <= f a) -> a ∈ l -> f a <= total f l.
Proof.
  intros H. induction 1 as [a l|a b l _ IH]; cbn.
  - pose proof (total_nonneg f l H). unfold total in *. lia.
  - specialize (H b). unfold total in *. lia.
Qed.

#[global] Instance total_proper {A} (f : A -> Z) : Proper (Permutation ==> eq) (total f).
Proof. intros l1 l2 H. induction H; unfold total in *; cbn in *; lia. Qed.

(** A list in which everything counts for at most what it counts for in another is a part of
    the other, up to the order. *)
Lemma totals_submseteq {A} `{EqDecision A} (l1 l2 : list A) :
  (forall f : A -> Z, (forall a, 0 <= f a) -> total f l1 <= total f l2) -> l1 ⊆+ l2.
Proof.
  revert l2. induction l1 as [|x l1 IH]; intros l2 H; [apply submseteq_nil_l|].
  assert (x ∈ l2) as Hx.
  { destruct (decide (x ∈ l2)) as [|Hx]; [done|]. exfalso.
    assert (total (fun y => if decide (y = x) then 1 else 0) l2 = 0) as E.
    { apply total_zero. intros a Ha%list_elem_of_In. by case_decide; subst. }
    specialize (H (fun y => if decide (y = x) then 1 else 0)).
    pose proof (total_nonneg (fun y => if decide (y = x) then 1 else 0) l1).
    unfold total in *. cbn in H. rewrite decide_True in H by done.
    specialize (H ltac:(intros; case_decide; lia)). specialize (H0 ltac:(intros; case_decide; lia)). lia. }
  apply elem_of_Permutation in Hx as (l2' & Hx). rewrite Hx. apply submseteq_skip, IH. intros f Hf. specialize (H f Hf).
  rewrite Hx in H. unfold total in *. cbn in *. lia.
Qed.
