(* ===== verification/Reader.v ===== *)
(** The cursor over a received datagram, [src/reader/reader.go].

    [Reader] is the Go struct (the unread [data] and the running [count] of bytes
    read); every method is one definition on the state [Reader].  The section
    [reader_rules] gives the equations the decoders' proofs rewrite with and the
    relation [adv] ("the reader has only moved forward") that all methods keep. *)

From S2P Require Import Prelude.

Record Reader : Type := mkReader { data : list byte; count : Z }.

Definition NewReader (b : list byte) : Reader := mkReader b 0.

Definition advance (num : Z) : M Reader () :=
  r ← get;
  d ← slice (data r) num (len (data r));
  put (mkReader d (count r + num)).

Definition Uint8 : M Reader Z :=
  r ← get;
  if len (data r) <? 1 then fail (Some 0) errReader
  else
    d ← index (data r) 0;
    advance 1;;
    mret (u8 d).

Definition Uint16 : M Reader Z :=
  r ← get;
  if len (data r) <? 2 then fail (Some 0) errReader
  else
    d ← BigEndian_Uint 2 (data r);
    advance 2;;
    mret d.

Definition Uint32 : M Reader Z :=
  r ← get;
  if len (data r) <? 4 then fail (Some 0) errReader
  else
    d ← BigEndian_Uint 4 (data r);
    advance 4;;
    mret d.

Definition Uint64 : M Reader Z :=
  r ← get;
  if len (data r) <? 8 then fail (Some 0) errReader
  else
    d ← BigEndian_Uint 8 (data r);
    advance 8;;
    mret d.

Definition Read (n : Z) : M Reader (list byte) :=
  r ← get;
  if len (data r) <? n then fail (Some []) errReader
  else
    d ← slice (data r) 0 n;
    advance n;;
    mret d.

Definition Peek (n : Z) : M Reader (list byte) :=
  r ← get;
  if len (data r) <? n then fail (Some []) errReader
  else slice (data r) 0 n.

Definition PeekUint16 : M Reader Z :=
  b ← try (Peek 2);
  match b with
  | inl b => BigEndian_Uint 2 b
  | inr err => fail (Some 0) err
  end.

Definition Len (r : Reader) : Z := len (data r).

Definition ReadCount (r : Reader) : Z := count r.

(** The reader [r'] is [r] moved forward by some bytes of its data, with the
    count moved by as much. *)
Definition adv (r r' : Reader) : Prop :=
  exists p, data r = p ++ data r' /\ count r' = count r + len p.

(** The shape all integer reads share: [n] bytes, big-endian. *)
Definition read_be (n : Z) : M Reader Z := fun r =>
  if len (data r) <? n then (r, Err (Some 0) errReader)
  else (mkReader (drop (Z.to_nat n) (data r)) (count r + n),
        Ok (be_decode (take (Z.to_nat n) (data r)))).

#[global] Instance adv_preorder : PreOrder adv.
Proof.
  split.
  - intros r. exists []. rewrite len_nil. split; [done|lia].
  - intros r1 r2 r3 (p1 & H1 & H2) (p2 & H3 & H4). exists (p1 ++ p2).
    rewrite <- app_assoc, <- H3, len_app. split; [done|lia].
Qed.

Section reader_rules.

Lemma advance_ok n r :
  0 <= n <= len (data r) ->
  advance n r = (mkReader (drop (Z.to_nat n) (data r)) (count r + n), Ok tt).
Proof.
  intros Hn. unfold advance. unmonad. rewrite slice_ok by lia.
  simpl. f_equal. f_equal. apply take_ge. rewrite length_drop. unfold len. lia.
Qed.

Lemma Uint16_eq r : Uint16 r = read_be 2 r.
Proof.
  unfold Uint16, read_be, BigEndian_Uint. unmonad. case_test; [done|].
  rewrite slice_ok, advance_ok by lia. done.
Qed.

Lemma Uint32_eq r : Uint32 r = read_be 4 r.
Proof.
  unfold Uint32, read_be, BigEndian_Uint. unmonad. case_test; [done|].
  rewrite slice_ok, advance_ok by lia. done.
Qed.

Lemma Uint64_eq r : Uint64 r = read_be 8 r.
Proof.
  unfold Uint64, read_be, BigEndian_Uint. unmonad. case_test; [done|].
  rewrite slice_ok, advance_ok by lia. done.
Qed.

Lemma Uint8_eq r : Uint8 r = read_be 1 r.
Proof.
  unfold Uint8, read_be. unmonad. case_test; [done|].
  rewrite index_ok, advance_ok by lia. unfold byte_at.
  destruct (data r) as [|b l] eqn:E; [rewrite len_nil in *; lia|]. done.
Qed.

Lemma Read_eq n r :
  0 <= n ->
  Read n r =
    if len (data r) <? n then (r, Err (Some []) errReader)
    else (mkReader (drop (Z.to_nat n) (data r)) (count r + n),
          Ok (take (Z.to_nat n) (data r))).
Proof.
  intros Hn. unfold Read. unmonad. case_test; [done|].
  rewrite slice_ok, advance_ok by lia. do 3 f_equal. lia.
Qed.

Lemma PeekUint16_eq r :
  PeekUint16 r =
    if len (data r) <? 2 then (r, Err (Some 0) errReader)
    else (r, Ok (be_decode (take 2 (data r)))).
Proof.
  unfold PeekUint16, Peek, BigEndian_Uint. unmonad. case_test; [done|].
  change (Z.to_nat 0) with 0%nat. rewrite slice_ok by lia. rewrite drop_0.
  rewrite slice_ok by (rewrite ?len_take by lia; lia).
  rewrite drop_0, take_take. done.
Qed.

(** Reading back an encoded integer. *)
Lemma read_be_encode n z rest c :
  0 <= z < 256 ^ Z.of_nat n ->
  read_be (Z.of_nat n) (mkReader (be_encode n z ++ rest) c) =
    (mkReader rest (c + Z.of_nat n), Ok z).
Proof.
  intros Hz. unfold read_be. simpl data. simpl count.
  rewrite len_app, len_be_encode. pose proof (len_nonneg rest).
  destruct (Z.ltb_spec (Z.of_nat n + len rest) (Z.of_nat n)); [lia|].
  rewrite <- (len_be_encode n z), take_len_app, drop_len_app.
  by rewrite be_decode_encode_small.
Qed.

Lemma Uint16_encode z rest c :
  0 <= z < 65536 ->
  Uint16 (mkReader (be_encode 2 z ++ rest) c) = (mkReader rest (c + 2), Ok z).
Proof. intros. rewrite Uint16_eq. by apply (read_be_encode 2). Qed.

Lemma Uint32_encode z rest c :
  0 <= z < 4294967296 ->
  Uint32 (mkReader (be_encode 4 z ++ rest) c) = (mkReader rest (c + 4), Ok z).
Proof. intros. rewrite Uint32_eq. by apply (read_be_encode 4). Qed.

Lemma Read_app p rest c :
  Read (len p) (mkReader (p ++ rest) c) = (mkReader rest (c + len p), Ok p).
Proof.
  pose proof (len_nonneg p). pose proof (len_nonneg rest).
  rewrite Read_eq by done. simpl data. simpl count. rewrite len_app.
  destruct (Z.ltb_spec (len p + len rest) (len p)); [lia|].
  by rewrite take_len_app, drop_len_app.
Qed.

Lemma adv_drop n r :
  0 <= n <= len (data r) -> adv r (mkReader (drop (Z.to_nat n) (data r)) (count r + n)).
Proof.
  intros Hn. exists (take (Z.to_nat n) (data r)). simpl.
  rewrite take_drop, len_take by lia. done.
Qed.

(** [reads Q m]: [m] only moves the reader forward, returns (no panic), and a value
    it returns without error satisfies [Q].  All decoding code over the reader is
    built from such steps. *)
Definition reads {A} (Q : A -> Prop) (m : M Reader A) : Prop :=
  forall r, adv r (m r).1 /\ returns (m r).2 /\
    match (m r).2 with Ok a => Q a | _ => True end.

Lemma reads_ret {A} (Q : A -> Prop) a : Q a -> reads Q (mret a).
Proof. intros Ha r. split; [reflexivity|done]. Qed.

Lemma reads_fail {A} (Q : A -> Prop) v e : reads Q (fail v e).
Proof. intros r. split; [reflexivity|done]. Qed.

Lemma reads_bind {A B} (Q : A -> Prop) (Q' : B -> Prop) (m : M Reader A) (k : A -> M Reader B) :
  reads Q m -> (forall a, Q a -> reads Q' (k a)) -> reads Q' (m ≫= k).
Proof.
  intros Hm Hk r. unmonad. destruct (Hm r) as (H1 & H2 & H3).
  destruct (m r) as [r' []]; simpl in *; try done.
  destruct (Hk a H3 r') as (H4 & H5). split; [by etransitivity|done].
Qed.

Lemma reads_weaken {A} (Q Q' : A -> Prop) m :
  reads Q m -> (forall a, Q a -> Q' a) -> reads Q' m.
Proof.
  intros Hm HQ r. destruct (Hm r) as (H1 & H2 & H3). split_and!; [done|done|].
  destruct (m r).2; auto.
Qed.

Lemma reads_read_be n : 0 <= n -> reads (fun z => 0 <= z < 256 ^ n) (read_be n).
Proof.
  intros Hn r. unfold read_be. case_test; simpl; [split; [reflexivity|done]|].
  split; [apply adv_drop; lia|]. split; [done|].
  pose proof (be_decode_range (take (Z.to_nat n) (data r))) as H1.
  by rewrite len_take in H1 by lia.
Qed.

Lemma reads_Uint16 : reads (fun z => 0 <= z < 65536) Uint16.
Proof. intros r. rewrite Uint16_eq. by apply (reads_read_be 2). Qed.

Lemma reads_Uint32 : reads (fun z => 0 <= z < 4294967296) Uint32.
Proof. intros r. rewrite Uint32_eq. by apply (reads_read_be 4). Qed.

Lemma reads_Read n : 0 <= n -> reads (fun b => len b = n) (Read n).
Proof.
  intros Hn r. rewrite Read_eq by done. case_test; simpl; [split; [reflexivity|done]|].
  split; [apply adv_drop; lia|]. split; [done|]. apply len_take. lia.
Qed.

Lemma reads_PeekUint16 : reads (fun _ => True) PeekUint16.
Proof. intros r. rewrite PeekUint16_eq. case_test; simpl; split; done || reflexivity. Qed.

Lemma read_be_ok n r :
  0 <= n <= len (data r) ->
  read_be n r = (mkReader (drop (Z.to_nat n) (data r)) (count r + n),
                 Ok (be_decode (take (Z.to_nat n) (data r)))).
Proof. intros Hn. unfold read_be. case_test; [lia|done]. Qed.

Lemma read_be_short n r : len (data r) < n -> read_be n r = (r, Err (Some 0) errReader).
Proof. intros Hn. unfold read_be. case_test; [done|lia]. Qed.

Lemma adv_len r r' : adv r r' -> len (data r') = len (data r) - (count r' - count r).
Proof. intros (p & H1 & H2). rewrite H1, len_app. lia. Qed.

Lemma adv_count r r' : adv r r' -> count r <= count r'.
Proof. intros (p & H1 & H2). pose proof (len_nonneg p). lia. Qed.

(** [consumes n m]: with [n] unread bytes, [m] moves the reader by at least [n],
    whether it succeeds or fails. *)
Definition consumes {A} (n : Z) (m : M Reader A) : Prop :=
  forall r, n <= len (data r) -> count r + n <= count (m r).1.

Lemma consumes_0 {A} (Q : A -> Prop) m : reads Q m -> consumes 0 m.
Proof. intros Hm r _. destruct (Hm r) as [Ha _]. apply adv_count in Ha. lia. Qed.

Lemma consumes_bind {A B} n (Q : B -> Prop) (m : M Reader A) (k : A -> M Reader B) :
  consumes n m -> (forall a, reads Q (k a)) -> consumes n (m ≫= k).
Proof.
  intros Hm Hk r Hr. specialize (Hm r Hr). unmonad. destruct (m r) as [r' []]; simpl in *; try done.
  destruct (Hk a r') as [Ha _]. apply adv_count in Ha. lia.
Qed.

Lemma consumes_Uint16 {A} n (k : Z -> M Reader A) :
  0 <= n -> (forall a, consumes n (k a)) -> consumes (2 + n) (Uint16 ≫= k).
Proof.
  intros Hn Hk r Hr. unmonad. rewrite Uint16_eq, read_be_ok by lia.
  etransitivity; [|apply Hk]; cbn [data count]; [lia|]. rewrite len_drop; lia.
Qed.

End reader_rules.

#[export] Hint Resolve reads_ret reads_fail reads_Uint16 reads_Uint32 reads_Read
  reads_PeekUint16 : vflow.

(** One step of a [reads] proof through a bind whose first part is in the hint base. *)
Ltac reads_step :=
  eapply reads_bind; [solve [eauto with vflow]|intros; simpl in *].

(** ** Theorems *)

(** The four integer methods by the width they read. *)
Inductive int_width : Type := W8 | W16 | W32 | W64.

Definition width_bytes (w : int_width) : nat :=
  match w with W8 => 1 | W16 => 2 | W32 => 4 | W64 => 8 end.

Definition Uint (w : int_width) : M Reader Z :=
  match w with W8 => Uint8 | W16 => Uint16 | W32 => Uint32 | W64 => Uint64 end.

Lemma Uint_eq w r : Uint w r = read_be (Z.of_nat (width_bytes w)) r.
Proof.
  destruct w; [apply Uint8_eq|apply Uint16_eq|apply Uint32_eq|apply Uint64_eq].
Qed.

(** An integer read of [n] bytes never panics: with fewer than [n] unread bytes it
    returns the error and leaves the reader as it was, otherwise it returns the
    big-endian value of the next [n] bytes, drops exactly them and adds [n] to the
    count. *)
Theorem Uint_spec (w : int_width) (r : Reader) :
  let n := width_bytes w in
  Uint w r =
    if decide ((length (data r) < n)%nat) then (r, Err (Some 0) errReader)
    else (mkReader (drop n (data r)) (count r + Z.of_nat n),
          Ok (be_decode (take n (data r)))).
Proof.
  intros n. rewrite Uint_eq. unfold read_be, len. rewrite Nat2Z.id. fold n.
  case_test; case_decide; done || lia.
Qed.

(** A sequence of integer reads. *)
Fixpoint Uints (ws : list int_width) : M Reader (list Z) :=
  match ws with
  | [] => mret []
  | w :: ws' => z ← Uint w; zs ← Uints ws'; mret (z :: zs)
  end.

(** The integers at the front of a byte sequence, and the bytes they take. *)
Fixpoint split_ints (ws : list int_width) (b : list byte) : list Z :=
  match ws with
  | [] => []
  | w :: ws' => be_decode (take (width_bytes w) b) :: split_ints ws' (drop (width_bytes w) b)
  end.

Definition widths_bytes (ws : list int_width) : nat := sum_list_with width_bytes ws.

Lemma Uints_ok ws r :
  (widths_bytes ws <= length (data r))%nat ->
  Uints ws r = (mkReader (drop (widths_bytes ws) (data r)) (count r + Z.of_nat (widths_bytes ws)),
                Ok (split_ints ws (data r))).
Proof.
  unfold widths_bytes. revert r. induction ws as [|w ws IH]; intros [b c] Hl; simpl in *.
  - by rewrite drop_0, Z.add_0_r.
  - unmonad. rewrite Uint_eq, read_be_ok by (unfold len; simpl; lia). cbn [data count].
    rewrite Nat2Z.id, IH by (simpl; rewrite length_drop; lia). cbn [data count].
    rewrite drop_drop. do 2 f_equal. lia.
Qed.

Lemma Uints_short ws r :
  (length (data r) < widths_bytes ws)%nat -> exists r', Uints ws r = (r', Err None errReader).
Proof.
  unfold widths_bytes. revert r. induction ws as [|w ws IH]; intros [b c] Hl; simpl in *; [lia|].
  unmonad. rewrite Uint_eq. destruct (Nat.lt_ge_cases (length b) (width_bytes w)).
  - rewrite read_be_short by (unfold len; simpl; lia). by eexists.
  - rewrite read_be_ok by (unfold len; simpl; lia). cbn [data count]. rewrite Nat2Z.id.
    destruct (IH (mkReader (drop (width_bytes w) b) (c + Z.of_nat (width_bytes w)))) as [r' ->];
      [simpl; rewrite length_drop; lia|]. by eexists.
Qed.

Definition encode_ints (l : list (int_width * Z)) : list byte :=
  concat (map (fun p => be_encode (width_bytes p.1) p.2) l).

(** What was written big-endian is read back: for every sequence of integers in
    the range of their widths, reading those widths returns the integers, leaves what
    follows unread, and counts the bytes. *)
Theorem Uints_roundtrip (l : list (int_width * Z)) (rest : list byte) (c : Z) :
  Forall (fun p => 0 <= p.2 < 256 ^ Z.of_nat (width_bytes p.1)) l ->
  Uints (map fst l) (mkReader (encode_ints l ++ rest) c) =
    (mkReader rest (c + len (encode_ints l)), Ok (map snd l)).
Proof.
  unfold encode_ints. intros Hl. revert c. induction Hl as [|[w z] l Hz Hl IH]; intros c.
  - simpl. rewrite len_nil, Z.add_0_r. done.
  - cbn [map concat Uints fst snd]. unmonad. rewrite <- app_assoc, Uint_eq, read_be_encode by done.
    by rewrite IH, len_app, len_be_encode, Z.add_assoc.
Qed.

Lemma Uints_roundtrip_witness :
  Uints [W16; W32] (mkReader (encode_ints [(W16, 10); (W32, 70000)] ++ bytes [7]) 0) =
    (mkReader (bytes [7]) 6, Ok [10; 70000]).
Proof.
  apply (Uints_roundtrip [(W16, 10); (W32, 70000)] (bytes [7]) 0).
  repeat constructor; simpl; lia.
Defined.
