(* ===== verification/GoNet.v ===== *)
(** The text functions of Go's standard library that the sources call:
    [strconv.FormatInt(_, 10)], [hex.EncodeToString], the [%0.2x] verb,
    [net.IP.To4], [net.IP.String], [net.HardwareAddr.String], and [Error()] of the
    error values.  A Go [string] is a Rocq [string] (a sequence of bytes). *)

From stdpp Require Export pretty.
From S2P Require Import Prelude.

Local Open Scope string_scope.
Open Scope Z_scope.

(** [strconv.FormatInt(z, 10)], and the [%d] verb. *)
Definition FormatInt (z : Z) : string := pretty z.

Definition hex_digit (d : Z) : string :=
  match d with
  | 0 => "0" | 1 => "1" | 2 => "2" | 3 => "3" | 4 => "4" | 5 => "5" | 6 => "6" | 7 => "7"
  | 8 => "8" | 9 => "9" | 10 => "a" | 11 => "b" | 12 => "c" | 13 => "d" | 14 => "e" | _ => "f"
  end.

(** Two lower-case digits for a byte ([%0.2x], one byte of [hex.EncodeToString]). *)
Definition hex_byte (b : byte) : string := hex_digit (u8 b / 16) +:+ hex_digit (u8 b mod 16).

Definition hex_EncodeToString (bs : list byte) : string :=
  foldr (fun b acc => hex_byte b +:+ acc) "" bs.

(** [appendHex]: hexadecimal without leading zeros, for a 16-bit group. *)
Definition hex16 (g : Z) : string :=
  if g <? 16 then hex_digit g
  else if g <? 256 then hex_digit (g / 16) +:+ hex_digit (g mod 16)
  else if g <? 4096
    then hex_digit (g / 256) +:+ hex_digit (g / 16 mod 16) +:+ hex_digit (g mod 16)
  else hex_digit (g / 4096) +:+ hex_digit (g / 256 mod 16) +:+ hex_digit (g / 16 mod 16)
         +:+ hex_digit (g mod 16).

Definition join (sep : string) (l : list string) : string :=
  match l with
  | [] => ""
  | x :: xs => x +:+ foldr (fun y acc => sep +:+ y +:+ acc) "" xs
  end.

(** [net.HardwareAddr.String()]. *)
Definition HardwareAddr_String (a : list byte) : string := join ":" (map hex_byte a).

(** [net.IP.To4()]. *)
Definition To4 (ip : list byte) : option (list byte) :=
  if len ip =? 4 then Some ip
  else if (len ip =? 16) && bool_decide (take 12 ip = bytes [0;0;0;0;0;0;0;0;0;0;255;255])
  then Some (drop 12 ip)
  else None.

(** [net.IP.To16()]. *)
Definition To16 (ip : list byte) : option (list byte) :=
  if len ip =? 4 then Some (bytes [0;0;0;0;0;0;0;0;0;0;255;255] ++ ip)%list
  else if len ip =? 16 then Some ip
  else None.

Fixpoint groups (ip : list byte) : list Z :=
  match ip with
  | b1 :: b2 :: rest => (u8 b1 * 256 + u8 b2) :: groups rest
  | _ => []
  end.

Fixpoint zero_run (gs : list Z) : Z :=
  match gs with
  | 0 :: gs' => 1 + zero_run gs'
  | _ => 0
  end.

(** The longest run of zero groups [e0, e1), scanned from group [i]. *)
Fixpoint longest_run (n : nat) (gs : list Z) (i e0 e1 : Z) : Z * Z :=
  match n with
  | O => (e0, e1)
  | S n' =>
      if 8 <=? i then (e0, e1)
      else
        let j := i + zero_run (drop (Z.to_nat i) gs) in
        if (i <? j) && (e1 - e0 <? j - i) then longest_run n' gs (j + 1) i j
        else longest_run n' gs (i + 1) e0 e1
  end.

Fixpoint print_groups (n : nat) (gs : list Z) (e0 e1 i : Z) : string :=
  match n with
  | O => ""
  | S n' =>
      if 8 <=? i then ""
      else if i =? e0 then
        "::" +:+ (if 8 <=? e1 then ""
                  else hex16 (default 0 (gs !! Z.to_nat e1)) +:+ print_groups n' gs e0 e1 (e1 + 1))
      else (if 0 <? i then ":" else "") +:+ hex16 (default 0 (gs !! Z.to_nat i))
             +:+ print_groups n' gs e0 e1 (i + 1)
  end.

(** [net.IP.String()]. *)
Definition IP_String (ip : list byte) : string :=
  if len ip =? 0 then "<nil>"
  else match To4 ip with
  | Some p4 => join "." (map (fun b => FormatInt (u8 b)) p4)
  | None =>
      if negb (len ip =? 16) then "?" +:+ hex_EncodeToString ip
      else
        let gs := groups ip in
        let '(e0, e1) := longest_run 8 gs 0 (-1) (-1) in
        let '(e0, e1) := if e1 - e0 <=? 1 then (-1, -1) else (e0, e1) in
        print_groups 8 gs e0 e1 0
  end.

(** [err.Error()]. *)
Fixpoint Error (e : GoError) : string :=
  match e with
  | errReader => "can not read the data"
  | EOF => "EOF"
  | ErrUnexpectedEOF => "unexpected EOF"
  | errIpfixVersion v => "invalid ipfix version (" +:+ FormatInt v +:+ ")"
  | errIpfixUnknownTemplate a id => a +:+ " unknown ipfix template id# " +:+ FormatInt id
  | errIpfixElement id => "IPFIX element key (" +:+ FormatInt id +:+ ") not exist"
  | errIpfixElementScope id => "IPFIX element key (" +:+ FormatInt id +:+ ") not exist (scope)"
  | errNetflowVersion v => "invalid netflow version (" +:+ FormatInt v +:+ ")"
  | errNetflowUnknownTemplate a id => a +:+ " unknown netflow template id# " +:+ FormatInt id
  | errNetflowElement id => "Netflow element key (" +:+ FormatInt id +:+ ") not exist"
  | errNetflowElementScope id =>
      "Netflow element key (" +:+ FormatInt id +:+ ") not exist (scope)"
  | errMultiple errs =>
      "Multiple errors:" +:+
        (fix go (l : list GoError) : string :=
           match l with
           | [] => ""
           | e' :: l' => String (Ascii.ascii_of_nat 10) ("- " +:+ Error e') +:+ go l'
           end) errs
  | errUknownMarshalDataType => "unknown data type to marshal"
  | errNotAvail => "the template is not available"
  | errUnknownEtherType => "unknown ether type"
  | errUnknownHeaderProtocol => "unknown header protocol"
  | errShortEthernetHeaderLength => "the ethernet header is too small"
  | errShortIPv4HeaderLength => "short ipv4 header length"
  | errShortIPv6HeaderLength => "short ipv6 header length"
  | errShortEthernetLength => "short ethernet header length"
  | errUnknownTransportLayer => "unknown transport layer"
  | errUnknownL3Protocol => "unknown network layer protocol"
  | errShortTCPHeaderLength => "short TCP header length"
  | errShortUDPHeaderLength => "short UDP header length"
  | errICMPHLenTooSHort => "ICMP header length is too short"
  | errNoneEnterpriseStandard => "the enterprise is not standard sflow data"
  | errDataLengthUnknown => "the sflow data length is unknown"
  | errSFVersionNotSupport => "the sflow version doesn't support"
  | errMaxOutEthernetLength => "the ethernet length is greater than 1500"
  | errMarshalIP addr =>
      "json: error calling MarshalText for type net.IP: address " +:+ addr +:+ ": invalid IP address"
  end.

Example ip_string_v4 : IP_String (bytes [192; 168; 21; 15]) = "192.168.21.15".
Proof. vm_compute. reflexivity. Qed.

Example ip_string_v4_mapped :
  IP_String (bytes [0;0;0;0;0;0;0;0;0;0;255;255;127;0;0;1]) = "127.0.0.1".
Proof. vm_compute. reflexivity. Qed.

Example ip_string_v6 :
  IP_String (bytes [0x20;0x01;0x0d;0xb8;0;0;0;0;0;0;0xff;0;0;0x42;0x83;0x29])
    = "2001:db8::ff00:42:8329".
Proof. vm_compute. reflexivity. Qed.

Example ip_string_v6_zero : IP_String (bytes (replicate 16 0)) = "::".
Proof. vm_compute. reflexivity. Qed.

Example mac_string :
  HardwareAddr_String (bytes [0x58;0x00;0xbb;0xe7;0x57;0x6f]) = "58:00:bb:e7:57:6f".
Proof. vm_compute. reflexivity. Qed.
