(* ===== verification/InfoModel.v ===== *)
(** The information model, [src/ipfix/rfc5102_model.go]: the abstract data types,
    the map from type names to them, the built-in table of the IANA elements and its
    replacement by an external table ([LoadExtElements]).

    The table is split in three definitions of 134 entries each, in the source's
    order; [InfoModel] is the map they build. *)

From S2P Require Import Prelude.

Local Open Scope string_scope.
Open Scope Z_scope.

Inductive FieldType : Type :=
| Unknown | Uint8 | Uint16 | Uint32 | Uint64 | Int8 | Int16 | Int32 | Int64
| Float32 | Float64 | Boolean | MacAddress | OctetArray | String_
| DateTimeSeconds | DateTimeMilliseconds | DateTimeMicroseconds | DateTimeNanoseconds
| Ipv4Address | Ipv6Address.

#[global] Instance FieldType_eq_dec : EqDecision FieldType.
Proof. solve_decision. Defined.

Record ElementKey : Type := mkElementKey { key_EnterpriseNo : Z; key_ElementID : Z }.

#[global] Instance ElementKey_eq_dec : EqDecision ElementKey.
Proof. solve_decision. Defined.

#[global] Instance ElementKey_countable : Countable ElementKey :=
  inj_countable' (fun k => (key_EnterpriseNo k, key_ElementID k))
    (fun p => mkElementKey p.1 p.2) (fun k => match k with mkElementKey _ _ => eq_refl end).

Record InfoElementEntry : Type := mkInfoElementEntry {
  FieldID : Z;
  Name : string;
  Type_ : FieldType
}.

#[global] Instance InfoElementEntry_eq_dec : EqDecision InfoElementEntry.
Proof. solve_decision. Defined.

(** [IANAInfoModel] is a Go map. *)
Abbreviation IANAInfoModel := (gmap ElementKey InfoElementEntry).

Definition FieldTypes : gmap string FieldType := list_to_map [
  ("unsigned8", Uint8);
  ("unsigned16", Uint16);
  ("unsigned32", Uint32);
  ("unsigned64", Uint64);
  ("signed8", Int8);
  ("signed16", Int16);
  ("signed32", Int32);
  ("signed64", Int64);
  ("float32", Float32);
  ("float64", Float64);
  ("boolean", Boolean);
  ("macAddress", MacAddress);
  ("octetArray", OctetArray);
  ("string", String_);
  ("dateTimeSeconds", DateTimeSeconds);
  ("dateTimeMilliseconds", DateTimeMilliseconds);
  ("dateTimeMicroseconds", DateTimeMicroseconds);
  ("dateTimeNanoseconds", DateTimeNanoseconds);
  ("ipv4Address", Ipv4Address);
  ("ipv6Address", Ipv6Address)
].

(** [FieldTypes[name]]: a missing key gives the zero value, [Unknown]. *)
Definition FieldTypes_at (name : string) : FieldType := default Unknown (FieldTypes !! name).

(** One line of the table: enterprise number, element id, field id, name, type name. *)
Definition entry (pen id fid : Z) (name ty : string) : ElementKey * InfoElementEntry :=
  (mkElementKey pen id, mkInfoElementEntry fid name (FieldTypes_at ty)).

Definition InfoModel_1 : list (ElementKey * InfoElementEntry) := [
  entry 0 1 1 "octetDeltaCount" "unsigned64";
  entry 0 2 2 "packetDeltaCount" "unsigned64";
  entry 0 3 3 "deltaFlowCount" "unsigned64";
  entry 0 4 4 "protocolIdentifier" "unsigned8";
  entry 0 5 5 "ipClassOfService" "unsigned8";
  entry 0 6 6 "tcpControlBits" "unsigned16";
  entry 0 7 7 "sourceTransportPort" "unsigned16";
  entry 0 8 8 "sourceIPv4Address" "ipv4Address";
  entry 0 9 9 "sourceIPv4PrefixLength" "unsigned8";
  entry 0 10 10 "ingressInterface" "unsigned32";
  entry 0 11 11 "destinationTransportPort" "unsigned16";
  entry 0 12 12 "destinationIPv4Address" "ipv4Address";
  entry 0 13 13 "destinationIPv4PrefixLength" "unsigned8";
  entry 0 14 14 "egressInterface" "unsigned32";
  entry 0 15 15 "ipNextHopIPv4Address" "ipv4Address";
  entry 0 16 16 "bgpSourceAsNumber" "unsigned32";
  entry 0 17 17 "bgpDestinationAsNumber" "unsigned32";
  entry 0 18 18 "bgpNextHopIPv4Address" "ipv4Address";
  entry 0 19 19 "postMCastPacketDeltaCount" "unsigned64";
  entry 0 20 20 "postMCastOctetDeltaCount" "unsigned64";
  entry 0 21 21 "flowEndSysUpTime" "unsigned32";
  entry 0 22 22 "flowStartSysUpTime" "unsigned32";
  entry 0 23 23 "postOctetDeltaCount" "unsigned64";
  entry 0 24 24 "postPacketDeltaCount" "unsigned64";
  entry 0 25 25 "minimumIpTotalLength" "unsigned64";
  entry 0 26 26 "maximumIpTotalLength" "unsigned64";
  entry 0 27 27 "sourceIPv6Address" "ipv6Address";
  entry 0 28 28 "destinationIPv6Address" "ipv6Address";
  entry 0 29 29 "sourceIPv6PrefixLength" "unsigned8";
  entry 0 30 30 "destinationIPv6PrefixLength" "unsigned8";
  entry 0 31 31 "flowLabelIPv6" "unsigned32";
  entry 0 32 32 "icmpTypeCodeIPv4" "unsigned16";
  entry 0 33 33 "igmpType" "unsigned8";
  entry 0 34 34 "samplingInterval" "unsigned32";
  entry 0 35 35 "samplingAlgorithm" "unsigned8";
  entry 0 36 36 "flowActiveTimeout" "unsigned16";
  entry 0 37 37 "flowIdleTimeout" "unsigned16";
  entry 0 38 38 "engineType" "unsigned8";
  entry 0 39 39 "engineId" "unsigned8";
  entry 0 40 40 "exportedOctetTotalCount" "unsigned64";
  entry 0 41 41 "exportedMessageTotalCount" "unsigned64";
  entry 0 42 42 "exportedFlowRecordTotalCount" "unsigned64";
  entry 0 43 43 "ipv4RouterSc" "ipv4Address";
  entry 0 44 44 "sourceIPv4Prefix" "ipv4Address";
  entry 0 45 45 "destinationIPv4Prefix" "ipv4Address";
  entry 0 46 46 "mplsTopLabelType" "unsigned8";
  entry 0 47 47 "mplsTopLabelIPv4Address" "ipv4Address";
  entry 0 48 48 "samplerId" "unsigned8";
  entry 0 49 49 "samplerMode" "unsigned8";
  entry 0 50 50 "samplerRandomInterval" "unsigned32";
  entry 0 51 51 "classId" "unsigned8";
  entry 0 52 52 "minimumTTL" "unsigned8";
  entry 0 53 53 "maximumTTL" "unsigned8";
  entry 0 54 54 "fragmentIdentification" "unsigned32";
  entry 0 55 55 "postIpClassOfService" "unsigned8";
  entry 0 56 56 "sourceMacAddress" "macAddress";
  entry 0 57 57 "postDestinationMacAddress" "macAddress";
  entry 0 58 58 "vlanId" "unsigned16";
  entry 0 59 59 "postVlanId" "unsigned16";
  entry 0 60 60 "ipVersion" "unsigned8";
  entry 0 61 61 "flowDirection" "unsigned8";
  entry 0 62 62 "ipNextHopIPv6Address" "ipv6Address";
  entry 0 63 63 "bgpNextHopIPv6Address" "ipv6Address";
  entry 0 64 64 "ipv6ExtensionHeaders" "unsigned32";
  entry 0 70 70 "mplsTopLabelStackSection" "octetArray";
  entry 0 71 71 "mplsLabelStackSection2" "octetArray";
  entry 0 72 72 "mplsLabelStackSection3" "octetArray";
  entry 0 73 73 "mplsLabelStackSection4" "octetArray";
  entry 0 74 74 "mplsLabelStackSection5" "octetArray";
  entry 0 75 75 "mplsLabelStackSection6" "octetArray";
  entry 0 76 76 "mplsLabelStackSection7" "octetArray";
  entry 0 77 77 "mplsLabelStackSection8" "octetArray";
  entry 0 78 78 "mplsLabelStackSection9" "octetArray";
  entry 0 79 79 "mplsLabelStackSection10" "octetArray";
  entry 0 80 80 "destinationMacAddress" "macAddress";
  entry 0 81 81 "postSourceMacAddress" "macAddress";
  entry 0 82 82 "interfaceName" "string";
  entry 0 83 83 "interfaceDescription" "string";
  entry 0 84 84 "samplerName" "string";
  entry 0 85 85 "octetTotalCount" "unsigned64";
  entry 0 86 86 "packetTotalCount" "unsigned64";
  entry 0 87 87 "flagsAndSamplerId" "unsigned32";
  entry 0 88 88 "fragmentOffset" "unsigned16";
  entry 0 89 89 "forwardingStatus" "unsigned32";
  entry 0 90 90 "mplsVpnRouteDistinguisher" "octetArray";
  entry 0 91 91 "mplsTopLabelPrefixLength" "unsigned8";
  entry 0 92 92 "srcTrafficIndex" "unsigned32";
  entry 0 93 93 "dstTrafficIndex" "unsigned32";
  entry 0 94 94 "applicationDescription" "string";
  entry 0 95 95 "applicationId" "octetArray";
  entry 0 96 96 "applicationName" "string";
  entry 0 98 98 "postIpDiffServCodePoint" "unsigned8";
  entry 0 99 99 "multicastReplicationFactor" "unsigned32";
  entry 0 100 100 "className" "string";
  entry 0 101 101 "classificationEngineId" "unsigned8";
  entry 0 102 102 "layer2packetSectionOffset" "unsigned16";
  entry 0 103 103 "layer2packetSectionSize" "unsigned16";
  entry 0 104 104 "layer2packetSectionData" "octetArray";
  entry 0 128 128 "bgpNextAdjacentAsNumber" "unsigned32";
  entry 0 129 129 "bgpPrevAdjacentAsNumber" "unsigned32";
  entry 0 130 130 "exporterIPv4Address" "ipv4Address";
  entry 0 131 131 "exporterIPv6Address" "ipv6Address";
  entry 0 132 132 "droppedOctetDeltaCount" "unsigned64";
  entry 0 133 133 "droppedPacketDeltaCount" "unsigned64";
  entry 0 134 134 "droppedOctetTotalCount" "unsigned64";
  entry 0 135 135 "droppedPacketTotalCount" "unsigned64";
  entry 0 136 136 "flowEndReason" "unsigned8";
  entry 0 137 137 "commonPropertiesId" "unsigned64";
  entry 0 138 138 "observationPointId" "unsigned64";
  entry 0 139 139 "icmpTypeCodeIPv6" "unsigned16";
  entry 0 140 140 "mplsTopLabelIPv6Address" "ipv6Address";
  entry 0 141 141 "lineCardId" "unsigned32";
  entry 0 142 142 "portId" "unsigned32";
  entry 0 143 143 "meteringProcessId" "unsigned32";
  entry 0 144 144 "exportingProcessId" "unsigned32";
  entry 0 145 145 "templateId" "unsigned16";
  entry 0 146 146 "wlanChannelId" "unsigned8";
  entry 0 147 147 "wlanSSID" "string";
  entry 0 148 148 "flowId" "unsigned64";
  entry 0 149 149 "observationDomainId" "unsigned32";
  entry 0 150 150 "flowStartSeconds" "dateTimeSeconds";
  entry 0 151 151 "flowEndSeconds" "dateTimeSeconds";
  entry 0 152 152 "flowStartMilliseconds" "dateTimeMilliseconds";
  entry 0 153 153 "flowEndMilliseconds" "dateTimeMilliseconds";
  entry 0 154 154 "flowStartMicroseconds" "dateTimeMicroseconds";
  entry 0 155 155 "flowEndMicroseconds" "dateTimeMicroseconds";
  entry 0 156 156 "flowStartNanoseconds" "dateTimeNanoseconds";
  entry 0 157 157 "flowEndNanoseconds" "dateTimeNanoseconds";
  entry 0 158 158 "flowStartDeltaMicroseconds" "unsigned32";
  entry 0 159 159 "flowEndDeltaMicroseconds" "unsigned32";
  entry 0 160 160 "systemInitTimeMilliseconds" "dateTimeMilliseconds";
  entry 0 161 161 "flowDurationMilliseconds" "unsigned32";
  entry 0 162 162 "flowDurationMicroseconds" "unsigned32";
  entry 0 163 163 "observedFlowTotalCount" "unsigned64"
].

Definition InfoModel_2 : list (ElementKey * InfoElementEntry) := [
  entry 0 164 164 "ignoredPacketTotalCount" "unsigned64";
  entry 0 165 165 "ignoredOctetTotalCount" "unsigned64";
  entry 0 166 166 "notSentFlowTotalCount" "unsigned64";
  entry 0 167 167 "notSentPacketTotalCount" "unsigned64";
  entry 0 168 168 "notSentOctetTotalCount" "unsigned64";
  entry 0 169 169 "destinationIPv6Prefix" "ipv6Address";
  entry 0 170 170 "sourceIPv6Prefix" "ipv6Address";
  entry 0 171 171 "postOctetTotalCount" "unsigned64";
  entry 0 172 172 "postPacketTotalCount" "unsigned64";
  entry 0 173 173 "flowKeyIndicator" "unsigned64";
  entry 0 174 174 "postMCastPacketTotalCount" "unsigned64";
  entry 0 175 175 "postMCastOctetTotalCount" "unsigned64";
  entry 0 176 176 "icmpTypeIPv4" "unsigned8";
  entry 0 177 177 "icmpCodeIPv4" "unsigned8";
  entry 0 178 178 "icmpTypeIPv6" "unsigned8";
  entry 0 179 179 "icmpCodeIPv6" "unsigned8";
  entry 0 180 180 "udpSourcePort" "unsigned16";
  entry 0 181 181 "udpDestinationPort" "unsigned16";
  entry 0 182 182 "tcpSourcePort" "unsigned16";
  entry 0 183 183 "tcpDestinationPort" "unsigned16";
  entry 0 184 184 "tcpSequenceNumber" "unsigned32";
  entry 0 185 185 "tcpAcknowledgementNumber" "unsigned32";
  entry 0 186 186 "tcpWindowSize" "unsigned16";
  entry 0 187 187 "tcpUrgentPointer" "unsigned16";
  entry 0 188 188 "tcpHeaderLength" "unsigned8";
  entry 0 189 189 "ipHeaderLength" "unsigned8";
  entry 0 190 190 "totalLengthIPv4" "unsigned16";
  entry 0 191 191 "payloadLengthIPv6" "unsigned16";
  entry 0 192 192 "ipTTL" "unsigned8";
  entry 0 193 193 "nextHeaderIPv6" "unsigned8";
  entry 0 194 194 "mplsPayloadLength" "unsigned32";
  entry 0 195 195 "ipDiffServCodePoint" "unsigned8";
  entry 0 196 196 "ipPrecedence" "unsigned8";
  entry 0 197 197 "fragmentFlags" "unsigned8";
  entry 0 198 198 "octetDeltaSumOfSquares" "unsigned64";
  entry 0 199 199 "octetTotalSumOfSquares" "unsigned64";
  entry 0 200 200 "mplsTopLabelTTL" "unsigned8";
  entry 0 201 201 "mplsLabelStackLength" "unsigned32";
  entry 0 202 202 "mplsLabelStackDepth" "unsigned32";
  entry 0 203 203 "mplsTopLabelExp" "unsigned8";
  entry 0 204 204 "ipPayloadLength" "unsigned32";
  entry 0 205 205 "udpMessageLength" "unsigned16";
  entry 0 206 206 "isMulticast" "unsigned8";
  entry 0 207 207 "ipv4IHL" "unsigned8";
  entry 0 208 208 "ipv4Options" "unsigned32";
  entry 0 209 209 "tcpOptions" "unsigned64";
  entry 0 210 210 "paddingOctets" "octetArray";
  entry 0 211 211 "collectorIPv4Address" "ipv4Address";
  entry 0 212 212 "collectorIPv6Address" "ipv6Address";
  entry 0 213 213 "exportInterface" "unsigned32";
  entry 0 214 214 "exportProtocolVersion" "unsigned8";
  entry 0 215 215 "exportTransportProtocol" "unsigned8";
  entry 0 216 216 "collectorTransportPort" "unsigned16";
  entry 0 217 217 "exporterTransportPort" "unsigned16";
  entry 0 218 218 "tcpSynTotalCount" "unsigned64";
  entry 0 219 219 "tcpFinTotalCount" "unsigned64";
  entry 0 220 220 "tcpRstTotalCount" "unsigned64";
  entry 0 221 221 "tcpPshTotalCount" "unsigned64";
  entry 0 222 222 "tcpAckTotalCount" "unsigned64";
  entry 0 223 223 "tcpUrgTotalCount" "unsigned64";
  entry 0 224 224 "ipTotalLength" "unsigned64";
  entry 0 225 225 "postNATSourceIPv4Address" "ipv4Address";
  entry 0 226 226 "postNATDestinationIPv4Address" "ipv4Address";
  entry 0 227 227 "postNAPTSourceTransportPort" "unsigned16";
  entry 0 228 228 "postNAPTDestinationTransportPort" "unsigned16";
  entry 0 229 229 "natOriginatingAddressRealm" "unsigned8";
  entry 0 230 230 "natEvent" "unsigned8";
  entry 0 231 231 "initiatorOctets" "unsigned64";
  entry 0 232 232 "responderOctets" "unsigned64";
  entry 0 233 233 "firewallEvent" "unsigned8";
  entry 0 234 234 "ingressVRFID" "unsigned32";
  entry 0 235 235 "egressVRFID" "unsigned32";
  entry 0 236 236 "VRFname" "string";
  entry 0 237 237 "postMplsTopLabelExp" "unsigned8";
  entry 0 238 238 "tcpWindowScale" "unsigned16";
  entry 0 239 239 "biflowDirection" "unsigned8";
  entry 0 240 240 "ethernetHeaderLength" "unsigned8";
  entry 0 241 241 "ethernetPayloadLength" "unsigned16";
  entry 0 242 242 "ethernetTotalLength" "unsigned16";
  entry 0 243 243 "dot1qVlanId" "unsigned16";
  entry 0 244 244 "dot1qPriority" "unsigned8";
  entry 0 245 245 "dot1qCustomerVlanId" "unsigned16";
  entry 0 246 246 "dot1qCustomerPriority" "unsigned8";
  entry 0 247 247 "metroEvcId" "string";
  entry 0 248 248 "metroEvcType" "unsigned8";
  entry 0 249 249 "pseudoWireId" "unsigned32";
  entry 0 250 250 "pseudoWireType" "unsigned16";
  entry 0 251 251 "pseudoWireControlWord" "unsigned32";
  entry 0 252 252 "ingressPhysicalInterface" "unsigned32";
  entry 0 253 253 "egressPhysicalInterface" "unsigned32";
  entry 0 254 254 "postDot1qVlanId" "unsigned16";
  entry 0 255 255 "postDot1qCustomerVlanId" "unsigned16";
  entry 0 256 256 "ethernetType" "unsigned16";
  entry 0 257 257 "postIpPrecedence" "unsigned8";
  entry 0 258 258 "collectionTimeMilliseconds" "dateTimeMilliseconds";
  entry 0 259 259 "exportSctpStreamId" "unsigned16";
  entry 0 260 260 "maxExportSeconds" "dateTimeSeconds";
  entry 0 261 261 "maxFlowEndSeconds" "dateTimeSeconds";
  entry 0 262 262 "messageMD5Checksum" "octetArray";
  entry 0 263 263 "messageScope" "unsigned8";
  entry 0 264 264 "minExportSeconds" "dateTimeSeconds";
  entry 0 265 265 "minFlowStartSeconds" "dateTimeSeconds";
  entry 0 266 266 "opaqueOctets" "octetArray";
  entry 0 267 267 "sessionScope" "unsigned8";
  entry 0 268 268 "maxFlowEndMicroseconds" "dateTimeMicroseconds";
  entry 0 269 269 "maxFlowEndMilliseconds" "dateTimeMilliseconds";
  entry 0 270 270 "maxFlowEndNanoseconds" "dateTimeNanoseconds";
  entry 0 271 271 "minFlowStartMicroseconds" "dateTimeMicroseconds";
  entry 0 272 272 "minFlowStartMilliseconds" "dateTimeMilliseconds";
  entry 0 273 273 "minFlowStartNanoseconds" "dateTimeNanoseconds";
  entry 0 274 274 "collectorCertificate" "octetArray";
  entry 0 275 275 "exporterCertificate" "octetArray";
  entry 0 276 276 "dataRecordsReliability" "boolean";
  entry 0 277 277 "observationPointType" "unsigned8";
  entry 0 278 278 "newConnectionDeltaCount" "unsigned32";
  entry 0 279 279 "connectionSumDurationSeconds" "unsigned64";
  entry 0 280 280 "connectionTransactionId" "unsigned64";
  entry 0 281 281 "postNATSourceIPv6Address" "ipv6Address";
  entry 0 282 282 "postNATDestinationIPv6Address" "ipv6Address";
  entry 0 283 283 "natPoolId" "unsigned32";
  entry 0 284 284 "natPoolName" "string";
  entry 0 285 285 "anonymizationFlags" "unsigned16";
  entry 0 286 286 "anonymizationTechnique" "unsigned16";
  entry 0 287 287 "informationElementIndex" "unsigned16";
  entry 0 288 288 "p2pTechnology" "string";
  entry 0 289 289 "tunnelTechnology" "string";
  entry 0 290 290 "encryptedTechnology" "string";
  entry 0 291 291 "basicList" "basicList";
  entry 0 292 292 "subTemplateList" "subTemplateList";
  entry 0 293 293 "subTemplateMultiList" "subTemplateMultiList";
  entry 0 294 294 "bgpValidityState" "unsigned8";
  entry 0 295 295 "IPSecSPI" "unsigned32";
  entry 0 296 296 "greKey" "unsigned32";
  entry 0 297 297 "natType" "unsigned8"
].

Definition InfoModel_3 : list (ElementKey * InfoElementEntry) := [
  entry 0 298 298 "initiatorPackets" "unsigned64";
  entry 0 299 299 "responderPackets" "unsigned64";
  entry 0 300 300 "observationDomainName" "string";
  entry 0 301 301 "selectionSequenceId" "unsigned64";
  entry 0 302 302 "selectorId" "unsigned64";
  entry 0 303 303 "informationElementId" "unsigned16";
  entry 0 304 304 "selectorAlgorithm" "unsigned16";
  entry 0 305 305 "samplingPacketInterval" "unsigned32";
  entry 0 306 306 "samplingPacketSpace" "unsigned32";
  entry 0 307 307 "samplingTimeInterval" "unsigned32";
  entry 0 308 308 "samplingTimeSpace" "unsigned32";
  entry 0 309 309 "samplingSize" "unsigned32";
  entry 0 310 310 "samplingPopulation" "unsigned32";
  entry 0 311 311 "samplingProbability" "float64";
  entry 0 312 312 "dataLinkFrameSize" "unsigned16";
  entry 0 313 313 "ipHeaderPacketSection" "octetArray";
  entry 0 314 314 "ipPayloadPacketSection" "octetArray";
  entry 0 315 315 "dataLinkFrameSection" "octetArray";
  entry 0 316 316 "mplsLabelStackSection" "octetArray";
  entry 0 317 317 "mplsPayloadPacketSection" "octetArray";
  entry 0 318 318 "selectorIdTotalPktsObserved" "unsigned64";
  entry 0 319 319 "selectorIdTotalPktsSelected" "unsigned64";
  entry 0 320 320 "absoluteError" "float64";
  entry 0 321 321 "relativeError" "float64";
  entry 0 322 322 "observationTimeSeconds" "dateTimeSeconds";
  entry 0 323 323 "observationTimeMilliseconds" "dateTimeMilliseconds";
  entry 0 324 324 "observationTimeMicroseconds" "dateTimeMicroseconds";
  entry 0 325 325 "observationTimeNanoseconds" "dateTimeNanoseconds";
  entry 0 326 326 "digestHashValue" "unsigned64";
  entry 0 327 327 "hashIPPayloadOffset" "unsigned64";
  entry 0 328 328 "hashIPPayloadSize" "unsigned64";
  entry 0 329 329 "hashOutputRangeMin" "unsigned64";
  entry 0 330 330 "hashOutputRangeMax" "unsigned64";
  entry 0 331 331 "hashSelectedRangeMin" "unsigned64";
  entry 0 332 332 "hashSelectedRangeMax" "unsigned64";
  entry 0 333 333 "hashDigestOutput" "boolean";
  entry 0 334 334 "hashInitialiserValue" "unsigned64";
  entry 0 335 335 "selectorName" "string";
  entry 0 336 336 "upperCILimit" "float64";
  entry 0 337 337 "lowerCILimit" "float64";
  entry 0 338 338 "confidenceLevel" "float64";
  entry 0 339 339 "informationElementDataType" "unsigned8";
  entry 0 340 340 "informationElementDescription" "string";
  entry 0 341 341 "informationElementName" "string";
  entry 0 342 342 "informationElementRangeBegin" "unsigned64";
  entry 0 343 343 "informationElementRangeEnd" "unsigned64";
  entry 0 344 344 "informationElementSemantics" "unsigned8";
  entry 0 345 345 "informationElementUnits" "unsigned16";
  entry 0 346 346 "privateEnterpriseNumber" "unsigned32";
  entry 0 347 347 "virtualStationInterfaceId" "octetArray";
  entry 0 348 348 "virtualStationInterfaceName" "string";
  entry 0 349 349 "virtualStationUUID" "octetArray";
  entry 0 350 350 "virtualStationName" "string";
  entry 0 351 351 "layer2SegmentId" "unsigned64";
  entry 0 352 352 "layer2OctetDeltaCount" "unsigned64";
  entry 0 353 353 "layer2OctetTotalCount" "unsigned64";
  entry 0 354 354 "ingressUnicastPacketTotalCount" "unsigned64";
  entry 0 355 355 "ingressMulticastPacketTotalCount" "unsigned64";
  entry 0 356 356 "ingressBroadcastPacketTotalCount" "unsigned64";
  entry 0 357 357 "egressUnicastPacketTotalCount" "unsigned64";
  entry 0 358 358 "egressBroadcastPacketTotalCount" "unsigned64";
  entry 0 359 359 "monitoringIntervalStartMilliSeconds" "dateTimeMilliseconds";
  entry 0 360 360 "monitoringIntervalEndMilliSeconds" "dateTimeMilliseconds";
  entry 0 361 361 "portRangeStart" "unsigned16";
  entry 0 362 362 "portRangeEnd" "unsigned16";
  entry 0 363 363 "portRangeStepSize" "unsigned16";
  entry 0 364 364 "portRangeNumPorts" "unsigned16";
  entry 0 365 365 "staMacAddress" "macAddress";
  entry 0 366 366 "staIPv4Address" "ipv4Address";
  entry 0 367 367 "wtpMacAddress" "macAddress";
  entry 0 368 368 "ingressInterfaceType" "unsigned32";
  entry 0 369 369 "egressInterfaceType" "unsigned32";
  entry 0 370 370 "rtpSequenceNumber" "unsigned16";
  entry 0 371 371 "userName" "string";
  entry 0 372 372 "applicationCategoryName" "string";
  entry 0 373 373 "applicationSubCategoryName" "string";
  entry 0 374 374 "applicationGroupName" "string";
  entry 0 375 375 "originalFlowsPresent" "unsigned64";
  entry 0 376 376 "originalFlowsInitiated" "unsigned64";
  entry 0 377 377 "originalFlowsCompleted" "unsigned64";
  entry 0 378 378 "distinctCountOfSourceIPAddress" "unsigned64";
  entry 0 379 379 "distinctCountOfDestinationIPAddress" "unsigned64";
  entry 0 380 380 "distinctCountOfSourceIPv4Address" "unsigned32";
  entry 0 381 381 "distinctCountOfDestinationIPv4Address" "unsigned32";
  entry 0 382 382 "distinctCountOfSourceIPv6Address" "unsigned64";
  entry 0 383 383 "distinctCountOfDestinationIPv6Address" "unsigned64";
  entry 0 384 384 "valueDistributionMethod" "unsigned8";
  entry 0 385 385 "rfc3550JitterMilliseconds" "unsigned32";
  entry 0 386 386 "rfc3550JitterMicroseconds" "unsigned32";
  entry 0 387 387 "rfc3550JitterNanoseconds" "unsigned32";
  entry 0 388 388 "dot1qDEI" "boolean";
  entry 0 389 389 "dot1qCustomerDEI" "boolean";
  entry 0 390 390 "flowSelectorAlgorithm" "unsigned16";
  entry 0 391 391 "flowSelectedOctetDeltaCount" "unsigned64";
  entry 0 392 392 "flowSelectedPacketDeltaCount" "unsigned64";
  entry 0 393 393 "flowSelectedFlowDeltaCount" "unsigned64";
  entry 0 394 394 "selectorIDTotalFlowsObserved" "unsigned64";
  entry 0 395 395 "selectorIDTotalFlowsSelected" "unsigned64";
  entry 0 396 396 "samplingFlowInterval" "unsigned64";
  entry 0 397 397 "samplingFlowSpacing" "unsigned64";
  entry 0 398 398 "flowSamplingTimeInterval" "unsigned64";
  entry 0 399 399 "flowSamplingTimeSpacing" "unsigned64";
  entry 0 400 400 "hashFlowDomain" "unsigned16";
  entry 0 401 401 "transportOctetDeltaCount" "unsigned64";
  entry 0 402 402 "transportPacketDeltaCount" "unsigned64";
  entry 0 403 403 "originalExporterIPv4Address" "ipv4Address";
  entry 0 404 404 "originalExporterIPv6Address" "ipv6Address";
  entry 0 405 405 "originalObservationDomainId" "unsigned32";
  entry 0 406 406 "intermediateProcessId" "unsigned32";
  entry 0 407 407 "ignoredDataRecordTotalCount" "unsigned64";
  entry 0 408 408 "dataLinkFrameType" "unsigned16";
  entry 0 409 409 "sectionOffset" "unsigned16";
  entry 0 410 410 "sectionExportedOctets" "unsigned16";
  entry 0 411 411 "dot1qServiceInstanceTag" "octetArray";
  entry 0 412 412 "dot1qServiceInstanceId" "unsigned32";
  entry 0 413 413 "dot1qServiceInstancePriority" "unsigned8";
  entry 0 414 414 "dot1qCustomerSourceMacAddress" "macAddress";
  entry 0 415 415 "dot1qCustomerDestinationMacAddress" "macAddress";
  entry 0 417 417 "postLayer2OctetDeltaCount" "unsigned64";
  entry 0 418 418 "postMCastLayer2OctetDeltaCount" "unsigned64";
  entry 0 420 420 "postLayer2OctetTotalCount" "unsigned64";
  entry 0 421 421 "postMCastLayer2OctetTotalCount" "unsigned64";
  entry 0 422 422 "minimumLayer2TotalLength" "unsigned64";
  entry 0 423 423 "maximumLayer2TotalLength" "unsigned64";
  entry 0 424 424 "droppedLayer2OctetDeltaCount" "unsigned64";
  entry 0 425 425 "droppedLayer2OctetTotalCount" "unsigned64";
  entry 0 426 426 "ignoredLayer2OctetTotalCount" "unsigned64";
  entry 0 427 427 "notSentLayer2OctetTotalCount" "unsigned64";
  entry 0 428 428 "layer2OctetDeltaSumOfSquares" "unsigned64";
  entry 0 429 429 "layer2OctetTotalSumOfSquares" "unsigned64";
  entry 0 430 430 "layer2FrameDeltaCount" "unsigned64";
  entry 0 431 431 "layer2FrameTotalCount" "unsigned64";
  entry 0 432 432 "pseudoWireDestinationIPv4Address" "ipv4Address";
  entry 0 433 433 "ignoredLayer2FrameTotalCount" "unsigned64"
].

Definition InfoModel : IANAInfoModel :=
  list_to_map (InfoModel_1 ++ InfoModel_2 ++ InfoModel_3).

(** What [LoadExtElements] finds at [cfgPath/ipfix.elements]: no file, a file that
    cannot be read, or a file from which [yaml.Unmarshal] filled the map (its error is
    ignored by the code, so the map is whatever was filled in). *)
Inductive ext_file : Type :=
| ExtMissing
| ExtUnreadable
| ExtParsed (ipfixElements : gmap Z (gmap Z (list string))).

(** The body of the inner loop, for one element of one enterprise. *)
Definition load_element (PEN : Z) (elementID : Z) (prop : list string)
    (im : IANAInfoModel) : IANAInfoModel :=
  match prop with
  | name :: ty :: _ =>
      <[mkElementKey PEN elementID := mkInfoElementEntry elementID name (FieldTypes_at ty)]> im
  | _ => im
  end.

Definition load_enterprise (PEN : Z) (elements : gmap Z (list string))
    (im : IANAInfoModel) : IANAInfoModel :=
  map_fold (load_element PEN) im elements.

(** [LoadExtElements]: the new value of the global [InfoModel]. *)
Definition LoadExtElements (file : ext_file) (cur : IANAInfoModel) : IANAInfoModel :=
  match file with
  | ExtMissing | ExtUnreadable => cur
  | ExtParsed ipfixElements => map_fold load_enterprise ∅ ipfixElements
  end.

(** ** Theorems *)

(** What a two-or-more-column row of the external file defines. *)
Definition ext_entry (id : Z) (prop : list string) : option InfoElementEntry :=
  match prop with
  | name :: ty :: _ => Some (mkInfoElementEntry id name (FieldTypes_at ty))
  | _ => None
  end.

Lemma load_element_lookup PEN id prop im k :
  load_element PEN id prop im !! k =
    if decide (k = mkElementKey PEN id) then
      match ext_entry id prop with Some e => Some e | None => im !! k end
    else im !! k.
Proof.
  unfold load_element, ext_entry. destruct prop as [|name [|ty rest]]; case_decide; subst;
    rewrite ?lookup_insert_eq, ?lookup_insert_ne by done; done.
Qed.

Lemma load_enterprise_lookup PEN els im k :
  load_enterprise PEN els im !! k =
    match (if decide (key_EnterpriseNo k = PEN)
           then els !! key_ElementID k ≫= ext_entry (key_ElementID k) else None) with
    | Some e => Some e
    | None => im !! k
    end.
Proof.
  destruct k as [pen id]; simpl. unfold load_enterprise.
  apply (map_fold_weak_ind (fun r els => r !! mkElementKey pen id =
    match (if decide (pen = PEN) then els !! id ≫= ext_entry id else None) with
    | Some e => Some e
    | None => im !! mkElementKey pen id
    end)).
  - rewrite lookup_empty. by case_decide.
  - clear els. intros i prop els r Hi IH. rewrite load_element_lookup, IH. repeat case_decide; simplify_eq.
    + rewrite lookup_insert_eq, Hi. simpl. done.
    + by rewrite lookup_insert_ne by congruence.
    + done.
Qed.

(** Once an external element file has been read, an element is known exactly
    when the file has a row for its enterprise number and id with at least two
    columns, and its entry is built from that row; nothing of the built-in table
    survives, and the order in which Go ranges over the two maps does not matter. *)
Theorem LoadExtElements_lookup (m : gmap Z (gmap Z (list string))) (cur : IANAInfoModel)
    (k : ElementKey) :
  LoadExtElements (ExtParsed m) cur !! k =
    m !! key_EnterpriseNo k ≫= fun els =>
      els !! key_ElementID k ≫= ext_entry (key_ElementID k).
Proof.
  simpl. apply (map_fold_weak_ind (fun r m => r !! k =
    m !! key_EnterpriseNo k ≫= fun els =>
      els !! key_ElementID k ≫= ext_entry (key_ElementID k))); [done|].
  clear m. intros pen els m r Hpen IH.
  rewrite load_enterprise_lookup. case_decide; subst.
  - rewrite lookup_insert_eq. simpl. rewrite IH, Hpen. simpl.
    destruct (els !! _) as [prop|]; simpl; [by destruct (ext_entry _ prop)|done].
  - rewrite lookup_insert_ne by done. exact IH.
Qed.

(** The built-in table is a well-formed information model: it has 402 elements,
    all of the IANA enterprise number 0, each stored under its own field id, and every
    id fits the 15 bits of a field specifier. *)
Theorem InfoModel_wf :
  size InfoModel = 402%nat /\
  map_Forall (fun k e => key_EnterpriseNo k = 0 /\ FieldID e = key_ElementID k /\
                         0 < key_ElementID k < 2 ^ 15) InfoModel.
Proof. split; [vm_compute; reflexivity|]. apply (bool_decide_unpack _). vm_compute. exact I. Qed.
