(* ===== verification/Interpret.v ===== *)
(** Typed field values, [src/ipfix/interpret.go].

    [Value] lists the dynamic types a decoded field's [interface{}] can hold: the
    results of [Interpret], and the [int]/[uint] cases that the marshallers also
    switch on.  A float is kept as its IEEE bits ([math.Float32frombits] is a
    reinterpretation of the bits). *)

From S2P Require Import Prelude InfoModel.

Inductive Value : Type :=
| VBool (b : bool)
| VUint (z : Z) | VUint8 (z : Z) | VUint16 (z : Z) | VUint32 (z : Z) | VUint64 (z : Z)
| VInt (z : Z) | VInt8 (z : Z) | VInt16 (z : Z) | VInt32 (z : Z) | VInt64 (z : Z)
| VFloat32 (bits : Z) | VFloat64 (bits : Z)
| VHardwareAddr (b : list byte)
| VString (s : list byte)
| VIP (b : list byte)
| VBytes (b : list byte).

#[global] Instance Value_eq_dec : EqDecision Value.
Proof. solve_decision. Defined.

Definition minLen (t : FieldType) : Z :=
  match t with
  | Boolean => 1
  | Uint8 | Int8 => 1
  | Uint16 | Int16 => 2
  | Uint32 | Int32 | Float32 => 4
  | DateTimeSeconds => 4
  | Uint64 | Int64 | Float64 => 8
  | DateTimeMilliseconds | DateTimeMicroseconds | DateTimeNanoseconds => 8
  | MacAddress => 6
  | Ipv4Address => 4
  | Ipv6Address => 16
  | _ => 0
  end.

Definition Interpret {S} (b : list byte) (t : FieldType) : M S Value :=
  if len b <? minLen t then mret (VBytes b)
  else
    match t with
    | Boolean => x ← index b 0; mret (VBool (u8 x =? 1))
    | Uint8 => x ← index b 0; mret (VUint8 (u8 x))
    | Uint16 => x ← BigEndian_Uint 2 b; mret (VUint16 x)
    | Uint32 => x ← BigEndian_Uint 4 b; mret (VUint32 x)
    | Uint64 => x ← BigEndian_Uint 8 b; mret (VUint64 x)
    | Int8 => x ← index b 0; mret (VInt8 (int8 (u8 x)))
    | Int16 => x ← BigEndian_Uint 2 b; mret (VInt16 (int16 x))
    | Int32 => x ← BigEndian_Uint 4 b; mret (VInt32 (int32 x))
    | Int64 => x ← BigEndian_Uint 8 b; mret (VInt64 (int64 x))
    | Float32 => x ← BigEndian_Uint 4 b; mret (VFloat32 x)
    | Float64 => x ← BigEndian_Uint 8 b; mret (VFloat64 x)
    | MacAddress => mret (VHardwareAddr b)
    | String_ => mret (VString b)
    | Ipv4Address | Ipv6Address => mret (VIP b)
    | DateTimeSeconds => x ← BigEndian_Uint 4 b; mret (VUint32 x)
    | DateTimeMilliseconds | DateTimeMicroseconds | DateTimeNanoseconds =>
        x ← BigEndian_Uint 8 b; mret (VUint64 x)
    | Unknown | OctetArray => mret (VBytes b)
    end.

(** ** Theorems *)

(** The value [Interpret] computes, as a pure function. *)
Definition interpret_spec (b : list byte) (t : FieldType) : Value :=
  if len b <? minLen t then VBytes b
  else
    let num n := be_decode (take n b) in
    match t with
    | Boolean => VBool (num 1%nat =? 1)
    | Uint8 => VUint8 (num 1%nat)
    | Uint16 => VUint16 (num 2%nat)
    | Uint32 | DateTimeSeconds => VUint32 (num 4%nat)
    | Uint64 | DateTimeMilliseconds | DateTimeMicroseconds | DateTimeNanoseconds =>
        VUint64 (num 8%nat)
    | Int8 => VInt8 (int8 (num 1%nat))
    | Int16 => VInt16 (int16 (num 2%nat))
    | Int32 => VInt32 (int32 (num 4%nat))
    | Int64 => VInt64 (int64 (num 8%nat))
    | Float32 => VFloat32 (num 4%nat)
    | Float64 => VFloat64 (num 8%nat)
    | MacAddress => VHardwareAddr b
    | String_ => VString b
    | Ipv4Address | Ipv6Address => VIP b
    | Unknown | OctetArray => VBytes b
    end.

(** Every number is in the range of its Go type. *)
Definition value_in_range (v : Value) : Prop :=
  match v with
  | VUint8 z => 0 <= z < 2 ^ 8
  | VUint16 z => 0 <= z < 2 ^ 16
  | VUint32 z | VFloat32 z => 0 <= z < 2 ^ 32
  | VUint z | VUint64 z | VFloat64 z => 0 <= z < 2 ^ 64
  | VInt8 z => - 2 ^ 7 <= z < 2 ^ 7
  | VInt16 z => - 2 ^ 15 <= z < 2 ^ 15
  | VInt32 z => - 2 ^ 31 <= z < 2 ^ 31
  | VInt z | VInt64 z => - 2 ^ 63 <= z < 2 ^ 63
  | _ => True
  end.

Lemma byte_at_0 b : 1 <= len b -> u8 (byte_at b 0) = be_decode (take 1 b).
Proof. destruct b; [by rewrite len_nil|done]. Qed.

Lemma Interpret_eq {S} b t (s : S) : Interpret b t s = (s, Ok (interpret_spec b t)).
Proof.
  unfold Interpret, interpret_spec. destruct (Z.ltb_spec (len b) (minLen t)); [done|].
  destruct t; cbn [minLen] in *; unmonad; try done;
    first [rewrite BigEndian_Uint_ok by lia | rewrite index_ok by lia]; try done;
    by rewrite byte_at_0 by lia.
Qed.

Lemma be_decode_take_range n b : Z.of_nat n <= len b -> 0 <= be_decode (take n b) < 256 ^ Z.of_nat n.
Proof.
  intros Hn. pose proof (be_decode_range (take n b)) as H.
  unfold len in *. rewrite length_take in H. by replace (n `min` length b)%nat with n in H by lia.
Qed.

(** [Interpret] never panics and leaves no state behind: every byte slice and
    type give a value, the raw bytes when the slice is shorter than the type's minimum
    length, and any number in it is within the range of its Go type. *)
Theorem Interpret_total {S} (b : list byte) (t : FieldType) (s : S) :
  exists v, Interpret b t s = (s, Ok v) /\ value_in_range v /\
            (len b < minLen t -> v = VBytes b).
Proof.
  exists (interpret_spec b t). rewrite Interpret_eq. split; [done|].
  unfold interpret_spec. destruct (Z.ltb_spec (len b) (minLen t)) as [H|H]; [done|].
  split; [|lia].
  destruct t; simpl in *; try done.
  all: match goal with |- context [take ?n ?l] =>
         pose proof (be_decode_take_range n l ltac:(simpl; lia)) as Hr; simpl in Hr end.
  all: solve [ lia | apply (wrapS_range 8); lia | apply (wrapS_range 16); lia
             | apply (wrapS_range 32); lia | apply (wrapS_range 64); lia ].
Qed.

(** The Go type of a value of an abstract type; raw bytes only when the type is raw bytes or
    the field is shorter than the type. *)
Definition has_type (t : FieldType) (v : Value) : Prop :=
  value_in_range v /\
  match t, v with
  | Unknown, VBytes _ | OctetArray, VBytes _ => True
  | t, VBytes b => len b < minLen t
  | Boolean, VBool _ => True
  | Uint8, VUint8 _ | Uint16, VUint16 _ | Uint32, VUint32 _ | Uint64, VUint64 _ => True
  | Int8, VInt8 _ | Int16, VInt16 _ | Int32, VInt32 _ | Int64, VInt64 _ => True
  | Float32, VFloat32 _ | Float64, VFloat64 _ => True
  | MacAddress, VHardwareAddr b => 6 <= len b
  | String_, VString _ => True
  | Ipv4Address, VIP b => 4 <= len b
  | Ipv6Address, VIP b => 16 <= len b
  | DateTimeSeconds, VUint32 _ => True
  | DateTimeMilliseconds, VUint64 _ | DateTimeMicroseconds, VUint64 _
  | DateTimeNanoseconds, VUint64 _ => True
  | _, _ => False
  end.

Lemma interpret_has_type b t : has_type t (interpret_spec b t).
Proof.
  split.
  - destruct (Interpret_total b t tt) as (v & E & Hv & _). rewrite Interpret_eq in E. by injection E as <-.
  - unfold interpret_spec. destruct (Z.ltb_spec (len b) (minLen t)); [by destruct t|].
    by destruct t; cbn [minLen] in *.
Qed.

Lemma wrapS_of_wrapU w z : 0 < w -> - 2 ^ (w - 1) <= z < 2 ^ (w - 1) -> wrapS w (wrapU w z) = z.
Proof.
  intros Hw Hz. unfold wrapS, wrapU. rewrite Zplus_mod_idemp_l, Z.mod_small; [lia|].
  assert (2 ^ w = 2 * 2 ^ (w - 1)) by (rewrite <- Z.pow_succ_r by lia; f_equal; lia). lia.
Qed.

(** The width in bytes of the integer types, and whether they are signed. *)
Definition int_type (t : FieldType) : option (nat * bool) :=
  match t with
  | Uint8 => Some (1%nat, false) | Uint16 => Some (2%nat, false)
  | Uint32 => Some (4%nat, false) | Uint64 => Some (8%nat, false)
  | Int8 => Some (1%nat, true) | Int16 => Some (2%nat, true)
  | Int32 => Some (4%nat, true) | Int64 => Some (8%nat, true)
  | _ => None
  end.

Definition int_value (v : Value) : option Z :=
  match v with
  | VUint8 z | VUint16 z | VUint32 z | VUint64 z
  | VInt8 z | VInt16 z | VInt32 z | VInt64 z => Some z
  | _ => None
  end.

Definition int_range (n : nat) (signed : bool) (z : Z) : Prop :=
  if signed then - 2 ^ (8 * Z.of_nat n - 1) <= z < 2 ^ (8 * Z.of_nat n - 1)
  else 0 <= z < 2 ^ (8 * Z.of_nat n).

(** Integers survive the wire: the big-endian two's-complement encoding of an
    integer of any of the eight integer types is interpreted as that integer, also
    when bytes follow it in the field. *)
Theorem Interpret_roundtrip {S} (t : FieldType) (n : nat) (sg : bool) (z : Z)
    (rest : list byte) (s : S) :
  int_type t = Some (n, sg) -> int_range n sg z ->
  exists v, Interpret (be_encode n z ++ rest) t s = (s, Ok v) /\ int_value v = Some z.
Proof.
  intros Ht Hz. exists (interpret_spec (be_encode n z ++ rest) t). split; [apply Interpret_eq|].
  pose proof (len_nonneg rest).
  assert (take n (be_encode n z ++ rest) = be_encode n z) as Htake
    by (by rewrite take_app_length' by (by rewrite length_be_encode)).
  unfold interpret_spec. rewrite len_app, len_be_encode.
  destruct t; simpl in Ht; simplify_eq; cbn [minLen];
    (case_test; [lia|]); rewrite Htake, be_decode_encode; cbn [int_value]; f_equal;
    unfold int_range in Hz; simpl in *;
    solve [ by apply Z.mod_small
          | apply (wrapS_of_wrapU 8); simpl; lia
          | apply (wrapS_of_wrapU 16); simpl; lia
          | apply (wrapS_of_wrapU 32); simpl; lia
          | apply (wrapS_of_wrapU 64); simpl; lia ].
Qed.

Lemma Interpret_roundtrip_witness :
  int_type Int16 = Some (2%nat, true) /\ int_range 2 true (-2) /\
  exists v, Interpret (be_encode 2 (-2) ++ bytes [7]) Int16 () = ((), Ok v) /\
            int_value v = Some (-2).
Proof.
  split; [reflexivity|]. split; [unfold int_range; simpl; lia|].
  apply (Interpret_roundtrip Int16 2 true (-2) (bytes [7]) ()); [reflexivity|].
  unfold int_range; simpl; lia.
Defined.
