(* ===== verification/TemplateCache.v ===== *)
(** The template caches, [src/ipfix/memcache.go] and [src/netflow/v9/memcache.go].

    The two Go files are the same code over two template types, so the cache is
    modelled once, over any template type [T].  A cache is a list of shards, each a
    map from 32-bit keys to stamped templates; the methods run in the state monad over
    the cache (the shards are shared by reference among the workers, and each method
    holds the shard's lock for its only access, so a run of the system is a sequence of
    these methods).  [time.Now().Unix()] is the argument [now].

    The class [StoreOps] is what the decoders' code calls, [TemplateStore] what their
    theorems rely on; [MemCache_store] discharges it for the sharded cache. *)

From stdpp Require Import sorting.
From S2P Require Import Prelude.

(** ** [hash/fnv.New32]: FNV-1 *)

Definition offset32 : Z := 2166136261.
Definition prime32 : Z := 16777619.

Definition fnv32_write (h : Z) (b : list byte) : Z :=
  fold_left (fun h c => Z.lxor (uint32 (h * prime32)) (u8 c)) b h.

Definition fnv32 (b : list byte) : Z := fnv32_write offset32 b.

(** ** The sharded cache *)

Definition shardNo : Z := 32.

Record Data (T : Type) : Type := mkData { Template : T; Timestamp : Z }.
Arguments mkData {T} _ _.
Arguments Template {T} _.
Arguments Timestamp {T} _.

(** [TemplatesShard]: the map; the embedded [sync.RWMutex] is the atomicity of the
    methods. *)
Record TemplatesShard (T : Type) : Type := mkShard { Templates : gmap Z (Data T) }.
Arguments mkShard {T} _.
Arguments Templates {T} _.

Abbreviation MemCache T := (list (TemplatesShard T)).

Record memCacheDisk (T : Type) : Type := mkDisk { Cache : MemCache T; ShardNo : Z }.
Arguments mkDisk {T} _ _.
Arguments Cache {T} _.
Arguments ShardNo {T} _.

Section mem_cache.
Context {T : Type}.

(** What reading and unmarshalling the cache file gives: [None] when either fails. *)
Definition GetCache (file : option (memCacheDisk T)) : MemCache T :=
  match file with
  | Some mem =>
      if ShardNo mem =? shardNo then Cache mem
      else replicate (Z.to_nat shardNo) (mkShard ∅)
  | None => replicate (Z.to_nat shardNo) (mkShard ∅)
  end.

(** The key bytes: the address followed by the template id. *)
Definition cache_key (id : Z) (addr : list byte) : Z := fnv32 (addr ++ be_encode 2 id).

(** The shard (its index stands for the pointer), its contents, and the hash. *)
Definition getShard (id : Z) (addr : list byte) : M (MemCache T) (Z * TemplatesShard T * Z) :=
  m ← get;
  let hSum32 := cache_key id addr in
  shard ← index m (hSum32 mod shardNo);
  mret (hSum32 mod shardNo, shard, hSum32).

Definition MemCache_insert (id : Z) (addr : list byte) (tr : T) (now : Z) : M (MemCache T) () :=
  '(i, shard, key) ← getShard id addr;
  m ← get;
  put (<[Z.to_nat i := mkShard (<[key := mkData tr now]> (Templates shard))]> m).

Definition MemCache_retrieve (id : Z) (addr : list byte) : M (MemCache T) (option T) :=
  '(_, shard, key) ← getShard id addr;
  mret (Template <$> Templates shard !! key).

(** The ids of all stored templates in increasing order; [tid] reads a template's id. *)
Definition allSetIds (tid : T -> Z) (m : MemCache T) : list Z :=
  merge_sort Z.le (m ≫= fun shard => (fun kv => tid (Template kv.2)) <$> map_to_list (Templates shard)).

(** The value [Dump] writes to the cache file. *)
Definition Dump (m : MemCache T) : memCacheDisk T := mkDisk m shardNo.

End mem_cache.

(** ** The interface the decoders use *)

(** The operations of a store of templates of type [T]: all that the decoders' code
    calls. *)
Class StoreOps (T MC : Type) : Type := {
  ts_insert : Z -> list byte -> T -> Z -> M MC ();
  ts_retrieve : Z -> list byte -> M MC (option T)
}.

(** Operations with their laws: an abstraction [ts_lookup] by 32-bit key that
    [ts_retrieve] reads and [ts_insert] updates at the key of an id and an address. *)
Class TemplateStore (T MC : Type) : Type := {
  ts_ops :: StoreOps T MC;
  ts_wf : MC -> Prop;
  ts_lookup : MC -> Z -> option T;
  ts_retrieve_ok m id addr :
    ts_wf m -> ts_retrieve id addr m = (m, Ok (ts_lookup m (cache_key id addr)));
  ts_insert_ok m id addr t now :
    ts_wf m -> exists m', ts_insert id addr t now m = (m', Ok tt) /\ ts_wf m' /\
      forall k, ts_lookup m' k = if decide (k = cache_key id addr) then Some t else ts_lookup m k
}.

(** Keys are 32-bit numbers. *)
Lemma lxor_range w a b : 0 <= w -> 0 <= a < 2 ^ w -> 0 <= b < 2 ^ w -> 0 <= Z.lxor a b < 2 ^ w.
Proof.
  intros Hw Ha Hb.
  assert (Z.lxor a b = Z.lxor a b mod 2 ^ w) as ->; [|apply Z.mod_pos_bound; by apply Z.pow_pos_nonneg].
  apply Z.bits_inj'. intros i Hi. rewrite Z.lxor_spec.
  destruct (Z.lt_ge_cases i w); [by rewrite Z.mod_pow2_bits_low, Z.lxor_spec|].
  rewrite Z.mod_pow2_bits_high by lia.
  rewrite <- (Z.mod_small a (2 ^ w)), <- (Z.mod_small b (2 ^ w)) by done.
  by rewrite !Z.mod_pow2_bits_high by lia.
Qed.

Lemma cache_key_range id addr : 0 <= cache_key id addr < 2 ^ 32.
Proof.
  unfold cache_key, fnv32, fnv32_write. assert (0 <= offset32 < 2 ^ 32) as H0 by done. revert H0.
  generalize offset32. induction (addr ++ be_encode 2 id) as [|c b IH]; intros h Hh; [done|]. cbn. apply IH.
  apply lxor_range; [lia|by apply wrapU_range|]. pose proof (u8_range c). lia.
Qed.

(** An xor with a byte leaves all but the low eight bits. *)
Lemma lxor_byte_div a b : 0 <= b < 256 -> Z.lxor a b / 256 = a / 256.
Proof.
  intros Hb. change 256 with (2 ^ 8). rewrite <- !Z.shiftr_div_pow2, Z.shiftr_lxor by lia.
  by rewrite (Z.shiftr_div_pow2 b), Z.div_small, Z.lxor_0_r by lia.
Qed.

Lemma lxor_cancel a b c : Z.lxor a b = Z.lxor a c -> b = c.
Proof.
  intros H. apply (f_equal (Z.lxor a)) in H. by rewrite <- !Z.lxor_assoc, Z.lxor_nilpotent, !Z.lxor_0_l in H.
Qed.

(** Numbers below 2^32 that agree but for a byte, and whose products with the prime agree
    but for a byte, are equal. *)
Lemma prime32_separates x y :
  x / 256 = y / 256 -> uint32 (x * prime32) / 256 = uint32 (y * prime32) / 256 -> x = y.
Proof.
  intros Hx Hp. unfold wrapU in Hp. change (2 ^ 32) with 4294967296 in Hp. unfold prime32 in Hp.
  pose proof (Z.div_mod x 256 ltac:(lia)). pose proof (Z.mod_pos_bound x 256 ltac:(lia)).
  pose proof (Z.div_mod y 256 ltac:(lia)). pose proof (Z.mod_pos_bound y 256 ltac:(lia)).
  pose proof (Z.div_mod (x * 16777619) 4294967296 ltac:(lia)) as Dx.
  pose proof (Z.div_mod (y * 16777619) 4294967296 ltac:(lia)) as Dy.
  set (u := x * 16777619 mod 4294967296) in *. set (v := y * 16777619 mod 4294967296) in *.
  pose proof (Z.div_mod u 256 ltac:(lia)). pose proof (Z.mod_pos_bound u 256 ltac:(lia)).
  pose proof (Z.div_mod v 256 ltac:(lia)). pose proof (Z.mod_pos_bound v 256 ltac:(lia)).
  assert (exists d e k, x = y + d /\ - 256 < d < 256 /\ - 256 < e < 256 /\
    d * 16777216 + (403 * d - e) = k * 4294967296) as (d & e & k & -> & Hd & He & Hk).
  { exists (x - y), (u - v), (x * 16777619 / 4294967296 - y * 16777619 / 4294967296). lia. }
  assert (403 * d - e = 0) by lia. lia.
Qed.

Lemma cache_key_unfold id addr :
  cache_key id addr =
  Z.lxor (uint32 (Z.lxor (uint32 (fnv32 addr * prime32)) (id / 256 mod 256) * prime32)) (id mod 256).
Proof.
  unfold cache_key, fnv32, fnv32_write. rewrite fold_left_app. cbn [be_encode fold_left].
  by rewrite !u8_byte_of_Z, Z.pow_0_r, Z.div_1_r, Z.pow_1_r.
Qed.

(** That no template id of an exporter has a given key can be tested on the high byte of
    the ids alone. *)
Lemma cache_key_avoids k addr :
  forallb (fun hi => negb (cache_key (256 * hi) addr / 256 =? k / 256)) (seqZ 0 256) = true ->
  forall id, cache_key id addr <> k.
Proof.
  intros H id <-. rewrite List.forallb_forall in H. specialize (H (id / 256 mod 256)).
  pose proof (Z.mod_pos_bound (id / 256) 256 ltac:(lia)). pose proof (Z.mod_pos_bound id 256 ltac:(lia)).
  rewrite !cache_key_unfold, !lxor_byte_div in H by (try apply Z.mod_pos_bound; lia).
  rewrite (Z.mul_comm 256), Z.div_mul, Z.mod_mod, Z.eqb_refl in H by lia.
  assert (id / 256 mod 256 ∈ seqZ 0 256) as Hin by (apply elem_of_seqZ; lia).
  by apply list_elem_of_In, H in Hin.
Qed.

(** C33: the templates of one exporter never share a key, although the keys are hashes: two
    template ids have the same key under one address exactly when they are the same
    16-bit number. *)
Theorem cache_key_id_inj (addr : list byte) (id1 id2 : Z) :
  cache_key id1 addr = cache_key id2 addr <-> id1 mod 65536 = id2 mod 65536.
Proof.
  rewrite !cache_key_unfold. set (h := uint32 (fnv32 addr * prime32)).
  change 65536 with (256 * 256). rewrite !Z.rem_mul_r by lia.
  pose proof (Z.mod_pos_bound (id1 / 256) 256 ltac:(lia)). pose proof (Z.mod_pos_bound (id2 / 256) 256 ltac:(lia)).
  pose proof (Z.mod_pos_bound id1 256 ltac:(lia)). pose proof (Z.mod_pos_bound id2 256 ltac:(lia)).
  split; intros Hk.
  - assert (Z.lxor h (id1 / 256 mod 256) = Z.lxor h (id2 / 256 mod 256)) as E.
    { apply prime32_separates; [by rewrite !lxor_byte_div|].
      apply (f_equal (fun z => z / 256)) in Hk. by rewrite !lxor_byte_div in Hk. }
    rewrite E in Hk. apply lxor_cancel in Hk, E. lia.
  - assert (id1 / 256 mod 256 = id2 / 256 mod 256) as -> by lia. f_equal. lia.
Qed.

Section mem_cache_facts.
Context {T : Type}.
Implicit Types m : MemCache T.

(** Well-formed: all shards are there. *)
Definition cache_wf m : Prop := length m = Z.to_nat shardNo.

(** The template stored under a key. *)
Definition cache_lookup m (k : Z) : option T :=
  m !! Z.to_nat (k mod shardNo) ≫= fun shard => Template <$> Templates shard !! k.

Lemma shard_index_range k : 0 <= k mod shardNo < 32.
Proof. by apply Z.mod_pos_bound. Qed.

Lemma getShard_ok m id addr :
  cache_wf m -> exists shard, m !! Z.to_nat (cache_key id addr mod shardNo) = Some shard /\
    getShard id addr m = (m, Ok (cache_key id addr mod shardNo, shard, cache_key id addr)).
Proof.
  intros Hwf. pose proof (shard_index_range (cache_key id addr)).
  destruct (lookup_lt_is_Some_2 m (Z.to_nat (cache_key id addr mod shardNo))) as [shard Hs].
  { unfold cache_wf, shardNo in *. lia. }
  exists shard. split; [done|]. unfold getShard, index. unmonad.
  destruct (Z.ltb_spec (cache_key id addr mod shardNo) 0); [lia|]. by rewrite Hs.
Qed.

Lemma retrieve_ok m id addr :
  cache_wf m -> MemCache_retrieve id addr m = (m, Ok (cache_lookup m (cache_key id addr))).
Proof.
  intros Hwf. destruct (getShard_ok m id addr Hwf) as (shard & Hs & Hg).
  unfold MemCache_retrieve, cache_lookup. unmonad. rewrite Hg, Hs. done.
Qed.

Lemma insert_ok m id addr (t : T) now :
  cache_wf m -> exists m', MemCache_insert id addr t now m = (m', Ok tt) /\ cache_wf m' /\
    forall k, cache_lookup m' k =
      if decide (k = cache_key id addr) then Some t else cache_lookup m k.
Proof.
  intros Hwf. destruct (getShard_ok m id addr Hwf) as (shard & Hs & Hg).
  exists (<[Z.to_nat (cache_key id addr mod shardNo) :=
            mkShard (<[cache_key id addr := mkData t now]> (Templates shard))]> m).
  split; [|split].
  - unfold MemCache_insert. unmonad. rewrite Hg. reflexivity.
  - unfold cache_wf in *. by rewrite length_insert.
  - intros k. unfold cache_lookup. pose proof (lookup_lt_Some _ _ _ Hs) as Hlt.
    destruct (decide (k = cache_key id addr)) as [->|Hk].
    + rewrite list_lookup_insert_eq by done. simpl. by rewrite lookup_insert_eq.
    + destruct (decide (Z.to_nat (k mod shardNo) = Z.to_nat (cache_key id addr mod shardNo)))
        as [E|E].
      * rewrite E, list_lookup_insert_eq, Hs by done. simpl. by rewrite lookup_insert_ne.
      * by rewrite list_lookup_insert_ne.
Qed.

#[export] Instance MemCache_store : TemplateStore T (MemCache T) := {|
  ts_ops := {| ts_insert := MemCache_insert; ts_retrieve := MemCache_retrieve |};
  ts_wf := cache_wf;
  ts_lookup := cache_lookup;
  ts_retrieve_ok := retrieve_ok;
  ts_insert_ok := insert_ok
|}.

Lemma GetCache_fresh_wf : cache_wf (GetCache (T:=T) None).
Proof. done. Qed.

Lemma GetCache_fresh_lookup k : cache_lookup (GetCache (T:=T) None) k = None.
Proof.
  unfold cache_lookup. destruct (GetCache None !! _) as [shard|] eqn:E; [|done].
  apply list_elem_of_lookup_2, elem_of_replicate in E as [-> _]. done.
Qed.

End mem_cache_facts.

(** ** The sharded cache refines one flat map *)

Section refinement.
Context {T : Type}.

(** A history of cache operations, as the workers issue them. *)
Inductive cache_op : Type :=
| OpInsert (id : Z) (addr : list byte) (tr : T) (now : Z)
| OpRetrieve (id : Z) (addr : list byte).

(** The answers of the cache ([None] for an insertion, which returns nothing). *)
Definition run_op (o : cache_op) : M (MemCache T) (option (option T)) :=
  match o with
  | OpInsert id addr tr now => MemCache_insert id addr tr now;; mret None
  | OpRetrieve id addr => t ← MemCache_retrieve id addr; mret (Some t)
  end.

Fixpoint run_ops (l : list cache_op) : M (MemCache T) (list (option (option T))) :=
  match l with
  | [] => mret []
  | o :: l' => a ← run_op o; rest ← run_ops l'; mret (a :: rest)
  end.

(** The abstract specification: one map from keys to the last template inserted. *)
Fixpoint spec_ops (g : gmap Z T) (l : list cache_op) : list (option (option T)) :=
  match l with
  | [] => []
  | OpInsert id addr tr _ :: l' => None :: spec_ops (<[cache_key id addr := tr]> g) l'
  | OpRetrieve id addr :: l' => Some (g !! cache_key id addr) :: spec_ops g l'
  end.

Lemma run_ops_refines l m (g : gmap Z T) :
  cache_wf m -> (forall k, cache_lookup m k = g !! k) ->
  exists m', run_ops l m = (m', Ok (spec_ops g l)) /\ cache_wf m'.
Proof.
  revert m g. induction l as [|o l IH]; intros m g Hwf Hg; [by exists m|].
  cbn [run_ops spec_ops]. destruct o as [id addr tr now|id addr]; cbn [run_op]; unmonad.
  - destruct (insert_ok m id addr tr now Hwf) as (m1 & -> & Hwf1 & Hl).
    destruct (IH m1 (<[cache_key id addr := tr]> g) Hwf1) as (m2 & -> & Hwf2); [|by exists m2].
    intros k. rewrite Hl, lookup_insert, Hg. repeat case_decide; congruence.
  - rewrite retrieve_ok by done. destruct (IH m g Hwf Hg) as (m2 & -> & Hwf2).
    exists m2. by rewrite Hg.
Qed.

(** C32: from the fresh cache, every history of insertions and retrievals runs without
    a panic and gives exactly the answers of a single map keyed by the 32-bit hash of
    address and template id: sharding over 32 maps is invisible. *)
Theorem MemCache_refines_map (l : list cache_op) :
  exists m', run_ops l (GetCache None) = (m', Ok (spec_ops ∅ l)).
Proof.
  destruct (run_ops_refines l (GetCache None) ∅) as (m' & H & _); [apply GetCache_fresh_wf| |].
  - intros k. by rewrite GetCache_fresh_lookup.
  - by exists m'.
Qed.

End refinement.
Arguments cache_op : clear implicits.

(** The key is only a 32-bit hash, so exporters are not isolated: the templates
    293 of 10.90.64.219 and 827 of 203.86.221.155 share a key, and after the first
    exporter announced its template, a lookup for the second one's returns it. *)
Theorem cache_key_collision {T} (t : T) (now : Z) :
  let a1 := bytes [0;0;0;0;0;0;0;0;0;0;255;255;10;90;64;219] in
  let a2 := bytes [0;0;0;0;0;0;0;0;0;0;255;255;203;86;221;155] in
  exists m', run_ops [OpInsert 293 a1 t now; OpRetrieve 827 a2] (GetCache None)
               = (m', Ok [None; Some (Some t)]).
Proof.
  intros a1 a2.
  destruct (run_ops_refines [OpInsert 293 a1 t now; OpRetrieve 827 a2] (GetCache None) ∅)
    as (m' & H & _); [done| |].
  - intros k. by rewrite GetCache_fresh_lookup.
  - exists m'. rewrite H. cbn [spec_ops].
    replace (cache_key 827 a2) with (cache_key 293 a1) by (vm_compute; reflexivity).
    by rewrite lookup_insert_eq.
Qed.
