(* ===== verification/Interleave.v ===== *)
(** Programs that share a template cache, interleaved at every access to it.

    The decoders are written against [StoreOps] alone, so the same code runs on the real
    cache and on a [Script], which answers the accesses from a list and stops the program
    at the first access beyond it.  That gives the interleavings of several goroutines: a
    goroutine is its program and the answers it got so far; a step replays the program,
    finds its next access, performs it on the shared cache (under the shard's lock, hence
    atomically) and records the answer.

    [sim] relates two runs of the same code on two stores; [Parametric] is the law of a
    program that treats its store as the interface only.  The theorems of the section
    [interleaving] hold for every such program. *)

From S2P Require Import Prelude TemplateCache.

(** ** Two runs of the same code *)

Definition res_rel {A1 A2} (Q : A1 -> A2 -> Prop) (r1 : res A1) (r2 : res A2) : Prop :=
  match r1, r2 with
  | Ok a1, Ok a2 => Q a1 a2
  | Err v1 e1, Err v2 e2 => option_Forall2 Q v1 v2 /\ e1 = e2
  | NoFuel, NoFuel => True
  | _, _ => False
  end.

Section sim.
Context {S1 S2 : Type} (R E : S1 -> S2 -> Prop).

(** From states related by [R], the second run does what the first does, unless the
    first stops with a panic: then the states it and the second run end in satisfy
    [E]. *)
Definition sim {A1 A2} (Q : A1 -> A2 -> Prop) (m1 : M S1 A1) (m2 : M S2 A2) : Prop :=
  forall s1 s2, R s1 s2 ->
    match (m1 s1).2 with
    | Panic => E (m1 s1).1 (m2 s2).1
    | r1 => R (m1 s1).1 (m2 s2).1 /\ res_rel Q r1 (m2 s2).2
    end.

(** The second run goes on after the first has stopped. *)
Definition stays {A} (m2 : M S2 A) : Prop := forall s1, keeps (E s1) (fun _ => True) m2.

Lemma stays_any {A} (m2 : M S2 A) : (forall s1 s2, E s1 s2 -> E s1 (m2 s2).1) -> stays m2.
Proof. intros H s1. apply keeps_any, H. Qed.

Lemma stays_ret {A} (a : A) : stays (mret a).
Proof. intros s1. by apply keeps_ret. Qed.

Lemma stays_fail {A} (v : option A) e : stays (fail v e).
Proof. intros s1. apply keeps_fail. Qed.

Lemma stays_nofuel {A} : stays (@nofuel S2 A).
Proof. intros s1. apply keeps_nofuel. Qed.

Lemma stays_get : stays get.
Proof. by apply stays_any. Qed.

Lemma stays_bind {A B} (m2 : M S2 A) (k2 : A -> M S2 B) :
  stays m2 -> (forall a, stays (k2 a)) -> stays (m2 ≫= k2).
Proof. intros Hm Hk s1. apply keeps_seq; [apply Hm|intros a; apply Hk]. Qed.

Lemma stays_try {A} (m2 : M S2 A) : stays m2 -> stays (try m2).
Proof.
  intros Hm s1 s2 Hs. destruct (keeps_try (E s1) (fun _ => True) m2 (Hm s1) s2 Hs) as [H _].
  split; [done|]. by destruct (_).2.
Qed.

Lemma sim_ret {A1 A2} (Q : A1 -> A2 -> Prop) a1 a2 : Q a1 a2 -> sim Q (mret a1) (mret a2).
Proof. by intros Ha s1 s2 Hs. Qed.

Lemma sim_fail {A1 A2} (Q : A1 -> A2 -> Prop) v1 v2 e :
  option_Forall2 Q v1 v2 -> sim Q (fail v1 e) (fail v2 e).
Proof. by intros Hv s1 s2 Hs. Qed.

Lemma sim_nofuel {A1 A2} (Q : A1 -> A2 -> Prop) : sim Q nofuel nofuel.
Proof. by intros s1 s2 Hs. Qed.

Lemma sim_get : sim R get get.
Proof. by intros s1 s2 Hs. Qed.

Lemma sim_modify f1 f2 :
  (forall s1 s2, R s1 s2 -> R (f1 s1) (f2 s2)) -> sim eq (modify f1) (modify f2).
Proof. intros H s1 s2 Hs. split; [by apply H|done]. Qed.

Lemma sim_bind {A1 A2 B1 B2} (Q : A1 -> A2 -> Prop) (Q' : B1 -> B2 -> Prop)
    (m1 : M S1 A1) (m2 : M S2 A2) (k1 : A1 -> M S1 B1) (k2 : A2 -> M S2 B2) :
  sim Q m1 m2 -> (forall a2, stays (k2 a2)) ->
  (forall a1 a2, Q a1 a2 -> sim Q' (k1 a1) (k2 a2)) -> sim Q' (m1 ≫= k1) (m2 ≫= k2).
Proof.
  intros Hm Hs2 Hk s1 s2 Hs. specialize (Hm s1 s2 Hs). unfold mbind, M_bind.
  destruct (m1 s1) as [t1 [a1|v1 e1| |]], (m2 s2) as [t2 [a2|v2 e2| |]]; cbn in *; try tauto.
  - destruct Hm as [Ht Ha]. by apply Hk.
  - destruct Hm as [Ht [_ ->]]. split; [done|]. split; [constructor|done].
  - by apply Hs2.
Qed.

Lemma sim_try {A1 A2} (Q : A1 -> A2 -> Prop) (m1 : M S1 A1) (m2 : M S2 A2) :
  sim Q m1 m2 ->
  sim (fun x1 x2 => match x1, x2 with
                    | inl a1, inl a2 => Q a1 a2 | inr e1, inr e2 => e1 = e2 | _, _ => False
                    end) (try m1) (try m2).
Proof.
  intros Hm s1 s2 Hs. specialize (Hm s1 s2 Hs). unfold try.
  destruct (m1 s1) as [t1 [a1|v1 e1| |]], (m2 s2) as [t2 [a2|v2 e2| |]]; cbn in *; tauto.
Qed.

(** The states only. *)
Lemma sim_ends {A1 A2} (Q : A1 -> A2 -> Prop) (m1 : M S1 A1) (m2 : M S2 A2) s1 s2 :
  sim Q m1 m2 -> R s1 s2 ->
  match (m1 s1).2 with
  | Panic => E (m1 s1).1 (m2 s2).1
  | _ => R (m1 s1).1 (m2 s2).1
  end.
Proof. intros Hm Hs. specialize (Hm s1 s2 Hs). by destruct (m1 s1).2; try apply Hm. Qed.

Lemma sim_weaken {A1 A2} (Q Q' : A1 -> A2 -> Prop) (m1 : M S1 A1) (m2 : M S2 A2) :
  (forall a1 a2, Q a1 a2 -> Q' a1 a2) -> sim Q m1 m2 -> sim Q' m1 m2.
Proof.
  intros HQ Hm s1 s2 Hs. specialize (Hm s1 s2 Hs).
  destruct (m1 s1) as [t1 [a1|v1 e1| |]], (m2 s2) as [t2 [a2|v2 e2| |]]; cbn in *; try tauto.
  - destruct Hm. auto.
  - destruct Hm as [Ht [Hv He]]. split; [done|]. split; [|done].
    inversion Hv; constructor; auto.
Qed.

End sim.

#[export] Hint Resolve stays_ret stays_fail stays_nofuel stays_get stays_try : vflow.

(** ** Programs over a store *)

(** The accesses of the second store follow those of the first, for the exporters that
    [okA] admits; [okT] holds of the templates that are read and may be assumed of those
    that are written. *)
Record store_sim {T MC1 MC2} (okA : list byte -> Prop) (okT : T -> Prop) (O1 : StoreOps T MC1)
    (O2 : StoreOps T MC2) (R E : MC1 -> MC2 -> Prop) : Prop := {
  ss_retrieve id addr : okA addr ->
    sim R E (fun a b => a = b /\ forall t, a = Some t -> okT t)
      (ts_retrieve id addr) (ts_retrieve id addr);
  ss_insert id addr t now : okA addr -> okT t ->
    sim R E eq (ts_insert id addr t now) (ts_insert id addr t now);
  ss_stays_retrieve id addr : stays E (ts_retrieve id addr);
  ss_stays_insert id addr t now : stays E (ts_insert id addr t now)
}.

(** All exporters. *)
Definition any_addr (addr : list byte) : Prop := True.

(** Code that uses a store through its operations only. *)
Abbreviation program T A := (forall MC, StoreOps T MC -> M MC A).

Class Parametric {T A : Type} (okT : T -> Prop) (p : program T A) : Prop :=
  parametric : forall MC1 MC2 (O1 : StoreOps T MC1) (O2 : StoreOps T MC2) (R E : MC1 -> MC2 -> Prop),
    store_sim any_addr okT O1 O2 R E -> sim R E eq (p MC1 O1) (p MC2 O2).

(** One access to a store, with its answer. *)
Definition access {T MC} `{!StoreOps T MC} (o : cache_op T) : M MC (option (option T)) :=
  match o with
  | OpInsert id addr tr now => ts_insert id addr tr now;; mret None
  | OpRetrieve id addr => t ← ts_retrieve id addr; mret (Some t)
  end.

Definition op_key {T} (o : cache_op T) : Z :=
  match o with OpInsert id addr _ _ | OpRetrieve id addr => cache_key id addr end.

Definition op_inserts {T} (o : cache_op T) : bool :=
  match o with OpInsert _ _ _ _ => true | OpRetrieve _ _ => false end.

#[global] Instance cache_op_eq_dec {T} `{!EqDecision T} : EqDecision (cache_op T).
Proof. solve_decision. Defined.

(** ** A store that replays recorded accesses *)

Abbreviation history T := (list (cache_op T * option (option T))).

Inductive script_status (T : Type) : Type :=
| Running                        (** all accesses so far were in the script *)
| Waiting (o : cache_op T)       (** stopped at this access, beyond the script *)
| Wrong.                         (** stopped at an access other than the script's *)
Arguments Running {T}.
Arguments Waiting {T} o.
Arguments Wrong {T}.

Record Script (T : Type) : Type := mkScript { left : history T; status : script_status T }.
Arguments mkScript {T} _ _.
Arguments left {T} _.
Arguments status {T} _.

Section script.
Context {T : Type} `{!EqDecision T}.

Definition script_op (o : cache_op T) : M (Script T) (option (option T)) := fun s =>
  match left s with
  | [] => (mkScript [] (Waiting o), Panic)
  | (o', a) :: l =>
      if decide (o = o') then (mkScript l (status s), Ok a) else (mkScript (left s) Wrong, Panic)
  end.

#[global] Instance Script_ops : StoreOps T (Script T) := {|
  ts_insert id addr tr now := script_op (OpInsert id addr tr now);; mret tt;
  ts_retrieve id addr := a ← script_op (OpRetrieve id addr); mret (mjoin a)
|}.

Definition replay {A} (p : program T A) (h : history T) : Script T * res A :=
  p (Script T) Script_ops (mkScript h Running).

End script.

(** ** The system of goroutines *)

Section system.
Context {T A MC : Type} `{!EqDecision T} `{!StoreOps T MC}.

Record System : Type := mkSystem { sys_cache : MC; sys_hist : list (history T) }.

(** The next access of goroutine [t] happens. *)
Definition worker_step (ps : list (program T A)) (t : nat) (sys : System) : option System :=
  match ps !! t, sys_hist sys !! t with
  | Some p, Some h =>
      match replay p h with
      | (mkScript _ (Waiting o), Panic) =>
          match access o (sys_cache sys) with
          | (c', Ok a) => Some (mkSystem c' (<[t := h ++ [(o, a)]]> (sys_hist sys)))
          | _ => None
          end
      | _ => None
      end
  | _, _ => None
  end.

(** What goroutine [t] returned, [None] while it still runs. *)
Definition worker_result (ps : list (program T A)) (t : nat) (sys : System) : option (res A) :=
  match ps !! t, sys_hist sys !! t with
  | Some p, Some h =>
      match replay p h with
      | (mkScript _ (Waiting _), Panic) => None
      | (_, r) => Some r
      end
  | _, _ => None
  end.

Definition sys_start (ps : list (program T A)) (m : MC) : System := mkSystem m (replicate (length ps) []).

(** No goroutine writes under a key that another one accesses. *)
Definition race_free (sys : System) : Prop :=
  forall t t' h h' o o', t <> t' -> sys_hist sys !! t = Some h -> sys_hist sys !! t' = Some h' ->
    o ∈ h.*1 -> o' ∈ h'.*1 -> op_inserts o' = true -> op_key o <> op_key o'.

(** The same, as a test. *)
Definition conflicts (h h' : history T) : bool :=
  existsb (fun e => existsb (fun e' => op_inserts e'.1 && (op_key e.1 =? op_key e'.1)) h') h.

Definition race_freeb (sys : System) : bool :=
  let hs := imap pair (sys_hist sys) in
  forallb (fun i => forallb (fun j => (i.1 =? j.1)%nat || negb (conflicts i.2 j.2)) hs) hs.

Lemma race_freeb_ok sys : race_freeb sys = true -> race_free sys.
Proof.
  intros H t t' h h' o o' Hne Eh Eh' Ho Ho' Hins Hk.
  assert (forall t h, sys_hist sys !! t = Some h -> In (t, h) (imap pair (sys_hist sys))) as Hin.
  { intros i x Hx. apply list_elem_of_In, list_elem_of_lookup_2 with i.
    by rewrite list_lookup_imap, Hx. }
  unfold race_freeb in H. rewrite forallb_forall in H. specialize (H _ (Hin _ _ Eh)).
  rewrite forallb_forall in H. specialize (H _ (Hin _ _ Eh')). cbn [fst snd] in H.
  apply orb_true_iff in H as [H%Nat.eqb_eq|H]; [done|]. apply negb_true_iff in H.
  apply list_elem_of_fmap in Ho as ([o1 a1] & -> & Ho1). apply list_elem_of_fmap in Ho' as ([o2 a2] & -> & Ho2).
  assert (conflicts h h' = true) as Hc; [|congruence]. apply existsb_exists. exists (o1, a1).
  split; [by apply list_elem_of_In|]. apply existsb_exists. exists (o2, a2).
  split; [by apply list_elem_of_In|]. cbn in *. by rewrite Hins, Hk, Z.eqb_refl.
Qed.

(** A run that happens without races and in which goroutine [t] finishes, by evaluation. *)
Lemma run_finishes (ps : list (program T A)) t (run : option System) :
  match run with
  | Some sys => race_freeb sys && match worker_result ps t sys with Some _ => true | None => false end
  | None => false
  end = true ->
  exists sys o, run = Some sys /\ race_free sys /\ worker_result ps t sys = Some o.
Proof.
  destruct run as [sys|]; [|done]. intros [Hr Ho]%andb_true_iff.
  destruct (worker_result ps t sys) as [o|] eqn:E; [|done].
  exists sys, o. split; [done|]. split; [by apply race_freeb_ok|done].
Qed.

End system.
Arguments System : clear implicits.

(** ** Facts about replays *)

Section replay_facts.
Context {T A : Type} `{!EqDecision T} (okT : T -> Prop) (p : program T A) `{!Parametric okT p}.

Definition op_ok (o : cache_op T) : Prop :=
  match o with OpInsert _ _ tr _ => okT tr | OpRetrieve _ _ => True end.

Definition answer_ok (a : option (option T)) : Prop := forall t, mjoin a = Some t -> okT t.

Definition answers_ok (h : history T) : Prop := Forall (fun e => answer_ok e.2) h.

(** The answers to an access, as the program sees them. *)
Definition answer_rel (o : cache_op T) (a b : option (option T)) : Prop :=
  op_inserts o = false -> mjoin a = mjoin b /\ answer_ok a.

Lemma script_op_cases o (s : Script T) :
  (exists a, (script_op o s).2 = Ok a) \/ (script_op o s).2 = Panic.
Proof. unfold script_op. destruct (left s) as [|[o' a] l]; [by right|]. case_decide; eauto. Qed.

(** A store simulates the script when its accesses do. *)
Lemma script_store_sim {MC2} (O2 : StoreOps T MC2) (R E : Script T -> MC2 -> Prop) :
  (forall o, op_ok o -> sim R E (answer_rel o) (script_op o) (access o)) ->
  (forall id addr, stays E (ts_retrieve id addr)) ->
  (forall id addr tr now, stays E (ts_insert id addr tr now)) ->
  store_sim any_addr okT Script_ops O2 R E.
Proof.
  intros Hop Hr Hi. split; [| |done|done].
  - intros id addr _ s1 s2 Hs. specialize (Hop (OpRetrieve id addr) I s1 s2 Hs).
    cbn [ts_retrieve Script_ops access] in *. unfold mbind, M_bind, mret, M_ret in *.
    destruct (script_op_cases (OpRetrieve id addr) s1) as [[a Ha]|Ha];
      destruct (script_op _ s1) as [t1 r1], (ts_retrieve id addr s2) as [t2 [a2|v2 e2| |]];
      cbn in *; subst r1; try tauto.
    destruct Hop as (? & Hop). destruct (Hop eq_refl) as [Hj Hok]. by split_and!.
  - intros id addr tr now _ Hok s1 s2 Hs. specialize (Hop (OpInsert id addr tr now) Hok s1 s2 Hs).
    cbn [ts_insert Script_ops access] in *. unfold mbind, M_bind, mret, M_ret in *.
    destruct (script_op_cases (OpInsert id addr tr now) s1) as [[a Ha]|Ha];
      destruct (script_op _ s1) as [t1 r1], (ts_insert id addr tr now s2) as [t2 [a2|v2 e2| |]];
      cbn in *; subst r1; try tauto.
    destruct Hop as (? & _). split; [done|]. by destruct a2.
Qed.

Lemma access_script o (s : Script T) :
  (access o s).1 = (script_op o s).1 /\
  match (script_op o s).2 with
  | Ok a => answer_ok a -> exists b, (access o s).2 = Ok b /\ answer_rel o a b
  | Panic => (access o s).2 = Panic
  | _ => False
  end.
Proof.
  destruct (script_op_cases o s) as [[a Ha]|Ha]; destruct o; cbn [access ts_insert ts_retrieve Script_ops];
    unfold mbind, M_bind, mret, M_ret; destruct (script_op _ s) as [s' r]; cbn in *; subst r; split;
    try done; intros Hok; eexists; split; try done; by intros.
Qed.

Lemma script_stays (E : Script T -> Script T -> Prop) o :
  (forall s1 s2, E s1 s2 -> E s1 (script_op o s2).1) ->
  match o with
  | OpInsert id addr tr now => stays E (ts_insert id addr tr now)
  | OpRetrieve id addr => stays E (ts_retrieve id addr)
  end.
Proof.
  intros H. destruct o; apply stays_any; intros s1 s2 HE; specialize (H s1 s2 HE);
    cbn [ts_insert ts_retrieve Script_ops]; unfold mbind, M_bind, mret, M_ret;
    by destruct (script_op _ s2) as [? []].
Qed.

(** *** The state a replay ends in *)

Definition stopped (s : Script T) : Prop :=
  (exists o, status s = Waiting o /\ op_ok o /\ left s = []) \/ status s = Wrong.

(** A replay panics exactly when it was stopped by the script. *)
Lemma replay_stopped h : answers_ok h ->
  match (replay p h).2 with Panic => stopped (replay p h).1 | _ => status (replay p h).1 = Running end.
Proof.
  intros Hh. pose (R s1 s2 := s1 = s2 /\ status s1 = Running /\ answers_ok (left s1)).
  pose (E s1 (s2 : Script T) := stopped s1).
  assert (store_sim any_addr okT Script_ops Script_ops R E) as HS.
  { apply script_store_sim; try (intros; by apply stays_any).
    intros o Ho s1 s2 (<- & Hr & Hl). destruct (access_script o s1) as [H1 H2].
    unfold R, E. rewrite H1. unfold script_op, answers_ok in *.
    destruct (left s1) as [|[o' a] l] eqn:El; rewrite ?El in Hl; cbn in *.
    - left. by exists o.
    - apply Forall_cons_1 in Hl as [Ha Hl]. case_decide; [|by right]. cbn in *.
      destruct (H2 Ha) as (b & -> & Hb). by split_and!. }
  pose proof (sim_ends R E _ _ _ (mkScript h Running) (mkScript h Running) (parametric _ _ _ _ R E HS)) as H.
  unfold replay. destruct (p _ _ _) as [s' []]; apply H; by split_and!.
Qed.

Lemma replay_nil : status (replay p []).1 <> Wrong /\ left (replay p []).1 = [].
Proof.
  pose (R s1 s2 := s1 = s2 /\ status s1 = Running /\ left (T:=T) s1 = []).
  pose (E s1 (s2 : Script T) := status s1 <> Wrong /\ left (T:=T) s1 = []).
  assert (store_sim any_addr okT Script_ops Script_ops R E) as HS.
  { apply script_store_sim; try (intros; by apply stays_any).
    intros o Ho s1 s2 (<- & Hr & Hl). unfold script_op. by rewrite Hl. }
  pose proof (sim_ends R E _ _ _ (mkScript [] Running) (mkScript [] Running) (parametric _ _ _ _ R E HS)) as H.
  unfold replay. destruct (p _ _ _) as [s' []]; try (by apply H);
    (destruct H as (_ & -> & ->); [by split_and!|done]).
Qed.

(** With the answer to the access it waits for, a replay goes further and consumes it. *)
Lemma replay_snoc h o a :
  answers_ok h -> answer_ok a -> status (replay p h).1 = Waiting o ->
  status (replay p (h ++ [(o, a)])).1 <> Wrong /\ left (replay p (h ++ [(o, a)])).1 = [].
Proof.
  intros Hh Ha Hw.
  pose (R s1 s2 := status s1 = Running /\ status s2 = Running /\ answers_ok (left s2) /\
                   left s2 = left s1 ++ [(o, a)]).
  pose (E s1 s2 := status s1 = Waiting o -> status s2 <> Wrong /\ left (T:=T) s2 = []).
  assert (forall o' s1 s2, E s1 s2 -> E s1 (script_op o' s2).1) as Hst.
  { intros o' s1 s2 HE Hs. destruct (HE Hs) as [H1 H2]. unfold script_op. by rewrite H2. }
  assert (store_sim any_addr okT Script_ops Script_ops R E) as HS.
  { apply script_store_sim.
    - intros o' Ho s1 s2 (Hr1 & Hr2 & Hl & Heq). destruct (access_script o' s2) as [H1 H2].
      unfold R, E. rewrite H1. unfold script_op in *. rewrite Heq in *.
      destruct (left s1) as [|[o2 a2] l] eqn:El; cbn in *.
      + intros [= ->]. rewrite decide_True by done. cbn. by rewrite Hr2.
      + apply Forall_cons_1 in Hl as [Ha2 Hl]. case_decide; cbn in *; [|done].
        destruct (H2 Ha2) as (b & -> & Hb). by split_and!.
    - intros id addr. apply (script_stays E (OpRetrieve id addr)), Hst.
    - intros id addr tr now. apply (script_stays E (OpInsert id addr tr now)), Hst. }
  pose proof (sim_ends R E _ _ _ (mkScript h Running) (mkScript (h ++ [(o, a)]) Running)
    (parametric _ _ _ _ R E HS)) as H.
  assert (R (mkScript h Running) (mkScript (h ++ [(o, a)]) Running)) as HR.
  { split_and!; try done. by apply Forall_app; split; [|constructor]. }
  specialize (H HR). unfold replay in *. revert H Hw.
  destruct (p _ _ (mkScript h Running)) as [s1 []]; intros H Hw;
    try (by apply H); destruct H as [H _]; cbn in *; congruence.
Qed.

End replay_facts.

(** ** Interleavings on a shared cache *)

Lemma res_rel_eq {A} (r1 r2 : res A) : r1 <> Panic -> res_rel eq r1 r2 -> r1 = r2.
Proof.
  destruct r1, r2; cbn; try done; [by intros _ ->|]. intros _ [Hv ->]. f_equal.
  by inversion Hv; subst.
Qed.

Section interleaving.
Context {T A MC : Type} `{!EqDecision T} `{!TemplateStore T MC}.
Context (okT : T -> Prop) (ps : list (program T A)) (Hps : Forall (Parametric okT) ps).
Implicit Types (sys : System T MC) (h : history T).

Definition store_ok (m : MC) : Prop := ts_wf m /\ forall k t, ts_lookup m k = Some t -> okT t.

(** What an access does to a well-formed cache. *)
Definition op_answer (o : cache_op T) (m : MC) : option (option T) :=
  match o with OpInsert _ _ _ _ => None | OpRetrieve id addr => Some (ts_lookup m (cache_key id addr)) end.

Definition op_effect (o : cache_op T) (old : Z -> option T) (k : Z) : option T :=
  match o with
  | OpInsert id addr tr _ => if decide (k = cache_key id addr) then Some tr else old k
  | OpRetrieve _ _ => old k
  end.

Lemma access_ok o m : ts_wf m ->
  exists m', access o m = (m', Ok (op_answer o m)) /\ ts_wf m' /\
    forall k, ts_lookup m' k = op_effect o (ts_lookup m) k.
Proof.
  intros Hm. destruct o as [id addr tr now|id addr]; cbn [access op_answer op_effect].
  - destruct (ts_insert_ok m id addr tr now Hm) as (m' & H1 & H2 & H3).
    exists m'. by rewrite (bind_run H1).
  - exists m. by rewrite (bind_run (ts_retrieve_ok m id addr Hm)).
Qed.

Lemma access_store_ok o m m' a :
  store_ok m -> op_ok okT o -> access o m = (m', Ok a) -> store_ok m' /\ answer_ok okT a.
Proof.
  intros [Hm Hl] Ho Ha. destruct (access_ok o m Hm) as (m1 & H1 & H2 & H3).
  rewrite Ha in H1. simplify_eq. split; [split; [done|]|].
  - intros k t. rewrite H3. destruct o; cbn in *; [|apply Hl]. case_decide; [by intros [= <-]|apply Hl].
  - intros t. destruct o; cbn; [done|]. apply Hl.
Qed.

(** The accesses of [h], performed on [m] with these answers, lead to [m']. *)
Fixpoint runs_to h (m m' : MC) : Prop :=
  match h with
  | [] => m' = m
  | (o, a) :: h' => exists m1, access o m = (m1, Ok a) /\ runs_to h' m1 m'
  end.

Lemma runs_to_snoc h o a m m1 m2 :
  runs_to h m m1 -> access o m1 = (m2, Ok a) -> runs_to (h ++ [(o, a)]) m m2.
Proof.
  revert m. induction h as [|[o' a'] h IH]; intros m; cbn; [intros ->; eauto|].
  intros (m0 & H1 & H2) H. eauto.
Qed.

(** A finished replay whose accesses a cache answers in the same way is the run of the
    program on that cache. *)
Lemma replay_alone (p : program T A) h m m' :
  Parametric okT p -> answers_ok okT h -> runs_to h m m' -> left (replay p h).1 = [] ->
  (replay p h).2 <> Panic -> p MC ts_ops m = (m', (replay p h).2).
Proof.
  intros Hp Hh Hr Hl Hn. pose (R s m1 := runs_to (left s) m1 m' /\ answers_ok okT (left s)).
  assert (store_sim any_addr okT Script_ops ts_ops R (fun _ _ => True)) as HS.
  { apply script_store_sim; [|by intros; apply stays_any..].
    intros o Ho s m1 [H1 H2]. unfold script_op, R in *.
    destruct (left s) as [|[o' a] l] eqn:El; cbn in *; [done|]. case_decide; cbn; [subst o'|done].
    destruct H1 as (m2 & H1 & H3). apply Forall_cons_1 in H2 as [H2 H4]. rewrite H1. cbn.
    split; [done|]. done. }
  pose proof (parametric _ _ _ _ _ _ HS (mkScript h Running) m (conj Hr Hh)) as H.
  unfold replay in *. destruct (p _ Script_ops _) as [s1 r1], (p MC ts_ops m) as [m2 r2]. cbn in *.
  assert ((runs_to (left s1) m2 m') /\ res_rel eq r1 r2) as [H1 H2]
    by (destruct r1; try done; split; apply H).
  rewrite Hl in H1. cbn in H1. subst m2. f_equal. symmetry. by apply res_rel_eq.
Qed.

(** *** The invariant of all interleavings *)

Definition sys_inv sys : Prop :=
  store_ok (sys_cache sys) /\ length (sys_hist sys) = length ps /\
  forall t p h, ps !! t = Some p -> sys_hist sys !! t = Some h ->
    answers_ok okT h /\ status (replay p h).1 <> Wrong /\ left (replay p h).1 = [].

Lemma ps_parametric t p : ps !! t = Some p -> Parametric okT p.
Proof. intros H. by eapply Forall_lookup_1 in Hps. Qed.

Lemma sys_inv_start m : store_ok m -> sys_inv (sys_start ps m).
Proof.
  intros Hm. split; [done|]. cbn. split; [apply length_replicate|].
  intros t p h Hp [-> _]%lookup_replicate. split; [constructor|].
  apply (replay_nil okT p (Parametric0 := ps_parametric t p Hp)).
Qed.

(** What a step did. *)
Lemma worker_step_inv t sys sys' : sys_inv sys -> worker_step ps t sys = Some sys' ->
  exists p h o a c', ps !! t = Some p /\ sys_hist sys !! t = Some h /\
    status (replay p h).1 = Waiting o /\ op_ok okT o /\ access o (sys_cache sys) = (c', Ok a) /\
    sys' = mkSystem c' (<[t := h ++ [(o, a)]]> (sys_hist sys)).
Proof.
  intros (Hm & Hlen & Hh) Hs. unfold worker_step in Hs.
  destruct (ps !! t) as [p|] eqn:Ep; [|done].
  destruct (sys_hist sys !! t) as [h|] eqn:Eh; [|done].
  destruct (Hh t p h Ep Eh) as (H1 & H2 & H3).
  pose proof (replay_stopped okT p h H1 (Parametric0 := ps_parametric t p Ep)) as Hst.
  destruct (replay p h) as [[l [|o|]] [a|v e| |]] eqn:Er; cbn in *; try done.
  destruct (access o (sys_cache sys)) as [c' [a|v e| |]] eqn:Ea; try done. simplify_eq.
  destruct Hst as [(o' & [= <-] & Ho & _)|]; [|done]. exists p, h, o, a, c'. by rewrite Er.
Qed.

Lemma sys_inv_step t sys sys' : sys_inv sys -> worker_step ps t sys = Some sys' -> sys_inv sys'.
Proof.
  intros Hinv Hs. destruct (worker_step_inv t sys sys' Hinv Hs)
    as (p & h & o & a & c' & Ep & Eh & Hw & Ho & Ha & ->).
  destruct Hinv as (Hm & Hlen & Hh). destruct (access_store_ok o _ c' a Hm Ho Ha) as [Hm' Hok].
  split; [done|]. cbn. split; [by rewrite length_insert|]. intros t' p' h' Ep' Eh'.
  destruct (Hh t p h Ep Eh) as (H1 & _).
  apply list_lookup_insert_Some in Eh' as [(<- & <- & _)|[_ Eh']]; [|by eapply Hh].
  rewrite Ep in Ep'. injection Ep' as <-. split.
  - apply Forall_app. split; [done|]. by constructor.
  - by apply (replay_snoc okT p h o a (Parametric0 := ps_parametric t p Ep)).
Qed.

Lemma sys_inv_exec ls m sys :
  store_ok m -> exec_with (worker_step ps) ls (sys_start ps m) = Some sys -> sys_inv sys.
Proof.
  intros Hm. apply (exec_with_inv (worker_step ps) sys_inv); [|by apply sys_inv_start].
  intros. by eapply sys_inv_step.
Qed.

(** A goroutine that has not returned can always make its next access; one that has
    returned did not panic. *)
Lemma worker_progress t sys : sys_inv sys -> (t < length ps)%nat ->
  match worker_result ps t sys with
  | Some r => r <> Panic
  | None => is_Some (worker_step ps t sys)
  end.
Proof.
  intros (Hm & Hlen & Hh) Ht. unfold worker_result, worker_step.
  destruct (lookup_lt_is_Some_2 ps t Ht) as [p Ep]. rewrite Ep.
  destruct (lookup_lt_is_Some_2 (sys_hist sys) t ltac:(lia)) as [h Eh]. rewrite Eh.
  destruct (Hh t p h Ep Eh) as (H1 & H2 & H3).
  pose proof (replay_stopped okT p h H1 (Parametric0 := ps_parametric t p Ep)) as Hst.
  destruct (replay p h) as [[l [|o|]] [a|v e| |]] eqn:Er; cbn in *; try done.
  - by destruct Hst as [(o & [=] & _)|].
  - destruct (access_ok o (sys_cache sys) (proj1 Hm)) as (c' & -> & _). by eexists.
Qed.

(** *** Isolation *)

(** A key that a goroutine other than [t] has written. *)
Definition others_write sys t k : Prop :=
  exists t' h o, t' <> t /\ sys_hist sys !! t' = Some h /\ o ∈ h.*1 /\ op_inserts o = true /\
    op_key o = k.

(** A goroutine's accesses give the same answers on the initial cache alone, and the
    caches agree where no other one has written. *)
Definition isolated m0 sys : Prop := forall t h, sys_hist sys !! t = Some h ->
  exists mt, runs_to h m0 mt /\ ts_wf mt /\
    forall k, ~ others_write sys t k -> ts_lookup mt k = ts_lookup (sys_cache sys) k.

Lemma hist_mono t sys sys' t' h : sys_inv sys -> worker_step ps t sys = Some sys' ->
  sys_hist sys !! t' = Some h -> exists e, sys_hist sys' !! t' = Some (h ++ e).
Proof.
  intros Hi Hs Hh. destruct (worker_step_inv t sys sys' Hi Hs)
    as (p & h1 & o & a & c' & Ep & Eh & Hw & Ho & Ha & ->). cbn.
  destruct (decide (t = t')) as [<-|Hne].
  - rewrite list_lookup_insert_eq by (by eapply lookup_lt_Some). rewrite Eh in Hh. simplify_eq. eauto.
  - rewrite list_lookup_insert_ne by done. exists []. by rewrite app_nil_r.
Qed.

Lemma race_free_step t sys sys' :
  sys_inv sys -> worker_step ps t sys = Some sys' -> race_free sys' -> race_free sys.
Proof.
  intros Hi Hs Hrf t1 t2 h1 h2 o1 o2 Hne E1 E2 Ho1 Ho2 Hins.
  destruct (hist_mono t sys sys' t1 h1 Hi Hs E1) as [e1 F1].
  destruct (hist_mono t sys sys' t2 h2 Hi Hs E2) as [e2 F2].
  apply (Hrf t1 t2 _ _ o1 o2 Hne F1 F2); [| |done]; rewrite fmap_app, elem_of_app; by left.
Qed.

Lemma isolated_step m0 t sys sys' :
  sys_inv sys -> isolated m0 sys -> worker_step ps t sys = Some sys' -> race_free sys' ->
  isolated m0 sys'.
Proof.
  intros Hi Hiso Hs Hrf. destruct (worker_step_inv t sys sys' Hi Hs)
    as (p & h & o & a & c' & Ep & Eh & Hw & Ho & Ha & ->).
  destruct (access_ok o (sys_cache sys) (proj1 (proj1 Hi))) as (c1 & Hc & _ & Heff).
  rewrite Ha in Hc. simplify_eq. pose proof (lookup_lt_Some _ _ _ Eh) as Hlt.
  intros t' h' Eh'. cbn in Eh'. destruct (decide (t = t')) as [<-|Hne].
  - rewrite list_lookup_insert_eq in Eh' by done. simplify_eq.
    destruct (Hiso t h Eh) as (mt & Hrun & Hwf & Hag).
    assert (ts_lookup mt (op_key o) = ts_lookup (sys_cache sys) (op_key o)) as Hkey.
    { apply Hag. intros (t2 & h2 & o2 & Hne & E2 & Ho2 & Hins & Hk).
      refine (Hrf t t2 (h ++ [(o, op_answer o (sys_cache sys))]) h2 o o2 _ _ _ _ _ Hins _); try done; cbn.
      - by rewrite list_lookup_insert_eq.
      - by rewrite list_lookup_insert_ne.
      - rewrite fmap_app, elem_of_app. right. by left. }
    destruct (access_ok o mt Hwf) as (mt' & Hmt & Hwf' & Heff').
    exists mt'. split; [|split; [done|]].
    + eapply runs_to_snoc; [done|]. rewrite Hmt. do 2 f_equal. destruct o; cbn in *; congruence.
    + intros k Hk. rewrite Heff, Heff'. assert (ts_lookup mt k = ts_lookup (sys_cache sys) k) as E.
      { apply Hag. intros (t2 & h2 & o2 & Hne & E2 & Hr). apply Hk. exists t2, h2, o2.
        cbn. by rewrite list_lookup_insert_ne. }
      destruct o; cbn; [by case_decide|done].
  - rewrite list_lookup_insert_ne in Eh' by done. destruct (Hiso t' h' Eh') as (mt & Hrun & Hwf & Hag).
    exists mt. split; [done|]. split; [done|]. intros k Hk. cbn. rewrite Heff.
    assert (ts_lookup mt k = ts_lookup (sys_cache sys) k) as E.
    { apply Hag. intros (t2 & h2 & o2 & Hne2 & E2 & Ho2 & Hr). apply Hk.
      destruct (hist_mono t sys _ t2 h2 Hi Hs E2) as [e F2]. exists t2, (h2 ++ e), o2.
      split; [done|]. split; [done|]. split; [|done]. rewrite fmap_app, elem_of_app. by left. }
    destruct o as [id addr tr now|id addr]; cbn; [|done]. case_decide as Hk'; [|done].
    exfalso. apply Hk. exists t, (h ++ [(OpInsert id addr tr now, op_answer (OpInsert id addr tr now) (sys_cache sys))]), (OpInsert id addr tr now).
    split; [done|]. cbn. rewrite list_lookup_insert_eq by done. split; [done|].
    split; [rewrite fmap_app, elem_of_app; right; by left|done].
Qed.

Lemma isolated_start m : ts_wf m -> isolated m (sys_start ps m).
Proof. intros Hm t h [-> _]%lookup_replicate. by exists m. Qed.

Lemma race_free_exec ls sys sys' :
  sys_inv sys -> exec_with (worker_step ps) ls sys = Some sys' -> race_free sys' -> race_free sys.
Proof.
  revert sys. induction ls as [|t ls IH]; intros sys Hi; cbn; [by intros [= <-]|].
  destruct (worker_step ps t sys) as [s1|] eqn:E; [|done]. intros He Hrf.
  eapply race_free_step; [done|done|]. eapply IH; [by eapply sys_inv_step|done|done].
Qed.

Lemma isolated_exec m0 ls sys sys' :
  sys_inv sys -> isolated m0 sys -> exec_with (worker_step ps) ls sys = Some sys' ->
  race_free sys' -> isolated m0 sys'.
Proof.
  revert sys. induction ls as [|t ls IH]; intros sys Hi Hiso; cbn; [by intros [= <-]|].
  destruct (worker_step ps t sys) as [s1|] eqn:E; [|done]. intros He Hrf.
  assert (sys_inv s1) as Hi1 by (by eapply sys_inv_step).
  apply (IH s1); [done| |done|done].
  exact (isolated_step m0 t sys s1 Hi Hiso E (race_free_exec ls s1 sys' Hi1 He Hrf)).
Qed.

(** In an interleaving without races every goroutine that returned did what it does alone
    on the initial cache, and the caches agree where no other one wrote. *)
Lemma worker_alone m0 ls sys t (p : program T A) r :
  store_ok m0 -> exec_with (worker_step ps) ls (sys_start ps m0) = Some sys -> race_free sys ->
  ps !! t = Some p -> worker_result ps t sys = Some r ->
  exists mt, p MC ts_ops m0 = (mt, r) /\
    forall k, ~ others_write sys t k -> ts_lookup mt k = ts_lookup (sys_cache sys) k.
Proof.
  intros Hm He Hrf Ep Hr. pose proof (sys_inv_exec ls m0 sys Hm He) as Hi.
  pose proof (isolated_exec m0 ls _ sys (sys_inv_start m0 Hm) (isolated_start m0 (proj1 Hm)) He Hrf) as Hiso.
  unfold worker_result in Hr. rewrite Ep in Hr.
  destruct (sys_hist sys !! t) as [h|] eqn:Eh; [|done].
  destruct Hi as (_ & _ & Hh). destruct (Hh t p h Ep Eh) as (H1 & H2 & H3).
  destruct (Hiso t h Eh) as (mt & Hrun & _ & Hag). exists mt. split; [|done].
  pose proof (replay_stopped okT p h H1 (Parametric0 := ps_parametric t p Ep)) as Hst.
  pose proof (replay_alone p h m0 mt (ps_parametric t p Ep) H1 Hrun H3) as Hal.
  destruct (replay p h) as [[l [|o|]] [a|v e| |]]; cbn in *; try done; simplify_eq; try (by apply Hal).
  by destruct Hst as [(o & [=] & _)|].
Qed.

End interleaving.
