(* ===== verification/IpfixDecoder.v ===== *)
(** The IPFIX decoder, [src/ipfix/decoder.go].

    [Decoder] state: the reader, the template cache, the message under construction
    and the channel of template requests to other nodes, threaded explicitly
    ([DecState]).  Each [unmarshal] method is a definition over the reader, and
    [decodeSet], [decodeData] and [Decode] are the methods of the same names.  The two
    loops of the source that are not bounded by a counter take a [fuel]; running out of
    it is the separate result [NoFuel], so that both termination and divergence can be
    stated.  The cache is any [StoreOps]; the information model is an argument. *)

From S2P Require Import Prelude GoNet InfoModel Interpret TemplateCache Reader.

(** ** Data *)

Record MessageHeader : Type := mkMessageHeader {
  mh_Version : Z; mh_Length : Z; mh_ExportTime : Z; mh_SequenceNo : Z; mh_DomainID : Z
}.

Record TemplateHeader : Type := mkTemplateHeader {
  th_TemplateID : Z; th_FieldCount : Z; th_ScopeFieldCount : Z
}.

Record TemplateFieldSpecifier : Type := mkFieldSpecifier {
  fs_ElementID : Z; fs_Length : Z; fs_EnterpriseNo : Z
}.

Record TemplateRecord : Type := mkTemplateRecord {
  tr_TemplateID : Z;
  tr_FieldCount : Z;
  tr_FieldSpecifiers : list TemplateFieldSpecifier;
  tr_ScopeFieldCount : Z;
  tr_ScopeFieldSpecifiers : list TemplateFieldSpecifier
}.

Record DecodedField : Type := mkDecodedField {
  df_ID : Z; df_Value : Value; df_EnterpriseNo : Z
}.

Record Message : Type := mkMessage {
  msg_AgentID : string; msg_Header : MessageHeader; msg_DataSets : list (list DecodedField)
}.

Record SetHeader : Type := mkSetHeader { sh_SetID : Z; sh_Length : Z }.

(** [RPCRequest] of memcache_rpc.go, the element type of [rpcChan]. *)
Record RPCRequest : Type := mkRPCRequest { rpc_ID : Z; rpc_IP : list byte }.

(** Zero values. *)
Definition zeroHeader : MessageHeader := mkMessageHeader 0 0 0 0 0.
Definition zeroMessage : Message := mkMessage EmptyString zeroHeader [].
Definition zeroTemplateRecord : TemplateRecord := mkTemplateRecord 0 0 [] 0 [].

(** ** Headers and templates *)

Definition MessageHeader_unmarshal : M Reader MessageHeader :=
  version ← Uint16;
  length ← Uint16;
  exportTime ← Uint32;
  sequenceNo ← Uint32;
  domainID ← Uint32;
  mret (mkMessageHeader version length exportTime sequenceNo domainID).

Definition MessageHeader_validate {S} (h : MessageHeader) : M S () :=
  if negb (mh_Version h =? 0x000a) then fail None (errIpfixVersion (mh_Version h))
  else mret tt.

Definition SetHeader_unmarshal : M Reader SetHeader :=
  setID ← Uint16;
  length ← Uint16;
  mret (mkSetHeader setID length).

Definition TemplateHeader_unmarshal : M Reader TemplateHeader :=
  templateID ← Uint16;
  fieldCount ← Uint16;
  mret (mkTemplateHeader templateID fieldCount 0).

Definition TemplateHeader_unmarshalOpts : M Reader TemplateHeader :=
  templateID ← Uint16;
  fieldCount ← Uint16;
  scopeFieldCount ← Uint16;
  mret (mkTemplateHeader templateID fieldCount scopeFieldCount).

Definition TemplateFieldSpecifier_unmarshal : M Reader TemplateFieldSpecifier :=
  elementID ← Uint16;
  length ← Uint16;
  if elementID >? 0x8000 then
    enterpriseNo ← Uint32;
    mret (mkFieldSpecifier (Z.land elementID 0x7fff) length enterpriseNo)
  else mret (mkFieldSpecifier elementID length 0).

(** [for i := n; i > 0; i-- { tf.unmarshal; fields = append(fields, tf) }]. *)
Fixpoint unmarshal_fields (n : nat) (fields : list TemplateFieldSpecifier) :
    M Reader (list TemplateFieldSpecifier) :=
  match n with
  | O => mret fields
  | S n' => tf ← TemplateFieldSpecifier_unmarshal; unmarshal_fields n' (fields ++ [tf])
  end.

Definition TemplateRecord_unmarshal : M Reader TemplateRecord :=
  th ← TemplateHeader_unmarshal;
  fields ← unmarshal_fields (Z.to_nat (th_FieldCount th)) [];
  mret (mkTemplateRecord (th_TemplateID th) (th_FieldCount th) fields 0 []).

(** The scope loop: [scope = append(fields, tf)], where [fields] is
    [tr.FieldSpecifiers], nil at this point. *)
Fixpoint unmarshal_scope (n : nat) (fields scope : list TemplateFieldSpecifier) :
    M Reader (list TemplateFieldSpecifier) :=
  match n with
  | O => mret scope
  | S n' => tf ← TemplateFieldSpecifier_unmarshal; unmarshal_scope n' fields (fields ++ [tf])
  end.

Definition TemplateRecord_unmarshalOpts : M Reader TemplateRecord :=
  th ← TemplateHeader_unmarshalOpts;
  scope ← unmarshal_scope (Z.to_nat (th_ScopeFieldCount th)) [] [];
  fields ← unmarshal_fields
    (Z.to_nat (uint16 (th_FieldCount th - th_ScopeFieldCount th))) [];
  mret (mkTemplateRecord (th_TemplateID th) (th_FieldCount th) fields
          (th_ScopeFieldCount th) scope).

Section decoder.
Context (im : IANAInfoModel).

(** ** Data records *)

(** The body shared by the two loops of [decodeData]: [elementErr] builds the error of
    an unknown element, [enterprise] the [EnterpriseNo] stored in the decoded field. *)
Fixpoint decode_specs (elementErr : Z -> GoError) (enterprise : TemplateFieldSpecifier -> Z)
    (specs : list TemplateFieldSpecifier) (fields : list DecodedField) :
    M Reader (list DecodedField) :=
  match specs with
  | [] => mret fields
  | f :: specs' =>
      b ← Read (fs_Length f);
      match im !! mkElementKey (fs_EnterpriseNo f) (fs_ElementID f) with
      | None => fail None (elementErr (fs_ElementID f))
      | Some m =>
          v ← Interpret b (Type_ m);
          decode_specs elementErr enterprise specs'
            (fields ++ [mkDecodedField (FieldID m) v (enterprise f)])
      end
  end.

Definition decodeData (tr : TemplateRecord) : M Reader (list DecodedField) :=
  fields ← decode_specs errIpfixElement (fun _ => 0) (tr_FieldSpecifiers tr) [];
  decode_specs errIpfixElementScope fs_EnterpriseNo (tr_ScopeFieldSpecifiers tr) fields.

(** ** Sets and messages *)

Context {MC : Type} `{!StoreOps TemplateRecord MC}.
Context (raddr : list byte).
(** The [n]-th reading of [time.Now().Unix()]. *)
Context (unix_now : nat -> Z).

Record DecState : Type := mkDecState {
  st_reader : Reader;
  st_mem : MC;
  st_msg : Message;
  st_rpcChan : list RPCRequest;
  st_clock : nat
}.

Definition set_reader (r : Reader) (s : DecState) : DecState :=
  mkDecState r (st_mem s) (st_msg s) (st_rpcChan s) (st_clock s).
Definition set_mem (m : MC) (s : DecState) : DecState :=
  mkDecState (st_reader s) m (st_msg s) (st_rpcChan s) (st_clock s).
Definition set_msg (m : Message) (s : DecState) : DecState :=
  mkDecState (st_reader s) (st_mem s) m (st_rpcChan s) (st_clock s).

Definition on_reader {A} (m : M Reader A) : M DecState A := zoom st_reader set_reader m.
Definition on_mem {A} (m : M MC A) : M DecState A := zoom st_mem set_mem m.

(** [time.Now().Unix()]. *)
Definition time_now : M DecState Z := fun s =>
  (mkDecState (st_reader s) (st_mem s) (st_msg s) (st_rpcChan s) (S (st_clock s)),
   Ok (unix_now (st_clock s))).

(** [select { case rpcChan <- req: default: }] on the channel of capacity 1. *)
Definition rpc_request (req : RPCRequest) : M DecState () := modify (fun s =>
  if len (st_rpcChan s) <? 1
  then mkDecState (st_reader s) (st_mem s) (st_msg s) (st_rpcChan s ++ [req]) (st_clock s)
  else s).

(** [msg.DataSets = append(msg.DataSets, data)]. *)
Definition append_DataSets (data : list DecodedField) : M DecState () := modify (fun s =>
  set_msg (mkMessage (msg_AgentID (st_msg s)) (msg_Header (st_msg s))
             (msg_DataSets (st_msg s) ++ [data])) s).

(** The record loop of [decodeSet]; the result is the variable [err] when it ends. *)
Fixpoint decodeSet_loop (fuel : nat) (startCount : Z) (setHeader : SetHeader)
    (tr : TemplateRecord) : M DecState (option GoError) :=
  match fuel with
  | O => nofuel
  | S fuel' =>
      s ← get;
      if (sh_Length setHeader >? uint16 (ReadCount (st_reader s) - startCount))
         && (Len (st_reader s) >? 4)
      then
        let setId := sh_SetID setHeader in
        if (setId =? 2) || (setId =? 3) then
          (* the [err] declared here shadows the loop's: its value is lost *)
          templateId ← try (on_reader PeekUint16);
          if (match templateId with inl id => id =? 0 | inr _ => false end) then mret None
          else
            t ← try (on_reader (if setId =? 2 then TemplateRecord_unmarshal
                                else TemplateRecord_unmarshalOpts));
            (match t with
             | inl tr' =>
                 now ← time_now;
                 on_mem (ts_insert (tr_TemplateID tr') raddr tr' now)
             | inr _ => mret tt
             end);;
            decodeSet_loop fuel' startCount setHeader tr
        else if (setId >=? 4) && (setId <=? 255) then mret None
        else
          data ← try (on_reader (decodeData tr));
          match data with
          | inl d =>
              append_DataSets d;;
              decodeSet_loop fuel' startCount setHeader tr
          | inr err => mret (Some err)
          end
      else mret None
  end.

(** The template of a data set: [retrieve], with the request to the other nodes and
    the error when the template is unknown; the zero template for the other sets. *)
Definition decodeSet_template (setHeader : SetHeader) :
    M DecState (TemplateRecord * option GoError) :=
  if sh_SetID setHeader >? 255 then
    o ← on_mem (ts_retrieve (sh_SetID setHeader) raddr);
    match o with
    | Some tr => mret (tr, None)
    | None =>
        rpc_request (mkRPCRequest (sh_SetID setHeader) raddr);;
        mret (zeroTemplateRecord,
              Some (errIpfixUnknownTemplate (IP_String raddr) (sh_SetID setHeader)))
    end
  else mret (zeroTemplateRecord, None).

(** Skipping the rest of the set, [err] being the loop's error; [return err]. *)
Definition decodeSet_skip (startCount : Z) (setHeader : SetHeader) (err : option GoError) :
    M DecState () :=
  s ← get;
  let leftoverBytes :=
    uint16 (sh_Length setHeader - uint16 (ReadCount (st_reader s) - startCount)) in
  err ← (if leftoverBytes >? 0 then
           skip ← try (on_reader (Read leftoverBytes));
           mret (match skip with inl _ => err | inr skipErr => Some skipErr end)
         else mret err);
  match err with
  | Some e => fail None e
  | None => mret tt
  end.

(** [decodeSet] once the set header is read. *)
Definition decodeSet_body (fuel : nat) (startCount : Z) (setHeader : SetHeader) :
    M DecState () :=
  if sh_Length setHeader <? 4 then fail None ErrUnexpectedEOF
  else
    '(tr, err) ← decodeSet_template setHeader;
    err ← (match err with
           | Some e => mret (Some e)
           | None => decodeSet_loop fuel startCount setHeader tr
           end);
    decodeSet_skip startCount setHeader err.

Definition decodeSet (fuel : nat) : M DecState () :=
  s ← get;
  let startCount := ReadCount (st_reader s) in
  setHeader ← on_reader SetHeader_unmarshal;
  decodeSet_body fuel startCount setHeader.

(** [err.(type)] against [nonfatalError]: that type is declared as
    [type nonfatalError error], an interface with the method set of [error], which the
    dynamic type of every error implements; the case always matches. *)
Definition is_nonfatalError (e : GoError) : bool := true.

(** The set loop of [Decode]; the result is [decodeErrors]. *)
Fixpoint Decode_loop (fuel set_fuel : nat) (decodeErrors : list GoError) :
    M DecState (list GoError) :=
  match fuel with
  | O => nofuel
  | S fuel' =>
      s ← get;
      if Len (st_reader s) >? 4 then
        r ← try (decodeSet set_fuel);
        match r with
        | inl _ => Decode_loop fuel' set_fuel decodeErrors
        | inr err =>
            if is_nonfatalError err
            then Decode_loop fuel' set_fuel (decodeErrors ++ [err])
            else fail None err
        end
      else mret decodeErrors
  end.

Definition combineErrors (errorSlice : list GoError) : option GoError :=
  match errorSlice with
  | [] => None
  | [e] => Some e
  | _ => Some (errMultiple errorSlice)
  end.

(** [Decode]; the same fuel bounds the set loop and each record loop. *)
Definition Decode (fuel : nat) : M DecState Message :=
  header ← on_reader MessageHeader_unmarshal;
  MessageHeader_validate header;;
  modify (set_msg (mkMessage (IP_String raddr) header []));;
  decodeErrors ← Decode_loop fuel fuel [];
  s ← get;
  match combineErrors decodeErrors with
  | None => mret (st_msg s)
  | Some e => fail (Some (st_msg s)) e
  end.

(** [NewDecoder(raddr, b)] with [new(Message)], the shared cache and channel. *)
Definition NewDecoder (b : list byte) (mem : MC) (rpcChan : list RPCRequest) (clock : nat) :
    DecState := mkDecState (NewReader b) mem zeroMessage rpcChan clock.

End decoder.
