(* ===== verification/IpfixFacts.v ===== *)
(** Safety, error and termination theorems of the IPFIX decoder.

    [tr_wf] is the typing invariant of templates (lengths are 16-bit numbers), [st_ok]
    the invariant of the decoder's state: a well-formed cache of well-formed templates.
    [stuck] characterises the sets on which the record loop does not terminate. *)

From S2P Require Import Prelude GoNet InfoModel Interpret TemplateCache Reader IpfixDecoder.

(** ** Templates *)

Definition spec_wf (f : TemplateFieldSpecifier) : Prop := 0 <= fs_Length f < 65536.

Definition tr_wf (tr : TemplateRecord) : Prop :=
  Forall spec_wf (tr_FieldSpecifiers tr) /\ Forall spec_wf (tr_ScopeFieldSpecifiers tr).

(** The bytes one record of a template takes. *)
Definition specs_width (l : list TemplateFieldSpecifier) : Z :=
  foldr (fun f acc => fs_Length f + acc) 0 l.

Definition record_width (tr : TemplateRecord) : Z :=
  specs_width (tr_FieldSpecifiers tr) + specs_width (tr_ScopeFieldSpecifiers tr).

(** All elements of the template are in the information model. *)
Definition spec_known (im : IANAInfoModel) (f : TemplateFieldSpecifier) : Prop :=
  is_Some (im !! mkElementKey (fs_EnterpriseNo f) (fs_ElementID f)).

Definition tr_known (im : IANAInfoModel) (tr : TemplateRecord) : Prop :=
  Forall (spec_known im) (tr_FieldSpecifiers tr) /\
  Forall (spec_known im) (tr_ScopeFieldSpecifiers tr).

#[global] Instance tr_known_dec im tr : Decision (tr_known im tr).
Proof. unfold tr_known, spec_known. apply _. Defined.

Lemma specs_width_nonneg l : Forall spec_wf l -> 0 <= specs_width l.
Proof. induction 1 as [|f l Hf Hl IH]; simpl; [lia|]. unfold spec_wf in Hf. lia. Qed.

Lemma reads_TemplateFieldSpecifier : reads spec_wf TemplateFieldSpecifier_unmarshal.
Proof.
  unfold TemplateFieldSpecifier_unmarshal. do 2 reads_step. case_match.
  - reads_step. by apply reads_ret.
  - by apply reads_ret.
Qed.

Lemma reads_unmarshal_fields n acc :
  Forall spec_wf acc -> reads (Forall spec_wf) (unmarshal_fields n acc).
Proof.
  revert acc. induction n as [|n IH]; intros acc Hacc; simpl; [by apply reads_ret|].
  eapply reads_bind; [apply reads_TemplateFieldSpecifier|]. intros tf Htf.
  apply IH. apply Forall_app; auto.
Qed.

Lemma reads_unmarshal_scope n fields acc :
  Forall spec_wf fields -> Forall spec_wf acc ->
  reads (Forall spec_wf) (unmarshal_scope n fields acc).
Proof.
  revert acc. induction n as [|n IH]; intros acc Hf Hacc; simpl; [by apply reads_ret|].
  eapply reads_bind; [apply reads_TemplateFieldSpecifier|]. intros tf Htf.
  apply IH; [done|]. apply Forall_app; auto.
Qed.

Lemma reads_TemplateRecord_unmarshal : reads tr_wf TemplateRecord_unmarshal.
Proof.
  unfold TemplateRecord_unmarshal. eapply reads_bind with (Q := fun _ => True).
  - unfold TemplateHeader_unmarshal. do 2 reads_step. by apply reads_ret.
  - intros th _. eapply reads_bind; [by apply reads_unmarshal_fields|].
    intros fields Hf. apply reads_ret. by split.
Qed.

Lemma reads_TemplateRecord_unmarshalOpts : reads tr_wf TemplateRecord_unmarshalOpts.
Proof.
  unfold TemplateRecord_unmarshalOpts. eapply reads_bind with (Q := fun _ => True).
  - unfold TemplateHeader_unmarshalOpts. do 3 reads_step. by apply reads_ret.
  - intros th _. eapply reads_bind; [by apply reads_unmarshal_scope|]. intros scope Hs.
    eapply reads_bind; [by apply reads_unmarshal_fields|].
    intros fields Hf. apply reads_ret. by split.
Qed.

Lemma reads_SetHeader_unmarshal :
  reads (fun h => 0 <= sh_SetID h < 65536 /\ 0 <= sh_Length h < 65536) SetHeader_unmarshal.
Proof. unfold SetHeader_unmarshal. do 2 reads_step. by apply reads_ret. Qed.

Lemma reads_MessageHeader_unmarshal : reads (fun _ => True) MessageHeader_unmarshal.
Proof. unfold MessageHeader_unmarshal. do 5 reads_step. by apply reads_ret. Qed.

(** ** Data records *)

Section data.
Context (im : IANAInfoModel).

Lemma Interpret_ret {S A} b t (k : Value -> M S A) s :
  (Interpret b t ≫= k) s = k (interpret_spec b t) s.
Proof. unfold mbind, M_bind. by rewrite Interpret_eq. Qed.

Lemma reads_Interpret_bind {A} b t (k : Value -> M Reader A) Q :
  (forall v, reads Q (k v)) -> reads Q (Interpret b t ≫= k).
Proof. intros Hk r. rewrite Interpret_ret. apply Hk. Qed.

Lemma reads_decode_specs err ent specs acc :
  Forall spec_wf specs -> reads (fun _ => True) (decode_specs im err ent specs acc).
Proof.
  revert acc. induction specs as [|f specs IH]; intros acc Hs; simpl; [by apply reads_ret|].
  apply Forall_cons in Hs as [Hf Hs].
  eapply reads_bind; [apply reads_Read; apply Hf|]. intros b Hb.
  case_match; [|apply reads_fail]. apply reads_Interpret_bind. auto.
Qed.

Lemma reads_decodeData tr : tr_wf tr -> reads (fun _ => True) (decodeData im tr).
Proof.
  intros [H1 H2]. unfold decodeData.
  eapply reads_bind; [by apply reads_decode_specs|]. intros.
  by apply reads_decode_specs.
Qed.

(** A record that decodes has consumed exactly the template's width. *)
Lemma decode_specs_width err ent specs acc r r' d :
  Forall spec_wf specs -> decode_specs im err ent specs acc r = (r', Ok d) ->
  count r' = count r + specs_width specs.
Proof.
  revert acc r. induction specs as [|f specs IH]; intros acc r Hs H; simpl in *.
  - inversion H; subst. lia.
  - apply Forall_cons in Hs as [Hf Hs]. unfold spec_wf in Hf.
    unfold mbind, M_bind in H. rewrite Read_eq in H by lia.
    destruct (len (data r) <? fs_Length f); [done|].
    case_match; [|done]. unfold mbind, M_bind in H. rewrite Interpret_eq in H.
    apply IH in H; [|done]. simpl in H. lia.
Qed.

Lemma decodeData_width tr r r' d :
  tr_wf tr -> decodeData im tr r = (r', Ok d) -> count r' = count r + record_width tr.
Proof.
  intros [H1 H2] H. unfold decodeData, mbind, M_bind in H.
  destruct (decode_specs im _ _ _ [] r) as [r1 []] eqn:E; try done.
  apply decode_specs_width in E; [|done]. apply decode_specs_width in H; [|done].
  unfold record_width. lia.
Qed.

(** A template of width zero whose elements are known decodes without consuming. *)
Lemma decode_specs_zero err ent specs acc r :
  Forall spec_wf specs -> Forall (spec_known im) specs -> specs_width specs = 0 ->
  exists d, decode_specs im err ent specs acc r = (r, Ok d).
Proof.
  revert acc. induction specs as [|f specs IH]; intros acc Hs Hk Hw; simpl in *; [by eexists|].
  apply Forall_cons in Hs as [Hf Hs]. apply Forall_cons in Hk as [[m Hm] Hk].
  pose proof (specs_width_nonneg specs Hs). unfold spec_wf in Hf.
  unmonad. rewrite Read_eq by lia. replace (fs_Length f) with 0 by lia.
  pose proof (len_nonneg (data r)). case_test; [lia|]. simpl. rewrite Hm, Interpret_eq.
  rewrite drop_0, Z.add_0_r. destruct r as [dat c]. simpl. apply IH; done || lia.
Qed.

Lemma decodeData_zero tr r :
  tr_wf tr -> tr_known im tr -> record_width tr = 0 -> exists d, decodeData im tr r = (r, Ok d).
Proof.
  intros [H1 H2] [H3 H4] Hw. unfold decodeData, record_width in *.
  pose proof (specs_width_nonneg _ H1). pose proof (specs_width_nonneg _ H2).
  unmonad. edestruct decode_specs_zero as [d ->]; [done|done|lia|].
  apply decode_specs_zero; done || lia.
Qed.

(** A record that does not decode although all its elements are known lacks bytes. *)
Lemma decode_specs_unknown err ent specs acc r r' d :
  decode_specs im err ent specs acc r = (r', Ok d) -> Forall (spec_known im) specs.
Proof.
  revert acc r. induction specs as [|f specs IH]; intros acc r H; simpl in *; [done|].
  unfold mbind, M_bind in H. destruct (Read (fs_Length f) r) as [r1 []]; try done.
  destruct (im !! _) as [m|] eqn:E; [|done].
  unfold mbind, M_bind in H. rewrite Interpret_eq in H. apply IH in H.
  constructor; [by exists m|done].
Qed.

Lemma decodeData_known tr r r' d :
  decodeData im tr r = (r', Ok d) -> tr_known im tr.
Proof.
  unfold decodeData, mbind, M_bind. intros H.
  destruct (decode_specs im _ _ _ [] r) as [r1 []] eqn:E; try done.
  split; eapply decode_specs_unknown; done.
Qed.

End data.

(** ** Sets and messages *)

Section sets.
Context (im : IANAInfoModel) {MC : Type} `{!TemplateStore TemplateRecord MC}.
Context (raddr : list byte) (unix_now : nat -> Z).

(** The cache is well-formed and holds well-formed templates. *)
Definition cache_ok (m : MC) : Prop :=
  ts_wf m /\ forall k t, ts_lookup m k = Some t -> tr_wf t.

(** The invariant of decoding from the state [s0] on: the cache is well-formed, the
    reader has only moved forward, and the message kept its agent and header and only
    gained records. *)
Definition st_inv (s0 s : DecState (MC:=MC)) : Prop :=
  cache_ok (st_mem s) /\ adv (st_reader s0) (st_reader s) /\
  msg_AgentID (st_msg s) = msg_AgentID (st_msg s0) /\
  msg_Header (st_msg s) = msg_Header (st_msg s0) /\
  msg_DataSets (st_msg s0) `prefix_of` msg_DataSets (st_msg s).

Lemma st_inv_start s : cache_ok (st_mem s) -> st_inv s s.
Proof. intros H. split_and!; done || reflexivity || apply H. Qed.

Context (s0 : DecState (MC:=MC)).
Abbreviation ok := (st_inv s0).

Lemma safe_on_reader {A} (Q : A -> Prop) m : reads Q m -> safe ok Q (on_reader m).
Proof.
  intros Hm s (Hc & Ha & Hg). unfold on_reader, zoom. destruct (Hm (st_reader s)) as (H1 & H2 & H3).
  destruct (m (st_reader s)) as [r' []]; simpl in *; try done;
    (split; [split; [exact Hc|split; [by etransitivity|done]]|done]).
Qed.

Lemma safe_retrieve id :
  safe ok (fun o => forall t, o = Some t -> tr_wf t) (on_mem (ts_retrieve id raddr)).
Proof.
  intros s ([Hw Hc] & Ha). unfold on_mem, zoom. rewrite ts_retrieve_ok by done. simpl.
  split; [done|]. intros t Ht. by eapply Hc.
Qed.

Lemma safe_insert id t now : tr_wf t -> safe ok (fun _ => True) (on_mem (ts_insert id raddr t now)).
Proof.
  intros Ht s ([Hw Hc] & Ha). unfold on_mem, zoom.
  destruct (ts_insert_ok (st_mem s) id raddr t now Hw) as (m' & -> & Hw' & Hl). simpl.
  split; [|done]. split; [|done]. split; [done|]. intros k t' Hk. simpl in Hk. rewrite Hl in Hk.
  case_decide; [by simplify_eq|by eapply Hc].
Qed.

Lemma safe_time_now : safe ok (fun _ => True) (time_now unix_now).
Proof. intros s Hs. done. Qed.

Lemma safe_rpc_request req : safe ok (fun _ => True) (rpc_request req).
Proof. apply safe_modify. intros s Hs. by case_test. Qed.

Lemma safe_append_DataSets d : safe ok (fun _ => True) (append_DataSets d).
Proof.
  apply safe_modify. intros s (Hc & Ha & H1 & H2 & H3). split_and!; try done; try apply Hc.
  by apply prefix_app_r.
Qed.

Lemma safe_decodeSet_loop fuel start h tr :
  tr_wf tr -> safe ok (fun _ => True) (decodeSet_loop im raddr unix_now fuel start h tr).
Proof.
  intros Htr. induction fuel as [|fuel IH]; simpl; [apply safe_nofuel|].
  eapply safe_bind; [apply safe_get|]. intros s _. case_match; [|by apply safe_ret].
  case_match; [|case_match; [by apply safe_ret|]].
  - eapply safe_bind; [apply safe_try, safe_on_reader, reads_PeekUint16|]. intros id _.
    destruct (match id with inl id => id =? 0 | inr _ => false end); [by apply safe_ret|].
    eapply safe_bind with (Q := fun r => match r with inl t => tr_wf t | inr _ => True end).
    { apply safe_try, safe_on_reader.
      destruct (sh_SetID h =? 2);
        [apply reads_TemplateRecord_unmarshal|apply reads_TemplateRecord_unmarshalOpts]. }
    intros [t|e] Ht; (eapply safe_bind with (Q := fun _ => True); [|by intros]).
    + eapply safe_bind; [apply safe_time_now|]. intros now _. by apply safe_insert.
    + by apply safe_ret.
  - eapply safe_bind; [eapply safe_try, safe_on_reader; by apply reads_decodeData|].
    intros [d|e] _; [|by apply safe_ret].
    eapply safe_bind; [apply safe_append_DataSets|]. by intros.
Qed.

Lemma safe_decodeSet_skip start h err : safe ok (fun _ => True) (decodeSet_skip start h err).
Proof.
  unfold decodeSet_skip. eapply safe_bind; [apply safe_get|]. intros s _.
  eapply safe_bind with (Q := fun _ => True).
  - destruct (Z.gtb_spec (uint16 (sh_Length h - uint16 (ReadCount (st_reader s) - start))) 0);
      [|by apply safe_ret].
    eapply safe_bind; [apply safe_try, safe_on_reader, reads_Read; lia|]. intros. by apply safe_ret.
  - intros [e|] _; [apply safe_fail|by apply safe_ret].
Qed.

Lemma tr_wf_zero : tr_wf zeroTemplateRecord.
Proof. by split. Qed.

Lemma safe_decodeSet_template h :
  safe ok (fun p => tr_wf p.1) (decodeSet_template raddr h).
Proof.
  unfold decodeSet_template. case_match; [|apply safe_ret, tr_wf_zero].
  eapply safe_bind; [apply safe_retrieve|]. intros [t|] Ht.
  - apply safe_ret. by apply Ht.
  - eapply safe_bind; [apply safe_rpc_request|]. intros. apply safe_ret, tr_wf_zero.
Qed.

Lemma safe_decodeSet_body fuel start h :
  safe ok (fun _ => True) (decodeSet_body im raddr unix_now fuel start h).
Proof.
  unfold decodeSet_body. case_match; [apply safe_fail|].
  eapply safe_bind; [apply safe_decodeSet_template|]. intros [tr err] Htr. simpl in Htr.
  eapply safe_bind with (Q := fun _ => True); [|intros; apply safe_decodeSet_skip].
  destruct err; [by apply safe_ret|by apply safe_decodeSet_loop].
Qed.

Lemma safe_decodeSet fuel : safe ok (fun _ => True) (decodeSet im raddr unix_now fuel).
Proof.
  unfold decodeSet. eapply safe_bind; [apply safe_get|]. intros s _.
  eapply safe_bind; [apply safe_on_reader, reads_SetHeader_unmarshal|]. intros h _.
  apply safe_decodeSet_body.
Qed.

Lemma safe_Decode_loop fuel sf errs :
  safe ok (fun _ => True) (Decode_loop im raddr unix_now fuel sf errs).
Proof.
  revert errs. induction fuel as [|fuel IH]; intros errs; simpl; [apply safe_nofuel|].
  eapply safe_bind; [apply safe_get|]. intros s _. case_match; [|by apply safe_ret].
  eapply safe_bind; [apply safe_try, safe_decodeSet|]. intros [?|e] _; apply IH.
Qed.

End sets.

(** ** Termination *)

Section termination.
Context (im : IANAInfoModel) {MC : Type} `{!TemplateStore TemplateRecord MC}.
Context (raddr : list byte) (unix_now : nat -> Z).

(** Reading a template record from four bytes or more consumes at least four. *)
Lemma TemplateRecord_unmarshal_consumes : consumes 4 TemplateRecord_unmarshal.
Proof.
  apply consumes_bind with (Q := tr_wf).
  - apply (consumes_Uint16 2); [lia|]. intros. apply (consumes_Uint16 0); [lia|]. intros.
    by eapply consumes_0, (reads_ret (fun _ => True)).
  - intros th. eapply reads_bind; [by apply reads_unmarshal_fields|]. intros.
    apply reads_ret. by split.
Qed.

Lemma TemplateRecord_unmarshalOpts_consumes : consumes 4 TemplateRecord_unmarshalOpts.
Proof.
  apply consumes_bind with (Q := tr_wf).
  - apply (consumes_Uint16 2); [lia|]. intros. apply (consumes_Uint16 0); [lia|]. intros.
    eapply consumes_0 with (Q := fun _ => True). reads_step. by apply reads_ret.
  - intros th. eapply reads_bind; [by apply reads_unmarshal_scope|]. intros.
    eapply reads_bind; [by apply reads_unmarshal_fields|]. intros. apply reads_ret. by split.
Qed.

(** The set header is read whole, or the reader is short of four bytes. *)
Lemma SetHeader_unmarshal_ok r :
  4 <= len (data r) ->
  SetHeader_unmarshal r =
    (mkReader (drop 4 (data r)) (count r + 4),
     Ok (mkSetHeader (be_decode (take 2 (data r))) (be_decode (take 2 (drop 2 (data r)))))).
Proof.
  intros Hr. unfold SetHeader_unmarshal. unmonad. rewrite Uint16_eq, read_be_ok by lia.
  rewrite Uint16_eq, read_be_ok by (cbn [data]; rewrite len_drop; lia). cbn [data count].
  rewrite drop_drop. do 2 f_equal. lia.
Qed.

(** The loop's condition. *)
Definition loop_cond (start : Z) (h : SetHeader) (s : DecState (MC:=MC)) : bool :=
  (sh_Length h >? uint16 (ReadCount (st_reader s) - start)) && (Len (st_reader s) >? 4).

Lemma loop_cond_len start h s : loop_cond start h s = true -> 4 < len (data (st_reader s)).
Proof. unfold loop_cond, Len. intros [_ H]%andb_true_iff. by apply Z.gtb_lt in H. Qed.

(** One round of the loop in a template set: padding, or a record was read (and, when
    it was whole, stored), with at least four bytes consumed. *)
Lemma decodeSet_loop_template fuel start h tr s :
  cache_ok (st_mem s) -> sh_SetID h = 2 \/ sh_SetID h = 3 -> loop_cond start h s = true ->
  decodeSet_loop im raddr unix_now (S fuel) start h tr s = (s, Ok None) \/
  exists s', decodeSet_loop im raddr unix_now (S fuel) start h tr s =
               decodeSet_loop im raddr unix_now fuel start h tr s' /\
    cache_ok (st_mem s') /\ adv (st_reader s) (st_reader s') /\
    count (st_reader s) + 4 <= count (st_reader s').
Proof.
  intros Hc Hid Hcond. pose proof (loop_cond_len _ _ _ Hcond) as Hlen.
  set (um := if sh_SetID h =? 2 then TemplateRecord_unmarshal else TemplateRecord_unmarshalOpts).
  assert (reads tr_wf um /\ consumes 4 um) as [Hr Hn].
  { unfold um. destruct (sh_SetID h =? 2); split;
      auto using reads_TemplateRecord_unmarshal, reads_TemplateRecord_unmarshalOpts,
        TemplateRecord_unmarshal_consumes, TemplateRecord_unmarshalOpts_consumes. }
  specialize (Hn (st_reader s) ltac:(lia)). destruct (Hr (st_reader s)) as (Ha & Hret & Hwf).
  cbn [decodeSet_loop]. fold um. unmonad. cbn beta iota. unfold loop_cond in Hcond. rewrite Hcond.
  replace ((sh_SetID h =? 2) || (sh_SetID h =? 3)) with true
    by (destruct Hid as [-> | ->]; reflexivity).
  unfold on_reader, zoom. rewrite PeekUint16_eq.
  destruct (Z.ltb_spec (len (data (st_reader s))) 2); [lia|]. destruct s as [r m g q c].
  cbn [set_reader st_reader st_mem st_msg st_rpcChan st_clock] in *.
  destruct (be_decode (take 2 (data r)) =? 0); [by left|]. right.
  simpl. destruct (um r) as [r' [t|v e| |]]; simpl in *; try done.
  - unfold on_mem, zoom, time_now. simpl.
    destruct (ts_insert_ok m (tr_TemplateID t) raddr t (unix_now c) (proj1 Hc))
      as (m' & -> & Hw & Hl).
    exists (mkDecState r' m' g q (S c)). split; [done|]. split; [|by split]. split; [done|].
    intros k t' Hk. simpl in Hk. rewrite Hl in Hk. destruct Hc as [_ Hc].
    case_decide; [by simplify_eq|by eapply Hc].
  - by exists (mkDecState r' m g q c).
Qed.

(** One round of the loop in a data set. *)
Lemma decodeSet_loop_data fuel start h tr s :
  sh_SetID h < 2 \/ 255 < sh_SetID h -> loop_cond start h s = true ->
  decodeSet_loop im raddr unix_now (S fuel) start h tr s =
    match decodeData im tr (st_reader s) with
    | (r', Ok d) => decodeSet_loop im raddr unix_now fuel start h tr
                      (append_DataSets d (set_reader r' s)).1
    | (r', Err _ e) => (set_reader r' s, Ok (Some e))
    | (r', Panic) => (set_reader r' s, Panic)
    | (r', NoFuel) => (set_reader r' s, NoFuel)
    end.
Proof.
  intros Hid Hcond. cbn [decodeSet_loop]. unmonad. cbn beta iota. unfold loop_cond in Hcond.
  rewrite Hcond.
  replace ((sh_SetID h =? 2) || (sh_SetID h =? 3)) with false
    by (symmetry; apply orb_false_iff; rewrite !Z.eqb_neq; lia).
  replace ((sh_SetID h >=? 4) && (sh_SetID h <=? 255)) with false
    by (symmetry; apply andb_false_iff; rewrite Z.geb_leb, !Z.leb_gt; lia).
  unfold on_reader, zoom. by destruct (decodeData im tr (st_reader s)) as [r' []].
Qed.

Lemma decodeSet_loop_exit fuel start h tr s :
  loop_cond start h s = false ->
  decodeSet_loop im raddr unix_now (S fuel) start h tr s = (s, Ok None).
Proof.
  intros Hcond. cbn [decodeSet_loop]. unmonad. cbn beta iota. unfold loop_cond in Hcond.
  by rewrite Hcond.
Qed.

Lemma decodeSet_loop_reserved fuel start h tr s :
  4 <= sh_SetID h <= 255 ->
  decodeSet_loop im raddr unix_now (S fuel) start h tr s = (s, Ok None).
Proof.
  intros Hid. cbn [decodeSet_loop]. unmonad. cbn beta iota. destruct (_ && _); [|done].
  replace ((sh_SetID h =? 2) || (sh_SetID h =? 3)) with false
    by (symmetry; apply orb_false_iff; rewrite !Z.eqb_neq; lia).
  replace ((sh_SetID h >=? 4) && (sh_SetID h <=? 255)) with true
    by (symmetry; apply andb_true_iff; rewrite Z.geb_leb, !Z.leb_le; lia).
  done.
Qed.

(** The header of a set cannot be read from fewer than four bytes. *)
Lemma SetHeader_unmarshal_short r :
  len (data r) < 4 -> exists r', SetHeader_unmarshal r = (r', Err None errReader).
Proof.
  intros Hr. unfold SetHeader_unmarshal. unmonad. rewrite Uint16_eq.
  destruct (Z.lt_ge_cases (len (data r)) 2).
  - rewrite read_be_short by done. by eexists.
  - rewrite read_be_ok by lia. rewrite Uint16_eq, read_be_short; [by eexists|].
    cbn [data]. rewrite len_drop; lia.
Qed.

(** The record loop ends when there are no more than [fuel] bytes, unless it reads
    records of a zero-width template all of whose elements are known. *)
Definition loop_progresses (h : SetHeader) (tr : TemplateRecord) : Prop :=
  2 <= sh_SetID h <= 255 \/ 0 < record_width tr \/ ~ tr_known im tr.

Lemma decodeSet_loop_terminates fuel start h tr s :
  cache_ok (st_mem s) -> tr_wf tr -> loop_progresses h tr ->
  len (data (st_reader s)) < Z.of_nat fuel ->
  (decodeSet_loop im raddr unix_now fuel start h tr s).2 <> NoFuel.
Proof.
  intros Hc Htr Hp. revert s Hc. induction fuel as [|fuel IH]; intros s Hc Hf.
  { pose proof (len_nonneg (data (st_reader s))). lia. }
  destruct (loop_cond start h s) eqn:Hcond; [|by rewrite decodeSet_loop_exit].
  assert (sh_SetID h = 2 \/ sh_SetID h = 3 \/ 4 <= sh_SetID h <= 255 \/
          (sh_SetID h < 2 \/ 255 < sh_SetID h)) as [H|[H|[H|H]]] by lia.
  1, 2: (destruct (decodeSet_loop_template fuel start h tr s Hc ltac:(lia) Hcond)
      as [->|(s' & -> & Hc' & Ha & Hn)]; [done|]; apply IH; [done|]; apply adv_len in Ha; lia).
  - by rewrite decodeSet_loop_reserved.
  - rewrite decodeSet_loop_data by done.
    destruct (reads_decodeData im tr Htr (st_reader s)) as (Ha & Hret & _).
    destruct (decodeData im tr (st_reader s)) as [r' [d|v e| |]] eqn:Ed; try done.
    apply IH; [done|]. simpl in *. apply adv_len in Ha.
    pose proof (decodeData_width im tr _ _ _ Htr Ed).
    destruct Hp as [Hp|[Hp|Hp]]; [lia|lia|]. by apply decodeData_known in Ed.
Qed.

Lemma decodeSet_loop_diverges fuel start h tr s :
  tr_wf tr -> tr_known im tr -> record_width tr = 0 ->
  sh_SetID h < 2 \/ 255 < sh_SetID h -> loop_cond start h s = true ->
  (decodeSet_loop im raddr unix_now fuel start h tr s).2 = NoFuel.
Proof.
  intros Hwf Hk Hw Hid. revert s. induction fuel as [|fuel IH]; intros s Hcond; [done|].
  rewrite decodeSet_loop_data by done.
  destruct (decodeData_zero im tr (st_reader s) Hwf Hk Hw) as [d ->].
  by apply IH.
Qed.

Lemma decodeSet_eq fuel s :
  4 <= len (data (st_reader s)) ->
  decodeSet im raddr unix_now fuel s =
    decodeSet_body im raddr unix_now fuel (count (st_reader s))
      (mkSetHeader (be_decode (take 2 (data (st_reader s))))
                   (be_decode (take 2 (drop 2 (data (st_reader s))))))
      (set_reader (mkReader (drop 4 (data (st_reader s))) (count (st_reader s) + 4)) s).
Proof.
  intros Hl. unfold decodeSet. unmonad. cbn beta iota. unfold on_reader, zoom.
  by rewrite SetHeader_unmarshal_ok.
Qed.

Lemma decodeSet_skip_returns start h err s :
  cache_ok (st_mem s) -> returns (decodeSet_skip start h err s).2.
Proof.
  intros Hc. unfold decodeSet_skip. unmonad. cbn beta iota.
  set (n := uint16 (sh_Length h - uint16 (ReadCount (st_reader s) - start))).
  destruct (Z.gtb_spec n 0); [|by destruct err].
  unfold on_reader, zoom. destruct (reads_Read n ltac:(lia) (st_reader s)) as (_ & Hr & _).
  destruct (Read n (st_reader s)) as [r' []]; try done. by destruct err.
Qed.

(** The template whose records the set is read with: the cached one for a data set,
    the zero template for the set ids 0 and 1, none for the other sets. *)
Definition data_template (s : DecState (MC:=MC)) (h : SetHeader) : option TemplateRecord :=
  if sh_SetID h >? 255 then ts_lookup (st_mem s) (cache_key (sh_SetID h) raddr)
  else if sh_SetID h <=? 1 then Some zeroTemplateRecord else None.

(** The sets on which the record loop spins: a whole set header announcing content,
    more than four unread bytes after it, and a template of known elements whose
    records are empty. *)
Definition stuck (s : DecState (MC:=MC)) : Prop :=
  exists r h tr, SetHeader_unmarshal (st_reader s) = (r, Ok h) /\
    4 < sh_Length h /\ 4 < Len r /\ data_template s h = Some tr /\
    record_width tr = 0 /\ tr_known im tr.

Lemma data_template_wf s h tr : cache_ok (st_mem s) -> data_template s h = Some tr -> tr_wf tr.
Proof.
  intros [_ Hc]. unfold data_template. case_match; [apply Hc|]. case_match; [|done].
  intros [= <-]. apply tr_wf_zero.
Qed.

Lemma decodeSet_template_eq h s :
  cache_ok (st_mem s) ->
  decodeSet_template raddr h s =
    if sh_SetID h >? 255 then
      match ts_lookup (st_mem s) (cache_key (sh_SetID h) raddr) with
      | Some tr => (s, Ok (tr, None))
      | None =>
          ((rpc_request (mkRPCRequest (sh_SetID h) raddr) s).1,
           Ok (zeroTemplateRecord,
               Some (errIpfixUnknownTemplate (IP_String raddr) (sh_SetID h))))
      end
    else (s, Ok (zeroTemplateRecord, None)).
Proof.
  intros [Hw _]. unfold decodeSet_template. case_match; [|done]. destruct s as [r m g q c].
  unfold on_mem, zoom, rpc_request. unmonad. cbn [st_mem] in *. rewrite ts_retrieve_ok by done.
  by destruct (ts_lookup _ _).
Qed.

Lemma rpc_request_ok req (s : DecState (MC:=MC)) :
  st_mem (rpc_request req s).1 = st_mem s /\ st_reader (rpc_request req s).1 = st_reader s /\
  st_msg (rpc_request req s).1 = st_msg s.
Proof. unfold rpc_request. unmonad. simpl. by case_test. Qed.

(** What follows the choice of the template loops for ever exactly when the record
    loop does. *)
Lemma decodeSet_rest_nofuel fuel start h tr s :
  cache_ok (st_mem s) -> tr_wf tr ->
  ((err ← decodeSet_loop im raddr unix_now fuel start h tr; decodeSet_skip start h err) s).2
    = NoFuel <-> (decodeSet_loop im raddr unix_now fuel start h tr s).2 = NoFuel.
Proof.
  intros Hc Htr. unmonad.
  destruct (safe_decodeSet_loop im raddr unix_now s fuel start h tr Htr s
              (st_inv_start s Hc)) as [[Hc' _] _].
  destruct (decodeSet_loop im raddr unix_now fuel start h tr s) as [s' [err|v e| |]];
    simpl in *; try done.
  pose proof (decodeSet_skip_returns start h err s' Hc').
  by destruct (decodeSet_skip start h err s').2.
Qed.

(** The template [decodeSet] runs the record loop with, if it does. *)
Definition loop_template (s : DecState (MC:=MC)) (h : SetHeader) : option TemplateRecord :=
  if sh_SetID h >? 255 then ts_lookup (st_mem s) (cache_key (sh_SetID h) raddr)
  else Some zeroTemplateRecord.

Lemma decodeSet_body_nofuel fuel start h s :
  cache_ok (st_mem s) -> 4 <= sh_Length h ->
  (decodeSet_body im raddr unix_now fuel start h s).2 = NoFuel <->
  exists tr, loop_template s h = Some tr /\
    (decodeSet_loop im raddr unix_now fuel start h tr s).2 = NoFuel.
Proof.
  intros Hc Hl. unfold decodeSet_body. case_test; [lia|].
  unfold mbind at 1, M_bind at 1. rewrite decodeSet_template_eq by done. unfold loop_template.
  destruct (Z.gtb_spec (sh_SetID h) 255).
  - destruct (ts_lookup _ _) as [tr|] eqn:El.
    + rewrite decodeSet_rest_nofuel; [|done|by eapply Hc]. split; [eauto|].
      by intros (? & [= ->] & ?).
    + split; [|by intros (? & ? & ?)]. intros H1. exfalso.
      destruct (rpc_request_ok (mkRPCRequest (sh_SetID h) raddr) s) as (Hm & _).
      pose proof (decodeSet_skip_returns start h
        (Some (errIpfixUnknownTemplate (IP_String raddr) (sh_SetID h)))
        (rpc_request (mkRPCRequest (sh_SetID h) raddr) s).1 ltac:(by rewrite Hm)) as Hs.
      unfold mbind, M_bind, mret, M_ret in H1. by rewrite H1 in Hs.
  - rewrite decodeSet_rest_nofuel; [|done|apply tr_wf_zero]. split; [eauto|].
    by intros (? & [= <-] & ?).
Qed.

(** Exactly when [decodeSet] does not terminate: with more loop rounds than unread
    bytes allowed, it fails to finish if and only if the set announces content, more
    than four bytes follow its header, and its records are empty, that is, the template
    is a cached one of total width zero (such as one announced with no fields) or the
    set has the id 0 or 1.  Every other set is processed in at most that many rounds. *)
Lemma decodeSet_nofuel_iff (fuel : nat) (s : DecState (MC:=MC)) :
  cache_ok (st_mem s) -> len (data (st_reader s)) < Z.of_nat fuel ->
  (decodeSet im raddr unix_now fuel s).2 = NoFuel <-> stuck s.
Proof.
  intros Hc Hf. destruct (Z.le_gt_cases 4 (len (data (st_reader s)))) as [Hl|Hl].
  2: { destruct (SetHeader_unmarshal_short (st_reader s) Hl) as [r' Hh]. split.
       - unfold decodeSet. unmonad. cbn beta iota. unfold on_reader, zoom. by rewrite Hh.
       - intros (? & ? & ? & Hh' & _). congruence. }
  rewrite decodeSet_eq by done. unfold stuck. rewrite SetHeader_unmarshal_ok by done.
  set (r1 := mkReader _ _). set (h := mkSetHeader _ _). set (s1 := set_reader r1 s).
  assert (loop_cond (count (st_reader s)) h s1 = (sh_Length h >? 4) && (Len r1 >? 4)) as Hcond.
  { unfold loop_cond, ReadCount. cbn [st_reader s1 set_reader r1 count].
    do 2 f_equal. rewrite wrapU_small; lia. }
  destruct (Z.lt_ge_cases (sh_Length h) 4) as [Hs|Hs].
  { split; [|intros (? & ? & ? & [= <- <-] & ? & _); lia].
    unfold decodeSet_body. case_test; [done|lia]. }
  rewrite decodeSet_body_nofuel by done. split.
  - intros (tr & Ht & Hn). exists r1, h, tr.
    destruct fuel as [|fuel]; [pose proof (len_nonneg (data (st_reader s))); lia|].
    destruct (loop_cond (count (st_reader s)) h s1) eqn:Ec; [|by rewrite decodeSet_loop_exit in Hn].
    symmetry in Hcond. apply andb_true_iff in Hcond as [HL%Z.gtb_lt HR%Z.gtb_lt].
    assert (tr_wf tr) as Htr.
    { unfold loop_template in Ht. case_match; [by eapply Hc|]. simplify_eq. apply tr_wf_zero. }
    assert (~ loop_progresses h tr) as Hp.
    { intros Hp. revert Hn. apply decodeSet_loop_terminates; try done.
      unfold s1, r1. simpl st_reader. simpl data. rewrite (len_drop 4) by lia. lia. }
    unfold loop_progresses in Hp. destruct Htr as [Hw1 Hw2].
    pose proof (specs_width_nonneg _ Hw1). pose proof (specs_width_nonneg _ Hw2).
    split_and!; try done.
    + unfold data_template, loop_template in *. case_match; [done|]. case_test; [done|].
      exfalso. apply Hp. left. rewrite Z.gtb_ltb, Z.ltb_ge in *. lia.
    + unfold record_width in *. lia.
    + destruct (decide (tr_known im tr)); [done|]. exfalso. tauto.
  - intros (? & ? & tr & [= <- <-] & H1 & H2 & Ht & Hw & Hk). exists tr.
    assert (sh_SetID h < 2 \/ 255 < sh_SetID h) as Hid.
    { unfold data_template in Ht. destruct (Z.gtb_spec (sh_SetID h) 255); [lia|].
      destruct (Z.leb_spec (sh_SetID h) 1); [lia|done]. }
    split.
    + unfold data_template, loop_template in *. case_match; [done|]. by case_match.
    + apply decodeSet_loop_diverges; try done; [by eapply data_template_wf|].
      rewrite Hcond. apply andb_true_iff. rewrite !Z.gtb_lt. done.
Qed.

End termination.
