(* ===== verification/IpfixDecode.v ===== *)
(** [Decode] of the IPFIX decoder as a whole: which messages it returns and which
    errors, that it never panics, and when it does not terminate. *)

From S2P Require Import Prelude GoNet InfoModel Interpret TemplateCache Reader IpfixDecoder IpfixFacts.

Section decode.
Context (im : IANAInfoModel) {MC : Type} `{!TemplateStore TemplateRecord MC}.
Context (raddr : list byte) (unix_now : nat -> Z).
Abbreviation St := (DecState (MC:=MC)).

(** The message header in the first 16 bytes. *)
Definition header_of (b : list byte) : MessageHeader :=
  mkMessageHeader (be_decode (take 2 b)) (be_decode (take 2 (drop 2 b)))
    (be_decode (take 4 (drop 4 b))) (be_decode (take 4 (drop 8 b)))
    (be_decode (take 4 (drop 12 b))).

(** The header is five integers in a row. *)
Lemma MessageHeader_unmarshal_Uints r :
  MessageHeader_unmarshal r =
    (zs ← Uints [W16; W16; W32; W32; W32];
     mret (match zs with
           | [v; l; t; s; d] => mkMessageHeader v l t s d
           | _ => zeroHeader
           end)) r.
Proof.
  unfold MessageHeader_unmarshal. cbn [Uints Uint]. unmonad.
  repeat (match goal with |- context [match ?m ?x with (_, _) => _ end] =>
    destruct (m x) as [? []]; try done end).
Qed.

Lemma MessageHeader_unmarshal_ok r :
  16 <= len (data r) ->
  MessageHeader_unmarshal r = (mkReader (drop 16 (data r)) (count r + 16), Ok (header_of (data r))).
Proof.
  intros Hr. rewrite MessageHeader_unmarshal_Uints. unmonad.
  rewrite Uints_ok by (unfold len in Hr; simpl; lia). simpl. by rewrite !drop_drop.
Qed.

Lemma MessageHeader_unmarshal_short r :
  len (data r) < 16 -> exists r', MessageHeader_unmarshal r = (r', Err None errReader).
Proof.
  intros Hr. rewrite MessageHeader_unmarshal_Uints. unmonad.
  destruct (Uints_short [W16; W16; W32; W32; W32] r) as [r' ->]; [unfold len in Hr; simpl; lia|].
  by eexists.
Qed.

(** The state in which the set loop starts. *)
Definition Decode_start (s : St) : St :=
  mkDecState (mkReader (drop 16 (data (st_reader s))) (count (st_reader s) + 16)) (st_mem s)
    (mkMessage (IP_String raddr) (header_of (data (st_reader s))) [])
    (st_rpcChan s) (st_clock s).

Lemma Decode_eq fuel (s : St) :
  16 <= len (data (st_reader s)) -> mh_Version (header_of (data (st_reader s))) = 10 ->
  Decode im raddr unix_now fuel s =
    match Decode_loop im raddr unix_now fuel fuel [] (Decode_start s) with
    | (s', Ok errs) =>
        match combineErrors errs with
        | None => (s', Ok (st_msg s'))
        | Some e => (s', Err (Some (st_msg s')) e)
        end
    | (s', Err _ e) => (s', Err None e)
    | (s', Panic) => (s', Panic)
    | (s', NoFuel) => (s', NoFuel)
    end.
Proof.
  intros Hl Hv. unfold Decode. unmonad. unfold on_reader, zoom.
  rewrite MessageHeader_unmarshal_ok by done. unfold MessageHeader_validate.
  rewrite Hv. simpl. change (set_msg _ _) with (Decode_start s).
  destruct (Decode_loop im raddr unix_now fuel fuel [] (Decode_start s)) as [s' []]; try done.
  by destruct (combineErrors a).
Qed.

(** No error ends the set loop: it returns its list of errors or runs out of fuel. *)
Lemma Decode_loop_no_error n fuel errs s :
  cache_ok (st_mem s) ->
  match (Decode_loop im raddr unix_now n fuel errs s).2 with
  | Ok _ | NoFuel => True
  | _ => False
  end.
Proof.
  revert errs s. induction n as [|n IH]; intros errs s Hc; [done|]. cbn [Decode_loop].
  unmonad. cbn beta iota. destruct (Len (st_reader s) >? 4); [|done].
  destruct (safe_decodeSet im raddr unix_now s fuel s (st_inv_start s Hc)) as [[Hc' _] Hp].
  destruct (decodeSet im raddr unix_now fuel s) as [s' [[]|v e| |]]; simpl in *; try done;
    by apply IH.
Qed.

(** The datagrams rejected before any set is read. *)
Lemma Decode_short fuel b mem q c :
  len b < 16 ->
  exists r', Decode im raddr unix_now fuel (NewDecoder b mem q c)
             = (set_reader r' (NewDecoder b mem q c), Err None errReader).
Proof.
  intros Hl. destruct (MessageHeader_unmarshal_short (NewReader b)) as [r' Hh]; [done|].
  exists r'. unfold Decode. unmonad. unfold on_reader, zoom. simpl. by rewrite Hh.
Qed.

Lemma Decode_version fuel b mem q c :
  16 <= len b -> be_decode (take 2 b) <> 10 ->
  exists r', Decode im raddr unix_now fuel (NewDecoder b mem q c)
             = (set_reader r' (NewDecoder b mem q c),
                Err None (errIpfixVersion (be_decode (take 2 b)))).
Proof.
  intros Hl Hv. unfold Decode. unmonad. unfold on_reader, zoom. simpl.
  rewrite MessageHeader_unmarshal_ok by done. unfold MessageHeader_validate. simpl.
  apply Z.eqb_neq in Hv. rewrite Hv. by eexists.
Qed.

(** [Decode] never panics and keeps the cache well-formed. *)
Lemma Decode_safe fuel b mem q c :
  cache_ok mem ->
  let out := Decode im raddr unix_now fuel (NewDecoder b mem q c) in
  cache_ok (st_mem out.1) /\ out.2 <> Panic.
Proof.
  intros Hc. cbn zeta. destruct (Z.lt_ge_cases (len b) 16) as [Hl|Hl].
  { by destruct (Decode_short fuel b mem q c) as [r' ->]. }
  destruct (Z.eq_dec (be_decode (take 2 b)) 10) as [Hv|Hv].
  2: { destruct (Decode_version fuel b mem q c) as [r' ->]; [lia|done|done]. }
  rewrite Decode_eq by done. set (s0 := Decode_start (NewDecoder b mem q c)).
  destruct (safe_Decode_loop im raddr unix_now s0 fuel fuel [] s0 (st_inv_start s0 Hc)) as [(Hc' & _) Hn].
  destruct (Decode_loop im raddr unix_now fuel fuel [] s0) as [s' []]; simpl in *; try done.
  by destruct (combineErrors a).
Qed.

(** ** Termination of [Decode] *)

(** One round of the set loop that comes to an end. *)
Inductive set_step (fuel : nat) : St -> St -> Prop :=
| set_step_intro s s' o :
    4 < Len (st_reader s) -> decodeSet im raddr unix_now fuel s = (s', o) -> returns o ->
    set_step fuel s s'.

Lemma decodeSet_progress fuel s :
  cache_ok (st_mem s) -> 4 < len (data (st_reader s)) ->
  let s' := (decodeSet im raddr unix_now fuel s).1 in
  cache_ok (st_mem s') /\ len (data (st_reader s')) <= len (data (st_reader s)) - 4.
Proof.
  intros Hc Hl. cbn zeta. rewrite decodeSet_eq by lia.
  match goal with |- context [decodeSet_body _ _ _ _ ?c ?h ?s1] =>
    destruct (safe_decodeSet_body im raddr unix_now s1 fuel c h s1 (st_inv_start s1 Hc))
      as [(Hc' & Ha & _) _] end.
  split; [done|]. pose proof (adv_count _ _ Ha). apply adv_len in Ha. simpl in *.
  rewrite (len_drop 4) in Ha by lia. lia.
Qed.

Lemma set_step_inv fuel s s' :
  cache_ok (st_mem s) -> set_step fuel s s' ->
  cache_ok (st_mem s') /\ len (data (st_reader s')) <= len (data (st_reader s)) - 4.
Proof.
  intros Hc Hs. destruct Hs as [s s' o Hl He Ho]. unfold Len in Hl.
  pose proof (decodeSet_progress fuel s Hc ltac:(lia)) as H. by rewrite He in H.
Qed.

Lemma Decode_loop_diverges_iff n fuel errs s :
  cache_ok (st_mem s) -> len (data (st_reader s)) < Z.of_nat n ->
  len (data (st_reader s)) < Z.of_nat fuel ->
  (Decode_loop im raddr unix_now n fuel errs s).2 = NoFuel <->
  exists s', rtc (set_step fuel) s s' /\ 4 < Len (st_reader s') /\ stuck im raddr s'.
Proof.
  revert errs s. induction n as [|n IH]; intros errs s Hc Hn Hf.
  { pose proof (len_nonneg (data (st_reader s))). lia. }
  cbn [Decode_loop]. unmonad. cbn beta iota. unfold Len.
  destruct (Z.gtb_spec (len (data (st_reader s))) 4) as [Hl|Hl].
  2: { split; [done|]. intros (s' & Hr & Hl' & _). exfalso.
       inversion Hr as [|? ? ? Hs]; subst; [|inversion Hs]; unfold Len in *; lia. }
  pose proof (decodeSet_nofuel_iff im raddr unix_now fuel s Hc Hf) as Hd.
  pose proof (decodeSet_progress fuel s Hc ltac:(lia)) as Hp.
  destruct (decodeSet im raddr unix_now fuel s) as [s1 o] eqn:E. simpl in *.
  assert (returns o -> forall errs',
    (Decode_loop im raddr unix_now n fuel errs' s1).2 = NoFuel <->
    exists s', rtc (set_step fuel) s s' /\ 4 < len (data (st_reader s')) /\ stuck im raddr s')
    as Hstep.
  { intros Ho errs'. destruct Hp as [Hc1 Hl1]. rewrite IH by (done || lia). split.
    - intros (s' & Hr & H). exists s'. split; [|done]. eapply rtc_l; [|exact Hr].
      by eapply set_step_intro; [unfold Len; lia| |].
    - intros (s' & Hr & H1 & H2). exists s'. split_and!; try done.
      inversion Hr as [|? s2 ? Hs Hr']; subst.
      + exfalso. apply Hd in H2. subst o. done.
      + inversion Hs as [? ? ? _ He _]. rewrite E in He. by inversion He; subst. }
  destruct o as [u|v e| |].
  - by apply Hstep.
  - by apply Hstep.
  - exfalso. destruct (safe_decodeSet im raddr unix_now s fuel s (st_inv_start s Hc)) as [_ H].
    by rewrite E in H.
  - split; [|done]. intros _. exists s. split; [done|]. split; [lia|]. by apply Hd.
Qed.

(** C27: [Decode] does not terminate on a datagram exactly when, after some number of
    sets that were each finished, it comes to a stuck set ([decodeSet_nofuel_iff]).  In particular each
    set consumes at least its four header bytes, so a datagram of [n] bytes without a
    stuck set is decoded within [n + 1] rounds of every loop. *)
Theorem Decode_diverges_iff (fuel : nat) (b : list byte) (mem : MC) (q : list RPCRequest)
    (c : nat) :
  cache_ok mem -> len b < Z.of_nat fuel ->
  (Decode im raddr unix_now fuel (NewDecoder b mem q c)).2 = NoFuel <->
  16 <= len b /\ be_decode (take 2 b) = 10 /\
  exists s', rtc (set_step fuel) (Decode_start (NewDecoder b mem q c)) s' /\
             4 < Len (st_reader s') /\ stuck im raddr s'.
Proof.
  intros Hc Hf. destruct (Z.lt_ge_cases (len b) 16) as [Hl|Hl].
  { destruct (Decode_short fuel b mem q c) as [r' ->]; [done|]. split; [done|lia]. }
  destruct (Z.eq_dec (be_decode (take 2 b)) 10) as [Hv|Hv].
  2: { destruct (Decode_version fuel b mem q c) as [r' ->]; [lia|done|]. split; [done|lia]. }
  rewrite Decode_eq by done. set (s0 := Decode_start (NewDecoder b mem q c)).
  assert (len (data (st_reader s0)) <= len b) by (simpl; rewrite (len_drop 16); lia).
  pose proof (Decode_loop_diverges_iff fuel fuel [] s0 Hc ltac:(lia) ltac:(lia)) as Hd.
  pose proof (Decode_loop_no_error fuel fuel [] s0 Hc).
  destruct (Decode_loop im raddr unix_now fuel fuel [] s0) as [s' o]. simpl in Hd.
  rewrite <- Hd. destruct o as [errs|v e| |]; simpl in *; try done.
  destruct (combineErrors errs); split; (done || by intros (_ & _ & [=])).
Qed.

(** A set on which the record loop never ends, after sets that were each finished. *)
Definition reaches_stuck (fuel : nat) (s0 : St) : Prop :=
  exists s', rtc (set_step fuel) s0 s' /\ 4 < Len (st_reader s') /\ stuck im raddr s'.

Lemma Decode_nofuel fuel b (mem : MC) q c :
  cache_ok mem -> len b < Z.of_nat fuel ->
  (Decode im raddr unix_now fuel (NewDecoder b mem q c)).2 = NoFuel ->
  reaches_stuck fuel (Decode_start (NewDecoder b mem q c)).
Proof.
  intros Hc Hf. destruct (Z.lt_ge_cases (len b) 16) as [Hl|Hl].
  { by destruct (Decode_short fuel b mem q c) as [r' ->]. }
  destruct (Z.eq_dec (be_decode (take 2 b)) 10) as [Hv|Hv].
  2: { by destruct (Decode_version fuel b mem q c) as [r' ->]. }
  rewrite Decode_eq by done. set (s0 := Decode_start (NewDecoder b mem q c)).
  assert (len (data (st_reader s0)) <= len b) by (simpl; rewrite (len_drop 16); lia).
  pose proof (Decode_loop_diverges_iff fuel fuel [] s0 Hc ltac:(lia) ltac:(lia)) as Hd.
  destruct (Decode_loop im raddr unix_now fuel fuel [] s0) as [s' []]; simpl in *; try done.
  - by destruct (combineErrors a).
  - intros _. by apply Hd.
Qed.

(** C26: the outcome of [Decode] on every datagram, with a well-formed cache and a loop bound
    above the length of the datagram.  A datagram shorter than the 16-byte header, or of
    another version, gives no message and that error.  Any other datagram gives a message
    with the agent's address and the decoded header (possibly together with an error), or
    leads to a set on which the record loop never ends: no error met in a set makes [Decode]
    drop the message, whatever its kind.  It never panics, and the cache stays well-formed. *)
Theorem Decode_outcome (fuel : nat) (b : list byte) (mem : MC) (q : list RPCRequest) (c : nat) :
  cache_ok mem -> len b < Z.of_nat fuel ->
  let out := Decode im raddr unix_now fuel (NewDecoder b mem q c) in
  cache_ok (st_mem out.1) /\
  if len b <? 16 then out.2 = Err None errReader
  else if negb (be_decode (take 2 b) =? 10)
    then out.2 = Err None (errIpfixVersion (be_decode (take 2 b)))
  else match out.2 with
       | Ok m | Err (Some m) _ => msg_AgentID m = IP_String raddr /\ msg_Header m = header_of b
       | NoFuel => reaches_stuck fuel (Decode_start (NewDecoder b mem q c))
       | _ => False
       end.
Proof.
  intros Hc Hf. cbn zeta. case_test.
  { by destruct (Decode_short fuel b mem q c) as [r' ->]. }
  destruct (Z.eqb_spec (be_decode (take 2 b)) 10) as [Hv|Hv]; simpl.
  2: { by destruct (Decode_version fuel b mem q c) as [r' ->]. }
  rewrite Decode_eq by done. set (s0 := Decode_start (NewDecoder b mem q c)).
  assert (len (data (st_reader s0)) <= len b) by (simpl; rewrite (len_drop 16); lia).
  destruct (safe_Decode_loop im raddr unix_now s0 fuel fuel [] s0 (st_inv_start s0 Hc))
    as [(Hc' & _ & Ha & Hh & _) _].
  pose proof (Decode_loop_no_error fuel fuel [] s0 Hc) as Hn.
  pose proof (Decode_loop_diverges_iff fuel fuel [] s0 Hc ltac:(lia) ltac:(lia)) as Hd.
  destruct (Decode_loop im raddr unix_now fuel fuel [] s0) as [s' []]; simpl in *; try done.
  - by destruct (combineErrors a).
  - split; [done|]. by apply Hd.
Qed.

End decode.
