(* ===== verification/IpfixWire.v ===== *)
(** Field specifiers and template records on the wire (RFC 7011).

    [encode_spec], [encode_template] and [encode_opts_template] say how an exporter writes
    them; the theorems state what the decoder's [unmarshal] methods read back.  Sets and
    messages are in IpfixMessage.v. *)

From S2P Require Import Prelude GoNet InfoModel Interpret TemplateCache Reader IpfixDecoder IpfixFacts IpfixDecode.

(** ** Encoders *)

Definition encode_spec (f : TemplateFieldSpecifier) : list byte :=
  if fs_EnterpriseNo f =? 0
  then be_encode 2 (fs_ElementID f) ++ be_encode 2 (fs_Length f)
  else be_encode 2 (0x8000 + fs_ElementID f) ++ be_encode 2 (fs_Length f)
         ++ be_encode 4 (fs_EnterpriseNo f).

Definition encode_specs (l : list TemplateFieldSpecifier) : list byte := concat (map encode_spec l).

Definition encode_template (tr : TemplateRecord) : list byte :=
  be_encode 2 (tr_TemplateID tr) ++ be_encode 2 (tr_FieldCount tr)
    ++ encode_specs (tr_FieldSpecifiers tr).

(** An options template as the exporter means it: all its scope fields, then the rest. *)
Record opts_record : Type := mkOpts {
  or_ID : Z; or_scope : list TemplateFieldSpecifier; or_fields : list TemplateFieldSpecifier
}.

Definition encode_opts_template (o : opts_record) : list byte :=
  be_encode 2 (or_ID o) ++ be_encode 2 (len (or_scope o) + len (or_fields o))
    ++ be_encode 2 (len (or_scope o)) ++ encode_specs (or_scope o) ++ encode_specs (or_fields o).

(** Specifiers and templates the formats can represent. *)
Definition spec_encodable (f : TemplateFieldSpecifier) : Prop :=
  0 <= fs_Length f < 65536 /\
  (fs_EnterpriseNo f = 0 /\ 0 <= fs_ElementID f <= 0x8000 \/
   0 < fs_EnterpriseNo f < 4294967296 /\ 1 <= fs_ElementID f < 0x8000).

Definition template_encodable (tr : TemplateRecord) : Prop :=
  0 <= tr_TemplateID tr < 65536 /\
  tr_FieldCount tr = len (tr_FieldSpecifiers tr) /\ len (tr_FieldSpecifiers tr) < 65536 /\
  Forall spec_encodable (tr_FieldSpecifiers tr) /\
  tr_ScopeFieldCount tr = 0 /\ tr_ScopeFieldSpecifiers tr = [].

Definition opts_encodable (o : opts_record) : Prop :=
  0 <= or_ID o < 65536 /\ len (or_scope o) + len (or_fields o) < 65536 /\
  Forall spec_encodable (or_scope o) /\ Forall spec_encodable (or_fields o).

#[export] Instance FieldSpecifier_eq_dec : EqDecision TemplateFieldSpecifier.
Proof. solve_decision. Defined.
#[export] Instance spec_encodable_dec f : Decision (spec_encodable f).
Proof. unfold spec_encodable. apply _. Defined.
#[export] Instance template_encodable_dec tr : Decision (template_encodable tr).
Proof. unfold template_encodable. apply _. Defined.
#[export] Instance opts_encodable_dec o : Decision (opts_encodable o).
Proof. unfold opts_encodable. apply _. Defined.

(** ** Templates are read back *)

Lemma land_7fff z : 0 <= z < 0x8000 -> Z.land (0x8000 + z) 0x7fff = z.
Proof.
  intros Hz. change 0x7fff with (Z.ones 15). rewrite Z.land_ones by lia.
  change (2 ^ 15) with 0x8000. rewrite <- (Z.mul_1_l 0x8000) at 1.
  rewrite Z.add_comm, Z.mod_add by lia. by apply Z.mod_small.
Qed.

Lemma spec_unmarshal_encode f rest c :
  spec_encodable f ->
  TemplateFieldSpecifier_unmarshal (mkReader (encode_spec f ++ rest) c) =
    (mkReader rest (c + len (encode_spec f)), Ok f).
Proof.
  intros [Hl He]. unfold TemplateFieldSpecifier_unmarshal, encode_spec. destruct f as [e l n].
  cbn [fs_ElementID fs_Length fs_EnterpriseNo] in *. destruct (Z.eqb_spec n 0) as [->|Hn].
  - destruct He as [[_ He]|[He _]]; [|lia]. rewrite <- app_assoc. unmonad.
    rewrite Uint16_encode by lia. rewrite Uint16_encode by lia.
    case_test; [lia|]. autorewrite with len. do 2 f_equal. lia.
  - destruct He as [[He _]|[Hn' He]]; [lia|]. rewrite <- !app_assoc. unmonad.
    rewrite Uint16_encode by lia. rewrite Uint16_encode by lia. case_test; [|lia].
    rewrite Uint32_encode by lia. rewrite land_7fff by lia. autorewrite with len.
    do 2 f_equal. lia.
Qed.

Lemma unmarshal_fields_encode l acc rest c :
  Forall spec_encodable l ->
  unmarshal_fields (length l) acc (mkReader (encode_specs l ++ rest) c) =
    (mkReader rest (c + len (encode_specs l)), Ok (acc ++ l)).
Proof.
  intros Hl. revert acc c. induction Hl as [|f l Hf Hl IH]; intros acc c.
  - simpl. by rewrite Z.add_0_r, app_nil_r.
  - cbn [length unmarshal_fields encode_specs map concat]. unmonad. rewrite <- app_assoc.
    rewrite spec_unmarshal_encode by done. unfold encode_specs in IH. rewrite IH.
    rewrite len_app, <- app_assoc, Z.add_assoc. done.
Qed.

Lemma unmarshal_scope_encode l acc rest c :
  Forall spec_encodable l ->
  unmarshal_scope (length l) [] acc (mkReader (encode_specs l ++ rest) c) =
    (mkReader rest (c + len (encode_specs l)),
     Ok (match last l with Some f => [f] | None => acc end)).
Proof.
  intros Hl. revert acc c. induction Hl as [|f l Hf Hl IH]; intros acc c.
  - simpl. by rewrite Z.add_0_r.
  - cbn [length unmarshal_scope encode_specs map concat]. unmonad. rewrite <- app_assoc.
    rewrite spec_unmarshal_encode by done. unfold encode_specs in IH. rewrite IH.
    rewrite len_app, Z.add_assoc. destruct l as [|f' l]; [done|].
    rewrite (last_cons f). by destruct (last (f' :: l)) eqn:E.
Qed.

Lemma unmarshal_encode tr rest c :
  template_encodable tr ->
  TemplateRecord_unmarshal (mkReader (encode_template tr ++ rest) c) =
    (mkReader rest (c + len (encode_template tr)), Ok tr).
Proof.
  intros (Hid & Hfc & Hlen & Hf & Hsc & Hs). pose proof (len_nonneg (tr_FieldSpecifiers tr)).
  unfold TemplateRecord_unmarshal, TemplateHeader_unmarshal, encode_template. rewrite <- !app_assoc.
  unmonad. rewrite Uint16_encode by lia. rewrite Uint16_encode by lia.
  cbn [th_FieldCount th_TemplateID]. rewrite Hfc.
  replace (Z.to_nat (len (tr_FieldSpecifiers tr))) with (length (tr_FieldSpecifiers tr))
    by (unfold len; lia).
  rewrite unmarshal_fields_encode by done. destruct tr as [id fc fs sc ss]; simpl in *.
  subst. autorewrite with len. do 2 f_equal. lia.
Qed.

(** The template an options template record leaves in the cache: of the scope fields
    only the last one. *)
Definition opts_template (o : opts_record) : TemplateRecord :=
  mkTemplateRecord (or_ID o) (len (or_scope o) + len (or_fields o)) (or_fields o)
    (len (or_scope o)) (match last (or_scope o) with Some f => [f] | None => [] end).

Lemma unmarshalOpts_encode o rest c :
  opts_encodable o ->
  TemplateRecord_unmarshalOpts (mkReader (encode_opts_template o ++ rest) c) =
    (mkReader rest (c + len (encode_opts_template o)), Ok (opts_template o)).
Proof.
  intros (Hid & Hlen & Hs & Hf). destruct o as [id scope fields].
  cbn [or_ID or_scope or_fields] in *.
  pose proof (len_nonneg scope). pose proof (len_nonneg fields).
  unfold TemplateRecord_unmarshalOpts, TemplateHeader_unmarshalOpts, encode_opts_template,
    opts_template. cbn [or_ID or_scope or_fields].
  rewrite <- !app_assoc. unmonad. do 3 rewrite Uint16_encode by lia.
  cbn [th_FieldCount th_TemplateID th_ScopeFieldCount].
  rewrite wrapU_small by lia.
  replace (Z.to_nat (len scope)) with (length scope) by (unfold len; lia).
  replace (Z.to_nat (len scope + len fields - len scope)) with (length fields)
    by (unfold len; lia).
  rewrite unmarshal_scope_encode by done. rewrite unmarshal_fields_encode by done.
  autorewrite with len. rewrite app_nil_l. do 2 f_equal. lia.
Qed.

(** A template record is read back as it was written, with all its fields in
    order, and the reader is left after it. *)
Theorem TemplateRecord_unmarshal_roundtrip (tr : TemplateRecord) (rest : list byte) (c : Z) :
  template_encodable tr ->
  TemplateRecord_unmarshal (mkReader (encode_template tr ++ rest) c) =
    (mkReader rest (c + len (encode_template tr)), Ok tr).
Proof. apply unmarshal_encode. Qed.

Lemma TemplateRecord_unmarshal_roundtrip_witness :
  let tr := mkTemplateRecord 256 2 [mkFieldSpecifier 8 4 0; mkFieldSpecifier 7 4 9] 0 [] in
  TemplateRecord_unmarshal (mkReader (encode_template tr ++ bytes [1]) 20) =
    (mkReader (bytes [1]) 36, Ok tr).
Proof.
  intros tr. apply (TemplateRecord_unmarshal_roundtrip tr (bytes [1]) 20). by_decide.
Defined.

(** An options template loses scope fields: it is read with its non-scope fields
    and the announced counts, but of its scope fields, however many, only the last one
    is kept (each round of the loop appends to the empty list of non-scope fields
    instead of to the scope fields read so far). *)
Theorem TemplateRecord_unmarshalOpts_scope (id : Z) (scope fields : list TemplateFieldSpecifier)
    (f : TemplateFieldSpecifier) (rest : list byte) (c : Z) :
  opts_encodable (mkOpts id (scope ++ [f]) fields) ->
  exists r' tr,
    TemplateRecord_unmarshalOpts
      (mkReader (encode_opts_template (mkOpts id (scope ++ [f]) fields) ++ rest) c) = (r', Ok tr) /\
    data r' = rest /\ tr_TemplateID tr = id /\ tr_FieldSpecifiers tr = fields /\
    tr_ScopeFieldCount tr = len scope + 1 /\ tr_ScopeFieldSpecifiers tr = [f].
Proof.
  intros Ho. eexists _, _. split; [by apply unmarshalOpts_encode|].
  unfold opts_template. cbn [or_ID or_scope or_fields data tr_TemplateID tr_FieldSpecifiers
    tr_ScopeFieldCount tr_ScopeFieldSpecifiers]. rewrite last_snoc, len_app.
  by split_and!.
Qed.

Lemma TemplateRecord_unmarshalOpts_scope_witness :
  let o := mkOpts 257 [mkFieldSpecifier 144 4 0; mkFieldSpecifier 143 4 0]
             [mkFieldSpecifier 41 8 0] in
  exists r' tr,
    TemplateRecord_unmarshalOpts (mkReader (encode_opts_template o) 0) = (r', Ok tr) /\
    tr_ScopeFieldCount tr = 2 /\ tr_ScopeFieldSpecifiers tr = [mkFieldSpecifier 143 4 0].
Proof.
  intros o. destruct (TemplateRecord_unmarshalOpts_scope 257 [mkFieldSpecifier 144 4 0]
    [mkFieldSpecifier 41 8 0] (mkFieldSpecifier 143 4 0) [] 0) as (r' & tr & H & _ & _ & _ & Hs).
  - by_decide.
  - exists r', tr. by rewrite app_nil_r in H.
Defined.
