(* ===== verification/IpfixMessage.v ===== *)
(** The meaning of an IPFIX message, and that [Decode] implements it.

    [wire_set] and [encode_message] are the messages an exporter sends: template sets,
    options template sets, data sets and sets of reserved ids.  [sem_sets] says what a
    sequence of sets means to a collector that knows the templates [env]: the templates
    it announces, the records it carries, the errors it causes and the requests it
    sends to the other collectors.  It does not mention readers, loops or the cache's
    representation.  The refinement theorem at the end relates the two. *)

From S2P Require Import Prelude GoNet InfoModel Interpret TemplateCache Reader IpfixDecoder IpfixFacts IpfixDecode IpfixWire.

(** ** Sets on the wire *)

Inductive wire_set : Type :=
| WTemplates (trs : list TemplateRecord) (pad : nat)
| WOptions (os : list opts_record) (pad : nat)
| WData (id : Z) (recs : list (list byte))
| WReserved (id : Z) (body : list byte).

Definition set_id (w : wire_set) : Z :=
  match w with
  | WTemplates _ _ => 2 | WOptions _ _ => 3 | WData id _ => id | WReserved id _ => id
  end.

Definition set_body (w : wire_set) : list byte :=
  match w with
  | WTemplates trs pad => concat (map encode_template trs) ++ replicate pad x00
  | WOptions os pad => concat (map encode_opts_template os) ++ replicate pad x00
  | WData _ recs => concat recs
  | WReserved _ body => body
  end.

Definition encode_set (w : wire_set) : list byte :=
  be_encode 2 (set_id w) ++ be_encode 2 (4 + len (set_body w)) ++ set_body w.

Definition encode_header (h : MessageHeader) : list byte :=
  be_encode 2 (mh_Version h) ++ be_encode 2 (mh_Length h) ++ be_encode 4 (mh_ExportTime h)
    ++ be_encode 4 (mh_SequenceNo h) ++ be_encode 4 (mh_DomainID h).

Definition encode_sets (ws : list wire_set) : list byte := concat (map encode_set ws).

Definition encode_message (h : MessageHeader) (ws : list wire_set) : list byte :=
  encode_header h ++ encode_sets ws.

Section semantics.
Context (im : IANAInfoModel) (raddr : list byte).

(** ** Records *)

Fixpoint sem_fields (err : Z -> GoError) (ent : TemplateFieldSpecifier -> Z)
    (specs : list TemplateFieldSpecifier) (b : list byte) : list DecodedField + GoError :=
  match specs with
  | [] => inl []
  | f :: specs' =>
      match im !! mkElementKey (fs_EnterpriseNo f) (fs_ElementID f) with
      | None => inr (err (fs_ElementID f))
      | Some m =>
          match sem_fields err ent specs' (drop (Z.to_nat (fs_Length f)) b) with
          | inl l =>
              inl (mkDecodedField (FieldID m)
                     (interpret_spec (take (Z.to_nat (fs_Length f)) b) (Type_ m)) (ent f) :: l)
          | inr e => inr e
          end
      end
  end.

Definition sem_record (tr : TemplateRecord) (rec : list byte) : list DecodedField + GoError :=
  let n := Z.to_nat (specs_width (tr_FieldSpecifiers tr)) in
  match sem_fields errIpfixElement (fun _ => 0) (tr_FieldSpecifiers tr) (take n rec) with
  | inr e => inr e
  | inl l =>
      match sem_fields errIpfixElementScope fs_EnterpriseNo (tr_ScopeFieldSpecifiers tr)
              (drop n rec) with
      | inr e => inr e
      | inl l' => inl (l ++ l')
      end
  end.

(** The records before the first one that cannot be interpreted, and its error. *)
Fixpoint sem_records (tr : TemplateRecord) (recs : list (list byte)) :
    list (list DecodedField) * option GoError :=
  match recs with
  | [] => ([], None)
  | rec :: recs' =>
      match sem_record tr rec with
      | inr e => ([], Some e)
      | inl d => let '(ds, e) := sem_records tr recs' in (d :: ds, e)
      end
  end.

(** ** Sets *)

(** What a collector has made of the sets so far. *)
Record sem_state : Type := mkSem {
  sem_env : gmap Z TemplateRecord;
  sem_data : list (list DecodedField);
  sem_errs : list GoError;
  sem_rpc : list RPCRequest
}.

(** The templates announced, by their key. *)
Definition announce (trs : list TemplateRecord) (env : gmap Z TemplateRecord) :
    gmap Z TemplateRecord :=
  fold_left (fun env tr => <[cache_key (tr_TemplateID tr) raddr := tr]> env) trs env.

Definition opt_list {A} (o : option A) : list A :=
  match o with Some x => [x] | None => [] end.

Definition sem_set (w : wire_set) (s : sem_state) : sem_state :=
  match w with
  | WTemplates trs _ => mkSem (announce trs (sem_env s)) (sem_data s) (sem_errs s) (sem_rpc s)
  | WOptions os _ =>
      mkSem (announce (map opts_template os) (sem_env s)) (sem_data s) (sem_errs s) (sem_rpc s)
  | WReserved _ _ => s
  | WData id recs =>
      match sem_env s !! cache_key id raddr with
      | None =>
          mkSem (sem_env s) (sem_data s)
            (sem_errs s ++ [errIpfixUnknownTemplate (IP_String raddr) id])
            (if len (sem_rpc s) <? 1 then sem_rpc s ++ [mkRPCRequest id raddr] else sem_rpc s)
      | Some tr =>
          mkSem (sem_env s) (sem_data s ++ (sem_records tr recs).1)
            (sem_errs s ++ opt_list (sem_records tr recs).2) (sem_rpc s)
      end
  end.

Definition sem_sets (ws : list wire_set) (s : sem_state) : sem_state :=
  fold_left (fun s w => sem_set w s) ws s.

(** Well-formed sets, given the templates known when they arrive.  A template set may
    be padded (RFC 7011, 3.3.1), but not by a single byte; a data set holds whole
    records of more than four bytes; every set holds something. *)
Definition set_wf (env : gmap Z TemplateRecord) (w : wire_set) : Prop :=
  4 < 4 + len (set_body w) < 65536 /\
  match w with
  | WTemplates trs pad =>
      pad <> 1%nat /\
      Forall (fun tr => template_encodable tr /\ tr_TemplateID tr <> 0 /\
                        tr_FieldSpecifiers tr <> []) trs
  | WOptions os pad =>
      pad <> 1%nat /\
      Forall (fun o => opts_encodable o /\ or_ID o <> 0 /\ or_scope o <> []) os
  | WData id recs =>
      255 < id < 65536 /\
      forall tr, env !! cache_key id raddr = Some tr ->
        4 < record_width tr /\ Forall (fun rec => len rec = record_width tr) recs
  | WReserved id _ => 4 <= id <= 255
  end.

Fixpoint sets_wf (ws : list wire_set) (s : sem_state) : Prop :=
  match ws with
  | [] => True
  | w :: ws' => set_wf (sem_env s) w /\ sets_wf ws' (sem_set w s)
  end.

Definition header_wf (h : MessageHeader) : Prop :=
  mh_Version h = 10 /\ 0 <= mh_Length h < 65536 /\ 0 <= mh_ExportTime h < 4294967296 /\
  0 <= mh_SequenceNo h < 4294967296 /\ 0 <= mh_DomainID h < 4294967296.

End semantics.

(** ** One record *)

Section records.
Context (im : IANAInfoModel).

Lemma decode_specs_sem err ent specs acc rec rest c :
  Forall spec_wf specs -> len rec = specs_width specs ->
  match sem_fields im err ent specs rec with
  | inl l => decode_specs im err ent specs acc (mkReader (rec ++ rest) c) =
               (mkReader rest (c + len rec), Ok (acc ++ l))
  | inr e => exists p q, rec = (p ++ q) /\
               decode_specs im err ent specs acc (mkReader (rec ++ rest) c) =
                 (mkReader (q ++ rest) (c + len p), Err None e)
  end.
Proof.
  intros Hs. revert acc rec c. induction Hs as [|f specs Hf Hs IH]; intros acc rec c Hl.
  - destruct rec; [|rewrite len_cons in Hl; pose proof (len_nonneg rec); simpl in Hl; lia].
    simpl. by rewrite app_nil_r, Z.add_0_r.
  - cbn [specs_width foldr] in Hl. fold (specs_width specs) in Hl.
    pose proof (specs_width_nonneg _ Hs). unfold spec_wf in Hf.
    assert (exists p q, rec = (p ++ q) /\ len p = fs_Length f) as (p & q & -> & Hp).
    { exists (take (Z.to_nat (fs_Length f)) rec), (drop (Z.to_nat (fs_Length f)) rec).
      rewrite take_drop. split; [done|]. apply len_take. lia. }
    assert (len q = specs_width specs) by (rewrite len_app in Hl; lia).
    cbn [sem_fields decode_specs]. rewrite <- Hp. rewrite drop_len_app, take_len_app.
    rewrite <- app_assoc. unmonad. rewrite Read_app.
    destruct (im !! _) as [m|]; [|exists p, q; done].
    rewrite Interpret_eq. specialize (IH (acc ++ [mkDecodedField (FieldID m)
      (interpret_spec p (Type_ m)) (ent f)]) q (c + len p) ltac:(done)).
    destruct (sem_fields im err ent specs q) as [l|e].
    + rewrite IH, len_app, <- app_assoc. do 2 f_equal. lia.
    + destruct IH as (p' & q' & -> & ->). exists (p ++ p'), q'.
      rewrite len_app, <- app_assoc. split; [done|]. do 2 f_equal. lia.
Qed.

Lemma decodeData_sem tr rec rest c :
  tr_wf tr -> len rec = record_width tr ->
  match sem_record im tr rec with
  | inl l => decodeData im tr (mkReader (rec ++ rest) c) =
               (mkReader rest (c + len rec), Ok l)
  | inr e => exists p q, rec = (p ++ q) /\
               decodeData im tr (mkReader (rec ++ rest) c) =
                 (mkReader (q ++ rest) (c + len p), Err None e)
  end.
Proof.
  intros [H1 H2] Hl. unfold record_width in Hl.
  pose proof (specs_width_nonneg _ H1). pose proof (specs_width_nonneg _ H2).
  unfold sem_record. cbv zeta. set (n := Z.to_nat _). set (p := take n rec).
  set (q := drop n rec).
  assert (len p = specs_width (tr_FieldSpecifiers tr)) as Hp by (apply len_take; lia).
  assert (len q = specs_width (tr_ScopeFieldSpecifiers tr)) as Hq
    by (unfold q, n; rewrite len_drop; lia).
  assert (rec = (p ++ q)) as Hrec by (unfold p, q; by rewrite take_drop).
  pose proof (decode_specs_sem errIpfixElement (fun _ => 0) (tr_FieldSpecifiers tr) [] p
    (q ++ rest) c H1 Hp) as E1.
  unfold decodeData. unmonad. rewrite Hrec, <- app_assoc.
  destruct (sem_fields im errIpfixElement _ _ p) as [l|e].
  - rewrite E1. pose proof (decode_specs_sem errIpfixElementScope fs_EnterpriseNo
      (tr_ScopeFieldSpecifiers tr) l q rest (c + len p) H2 Hq) as E2.
    destruct (sem_fields im errIpfixElementScope _ _ q) as [l'|e].
    + simpl. rewrite E2, len_app. do 2 f_equal. lia.
    + destruct E2 as (p' & q' & Eq & E2). exists (p ++ p'), q'. simpl. rewrite E2, Eq.
      rewrite len_app, <- app_assoc. split; [done|]. do 2 f_equal. lia.
  - destruct E1 as (p' & q' & Ep & E1). exists p', (q' ++ q). rewrite E1, Ep.
    rewrite <- !app_assoc. done.
Qed.

End records.

(** ** One set *)

Section sets.
Context (im : IANAInfoModel) {MC : Type} `{!TemplateStore TemplateRecord MC}.
Context (raddr : list byte) (unix_now : nat -> Z).
Abbreviation St := (DecState (MC:=MC)).
Implicit Types s : St.

(** The cache [m] holds the templates [env]. *)
Definition cache_repr (env : gmap Z TemplateRecord) (m : MC) : Prop :=
  cache_ok m /\ forall k, ts_lookup m k = env !! k.

(** The state that [decodeSet] leaves: the reader where it is said to be, the cache,
    messages and channel as the meaning says, the header untouched. *)
Definition st_repr (b : list byte) (c : Z) (g : sem_state) (s0 s : St) : Prop :=
  st_reader s = mkReader b c /\ cache_repr (sem_env g) (st_mem s) /\
  msg_AgentID (st_msg s) = msg_AgentID (st_msg s0) /\
  msg_Header (st_msg s) = msg_Header (st_msg s0) /\
  msg_DataSets (st_msg s) = sem_data g /\ st_rpcChan s = sem_rpc g.

(** The loop condition while [n] bytes of the set remain, its end before 65536. *)
Lemma loop_cond_true start h s n :
  sh_Length h < 65536 -> 0 <= count (st_reader s) - start ->
  sh_Length h = count (st_reader s) - start + n -> 0 < n -> 4 < len (data (st_reader s)) ->
  loop_cond start h s = true.
Proof.
  intros. unfold loop_cond, ReadCount, Len. rewrite wrapU_small by lia.
  apply andb_true_iff. rewrite !Z.gtb_lt. lia.
Qed.

Lemma loop_cond_false start h s :
  sh_Length h < 65536 -> 0 <= count (st_reader s) - start ->
  sh_Length h = count (st_reader s) - start -> loop_cond start h s = false.
Proof.
  intros. unfold loop_cond, ReadCount. rewrite wrapU_small by lia.
  apply andb_false_iff. left. rewrite Z.gtb_ltb, Z.ltb_ge. lia.
Qed.

(** Skipping the rest of a set that is there. *)
Lemma decodeSet_skip_ok start h err s body rest c :
  st_reader s = mkReader (body ++ rest) c -> sh_Length h < 65536 -> 0 <= c - start ->
  sh_Length h = c - start + len body ->
  decodeSet_skip start h err s =
    (set_reader (mkReader rest (c + len body)) s,
     match err with Some e => Err None e | None => Ok tt end).
Proof.
  intros Hr Hh Hc Hl. pose proof (len_nonneg body). unfold decodeSet_skip. unmonad.
  cbn beta iota. rewrite Hr. unfold ReadCount. cbn [count].
  rewrite (wrapU_small 16 (c - start)) by lia. rewrite wrapU_small by lia.
  replace (sh_Length h - (c - start)) with (len body) by lia.
  destruct (Z.gtb_spec (len body) 0).
  - unfold on_reader, zoom. rewrite Hr, Read_app. by destruct err.
  - destruct body; [|rewrite len_cons in *; pose proof (len_nonneg body); lia].
    rewrite len_nil, Z.add_0_r. cbn [app] in Hr. rewrite <- Hr. destruct s, err; done.
Qed.

(** One template record at the front of a template set. *)
Lemma decodeSet_loop_announce fuel start h tr s bs t rest c :
  sh_SetID h = 2 \/ sh_SetID h = 3 -> loop_cond start h s = true ->
  st_reader s = mkReader (bs ++ rest) c -> 4 <= len bs -> be_decode (take 2 bs) <> 0 ->
  (if sh_SetID h =? 2 then TemplateRecord_unmarshal else TemplateRecord_unmarshalOpts)
    (mkReader (bs ++ rest) c) = (mkReader rest (c + len bs), Ok t) ->
  cache_ok (st_mem s) -> tr_wf t ->
  exists m', cache_ok m' /\
    (forall k, ts_lookup m' k = if decide (k = cache_key (tr_TemplateID t) raddr)
                                then Some t else ts_lookup (st_mem s) k) /\
    decodeSet_loop im raddr unix_now (S fuel) start h tr s =
      decodeSet_loop im raddr unix_now fuel start h tr
        (mkDecState (mkReader rest (c + len bs)) m' (st_msg s) (st_rpcChan s) (S (st_clock s))).
Proof.
  intros Hid Hcond Hr Hlen Hz Hu [Hw Hc] Ht. destruct s as [r m g q k]. simpl in Hr. subst r.
  destruct (ts_insert_ok m (tr_TemplateID t) raddr t (unix_now k) Hw) as (m' & Hi & Hw' & Hl).
  exists m'. split; [|split; [done|]].
  { split; [done|]. intros k' t' Hk. rewrite Hl in Hk. case_decide; [by simplify_eq|by eapply Hc]. }
  cbn [decodeSet_loop]. unmonad. cbn beta iota. unfold loop_cond in Hcond. rewrite Hcond.
  replace ((sh_SetID h =? 2) || (sh_SetID h =? 3)) with true
    by (destruct Hid as [-> | ->]; reflexivity).
  unfold on_reader, zoom. rewrite PeekUint16_eq. cbn [data st_reader set_reader].
  rewrite len_app. pose proof (len_nonneg rest).
  destruct (Z.ltb_spec (len bs + len rest) 2); [lia|].
  rewrite take_app_le by (unfold len in Hlen; lia).
  apply Z.eqb_neq in Hz. rewrite Hz. unfold set_reader.
  cbn [st_reader st_mem st_msg st_rpcChan st_clock].
  rewrite Hu. unfold on_mem, zoom, time_now. cbn [st_mem st_clock set_reader st_reader set_mem].
  unmonad. rewrite Hi. done.
Qed.

(** The template records [l] of a set, each the bytes and the template they stand for,
    are all stored. *)
Definition readable (setId : Z) (bt : list byte * TemplateRecord) : Prop :=
  8 <= len bt.1 /\ be_decode (take 2 bt.1) <> 0 /\ tr_wf bt.2 /\
  forall rest c,
    (if setId =? 2 then TemplateRecord_unmarshal else TemplateRecord_unmarshalOpts)
      (mkReader (bt.1 ++ rest) c) = (mkReader rest (c + len bt.1), Ok bt.2).

(** Padding ends the loop (or there is none). *)
Lemma decodeSet_loop_padding fuel start h tr s pad rest c :
  sh_SetID h = 2 \/ sh_SetID h = 3 -> pad <> 1%nat ->
  st_reader s = mkReader (replicate pad x00 ++ rest) c -> sh_Length h < 65536 ->
  0 <= c - start -> sh_Length h = c - start + Z.of_nat pad ->
  decodeSet_loop im raddr unix_now (S fuel) start h tr s = (s, Ok None).
Proof.
  intros Hid Hpad Hr Hh Hc Hl. destruct (loop_cond start h s) eqn:Hcond;
    [|by apply decodeSet_loop_exit]. destruct pad as [|[|pad]]; [|done|].
  { exfalso. rewrite loop_cond_false in Hcond; rewrite ?Hr; simpl; done || lia. }
  pose proof (loop_cond_len _ _ _ Hcond). destruct s as [r m g q k]. simpl in Hr. subst r.
  cbn [decodeSet_loop]. unmonad. cbn beta iota. unfold loop_cond in Hcond. rewrite Hcond.
  replace ((sh_SetID h =? 2) || (sh_SetID h =? 3)) with true
    by (destruct Hid as [-> | ->]; reflexivity).
  unfold on_reader, zoom. rewrite PeekUint16_eq. cbn [data st_reader] in *.
  match goal with |- context [len ?l <? 2] => destruct (Z.ltb_spec (len l) 2) end; [lia|done].
Qed.

Lemma decodeSet_loop_templates l fuel start h tr s pad rest c env :
  sh_SetID h = 2 \/ sh_SetID h = 3 -> Forall (readable (sh_SetID h)) l -> pad <> 1%nat ->
  st_reader s = mkReader (concat (map fst l) ++ replicate pad x00 ++ rest) c ->
  sh_Length h < 65536 -> 0 <= c - start ->
  sh_Length h = c - start + len (concat (map fst l)) + Z.of_nat pad ->
  (length l < fuel)%nat -> cache_repr env (st_mem s) ->
  exists m' k', cache_repr (announce raddr (map snd l) env) m' /\
    decodeSet_loop im raddr unix_now fuel start h tr s =
      (mkDecState (mkReader (replicate pad x00 ++ rest) (c + len (concat (map fst l))))
         m' (st_msg s) (st_rpcChan s) k', Ok None).
Proof.
  intros Hid Hl Hpad. revert fuel s c env. induction Hl as [|[bs t] l Ht Hl IH];
    intros fuel s c env Hr Hh Hc Hlen Hf Hm; (destruct fuel as [|fuel]; [simpl in Hf; lia|]).
  - cbn [map concat app announce fold_left] in *. rewrite len_nil in *.
    exists (st_mem s), (st_clock s). split; [done|].
    rewrite decodeSet_loop_padding with (pad := pad) (rest := rest) (c := c); try done; [|lia].
    rewrite Z.add_0_r, <- Hr. by destruct s.
  - destruct Ht as (H8 & Hz & Htr & Hu). cbn [map concat fst snd] in *.
    rewrite len_app in Hlen. rewrite <- app_assoc in Hr.
    pose proof (len_nonneg (concat (map fst l))).
    destruct (decodeSet_loop_announce fuel start h tr s bs t
      (concat (map fst l) ++ replicate pad x00 ++ rest) c) as (m1 & Hm1 & Hk1 & ->); try done.
    { apply loop_cond_true with (n := len bs + len (concat (map fst l)) + Z.of_nat pad);
        rewrite ?Hr; cbn [count data]; try lia.
      rewrite !len_app. pose proof (len_nonneg (replicate pad x00)). pose proof (len_nonneg rest).
      lia. }
    { lia. }
    { apply Hm. }
    edestruct (IH fuel (mkDecState (mkReader (concat (map fst l) ++ replicate pad x00 ++ rest)
      (c + len bs)) m1 (st_msg s) (st_rpcChan s) (S (st_clock s))) (c + len bs)
      (<[cache_key (tr_TemplateID t) raddr := t]> env)) as (m2 & k2 & Hm2 & ->);
      try done; try lia; [simpl in Hf; lia| |].
    + split; [done|]. intros k. cbn [st_mem]. rewrite Hk1, lookup_insert. destruct Hm as [_ Hm].
      rewrite Hm. repeat case_decide; congruence.
    + exists m2, k2. split; [exact Hm2|]. cbn [st_msg st_rpcChan]. rewrite len_app.
      do 3 f_equal. lia.
Qed.

(** The message with [ds] appended to its records. *)
Definition add_data (ds : list (list DecodedField)) (m : Message) : Message :=
  mkMessage (msg_AgentID m) (msg_Header m) (msg_DataSets m ++ ds).

Lemma decodeSet_loop_records recs fuel start h tr s rest c :
  255 < sh_SetID h -> tr_wf tr -> 4 < record_width tr ->
  Forall (fun rec => len rec = record_width tr) recs ->
  st_reader s = mkReader (concat recs ++ rest) c -> sh_Length h < 65536 -> 0 <= c - start ->
  sh_Length h = c - start + len (concat recs) -> (length recs < fuel)%nat ->
  exists p q, concat recs = p ++ q /\
    decodeSet_loop im raddr unix_now fuel start h tr s =
      (mkDecState (mkReader (q ++ rest) (c + len p)) (st_mem s)
         (add_data (sem_records im tr recs).1 (st_msg s)) (st_rpcChan s) (st_clock s),
       Ok (sem_records im tr recs).2).
Proof.
  intros Hid Htr Hw Hrecs. revert fuel s c. induction Hrecs as [|rec recs Hrec Hrecs IH];
    intros fuel s c Hr Hh Hc Hlen Hf; (destruct fuel as [|fuel]; [simpl in Hf; lia|]);
    destruct s as [r m g q k]; cbn [st_reader] in Hr; subst r.
  - exists [], []. split; [done|]. cbn [concat] in *. rewrite len_nil in *.
    rewrite decodeSet_loop_exit by (apply loop_cond_false; simpl; lia).
    unfold add_data. simpl. rewrite app_nil_r, Z.add_0_r. by destruct g.
  - cbn [concat] in *. rewrite len_app in Hlen. rewrite <- app_assoc.
    pose proof (len_nonneg (concat recs)). pose proof (len_nonneg rest).
    rewrite decodeSet_loop_data; [|lia|].
    2: { apply loop_cond_true with (n := len rec + len (concat recs));
           cbn [st_reader count data]; rewrite ?len_app; lia. }
    cbn [st_reader sem_records].
    pose proof (decodeData_sem im tr rec (concat recs ++ rest) c Htr Hrec) as Hd.
    destruct (sem_record im tr rec) as [d|e].
    + rewrite Hd. unfold append_DataSets, modify, set_msg, set_reader.
      cbn [fst st_reader st_mem st_msg st_rpcChan st_clock].
      edestruct (IH fuel (mkDecState (mkReader (concat recs ++ rest) (c + len rec)) m
        (mkMessage (msg_AgentID g) (msg_Header g) (msg_DataSets g ++ [d])) q k))
        as (p' & q' & Eq & ->); try done; [lia|lia|simpl in Hf; lia|].
      exists (rec ++ p'), q'. rewrite Eq, len_app, <- app_assoc. split; [done|].
      cbn [st_mem st_msg st_rpcChan st_clock]. destruct (sem_records im tr recs) as [ds e].
      unfold add_data. cbn [fst snd msg_AgentID msg_Header msg_DataSets].
      rewrite <- app_assoc, Z.add_assoc. done.
    + destruct Hd as (p' & q' & -> & ->). exists p', (q' ++ concat recs).
      rewrite <- !app_assoc. split; [done|]. unfold add_data, set_reader. simpl.
      rewrite app_nil_r. by destruct g.
Qed.

Lemma len_encode_specs_nonneg l : 4 * len l <= len (encode_specs l).
Proof.
  unfold encode_specs. induction l as [|f l IH]; [done|]. cbn [map concat].
  rewrite len_app, len_cons. assert (4 <= len (encode_spec f)); [|lia].
  unfold encode_spec. case_test; autorewrite with len; lia.
Qed.

Lemma template_readable tr :
  template_encodable tr /\ tr_TemplateID tr <> 0 /\ tr_FieldSpecifiers tr <> [] ->
  readable 2 (encode_template tr, tr).
Proof.
  intros (He & Hid & Hf). unfold readable. cbn [fst snd]. split_and!.
  - unfold encode_template. autorewrite with len.
    pose proof (len_encode_specs_nonneg (tr_FieldSpecifiers tr)).
    destruct (tr_FieldSpecifiers tr) as [|f l]; [done|]. rewrite len_cons in *.
    pose proof (len_nonneg l). lia.
  - unfold encode_template. rewrite take_app_length' by (by rewrite length_be_encode).
    rewrite be_decode_encode_small by (destruct He; simpl; lia). done.
  - destruct He as (_ & _ & _ & Hs & _ & Hsc). split; [|by rewrite Hsc].
    eapply Forall_impl; [exact Hs|]. intros f [H _]. apply H.
  - intros rest c. by apply unmarshal_encode.
Qed.

Lemma opts_readable o :
  opts_encodable o /\ or_ID o <> 0 /\ or_scope o <> [] ->
  readable 3 (encode_opts_template o, opts_template o).
Proof.
  intros (He & Hid & Hs). unfold readable. cbn [fst snd]. split_and!.
  - unfold encode_opts_template. autorewrite with len.
    pose proof (len_encode_specs_nonneg (or_scope o)).
    pose proof (len_nonneg (encode_specs (or_fields o))).
    destruct (or_scope o); [done|]. rewrite len_cons in *. pose proof (len_nonneg l). lia.
  - unfold encode_opts_template. rewrite take_app_length' by (by rewrite length_be_encode).
    rewrite be_decode_encode_small by (destruct He; simpl; lia). done.
  - destruct He as (_ & _ & Hsc & Hf). unfold opts_template. split; simpl.
    + eapply Forall_impl; [exact Hf|]. intros f [H _]. apply H.
    + destruct (last (or_scope o)) as [f|] eqn:E; [|done]. apply Forall_singleton.
      apply last_Some_elem_of in E. rewrite Forall_forall in Hsc. by destruct (Hsc f E).
  - intros rest c. by apply unmarshalOpts_encode.
Qed.

Lemma decodeSet_encoded fuel s w rest c :
  st_reader s = mkReader (encode_set w ++ rest) c -> 0 <= set_id w < 65536 ->
  4 + len (set_body w) < 65536 ->
  decodeSet im raddr unix_now fuel s =
    decodeSet_body im raddr unix_now fuel c (mkSetHeader (set_id w) (4 + len (set_body w)))
      (set_reader (mkReader (set_body w ++ rest) (c + 4)) s).
Proof.
  intros Hr Hid Hl. pose proof (len_nonneg (set_body w)). unfold decodeSet, on_reader. unmonad.
  cbn beta iota. rewrite Hr. unfold SetHeader_unmarshal, encode_set. rewrite <- !app_assoc.
  unmonad. do 2 rewrite Uint16_encode by lia. unfold ReadCount. cbn [count].
  do 3 f_equal. lia.
Qed.

(** The body of a set whose loop ended with [err], [q] of its bytes left. *)
Lemma decodeSet_body_ok fuel start h s s1 err q rest c tr :
  4 <= sh_Length h < 65536 ->
  decodeSet_template raddr h s = (s, Ok (tr, None)) ->
  decodeSet_loop im raddr unix_now fuel start h tr s = (s1, Ok err) ->
  st_reader s1 = mkReader (q ++ rest) c -> 0 <= c - start ->
  sh_Length h = c - start + len q ->
  decodeSet_body im raddr unix_now fuel start h s =
    (set_reader (mkReader rest (c + len q)) s1,
     match err with Some e => Err None e | None => Ok tt end).
Proof.
  intros Hh Ht Hl Hr Hc Hlen. unfold decodeSet_body. case_test; [lia|]. unmonad.
  rewrite Ht, Hl. erewrite decodeSet_skip_ok; done || lia.
Qed.

(** What one set does, as the meaning says. *)
Definition set_ok (w : wire_set) : Prop := forall fuel rest c g s0 s,
  st_repr (encode_set w ++ rest) c g s0 s -> set_wf raddr (sem_env g) w ->
  len (set_body w) < Z.of_nat fuel ->
  exists s' oe,
    decodeSet im raddr unix_now fuel s =
      (s', match oe with Some e => Err None e | None => Ok tt end) /\
    sem_errs (sem_set im raddr w g) = sem_errs g ++ opt_list oe /\
    st_repr rest (c + len (encode_set w)) (sem_set im raddr w g) s0 s'.

Lemma len_encode_set w : len (encode_set w) = 4 + len (set_body w).
Proof. unfold encode_set. autorewrite with len. lia. Qed.

Lemma decodeSet_reserved id body : set_ok (WReserved id body).
Proof.
  intros fuel rest c g s0 s (Hr & Hm & Hg) [Hlen Hid] Hf. cbn [set_body] in *.
  destruct fuel as [|fuel]; [pose proof (len_nonneg body); lia|].
  erewrite decodeSet_encoded; [|exact Hr|simpl; lia|simpl; lia].
  erewrite (decodeSet_body_ok _ _ _ _ _ None body rest (c + 4) zeroTemplateRecord);
    [eexists _, None; split; [done|]|simpl; lia| |
     apply decodeSet_loop_reserved; done|done|lia|simpl; lia].
  - simpl. rewrite app_nil_r. split; [done|]. rewrite len_encode_set. cbn [set_body].
    split; [|by split]. simpl. f_equal. lia.
  - rewrite decodeSet_template_eq by apply Hm. cbn [sh_SetID set_id]. by case_test; [lia|].
Qed.

Lemma concat_map_pairs {A} (f : A -> list byte) (t : A -> TemplateRecord) l :
  concat (map fst (map (fun x => (f x, t x)) l)) = concat (map f l) /\
  map snd (map (fun x => (f x, t x)) l) = map t l.
Proof. rewrite !map_map. done. Qed.

Lemma length_concat_ge {A} (P : list A -> Prop) (n : Z) l :
  (forall x, P x -> n <= len x) -> Forall P l -> n * len l <= len (concat l).
Proof.
  intros HP. induction 1 as [|x l Hx Hl IH]; [unfold len; simpl; lia|]. cbn [concat].
  rewrite len_app, len_cons. apply HP in Hx. lia.
Qed.

(** A template set of either kind. *)
Lemma decodeSet_announces id l pad w fuel rest c g s0 s :
  id = 2 \/ id = 3 -> set_id w = id ->
  set_body w = concat (map fst l) ++ replicate pad x00 -> Forall (readable id) l ->
  pad <> 1%nat -> 4 < 4 + len (set_body w) < 65536 -> len (set_body w) < Z.of_nat fuel ->
  st_repr (encode_set w ++ rest) c g s0 s ->
  exists s',
    decodeSet im raddr unix_now fuel s = (s', Ok tt) /\
    st_repr rest (c + len (encode_set w))
      (mkSem (announce raddr (map snd l) (sem_env g)) (sem_data g) (sem_errs g) (sem_rpc g))
      s0 s'.
Proof.
  intros Hid Hw Hb Hl Hpad Hlen Hf (Hr & Hm & Hg).
  assert (len (set_body w) = len (concat (map fst l)) + Z.of_nat pad) as Hn.
  { by rewrite Hb, len_app, len_replicate. }
  assert (8 * len l <= len (concat (map fst l))) as H8.
  { replace (len l) with (len (map fst l)) by (unfold len; by rewrite length_map).
    apply (length_concat_ge (fun b => 8 <= len b)); [done|]. apply Forall_map.
    eapply Forall_impl; [exact Hl|]. by intros ? [? _]. }
  erewrite decodeSet_encoded; [|exact Hr|lia|lia].
  destruct (decodeSet_loop_templates l fuel c (mkSetHeader (set_id w) (4 + len (set_body w)))
    zeroTemplateRecord (set_reader (mkReader (set_body w ++ rest) (c + 4)) s) pad rest (c + 4)
    (sem_env g)) as (m' & k' & Hm' & El); try (rewrite ?Hw; done || (simpl; lia)).
  { by rewrite Hb, <- app_assoc. }
  { unfold len in *. lia. }
  pose proof (len_nonneg (concat (map fst l))).
  erewrite (decodeSet_body_ok _ _ _ _ _ None (replicate pad x00) rest
    (c + 4 + len (concat (map fst l))) zeroTemplateRecord);
    [|simpl; lia| |exact El|done|lia|cbn [sh_Length]; rewrite len_replicate; lia].
  - eexists. split; [done|]. rewrite len_encode_set, Hn. destruct Hg as (H1 & H2 & H3 & H4).
    split_and!; try done; try apply Hm'. simpl. f_equal. rewrite len_replicate.
    lia.
  - rewrite decodeSet_template_eq by apply Hm. cbn [sh_SetID]. by case_test; [lia|].
Qed.

Lemma decodeSet_templates trs pad : set_ok (WTemplates trs pad).
Proof.
  intros fuel rest c g s0 s Hs [Hlen [Hpad Hwf]] Hf.
  destruct (concat_map_pairs encode_template (fun x => x) trs) as [E1 E2]. rewrite map_id in E2.
  destruct (decodeSet_announces 2 (map (fun x => (encode_template x, x)) trs) pad
    (WTemplates trs pad) fuel rest c g s0 s) as (s' & -> & Hs'); try done; [by left|by rewrite E1| |].
  - apply Forall_map. eapply Forall_impl; [exact Hwf|]. intros tr. apply template_readable.
  - exists s', None. split; [done|]. rewrite E2 in Hs'. split; [by rewrite app_nil_r|done].
Qed.

Lemma decodeSet_options os pad : set_ok (WOptions os pad).
Proof.
  intros fuel rest c g s0 s Hs [Hlen [Hpad Hwf]] Hf.
  destruct (concat_map_pairs encode_opts_template opts_template os) as [E1 E2].
  destruct (decodeSet_announces 3 (map (fun x => (encode_opts_template x, opts_template x)) os) pad
    (WOptions os pad) fuel rest c g s0 s) as (s' & -> & Hs'); try done; [by right|by rewrite E1| |].
  - apply Forall_map. eapply Forall_impl; [exact Hwf|]. intros o. apply opts_readable.
  - exists s', None. split; [done|]. rewrite E2 in Hs'. split; [by rewrite app_nil_r|done].
Qed.

(** A data set whose template is not known: skipped whole, with the error, after the
    request to the other collectors. *)
Lemma decodeSet_unknown id recs fuel rest c g s0 s :
  st_repr (encode_set (WData id recs) ++ rest) c g s0 s -> 255 < id < 65536 ->
  4 + len (concat recs) < 65536 -> sem_env g !! cache_key id raddr = None ->
  exists s',
    decodeSet im raddr unix_now fuel s =
      (s', Err None (errIpfixUnknownTemplate (IP_String raddr) id)) /\
    st_repr rest (c + len (encode_set (WData id recs))) (sem_set im raddr (WData id recs) g) s0 s'.
Proof.
  intros (Hr & [Hc Hm] & Ha & Hh & Hd & Hq) Hid Hlen Hn.
  erewrite decodeSet_encoded; [|exact Hr|simpl; lia|done].
  unfold decodeSet_body. cbn [sh_Length set_id set_body]. pose proof (len_nonneg (concat recs)).
  case_test; [lia|]. unfold mbind, M_bind. rewrite decodeSet_template_eq by done.
  cbn [sh_SetID set_reader st_mem]. destruct (Z.gtb_spec id 255); [|lia]. rewrite Hm, Hn.
  unfold rpc_request. unmonad. cbn [fst st_rpcChan st_reader st_mem st_msg st_clock].
  erewrite decodeSet_skip_ok with (body := concat recs) (rest := rest) (c := c + 4);
    [|by case_test|simpl; lia|lia|simpl; lia].
  eexists. split; [done|]. rewrite len_encode_set. cbn [set_body sem_set]. rewrite Hn.
  unfold set_reader. cbn [st_rpcChan st_reader st_mem st_msg st_clock].
  rewrite <- Hq. replace (c + (4 + len (concat recs))) with (c + 4 + len (concat recs)) by lia.
  destruct (len (st_rpcChan s) <? 1); split_and!; done || apply Hc.
Qed.

Lemma decodeSet_known id recs tr fuel rest c g s0 s :
  st_repr (encode_set (WData id recs) ++ rest) c g s0 s -> 255 < id < 65536 ->
  4 + len (concat recs) < 65536 -> sem_env g !! cache_key id raddr = Some tr ->
  4 < record_width tr -> Forall (fun rec => len rec = record_width tr) recs ->
  len (concat recs) < Z.of_nat fuel ->
  exists s',
    decodeSet im raddr unix_now fuel s =
      (s', match (sem_records im tr recs).2 with Some e => Err None e | None => Ok tt end) /\
    st_repr rest (c + len (encode_set (WData id recs))) (sem_set im raddr (WData id recs) g) s0 s'.
Proof.
  intros (Hr & [Hc Hm] & Ha & Hh & Hd & Hq) Hid Hlen Hn Hw Hrecs Hf.
  assert (tr_wf tr) as Htr by (destruct Hc as [_ Hc]; eapply Hc; by rewrite Hm).
  assert (record_width tr * len recs <= len (concat recs)) as Hwidth.
  { apply (length_concat_ge (fun b => len b = record_width tr)); [lia|done]. }
  pose proof (len_nonneg recs). pose proof (len_nonneg (concat recs)).
  erewrite decodeSet_encoded; [|exact Hr|simpl; lia|done]. cbn [set_id set_body].
  destruct (decodeSet_loop_records recs fuel c (mkSetHeader id (4 + len (concat recs))) tr
    (set_reader (mkReader (concat recs ++ rest) (c + 4)) s) rest (c + 4))
    as (p & q & Ec & El); try (done || (simpl; lia)); [unfold len in *; nia|].
  assert (len (concat recs) = len p + len q) as Hpq by (by rewrite Ec, len_app).
  pose proof (len_nonneg p). pose proof (len_nonneg q).
  erewrite decodeSet_body_ok with (q := q) (rest := rest) (c := c + 4 + len p) (tr := tr);
    [| simpl; lia | | exact El | done | lia | simpl; lia].
  - eexists. split; [done|]. rewrite len_encode_set. cbn [set_body sem_set]. rewrite Hn.
    replace (c + (4 + len (concat recs))) with (c + 4 + len p + len q) by lia.
    split_and!; try done. simpl. by rewrite Hd.
  - rewrite decodeSet_template_eq by done. cbn [sh_SetID set_reader st_mem].
    destruct (Z.gtb_spec id 255); [|lia]. by rewrite Hm, Hn.
Qed.

Lemma decodeSet_data id recs : set_ok (WData id recs).
Proof.
  intros fuel rest c g s0 s Hs [Hlen [Hid Hwf]] Hf. cbn [set_body] in *.
  destruct (sem_env g !! cache_key id raddr) as [tr|] eqn:Hn.
  - destruct (Hwf tr eq_refl) as [Hw Hrecs].
    destruct (decodeSet_known id recs tr fuel rest c g s0 s) as (s' & -> & Hs'); try done; [lia|].
    exists s', (sem_records im tr recs).2. split; [done|]. split; [|done].
    cbn [sem_set]. by rewrite Hn.
  - destruct (decodeSet_unknown id recs fuel rest c g s0 s) as (s' & -> & Hs'); try done; [lia|].
    exists s', (Some (errIpfixUnknownTemplate (IP_String raddr) id)). split; [done|].
    split; [|done]. cbn [sem_set]. by rewrite Hn.
Qed.

Lemma decodeSet_sem w : set_ok w.
Proof.
  destruct w.
  - apply decodeSet_templates.
  - apply decodeSet_options.
  - apply decodeSet_data.
  - apply decodeSet_reserved.
Qed.

(** ** All sets *)

Lemma Decode_loop_sem ws n fuel trail c g s0 s :
  st_repr (encode_sets ws ++ trail) c g s0 s -> sets_wf im raddr ws g -> len trail <= 4 ->
  (length ws < n)%nat -> len (encode_sets ws) < Z.of_nat fuel ->
  exists s', Decode_loop im raddr unix_now n fuel (sem_errs g) s =
      (s', Ok (sem_errs (sem_sets im raddr ws g))) /\
    st_repr trail (c + len (encode_sets ws)) (sem_sets im raddr ws g) s0 s'.
Proof.
  revert n c g s. induction ws as [|w ws IH]; intros n c g s Hs Hwf Ht Hn Hf;
    (destruct n as [|n]; [simpl in Hn; lia|]); cbn [Decode_loop]; unmonad; cbn beta iota;
    destruct Hs as (Hr & Hs'); rewrite Hr; unfold Len; cbn [data].
  - exists s. simpl. rewrite Z.gtb_ltb. destruct (Z.ltb_spec 4 (len trail)); [lia|].
    split; [done|]. rewrite Z.add_0_r. by split.
  - unfold encode_sets in *. cbn [map concat] in *. destruct Hwf as [Hw Hwf].
    rewrite len_app in Hf. rewrite <- app_assoc in Hr.
    pose proof (len_nonneg (concat (map encode_set ws))). pose proof (len_nonneg trail).
    assert (4 < len (encode_set w)) by (rewrite len_encode_set; destruct Hw; lia).
    rewrite !len_app. destruct (Z.gtb_spec
      (len (encode_set w) + len (concat (map encode_set ws)) + len trail) 4); [|lia].
    pose proof (len_encode_set w).
    destruct (decodeSet_sem w fuel (concat (map encode_set ws) ++ trail) c g s0 s)
      as (s1 & oe & -> & He & Hs1); [by split|done|lia|].
    destruct (IH n (c + len (encode_set w)) (sem_set im raddr w g) s1)
      as (s2 & E2 & Hs2); try done; [simpl in Hn; lia|lia|].
    exists s2. rewrite Z.add_assoc. split; [|done]. rewrite He in E2.
    destruct oe; simpl in E2; [done|]. by rewrite app_nil_r in E2.
Qed.

End sets.

(** ** Messages *)

Section messages.
Context (im : IANAInfoModel) {MC : Type} `{!TemplateStore TemplateRecord MC}.
Context (raddr : list byte) (unix_now : nat -> Z).

Lemma header_of_encode h rest :
  header_wf h -> header_of (encode_header h ++ rest) = h /\
  16 <= len (encode_header h ++ rest) /\ drop 16 (encode_header h ++ rest) = rest.
Proof.
  intros (Hv & Hl & Ht & Hs & Hd). destruct h as [v l t n d]; simpl in Hv, Hl, Ht, Hs, Hd.
  assert (MessageHeader_unmarshal (mkReader (encode_header (mkMessageHeader v l t n d) ++ rest) 0)
    = (mkReader rest 16, Ok (mkMessageHeader v l t n d))) as Hu.
  { unfold MessageHeader_unmarshal, encode_header. rewrite <- !app_assoc.
    cbn [mh_Version mh_Length mh_ExportTime mh_SequenceNo mh_DomainID]. unmonad.
    do 2 rewrite Uint16_encode by lia. do 3 rewrite Uint32_encode by lia. done. }
  assert (16 <= len (encode_header (mkMessageHeader v l t n d) ++ rest)) as H16.
  { unfold encode_header. autorewrite with len. pose proof (len_nonneg rest). lia. }
  rewrite MessageHeader_unmarshal_ok in Hu by done. cbn [data] in Hu.
  split_and!; [congruence|done|congruence].
Qed.

Lemma length_encode_sets ws : len ws <= len (encode_sets ws).
Proof.
  unfold encode_sets. induction ws as [|w ws IH]; [done|]. cbn [map concat].
  rewrite len_cons, len_app, len_encode_set. pose proof (len_nonneg (set_body w)). lia.
Qed.

(** [Decode] on the encoding of a message, with the clock of the final state. *)
Lemma Decode_message (h : MessageHeader) (ws : list wire_set) (trail : list byte)
    (env : gmap Z TemplateRecord) (mem : MC) (q : list RPCRequest) (k fuel : nat) :
  header_wf h -> len trail <= 4 -> cache_repr env mem ->
  sets_wf im raddr ws (mkSem env [] [] q) -> len (encode_message h ws) < Z.of_nat fuel ->
  let g := sem_sets im raddr ws (mkSem env [] [] q) in
  let msg := mkMessage (IP_String raddr) h (sem_data g) in
  exists s',
    Decode im raddr unix_now fuel (NewDecoder (encode_message h ws ++ trail) mem q k) =
      (s', match combineErrors (sem_errs g) with
           | None => Ok msg
           | Some e => Err (Some msg) e
           end) /\
    cache_repr (sem_env g) (st_mem s') /\ st_rpcChan s' = sem_rpc g /\
    st_reader s' = mkReader trail (len (encode_message h ws)) /\ cache_ok (st_mem s').
Proof.
  intros Hh Ht Hm Hwf Hf g msg. unfold encode_message in *. rewrite <- app_assoc.
  destruct (header_of_encode h (encode_sets ws ++ trail) Hh) as (E1 & E2 & E3).
  assert (len (encode_header h) = 16) as E4 by (unfold encode_header; by autorewrite with len).
  rewrite len_app in Hf.
  rewrite Decode_eq; cbn [NewDecoder st_reader NewReader data]; [|done|rewrite E1; apply Hh].
  destruct (Decode_loop_sem im raddr unix_now ws fuel fuel trail 16 (mkSem env [] [] q)
    (Decode_start raddr (NewDecoder (encode_header h ++ encode_sets ws ++ trail) mem q k))
    (Decode_start raddr (NewDecoder (encode_header h ++ encode_sets ws ++ trail) mem q k)))
    as (s' & El & Hr & Hm' & Ha & Hhd & Hd & Hq).
  - split_and!; done || apply Hm.
  - done.
  - done.
  - pose proof (length_encode_sets ws). unfold len in *. lia.
  - lia.
  - cbn [sem_errs] in El. rewrite El. cbn beta iota. fold g in Hr, Hm', Hd, Hq |- *.
    exists s'. replace (st_msg s') with msg.
    + split; [by destruct (combineErrors _)|]. rewrite len_app, E4. split_and!; done || apply Hm'.
    + destruct (st_msg s') as [a hd ds]. unfold msg. rewrite <- Hd, <- E1.
      f_equal; [symmetry; exact Ha|symmetry; exact Hhd].
Qed.

(** C12: [Decode] implements the meaning of IPFIX messages.  On the encoding of any
    well-formed message (template sets with or without padding, options template sets,
    data sets of known and of unknown templates, templates with unknown elements,
    reserved sets, up to four trailing bytes), whatever templates [env] the cache
    holds, it returns the message's header, the records in their order, interpreted by
    their templates, and the combined errors of the sets; afterwards the cache holds
    exactly the templates known before updated with the announced ones, the request
    channel holds the requests, and the reader is at the end of the last set. *)
Theorem Decode_refines (h : MessageHeader) (ws : list wire_set) (trail : list byte)
    (env : gmap Z TemplateRecord) (mem : MC) (q : list RPCRequest) (k fuel : nat) :
  header_wf h -> len trail <= 4 -> cache_repr env mem ->
  sets_wf im raddr ws (mkSem env [] [] q) -> len (encode_message h ws) < Z.of_nat fuel ->
  let g := sem_sets im raddr ws (mkSem env [] [] q) in
  let msg := mkMessage (IP_String raddr) h (sem_data g) in
  exists s',
    Decode im raddr unix_now fuel (NewDecoder (encode_message h ws ++ trail) mem q k) =
      (s', match combineErrors (sem_errs g) with
           | None => Ok msg
           | Some e => Err (Some msg) e
           end) /\
    cache_repr (sem_env g) (st_mem s') /\ st_rpcChan s' = sem_rpc g /\
    st_reader s' = mkReader trail (len (encode_message h ws)).
Proof.
  intros Hh Ht Hm Hwf Hf g msg.
  destruct (Decode_message h ws trail env mem q k fuel Hh Ht Hm Hwf Hf) as (s' & E & H1 & H2 & H3 & _).
  by exists s'.
Qed.

End messages.


Lemma cache_ok_fresh : cache_ok (GetCache (T:=TemplateRecord) None).
Proof.
  split; [done|]. intros k t Hk.
  change (cache_lookup (T:=TemplateRecord) (GetCache None) k = Some t) in Hk.
  by rewrite GetCache_fresh_lookup in Hk.
Qed.

Lemma cache_repr_fresh : cache_repr ∅ (GetCache (T:=TemplateRecord) None).
Proof. split; [apply cache_ok_fresh|]. intros k. apply (GetCache_fresh_lookup (T:=TemplateRecord)). Qed.

(** The example: a template (source address, protocol, octet count), two records of
    it, a set of an unannounced template and a reserved set. *)
Definition example_template : TemplateRecord :=
  mkTemplateRecord 256 3
    [mkFieldSpecifier 8 4 0; mkFieldSpecifier 4 1 0; mkFieldSpecifier 1 8 0] 0 [].

Definition example_sets : list wire_set :=
  [WTemplates [example_template] 0;
   WData 256 [bytes [192; 0; 2; 1; 6; 0; 0; 0; 0; 0; 0; 16; 0];
              bytes [192; 0; 2; 2; 17; 0; 0; 0; 0; 0; 0; 0; 80]];
   WData 300 [bytes [1; 2; 3; 4; 5; 6]];
   WReserved 100 (bytes [9; 9])].

Definition example_header : MessageHeader := mkMessageHeader 10 72 1500000000 7 1.

Lemma Decode_refines_witness :
  exists s', Decode InfoModel (bytes [127; 0; 0; 1]) (fun _ => 0) 200
      (NewDecoder (encode_message example_header example_sets ++ bytes [0; 0])
         (GetCache None) [] 0) =
    (s', Err (Some (mkMessage "127.0.0.1" example_header
      [[mkDecodedField 8 (VIP (bytes [192; 0; 2; 1])) 0; mkDecodedField 4 (VUint8 6) 0;
        mkDecodedField 1 (VUint64 4096) 0];
       [mkDecodedField 8 (VIP (bytes [192; 0; 2; 2])) 0; mkDecodedField 4 (VUint8 17) 0;
        mkDecodedField 1 (VUint64 80) 0]])) (errIpfixUnknownTemplate "127.0.0.1" 300)).
Proof.
  destruct (Decode_refines InfoModel (bytes [127; 0; 0; 1]) (fun _ => 0) example_header
    example_sets (bytes [0; 0]) ∅ (GetCache None) [] 0 200) as (s' & E & _).
  - done.
  - done.
  - apply cache_repr_fresh.
  - cbn [example_sets sets_wf]. refine (conj _ (conj _ (conj _ (conj _ I)))).
    + split; [done|]. split; [done|]. repeat constructor; try done; by left.
    + split; [done|]. split; [done|]. intros tr Htr. vm_compute in Htr.
      injection Htr as <-. split; [done|]. by repeat constructor.
    + split; [done|]. split; [done|]. intros tr Htr. vm_compute in Htr. discriminate.
    + by split.
  - done.
  - exists s'. rewrite E. vm_compute. reflexivity.
Defined.
