(* ===== verification/IpfixProps.v ===== *)
(** Further properties of the IPFIX decoder: the shape of decoded records, the datagrams
    on which it does not terminate, records it drops, and the evaluated instances of
    the theorems on its outcome and termination. *)

From S2P Require Import Prelude GoNet InfoModel Interpret TemplateCache Reader IpfixDecoder IpfixFacts IpfixDecode IpfixWire IpfixMessage.

(** ** The fields of a decoded record *)

Section shape.
Context (im : IANAInfoModel).

(** The element of a specifier, as the decoded field names it. *)
Definition spec_field_id (f : TemplateFieldSpecifier) : option Z :=
  FieldID <$> im !! mkElementKey (fs_EnterpriseNo f) (fs_ElementID f).

Lemma decode_specs_shape err ent specs acc r r' d :
  decode_specs im err ent specs acc r = (r', Ok d) ->
  exists d', d = acc ++ d' /\ map (Some ∘ df_ID) d' = map spec_field_id specs /\
    map df_EnterpriseNo d' = map ent specs.
Proof.
  revert acc r. induction specs as [|f specs IH]; intros acc r H.
  - simpl in H. unfold mret, M_ret in H. simplify_eq. exists []. by rewrite app_nil_r.
  - cbn [decode_specs] in H. unfold mbind, M_bind in H.
    destruct (Read (fs_Length f) r) as [r1 []]; try done.
    destruct (im !! _) as [m|] eqn:Em; [|done]. rewrite Interpret_eq in H.
    apply IH in H as (d' & -> & H1 & H2). rewrite <- app_assoc. eexists. split; [done|].
    simpl. rewrite H1, H2. unfold spec_field_id at 2. by rewrite Em.
Qed.

(** A decoded record has one field per specifier of its template, the option
    fields first and the scope fields after them, each with the element id the
    information model gives for its enterprise and element; but only scope fields keep
    their enterprise number: it is 0 in every other field, whatever the specifier's. *)
Theorem decodeData_shape (tr : TemplateRecord) (r r' : Reader) (d : list DecodedField) :
  decodeData im tr r = (r', Ok d) ->
  map (Some ∘ df_ID) d =
    map spec_field_id (tr_FieldSpecifiers tr ++ tr_ScopeFieldSpecifiers tr) /\
  map df_EnterpriseNo d =
    map (fun _ => 0) (tr_FieldSpecifiers tr) ++ map fs_EnterpriseNo (tr_ScopeFieldSpecifiers tr).
Proof.
  unfold decodeData, mbind, M_bind. intros H.
  destruct (decode_specs im errIpfixElement _ _ _ r) as [r1 []] eqn:E1; try done.
  apply decode_specs_shape in E1 as (d1 & -> & H1 & H2).
  apply decode_specs_shape in H as (d2 & -> & H3 & H4).
  rewrite app_nil_l, !map_app. by rewrite H1, H2, H3, H4.
Qed.

End shape.

Definition example_model : IANAInfoModel :=
  <[mkElementKey 29305 7 := mkInfoElementEntry 7 "reverseSourceTransportPort" InfoModel.Uint16]> InfoModel.

Lemma decodeData_shape_witness :
  let tr := mkTemplateRecord 256 2 [mkFieldSpecifier 7 2 29305] 1 [mkFieldSpecifier 4 1 0] in
  exists r' d, decodeData example_model tr (NewReader (bytes [0; 80; 6])) = (r', Ok d) /\
    map df_EnterpriseNo d = [0; 0].
Proof.
  eexists _, _. split; [vm_compute; reflexivity|].
  apply (decodeData_shape example_model
    (mkTemplateRecord 256 2 [mkFieldSpecifier 7 2 29305] 1 [mkFieldSpecifier 4 1 0])
    (NewReader (bytes [0; 80; 6])) (mkReader [] 3)). vm_compute. reflexivity.
Defined.

(** ** Datagrams that make the decoder spin *)

Section spin.
Context (im : IANAInfoModel) {MC : Type} `{!TemplateStore TemplateRecord MC}.
Context (raddr : list byte) (unix_now : nat -> Z).

Lemma decodeSet_body_spins fuel start h (s : DecState (MC:=MC)) :
  sh_SetID h <= 1 -> 4 <= sh_Length h -> loop_cond start h s = true ->
  (decodeSet_body im raddr unix_now fuel start h s).2 = NoFuel.
Proof.
  intros Hid Hl Hc. unfold decodeSet_body, decodeSet_template. case_test; [lia|].
  destruct (Z.gtb_spec (sh_SetID h) 255); [lia|]. unmonad. cbn beta iota.
  pose proof (decodeSet_loop_diverges im raddr unix_now fuel start h zeroTemplateRecord s
    tr_wf_zero ltac:(by split) eq_refl ltac:(lia) Hc) as Hd.
  destruct (decodeSet_loop _ _ _ _ _ _ _ _) as [s1 o]. simpl in Hd. by subst o.
Qed.

(** One datagram from anyone keeps a worker busy forever: when the first set has the
    id 0 or 1, announces more than its header, and more than four bytes follow, no
    number of rounds is enough, whatever the cache holds. *)
Theorem Decode_spins (b : list byte) (mem : MC) (q : list RPCRequest) (k fuel : nat) :
  25 <= len b -> be_decode (take 2 b) = 10 -> be_decode (take 2 (drop 16 b)) <= 1 ->
  4 < be_decode (take 2 (drop 18 b)) ->
  (Decode im raddr unix_now fuel (NewDecoder b mem q k)).2 = NoFuel.
Proof.
  intros Hl Hv Hid Hlen. rewrite Decode_eq; [|simpl; lia|done].
  destruct fuel as [|fuel]; [done|]. cbn [Decode_loop]. unmonad. cbn beta iota.
  set (s0 := Decode_start raddr (NewDecoder b mem q k)).
  assert (len (data (st_reader s0)) = len b - 16) as Hl0 by (simpl; by rewrite (len_drop 16); lia).
  unfold Len. destruct (Z.gtb_spec (len (data (st_reader s0))) 4); [|lia].
  rewrite decodeSet_eq by lia.
  match goal with |- context [decodeSet_body _ _ _ ?f ?st ?h ?s] =>
    pose proof (decodeSet_body_spins f st h s) as Hd;
    destruct (decodeSet_body im raddr unix_now f st h s) as [s1 o] end.
  assert (drop 2 (data (st_reader s0)) = drop 18 b) as E18.
  { change (drop 2 (drop 16 b) = drop 18 b). by rewrite drop_drop. }
  cbn [snd sh_SetID sh_Length] in Hd. rewrite E18 in Hd. rewrite Hd; [done|exact Hid|lia|].
  apply andb_true_iff. unfold ReadCount, Len. cbn [sh_Length st_reader set_reader count data].
  rewrite !Z.gtb_lt, wrapU_small, (len_drop 4) by lia. lia.
Qed.

End spin.

Lemma Decode_spins_witness :
  (Decode InfoModel (bytes [192; 0; 2; 1]) (fun _ => 0) 1000
    (NewDecoder (bytes [0; 10; 0; 25; 0; 0; 0; 0; 0; 0; 0; 0; 0; 0; 0; 0;
                        0; 1; 0; 9; 1; 2; 3; 4; 5]) (GetCache None) [] 0)).2 = NoFuel.
Proof. apply Decode_spins; [done|done|by vm_compute|by vm_compute]. Defined.

(** ** Records the decoder drops *)

Section short.
Context (im : IANAInfoModel) {MC : Type} `{!TemplateStore TemplateRecord MC}.
Context (raddr : list byte) (unix_now : nat -> Z).

(** Short records at the end of a datagram are lost: a data set whose template is
    known and that is the last set, its records taking one to four bytes in all, is
    consumed without error and without adding a record. *)
Theorem decodeSet_drops_short (id : Z) (rec : list byte) (tr : TemplateRecord) (c : Z)
    (s : DecState (MC:=MC)) (fuel : nat) :
  255 < id < 65536 -> 1 <= len rec <= 4 -> cache_ok (st_mem s) ->
  ts_lookup (st_mem s) (cache_key id raddr) = Some tr ->
  st_reader s = mkReader (encode_set (WData id [rec])) c ->
  decodeSet im raddr unix_now (S fuel) s =
    (set_reader (mkReader [] (c + 4 + len rec)) s, Ok tt).
Proof.
  intros Hid Hl Hc Ht Hr. rewrite <- (app_nil_r (encode_set _)) in Hr.
  assert (set_body (WData id [rec]) = rec) as Hb by (cbn [set_body concat]; apply app_nil_r).
  erewrite decodeSet_encoded; [|exact Hr|simpl; lia|rewrite Hb; lia]. rewrite Hb. cbn [set_id].
  erewrite decodeSet_body_ok with (q := rec) (rest := []) (c := c + 4) (tr := tr) (err := None)
    (s1 := set_reader (mkReader (rec ++ []) (c + 4)) s).
  - done.
  - simpl; lia.
  - rewrite decodeSet_template_eq by done. cbn [sh_SetID set_reader st_mem].
    destruct (Z.gtb_spec id 255); [|lia]. by rewrite Ht.
  - apply decodeSet_loop_exit. apply andb_false_iff. right. unfold Len. cbn [st_reader set_reader data].
    rewrite app_nil_r, Z.gtb_ltb, Z.ltb_ge. lia.
  - done.
  - lia.
  - simpl. lia.
Qed.

End short.

(** A cache that holds one template of [raddr]. *)
Definition cache_with (raddr : list byte) (tr : TemplateRecord) : MemCache TemplateRecord :=
  (MemCache_insert (tr_TemplateID tr) raddr tr 0 (GetCache None)).1.

Lemma cache_with_ok raddr tr :
  tr_wf tr -> cache_ok (cache_with raddr tr) /\
  ts_lookup (cache_with raddr tr) (cache_key (tr_TemplateID tr) raddr) = Some tr.
Proof.
  intros Ht. unfold cache_with.
  destruct (insert_ok (GetCache None) (tr_TemplateID tr) raddr tr 0 eq_refl) as (m' & E & Hw & Hl).
  rewrite E. cbn [fst]. split.
  - split; [done|]. intros k t. change (ts_lookup m' k) with (cache_lookup m' k). rewrite Hl.
    case_decide; [by intros [= <-]|]. by rewrite GetCache_fresh_lookup.
  - change (ts_lookup m') with (cache_lookup m'). rewrite Hl. by case_decide.
Qed.

Definition proto_template : TemplateRecord :=
  mkTemplateRecord 256 1 [mkFieldSpecifier 4 1 0] 0 [].

Lemma proto_template_wf : tr_wf proto_template.
Proof. split; by repeat constructor. Qed.

Lemma decodeSet_drops_short_witness :
  let raddr := bytes [192; 0; 2; 1] in
  let s := mkDecState (mkReader (encode_set (WData 256 [bytes [6; 17]])) 16)
             (cache_with raddr proto_template) zeroMessage [] 0 in
  decodeSet InfoModel raddr (fun _ => 0) 10 s = (set_reader (mkReader [] 22) s, Ok tt).
Proof.
  intros raddr s. destruct (cache_with_ok raddr proto_template proto_template_wf) as [H1 H2].
  cbn [tr_TemplateID proto_template] in H2.
  rewrite (decodeSet_drops_short InfoModel raddr (fun _ => 0) 256 (bytes [6; 17])
    proto_template 16 s 9); [reflexivity|lia|by split|exact H1|exact H2|reflexivity].
Defined.

(** A template without fields, whose data sets hold empty records. *)
Definition empty_template : TemplateRecord := mkTemplateRecord 256 0 [] 0 [].

(** Data sets of such a template are never finished. *)
Lemma decodeSet_empty_template :
  let raddr := bytes [192; 0; 2; 1] in
  (decodeSet InfoModel raddr (fun _ => 0) 20
    (mkDecState (NewReader (encode_set (WData 256 [bytes [1; 2; 3; 4; 5]])))
       (cache_with raddr empty_template) zeroMessage [] 0)).2 = NoFuel.
Proof.
  intros raddr. destruct (cache_with_ok raddr empty_template) as [H1 H2]; [by split|].
  cbn [tr_TemplateID empty_template] in H2. apply decodeSet_nofuel_iff; [exact H1|done|].
  eexists _, _, empty_template. split; [vm_compute; reflexivity|].
  split; [done|]. split; [done|]. split; [exact H2|].
  split; [reflexivity|]. split; constructor.
Qed.

Lemma Decode_outcome_witness :
  let b := bytes [0; 10; 0; 16; 0; 0; 0; 1; 0; 0; 0; 2; 0; 0; 0; 3] in
  cache_ok (GetCache (T:=TemplateRecord) None) /\
  match (Decode InfoModel (bytes [192; 0; 2; 1]) (fun _ => 0) 20
           (NewDecoder b (GetCache None) [] 0)).2 with
  | Ok m | Err (Some m) _ => msg_Header m = header_of b
  | _ => False
  end.
Proof.
  split; [apply cache_ok_fresh|]. cbv zeta.
  match goal with |- context [NewDecoder ?b _ _ _] =>
    pose proof (Decode_outcome InfoModel (bytes [192; 0; 2; 1]) (fun _ => 0) 20 b
      (GetCache None) [] 0 cache_ok_fresh ltac:(vm_compute; reflexivity)) as [_ H] end.
  vm_compute in H. vm_compute. apply H.
Defined.

Lemma Decode_diverges_iff_witness :
  (Decode InfoModel (bytes [192; 0; 2; 1]) (fun _ => 0) 40
    (NewDecoder (bytes [0; 10; 0; 25; 0; 0; 0; 0; 0; 0; 0; 0; 0; 0; 0; 0;
                        0; 1; 0; 9; 1; 2; 3; 4; 5]) (GetCache None) [] 0)).2 = NoFuel.
Proof.
  apply Decode_diverges_iff; [apply cache_ok_fresh|done|]. split_and!; [done|done|].
  eexists. split; [apply rtc_refl|]. split; [done|].
  eexists _, _, zeroTemplateRecord. split; [vm_compute; reflexivity|]. by split_and!.
Defined.
