(* ===== verification/IpfixShared.v ===== *)
(** Workers of the IPFIX collector on the shared template cache: [Decode] uses the cache
    through its two methods only, so the interleavings of Interleave.v are those of the
    collector's workers, each decoding its own sequence of datagrams.

    The request channel and the clock are a worker's own here; neither influences the
    decoded messages. *)

From S2P Require Import Prelude GoNet InfoModel Interpret TemplateCache Interleave Reader IpfixDecoder IpfixFacts IpfixMessage.

#[global] Instance TemplateFieldSpecifier_eq_dec : EqDecision TemplateFieldSpecifier.
Proof. solve_decision. Defined.
#[global] Instance TemplateRecord_eq_dec : EqDecision TemplateRecord.
Proof. solve_decision. Defined.

(** ** [Decode] on two stores *)

Section decode_sim.
Context (im : IANAInfoModel) {MC1 MC2 : Type}.
Context (O1 : StoreOps TemplateRecord MC1) (O2 : StoreOps TemplateRecord MC2).
Context (okA : list byte -> Prop) (R E : MC1 -> MC2 -> Prop) (HS : store_sim okA tr_wf O1 O2 R E).
Context (raddr : list byte) (Ha : okA raddr) (unix_now : nat -> Z).

(** The same decoder state, on related caches. *)
Definition st_rel (s1 : DecState (MC:=MC1)) (s2 : DecState (MC:=MC2)) : Prop :=
  st_reader s1 = st_reader s2 /\ R (st_mem s1) (st_mem s2) /\ st_msg s1 = st_msg s2 /\
  st_rpcChan s1 = st_rpcChan s2 /\ st_clock s1 = st_clock s2.

Definition st_esc (s1 : DecState (MC:=MC1)) (s2 : DecState (MC:=MC2)) : Prop :=
  E (st_mem s1) (st_mem s2).

Abbreviation dsim := (sim st_rel st_esc).
Abbreviation dstays := (stays st_esc).

Lemma stays_same {A} (m : M (DecState (MC:=MC2)) A) : (forall s, st_mem (m s).1 = st_mem s) -> dstays m.
Proof. intros H. apply stays_any. intros s1 s2. unfold st_esc. by rewrite H. Qed.

Lemma stays_on_reader {A} (m : M Reader A) : dstays (on_reader m).
Proof. apply stays_same. intros s. unfold on_reader, zoom. by destruct (m _). Qed.

Lemma stays_modify f : (forall s, st_mem (f s) = st_mem s) -> dstays (modify f).
Proof. intros H. by apply stays_same. Qed.

Lemma stays_on_mem {A} (m : M MC2 A) : stays E m -> dstays (on_mem m).
Proof.
  intros H. apply stays_any. intros s1 s2 Hs. unfold on_mem, zoom.
  destruct (H (st_mem s1) (st_mem s2) Hs) as [H1 _]. by destruct (m _).
Qed.

(** Reading code does the same on both sides and never panics. *)
Lemma sim_read {A B} (Q : A -> Prop) (m : M Reader A) (k1 : A -> M (DecState (MC:=MC1)) B)
    (k2 : A -> M (DecState (MC:=MC2)) B) :
  reads Q m -> (forall a, Q a -> dsim eq (k1 a) (k2 a)) ->
  dsim eq (on_reader m ≫= k1) (on_reader m ≫= k2).
Proof.
  intros Hm Hk s1 s2 (Hr & HR & Hg). unfold mbind, M_bind, on_reader, zoom. rewrite <- Hr.
  destruct (Hm (st_reader s1)) as (_ & H2 & H3).
  destruct (m (st_reader s1)) as [r [a|v e| |]]; cbn in *; try done. by apply Hk.
Qed.

Lemma sim_try_read {A B} (Q : A -> Prop) (m : M Reader A) (k1 : A + GoError -> M (DecState (MC:=MC1)) B)
    (k2 : A + GoError -> M (DecState (MC:=MC2)) B) :
  reads Q m -> (forall x, match x with inl a => Q a | inr _ => True end -> dsim eq (k1 x) (k2 x)) ->
  dsim eq (try (on_reader m) ≫= k1) (try (on_reader m) ≫= k2).
Proof.
  intros Hm Hk s1 s2 (Hr & HR & Hg). unfold mbind, M_bind, try, on_reader, zoom. rewrite <- Hr.
  destruct (Hm (st_reader s1)) as (_ & H2 & H3).
  by destruct (m (st_reader s1)) as [r [a|v e| |]]; cbn in *; try done; apply Hk.
Qed.

Lemma sim_on_mem {A} (Q : A -> A -> Prop) (m1 : M MC1 A) (m2 : M MC2 A) :
  sim R E Q m1 m2 -> dsim Q (on_mem m1) (on_mem m2).
Proof.
  intros Hm s1 s2 (Hr & HR & Hg). specialize (Hm _ _ HR). unfold on_mem, zoom.
  destruct (m1 (st_mem s1)) as [t1 [a1|v1 e1| |]], (m2 (st_mem s2)) as [t2 [a2|v2 e2| |]];
    cbn in *; try tauto; destruct Hm as [Ht Hm]; (split; [by split_and!; try apply Hg|exact Hm]).
Qed.

Lemma sim_get_bind {A} (k1 : DecState (MC:=MC1) -> M (DecState (MC:=MC1)) A)
    (k2 : DecState (MC:=MC2) -> M (DecState (MC:=MC2)) A) :
  (forall s1 s2, st_rel s1 s2 -> dsim eq (k1 s1) (k2 s2)) -> dsim eq (get ≫= k1) (get ≫= k2).
Proof. intros H s1 s2 Hs. by apply H. Qed.

Lemma sim_modify_bind {A} f1 f2 (m1 : M (DecState (MC:=MC1)) A) (m2 : M (DecState (MC:=MC2)) A) :
  (forall s1 s2, st_rel s1 s2 -> st_rel (f1 s1) (f2 s2)) -> dsim eq m1 m2 ->
  dsim eq (modify f1;; m1) (modify f2;; m2).
Proof. intros Hf Hm s1 s2 Hs. apply Hm. by apply Hf. Qed.

(** *** After the first run has stopped *)

Ltac stays_step := first
  [ apply stays_on_reader | apply stays_on_mem, HS | apply stays_ret | apply stays_fail
  | apply stays_nofuel | apply stays_get | apply stays_try | assumption
  | apply stays_bind; [|intros ?]
  | progress case_match | by apply stays_same ].

Lemma stays_loop fuel start h tr : dstays (decodeSet_loop im raddr unix_now fuel start h tr).
Proof.
  induction fuel as [|fuel IH]; cbn [decodeSet_loop]; [apply stays_nofuel|]. repeat stays_step.
Qed.

Lemma stays_skip start h err : dstays (decodeSet_skip start h err).
Proof. unfold decodeSet_skip. repeat stays_step. Qed.

Lemma stays_template h : dstays (decodeSet_template raddr h).
Proof.
  unfold decodeSet_template. repeat stays_step. apply stays_modify. intros s. by case_match.
Qed.

Lemma stays_body fuel start h : dstays (decodeSet_body im raddr unix_now fuel start h).
Proof.
  unfold decodeSet_body. repeat first [apply stays_template|apply stays_loop|apply stays_skip|stays_step].
Qed.

Lemma stays_decodeSet fuel : dstays (decodeSet im raddr unix_now fuel).
Proof. unfold decodeSet. repeat first [apply stays_body|stays_step]. Qed.

Lemma stays_Decode_loop fuel sf errs : dstays (Decode_loop im raddr unix_now fuel sf errs).
Proof.
  revert errs. induction fuel as [|fuel IH]; intros errs; cbn [Decode_loop]; [apply stays_nofuel|].
  repeat first [apply stays_decodeSet|apply IH|stays_step].
Qed.

Lemma stays_Decode fuel : dstays (Decode im raddr unix_now fuel).
Proof.
  unfold Decode, MessageHeader_validate. repeat first [apply stays_Decode_loop|stays_step].
Qed.

(** *** The two runs *)

Lemma sim_loop fuel start h tr : tr_wf tr ->
  dsim eq (decodeSet_loop im raddr unix_now fuel start h tr)
          (decodeSet_loop im raddr unix_now fuel start h tr).
Proof.
  intros Htr. induction fuel as [|fuel IH]; cbn [decodeSet_loop]; [apply sim_nofuel|].
  apply sim_get_bind. intros s1 s2 (Hr & _). rewrite Hr. case_match; [|by apply sim_ret].
  case_match; [|case_match; [by apply sim_ret|]].
  - apply (sim_try_read _ _ _ _ reads_PeekUint16). intros id _.
    destruct (match id with inl id => id =? 0 | inr _ => false end); [by apply sim_ret|].
    apply sim_try_read with (Q := tr_wf).
    { destruct (sh_SetID h =? 2);
        [apply reads_TemplateRecord_unmarshal|apply reads_TemplateRecord_unmarshalOpts]. }
    intros [t|e] Ht; (eapply sim_bind with (Q := eq); [|intros; apply stays_loop|by intros]).
    + eapply sim_bind with (Q := eq).
      * intros s3 s4 (? & ? & ? & ? & Hc). by unfold time_now; rewrite Hc.
      * intros now. apply stays_on_mem, HS.
      * intros now ? <-. apply sim_on_mem. by apply (ss_insert _ _ _ _ _ _ HS).
    + by apply sim_ret.
  - apply (sim_try_read _ _ _ _ (reads_decodeData im tr Htr)). intros [d|e] _; [|by apply sim_ret].
    apply sim_modify_bind; [|done]. intros s3 s4 (? & ? & Hm & ?). by unfold st_rel; cbn; rewrite Hm.
Qed.

Lemma sim_skip start h err : dsim eq (decodeSet_skip start h err) (decodeSet_skip start h err).
Proof.
  unfold decodeSet_skip. apply sim_get_bind. intros s1 s2 (Hr & _). rewrite Hr.
  eapply sim_bind with (Q := eq); [| |intros [e|] ? <-; [by apply sim_fail|by apply sim_ret]].
  - destruct (Z.gtb_spec (uint16 (sh_Length h - uint16 (ReadCount (st_reader s2) - start))) 0);
      [|by apply sim_ret].
    eapply sim_try_read; [apply reads_Read; lia|]. intros x _. by apply sim_ret.
  - intros [e|]; repeat stays_step.
Qed.

(** A known template is well-formed. *)
Lemma sim_template h :
  dsim (fun a b => a = b /\ tr_wf a.1) (decodeSet_template raddr h) (decodeSet_template raddr h).
Proof.
  unfold decodeSet_template. case_match; [|apply sim_ret; split; [done|apply tr_wf_zero]].
  eapply sim_bind; [apply sim_on_mem; by apply (ss_retrieve _ _ _ _ _ _ HS)| |].
  - intros o. repeat stays_step. apply stays_modify. intros s. by case_match.
  - intros o ? [<- Ho]. destruct o as [t|]; [apply sim_ret; split; [done|by apply Ho]|].
    intros s1 s2 (? & ? & ? & Hq & ?). unfold mbind, M_bind, rpc_request, modify. rewrite Hq.
    destruct (len (st_rpcChan s2) <? 1); (split; [by split_and!; rewrite ?Hq|split; [done|apply tr_wf_zero]]).
Qed.

Lemma sim_body fuel start h :
  dsim eq (decodeSet_body im raddr unix_now fuel start h) (decodeSet_body im raddr unix_now fuel start h).
Proof.
  unfold decodeSet_body. case_match; [by apply sim_fail|].
  eapply sim_bind; [apply sim_template| |].
  - intros [tr err]. repeat first [apply stays_loop|apply stays_skip|stays_step].
  - intros [tr err] ? [<- Htr]. eapply sim_bind with (Q := eq).
    + destruct err; [by apply sim_ret|by apply sim_loop].
    + intros. apply stays_skip.
    + intros e ? <-. apply sim_skip.
Qed.

Lemma sim_decodeSet fuel :
  dsim eq (decodeSet im raddr unix_now fuel) (decodeSet im raddr unix_now fuel).
Proof.
  unfold decodeSet. apply sim_get_bind. intros s1 s2 (Hr & _). rewrite Hr.
  apply (sim_read _ _ _ _ reads_SetHeader_unmarshal). intros h _. apply sim_body.
Qed.

Lemma sim_Decode_loop fuel sf errs :
  dsim eq (Decode_loop im raddr unix_now fuel sf errs) (Decode_loop im raddr unix_now fuel sf errs).
Proof.
  revert errs. induction fuel as [|fuel IH]; intros errs; cbn [Decode_loop]; [apply sim_nofuel|].
  apply sim_get_bind. intros s1 s2 (Hr & _). rewrite Hr. case_match; [|by apply sim_ret].
  eapply sim_bind; [apply sim_try, sim_decodeSet| |].
  - intros x. repeat first [apply stays_Decode_loop|stays_step].
  - intros [a1|e1] [a2|e2] Hx; try done. subst e2. apply IH.
Qed.

Lemma sim_Decode fuel : dsim eq (Decode im raddr unix_now fuel) (Decode im raddr unix_now fuel).
Proof.
  unfold Decode. apply (sim_read _ _ _ _ reads_MessageHeader_unmarshal). intros h _.
  unfold MessageHeader_validate. destruct (negb _).
  - by intros s1 s2 Hs.
  - eapply sim_bind with (Q := eq); [by apply sim_ret|intros; repeat first [apply stays_Decode_loop|stays_step]|].
    intros _ _ _. apply sim_modify_bind; [intros s1 s2 (? & ? & ? & ? & ?); by split_and!|].
    eapply sim_bind; [apply sim_Decode_loop| |].
    + intros errs. repeat stays_step.
    + intros errs ? <-. apply sim_get_bind. intros s1 s2 (_ & _ & Hm & _). rewrite Hm.
      destruct (combineErrors errs); [|by apply sim_ret]. apply sim_fail. by constructor.
Qed.

End decode_sim.

(** ** [Decode] depends on its exporter's templates only *)

Section agree.
Context {MC1 MC2 : Type} `{!TemplateStore TemplateRecord MC1} `{!TemplateStore TemplateRecord MC2}.

(** Two caches, of any implementation, that know the same templates of an exporter. *)
Definition agree (raddr : list byte) (m1 : MC1) (m2 : MC2) : Prop :=
  cache_ok m1 /\ cache_ok m2 /\
  forall id, ts_lookup m1 (cache_key id raddr) = ts_lookup m2 (cache_key id raddr).

Lemma cache_ok_insert {MC} `{!TemplateStore TemplateRecord MC} (m : MC) id addr t now :
  cache_ok m -> tr_wf t -> exists m', ts_insert id addr t now m = (m', Ok tt) /\ cache_ok m' /\
    forall k, ts_lookup m' k = if decide (k = cache_key id addr) then Some t else ts_lookup m k.
Proof.
  intros [Hw Hc] Ht. destruct (ts_insert_ok m id addr t now Hw) as (m' & E & Hw' & Hl).
  exists m'. split; [done|]. split; [|done]. split; [done|]. intros k t' Hk. rewrite Hl in Hk.
  case_decide; [by simplify_eq|by eapply Hc].
Qed.

Lemma agree_store_sim raddr :
  store_sim (eq raddr) tr_wf (ts_ops (MC:=MC1)) (ts_ops (MC:=MC2)) (agree raddr) (fun _ _ => False).
Proof.
  split.
  - intros id addr <- m1 m2 (H1 & H2 & H3).
    rewrite (ts_retrieve_ok m1) by apply H1. rewrite (ts_retrieve_ok m2) by apply H2. cbn.
    split; [done|]. split; [by rewrite H3|]. intros t Ht. by eapply H1.
  - intros id addr t now <- Ht m1 m2 (H1 & H2 & H3).
    destruct (cache_ok_insert m1 id raddr t now H1 Ht) as (n1 & -> & G1 & L1).
    destruct (cache_ok_insert m2 id raddr t now H2 Ht) as (n2 & -> & G2 & L2). cbn.
    split; [|done]. split; [done|]. split; [done|]. intros id'. rewrite L1, L2. by case_decide.
  - intros id addr. by apply stays_any.
  - intros id addr t now. by apply stays_any.
Qed.

Lemma Decode_agree (im : IANAInfoModel) (raddr : list byte) (unix_now : nat -> Z) (fuel : nat)
    (b : list byte) (m1 : MC1) (m2 : MC2) (q : list RPCRequest) (k : nat) (Hm : agree raddr m1 m2) :
  let r1 := Decode im raddr unix_now fuel (NewDecoder b m1 q k) in
  let r2 := Decode im raddr unix_now fuel (NewDecoder b m2 q k) in
  r1.2 = r2.2 /\ st_reader r1.1 = st_reader r2.1 /\ st_rpcChan r1.1 = st_rpcChan r2.1 /\
  agree raddr (st_mem r1.1) (st_mem r2.1).
Proof.
  pose proof (sim_Decode im _ _ (eq raddr) (agree raddr) (fun _ _ => False) (agree_store_sim raddr)
    raddr eq_refl unix_now fuel (NewDecoder b m1 q k) (NewDecoder b m2 q k) ltac:(by split_and!)) as H.
  cbn zeta. destruct (Decode _ _ _ _ (NewDecoder b m1 q k)) as [s1 r1],
    (Decode _ _ _ _ (NewDecoder b m2 q k)) as [s2 r2]. cbn [fst snd] in *.
  assert (st_rel (agree raddr) s1 s2 /\ r1 = r2) as [(H1 & H2 & H3 & H4 & H5) ->]; [|done].
  destruct r1; try done; destruct H as [H1 H2]; (split; [done|]); by apply res_rel_eq.
Qed.

(** C20: exporters are isolated up to the hash.  On any two caches, whatever their
    implementation, that hold the same templates under the keys of an exporter, a datagram
    of that exporter decodes to the same message and the same error, leaves the reader and
    the request channel in the same state, and the caches still agree on that exporter's
    keys: nothing else in the cache matters. *)
Theorem Decode_local (im : IANAInfoModel) (raddr : list byte) (unix_now : nat -> Z) (fuel : nat)
    (b : list byte) (m1 : MC1) (m2 : MC2) (q : list RPCRequest) (k : nat) (Hm : agree raddr m1 m2) :
  let r1 := Decode im raddr unix_now fuel (NewDecoder b m1 q k) in
  let r2 := Decode im raddr unix_now fuel (NewDecoder b m2 q k) in
  r1.2 = r2.2 /\ st_reader r1.1 = st_reader r2.1 /\ st_rpcChan r1.1 = st_rpcChan r2.1 /\
  agree raddr (st_mem r1.1) (st_mem r2.1).
Proof. by apply Decode_agree. Qed.

End agree.

(** ** Example: two caches that differ in what another exporter has announced *)

Definition one_exporter : list byte := bytes [192; 0; 2; 1].
Definition another_exporter : list byte := bytes [192; 0; 2; 9].

Definition announced_cache (l : list (list byte)) : MemCache TemplateRecord :=
  fold_right (fun addr m => (ts_insert 256 addr example_template 0 m).1) (GetCache None) l.

Lemma exporters_apart : forall id, cache_key id one_exporter <> cache_key 256 another_exporter.
Proof. apply cache_key_avoids. vm_compute. reflexivity. Qed.

Lemma announced_cache_ok l : cache_ok (announced_cache l) /\
  forall k, ts_lookup (announced_cache l) k =
    if decide (Exists (fun addr => k = cache_key 256 addr) l) then Some example_template else None.
Proof.
  induction l as [|addr l [IH Hl]]; cbn [announced_cache fold_right].
  - split; [apply cache_ok_fresh|]. intros k. rewrite decide_False by (by intros ?%Exists_nil).
    apply (GetCache_fresh_lookup (T:=TemplateRecord)).
  - destruct (cache_ok_insert (announced_cache l) 256 addr example_template 0 IH) as (m' & E & Hm & Hl');
      [by repeat constructor|].
    fold (announced_cache l). rewrite E. split; [done|]. intros k. cbn [fst]. rewrite Hl', Hl.
    case_decide as Hk; [by rewrite decide_True by (by left)|].
    apply decide_ext. rewrite Exists_cons. tauto.
Qed.

Lemma Decode_local_witness :
  (Decode InfoModel one_exporter (fun _ => 0) 100
     (NewDecoder (encode_message example_header [WData 256 [bytes [192; 0; 2; 1; 6; 0; 0; 0; 0; 0; 0; 16; 0]]])
       (announced_cache [one_exporter]) [] 0)).2 =
  (Decode InfoModel one_exporter (fun _ => 0) 100
     (NewDecoder (encode_message example_header [WData 256 [bytes [192; 0; 2; 1; 6; 0; 0; 0; 0; 0; 0; 16; 0]]])
       (announced_cache [another_exporter; one_exporter]) [] 0)).2.
Proof.
  apply (Decode_local InfoModel one_exporter (fun _ => 0) 100 _ (announced_cache [one_exporter])
    (announced_cache [another_exporter; one_exporter]) [] 0).
  destruct (announced_cache_ok [one_exporter]) as [H1 L1].
  destruct (announced_cache_ok [another_exporter; one_exporter]) as [H2 L2].
  split; [done|]. split; [done|]. intros id. rewrite L1, L2. apply decide_ext.
  rewrite !Exists_cons, Exists_nil. pose proof (exporters_apart id). tauto.
Defined.
