(* ===== verification/IpfixSource.v ===== *)
(** Where cached templates come from: [Decode] stores only templates that it read from the
    datagram, under the key of the datagram's exporter and the template's own id.

    The section [source] carries any invariant of the cache through [Decode] that storing
    a template of the datagram keeps. *)

From S2P Require Import Prelude GoNet InfoModel Interpret TemplateCache Reader IpfixDecoder IpfixFacts.

(** A template record, of either kind, that stands in the bytes [b]. *)
Definition carried (b : list byte) (t : TemplateRecord) : Prop :=
  exists pre suf c, b = pre ++ suf /\
    ((TemplateRecord_unmarshal (mkReader suf c)).2 = Ok t \/
     (TemplateRecord_unmarshalOpts (mkReader suf c)).2 = Ok t).

Lemma carried_wf b t : carried b t -> tr_wf t.
Proof.
  intros (pre & suf & c & _ & [H|H]).
  - destruct (reads_TemplateRecord_unmarshal (mkReader suf c)) as (_ & _ & Hq). by rewrite H in Hq.
  - destruct (reads_TemplateRecord_unmarshalOpts (mkReader suf c)) as (_ & _ & Hq). by rewrite H in Hq.
Qed.

Section source.
Context (im : IANAInfoModel) {MC : Type} `{!StoreOps TemplateRecord MC}.
Context (raddr : list byte) (unix_now : nat -> Z) (b : list byte) (Pm : MC -> Prop).
Hypothesis Pm_retrieve : forall id m, Pm m -> exists o, ts_retrieve id raddr m = (m, Ok o) /\
  forall t, o = Some t -> tr_wf t.
Hypothesis Pm_insert : forall t n m, carried b t -> Pm m ->
  exists m', ts_insert (tr_TemplateID t) raddr t (unix_now n) m = (m', Ok tt) /\ Pm m'.

Definition src_inv (s : DecState (MC:=MC)) : Prop :=
  adv (NewReader b) (st_reader s) /\ Pm (st_mem s).

Lemma src_on_reader {A} (Q : A -> Prop) m : reads Q m -> safe src_inv Q (on_reader m).
Proof.
  intros Hm s [Ha Hc]. unfold on_reader, zoom. destruct (Hm (st_reader s)) as (H1 & H2 & H3).
  destruct (m (st_reader s)) as [r' []]; simpl in *; try done; (split; [split; [by etransitivity|done]|done]).
Qed.

(** What is read at the reader's position stands in the datagram. *)
Lemma src_read_template (opts : bool) :
  safe src_inv (fun x => match x with inl t => carried b t | inr _ => True end)
    (try (on_reader (if opts then TemplateRecord_unmarshal else TemplateRecord_unmarshalOpts))).
Proof.
  intros s [(pre & Hd & Hn) Hc]. unfold try, on_reader, zoom. cbn in Hd.
  set (m := if opts then _ else _).
  assert (reads tr_wf m) as Hm
    by (destruct opts; [apply reads_TemplateRecord_unmarshal|apply reads_TemplateRecord_unmarshalOpts]).
  destruct (Hm (st_reader s)) as (H1 & H2 & H3).
  assert (forall t, (m (st_reader s)).2 = Ok t -> carried b t) as Hcar.
  { intros t Ht. exists pre, (data (st_reader s)), (count (st_reader s)). split; [done|].
    destruct (st_reader s) as [d c]. cbn. destruct opts; [by left|by right]. }
  destruct (m (st_reader s)) as [r' [t|v e| |]]; simpl in *; try done.
  - split; [|by apply Hcar]. split; [|done]. etransitivity; [|exact H1]. by exists pre.
  - split; [|done]. split; [|done]. etransitivity; [|exact H1]. by exists pre.
Qed.

Lemma src_insert t now : carried b t -> (exists n, now = unix_now n) ->
  safe src_inv (fun _ => True) (on_mem (ts_insert (tr_TemplateID t) raddr t now)).
Proof.
  intros Ht [n ->] s [Ha Hm]. unfold on_mem, zoom.
  destruct (Pm_insert t n (st_mem s) Ht Hm) as (m' & -> & Hm'). by cbn.
Qed.

Lemma src_time_now : safe src_inv (fun now => exists n, now = unix_now n) (time_now unix_now).
Proof. intros s Hs. split; [done|]. by eexists. Qed.

Lemma src_loop fuel start h tr : tr_wf tr ->
  safe src_inv (fun _ => True) (decodeSet_loop im raddr unix_now fuel start h tr).
Proof.
  intros Htr. induction fuel as [|fuel IH]; simpl; [apply safe_nofuel|].
  eapply safe_bind; [apply safe_get|]. intros s _. case_match; [|by apply safe_ret].
  case_match; [|case_match; [by apply safe_ret|]].
  - eapply safe_bind; [apply safe_try, src_on_reader, reads_PeekUint16|]. intros id _.
    destruct (match id with inl id => id =? 0 | inr _ => false end); [by apply safe_ret|].
    eapply safe_bind; [apply src_read_template|].
    intros [t|e] Ht; (eapply safe_bind with (Q := fun _ => True); [|by intros]); [|by apply safe_ret].
    eapply safe_bind; [apply src_time_now|]. intros now Hn. by apply src_insert.
  - eapply safe_bind; [eapply safe_try, src_on_reader; by apply reads_decodeData|].
    intros [d|e] _; [|by apply safe_ret].
    eapply safe_bind with (Q := fun _ => True); [by apply safe_modify|]. by intros.
Qed.

Lemma src_template h : safe src_inv (fun p => tr_wf p.1) (decodeSet_template raddr h).
Proof.
  unfold decodeSet_template. case_match; [|apply safe_ret, tr_wf_zero].
  eapply safe_bind with (Q := fun o => forall t, o = Some t -> tr_wf t).
  - intros s [Ha Hm]. unfold on_mem, zoom. destruct (Pm_retrieve (sh_SetID h) (st_mem s) Hm) as (o & -> & Ho).
    by cbn.
  - intros [t|] Ht; [apply safe_ret; by apply Ht|].
    eapply safe_bind with (Q := fun _ => True); [|intros; apply safe_ret, tr_wf_zero].
    apply safe_modify. intros s Hs. by case_match.
Qed.

Lemma src_skip start h err : safe src_inv (fun _ => True) (decodeSet_skip start h err).
Proof.
  unfold decodeSet_skip. eapply safe_bind; [apply safe_get|]. intros s _.
  eapply safe_bind with (Q := fun _ => True).
  - destruct (Z.gtb_spec (uint16 (sh_Length h - uint16 (ReadCount (st_reader s) - start))) 0);
      [|by apply safe_ret].
    eapply safe_bind; [apply safe_try, src_on_reader, reads_Read; lia|]. intros. by apply safe_ret.
  - intros [e|] _; [apply safe_fail|by apply safe_ret].
Qed.

Lemma src_decodeSet fuel : safe src_inv (fun _ => True) (decodeSet im raddr unix_now fuel).
Proof.
  unfold decodeSet, decodeSet_body. eapply safe_bind; [apply safe_get|]. intros s _.
  eapply safe_bind; [apply src_on_reader, reads_SetHeader_unmarshal|]. intros h _.
  case_match; [apply safe_fail|]. eapply safe_bind; [apply src_template|]. intros [tr err] Htr.
  eapply safe_bind with (Q := fun _ => True); [|intros; apply src_skip].
  destruct err; [by apply safe_ret|by apply src_loop].
Qed.

Lemma src_Decode_loop fuel sf errs :
  safe src_inv (fun _ => True) (Decode_loop im raddr unix_now fuel sf errs).
Proof.
  revert errs. induction fuel as [|fuel IH]; intros errs; simpl; [apply safe_nofuel|].
  eapply safe_bind; [apply safe_get|]. intros s _. case_match; [|by apply safe_ret].
  eapply safe_bind; [apply safe_try, src_decodeSet|]. intros [?|e] _; apply IH.
Qed.

Lemma src_Decode fuel : safe src_inv (fun _ => True) (Decode im raddr unix_now fuel).
Proof.
  unfold Decode, MessageHeader_validate.
  eapply safe_bind; [apply src_on_reader, reads_MessageHeader_unmarshal|]. intros h _.
  eapply safe_bind with (Q := fun _ => True); [case_match; [apply safe_fail|by apply safe_ret]|].
  intros _ _. eapply safe_bind with (Q := fun _ => True); [by apply safe_modify|]. intros _ _.
  eapply safe_bind; [apply src_Decode_loop|]. intros errs _. eapply safe_bind; [apply safe_get|].
  intros s _. case_match; [apply safe_fail|by apply safe_ret].
Qed.

(** After a datagram the invariant holds again. *)
Lemma Decode_keeps fuel m q k :
  Pm m ->
  Pm (st_mem (Decode im raddr unix_now fuel (NewDecoder b m q k)).1) /\
  (Decode im raddr unix_now fuel (NewDecoder b m q k)).2 <> Panic.
Proof.
  intros Hm. destruct (src_Decode fuel (NewDecoder b m q k)) as [[_ H1] H2].
  - split; [reflexivity|done].
  - split; [done|]. by destruct (_).2.
Qed.

End source.

(** ** Templates with a source *)

Section sourced.
Context (im : IANAInfoModel) {MC : Type} `{!TemplateStore TemplateRecord MC}.
Context (raddr : list byte) (unix_now : nat -> Z) (b : list byte) (src : Z -> TemplateRecord -> Prop).
Hypothesis src_wf : forall k t, src k t -> tr_wf t.
Hypothesis src_new : forall t, carried b t -> src (cache_key (tr_TemplateID t) raddr) t.

Definition sourced (m : MC) : Prop := ts_wf m /\ forall k t, ts_lookup m k = Some t -> src k t.

Lemma Decode_sourced fuel m q k :
  sourced m ->
  sourced (st_mem (Decode im raddr unix_now fuel (NewDecoder b m q k)).1) /\
  (Decode im raddr unix_now fuel (NewDecoder b m q k)).2 <> Panic.
Proof.
  apply Decode_keeps.
  - intros id m1 [Hw Hc]. eexists. split; [by apply ts_retrieve_ok|]. intros t Ht. by eapply src_wf, Hc.
  - intros t n m1 Ht [Hw Hc].
    destruct (ts_insert_ok m1 (tr_TemplateID t) raddr t (unix_now n) Hw) as (m' & E & Hw' & Hl).
    exists m'. split; [done|]. split; [done|]. intros k' t'. rewrite Hl.
    case_decide as Hk; [|apply Hc]. intros [= <-]. subst k'. by apply src_new.
Qed.

End sourced.
