(* ===== verification/NetflowDecoder.v ===== *)
(** The NetFlow v9 decoder, [src/netflow/v9/decoder.go].

    The structure follows the source as the IPFIX decoder's does, with the differences
    of this code: the template [unmarshal] methods fill a record that is used even when
    they fail ([msg.TemplaRecord]), so they run over a pair of reader and record; the
    error of a template set is not lost; the lengths are compared as [int]. *)

From S2P Require Import Prelude GoNet InfoModel Interpret TemplateCache Reader.

(** ** Data *)

Record PacketHeader : Type := mkPacketHeader {
  ph_Version : Z; ph_Count : Z; ph_SysUpTime : Z; ph_UNIXSecs : Z; ph_SeqNum : Z; ph_SrcID : Z
}.

Record SetHeader : Type := mkSetHeader { sh_FlowSetID : Z; sh_Length : Z }.

Record TemplateHeader : Type := mkTemplateHeader {
  th_TemplateID : Z; th_FieldCount : Z; th_OptionLen : Z; th_OptionScopeLen : Z
}.

Record TemplateFieldSpecifier : Type := mkFieldSpecifier { fs_ElementID : Z; fs_Length : Z }.

Record TemplateRecord : Type := mkTemplateRecord {
  tr_TemplateID : Z;
  tr_FieldCount : Z;
  tr_FieldSpecifiers : list TemplateFieldSpecifier;
  tr_ScopeFieldCount : Z;
  tr_ScopeFieldSpecifiers : list TemplateFieldSpecifier
}.

Record DecodedField : Type := mkDecodedField { df_ID : Z; df_Value : Value }.

Record Message : Type := mkMessage {
  msg_AgentID : string;
  msg_Header : PacketHeader;
  msg_TemplaRecord : TemplateRecord;
  msg_SetHeaders : list SetHeader;
  msg_DataSets : list (list DecodedField)
}.

Definition zeroHeader : PacketHeader := mkPacketHeader 0 0 0 0 0 0.
Definition zeroTemplateRecord : TemplateRecord := mkTemplateRecord 0 0 [] 0 [].
Definition zeroMessage : Message := mkMessage EmptyString zeroHeader zeroTemplateRecord [] [].

(** ** The template cache *)

(** [src/netflow/v9/memcache.go]: the cache of TemplateCache.v at this package's templates. *)
Definition v9_GetCache : option (memCacheDisk TemplateRecord) -> MemCache TemplateRecord := GetCache.
Definition v9_getShard (id : Z) (addr : list byte) :
  M (MemCache TemplateRecord) (Z * TemplatesShard TemplateRecord * Z) := getShard id addr.
Definition v9_insert (id : Z) (addr : list byte) (tr : TemplateRecord) (now : Z) :
  M (MemCache TemplateRecord) () := MemCache_insert id addr tr now.
Definition v9_retrieve (id : Z) (addr : list byte) : M (MemCache TemplateRecord) (option TemplateRecord) :=
  MemCache_retrieve id addr.
Definition v9_Dump : MemCache TemplateRecord -> memCacheDisk TemplateRecord := Dump.

(** ** Headers and templates *)

Definition PacketHeader_unmarshal : M Reader PacketHeader :=
  version ← Uint16;
  count ← Uint16;
  sysUpTime ← Uint32;
  unixSecs ← Uint32;
  seqNum ← Uint32;
  srcID ← Uint32;
  mret (mkPacketHeader version count sysUpTime unixSecs seqNum srcID).

Definition PacketHeader_validate {S} (h : PacketHeader) : M S () :=
  if negb (ph_Version h =? 9) then fail None (errNetflowVersion (ph_Version h)) else mret tt.

Definition SetHeader_unmarshal : M Reader SetHeader :=
  flowSetID ← Uint16;
  length ← Uint16;
  mret (mkSetHeader flowSetID length).

Definition TemplateHeader_unmarshal : M Reader TemplateHeader :=
  templateID ← Uint16;
  fieldCount ← Uint16;
  mret (mkTemplateHeader templateID fieldCount 0 0).

Definition TemplateHeader_unmarshalOpts : M Reader TemplateHeader :=
  templateID ← Uint16;
  optionScopeLen ← Uint16;
  optionLen ← Uint16;
  mret (mkTemplateHeader templateID 0 optionLen optionScopeLen).

Definition TemplateFieldSpecifier_unmarshal : M Reader TemplateFieldSpecifier :=
  elementID ← Uint16;
  length ← Uint16;
  mret (mkFieldSpecifier elementID length).

(** A [TemplateRecord] being filled from a reader. *)
Abbreviation TR := (Reader * TemplateRecord)%type.

Definition tr_read {A} (m : M Reader A) : M TR A := zoom fst (fun r s => (r, s.2)) m.
Definition tr_set (f : TemplateRecord -> TemplateRecord) : M TR () :=
  modify (fun s => (s.1, f s.2)).

Definition set_fields (l : list TemplateFieldSpecifier) (tr : TemplateRecord) : TemplateRecord :=
  mkTemplateRecord (tr_TemplateID tr) (tr_FieldCount tr) l (tr_ScopeFieldCount tr)
    (tr_ScopeFieldSpecifiers tr).
Definition set_scope (l : list TemplateFieldSpecifier) (tr : TemplateRecord) : TemplateRecord :=
  mkTemplateRecord (tr_TemplateID tr) (tr_FieldCount tr) (tr_FieldSpecifiers tr)
    (tr_ScopeFieldCount tr) l.

(** [for i := n; i > 0; i-- { tf.unmarshal; tr.FieldSpecifiers = append(...) }]. *)
Fixpoint unmarshal_fields (n : nat) : M TR () :=
  match n with
  | O => mret tt
  | S n' =>
      tf ← tr_read TemplateFieldSpecifier_unmarshal;
      tr_set (fun tr => set_fields (tr_FieldSpecifiers tr ++ [tf]) tr);;
      unmarshal_fields n'
  end.

(** The scope loop: [tr.ScopeFieldSpecifiers = append(tr.FieldSpecifiers, tf)]. *)
Fixpoint unmarshal_scope (n : nat) : M TR () :=
  match n with
  | O => mret tt
  | S n' =>
      tf ← tr_read TemplateFieldSpecifier_unmarshal;
      tr_set (fun tr => set_scope (tr_FieldSpecifiers tr ++ [tf]) tr);;
      unmarshal_scope n'
  end.

Definition TemplateRecord_unmarshal : M TR () :=
  th ← tr_read TemplateHeader_unmarshal;
  tr_set (fun tr => mkTemplateRecord (th_TemplateID th) (th_FieldCount th)
    (tr_FieldSpecifiers tr) (tr_ScopeFieldCount tr) (tr_ScopeFieldSpecifiers tr));;
  unmarshal_fields (Z.to_nat (th_FieldCount th)).

Definition TemplateRecord_unmarshalOpts : M TR () :=
  th ← tr_read TemplateHeader_unmarshalOpts;
  tr_set (fun tr => mkTemplateRecord (th_TemplateID th) (tr_FieldCount tr)
    (tr_FieldSpecifiers tr) (tr_ScopeFieldCount tr) (tr_ScopeFieldSpecifiers tr));;
  unmarshal_scope (Z.to_nat (th_OptionScopeLen th / 4));;
  unmarshal_fields (Z.to_nat (th_OptionLen th / 4)).

Section decoder.
Context (im : IANAInfoModel).

(** ** Data records *)

(** The body shared by the two loops of [decodeData]. *)
Fixpoint decode_specs (elementErr : Z -> GoError) (specs : list TemplateFieldSpecifier)
    (fields : list DecodedField) : M Reader (list DecodedField) :=
  match specs with
  | [] => mret fields
  | f :: specs' =>
      b ← Read (fs_Length f);
      match im !! mkElementKey 0 (fs_ElementID f) with
      | None => fail None (elementErr (fs_ElementID f))
      | Some m =>
          v ← Interpret b (Type_ m);
          decode_specs elementErr specs' (fields ++ [mkDecodedField (FieldID m) v])
      end
  end.

Definition decodeData (tr : TemplateRecord) : M Reader (list DecodedField) :=
  fields ← decode_specs errNetflowElement (tr_FieldSpecifiers tr) [];
  decode_specs errNetflowElementScope (tr_ScopeFieldSpecifiers tr) fields.

(** ** Sets and packets *)

Context {MC : Type} `{!StoreOps TemplateRecord MC}.
Context (raddr : list byte).
(** The [n]-th reading of [time.Now().Unix()]. *)
Context (unix_now : nat -> Z).

Record DecState : Type := mkDecState {
  st_reader : Reader; st_mem : MC; st_msg : Message; st_clock : nat
}.

Definition set_reader (r : Reader) (s : DecState) : DecState :=
  mkDecState r (st_mem s) (st_msg s) (st_clock s).
Definition set_mem (m : MC) (s : DecState) : DecState :=
  mkDecState (st_reader s) m (st_msg s) (st_clock s).
Definition set_msg (m : Message) (s : DecState) : DecState :=
  mkDecState (st_reader s) (st_mem s) m (st_clock s).

Definition on_reader {A} (m : M Reader A) : M DecState A := zoom st_reader set_reader m.
Definition on_mem {A} (m : M MC A) : M DecState A := zoom st_mem set_mem m.

(** [tr := TemplateRecord{}; err = m(tr)]: the record as [m] leaves it, and the error. *)
Definition new_template (m : M TR ()) : M DecState (TemplateRecord * option GoError) := fun s =>
  match m (st_reader s, zeroTemplateRecord) with
  | ((r, tr), Ok _) => (set_reader r s, Ok (tr, None))
  | ((r, tr), Err _ e) => (set_reader r s, Ok (tr, Some e))
  | ((r, tr), Panic) => (set_reader r s, Panic)
  | ((r, tr), NoFuel) => (set_reader r s, NoFuel)
  end.

Definition time_now : M DecState Z := fun s =>
  (mkDecState (st_reader s) (st_mem s) (st_msg s) (S (st_clock s)), Ok (unix_now (st_clock s))).

(** [msg.TemplaRecord = tr]. *)
Definition set_TemplaRecord (tr : TemplateRecord) : M DecState () := modify (fun s =>
  let m := st_msg s in
  set_msg (mkMessage (msg_AgentID m) (msg_Header m) tr (msg_SetHeaders m) (msg_DataSets m)) s).

(** The two [append]s of a decoded record. *)
Definition append_DataSets (setHeader : SetHeader) (data : list DecodedField) : M DecState () :=
  modify (fun s =>
    let m := st_msg s in
    set_msg (mkMessage (msg_AgentID m) (msg_Header m) (msg_TemplaRecord m)
               (msg_SetHeaders m ++ [setHeader]) (msg_DataSets m ++ [data])) s).

(** The record loop of [decodeSet]; the result is the variable [err] when it ends. *)
Fixpoint decodeSet_loop (fuel : nat) (startCount : Z) (setHeader : SetHeader)
    (tr : TemplateRecord) : M DecState (option GoError) :=
  match fuel with
  | O => nofuel
  | S fuel' =>
      s ← get;
      if (sh_Length setHeader - (ReadCount (st_reader s) - startCount) >? 4)
         && (Len (st_reader s) >? 4)
      then
        let setId := sh_FlowSetID setHeader in
        if (setId =? 0) || (setId =? 1) then
          '(tr', err) ← new_template (if setId =? 0 then TemplateRecord_unmarshal
                                      else TemplateRecord_unmarshalOpts);
          (match err with
           | None =>
               now ← time_now;
               on_mem (ts_insert (tr_TemplateID tr') raddr tr' now)
           | Some _ => mret tt
           end);;
          set_TemplaRecord tr';;
          match err with
          | None => decodeSet_loop fuel' startCount setHeader tr
          | Some e => mret (Some e)
          end
        else if (setId >=? 4) && (setId <=? 255) then mret None
        else
          data ← try (on_reader (decodeData tr));
          match data with
          | inl d =>
              append_DataSets setHeader d;;
              decodeSet_loop fuel' startCount setHeader tr
          | inr err => mret (Some err)
          end
      else mret None
  end.

(** The template of a data set, the zero template for the other sets. *)
Definition decodeSet_template (setHeader : SetHeader) :
    M DecState (TemplateRecord * option GoError) :=
  if sh_FlowSetID setHeader >? 255 then
    o ← on_mem (ts_retrieve (sh_FlowSetID setHeader) raddr);
    match o with
    | Some tr => mret (tr, None)
    | None =>
        mret (zeroTemplateRecord,
              Some (errNetflowUnknownTemplate (IP_String raddr) (sh_FlowSetID setHeader)))
    end
  else mret (zeroTemplateRecord, None).

Definition decodeSet_skip (startCount : Z) (setHeader : SetHeader) (err : option GoError) :
    M DecState () :=
  s ← get;
  let leftoverBytes := sh_Length setHeader - (ReadCount (st_reader s) - startCount) in
  err ← (if leftoverBytes >? 0 then
           skip ← try (on_reader (Read leftoverBytes));
           mret (match skip with inl _ => err | inr skipErr => Some skipErr end)
         else mret err);
  match err with
  | Some e => fail None e
  | None => mret tt
  end.

(** [decodeSet] once the set header is read. *)
Definition decodeSet_body (fuel : nat) (startCount : Z) (setHeader : SetHeader) :
    M DecState () :=
  if sh_Length setHeader <? 4 then fail None ErrUnexpectedEOF
  else
    '(tr, err) ← decodeSet_template setHeader;
    err ← (match err with
           | Some e => mret (Some e)
           | None => decodeSet_loop fuel startCount setHeader tr
           end);
    decodeSet_skip startCount setHeader err.

Definition decodeSet (fuel : nat) : M DecState () :=
  s ← get;
  let startCount := ReadCount (st_reader s) in
  setHeader ← on_reader SetHeader_unmarshal;
  decodeSet_body fuel startCount setHeader.

(** [err.(type)] against [type nonfatalError error], an interface every error
    implements. *)
Definition is_nonfatalError (e : GoError) : bool := true.

(** The set loop of [Decode]; the result is [decodeErrors]. *)
Fixpoint Decode_loop (fuel set_fuel : nat) (decodeErrors : list GoError) :
    M DecState (list GoError) :=
  match fuel with
  | O => nofuel
  | S fuel' =>
      s ← get;
      if Len (st_reader s) >? 4 then
        r ← try (decodeSet set_fuel);
        match r with
        | inl _ => Decode_loop fuel' set_fuel decodeErrors
        | inr err =>
            if is_nonfatalError err
            then Decode_loop fuel' set_fuel (decodeErrors ++ [err])
            else fail None err
        end
      else mret decodeErrors
  end.

Definition combineErrors (errorSlice : list GoError) : option GoError :=
  match errorSlice with
  | [] => None
  | [e] => Some e
  | _ => Some (errMultiple errorSlice)
  end.

Definition Decode (fuel : nat) : M DecState Message :=
  header ← on_reader PacketHeader_unmarshal;
  PacketHeader_validate header;;
  modify (set_msg (mkMessage (IP_String raddr) header zeroTemplateRecord [] []));;
  decodeErrors ← Decode_loop fuel fuel [];
  s ← get;
  match combineErrors decodeErrors with
  | None => mret (st_msg s)
  | Some e => fail (Some (st_msg s)) e
  end.

Definition NewDecoder (b : list byte) (mem : MC) (clock : nat) : DecState :=
  mkDecState (NewReader b) mem zeroMessage clock.

End decoder.
