(* ===== verification/NetflowFacts.v ===== *)
(** Facts about the NetFlow v9 decoder: what its reading code keeps, that it never
    panics, when its record loop terminates, and the outcome of [Decode]. *)

From S2P Require Import Prelude GoNet InfoModel Interpret TemplateCache Reader NetflowDecoder.

Definition spec_wf (f : TemplateFieldSpecifier) : Prop := 0 <= fs_Length f < 65536.

Definition tr_wf (tr : TemplateRecord) : Prop :=
  Forall spec_wf (tr_FieldSpecifiers tr) /\ Forall spec_wf (tr_ScopeFieldSpecifiers tr).

(** The bytes one record of a template takes. *)
Definition specs_width (l : list TemplateFieldSpecifier) : Z :=
  foldr (fun f acc => fs_Length f + acc) 0 l.

Definition record_width (tr : TemplateRecord) : Z :=
  specs_width (tr_FieldSpecifiers tr) + specs_width (tr_ScopeFieldSpecifiers tr).

Lemma v9_tr_wf_zero : tr_wf zeroTemplateRecord.
Proof. by split. Qed.

Lemma v9_specs_width_nonneg l : Forall spec_wf l -> 0 <= specs_width l.
Proof. induction 1 as [|f l Hf Hl IH]; simpl; [lia|]. unfold spec_wf in Hf. lia. Qed.

(** ** Reading headers and templates *)

Lemma v9_reads_TemplateFieldSpecifier : reads spec_wf TemplateFieldSpecifier_unmarshal.
Proof. unfold TemplateFieldSpecifier_unmarshal. do 2 reads_step. by apply reads_ret. Qed.

Lemma v9_reads_SetHeader :
  reads (fun h => 0 <= sh_FlowSetID h < 65536 /\ 0 <= sh_Length h < 65536) SetHeader_unmarshal.
Proof. unfold SetHeader_unmarshal. do 2 reads_step. by apply reads_ret. Qed.

Lemma v9_reads_PacketHeader : reads (fun _ => True) PacketHeader_unmarshal.
Proof. unfold PacketHeader_unmarshal. do 6 reads_step. by apply reads_ret. Qed.

(** Code that fills a template: the reader moves forward, the record stays
    well-formed, also when it fails, and it returns. *)
Definition fills {A} (Q : A -> Prop) (m : M TR A) : Prop := forall s,
  tr_wf s.2 -> adv s.1 (m s).1.1 /\ tr_wf (m s).1.2 /\ returns (m s).2 /\
    match (m s).2 with Ok a => Q a | _ => True end.

Lemma fills_ret {A} (Q : A -> Prop) a : Q a -> fills Q (mret a).
Proof. intros Ha s Hs. by split; [reflexivity|]. Qed.

Lemma fills_bind {A B} (Q : A -> Prop) (Q' : B -> Prop) (m : M TR A) (k : A -> M TR B) :
  fills Q m -> (forall a, Q a -> fills Q' (k a)) -> fills Q' (m ≫= k).
Proof.
  intros Hm Hk s Hs. unmonad. destruct (Hm s Hs) as (H1 & H2 & H3 & H4).
  destruct (m s) as [s' []]; simpl in *; try done.
  destruct (Hk a H4 s' H2) as (H5 & H6). split; [by etransitivity|done].
Qed.

Lemma fills_read {A} (Q : A -> Prop) (m : M Reader A) : reads Q m -> fills Q (tr_read m).
Proof.
  intros Hm s Hs. unfold tr_read, zoom. destruct (Hm s.1) as (H1 & H2 & H3).
  by destruct (m s.1) as [r' []].
Qed.

Lemma fills_set f : (forall tr, tr_wf tr -> tr_wf (f tr)) -> fills (fun _ => True) (tr_set f).
Proof. intros Hf s Hs. unfold tr_set, modify. simpl. split; [reflexivity|]. by split; [apply Hf|]. Qed.

Lemma fills_fields n : fills (fun _ => True) (unmarshal_fields n).
Proof.
  induction n as [|n IH]; cbn [unmarshal_fields]; [by apply fills_ret|].
  eapply fills_bind; [apply fills_read, v9_reads_TemplateFieldSpecifier|]. intros tf Htf.
  eapply fills_bind; [|by intros]. apply fills_set. intros tr [H1 H2].
  split; [|done]. simpl. apply Forall_app; auto.
Qed.

Lemma fills_scope n : fills (fun _ => True) (unmarshal_scope n).
Proof.
  induction n as [|n IH]; cbn [unmarshal_scope]; [by apply fills_ret|].
  eapply fills_bind; [apply fills_read, v9_reads_TemplateFieldSpecifier|]. intros tf Htf.
  eapply fills_bind; [|by intros]. apply fills_set. intros tr [H1 H2].
  split; [done|]. simpl. apply Forall_app; auto.
Qed.

Lemma fills_TemplateRecord_unmarshal : fills (fun _ => True) TemplateRecord_unmarshal.
Proof.
  eapply fills_bind with (Q := fun _ => True).
  - apply fills_read. unfold TemplateHeader_unmarshal. do 2 reads_step. by apply reads_ret.
  - intros th _. eapply fills_bind; [by apply fills_set|]. intros. apply fills_fields.
Qed.

Lemma fills_TemplateRecord_unmarshalOpts : fills (fun _ => True) TemplateRecord_unmarshalOpts.
Proof.
  eapply fills_bind with (Q := fun _ => True).
  - apply fills_read. unfold TemplateHeader_unmarshalOpts. do 3 reads_step. by apply reads_ret.
  - intros th _. eapply fills_bind; [by apply fills_set|]. intros.
    eapply fills_bind; [apply fills_scope|]. intros. apply fills_fields.
Qed.

(** Both consume their first two integers. *)
Lemma fills_consumes {A B} (Q : B -> Prop) (m : M Reader A) (k : A -> M TR B) r :
  consumes 4 m -> (forall a, fills Q (k a)) -> reads (fun _ => True) m -> 4 <= len (data r) ->
  count r + 4 <= count ((tr_read m ≫= k) (r, zeroTemplateRecord)).1.1.
Proof.
  intros Hm Hk Hr Hl. specialize (Hm r Hl). unfold mbind, M_bind, tr_read, zoom. cbn [fst snd].
  destruct (m r) as [r' []]; simpl in *; try done.
  destruct (Hk a (r', zeroTemplateRecord) v9_tr_wf_zero) as [Ha _]. apply adv_count in Ha.
  simpl in Ha. lia.
Qed.

Lemma unmarshal_consumes4 (b : bool) r :
  4 <= len (data r) ->
  count r + 4 <= count ((if b then TemplateRecord_unmarshal else TemplateRecord_unmarshalOpts)
                          (r, zeroTemplateRecord)).1.1.
Proof.
  intros Hl. destruct b; apply fills_consumes with (Q := fun _ => True); try done.
  - apply (consumes_Uint16 2); [lia|]. intros. apply (consumes_Uint16 0); [lia|]. intros.
    by eapply consumes_0, (reads_ret (fun _ => True)).
  - intros th. eapply fills_bind; [by apply fills_set|]. intros. apply fills_fields.
  - unfold TemplateHeader_unmarshal. do 2 reads_step. by apply reads_ret.
  - apply (consumes_Uint16 2); [lia|]. intros. apply (consumes_Uint16 0); [lia|]. intros.
    eapply consumes_0 with (Q := fun _ => True). reads_step. by apply reads_ret.
  - intros th. eapply fills_bind; [by apply fills_set|]. intros.
    eapply fills_bind; [apply fills_scope|]. intros. apply fills_fields.
  - unfold TemplateHeader_unmarshalOpts. do 3 reads_step. by apply reads_ret.
Qed.

(** ** Data records *)

Section data.
Context (im : IANAInfoModel).

(** All elements of the template are in the information model. *)
Definition spec_known (f : TemplateFieldSpecifier) : Prop :=
  is_Some (im !! mkElementKey 0 (fs_ElementID f)).

Definition tr_known (tr : TemplateRecord) : Prop :=
  Forall spec_known (tr_FieldSpecifiers tr) /\ Forall spec_known (tr_ScopeFieldSpecifiers tr).

Lemma v9_reads_decode_specs err specs acc :
  Forall spec_wf specs -> reads (fun _ => True) (decode_specs im err specs acc).
Proof.
  revert acc. induction specs as [|f specs IH]; intros acc Hs; simpl; [by apply reads_ret|].
  apply Forall_cons in Hs as [Hf Hs].
  eapply reads_bind; [apply reads_Read; apply Hf|]. intros b Hb.
  case_match; [|apply reads_fail]. intros r. unfold mbind, M_bind. rewrite Interpret_eq.
  by apply IH.
Qed.

Lemma v9_reads_decodeData tr : tr_wf tr -> reads (fun _ => True) (decodeData im tr).
Proof.
  intros [H1 H2]. unfold decodeData.
  eapply reads_bind; [by apply v9_reads_decode_specs|]. intros.
  by apply v9_reads_decode_specs.
Qed.

(** A record that decodes has consumed exactly the template's width, and its elements
    are known. *)
Lemma v9_decode_specs_width err specs acc r r' d :
  Forall spec_wf specs -> decode_specs im err specs acc r = (r', Ok d) ->
  count r' = count r + specs_width specs /\ Forall spec_known specs.
Proof.
  revert acc r. induction specs as [|f specs IH]; intros acc r Hs H; simpl in *.
  - inversion H; subst. split; [lia|done].
  - apply Forall_cons in Hs as [Hf Hs]. unfold spec_wf in Hf.
    unfold mbind, M_bind in H. rewrite Read_eq in H by lia.
    destruct (len (data r) <? fs_Length f); [done|].
    destruct (im !! _) as [m|] eqn:Em; [|done]. rewrite Interpret_eq in H.
    apply IH in H as [H1 H2]; [|done]. simpl in H1. split; [lia|].
    constructor; [by exists m|done].
Qed.

Lemma v9_decodeData_width tr r r' d :
  tr_wf tr -> decodeData im tr r = (r', Ok d) ->
  count r' = count r + record_width tr /\ tr_known tr.
Proof.
  intros [H1 H2] H. unfold decodeData, mbind, M_bind in H.
  destruct (decode_specs im _ _ [] r) as [r1 []] eqn:E; try done.
  apply v9_decode_specs_width in E as [E1 E2]; [|done].
  apply v9_decode_specs_width in H as [H3 H4]; [|done].
  unfold record_width. split; [lia|done].
Qed.

(** A template of width zero whose elements are known decodes without consuming. *)
Lemma v9_decode_specs_zero err specs acc r :
  Forall spec_wf specs -> Forall spec_known specs -> specs_width specs = 0 ->
  exists d, decode_specs im err specs acc r = (r, Ok d).
Proof.
  revert acc. induction specs as [|f specs IH]; intros acc Hs Hk Hw; simpl in *; [by eexists|].
  apply Forall_cons in Hs as [Hf Hs]. apply Forall_cons in Hk as [[m Hm] Hk].
  pose proof (v9_specs_width_nonneg specs Hs). unfold spec_wf in Hf.
  unmonad. rewrite Read_eq by lia. replace (fs_Length f) with 0 by lia.
  pose proof (len_nonneg (data r)). case_test; [lia|]. simpl. rewrite Hm, Interpret_eq.
  rewrite drop_0, Z.add_0_r. destruct r as [dat c]. simpl. apply IH; done || lia.
Qed.

Lemma v9_decodeData_zero tr r :
  tr_wf tr -> tr_known tr -> record_width tr = 0 -> exists d, decodeData im tr r = (r, Ok d).
Proof.
  intros [H1 H2] [H3 H4] Hw. unfold decodeData, record_width in *.
  pose proof (v9_specs_width_nonneg _ H1). pose proof (v9_specs_width_nonneg _ H2).
  unmonad. edestruct v9_decode_specs_zero as [d ->]; [done|done|lia|].
  apply v9_decode_specs_zero; done || lia.
Qed.

End data.

(** ** Sets and packets *)

Section sets.
Context (im : IANAInfoModel) {MC : Type} `{!TemplateStore TemplateRecord MC}.
Context (raddr : list byte) (unix_now : nat -> Z).

(** The cache is well-formed and holds well-formed templates. *)
Definition cache_ok (m : MC) : Prop :=
  ts_wf m /\ forall k t, ts_lookup m k = Some t -> tr_wf t.

(** The invariant of decoding from the state [s0] on. *)
Definition st_inv (s0 s : DecState (MC:=MC)) : Prop :=
  cache_ok (st_mem s) /\ adv (st_reader s0) (st_reader s) /\
  msg_AgentID (st_msg s) = msg_AgentID (st_msg s0) /\
  msg_Header (st_msg s) = msg_Header (st_msg s0) /\
  msg_DataSets (st_msg s0) `prefix_of` msg_DataSets (st_msg s) /\
  (length (msg_SetHeaders (st_msg s0)) = length (msg_DataSets (st_msg s0)) ->
   length (msg_SetHeaders (st_msg s)) = length (msg_DataSets (st_msg s))).

Lemma v9_st_inv_start s : cache_ok (st_mem s) -> st_inv s s.
Proof. intros H. split_and!; done || reflexivity || apply H. Qed.

Context (s0 : DecState (MC:=MC)).
Abbreviation ok := (st_inv s0).

Lemma v9_safe_on_reader {A} (Q : A -> Prop) m : reads Q m -> safe ok Q (on_reader m).
Proof.
  intros Hm s (Hc & Ha & Hg). unfold on_reader, zoom. destruct (Hm (st_reader s)) as (H1 & H2 & H3).
  destruct (m (st_reader s)) as [r' []]; simpl in *; try done;
    (split; [split; [exact Hc|split; [by etransitivity|done]]|done]).
Qed.

Lemma v9_safe_new_template m :
  fills (fun _ => True) m -> safe ok (fun p => tr_wf p.1) (new_template m).
Proof.
  intros Hm s (Hc & Ha & Hg). unfold new_template.
  destruct (Hm (st_reader s, zeroTemplateRecord) v9_tr_wf_zero) as (H1 & H2 & H3 & _).
  destruct (m _) as [[r' tr'] []]; simpl in *; try done;
    (split; [split; [exact Hc|split; [by etransitivity|done]]|done]).
Qed.

Lemma v9_safe_retrieve id :
  safe ok (fun o => forall t, o = Some t -> tr_wf t) (on_mem (ts_retrieve id raddr)).
Proof.
  intros s ([Hw Hc] & Ha). unfold on_mem, zoom. rewrite ts_retrieve_ok by done. simpl.
  split; [done|]. intros t Ht. by eapply Hc.
Qed.

Lemma v9_safe_insert id t now :
  tr_wf t -> safe ok (fun _ => True) (on_mem (ts_insert id raddr t now)).
Proof.
  intros Ht s ([Hw Hc] & Ha). unfold on_mem, zoom.
  destruct (ts_insert_ok (st_mem s) id raddr t now Hw) as (m' & -> & Hw' & Hl). simpl.
  split; [|done]. split; [|done]. split; [done|]. intros k t' Hk. simpl in Hk. rewrite Hl in Hk.
  case_decide; [by simplify_eq|by eapply Hc].
Qed.

Lemma v9_safe_append h d : safe ok (fun _ => True) (append_DataSets h d).
Proof.
  apply safe_modify. intros s (Hc & Ha & H1 & H2 & H3 & H4). split_and!; try done; try apply Hc.
  - by apply prefix_app_r.
  - intros Hs. simpl. rewrite !length_app, H4 by done. done.
Qed.

Lemma v9_safe_loop fuel start h tr :
  tr_wf tr -> safe ok (fun _ => True) (decodeSet_loop im raddr unix_now fuel start h tr).
Proof.
  intros Htr. induction fuel as [|fuel IH]; simpl; [apply safe_nofuel|].
  eapply safe_bind; [apply safe_get|]. intros s _. case_match; [|by apply safe_ret].
  case_match; [|case_match; [by apply safe_ret|]].
  - eapply safe_bind with (Q := fun p => tr_wf p.1).
    { apply v9_safe_new_template. destruct (sh_FlowSetID h =? 0);
        [apply fills_TemplateRecord_unmarshal|apply fills_TemplateRecord_unmarshalOpts]. }
    intros [t err] Ht. eapply safe_bind with (Q := fun _ => True).
    { destruct err; [by apply safe_ret|]. eapply safe_bind with (Q := fun _ => True); [done|].
      intros now _. by apply v9_safe_insert. }
    intros _ _. eapply safe_bind with (Q := fun _ => True).
    { apply safe_modify. by intros. }
    intros _ _. destruct err; [by apply safe_ret|done].
  - eapply safe_bind; [eapply safe_try, v9_safe_on_reader; by apply v9_reads_decodeData|].
    intros [d|e] _; [|by apply safe_ret].
    eapply safe_bind; [apply v9_safe_append|]. by intros.
Qed.

Lemma v9_safe_skip start h err : safe ok (fun _ => True) (decodeSet_skip start h err).
Proof.
  unfold decodeSet_skip. eapply safe_bind; [apply safe_get|]. intros s _.
  eapply safe_bind with (Q := fun _ => True).
  - destruct (Z.gtb_spec (sh_Length h - (ReadCount (st_reader s) - start)) 0);
      [|by apply safe_ret].
    eapply safe_bind; [apply safe_try, v9_safe_on_reader, reads_Read; lia|]. intros.
    by apply safe_ret.
  - intros [e|] _; [apply safe_fail|by apply safe_ret].
Qed.

Lemma v9_safe_template h : safe ok (fun p => tr_wf p.1) (decodeSet_template raddr h).
Proof.
  unfold decodeSet_template. case_match; [|apply safe_ret, v9_tr_wf_zero].
  eapply safe_bind; [apply v9_safe_retrieve|]. intros [t|] Ht.
  - apply safe_ret. by apply Ht.
  - apply safe_ret, v9_tr_wf_zero.
Qed.

Lemma v9_safe_body fuel start h :
  safe ok (fun _ => True) (decodeSet_body im raddr unix_now fuel start h).
Proof.
  unfold decodeSet_body. case_match; [apply safe_fail|].
  eapply safe_bind; [apply v9_safe_template|]. intros [tr err] Htr. simpl in Htr.
  eapply safe_bind with (Q := fun _ => True); [|intros; apply v9_safe_skip].
  destruct err; [by apply safe_ret|by apply v9_safe_loop].
Qed.

Lemma v9_safe_decodeSet fuel : safe ok (fun _ => True) (decodeSet im raddr unix_now fuel).
Proof.
  unfold decodeSet. eapply safe_bind; [apply safe_get|]. intros s _.
  eapply safe_bind; [apply v9_safe_on_reader, v9_reads_SetHeader|]. intros h _.
  apply v9_safe_body.
Qed.

Lemma v9_safe_Decode_loop fuel sf errs :
  safe ok (fun _ => True) (Decode_loop im raddr unix_now fuel sf errs).
Proof.
  revert errs. induction fuel as [|fuel IH]; intros errs; simpl; [apply safe_nofuel|].
  eapply safe_bind; [apply safe_get|]. intros s _. case_match; [|by apply safe_ret].
  eapply safe_bind; [apply safe_try, v9_safe_decodeSet|]. intros [?|e] _; apply IH.
Qed.

End sets.

(** ** The outcome of [Decode] *)

Section outcome.
Context (im : IANAInfoModel) {MC : Type} `{!TemplateStore TemplateRecord MC}.
Context (raddr : list byte) (unix_now : nat -> Z).
Abbreviation St := (DecState (MC:=MC)).

(** The packet header in the first 20 bytes. *)
Definition header_of (b : list byte) : PacketHeader :=
  mkPacketHeader (be_decode (take 2 b)) (be_decode (take 2 (drop 2 b)))
    (be_decode (take 4 (drop 4 b))) (be_decode (take 4 (drop 8 b)))
    (be_decode (take 4 (drop 12 b))) (be_decode (take 4 (drop 16 b))).

Lemma PacketHeader_unmarshal_Uints r :
  PacketHeader_unmarshal r =
    (zs ← Uints [W16; W16; W32; W32; W32; W32];
     mret (match zs with
           | [v; c; t; u; s; i] => mkPacketHeader v c t u s i
           | _ => zeroHeader
           end)) r.
Proof.
  unfold PacketHeader_unmarshal. cbn [Uints Uint]. unmonad.
  repeat (match goal with |- context [match ?m ?x with (_, _) => _ end] =>
    destruct (m x) as [? []]; try done end).
Qed.

Lemma PacketHeader_unmarshal_ok r :
  20 <= len (data r) ->
  PacketHeader_unmarshal r = (mkReader (drop 20 (data r)) (count r + 20), Ok (header_of (data r))).
Proof.
  intros Hr. rewrite PacketHeader_unmarshal_Uints. unmonad.
  rewrite Uints_ok by (unfold len in Hr; simpl; lia). simpl. by rewrite !drop_drop.
Qed.

Lemma PacketHeader_unmarshal_short r :
  len (data r) < 20 -> exists r', PacketHeader_unmarshal r = (r', Err None errReader).
Proof.
  intros Hr. rewrite PacketHeader_unmarshal_Uints. unmonad.
  destruct (Uints_short [W16; W16; W32; W32; W32; W32] r) as [r' ->];
    [unfold len in Hr; simpl; lia|]. by eexists.
Qed.

(** The state in which the set loop starts. *)
Definition Decode_start (s : St) : St :=
  mkDecState (mkReader (drop 20 (data (st_reader s))) (count (st_reader s) + 20)) (st_mem s)
    (mkMessage (IP_String raddr) (header_of (data (st_reader s))) zeroTemplateRecord [] [])
    (st_clock s).

Lemma v9_Decode_eq fuel (s : St) :
  20 <= len (data (st_reader s)) -> ph_Version (header_of (data (st_reader s))) = 9 ->
  Decode im raddr unix_now fuel s =
    match Decode_loop im raddr unix_now fuel fuel [] (Decode_start s) with
    | (s', Ok errs) =>
        match combineErrors errs with
        | None => (s', Ok (st_msg s'))
        | Some e => (s', Err (Some (st_msg s')) e)
        end
    | (s', Err _ e) => (s', Err None e)
    | (s', Panic) => (s', Panic)
    | (s', NoFuel) => (s', NoFuel)
    end.
Proof.
  intros Hl Hv. unfold Decode. unmonad. unfold on_reader, zoom.
  rewrite PacketHeader_unmarshal_ok by done. unfold PacketHeader_validate.
  rewrite Hv. simpl. change (set_msg _ _) with (Decode_start s).
  destruct (Decode_loop im raddr unix_now fuel fuel [] (Decode_start s)) as [s' []]; try done.
  by destruct (combineErrors a).
Qed.

Lemma v9_Decode_loop_no_error n fuel errs s :
  cache_ok (st_mem s) ->
  match (Decode_loop im raddr unix_now n fuel errs s).2 with
  | Ok _ | NoFuel => True
  | _ => False
  end.
Proof.
  revert errs s. induction n as [|n IH]; intros errs s Hc; [done|]. cbn [Decode_loop].
  unmonad. cbn beta iota. destruct (Len (st_reader s) >? 4); [|done].
  destruct (v9_safe_decodeSet im raddr unix_now s fuel s (v9_st_inv_start s Hc)) as [[Hc' _] Hp].
  destruct (decodeSet im raddr unix_now fuel s) as [s' [[]|v e| |]]; simpl in *; try done;
    by apply IH.
Qed.

Lemma v9_Decode_safe fuel b mem c :
  cache_ok mem ->
  let out := Decode im raddr unix_now fuel (NewDecoder b mem c) in
  cache_ok (st_mem out.1) /\ out.2 <> Panic.
Proof.
  intros Hc. cbn zeta. destruct (Z.lt_ge_cases (len b) 20) as [Hl|Hl].
  { destruct (PacketHeader_unmarshal_short (NewReader b)) as [r' Hh]; [done|].
    unfold Decode. unmonad. unfold on_reader, zoom. simpl. by rewrite Hh. }
  destruct (Z.eqb_spec (be_decode (take 2 b)) 9) as [Hv|Hv].
  2: { unfold Decode. unmonad. unfold on_reader, zoom. simpl.
       rewrite PacketHeader_unmarshal_ok by done. unfold PacketHeader_validate. simpl.
       apply Z.eqb_neq in Hv. by rewrite Hv. }
  rewrite v9_Decode_eq by done. set (s0 := Decode_start (NewDecoder b mem c)).
  destruct (v9_safe_Decode_loop im raddr unix_now s0 fuel fuel [] s0 (v9_st_inv_start s0 Hc))
    as [(Hc' & _) Hn].
  destruct (Decode_loop im raddr unix_now fuel fuel [] s0) as [s' []]; simpl in *; try done.
  by destruct (combineErrors a).
Qed.

End outcome.
