(* ===== verification/NetflowMessage.v ===== *)
(** The meaning of a NetFlow v9 export packet (RFC 3954), and that [Decode] of
    [src/netflow/v9/decoder.go] implements it.

    [wire_set] and [encode_packet] are the packets an exporter sends, each FlowSet with
    up to four bytes of padding; [sem_sets] says what FlowSets mean to a collector that
    knows the templates [env], without readers, loops or the cache's representation. *)

From S2P Require Import Prelude GoNet InfoModel Interpret TemplateCache Reader NetflowDecoder NetflowFacts.

(** ** Packets on the wire *)

Definition encode_spec (f : TemplateFieldSpecifier) : list byte :=
  be_encode 2 (fs_ElementID f) ++ be_encode 2 (fs_Length f).

Definition encode_specs (l : list TemplateFieldSpecifier) : list byte := concat (map encode_spec l).

Definition encode_template (id : Z) (fields : list TemplateFieldSpecifier) : list byte :=
  be_encode 2 id ++ be_encode 2 (len fields) ++ encode_specs fields.

Definition encode_opts_template (id : Z) (scope fields : list TemplateFieldSpecifier) : list byte :=
  be_encode 2 id ++ be_encode 2 (4 * len scope) ++ be_encode 2 (4 * len fields)
    ++ encode_specs scope ++ encode_specs fields.

(** A template as the exporter announces it. *)
Inductive wire_template : Type :=
| WTemplate (id : Z) (fields : list TemplateFieldSpecifier)
| WOptsTemplate (id : Z) (scope fields : list TemplateFieldSpecifier).

Definition encode_wt (t : wire_template) : list byte :=
  match t with
  | WTemplate id fields => encode_template id fields
  | WOptsTemplate id scope fields => encode_opts_template id scope fields
  end.

(** The record the decoder makes of it: of the scope fields of an options template only
    the last one, and no field counts. *)
Definition template_of (t : wire_template) : TemplateRecord :=
  match t with
  | WTemplate id fields => mkTemplateRecord id (len fields) fields 0 []
  | WOptsTemplate id scope fields =>
      mkTemplateRecord id 0 fields 0 (match last scope with Some f => [f] | None => [] end)
  end.

Inductive wire_set : Type :=
| WTemplates (opts : bool) (ts : list wire_template) (pad : list byte)
| WData (id : Z) (recs : list (list byte)) (pad : list byte)
| WReserved (id : Z) (body : list byte).

Definition set_id (w : wire_set) : Z :=
  match w with
  | WTemplates opts _ _ => if opts then 1 else 0 | WData id _ _ => id | WReserved id _ => id
  end.

Definition set_body (w : wire_set) : list byte :=
  match w with
  | WTemplates _ ts pad => concat (map encode_wt ts) ++ pad
  | WData _ recs pad => concat recs ++ pad
  | WReserved _ body => body
  end.

Definition set_header (w : wire_set) : SetHeader := mkSetHeader (set_id w) (4 + len (set_body w)).

Definition encode_set (w : wire_set) : list byte :=
  be_encode 2 (set_id w) ++ be_encode 2 (4 + len (set_body w)) ++ set_body w.

Definition encode_header (h : PacketHeader) : list byte :=
  be_encode 2 (ph_Version h) ++ be_encode 2 (ph_Count h) ++ be_encode 4 (ph_SysUpTime h)
    ++ be_encode 4 (ph_UNIXSecs h) ++ be_encode 4 (ph_SeqNum h) ++ be_encode 4 (ph_SrcID h).

Definition encode_sets (ws : list wire_set) : list byte := concat (map encode_set ws).

Definition encode_packet (h : PacketHeader) (ws : list wire_set) : list byte :=
  encode_header h ++ encode_sets ws.

(** Well-formed templates of a set of either kind. *)
Definition spec_encodable (f : TemplateFieldSpecifier) : Prop :=
  0 <= fs_ElementID f < 65536 /\ 0 <= fs_Length f < 65536.

Definition wt_wf (opts : bool) (t : wire_template) : Prop :=
  match t with
  | WTemplate id fields =>
      opts = false /\ 0 <= id < 65536 /\ 1 <= len fields < 65536 /\ Forall spec_encodable fields
  | WOptsTemplate id scope fields =>
      opts = true /\ 0 <= id < 65536 /\ 4 * len scope < 65536 /\ 4 * len fields < 65536 /\
      Forall spec_encodable scope /\ Forall spec_encodable fields
  end.

Section semantics.
Context (im : IANAInfoModel) (raddr : list byte).

(** ** The meaning *)

Fixpoint sem_fields (err : Z -> GoError) (specs : list TemplateFieldSpecifier) (b : list byte) :
    list DecodedField + GoError :=
  match specs with
  | [] => inl []
  | f :: specs' =>
      match im !! mkElementKey 0 (fs_ElementID f) with
      | None => inr (err (fs_ElementID f))
      | Some m =>
          match sem_fields err specs' (drop (Z.to_nat (fs_Length f)) b) with
          | inl l =>
              inl (mkDecodedField (FieldID m)
                     (interpret_spec (take (Z.to_nat (fs_Length f)) b) (Type_ m)) :: l)
          | inr e => inr e
          end
      end
  end.

Definition sem_record (tr : TemplateRecord) (rec : list byte) : list DecodedField + GoError :=
  let n := Z.to_nat (specs_width (tr_FieldSpecifiers tr)) in
  match sem_fields errNetflowElement (tr_FieldSpecifiers tr) (take n rec) with
  | inr e => inr e
  | inl l =>
      match sem_fields errNetflowElementScope (tr_ScopeFieldSpecifiers tr) (drop n rec) with
      | inr e => inr e
      | inl l' => inl (l ++ l')
      end
  end.

Fixpoint sem_records (tr : TemplateRecord) (recs : list (list byte)) :
    list (list DecodedField) * option GoError :=
  match recs with
  | [] => ([], None)
  | rec :: recs' =>
      match sem_record tr rec with
      | inr e => ([], Some e)
      | inl d => let '(ds, e) := sem_records tr recs' in (d :: ds, e)
      end
  end.

(** The templates known, the last template announced in this packet, the records with
    the headers of their sets, and the errors. *)
Record sem_state : Type := mkSem {
  sem_env : gmap Z TemplateRecord;
  sem_last : TemplateRecord;
  sem_headers : list SetHeader;
  sem_data : list (list DecodedField);
  sem_errs : list GoError
}.

Definition announce (trs : list TemplateRecord) (env : gmap Z TemplateRecord) :
    gmap Z TemplateRecord :=
  fold_left (fun env tr => <[cache_key (tr_TemplateID tr) raddr := tr]> env) trs env.

Definition opt_list {A} (o : option A) : list A :=
  match o with Some x => [x] | None => [] end.

Definition sem_set (w : wire_set) (s : sem_state) : sem_state :=
  match w with
  | WTemplates _ ts _ =>
      mkSem (announce (map template_of ts) (sem_env s))
        (default (sem_last s) (last (map template_of ts)))
        (sem_headers s) (sem_data s) (sem_errs s)
  | WReserved _ _ => s
  | WData id recs _ =>
      match sem_env s !! cache_key id raddr with
      | None =>
          mkSem (sem_env s) (sem_last s) (sem_headers s) (sem_data s)
            (sem_errs s ++ [errNetflowUnknownTemplate (IP_String raddr) id])
      | Some tr =>
          let '(ds, e) := sem_records tr recs in
          mkSem (sem_env s) (sem_last s)
            (sem_headers s ++ replicate (length ds) (set_header w))
            (sem_data s ++ ds) (sem_errs s ++ opt_list e)
      end
  end.

Definition sem_sets (ws : list wire_set) (s : sem_state) : sem_state :=
  fold_left (fun s w => sem_set w s) ws s.

(** Well-formed FlowSets: at most four bytes of padding, whole records of more than
    four bytes, something in every set. *)
Definition set_wf (env : gmap Z TemplateRecord) (w : wire_set) : Prop :=
  4 < 4 + len (set_body w) < 65536 /\
  match w with
  | WTemplates opts ts pad => len pad <= 4 /\ Forall (wt_wf opts) ts
  | WData id recs pad =>
      255 < id < 65536 /\ len pad <= 4 /\
      forall tr, env !! cache_key id raddr = Some tr ->
        4 < record_width tr /\ Forall (fun rec => len rec = record_width tr) recs
  | WReserved id _ => 4 <= id <= 255
  end.

Fixpoint sets_wf (ws : list wire_set) (s : sem_state) : Prop :=
  match ws with
  | [] => True
  | w :: ws' => set_wf (sem_env s) w /\ sets_wf ws' (sem_set w s)
  end.

Definition header_wf (h : PacketHeader) : Prop :=
  ph_Version h = 9 /\ 0 <= ph_Count h < 65536 /\ 0 <= ph_SysUpTime h < 4294967296 /\
  0 <= ph_UNIXSecs h < 4294967296 /\ 0 <= ph_SeqNum h < 4294967296 /\
  0 <= ph_SrcID h < 4294967296.

End semantics.

(** ** Templates *)

Lemma v9_spec_unmarshal_encode f rest c :
  spec_encodable f ->
  TemplateFieldSpecifier_unmarshal (mkReader (encode_spec f ++ rest) c) =
    (mkReader rest (c + 4), Ok f).
Proof.
  intros [He Hl]. unfold TemplateFieldSpecifier_unmarshal, encode_spec. rewrite <- app_assoc.
  unmonad. do 2 rewrite Uint16_encode by done. destruct f. do 2 f_equal. lia.
Qed.

Lemma v9_len_encode_specs l : len (encode_specs l) = 4 * len l.
Proof.
  unfold encode_specs. induction l as [|f l IH]; [done|]. cbn [map concat].
  rewrite len_app, len_cons, IH. unfold encode_spec. autorewrite with len. lia.
Qed.

Lemma v9_unmarshal_fields_encode l tr rest c :
  Forall spec_encodable l ->
  unmarshal_fields (length l) (mkReader (encode_specs l ++ rest) c, tr) =
    ((mkReader rest (c + len (encode_specs l)), set_fields (tr_FieldSpecifiers tr ++ l) tr), Ok tt).
Proof.
  intros Hl. revert tr c. induction Hl as [|f l Hf Hl IH]; intros tr c.
  - simpl. rewrite Z.add_0_r, app_nil_r. by destruct tr.
  - cbn [length unmarshal_fields]. rewrite v9_len_encode_specs in *. rewrite len_cons.
    unfold encode_specs in *. cbn [map concat]. unfold tr_read, tr_set. unmonad. cbn [fst snd].
    rewrite <- app_assoc, v9_spec_unmarshal_encode by done. cbn [fst snd]. rewrite IH.
    replace (c + 4 + 4 * len l) with (c + 4 * (1 + len l)) by lia.
    destruct tr. unfold set_fields. simpl. by rewrite <- app_assoc.
Qed.

Lemma v9_unmarshal_scope_encode l tr rest c :
  Forall spec_encodable l -> tr_FieldSpecifiers tr = [] ->
  unmarshal_scope (length l) (mkReader (encode_specs l ++ rest) c, tr) =
    ((mkReader rest (c + len (encode_specs l)),
      set_scope (match last l with Some f => [f] | None => tr_ScopeFieldSpecifiers tr end) tr),
     Ok tt).
Proof.
  intros Hl. revert tr c. induction Hl as [|f l Hf Hl IH]; intros tr c Htr.
  - simpl. rewrite Z.add_0_r. by destruct tr.
  - cbn [length unmarshal_scope]. rewrite v9_len_encode_specs in *. rewrite len_cons.
    unfold encode_specs in *. cbn [map concat]. unfold tr_read, tr_set. unmonad. cbn [fst snd].
    rewrite <- app_assoc, v9_spec_unmarshal_encode by done. cbn [fst snd].
    rewrite IH by (by destruct tr). destruct tr. unfold set_scope. simpl in *. subst.
    replace (c + 4 + 4 * len l) with (c + 4 * (1 + len l)) by lia. destruct l; [done|].
    rewrite (last_cons f). by destruct (last _) eqn:E.
Qed.

(** What a template record of a well-formed set is read as. *)
Lemma v9_wt_unmarshal opts t rest c :
  wt_wf opts t ->
  (if (if opts then 1 else 0) =? 0 then TemplateRecord_unmarshal else TemplateRecord_unmarshalOpts)
    (mkReader (encode_wt t ++ rest) c, zeroTemplateRecord) =
    ((mkReader rest (c + len (encode_wt t)), template_of t), Ok tt).
Proof.
  destruct t as [id fields|id scope fields]; cbn [wt_wf encode_wt template_of].
  - intros (-> & Hid & Hn & Hf). cbn [Z.eqb].
    unfold TemplateRecord_unmarshal, TemplateHeader_unmarshal, encode_template, tr_read, tr_set.
    rewrite <- !app_assoc. unmonad. cbn [fst snd]. do 2 rewrite Uint16_encode by lia.
    cbn [fst snd th_TemplateID th_FieldCount].
    replace (Z.to_nat (len fields)) with (length fields) by (unfold len; lia).
    rewrite v9_unmarshal_fields_encode by done. autorewrite with len.
    rewrite !Z.add_assoc. done.
  - intros (-> & Hid & Hs & Hn & Hsc & Hf). cbn [Z.eqb].
    pose proof (len_nonneg scope). pose proof (len_nonneg fields).
    unfold TemplateRecord_unmarshalOpts, TemplateHeader_unmarshalOpts, encode_opts_template,
      tr_read, tr_set.
    rewrite <- !app_assoc. unmonad. cbn [fst snd]. do 3 rewrite Uint16_encode by lia.
    cbn [fst snd th_TemplateID th_OptionScopeLen th_OptionLen].
    rewrite !(Z.mul_comm 4), !Z.div_mul by lia.
    replace (Z.to_nat (len scope)) with (length scope) by (unfold len; lia).
    replace (Z.to_nat (len fields)) with (length fields) by (unfold len; lia).
    rewrite v9_unmarshal_scope_encode by done. rewrite v9_unmarshal_fields_encode by done.
    autorewrite with len. rewrite !Z.add_assoc. done.
Qed.

Lemma v9_wt_len opts t : wt_wf opts t -> 6 <= len (encode_wt t).
Proof.
  destruct t as [id fields|id scope fields]; cbn [wt_wf encode_wt].
  - intros (_ & _ & Hn & _). unfold encode_template. autorewrite with len.
    rewrite v9_len_encode_specs. lia.
  - intros _. unfold encode_opts_template. autorewrite with len.
    rewrite !v9_len_encode_specs. pose proof (len_nonneg scope). pose proof (len_nonneg fields). lia.
Qed.

Lemma v9_wt_tr_wf opts t : wt_wf opts t -> tr_wf (template_of t).
Proof.
  assert (forall l, Forall spec_encodable l -> Forall spec_wf l) as Hi.
  { intros l Hl. eapply Forall_impl; [exact Hl|]. by intros f [_ H]. }
  destruct t as [id fields|id scope fields]; cbn [wt_wf template_of].
  - intros (_ & _ & _ & Hf). split; simpl; auto.
  - intros (_ & _ & _ & _ & Hs & Hf). split; simpl; [auto|].
    destruct (last scope) as [f|] eqn:E; [|done]. apply Forall_singleton.
    apply last_Some_elem_of in E. rewrite Forall_forall in Hs. by destruct (Hs f E).
Qed.

(** ** Records *)

Section records.
Context (im : IANAInfoModel).

Lemma v9_decode_specs_sem err specs acc rec rest c :
  Forall spec_wf specs -> len rec = specs_width specs ->
  match sem_fields im err specs rec with
  | inl l => decode_specs im err specs acc (mkReader (rec ++ rest) c) =
               (mkReader rest (c + len rec), Ok (acc ++ l))
  | inr e => exists p q, rec = p ++ q /\
               decode_specs im err specs acc (mkReader (rec ++ rest) c) =
                 (mkReader (q ++ rest) (c + len p), Err None e)
  end.
Proof.
  intros Hs. revert acc rec c. induction Hs as [|f specs Hf Hs IH]; intros acc rec c Hl.
  - destruct rec; [|rewrite len_cons in Hl; pose proof (len_nonneg rec); simpl in Hl; lia].
    simpl. by rewrite app_nil_r, Z.add_0_r.
  - cbn [specs_width foldr] in Hl. fold (specs_width specs) in Hl.
    pose proof (v9_specs_width_nonneg _ Hs). unfold spec_wf in Hf.
    assert (exists p q, rec = p ++ q /\ len p = fs_Length f) as (p & q & -> & Hp).
    { exists (take (Z.to_nat (fs_Length f)) rec), (drop (Z.to_nat (fs_Length f)) rec).
      rewrite take_drop. split; [done|]. apply len_take. lia. }
    assert (len q = specs_width specs) by (rewrite len_app in Hl; lia).
    cbn [sem_fields decode_specs]. rewrite <- Hp. rewrite drop_len_app, take_len_app.
    rewrite <- app_assoc. unmonad. rewrite Read_app.
    destruct (im !! _) as [m|]; [|exists p, q; done].
    rewrite Interpret_eq. specialize (IH (acc ++ [mkDecodedField (FieldID m)
      (interpret_spec p (Type_ m))]) q (c + len p) ltac:(done)).
    destruct (sem_fields im err specs q) as [l|e].
    + rewrite IH, len_app, <- app_assoc. do 2 f_equal. lia.
    + destruct IH as (p' & q' & -> & ->). exists (p ++ p'), q'.
      rewrite len_app, <- app_assoc. split; [done|]. do 2 f_equal. lia.
Qed.

Lemma v9_decodeData_sem tr rec rest c :
  tr_wf tr -> len rec = record_width tr ->
  match sem_record im tr rec with
  | inl l => decodeData im tr (mkReader (rec ++ rest) c) =
               (mkReader rest (c + len rec), Ok l)
  | inr e => exists p q, rec = p ++ q /\
               decodeData im tr (mkReader (rec ++ rest) c) =
                 (mkReader (q ++ rest) (c + len p), Err None e)
  end.
Proof.
  intros [H1 H2] Hl. unfold record_width in Hl.
  pose proof (v9_specs_width_nonneg _ H1). pose proof (v9_specs_width_nonneg _ H2).
  unfold sem_record. cbv zeta. set (n := Z.to_nat _). set (p := take n rec).
  set (q := drop n rec).
  assert (len p = specs_width (tr_FieldSpecifiers tr)) as Hp by (apply len_take; lia).
  assert (len q = specs_width (tr_ScopeFieldSpecifiers tr)) as Hq
    by (unfold q, n; rewrite len_drop; lia).
  assert (rec = p ++ q) as Hrec by (unfold p, q; by rewrite take_drop).
  pose proof (v9_decode_specs_sem errNetflowElement (tr_FieldSpecifiers tr) [] p
    (q ++ rest) c H1 Hp) as E1.
  unfold decodeData. unmonad. rewrite Hrec, <- app_assoc.
  destruct (sem_fields im errNetflowElement _ p) as [l|e].
  - rewrite E1. pose proof (v9_decode_specs_sem errNetflowElementScope
      (tr_ScopeFieldSpecifiers tr) l q rest (c + len p) H2 Hq) as E2.
    destruct (sem_fields im errNetflowElementScope _ q) as [l'|e].
    + simpl. rewrite E2, len_app. do 2 f_equal. lia.
    + destruct E2 as (p' & q' & Eq & E2). exists (p ++ p'), q'. simpl. rewrite E2, Eq.
      rewrite len_app, <- app_assoc. split; [done|]. do 2 f_equal. lia.
  - destruct E1 as (p' & q' & Ep & E1). exists p', (q' ++ q). rewrite E1, Ep.
    rewrite <- !app_assoc. done.
Qed.

End records.

(** ** Sets *)

Section sets.
Context (im : IANAInfoModel) {MC : Type} `{!TemplateStore TemplateRecord MC}.
Context (raddr : list byte) (unix_now : nat -> Z).
Abbreviation St := (DecState (MC:=MC)).
Implicit Types s : St.

Definition loop_cond (start : Z) (h : SetHeader) (s : St) : bool :=
  (sh_Length h - (ReadCount (st_reader s) - start) >? 4) && (Len (st_reader s) >? 4).

Lemma v9_loop_exit fuel start h tr s :
  loop_cond start h s = false ->
  decodeSet_loop im raddr unix_now (S fuel) start h tr s = (s, Ok None).
Proof.
  intros Hcond. cbn [decodeSet_loop]. unmonad. cbn beta iota. unfold loop_cond in Hcond.
  by rewrite Hcond.
Qed.

Lemma v9_loop_reserved fuel start h tr s :
  4 <= sh_FlowSetID h <= 255 ->
  decodeSet_loop im raddr unix_now (S fuel) start h tr s = (s, Ok None).
Proof.
  intros Hid. cbn [decodeSet_loop]. unmonad. cbn beta iota. destruct (_ && _); [|done].
  replace ((sh_FlowSetID h =? 0) || (sh_FlowSetID h =? 1)) with false
    by (symmetry; apply orb_false_iff; rewrite !Z.eqb_neq; lia).
  replace ((sh_FlowSetID h >=? 4) && (sh_FlowSetID h <=? 255)) with true
    by (symmetry; apply andb_true_iff; rewrite Z.geb_leb, !Z.leb_le; lia).
  done.
Qed.

Lemma v9_loop_data fuel start h tr s :
  2 <= sh_FlowSetID h <= 3 \/ 255 < sh_FlowSetID h -> loop_cond start h s = true ->
  decodeSet_loop im raddr unix_now (S fuel) start h tr s =
    match decodeData im tr (st_reader s) with
    | (r', Ok d) => decodeSet_loop im raddr unix_now fuel start h tr
                      (append_DataSets h d (set_reader r' s)).1
    | (r', Err _ e) => (set_reader r' s, Ok (Some e))
    | (r', Panic) => (set_reader r' s, Panic)
    | (r', NoFuel) => (set_reader r' s, NoFuel)
    end.
Proof.
  intros Hid Hcond. cbn [decodeSet_loop]. unmonad. cbn beta iota. unfold loop_cond in Hcond.
  rewrite Hcond.
  replace ((sh_FlowSetID h =? 0) || (sh_FlowSetID h =? 1)) with false
    by (symmetry; apply orb_false_iff; rewrite !Z.eqb_neq; lia).
  replace ((sh_FlowSetID h >=? 4) && (sh_FlowSetID h <=? 255)) with false
    by (symmetry; apply andb_false_iff; rewrite Z.geb_leb, !Z.leb_gt; lia).
  unfold on_reader, zoom. by destruct (decodeData im tr (st_reader s)) as [r' []].
Qed.

Lemma v9_skip_ok start h err s body rest c :
  st_reader s = mkReader (body ++ rest) c -> sh_Length h = c - start + len body ->
  decodeSet_skip start h err s =
    (set_reader (mkReader rest (c + len body)) s,
     match err with Some e => Err None e | None => Ok tt end).
Proof.
  intros Hr Hl. pose proof (len_nonneg body). unfold decodeSet_skip. unmonad.
  cbn beta iota. rewrite Hr. unfold ReadCount. cbn [count].
  replace (sh_Length h - (c - start)) with (len body) by lia.
  destruct (Z.gtb_spec (len body) 0).
  - unfold on_reader, zoom. rewrite Hr, Read_app. by destruct err.
  - destruct body; [|rewrite len_cons in *; pose proof (len_nonneg body); lia].
    rewrite len_nil, Z.add_0_r. cbn [app] in Hr. rewrite <- Hr. destruct s, err; done.
Qed.

Lemma v9_template_eq h s :
  cache_ok (st_mem s) ->
  decodeSet_template raddr h s =
    if sh_FlowSetID h >? 255 then
      match ts_lookup (st_mem s) (cache_key (sh_FlowSetID h) raddr) with
      | Some tr => (s, Ok (tr, None))
      | None =>
          (s, Ok (zeroTemplateRecord,
                  Some (errNetflowUnknownTemplate (IP_String raddr) (sh_FlowSetID h))))
      end
    else (s, Ok (zeroTemplateRecord, None)).
Proof.
  intros [Hw _]. unfold decodeSet_template. case_match; [|done]. destruct s as [r m g c].
  unfold on_mem, zoom. unmonad. cbn [st_mem] in *. rewrite ts_retrieve_ok by done.
  by destruct (ts_lookup _ _).
Qed.

(** The body of a set whose loop ended with [err], [q] of its bytes left. *)
Lemma v9_body_ok fuel start h s s1 err q rest c tr :
  4 <= sh_Length h -> decodeSet_template raddr h s = (s, Ok (tr, None)) ->
  decodeSet_loop im raddr unix_now fuel start h tr s = (s1, Ok err) ->
  st_reader s1 = mkReader (q ++ rest) c -> sh_Length h = c - start + len q ->
  decodeSet_body im raddr unix_now fuel start h s =
    (set_reader (mkReader rest (c + len q)) s1,
     match err with Some e => Err None e | None => Ok tt end).
Proof.
  intros Hh Ht Hl Hr Hlen. unfold decodeSet_body. case_test; [lia|]. unmonad.
  rewrite Ht, Hl. erewrite v9_skip_ok; done || lia.
Qed.

Definition cache_repr (env : gmap Z TemplateRecord) (m : MC) : Prop :=
  cache_ok m /\ forall k, ts_lookup m k = env !! k.

(** The state that [decodeSet] leaves, as the meaning says. *)
Definition st_repr (b : list byte) (c : Z) (g : sem_state) (s0 s : St) : Prop :=
  st_reader s = mkReader b c /\ cache_repr (sem_env g) (st_mem s) /\
  st_msg s = mkMessage (msg_AgentID (st_msg s0)) (msg_Header (st_msg s0))
               (sem_last g) (sem_headers g) (sem_data g).

Lemma v9_loop_cond_true start h s n :
  sh_Length h = count (st_reader s) - start + n -> 4 < n -> 4 < len (data (st_reader s)) ->
  loop_cond start h s = true.
Proof.
  intros. unfold loop_cond, ReadCount, Len. apply andb_true_iff. rewrite !Z.gtb_lt. lia.
Qed.

Lemma v9_loop_cond_false start h s n :
  sh_Length h = count (st_reader s) - start + n -> n <= 4 -> loop_cond start h s = false.
Proof.
  intros. unfold loop_cond, ReadCount. apply andb_false_iff. left.
  rewrite Z.gtb_ltb, Z.ltb_ge. lia.
Qed.

(** One template record at the front of a template set. *)
Lemma v9_loop_announce fuel start opts n tr m g k t rest c :
  let h := mkSetHeader (if (opts : bool) then 1 else 0) n in
  let s := mkDecState (mkReader (encode_wt t ++ rest) c) m g k in
  loop_cond start h s = true -> wt_wf opts t -> cache_ok m ->
  exists m', cache_ok m' /\
    (forall k, ts_lookup m' k = if decide (k = cache_key (tr_TemplateID (template_of t)) raddr)
                                then Some (template_of t) else ts_lookup m k) /\
    decodeSet_loop im raddr unix_now (S fuel) start h tr s =
      decodeSet_loop im raddr unix_now fuel start h tr
        (mkDecState (mkReader rest (c + len (encode_wt t))) m'
           (mkMessage (msg_AgentID g) (msg_Header g) (template_of t) (msg_SetHeaders g)
              (msg_DataSets g)) (S k)).
Proof.
  intros h s Hcond Ht [Hw Hc]. pose proof (v9_wt_tr_wf _ _ Ht) as Htw.
  destruct (ts_insert_ok m (tr_TemplateID (template_of t)) raddr (template_of t) (unix_now k) Hw)
    as (m' & Hi & Hw' & Hl).
  exists m'. split; [|split; [done|]].
  { split; [done|]. intros k' t' Hk. rewrite Hl in Hk. case_decide; [by simplify_eq|by eapply Hc]. }
  cbn [decodeSet_loop]. unmonad. cbn beta iota. unfold loop_cond in Hcond. rewrite Hcond.
  subst h s. cbn [sh_FlowSetID].
  replace (((if opts then 1 else 0) =? 0) || ((if opts then 1 else 0) =? 1)) with true
    by (by destruct opts).
  unfold new_template. cbn [st_reader]. rewrite (v9_wt_unmarshal opts t rest c Ht).
  unfold time_now, on_mem, zoom, set_TemplaRecord, set_reader, set_mem, set_msg, modify.
  cbn [st_reader st_mem st_msg st_clock]. rewrite Hi. done.
Qed.

Lemma v9_loop_templates ts fuel start opts tr pad rest c n m g k env :
  let h := mkSetHeader (if (opts : bool) then 1 else 0) n in
  Forall (wt_wf opts) ts -> len pad <= 4 ->
  n = c - start + len (concat (map encode_wt ts)) + len pad ->
  (length ts < fuel)%nat -> cache_repr env m ->
  exists m' k', cache_repr (announce raddr (map template_of ts) env) m' /\
    decodeSet_loop im raddr unix_now fuel start h tr
      (mkDecState (mkReader (concat (map encode_wt ts) ++ pad ++ rest) c) m g k) =
      (mkDecState (mkReader (pad ++ rest) (c + len (concat (map encode_wt ts)))) m'
         (mkMessage (msg_AgentID g) (msg_Header g)
            (default (msg_TemplaRecord g) (last (map template_of ts)))
            (msg_SetHeaders g) (msg_DataSets g)) k', Ok None).
Proof.
  intros h Hts Hpad. revert fuel c m g k env. induction Hts as [|t ts Ht Hts IH];
    intros fuel c m g k env Hn Hf Hm; (destruct fuel as [|fuel]; [simpl in Hf; lia|]).
  - cbn [map concat app announce fold_left] in *. rewrite len_nil in *. exists m, k.
    split; [done|]. rewrite v9_loop_exit by (eapply v9_loop_cond_false with (n := len pad); simpl; lia).
    rewrite Z.add_0_r. by destruct g.
  - cbn [map concat] in *. rewrite len_app in Hn. rewrite <- app_assoc.
    pose proof (len_nonneg (concat (map encode_wt ts))). pose proof (v9_wt_len _ _ Ht).
    pose proof (len_nonneg pad). pose proof (len_nonneg rest).
    destruct (v9_loop_announce fuel start opts n tr m g k t
      (concat (map encode_wt ts) ++ pad ++ rest) c) as (m1 & Hm1 & Hk1 & E1); [|done|apply Hm|].
    { apply v9_loop_cond_true with (n := len (encode_wt t) + len (concat (map encode_wt ts)) + len pad);
        cbn [sh_Length st_reader count data]; rewrite ?len_app; lia. }
    unfold h. rewrite E1. clear E1.
    edestruct (IH fuel (c + len (encode_wt t)) m1) with
      (env := <[cache_key (tr_TemplateID (template_of t)) raddr := template_of t]> env)
      as (m2 & k2 & Hm2 & E2); [lia|simpl in Hf; lia| |].
    { split; [done|]. intros k0. rewrite Hk1, lookup_insert. destruct Hm as [_ Hm]. rewrite Hm.
      repeat case_decide; congruence. }
    exists m2, k2. split; [exact Hm2|]. unfold h in E2. rewrite E2.
    cbn [msg_AgentID msg_Header msg_TemplaRecord msg_SetHeaders msg_DataSets].
    rewrite len_app, Z.add_assoc, last_cons. do 3 f_equal.
    by destruct (last (map template_of ts)).
Qed.

Lemma v9_loop_records recs fuel start h tr m g k rest pad c :
  255 < sh_FlowSetID h -> tr_wf tr -> 4 < record_width tr -> len pad <= 4 ->
  Forall (fun rec => len rec = record_width tr) recs ->
  sh_Length h = c - start + len (concat recs) + len pad -> (length recs < fuel)%nat ->
  exists p q, concat recs ++ pad = p ++ q /\
    decodeSet_loop im raddr unix_now fuel start h tr
      (mkDecState (mkReader (concat recs ++ pad ++ rest) c) m g k) =
      (mkDecState (mkReader (q ++ rest) (c + len p)) m
         (mkMessage (msg_AgentID g) (msg_Header g) (msg_TemplaRecord g)
           (msg_SetHeaders g ++ replicate (length (sem_records im tr recs).1) h)
           (msg_DataSets g ++ (sem_records im tr recs).1)) k,
       Ok (sem_records im tr recs).2).
Proof.
  intros Hid Htr Hw Hpad Hrecs. revert fuel g c. induction Hrecs as [|rec recs Hrec Hrecs IH];
    intros fuel g c Hlen Hf; (destruct fuel as [|fuel]; [simpl in Hf; lia|]).
  - exists [], pad. split; [done|]. cbn [concat app] in *. rewrite len_nil in *.
    rewrite v9_loop_exit by (eapply v9_loop_cond_false with (n := len pad); simpl; lia).
    simpl. rewrite !app_nil_r, Z.add_0_r. by destruct g.
  - cbn [concat] in *. rewrite len_app in Hlen. rewrite <- !app_assoc.
    pose proof (len_nonneg (concat recs)). pose proof (len_nonneg rest).
    pose proof (len_nonneg pad).
    rewrite v9_loop_data; [|lia|].
    2: { apply v9_loop_cond_true with (n := len rec + len (concat recs) + len pad);
           cbn [st_reader count data]; rewrite ?len_app; lia. }
    cbn [st_reader sem_records].
    pose proof (v9_decodeData_sem im tr rec (concat recs ++ pad ++ rest) c Htr Hrec) as Hd.
    destruct (sem_record im tr rec) as [d|e].
    + rewrite Hd. unfold append_DataSets, modify, set_msg, set_reader.
      cbn [fst st_reader st_mem st_msg st_clock].
      edestruct (IH fuel) as (p' & q' & Eq & E); [| |].
      3: { rewrite E. exists (rec ++ p'), q'. rewrite Eq, len_app, <- app_assoc. split; [done|].
           destruct (sem_records im tr recs) as [ds e].
           cbn [fst snd msg_AgentID msg_Header msg_TemplaRecord msg_SetHeaders msg_DataSets length].
           cbn [replicate]. rewrite <- !app_assoc, Z.add_assoc. done. }
      all: [> lia | simpl in Hf; lia].
    + destruct Hd as (p' & q' & -> & ->). exists p', (q' ++ concat recs ++ pad).
      rewrite <- !app_assoc. split; [done|]. unfold set_reader. simpl.
      rewrite !app_nil_r. by destruct g.
Qed.

Lemma v9_decodeSet_encoded fuel s w rest c :
  st_reader s = mkReader (encode_set w ++ rest) c -> 0 <= set_id w < 65536 ->
  4 + len (set_body w) < 65536 ->
  decodeSet im raddr unix_now fuel s =
    decodeSet_body im raddr unix_now fuel c (set_header w)
      (set_reader (mkReader (set_body w ++ rest) (c + 4)) s).
Proof.
  intros Hr Hid Hl. pose proof (len_nonneg (set_body w)). unfold decodeSet, on_reader. unmonad.
  cbn beta iota. rewrite Hr. unfold SetHeader_unmarshal, encode_set. rewrite <- !app_assoc.
  unmonad. do 2 rewrite Uint16_encode by lia. unfold ReadCount, set_header. cbn [count].
  do 3 f_equal. lia.
Qed.

Definition set_ok (w : wire_set) : Prop := forall fuel rest c g s0 s,
  st_repr (encode_set w ++ rest) c g s0 s -> set_wf raddr (sem_env g) w ->
  len (set_body w) < Z.of_nat fuel ->
  exists s' oe,
    decodeSet im raddr unix_now fuel s =
      (s', match oe with Some e => Err None e | None => Ok tt end) /\
    sem_errs (sem_set im raddr w g) = sem_errs g ++ opt_list oe /\
    st_repr rest (c + len (encode_set w)) (sem_set im raddr w g) s0 s'.

Lemma v9_len_encode_set w : len (encode_set w) = 4 + len (set_body w).
Proof. unfold encode_set. autorewrite with len. lia. Qed.

Lemma v9_set_reserved id body : set_ok (WReserved id body).
Proof.
  intros fuel rest c g s0 s (Hr & Hm & Hg) [Hlen Hid] Hf. cbn [set_body] in *.
  destruct fuel as [|fuel]; [pose proof (len_nonneg body); lia|].
  erewrite v9_decodeSet_encoded; [|exact Hr|simpl; lia|simpl; lia].
  erewrite (v9_body_ok _ _ _ _ _ None body rest (c + 4) zeroTemplateRecord);
    [eexists _, None; split; [done|]|simpl; lia| |
     apply v9_loop_reserved; done|done|simpl; lia].
  - simpl. rewrite app_nil_r. split; [done|]. rewrite v9_len_encode_set. cbn [set_body].
    split; [|by split]. simpl. f_equal. lia.
  - rewrite v9_template_eq by apply Hm. cbn [sh_FlowSetID set_id set_header].
    by case_test; [lia|].
Qed.

Lemma v9_concat_ge ts opts :
  Forall (wt_wf opts) ts -> len ts <= len (concat (map encode_wt ts)).
Proof.
  induction 1 as [|t ts Ht Hts IH]; [done|]. cbn [map concat]. rewrite len_app, len_cons.
  apply v9_wt_len in Ht. lia.
Qed.

Lemma v9_set_templates opts ts pad : set_ok (WTemplates opts ts pad).
Proof.
  intros fuel rest c g s0 [r m gm k] (Hr & Hm & Hg) [Hlen [Hpad Hts]] Hf.
  cbn [set_body st_reader st_mem st_msg] in *. subst r gm.
  pose proof (v9_concat_ge ts opts Hts) as Hge. rewrite len_app in *.
  erewrite v9_decodeSet_encoded;
    [|reflexivity|destruct opts; simpl; lia|cbn [set_body]; rewrite len_app; lia].
  unfold set_header, set_reader. cbn [set_id set_body st_mem st_msg st_clock]. rewrite <- app_assoc.
  set (gm := mkMessage _ _ _ _ _).
  destruct (v9_loop_templates ts fuel c opts zeroTemplateRecord pad rest (c + 4)
    (4 + len (concat (map encode_wt ts) ++ pad)) m gm k (sem_env g))
    as (m' & k' & Hm' & El); try done.
  { rewrite len_app. lia. }
  { unfold len in *. pose proof (Zle_0_nat (length pad)). lia. }
  pose proof (len_nonneg pad). pose proof (len_nonneg ts).
  erewrite (v9_body_ok _ _ _ _ _ None pad rest (c + 4 + len (concat (map encode_wt ts)))
    zeroTemplateRecord);
    [|cbn [sh_Length]; rewrite len_app; lia| |exact El|done|cbn [sh_Length]; rewrite len_app; lia].
  - eexists _, None. split; [done|]. cbn [opt_list]. rewrite app_nil_r. split; [done|].
    rewrite v9_len_encode_set. cbn [set_body]. rewrite len_app. split; [|split].
    + unfold set_reader. cbn [st_reader]. f_equal. lia.
    + exact Hm'.
    + done.
  - rewrite v9_template_eq by apply Hm. cbn [sh_FlowSetID]. by destruct opts.
Qed.

Lemma v9_set_data id recs pad : set_ok (WData id recs pad).
Proof.
  intros fuel rest c g s0 [r m gm k] (Hr & [Hc Hm] & Hg) [Hlen (Hid & Hpad & Hwf)] Hf.
  cbn [set_body st_reader st_mem st_msg] in *. subst r gm.
  erewrite v9_decodeSet_encoded; [|reflexivity|simpl; lia|simpl; lia].
  unfold set_header, set_reader. cbn [set_id set_body st_mem st_msg st_clock].
  pose proof (len_nonneg (concat recs)). pose proof (len_nonneg pad). rewrite len_app in Hlen, Hf.
  destruct (Z.gtb_spec id 255) as [Hgt|]; [|lia]. apply Z.gtb_lt in Hgt as Hgt'.
  cbn [sem_set]. destruct (sem_env g !! cache_key id raddr) as [tr|] eqn:Hn.
  - destruct (Hwf tr eq_refl) as [Hw Hrecs].
    assert (tr_wf tr) as Htr by (destruct Hc as [_ Hc]; eapply Hc; by rewrite Hm).
    assert (len recs <= len (concat recs)) as Hge.
    { clear -Hrecs Hw. induction Hrecs; [done|]. cbn [concat]. rewrite len_app, len_cons. lia. }
    set (gm := mkMessage _ _ _ _ _). set (h := mkSetHeader id _).
    destruct (v9_loop_records recs fuel c h tr m gm k rest pad (c + 4))
      as (p & q & Epq & El); try done.
    { unfold h. simpl. rewrite len_app. lia. }
    { unfold len in *. lia. }
    assert (len (concat recs ++ pad) = len p + len q) as Hpq by (by rewrite Epq, len_app).
    rewrite <- app_assoc.
    erewrite v9_body_ok with (q := q) (rest := rest) (c := c + 4 + len p) (tr := tr);
      [| simpl; rewrite len_app; lia | | exact El | done | unfold h; simpl; lia].
    2: { rewrite v9_template_eq by done. unfold h. cbn [sh_FlowSetID st_mem].
         by rewrite Hgt', Hm, Hn. }
    eexists _, (sem_records im tr recs).2. split; [done|]. rewrite v9_len_encode_set.
    cbn [set_body]. rewrite Hpq. destruct (sem_records im tr recs) as [ds e]. split; [done|].
    split; [|split; [by split|done]]. unfold set_reader. cbn [st_reader]. f_equal. lia.
  - exists (mkDecState (mkReader rest (c + 4 + len (concat recs ++ pad))) m
      (mkMessage (msg_AgentID (st_msg s0)) (msg_Header (st_msg s0)) (sem_last g) (sem_headers g)
         (sem_data g)) k), (Some (errNetflowUnknownTemplate (IP_String raddr) id)).
    unfold decodeSet_body. cbn [sh_Length]. rewrite len_app. case_test; [lia|].
    unfold mbind, M_bind. rewrite v9_template_eq by done. cbn [sh_FlowSetID st_mem].
    rewrite Hgt', Hm, Hn. unfold mret, M_ret.
    erewrite v9_skip_ok with (body := concat recs ++ pad) (rest := rest) (c := c + 4);
      [|done|simpl; rewrite len_app; lia].
    split; [unfold set_reader; cbn [st_mem st_msg st_clock]; by rewrite len_app|].
    split; [done|]. rewrite v9_len_encode_set. cbn [set_body]. rewrite len_app.
    split; [|split; [by split|done]]. cbn [st_reader]. f_equal. lia.
Qed.

Lemma v9_set_sem w : set_ok w.
Proof.
  destruct w; [apply v9_set_templates|apply v9_set_data|apply v9_set_reserved].
Qed.

Lemma v9_Decode_loop_sem ws n fuel trail c g s0 s :
  st_repr (encode_sets ws ++ trail) c g s0 s -> sets_wf im raddr ws g -> len trail <= 4 ->
  (length ws < n)%nat -> len (encode_sets ws) < Z.of_nat fuel ->
  exists s', Decode_loop im raddr unix_now n fuel (sem_errs g) s =
      (s', Ok (sem_errs (sem_sets im raddr ws g))) /\
    st_repr trail (c + len (encode_sets ws)) (sem_sets im raddr ws g) s0 s'.
Proof.
  revert n c g s. induction ws as [|w ws IH]; intros n c g s Hs Hwf Ht Hn Hf;
    (destruct n as [|n]; [simpl in Hn; lia|]); cbn [Decode_loop]; unmonad; cbn beta iota;
    destruct Hs as (Hr & Hs'); rewrite Hr; unfold Len; cbn [data].
  - exists s. simpl. rewrite Z.gtb_ltb. destruct (Z.ltb_spec 4 (len trail)); [lia|].
    split; [done|]. rewrite Z.add_0_r. by split.
  - unfold encode_sets in *. cbn [map concat] in *. destruct Hwf as [Hw Hwf].
    rewrite len_app in Hf. rewrite <- app_assoc in Hr.
    pose proof (len_nonneg (concat (map encode_set ws))). pose proof (len_nonneg trail).
    assert (4 < len (encode_set w)) by (rewrite v9_len_encode_set; destruct Hw; lia).
    rewrite !len_app. destruct (Z.gtb_spec
      (len (encode_set w) + len (concat (map encode_set ws)) + len trail) 4); [|lia].
    pose proof (v9_len_encode_set w).
    destruct (v9_set_sem w fuel (concat (map encode_set ws) ++ trail) c g s0 s)
      as (s1 & oe & -> & He & Hs1); [by split|done|lia|].
    destruct (IH n (c + len (encode_set w)) (sem_set im raddr w g) s1)
      as (s2 & E2 & Hs2); try done; [simpl in Hn; lia|lia|].
    exists s2. rewrite Z.add_assoc. split; [|done]. rewrite He in E2.
    destruct oe; simpl in E2; [done|]. by rewrite app_nil_r in E2.
Qed.

End sets.

(** ** Packets *)

Section packets.
Context (im : IANAInfoModel) {MC : Type} `{!TemplateStore TemplateRecord MC}.
Context (raddr : list byte) (unix_now : nat -> Z).

Lemma v9_header_of_encode h rest :
  header_wf h -> header_of (encode_header h ++ rest) = h /\
  20 <= len (encode_header h ++ rest) /\ drop 20 (encode_header h ++ rest) = rest.
Proof.
  intros (Hv & Hl & Ht & Hs & Hd & Hi). destruct h as [v l t n d i];
    cbn [ph_Version ph_Count ph_SysUpTime ph_UNIXSecs ph_SeqNum ph_SrcID] in *.
  assert (PacketHeader_unmarshal (mkReader (encode_header (mkPacketHeader v l t n d i) ++ rest) 0)
    = (mkReader rest 20, Ok (mkPacketHeader v l t n d i))) as Hu.
  { unfold PacketHeader_unmarshal, encode_header. rewrite <- !app_assoc.
    cbn [ph_Version ph_Count ph_SysUpTime ph_UNIXSecs ph_SeqNum ph_SrcID]. unmonad.
    do 2 rewrite Uint16_encode by lia. do 4 rewrite Uint32_encode by lia. done. }
  assert (20 <= len (encode_header (mkPacketHeader v l t n d i) ++ rest)) as H20.
  { unfold encode_header. autorewrite with len. pose proof (len_nonneg rest). lia. }
  rewrite PacketHeader_unmarshal_ok in Hu by done. cbn [data] in Hu.
  split_and!; [congruence|done|congruence].
Qed.

Lemma v9_length_encode_sets ws : len ws <= len (encode_sets ws).
Proof.
  unfold encode_sets. induction ws as [|w ws IH]; [done|]. cbn [map concat].
  rewrite len_cons, len_app, v9_len_encode_set. pose proof (len_nonneg (set_body w)). lia.
Qed.

Lemma v9_Decode_message (h : PacketHeader) (ws : list wire_set) (trail : list byte)
    (env : gmap Z TemplateRecord) (mem : MC) (k fuel : nat) :
  header_wf h -> len trail <= 4 -> cache_repr env mem ->
  sets_wf im raddr ws (mkSem env zeroTemplateRecord [] [] []) ->
  len (encode_packet h ws) < Z.of_nat fuel ->
  let g := sem_sets im raddr ws (mkSem env zeroTemplateRecord [] [] []) in
  let msg := mkMessage (IP_String raddr) h (sem_last g) (sem_headers g) (sem_data g) in
  exists s',
    Decode im raddr unix_now fuel (NewDecoder (encode_packet h ws ++ trail) mem k) =
      (s', match combineErrors (sem_errs g) with
           | None => Ok msg
           | Some e => Err (Some msg) e
           end) /\
    cache_repr (sem_env g) (st_mem s') /\
    st_reader s' = mkReader trail (len (encode_packet h ws)).
Proof.
  intros Hh Ht Hm Hwf Hf g msg. unfold encode_packet in *. rewrite <- app_assoc.
  destruct (v9_header_of_encode h (encode_sets ws ++ trail) Hh) as (E1 & E2 & E3).
  assert (len (encode_header h) = 20) as E4 by (unfold encode_header; by autorewrite with len).
  rewrite len_app in Hf.
  rewrite v9_Decode_eq; cbn [NewDecoder st_reader NewReader data]; [|done|rewrite E1; apply Hh].
  set (s0 := Decode_start raddr (NewDecoder (encode_header h ++ encode_sets ws ++ trail) mem k)).
  destruct (v9_Decode_loop_sem im raddr unix_now ws fuel fuel trail 20
    (mkSem env zeroTemplateRecord [] [] []) s0 s0) as (s' & El & Hr & Hm' & Hg).
  - split; [|split; [apply Hm|done]]. unfold s0. cbn [Decode_start st_reader NewDecoder NewReader data count].
    by rewrite E3.
  - done.
  - done.
  - pose proof (v9_length_encode_sets ws). unfold len in *. lia.
  - lia.
  - cbn [sem_errs] in El. rewrite El. cbn beta iota. fold g in Hr, Hm', Hg |- *.
    exists s'. replace (st_msg s') with msg.
    + split; [by destruct (combineErrors _)|]. rewrite len_app, E4. done.
    + rewrite Hg. unfold msg. f_equal. rewrite <- E1. done.
Qed.

(** C13: [Decode] of NetFlow v9 implements the meaning of export packets.  On the
    encoding of any well-formed packet (template and options template FlowSets, data
    FlowSets of known and of unknown templates, elements that are not known, padding,
    reserved FlowSets, up to four trailing bytes), whatever templates [env] the cache
    holds, it returns the header, the records in their order with the headers of
    their sets, the last template announced, and the combined errors; afterwards the
    cache holds exactly the templates known before updated with the announced ones. *)
Theorem v9_Decode_refines (h : PacketHeader) (ws : list wire_set) (trail : list byte)
    (env : gmap Z TemplateRecord) (mem : MC) (k fuel : nat) :
  header_wf h -> len trail <= 4 -> cache_repr env mem ->
  sets_wf im raddr ws (mkSem env zeroTemplateRecord [] [] []) ->
  len (encode_packet h ws) < Z.of_nat fuel ->
  let g := sem_sets im raddr ws (mkSem env zeroTemplateRecord [] [] []) in
  let msg := mkMessage (IP_String raddr) h (sem_last g) (sem_headers g) (sem_data g) in
  exists s',
    Decode im raddr unix_now fuel (NewDecoder (encode_packet h ws ++ trail) mem k) =
      (s', match combineErrors (sem_errs g) with
           | None => Ok msg
           | Some e => Err (Some msg) e
           end) /\
    cache_repr (sem_env g) (st_mem s') /\
    st_reader s' = mkReader trail (len (encode_packet h ws)).
Proof. apply v9_Decode_message. Qed.

End packets.

Lemma v9_cache_ok_fresh : cache_ok (GetCache (T:=TemplateRecord) None).
Proof.
  split; [done|]. intros k t Hk.
  change (cache_lookup (T:=TemplateRecord) (GetCache None) k = Some t) in Hk.
  by rewrite GetCache_fresh_lookup in Hk.
Qed.

Lemma v9_cache_repr_fresh : cache_repr ∅ (GetCache (T:=TemplateRecord) None).
Proof.
  split; [apply v9_cache_ok_fresh|]. intros k. apply (GetCache_fresh_lookup (T:=TemplateRecord)).
Qed.

Definition example_sets : list wire_set :=
  [WTemplates false [WTemplate 256 [mkFieldSpecifier 8 4; mkFieldSpecifier 4 1]] [];
   WData 256 [bytes [192; 0; 2; 1; 6]; bytes [192; 0; 2; 2; 17]] (bytes [0; 0]);
   WData 300 [bytes [1; 2; 3]] []].

Definition example_header : PacketHeader := mkPacketHeader 9 3 1000 1500000000 7 1.

Lemma v9_Decode_refines_witness :
  exists s', Decode InfoModel (bytes [127; 0; 0; 1]) (fun _ => 0) 200
      (NewDecoder (encode_packet example_header example_sets) (GetCache None) 0) =
    (s', Err (Some (mkMessage "127.0.0.1" example_header
      (mkTemplateRecord 256 2 [mkFieldSpecifier 8 4; mkFieldSpecifier 4 1] 0 [])
      [mkSetHeader 256 16; mkSetHeader 256 16]
      [[mkDecodedField 8 (VIP (bytes [192; 0; 2; 1])); mkDecodedField 4 (VUint8 6)];
       [mkDecodedField 8 (VIP (bytes [192; 0; 2; 2])); mkDecodedField 4 (VUint8 17)]]))
      (errNetflowUnknownTemplate "127.0.0.1" 300)).
Proof.
  destruct (v9_Decode_refines InfoModel (bytes [127; 0; 0; 1]) (fun _ => 0) example_header
    example_sets [] ∅ (GetCache None) 0 200) as (s' & E & _).
  - done.
  - done.
  - apply v9_cache_repr_fresh.
  - cbn [example_sets sets_wf]. refine (conj _ (conj _ (conj _ I))).
    + split; [done|]. split; [done|]. by repeat constructor.
    + split; [done|]. split; [done|]. split; [done|]. intros tr Htr. vm_compute in Htr.
      injection Htr as <-. split; [done|]. by repeat constructor.
    + split; [done|]. split; [done|]. split; [done|]. intros tr Htr. vm_compute in Htr.
      discriminate.
  - done.
  - exists s'. rewrite app_nil_r in E. rewrite E. vm_compute. reflexivity.
Defined.
