(* ===== verification/NetflowProps.v ===== *)
(** Termination of the NetFlow v9 decoder, and the datagrams on which it spins. *)

From S2P Require Import Prelude GoNet InfoModel Interpret TemplateCache Reader NetflowDecoder NetflowFacts NetflowMessage.

Section termination.
Context (im : IANAInfoModel) {MC : Type} `{!TemplateStore TemplateRecord MC}.
Context (raddr : list byte) (unix_now : nat -> Z).
Abbreviation St := (DecState (MC:=MC)).
Implicit Types s : St.

Lemma v9_loop_cond_len start h s : loop_cond start h s = true -> 4 < len (data (st_reader s)).
Proof. unfold loop_cond, Len. intros [_ H]%andb_true_iff. by apply Z.gtb_lt in H. Qed.

(** One round of the loop in a template set: it ends, or at least four bytes were
    consumed. *)
Lemma v9_loop_template_round fuel start h tr s :
  cache_ok (st_mem s) -> sh_FlowSetID h = 0 \/ sh_FlowSetID h = 1 -> loop_cond start h s = true ->
  (exists s' e, decodeSet_loop im raddr unix_now (S fuel) start h tr s = (s', Ok (Some e))) \/
  exists s', decodeSet_loop im raddr unix_now (S fuel) start h tr s =
               decodeSet_loop im raddr unix_now fuel start h tr s' /\
    cache_ok (st_mem s') /\ adv (st_reader s) (st_reader s') /\
    count (st_reader s) + 4 <= count (st_reader s').
Proof.
  intros Hc Hid Hcond. pose proof (v9_loop_cond_len _ _ _ Hcond) as Hlen.
  pose proof (unmarshal_consumes4 (sh_FlowSetID h =? 0) (st_reader s) ltac:(lia)) as Hn.
  assert (fills (fun _ => True) (if sh_FlowSetID h =? 0 then TemplateRecord_unmarshal
    else TemplateRecord_unmarshalOpts)) as Hfill.
  { destruct (sh_FlowSetID h =? 0);
      [apply fills_TemplateRecord_unmarshal|apply fills_TemplateRecord_unmarshalOpts]. }
  destruct (Hfill (st_reader s, zeroTemplateRecord) v9_tr_wf_zero) as (Ha & Hwf & Hret & _).
  cbn [decodeSet_loop]. unmonad. cbn beta iota. unfold loop_cond in Hcond. rewrite Hcond.
  replace ((sh_FlowSetID h =? 0) || (sh_FlowSetID h =? 1)) with true
    by (destruct Hid as [-> | ->]; reflexivity).
  unfold new_template. destruct s as [r m g k]. cbn [st_reader st_mem] in *.
  destruct ((if sh_FlowSetID h =? 0 then TemplateRecord_unmarshal else TemplateRecord_unmarshalOpts)
    (r, zeroTemplateRecord)) as [[r' t] [u|v e| |]]; simpl in Ha, Hwf, Hn, Hret; try done.
  - right. destruct (ts_insert_ok m (tr_TemplateID t) raddr t (unix_now k) (proj1 Hc))
      as (m' & Hi & Hw & Hl).
    unfold time_now, on_mem, zoom, set_reader. cbn [st_mem st_clock st_reader st_msg]. rewrite Hi.
    eexists. split; [done|]. split; [|by split]. split; [done|].
    intros k' t' Hk. simpl in Hk. rewrite Hl in Hk. destruct Hc as [_ Hc].
    case_decide; [by simplify_eq|by eapply Hc].
  - left. eexists _, _. done.
Qed.

(** The record loop ends unless it reads records of a zero-width template all of whose
    elements are known. *)
Definition loop_progresses (h : SetHeader) (tr : TemplateRecord) : Prop :=
  sh_FlowSetID h <= 1 \/ 4 <= sh_FlowSetID h <= 255 \/ 0 < record_width tr \/ ~ tr_known im tr.

Lemma v9_loop_terminates fuel start h tr s :
  0 <= sh_FlowSetID h -> cache_ok (st_mem s) -> tr_wf tr -> loop_progresses h tr ->
  len (data (st_reader s)) < Z.of_nat fuel ->
  (decodeSet_loop im raddr unix_now fuel start h tr s).2 <> NoFuel.
Proof.
  intros H0 Hc Htr Hp. revert s Hc. induction fuel as [|fuel IH]; intros s Hc Hf.
  { pose proof (len_nonneg (data (st_reader s))). lia. }
  destruct (loop_cond start h s) eqn:Hcond; [|by rewrite v9_loop_exit].
  assert ((sh_FlowSetID h = 0 \/ sh_FlowSetID h = 1) \/ 4 <= sh_FlowSetID h <= 255 \/
          (2 <= sh_FlowSetID h <= 3 \/ 255 < sh_FlowSetID h)) as [H|[H|H]] by lia.
  - destruct (v9_loop_template_round fuel start h tr s Hc H Hcond)
      as [(s' & e & ->)|(s' & -> & Hc' & Ha & Hn)]; [done|]. apply IH; [done|].
    apply adv_len in Ha. lia.
  - by rewrite v9_loop_reserved.
  - rewrite v9_loop_data by done.
    destruct (v9_reads_decodeData im tr Htr (st_reader s)) as (Ha & Hret & _).
    destruct (decodeData im tr (st_reader s)) as [r' [d|v e| |]] eqn:Ed; try done.
    apply IH; [done|]. simpl in *. apply adv_len in Ha.
    destruct (v9_decodeData_width im tr _ _ _ Htr Ed) as [Hw Hk].
    destruct Hp as [Hp|[Hp|[Hp|Hp]]]; [lia|lia|lia|done].
Qed.

Lemma v9_loop_diverges fuel start h tr s :
  tr_wf tr -> tr_known im tr -> record_width tr = 0 ->
  2 <= sh_FlowSetID h <= 3 \/ 255 < sh_FlowSetID h -> loop_cond start h s = true ->
  (decodeSet_loop im raddr unix_now fuel start h tr s).2 = NoFuel.
Proof.
  intros Hwf Hk Hw Hid. revert s. induction fuel as [|fuel IH]; intros s Hcond; [done|].
  rewrite v9_loop_data by done.
  destruct (v9_decodeData_zero im tr (st_reader s) Hwf Hk Hw) as [d ->].
  by apply IH.
Qed.

Lemma v9_skip_returns start h err s : returns (decodeSet_skip start h err s).2.
Proof.
  unfold decodeSet_skip. unmonad. cbn beta iota.
  set (n := sh_Length h - (ReadCount (st_reader s) - start)).
  destruct (Z.gtb_spec n 0); [|by destruct err].
  unfold on_reader, zoom. destruct (reads_Read n ltac:(lia) (st_reader s)) as (_ & Hr & _).
  destruct (Read n (st_reader s)) as [r' []]; try done. by destruct err.
Qed.

(** The template whose records the set is read with: the cached one for a data set,
    the zero template for the set ids 2 and 3, none for the other sets. *)
Definition data_template (s : St) (h : SetHeader) : option TemplateRecord :=
  if sh_FlowSetID h >? 255 then ts_lookup (st_mem s) (cache_key (sh_FlowSetID h) raddr)
  else if (sh_FlowSetID h =? 2) || (sh_FlowSetID h =? 3) then Some zeroTemplateRecord else None.

(** The sets on which the record loop spins. *)
Definition stuck (s : St) : Prop :=
  exists r h tr, SetHeader_unmarshal (st_reader s) = (r, Ok h) /\
    8 < sh_Length h /\ 4 < Len r /\ data_template s h = Some tr /\
    record_width tr = 0 /\ tr_known im tr.

(** [decodeSet_body] returns when its loop does. *)
Lemma v9_body_nofuel fuel start h s tr :
  4 <= sh_Length h -> decodeSet_template raddr h s = (s, Ok (tr, None)) ->
  (decodeSet_body im raddr unix_now fuel start h s).2 = NoFuel <->
  (decodeSet_loop im raddr unix_now fuel start h tr s).2 = NoFuel.
Proof.
  intros Hl Ht. unfold decodeSet_body. case_test; [lia|]. unmonad. rewrite Ht.
  destruct (decodeSet_loop im raddr unix_now fuel start h tr s) as [s' [err|v e| |]]; simpl.
  - pose proof (v9_skip_returns start h err s').
    by destruct (decodeSet_skip start h err s') as [? []].
  - done.
  - done.
  - done.
Qed.

Lemma v9_SetHeader_ok r :
  4 <= len (data r) ->
  SetHeader_unmarshal r =
    (mkReader (drop 4 (data r)) (count r + 4),
     Ok (mkSetHeader (be_decode (take 2 (data r))) (be_decode (take 2 (drop 2 (data r)))))).
Proof.
  intros Hr. unfold SetHeader_unmarshal. unmonad. rewrite Uint16_eq, read_be_ok by lia.
  rewrite Uint16_eq, read_be_ok by (cbn [data]; rewrite len_drop; lia). cbn [data count].
  rewrite drop_drop. do 2 f_equal. lia.
Qed.

Lemma v9_decodeSet_eq fuel s r h :
  SetHeader_unmarshal (st_reader s) = (r, Ok h) ->
  decodeSet im raddr unix_now fuel s =
    decodeSet_body im raddr unix_now fuel (count (st_reader s)) h (set_reader r s).
Proof. intros Hh. unfold decodeSet. unmonad. cbn beta iota. unfold on_reader, zoom. by rewrite Hh. Qed.

Lemma v9_loop_cond_start start h s r :
  start = count (st_reader s) -> count r = start + 4 ->
  loop_cond start h (set_reader r s) = (sh_Length h >? 8) && (Len r >? 4).
Proof.
  intros -> Hr. unfold loop_cond, ReadCount. cbn [st_reader set_reader]. rewrite Hr. f_equal.
  destruct (Z.gtb_spec (sh_Length h) 8);
    [apply Z.gtb_lt; lia|rewrite Z.gtb_ltb; apply Z.ltb_ge; lia].
Qed.

Lemma v9_template_choice h s r :
  cache_ok (st_mem s) ->
  decodeSet_template raddr h (set_reader r s) =
    (set_reader r s,
     match data_template s h with
     | Some tr => Ok (tr, None)
     | None => if sh_FlowSetID h >? 255
               then Ok (zeroTemplateRecord,
                        Some (errNetflowUnknownTemplate (IP_String raddr) (sh_FlowSetID h)))
               else Ok (zeroTemplateRecord, None)
     end).
Proof.
  intros Hc. rewrite v9_template_eq by done. unfold data_template.
  change (st_mem (set_reader r s)) with (st_mem s).
  destruct (_ >? 255); [by destruct (ts_lookup _ _)|by destruct (_ || _)].
Qed.

Lemma v9_data_template_wf s h tr :
  cache_ok (st_mem s) -> data_template s h = Some tr ->
  tr_wf tr /\ (2 <= sh_FlowSetID h <= 3 \/ 255 < sh_FlowSetID h).
Proof.
  intros [_ Hc]. unfold data_template. destruct (Z.gtb_spec (sh_FlowSetID h) 255).
  - intros H1. split; [by eapply Hc|lia].
  - destruct (Z.eqb_spec (sh_FlowSetID h) 2); [|destruct (Z.eqb_spec (sh_FlowSetID h) 3)];
      simpl; intros H1; simplify_eq; (split; [apply v9_tr_wf_zero|lia]).
Qed.

(** With records to read, the set is stuck or it ends. *)
Lemma v9_known_diverges fuel start h tr s :
  0 <= sh_FlowSetID h -> cache_ok (st_mem s) -> data_template s h = Some tr ->
  len (data (st_reader s)) < Z.of_nat fuel ->
  (decodeSet_loop im raddr unix_now fuel start h tr s).2 = NoFuel <->
  loop_cond start h s = true /\ record_width tr = 0 /\ tr_known im tr.
Proof.
  intros H0 Hc Ht Hf. destruct (v9_data_template_wf _ _ _ Hc Ht) as [Htr Hid]. split.
  - intros Hn. destruct fuel as [|fuel]; [pose proof (len_nonneg (data (st_reader s))); lia|].
    destruct (loop_cond start h s) eqn:Ec; [|by rewrite v9_loop_exit in Hn].
    assert (~ loop_progresses h tr) as Hp.
    { intros Hp. revert Hn. by apply v9_loop_terminates. }
    destruct Htr as [Hw1 Hw2]. pose proof (v9_specs_width_nonneg _ Hw1).
    pose proof (v9_specs_width_nonneg _ Hw2). unfold loop_progresses, record_width in *.
    split; [done|]. split; [lia|]. destruct (decide (tr_known im tr)); [done|]. exfalso. tauto.
  - intros (H1 & H2 & H3). by apply v9_loop_diverges.
Qed.

(** Without records to read, the set ends. *)
Lemma v9_none_returns fuel start h s r :
  0 <= sh_FlowSetID h -> 4 <= sh_Length h -> cache_ok (st_mem s) -> data_template s h = None ->
  len (data r) < Z.of_nat fuel ->
  (decodeSet_body im raddr unix_now fuel start h (set_reader r s)).2 <> NoFuel.
Proof.
  intros H0 Hs Hc Ed Hf. pose proof (v9_template_choice h s r Hc) as Ht. rewrite Ed in Ht.
  destruct (Z.gtb_spec (sh_FlowSetID h) 255) as [Hid|Hid].
  - unfold decodeSet_body. case_test; [lia|]. unmonad. rewrite Ht.
    pose proof (v9_skip_returns start h (Some (errNetflowUnknownTemplate
      (IP_String raddr) (sh_FlowSetID h))) (set_reader r s)).
    by destruct (decodeSet_skip _ _ _ _) as [? []].
  - rewrite v9_body_nofuel by done. apply v9_loop_terminates; try done.
    unfold data_template in Ed. destruct (Z.gtb_spec (sh_FlowSetID h) 255); [lia|].
    unfold loop_progresses. destruct (Z.eqb_spec (sh_FlowSetID h) 2); [done|].
    destruct (Z.eqb_spec (sh_FlowSetID h) 3); [done|]. lia.
Qed.

(** Exactly the stuck sets keep [decodeSet] busy for ever. *)
Lemma v9_decodeSet_diverges fuel s :
  cache_ok (st_mem s) -> 4 <= len (data (st_reader s)) -> len (data (st_reader s)) < Z.of_nat fuel ->
  (decodeSet im raddr unix_now fuel s).2 = NoFuel <-> stuck s.
Proof.
  intros Hc Hl Hf. pose proof (v9_SetHeader_ok (st_reader s) Hl) as Hh. unfold stuck.
  rewrite (v9_decodeSet_eq _ _ _ _ Hh), Hh. set (r := mkReader _ _). set (h := mkSetHeader _ _) in *.
  assert (0 <= sh_FlowSetID h) by apply be_decode_range.
  assert (len (data r) < Z.of_nat fuel) by (simpl; rewrite (len_drop 4); lia).
  destruct (Z.lt_ge_cases (sh_Length h) 4) as [Hs|Hs].
  { split; [|intros (? & ? & ? & [= <- <-] & ? & _); lia].
    unfold decodeSet_body. case_test; [done|lia]. }
  pose proof (v9_loop_cond_start (count (st_reader s)) h s r eq_refl eq_refl) as Hcond.
  pose proof (v9_template_choice h s r Hc) as Ht.
  destruct (data_template s h) as [tr|] eqn:Ed.
  - rewrite v9_body_nofuel, v9_known_diverges, Hcond, andb_true_iff, !Z.gtb_lt by done. split.
    + intros ((H1 & H2) & H3 & H4). by exists r, h, tr.
    + intros (? & ? & ? & [= <- <-] & H1 & H2 & E & H3 & H4). rewrite Ed in E. by simplify_eq.
  - split; [intros Hn; exfalso; by apply v9_none_returns in Hn|].
    intros (? & ? & ? & [= <- <-] & _ & _ & E & _). congruence.
Qed.

(** ** [Decode] *)

Inductive set_step (fuel : nat) : St -> St -> Prop :=
| set_step_intro s s' o :
    4 < Len (st_reader s) -> decodeSet im raddr unix_now fuel s = (s', o) -> returns o ->
    set_step fuel s s'.

Lemma v9_decodeSet_progress fuel s :
  cache_ok (st_mem s) -> 4 < len (data (st_reader s)) ->
  let s' := (decodeSet im raddr unix_now fuel s).1 in
  cache_ok (st_mem s') /\ len (data (st_reader s')) <= len (data (st_reader s)) - 4.
Proof.
  intros Hc Hl. cbn zeta.
  rewrite (v9_decodeSet_eq _ _ _ _ (v9_SetHeader_ok (st_reader s) ltac:(lia))).
  match goal with |- context [decodeSet_body _ _ _ _ ?c ?h ?s1] =>
    destruct (v9_safe_body im raddr unix_now s1 fuel c h s1 (v9_st_inv_start s1 Hc))
      as [(Hc' & Ha & _) _] end.
  split; [done|]. pose proof (adv_count _ _ Ha). apply adv_len in Ha. simpl in *.
  rewrite (len_drop 4) in Ha by lia. lia.
Qed.

Lemma v9_Decode_loop_diverges n fuel errs s :
  cache_ok (st_mem s) -> len (data (st_reader s)) < Z.of_nat n ->
  len (data (st_reader s)) < Z.of_nat fuel ->
  (Decode_loop im raddr unix_now n fuel errs s).2 = NoFuel <->
  exists s', rtc (set_step fuel) s s' /\ 4 < Len (st_reader s') /\ stuck s'.
Proof.
  revert errs s. induction n as [|n IH]; intros errs s Hc Hn Hf.
  { pose proof (len_nonneg (data (st_reader s))). lia. }
  cbn [Decode_loop]. unmonad. cbn beta iota. unfold Len.
  destruct (Z.gtb_spec (len (data (st_reader s))) 4) as [Hl|Hl].
  2: { split; [done|]. intros (s' & Hr & Hl' & _). exfalso.
       inversion Hr as [|? ? ? Hs]; subst; [|inversion Hs]; unfold Len in *; lia. }
  pose proof (v9_decodeSet_diverges fuel s Hc ltac:(lia) Hf) as Hd.
  pose proof (v9_decodeSet_progress fuel s Hc ltac:(lia)) as Hp.
  destruct (v9_safe_decodeSet im raddr unix_now s fuel s (v9_st_inv_start s Hc)) as [_ Hsafe].
  destruct (decodeSet im raddr unix_now fuel s) as [s1 o] eqn:E. simpl in *.
  assert (returns o -> forall errs',
    (Decode_loop im raddr unix_now n fuel errs' s1).2 = NoFuel <->
    exists s', rtc (set_step fuel) s s' /\ 4 < len (data (st_reader s')) /\ stuck s') as Hstep.
  { intros Ho errs'. destruct Hp as [Hc1 Hl1]. rewrite IH by (done || lia). split.
    - intros (s' & Hr & H). exists s'. split; [|done]. eapply rtc_l; [|exact Hr].
      by eapply set_step_intro; [unfold Len; lia| |].
    - intros (s' & Hr & H1 & H2). exists s'. split_and!; try done.
      inversion Hr as [|? s2 ? Hs Hr']; subst.
      + exfalso. apply Hd in H2. subst o. done.
      + inversion Hs as [? ? ? _ He _]. rewrite E in He. by inversion He; subst. }
  destruct o as [u|v e| |]; [by apply Hstep|by apply Hstep|done|].
  split; [|done]. intros _. exists s. split; [done|]. split; [lia|]. by apply Hd.
Qed.

(** C29: the NetFlow v9 [Decode] does not terminate on a datagram exactly when, after
    some number of FlowSets that were each finished, it comes to a stuck one: a data
    set whose cached template has width zero, or a set of id 2 or 3, which announces
    more than eight bytes and is followed by more than four.  A datagram of [n] bytes
    without one is decoded within [n + 1] rounds of every loop. *)
Theorem v9_Decode_diverges_iff (fuel : nat) (b : list byte) (mem : MC) (c : nat) :
  cache_ok mem -> len b < Z.of_nat fuel ->
  (Decode im raddr unix_now fuel (NewDecoder b mem c)).2 = NoFuel <->
  20 <= len b /\ be_decode (take 2 b) = 9 /\
  exists s', rtc (set_step fuel) (Decode_start raddr (NewDecoder b mem c)) s' /\
             4 < Len (st_reader s') /\ stuck s'.
Proof.
  intros Hc Hf. destruct (Z.lt_ge_cases (len b) 20) as [Hl|Hl].
  { destruct (PacketHeader_unmarshal_short (NewReader b)) as [r' Hh]; [done|].
    unfold Decode. unmonad. unfold on_reader, zoom. cbn [NewDecoder st_reader]. rewrite Hh.
    split; [done|lia]. }
  destruct (Z.eq_dec (be_decode (take 2 b)) 9) as [Hv|Hv].
  2: { unfold Decode. unmonad. unfold on_reader, zoom. cbn [NewDecoder st_reader].
       rewrite PacketHeader_unmarshal_ok by done. unfold PacketHeader_validate.
       cbn [NewReader data header_of ph_Version]. apply Z.eqb_neq in Hv as Hv'. rewrite Hv'.
       split; [done|lia]. }
  rewrite v9_Decode_eq by done. set (s0 := Decode_start raddr (NewDecoder b mem c)).
  assert (len (data (st_reader s0)) <= len b) by (simpl; rewrite (len_drop 20); lia).
  pose proof (v9_Decode_loop_diverges fuel fuel [] s0 Hc ltac:(lia) ltac:(lia)) as Hd.
  destruct (Decode_loop im raddr unix_now fuel fuel [] s0) as [s' o]. simpl in Hd.
  rewrite <- Hd. destruct o as [errs|v e| |]; simpl in *; try done;
    [destruct (combineErrors errs)|..]; split; (done || by intros (_ & _ & [=])).
Qed.

(** A FlowSet on which the record loop never ends, after sets that were each finished. *)
Definition reaches_stuck (fuel : nat) (s0 : St) : Prop :=
  exists s', rtc (set_step fuel) s0 s' /\ 4 < Len (st_reader s') /\ stuck s'.

Lemma v9_Decode_nofuel fuel b (mem : MC) c :
  cache_ok mem -> len b < Z.of_nat fuel ->
  (Decode im raddr unix_now fuel (NewDecoder b mem c)).2 = NoFuel ->
  reaches_stuck fuel (Decode_start raddr (NewDecoder b mem c)).
Proof.
  intros Hc Hf. destruct (Z.lt_ge_cases (len b) 20) as [Hl|Hl].
  { destruct (PacketHeader_unmarshal_short (NewReader b)) as [r' Hh]; [done|].
    unfold Decode. unmonad. unfold on_reader, zoom. simpl. by rewrite Hh. }
  destruct (Z.eqb_spec (be_decode (take 2 b)) 9) as [Hv|Hv]; simpl.
  2: { unfold Decode. unmonad. unfold on_reader, zoom. simpl.
       rewrite PacketHeader_unmarshal_ok by done. unfold PacketHeader_validate. simpl.
       apply Z.eqb_neq in Hv. by rewrite Hv. }
  rewrite v9_Decode_eq by done. set (s0 := Decode_start raddr (NewDecoder b mem c)).
  assert (len (data (st_reader s0)) <= len b) by (simpl; rewrite (len_drop 20); lia).
  pose proof (v9_Decode_loop_diverges fuel fuel [] s0 Hc ltac:(lia) ltac:(lia)) as Hd.
  destruct (Decode_loop im raddr unix_now fuel fuel [] s0) as [s' []]; simpl in *; try done.
  - by destruct (combineErrors a).
  - intros _. by apply Hd.
Qed.

(** C28: the outcome of the NetFlow v9 [Decode] on every datagram, with a well-formed cache
    and a loop bound above the length of the datagram: one shorter than the 20-byte header or
    of another version gives no message and that error; any other gives a message with the
    agent's address, the header read and one set header per decoded record (possibly together
    with an error), or leads to a set on which the record loop never ends.  It never panics
    and the cache stays well-formed. *)
Theorem v9_Decode_outcome (fuel : nat) (b : list byte) (mem : MC) (c : nat) :
  cache_ok mem -> len b < Z.of_nat fuel ->
  let out := Decode im raddr unix_now fuel (NewDecoder b mem c) in
  cache_ok (st_mem out.1) /\
  if len b <? 20 then out.2 = Err None errReader
  else if negb (be_decode (take 2 b) =? 9)
    then out.2 = Err None (errNetflowVersion (be_decode (take 2 b)))
  else match out.2 with
       | Ok m | Err (Some m) _ =>
           msg_AgentID m = IP_String raddr /\ msg_Header m = header_of b /\
           length (msg_SetHeaders m) = length (msg_DataSets m)
       | NoFuel => reaches_stuck fuel (Decode_start raddr (NewDecoder b mem c))
       | _ => False
       end.
Proof.
  intros Hc Hf. cbn zeta. case_test.
  { destruct (PacketHeader_unmarshal_short (NewReader b)) as [r' Hh]; [done|].
    unfold Decode. unmonad. unfold on_reader, zoom. simpl. by rewrite Hh. }
  destruct (Z.eqb_spec (be_decode (take 2 b)) 9) as [Hv|Hv]; simpl.
  2: { unfold Decode. unmonad. unfold on_reader, zoom. simpl.
       rewrite PacketHeader_unmarshal_ok by done. unfold PacketHeader_validate. simpl.
       apply Z.eqb_neq in Hv. by rewrite Hv. }
  rewrite v9_Decode_eq by done. set (s0 := Decode_start raddr (NewDecoder b mem c)).
  assert (len (data (st_reader s0)) <= len b) by (simpl; rewrite (len_drop 20); lia).
  destruct (v9_safe_Decode_loop im raddr unix_now s0 fuel fuel [] s0 (v9_st_inv_start s0 Hc))
    as [(Hc' & _ & Ha & Hh & _ & Hn') _].
  pose proof (v9_Decode_loop_no_error im raddr unix_now fuel fuel [] s0 Hc) as Hn.
  pose proof (v9_Decode_loop_diverges fuel fuel [] s0 Hc ltac:(lia) ltac:(lia)) as Hd.
  destruct (Decode_loop im raddr unix_now fuel fuel [] s0) as [s' []]; simpl in *; try done.
  - destruct (combineErrors a); simpl; split_and!; try done; try apply Hc'; by apply Hn'.
  - split; [apply Hc'|]. by apply Hd.
Qed.

End termination.

(** A set of id 2, which is neither a template set nor a data set. *)
Lemma v9_Decode_diverges_iff_witness :
  (Decode InfoModel (bytes [192; 0; 2; 1]) (fun _ => 0) 40
    (NewDecoder (bytes [0; 9; 0; 1; 0; 0; 0; 0; 0; 0; 0; 0; 0; 0; 0; 0; 0; 0; 0; 0;
                        0; 2; 0; 9; 1; 2; 3; 4; 5]) (GetCache None) 0)).2 = NoFuel.
Proof.
  apply v9_Decode_diverges_iff; [apply v9_cache_ok_fresh|done|]. split_and!; [done|done|].
  eexists. split; [apply rtc_refl|]. split; [done|].
  eexists _, _, zeroTemplateRecord. split; [vm_compute; reflexivity|].
  split; [done|]. split; [done|]. split; [done|]. split; [done|]. split; constructor.
Defined.

Lemma v9_Decode_outcome_witness :
  let b := bytes [0; 9; 0; 0; 0; 0; 0; 1; 0; 0; 0; 2; 0; 0; 0; 3; 0; 0; 0; 4] in
  match (Decode InfoModel (bytes [192; 0; 2; 1]) (fun _ => 0) 24
           (NewDecoder b (GetCache None) 0)).2 with
  | Ok m | Err (Some m) _ => msg_Header m = header_of b
  | _ => False
  end.
Proof.
  cbv zeta. match goal with |- context [NewDecoder ?b _ _] =>
    pose proof (v9_Decode_outcome InfoModel (bytes [192; 0; 2; 1]) (fun _ => 0) 24 b
      (GetCache None) 0 v9_cache_ok_fresh ltac:(vm_compute; reflexivity)) as [_ H] end.
  vm_compute in H. vm_compute. apply H.
Defined.
