(* ===== verification/NetflowTypes.v ===== *)
(** The types of decoded values: every field of every message that the NetFlow v9 [Decode]
    returns, for whatever bytes, carries the field id of an element of the information
    model and a value of that element's type. *)

From S2P Require Import Prelude GoNet InfoModel Interpret TemplateCache Reader NetflowDecoder NetflowFacts.

Open Scope Z_scope.

Section types.
Context (im : IANAInfoModel).

Definition field_typed (f : DecodedField) : Prop :=
  exists k m, im !! k = Some m /\ df_ID f = FieldID m /\ has_type (Type_ m) (df_Value f).

Lemma v9_keeps_decode_specs (P : Reader -> Prop) err specs fields :
  (forall n, keeps P (fun _ => True) (Read n)) -> Forall field_typed fields ->
  keeps P (Forall field_typed) (decode_specs im err specs fields).
Proof.
  intros HR. revert fields. induction specs as [|f specs IH]; intros fields Hf; [by apply keeps_ret|].
  cbn [decode_specs]. apply keeps_seq; [apply HR|]. intros b.
  destruct (im !! _) as [m|] eqn:E; [|apply keeps_fail].
  apply (keeps_bind _ (fun v => v = interpret_spec b (Type_ m))).
  { apply keeps_state; intros r; by rewrite Interpret_eq. }
  intros v ->. apply IH, Forall_app. split; [done|]. apply Forall_singleton.
  eexists _, m. split; [exact E|]. split; [done|]. apply interpret_has_type.
Qed.

Context {MC : Type} `{!TemplateStore TemplateRecord MC}.
Context (raddr : list byte) (unix_now : nat -> Z).

Definition msg_typed (m : Message) : Prop := Forall (Forall field_typed) (msg_DataSets m).
Definition msg_paired (m : Message) : Prop := length (msg_SetHeaders m) = length (msg_DataSets m).
Definition st_typed (s : DecState (MC:=MC)) : Prop := msg_typed (st_msg s) /\ msg_paired (st_msg s).

Lemma v9_typed_on_reader {A} (Q : A -> Prop) (m : M Reader A) :
  keeps (fun _ => True) Q m -> keeps st_typed Q (on_reader m).
Proof.
  intros Hm s Hs. destruct (Hm (st_reader s) I) as [_ H]. unfold on_reader, zoom.
  by destruct (m (st_reader s)) as [r []].
Qed.

Lemma v9_typed_reader_any {A} (m : M Reader A) : keeps st_typed (fun _ => True) (on_reader m).
Proof. apply v9_typed_on_reader, keeps_any. by intros. Qed.

Lemma v9_typed_on_mem {A} (m : M MC A) : keeps st_typed (fun _ => True) (on_mem m).
Proof.
  intros s Hs. unfold on_mem, zoom. by destruct (m (st_mem s)) as [r []].
Qed.

Lemma v9_typed_new_template m : keeps st_typed (fun _ => True) (new_template m).
Proof. intros s Hs. unfold new_template. by destruct (m _) as [[r tr] []]. Qed.

Lemma v9_typed_decodeData tr : keeps st_typed (Forall field_typed) (on_reader (decodeData im tr)).
Proof.
  apply v9_typed_on_reader. unfold decodeData.
  apply (keeps_bind _ (Forall field_typed)); [|intros fs Hfs];
    (apply v9_keeps_decode_specs; [intros; apply keeps_any; by intros|done || by constructor]).
Qed.

Lemma v9_typed_loop fuel start h tr :
  keeps st_typed (fun _ => True) (decodeSet_loop im raddr unix_now fuel start h tr).
Proof.
  induction fuel as [|fuel IH]; [apply keeps_nofuel|]. cbn [decodeSet_loop].
  apply keeps_seq; [by apply keeps_state|]. intros s. destruct (_ && _); [|by apply keeps_ret].
  destruct (_ || _); [|destruct (_ && _); [by apply keeps_ret|]].
  - apply keeps_seq; [apply v9_typed_new_template|]. intros [t err].
    apply keeps_seq; [destruct err; [by apply keeps_ret|]|].
    { apply keeps_seq; [by intros ? ?|]. intros now. apply v9_typed_on_mem. }
    intros _. apply keeps_seq; [by apply keeps_modify|]. intros _. destruct err; [by apply keeps_ret|done].
  - apply (keeps_bind _ _ _ _ _ (keeps_try _ _ _ (v9_typed_decodeData tr))). intros [d|e] Hd; [|by apply keeps_ret].
    apply keeps_seq; [|by intros]. apply keeps_modify. intros s' [Hs' Hl].
    split; [|unfold msg_paired in *; cbn; rewrite !length_app; cbn; lia].
    unfold msg_typed in *. cbn. apply Forall_app. by split; [|apply Forall_singleton].
Qed.

Lemma v9_typed_decodeSet fuel : keeps st_typed (fun _ => True) (decodeSet im raddr unix_now fuel).
Proof.
  unfold decodeSet, decodeSet_body. apply keeps_seq; [by apply keeps_state|]. intros s.
  apply keeps_seq; [apply v9_typed_reader_any|]. intros h. destruct (_ <? _); [apply keeps_fail|].
  apply keeps_seq.
  { unfold decodeSet_template. destruct (_ >? _); [|by apply keeps_ret].
    apply keeps_seq; [apply v9_typed_on_mem|]. intros [t|]; by apply keeps_ret. }
  intros [tr err]. apply keeps_seq; [destruct err; [by apply keeps_ret|apply v9_typed_loop]|].
  intros e. unfold decodeSet_skip. apply keeps_seq; [by apply keeps_state|]. intros s'.
  apply keeps_seq; [|intros [e'|]; [apply keeps_fail|by apply keeps_ret]].
  destruct (_ >? 0); [|by apply keeps_ret].
  apply keeps_seq; [|intros; by apply keeps_ret].
  intros s1 Hs1. split; [|by destruct (_).2].
  apply (keeps_try _ _ _ (v9_typed_reader_any _) s1 Hs1).
Qed.

Lemma v9_typed_Decode_loop n fuel errs :
  keeps st_typed (fun _ => True) (Decode_loop im raddr unix_now n fuel errs).
Proof.
  revert errs. induction n as [|n IH]; intros errs; [apply keeps_nofuel|]. cbn [Decode_loop].
  apply keeps_seq; [by apply keeps_state|]. intros s. destruct (_ >? 4); [|by apply keeps_ret].
  apply (keeps_bind _ _ _ _ _ (keeps_try _ _ _ (v9_typed_decodeSet fuel))). intros [?|e] _; apply IH.
Qed.

(** Whatever the bytes and whatever the cache holds, every field of a message that
    [Decode] returns has the id of an element and a value of that element's type; a message has a set header
    per record. *)
Lemma v9_Decode_typed (fuel : nat) (b : list byte) (mem : MC) (c : nat) :
  match (Decode im raddr unix_now fuel (NewDecoder b mem c)).2 with
  | Ok m | Err (Some m) _ => msg_typed m /\ msg_paired m
  | _ => True
  end.
Proof.
  unfold Decode. unmonad. unfold on_reader, zoom.
  destruct (PacketHeader_unmarshal _) as [r [h|v e| |]]; try done.
  unfold PacketHeader_validate. destruct (negb _); [done|].
  unmonad. cbn beta iota. match goal with |- context [Decode_loop _ _ _ _ _ _ ?s] => set (s0 := s) end.
  destruct (v9_typed_Decode_loop fuel fuel [] s0) as [H _]; [by split; [constructor|]|].
  destruct (Decode_loop im raddr unix_now fuel fuel [] s0) as [s' [errs|v e| |]]; try done.
  by destruct (combineErrors errs).
Qed.

End types.
