(* ===== verification/NetflowShared.v ===== *)
(** Workers of the NetFlow v9 collector on the shared template cache: [Decode] uses the
    cache through its two methods only, so the interleavings of Interleave.v are those of
    the collector's workers. *)

From S2P Require Import Prelude GoNet InfoModel Interpret TemplateCache Interleave Reader NetflowDecoder NetflowFacts.

#[global] Instance v9_TemplateFieldSpecifier_eq_dec : EqDecision TemplateFieldSpecifier.
Proof. solve_decision. Defined.
#[global] Instance v9_TemplateRecord_eq_dec : EqDecision TemplateRecord.
Proof. solve_decision. Defined.

(** ** [Decode] on two stores *)

Section decode_sim.
Context (im : IANAInfoModel) {MC1 MC2 : Type}.
Context (O1 : StoreOps TemplateRecord MC1) (O2 : StoreOps TemplateRecord MC2).
Context (okA : list byte -> Prop) (R E : MC1 -> MC2 -> Prop) (HS : store_sim okA tr_wf O1 O2 R E).
Context (raddr : list byte) (Ha : okA raddr) (unix_now : nat -> Z).

(** The same decoder state, on related caches. *)
Definition st_rel (s1 : DecState (MC:=MC1)) (s2 : DecState (MC:=MC2)) : Prop :=
  st_reader s1 = st_reader s2 /\ R (st_mem s1) (st_mem s2) /\ st_msg s1 = st_msg s2 /\
  st_clock s1 = st_clock s2.

Definition st_esc (s1 : DecState (MC:=MC1)) (s2 : DecState (MC:=MC2)) : Prop :=
  E (st_mem s1) (st_mem s2).

Abbreviation dsim := (sim st_rel st_esc).
Abbreviation dstays := (stays st_esc).

Lemma v9_stays_same {A} (m : M (DecState (MC:=MC2)) A) : (forall s, st_mem (m s).1 = st_mem s) -> dstays m.
Proof. intros H. apply stays_any. intros s1 s2. unfold st_esc. by rewrite H. Qed.

Lemma v9_stays_on_reader {A} (m : M Reader A) : dstays (on_reader m).
Proof. apply v9_stays_same. intros s. unfold on_reader, zoom. by destruct (m _). Qed.

Lemma v9_stays_modify f : (forall s, st_mem (f s) = st_mem s) -> dstays (modify f).
Proof. intros H. by apply v9_stays_same. Qed.

Lemma v9_stays_on_mem {A} (m : M MC2 A) : stays E m -> dstays (on_mem m).
Proof.
  intros H. apply stays_any. intros s1 s2 Hs. unfold on_mem, zoom.
  destruct (H (st_mem s1) (st_mem s2) Hs) as [H1 _]. by destruct (m _).
Qed.

(** Reading code does the same on both sides and never panics. *)
Lemma v9_sim_read {A B} (Q : A -> Prop) (m : M Reader A) (k1 : A -> M (DecState (MC:=MC1)) B)
    (k2 : A -> M (DecState (MC:=MC2)) B) :
  reads Q m -> (forall a, Q a -> dsim eq (k1 a) (k2 a)) ->
  dsim eq (on_reader m ≫= k1) (on_reader m ≫= k2).
Proof.
  intros Hm Hk s1 s2 (Hr & HR & Hg). unfold mbind, M_bind, on_reader, zoom. rewrite <- Hr.
  destruct (Hm (st_reader s1)) as (_ & H2 & H3).
  destruct (m (st_reader s1)) as [r [a|v e| |]]; cbn in *; try done. by apply Hk.
Qed.

Lemma v9_sim_try_read {A B} (Q : A -> Prop) (m : M Reader A) (k1 : A + GoError -> M (DecState (MC:=MC1)) B)
    (k2 : A + GoError -> M (DecState (MC:=MC2)) B) :
  reads Q m -> (forall x, match x with inl a => Q a | inr _ => True end -> dsim eq (k1 x) (k2 x)) ->
  dsim eq (try (on_reader m) ≫= k1) (try (on_reader m) ≫= k2).
Proof.
  intros Hm Hk s1 s2 (Hr & HR & Hg). unfold mbind, M_bind, try, on_reader, zoom. rewrite <- Hr.
  destruct (Hm (st_reader s1)) as (_ & H2 & H3).
  by destruct (m (st_reader s1)) as [r [a|v e| |]]; cbn in *; try done; apply Hk.
Qed.

Lemma v9_sim_on_mem {A} (Q : A -> A -> Prop) (m1 : M MC1 A) (m2 : M MC2 A) :
  sim R E Q m1 m2 -> dsim Q (on_mem m1) (on_mem m2).
Proof.
  intros Hm s1 s2 (Hr & HR & Hg). specialize (Hm _ _ HR). unfold on_mem, zoom.
  destruct (m1 (st_mem s1)) as [t1 [a1|v1 e1| |]], (m2 (st_mem s2)) as [t2 [a2|v2 e2| |]];
    cbn in *; try tauto; destruct Hm as [Ht Hm]; (split; [by split_and!; try apply Hg|exact Hm]).
Qed.

Lemma v9_sim_get_bind {A} (k1 : DecState (MC:=MC1) -> M (DecState (MC:=MC1)) A)
    (k2 : DecState (MC:=MC2) -> M (DecState (MC:=MC2)) A) :
  (forall s1 s2, st_rel s1 s2 -> dsim eq (k1 s1) (k2 s2)) -> dsim eq (get ≫= k1) (get ≫= k2).
Proof. intros H s1 s2 Hs. by apply H. Qed.

Lemma v9_sim_modify_bind {A} f1 f2 (m1 : M (DecState (MC:=MC1)) A) (m2 : M (DecState (MC:=MC2)) A) :
  (forall s1 s2, st_rel s1 s2 -> st_rel (f1 s1) (f2 s2)) -> dsim eq m1 m2 ->
  dsim eq (modify f1;; m1) (modify f2;; m2).
Proof. intros Hf Hm s1 s2 Hs. apply Hm. by apply Hf. Qed.

(** *** After the first run has stopped *)

Lemma v9_stays_new_template m : dstays (new_template m).
Proof.
  apply v9_stays_same. intros s. unfold new_template. by destruct (m _) as [[r tr] []].
Qed.

Ltac v9_stays_step := first
  [ apply v9_stays_new_template | apply v9_stays_on_reader | apply v9_stays_on_mem, HS | apply stays_ret | apply stays_fail
  | apply stays_nofuel | apply stays_get | apply stays_try | assumption
  | apply stays_bind; [|intros ?]
  | progress case_match | by apply v9_stays_same ].

Lemma v9_stays_loop fuel start h tr : dstays (decodeSet_loop im raddr unix_now fuel start h tr).
Proof.
  induction fuel as [|fuel IH]; cbn [decodeSet_loop]; [apply stays_nofuel|]. repeat v9_stays_step.
Qed.

Lemma v9_stays_skip start h err : dstays (decodeSet_skip start h err).
Proof. unfold decodeSet_skip. repeat v9_stays_step. Qed.

Lemma v9_stays_template h : dstays (decodeSet_template raddr h).
Proof.
  unfold decodeSet_template. repeat v9_stays_step.
Qed.

Lemma v9_stays_body fuel start h : dstays (decodeSet_body im raddr unix_now fuel start h).
Proof.
  unfold decodeSet_body. repeat first [apply v9_stays_template|apply v9_stays_loop|apply v9_stays_skip|v9_stays_step].
Qed.

Lemma v9_stays_decodeSet fuel : dstays (decodeSet im raddr unix_now fuel).
Proof. unfold decodeSet. repeat first [apply v9_stays_body|v9_stays_step]. Qed.

Lemma v9_stays_Decode_loop fuel sf errs : dstays (Decode_loop im raddr unix_now fuel sf errs).
Proof.
  revert errs. induction fuel as [|fuel IH]; intros errs; cbn [Decode_loop]; [apply stays_nofuel|].
  repeat first [apply v9_stays_decodeSet|apply IH|v9_stays_step].
Qed.

Lemma v9_stays_Decode fuel : dstays (Decode im raddr unix_now fuel).
Proof.
  unfold Decode, PacketHeader_validate. repeat first [apply v9_stays_Decode_loop|v9_stays_step].
Qed.

(** *** The two runs *)

(** A template is read into a fresh record, also when that fails. *)
Lemma v9_sim_new_template m : fills (fun _ => True) m ->
  dsim (fun p q => p = q /\ tr_wf p.1) (new_template m) (new_template m).
Proof.
  intros Hm s1 s2 (Hr & HR & Hg). unfold new_template. rewrite <- Hr.
  destruct (Hm (st_reader s1, zeroTemplateRecord) v9_tr_wf_zero) as (_ & H2 & H3 & _).
  by destruct (m _) as [[r tr] []]; cbn in *; try done.
Qed.

Lemma v9_sim_loop fuel start h tr : tr_wf tr ->
  dsim eq (decodeSet_loop im raddr unix_now fuel start h tr)
          (decodeSet_loop im raddr unix_now fuel start h tr).
Proof.
  intros Htr. induction fuel as [|fuel IH]; cbn [decodeSet_loop]; [apply sim_nofuel|].
  apply v9_sim_get_bind. intros s1 s2 (Hr & _). rewrite Hr. case_match; [|by apply sim_ret].
  case_match; [|case_match; [by apply sim_ret|]].
  - eapply sim_bind with (Q := fun p q => p = q /\ tr_wf p.1).
    { apply v9_sim_new_template. destruct (sh_FlowSetID h =? 0);
        [apply fills_TemplateRecord_unmarshal|apply fills_TemplateRecord_unmarshalOpts]. }
    { intros [t err]. repeat first [apply v9_stays_loop|v9_stays_step]. }
    intros [t err] ? [<- Ht]. eapply sim_bind with (Q := eq).
    { destruct err; [by apply sim_ret|]. eapply sim_bind with (Q := eq).
      - intros s3 s4 (? & ? & ? & Hc). by unfold time_now; rewrite Hc.
      - intros now. apply v9_stays_on_mem, HS.
      - intros now ? <-. apply v9_sim_on_mem. by apply (ss_insert _ _ _ _ _ _ HS). }
    { intros _. repeat first [apply v9_stays_loop|v9_stays_step]. }
    intros _ _ _. apply v9_sim_modify_bind.
    + intros s3 s4 (? & ? & Hm & ?). by unfold st_rel; cbn; rewrite Hm.
    + destruct err; [by apply sim_ret|done].
  - apply (v9_sim_try_read _ _ _ _ (v9_reads_decodeData im tr Htr)). intros [d|e] _; [|by apply sim_ret].
    apply v9_sim_modify_bind; [|done]. intros s3 s4 (? & ? & Hm & ?). by unfold st_rel; cbn; rewrite Hm.
Qed.

Lemma v9_sim_skip start h err : dsim eq (decodeSet_skip start h err) (decodeSet_skip start h err).
Proof.
  unfold decodeSet_skip. apply v9_sim_get_bind. intros s1 s2 (Hr & _). rewrite Hr.
  eapply sim_bind with (Q := eq); [| |intros [e|] ? <-; [by apply sim_fail|by apply sim_ret]].
  - destruct (Z.gtb_spec (sh_Length h - (ReadCount (st_reader s2) - start)) 0);
      [|by apply sim_ret].
    eapply v9_sim_try_read; [apply reads_Read; lia|]. intros x _. by apply sim_ret.
  - intros [e|]; repeat v9_stays_step.
Qed.

(** A known template is well-formed. *)
Lemma v9_sim_template h :
  dsim (fun a b => a = b /\ tr_wf a.1) (decodeSet_template raddr h) (decodeSet_template raddr h).
Proof.
  unfold decodeSet_template. case_match; [|apply sim_ret; split; [done|apply v9_tr_wf_zero]].
  eapply sim_bind; [apply v9_sim_on_mem; by apply (ss_retrieve _ _ _ _ _ _ HS)| |].
  - intros o. repeat v9_stays_step.
  - intros o ? [<- Ho]. destruct o as [t|]; apply sim_ret; (split; [done|]); [by apply Ho|apply v9_tr_wf_zero].
Qed.

Lemma v9_sim_body fuel start h :
  dsim eq (decodeSet_body im raddr unix_now fuel start h) (decodeSet_body im raddr unix_now fuel start h).
Proof.
  unfold decodeSet_body. case_match; [by apply sim_fail|].
  eapply sim_bind; [apply v9_sim_template| |].
  - intros [tr err]. repeat first [apply v9_stays_loop|apply v9_stays_skip|v9_stays_step].
  - intros [tr err] ? [<- Htr]. eapply sim_bind with (Q := eq).
    + destruct err; [by apply sim_ret|by apply v9_sim_loop].
    + intros. apply v9_stays_skip.
    + intros e ? <-. apply v9_sim_skip.
Qed.

Lemma v9_sim_decodeSet fuel :
  dsim eq (decodeSet im raddr unix_now fuel) (decodeSet im raddr unix_now fuel).
Proof.
  unfold decodeSet. apply v9_sim_get_bind. intros s1 s2 (Hr & _). rewrite Hr.
  apply (v9_sim_read _ _ _ _ v9_reads_SetHeader). intros h _. apply v9_sim_body.
Qed.

Lemma v9_sim_Decode_loop fuel sf errs :
  dsim eq (Decode_loop im raddr unix_now fuel sf errs) (Decode_loop im raddr unix_now fuel sf errs).
Proof.
  revert errs. induction fuel as [|fuel IH]; intros errs; cbn [Decode_loop]; [apply sim_nofuel|].
  apply v9_sim_get_bind. intros s1 s2 (Hr & _). rewrite Hr. case_match; [|by apply sim_ret].
  eapply sim_bind; [apply sim_try, v9_sim_decodeSet| |].
  - intros x. repeat first [apply v9_stays_Decode_loop|v9_stays_step].
  - intros [a1|e1] [a2|e2] Hx; try done. subst e2. apply IH.
Qed.

Lemma v9_sim_Decode fuel : dsim eq (Decode im raddr unix_now fuel) (Decode im raddr unix_now fuel).
Proof.
  unfold Decode. apply (v9_sim_read _ _ _ _ v9_reads_PacketHeader). intros h _.
  unfold PacketHeader_validate. destruct (negb _).
  - by intros s1 s2 Hs.
  - eapply sim_bind with (Q := eq); [by apply sim_ret|intros; repeat first [apply v9_stays_Decode_loop|v9_stays_step]|].
    intros _ _ _. apply v9_sim_modify_bind; [intros s1 s2 (? & ? & ? & ?); by split_and!|].
    eapply sim_bind; [apply v9_sim_Decode_loop| |].
    + intros errs. repeat v9_stays_step.
    + intros errs ? <-. apply v9_sim_get_bind. intros s1 s2 (_ & _ & Hm & _). rewrite Hm.
      destruct (combineErrors errs); [|by apply sim_ret]. apply sim_fail. by constructor.
Qed.

End decode_sim.
