(* ===== verification/Packet.v ===== *)
(** The packet dissector used on sampled headers, [src/packet/]: [packet.go],
    [ethernet.go], [network.go], [transport.go] and [icmp.go].

    A [Packet] is the Go struct; its methods run in the state monad over it, every
    index and slice expression with its bounds check, so that the absence of panics is
    something to prove (and has exceptions, see the theorems). *)

From S2P Require Import Prelude GoNet.

(** ** Data *)

Definition headerProtocolEthernet : Z := 1.
Definition headerProtocolIPv4 : Z := 11.
Definition headerProtocolIPv6 : Z := 12.

Definition EtherTypeIPv4 : Z := 0x0800.
Definition EtherTypeIPv6 : Z := 0x86DD.
Definition EtherTypeIEEE8021Q : Z := 0x8100.

Definition IPv4HLen : Z := 20.
Definition IPv6HLen : Z := 40.

Definition IANAProtoICMP : Z := 1.
Definition IANAProtoTCP : Z := 6.
Definition IANAProtoUDP : Z := 17.

Record Datalink : Type := mkDatalink {
  SrcMAC : string; DstMAC : string; Vlan : Z; EtherType : Z
}.

Record IPv4Header : Type := mkIPv4Header {
  v4_Version : Z; v4_TOS : Z; v4_TotalLen : Z; v4_ID : Z; v4_Flags : Z; v4_FragOff : Z;
  v4_TTL : Z; v4_Protocol : Z; v4_Checksum : Z; v4_Src : string; v4_Dst : string
}.

Record IPv6Header : Type := mkIPv6Header {
  v6_Version : Z; v6_TrafficClass : Z; v6_FlowLabel : Z; v6_PayloadLen : Z; v6_NextHeader : Z;
  v6_HopLimit : Z; v6_Src : string; v6_Dst : string
}.

Record TCPHeader : Type := mkTCPHeader {
  tcp_SrcPort : Z; tcp_DstPort : Z; tcp_DataOffset : Z; tcp_Reserved : Z; tcp_Flags : Z
}.

Record UDPHeader : Type := mkUDPHeader { udp_SrcPort : Z; udp_DstPort : Z }.

Record ICMP : Type := mkICMP { icmp_Type : Z; icmp_Code : Z; icmp_RestHeader : list byte }.

(** The dynamic types of the [interface{}] fields [L3] and [L4]. *)
Inductive Layer3 : Type := L3_IPv4 (h : IPv4Header) | L3_IPv6 (h : IPv6Header).
Inductive Layer4 : Type := L4_ICMP (h : ICMP) | L4_TCP (h : TCPHeader) | L4_UDP (h : UDPHeader).

Record Packet : Type := mkPacket {
  L2 : Datalink; L3 : option Layer3; L4 : option Layer4; pdata : list byte
}.

Definition zeroDatalink : Datalink := mkDatalink EmptyString EmptyString 0 0.
Definition NewPacket : Packet := mkPacket zeroDatalink None None [].

Definition set_data (d : list byte) (p : Packet) : Packet := mkPacket (L2 p) (L3 p) (L4 p) d.
Definition set_L2 (l : Datalink) (p : Packet) : Packet := mkPacket l (L3 p) (L4 p) (pdata p).
Definition set_L3 (l : Layer3) (p : Packet) : Packet := mkPacket (L2 p) (Some l) (L4 p) (pdata p).
Definition set_L4 (l : Layer4) (p : Packet) : Packet := mkPacket (L2 p) (L3 p) (Some l) (pdata p).

(** [int(b[i])]. *)
Definition at_ {S} (b : list byte) (i : Z) : M S Z := c ← index b i; mret (u8 c).

(** [int(b[i])<<8 | int(b[i+1])]. *)
Definition at16 {S} (b : list byte) (i : Z) : M S Z :=
  h ← at_ b i;
  l ← at_ b (i + 1);
  mret (Z.lor (Z.shiftl h 8) l).

(** ** Transport layer *)

Definition decodeICMP {S} (b : list byte) : M S ICMP :=
  if len b <? 5 then fail None errICMPHLenTooSHort
  else
    t ← at_ b 0;
    c ← at_ b 1;
    rest ← slice b 4 (len b);
    mret (mkICMP t c rest).

Definition decodeTCP {S} (b : list byte) : M S TCPHeader :=
  if len b <? 20 then fail None errShortTCPHeaderLength
  else
    src ← at16 b 0;
    dst ← at16 b 2;
    off ← at_ b 12;
    fl ← at16 b 12;
    mret (mkTCPHeader src dst (Z.shiftr off 4) 0 (Z.land fl 0x01ff)).

Definition decodeUDP {S} (b : list byte) : M S UDPHeader :=
  if len b <? 8 then fail None errShortUDPHeaderLength
  else
    src ← at16 b 0;
    dst ← at16 b 2;
    mret (mkUDPHeader src dst).

(** [p.data = p.data[n:]]. *)
Definition advance_data (n : Z) : M Packet () :=
  p ← get;
  d ← slice (pdata p) n (len (pdata p));
  modify (set_data d).

Definition decodeNextLayer : M Packet () :=
  p ← get;
  match L3 p with
  | None => fail None errUnknownL3Protocol
  | Some l3 =>
      let proto := match l3 with L3_IPv4 h => v4_Protocol h | L3_IPv6 h => v6_NextHeader h end in
      if proto =? IANAProtoICMP then
        icmp ← decodeICMP (pdata p);
        modify (set_L4 (L4_ICMP icmp));;
        advance_data 4
      else if proto =? IANAProtoTCP then
        tcp ← decodeTCP (pdata p);
        modify (set_L4 (L4_TCP tcp));;
        advance_data 20
      else if proto =? IANAProtoUDP then
        udp ← decodeUDP (pdata p);
        modify (set_L4 (L4_UDP udp));;
        advance_data 8
      else fail None errUnknownTransportLayer
  end.

(** ** Network layer *)

Definition decodeIPv6Header : M Packet () :=
  p ← get;
  let d := pdata p in
  if len d <? IPv6HLen then fail None errShortIPv6HeaderLength
  else
    src ← slice d 8 24;
    dst ← slice d 24 40;
    b0 ← at_ d 0;
    b1 ← at_ d 1;
    b2 ← at_ d 2;
    b3 ← at_ d 3;
    payloadLen ← at16 d 4;
    nextHeader ← at_ d 6;
    hopLimit ← at_ d 7;
    modify (set_L3 (L3_IPv6 (mkIPv6Header
      (Z.shiftr b0 4)
      (Z.lor (Z.shiftl (Z.land b0 0x0f) 4) (Z.shiftr b1 4))
      (Z.lor (Z.lor (Z.shiftl (Z.land b1 0x0f) 16) (Z.shiftl b2 8)) b3)
      payloadLen nextHeader hopLimit (IP_String src) (IP_String dst))));;
    advance_data IPv6HLen.

(** [FragOff] is not assigned by the source: it keeps its zero value. *)
Definition decodeIPv4Header : M Packet () :=
  p ← get;
  let d := pdata p in
  if len d <? IPv4HLen then fail None errShortIPv4HeaderLength
  else
    src ← slice d 12 16;
    dst ← slice d 16 20;
    b0 ← at_ d 0;
    tos ← at_ d 1;
    totalLen ← at16 d 2;
    id ← at16 d 4;
    b6 ← at_ d 6;
    ttl ← at_ d 8;
    protocol ← at_ d 9;
    checksum ← at16 d 10;
    modify (set_L3 (L3_IPv4 (mkIPv4Header
      (Z.shiftr (Z.land b0 0xf0) 4) tos totalLen id (Z.land b6 0x07) 0 ttl protocol checksum
      (IP_String src) (IP_String dst))));;
    advance_data IPv4HLen.

(** ** Data link layer *)

Definition decodeIEEE802 {S} (b : list byte) : M S Datalink :=
  if len b <? 14 then fail (Some zeroDatalink) errShortEthernetLength
  else
    etherType ← at16 b 12;
    if negb (etherType =? EtherTypeIEEE8021Q) then
      dst ← slice b 0 6;
      src ← slice b 6 12;
      mret (mkDatalink (HardwareAddr_String src) (HardwareAddr_String dst) 0 etherType)
    else mret (mkDatalink EmptyString EmptyString 0 etherType).

(** The VLAN tag is cut out of the frame in place: the inner ether type moves to
    bytes 12 and 13, the rest of the frame to byte 14. *)
Definition remove_tag {S} (d : list byte) : M S (Z * list byte) :=
  vlan ← at16 d 14;
  b16 ← index d 16;
  b17 ← index d 17;
  let d := <[13%nat := b17]> (<[12%nat := b16]> d) in
  front ← slice d 0 14;
  back ← slice d 18 (len d);
  mret (vlan, front ++ back).

Definition decodeEthernet : M Packet () :=
  p ← get;
  if len (pdata p) <? 14 then fail None errShortEthernetHeaderLength
  else
    d ← decodeIEEE802 (pdata p);
    d ← (if EtherType d =? EtherTypeIEEE8021Q then
           '(vlan, rest) ← remove_tag (pdata p);
           modify (set_data rest);;
           d ← decodeIEEE802 rest;
           mret (mkDatalink (SrcMAC d) (DstMAC d) vlan (EtherType d))
         else mret d);
    modify (set_L2 d);;
    advance_data 14.

Definition decodeEthernetHeader : M Packet () :=
  decodeEthernet;;
  p ← get;
  let etherType := EtherType (L2 p) in
  if etherType =? EtherTypeIPv4 then
    decodeIPv4Header;;
    decodeNextLayer
  else if etherType =? EtherTypeIPv6 then
    decodeIPv6Header;;
    decodeNextLayer
  else fail None errUnknownEtherType.

(** [Decoder] returns the packet together with the error: the final state. *)
Definition Decoder (data : list byte) (protocol : Z) : M Packet () :=
  modify (set_data data);;
  if protocol =? headerProtocolEthernet then decodeEthernetHeader
  else if protocol =? headerProtocolIPv4 then decodeIPv4Header;; decodeNextLayer
  else if protocol =? headerProtocolIPv6 then decodeIPv6Header;; decodeNextLayer
  else fail None errUnknownHeaderProtocol.

(** ** Where the dissector can panic *)

Lemma at_ok {S} b i (s : S) : 0 <= i < len b -> at_ b i s = (s, Ok (u8 (byte_at b i))).
Proof. intros Hi. unfold at_. unmonad. by rewrite index_ok. Qed.

Definition be16_at (b : list byte) (i : Z) : Z :=
  Z.lor (Z.shiftl (u8 (byte_at b i)) 8) (u8 (byte_at b (i + 1))).

Lemma at16_ok {S} b i (s : S) : 0 <= i -> i + 1 < len b -> at16 b i s = (s, Ok (be16_at b i)).
Proof. intros. unfold at16. unmonad. by rewrite !at_ok by lia. Qed.

(** Run the bounds-checked accesses of a goal, the bounds by [lia]. *)
Ltac run_accesses :=
  repeat first [rewrite at_ok by lia | rewrite at16_ok by lia | rewrite index_ok by lia
               | rewrite slice_from by lia | rewrite slice_ok by lia].

Lemma decodeIPv4Header_eq p :
  decodeIPv4Header p =
    if len (pdata p) <? 20 then (p, Err None errShortIPv4HeaderLength)
    else
      let d := pdata p in
      (mkPacket (L2 p) (Some (L3_IPv4 (mkIPv4Header
         (Z.shiftr (Z.land (u8 (byte_at d 0)) 0xf0) 4) (u8 (byte_at d 1)) (be16_at d 2)
         (be16_at d 4) (Z.land (u8 (byte_at d 6)) 0x07) 0 (u8 (byte_at d 8)) (u8 (byte_at d 9))
         (be16_at d 10) (IP_String (take 4 (drop 12 d))) (IP_String (take 4 (drop 16 d))))))
         (L4 p) (drop 20 d), Ok tt).
Proof.
  unfold decodeIPv4Header, IPv4HLen, advance_data. unmonad. case_test; [done|].
  run_accesses. cbn [pdata set_L3]. run_accesses. done.
Qed.

Lemma decodeIPv6Header_eq p :
  decodeIPv6Header p =
    if len (pdata p) <? 40 then (p, Err None errShortIPv6HeaderLength)
    else
      let d := pdata p in
      (mkPacket (L2 p) (Some (L3_IPv6 (mkIPv6Header
         (Z.shiftr (u8 (byte_at d 0)) 4)
         (Z.lor (Z.shiftl (Z.land (u8 (byte_at d 0)) 0x0f) 4) (Z.shiftr (u8 (byte_at d 1)) 4))
         (Z.lor (Z.lor (Z.shiftl (Z.land (u8 (byte_at d 1)) 0x0f) 16)
            (Z.shiftl (u8 (byte_at d 2)) 8)) (u8 (byte_at d 3)))
         (be16_at d 4) (u8 (byte_at d 6)) (u8 (byte_at d 7))
         (IP_String (take 16 (drop 8 d))) (IP_String (take 16 (drop 24 d))))))
         (L4 p) (drop 40 d), Ok tt).
Proof.
  unfold decodeIPv6Header, IPv6HLen, advance_data. unmonad. case_test; [done|].
  run_accesses. cbn [pdata set_L3]. run_accesses. done.
Qed.

(** The transport layer as a function of the protocol number and the bytes. *)
Definition layer4 (proto : Z) (d : list byte) : (Layer4 * list byte) + GoError :=
  if proto =? 1 then
    if len d <? 5 then inr errICMPHLenTooSHort
    else inl (L4_ICMP (mkICMP (u8 (byte_at d 0)) (u8 (byte_at d 1)) (drop 4 d)), drop 4 d)
  else if proto =? 6 then
    if len d <? 20 then inr errShortTCPHeaderLength
    else inl (L4_TCP (mkTCPHeader (be16_at d 0) (be16_at d 2) (Z.shiftr (u8 (byte_at d 12)) 4) 0
                (Z.land (be16_at d 12) 0x01ff)), drop 20 d)
  else if proto =? 17 then
    if len d <? 8 then inr errShortUDPHeaderLength
    else inl (L4_UDP (mkUDPHeader (be16_at d 0) (be16_at d 2)), drop 8 d)
  else inr errUnknownTransportLayer.

Definition l3_proto (l : Layer3) : Z :=
  match l with L3_IPv4 h => v4_Protocol h | L3_IPv6 h => v6_NextHeader h end.

Lemma decodeNextLayer_eq p :
  decodeNextLayer p =
    match L3 p with
    | None => (p, Err None errUnknownL3Protocol)
    | Some l =>
        match layer4 (l3_proto l) (pdata p) with
        | inl (l4, rest) => (mkPacket (L2 p) (L3 p) (Some l4) rest, Ok tt)
        | inr e => (p, Err None e)
        end
    end.
Proof.
  unfold decodeNextLayer, layer4, decodeICMP, decodeTCP, decodeUDP, advance_data, IANAProtoICMP,
    IANAProtoTCP, IANAProtoUDP. unmonad.
  destruct (L3 p) as [l|] eqn:El; [|done]. fold (l3_proto l).
  destruct (l3_proto l =? 1); [|destruct (l3_proto l =? 6); [|destruct (l3_proto l =? 17); [|done]]];
    (case_test; [done|]); run_accesses; cbn [pdata set_L4]; run_accesses;
    unfold set_data, set_L4; cbn [L2 L3 L4]; by rewrite El.
Qed.

(** The network layers never panic. *)
Lemma network_returns p : returns (decodeNextLayer p).2 /\
  returns ((decodeIPv4Header;; decodeNextLayer) p).2 /\
  returns ((decodeIPv6Header;; decodeNextLayer) p).2.
Proof.
  assert (forall p, returns (decodeNextLayer p).2) as Hn.
  { intros q. rewrite decodeNextLayer_eq. destruct (L3 q) as [l|]; [|done].
    by destruct (layer4 _ _) as [[? ?]|]. }
  split; [done|]. unmonad. rewrite decodeIPv4Header_eq, decodeIPv6Header_eq.
  split; case_test; done || apply Hn.
Qed.

(** A frame with a VLAN tag that is cut short. *)
Definition short_tagged (data : list byte) : bool :=
  (14 <=? len data) && (len data <? 18) && (be16_at data 12 =? 0x8100).

Lemma decodeIEEE802_ok {S} b (s : S) :
  14 <= len b -> exists d, decodeIEEE802 b s = (s, Ok d) /\ EtherType d = be16_at b 12.
Proof.
  intros Hl. unfold decodeIEEE802. case_test; [lia|]. unmonad. run_accesses.
  destruct (be16_at b 12 =? EtherTypeIEEE8021Q); cbn [negb]; run_accesses; eexists; by split.
Qed.

Lemma remove_tag_ok {S} d (s : S) :
  18 <= len d -> exists v rest, remove_tag d s = (s, Ok (v, rest)) /\ len rest = len d - 4.
Proof.
  intros Hl. unfold remove_tag. unmonad. run_accesses.
  set (d' := <[13%nat := _]> _).
  assert (len d' = len d) as Hd by (unfold d', len; by rewrite !length_insert).
  run_accesses. eexists _, _. split; [done|]. rewrite len_app.
  rewrite len_take, len_drop by (rewrite ?len_drop by lia; lia). lia.
Qed.

Lemma remove_tag_panic {S} d (s : S) :
  14 <= len d < 18 -> remove_tag d s = (s, Panic).
Proof.
  intros Hl. unfold remove_tag, at16, at_. unmonad.
  assert (len d = 14 \/ len d = 15 \/ len d = 16 \/ len d = 17) as [H|[H|[H|H]]] by lia;
    run_accesses; try done.
  - by rewrite (index_panic d 14) by lia.
  - by rewrite (index_panic d (14 + 1)) by lia.
  - by rewrite (index_panic d 16) by lia.
  - by rewrite (index_panic d 17) by lia.
Qed.

Lemma decodeEthernet_fuel p : (decodeEthernet p).2 <> NoFuel.
Proof.
  unfold decodeEthernet, advance_data. unmonad. case_test; [done|].
  destruct (decodeIEEE802_ok (pdata p) p) as (d & -> & Hd); [lia|].
  destruct (EtherType d =? EtherTypeIEEE8021Q).
  - destruct (Z.lt_ge_cases (len (pdata p)) 18); [by rewrite remove_tag_panic by lia|].
    destruct (remove_tag_ok (pdata p) p) as (v & rest & -> & Hr); [lia|].
    destruct (decodeIEEE802_ok rest (set_data rest p)) as (d' & -> & Hd'); [lia|].
    cbn [pdata set_data set_L2]. by run_accesses.
  - cbn [pdata set_L2]. by run_accesses.
Qed.

(** There is no loop to run out of fuel. *)
Lemma Decoder_no_nofuel data protocol p : (Decoder data protocol p).2 <> NoFuel.
Proof.
  unfold Decoder. rewrite bind_modify. set (q := set_data data p).
  destruct (network_returns q) as (_ & H4 & H6).
  destruct (protocol =? headerProtocolEthernet);
    [|destruct (protocol =? headerProtocolIPv4);
      [intros H; by rewrite H in H4|destruct (protocol =? headerProtocolIPv6); [|done]];
      intros H; by rewrite H in H6].
  unfold decodeEthernetHeader. unfold mbind at 1, M_bind at 1.
  pose proof (decodeEthernet_fuel q) as He.
  destruct (decodeEthernet q) as [p' [[]| | |]]; try done. rewrite bind_get.
  destruct (network_returns p') as (_ & H4' & H6').
  destruct (_ =? EtherTypeIPv4); [intros H; by rewrite H in H4'|].
  destruct (_ =? EtherTypeIPv6); [intros H; by rewrite H in H6'|done].
Qed.

Lemma decodeEthernet_panic p :
  (decodeEthernet p).2 = Panic <-> short_tagged (pdata p) = true.
Proof.
  unfold decodeEthernet, short_tagged, advance_data. unmonad. case_test.
  { split; [done|]. rewrite !andb_true_iff, Z.leb_le. lia. }
  destruct (decodeIEEE802_ok (pdata p) p) as (d & -> & Hd); [lia|].
  change EtherTypeIEEE8021Q with 0x8100. rewrite Hd.
  destruct (Z.eqb_spec (be16_at (pdata p) 12) 0x8100).
  - destruct (Z.lt_ge_cases (len (pdata p)) 18).
    + rewrite remove_tag_panic by lia. split; [|done]. intros _.
      rewrite !andb_true_iff, Z.leb_le, Z.ltb_lt. lia.
    + destruct (remove_tag_ok (pdata p) p) as (v & rest & -> & Hr); [lia|].
      destruct (decodeIEEE802_ok rest (set_data rest p)) as (d' & -> & Hd'); [lia|].
      cbn [pdata set_data set_L2]. run_accesses. split; [done|].
      rewrite !andb_true_iff, Z.ltb_lt. lia.
  - cbn [pdata set_L2]. run_accesses. split; [done|]. by rewrite andb_false_r.
Qed.

Lemma Decoder_panic data protocol p :
  (Decoder data protocol p).2 = Panic <-> protocol = 1 /\ short_tagged data = true.
Proof.
  unfold Decoder, headerProtocolEthernet, headerProtocolIPv4, headerProtocolIPv6.
  rewrite bind_modify. destruct (Z.eqb_spec protocol 1) as [->|Hne].
  - unfold decodeEthernetHeader. unfold mbind at 1, M_bind at 1.
    pose proof (decodeEthernet_panic (set_data data p)) as He. cbn [pdata set_data] in He.
    destruct (decodeEthernet (set_data data p)) as [p' [[]|v e| |]]; cbn [snd] in *.
    2-4: rewrite <- He; split; [by intros|by intros [_ ?]].
    rewrite bind_get. destruct (network_returns p') as (_ & H4 & H6).
    split; [|by intros [_ H]; apply He in H]. intros H. exfalso.
    destruct (EtherType (L2 p') =? EtherTypeIPv4); [|destruct (_ =? EtherTypeIPv6); [|done]].
    + by rewrite H in H4.
    + by rewrite H in H6.
  - destruct (network_returns (set_data data p)) as (_ & H4 & H6).
    split; [|by intros [? _]]. intros H. exfalso.
    destruct (protocol =? 11); [|destruct (protocol =? 12); [|done]].
    + by rewrite H in H4.
    + by rewrite H in H6.
Qed.

Lemma Decoder_short_panics data p : short_tagged data = true -> (Decoder data 1 p).2 = Panic.
Proof. intros H. by apply Decoder_panic. Qed.

(** C40: the dissector panics on one kind of input only: an Ethernet header sample
    whose ether type says it is VLAN-tagged and which is 14 to 17 bytes long.  Every
    other input of every header protocol gives a packet or an error. *)
Theorem Decoder_panics_iff (data : list byte) (protocol : Z) (p : Packet) :
  (Decoder data protocol p).2 = Panic <-> protocol = 1 /\ short_tagged data = true.
Proof. apply Decoder_panic. Qed.
