(* ===== verification/PacketWire.v ===== *)
(** Ethernet frames on the wire, and that the dissector reads them back.

    [frame] is a frame as the sender means it (addresses, an optional VLAN tag, an IPv4
    or IPv6 header without options, a TCP, UDP or ICMP header, a payload); [packet_of]
    is what the dissector's data structure should hold for it; [misread_fragment] is the
    one thing the dissector gets wrong, the flags and the fragment offset of IPv4. *)

From S2P Require Import Prelude GoNet Packet.

(** ** Frames *)

Inductive transport : Type :=
| TCP (src dst off flags : Z) (seq_ack win_sum_urg : list byte)
| UDP (src dst length sum : Z)
| ICMPv4 (type code sum : Z) (rest : list byte).

Inductive network : Type :=
| IP4 (tos total id flags frag ttl sum : Z) (src dst : list byte)
| IP6 (tclass flow payload hop : Z) (src dst : list byte).

Record frame : Type := mkFrame {
  fr_dst : list byte; fr_src : list byte; fr_vlan : option Z;
  fr_l3 : network; fr_l4 : transport; fr_payload : list byte
}.

Definition proto_of (t : transport) : Z :=
  match t with TCP _ _ _ _ _ _ => 6 | UDP _ _ _ _ => 17 | ICMPv4 _ _ _ _ => 1 end.

Definition encode_transport (t : transport) : list byte :=
  match t with
  | TCP src dst off flags sa wsu =>
      be_encode 2 src ++ be_encode 2 dst ++ sa ++ be_encode 2 (off * 4096 + flags) ++ wsu
  | UDP src dst l s => be_encode 2 src ++ be_encode 2 dst ++ be_encode 2 l ++ be_encode 2 s
  | ICMPv4 t c s rest => be_encode 1 t ++ be_encode 1 c ++ be_encode 2 s ++ rest
  end.

Definition encode_network (n : network) (proto : Z) : list byte :=
  match n with
  | IP4 tos total id flags frag ttl sum src dst =>
      be_encode 1 0x45 ++ be_encode 1 tos ++ be_encode 2 total ++ be_encode 2 id
        ++ be_encode 2 (flags * 8192 + frag) ++ be_encode 1 ttl ++ be_encode 1 proto
        ++ be_encode 2 sum ++ src ++ dst
  | IP6 tclass flow payload hop src dst =>
      be_encode 4 (6 * 268435456 + tclass * 1048576 + flow) ++ be_encode 2 payload
        ++ be_encode 1 proto ++ be_encode 1 hop ++ src ++ dst
  end.

Definition ethertype_of (n : network) : Z :=
  match n with IP4 _ _ _ _ _ _ _ _ _ => 0x0800 | IP6 _ _ _ _ _ _ => 0x86DD end.

Definition encode_tag (vlan : option Z) : list byte :=
  match vlan with Some v => be_encode 2 0x8100 ++ be_encode 2 v | None => [] end.

Definition encode_frame (f : frame) : list byte :=
  fr_dst f ++ fr_src f ++ encode_tag (fr_vlan f) ++ be_encode 2 (ethertype_of (fr_l3 f))
    ++ encode_network (fr_l3 f) (proto_of (fr_l4 f)) ++ encode_transport (fr_l4 f)
    ++ fr_payload f.

Definition u16_ok (z : Z) : Prop := 0 <= z < 65536.
Definition u8_ok (z : Z) : Prop := 0 <= z < 256.

Definition transport_wf (t : transport) : Prop :=
  match t with
  | TCP src dst off flags sa wsu =>
      u16_ok src /\ u16_ok dst /\ 0 <= off < 16 /\ 0 <= flags < 512 /\
      length sa = 8%nat /\ length wsu = 6%nat
  | UDP src dst l s => u16_ok src /\ u16_ok dst
  | ICMPv4 t c s rest => u8_ok t /\ u8_ok c /\ rest <> []
  end.

Definition network_wf (n : network) : Prop :=
  match n with
  | IP4 tos total id flags frag ttl sum src dst =>
      u8_ok tos /\ u16_ok total /\ u16_ok id /\ 0 <= flags < 8 /\ 0 <= frag < 8192 /\
      u8_ok ttl /\ u16_ok sum /\ length src = 4%nat /\ length dst = 4%nat
  | IP6 tclass flow payload hop src dst =>
      u8_ok tclass /\ 0 <= flow < 1048576 /\ u16_ok payload /\ u8_ok hop /\
      length src = 16%nat /\ length dst = 16%nat
  end.

Definition frame_wf (f : frame) : Prop :=
  length (fr_dst f) = 6%nat /\ length (fr_src f) = 6%nat /\
  (forall v, fr_vlan f = Some v -> u16_ok v) /\
  network_wf (fr_l3 f) /\ transport_wf (fr_l4 f).

(** ** What the packet holds *)

Definition l3_of (n : network) (proto : Z) : Layer3 :=
  match n with
  | IP4 tos total id flags frag ttl sum src dst =>
      L3_IPv4 (mkIPv4Header 4 tos total id flags frag ttl proto sum
                 (IP_String src) (IP_String dst))
  | IP6 tclass flow payload hop src dst =>
      L3_IPv6 (mkIPv6Header 6 tclass flow payload proto hop (IP_String src) (IP_String dst))
  end.

(** The rest of an ICMP header is everything after its first four bytes. *)
Definition l4_of (t : transport) (payload : list byte) : Layer4 :=
  match t with
  | TCP src dst off flags _ _ => L4_TCP (mkTCPHeader src dst off 0 flags)
  | UDP src dst _ _ => L4_UDP (mkUDPHeader src dst)
  | ICMPv4 t c _ rest => L4_ICMP (mkICMP t c (rest ++ payload))
  end.

Definition data_after (t : transport) (payload : list byte) : list byte :=
  match t with ICMPv4 _ _ _ rest => rest ++ payload | _ => payload end.

Definition packet_of (f : frame) : Packet :=
  mkPacket
    (mkDatalink (HardwareAddr_String (fr_src f)) (HardwareAddr_String (fr_dst f))
       (default 0 (fr_vlan f)) (ethertype_of (fr_l3 f)))
    (Some (l3_of (fr_l3 f) (proto_of (fr_l4 f)))) (Some (l4_of (fr_l4 f) (fr_payload f)))
    (data_after (fr_l4 f) (fr_payload f)).

(** What the dissector makes of the header's flags and fragment offset: the flags become
    bits 8 to 10 of the offset, and the offset becomes 0. *)
Definition misread_l3 (l : Layer3) : Layer3 :=
  match l with
  | L3_IPv4 h =>
      L3_IPv4 (mkIPv4Header (v4_Version h) (v4_TOS h) (v4_TotalLen h) (v4_ID h)
                 (v4_FragOff h / 256 mod 8) 0 (v4_TTL h) (v4_Protocol h) (v4_Checksum h)
                 (v4_Src h) (v4_Dst h))
  | L3_IPv6 h => L3_IPv6 h
  end.

Definition misread_fragment (p : Packet) : Packet :=
  mkPacket (L2 p) (misread_l3 <$> L3 p) (L4 p) (pdata p).

(** A frame on which that makes no difference: IPv6, or IPv4 with no flag set and at
    offset 0. *)
Definition unfragmented (f : frame) : Prop :=
  match fr_l3 f with
  | IP4 _ _ _ flags frag _ _ _ _ => flags = 0 /\ frag = 0
  | IP6 _ _ _ _ _ _ => True
  end.

Lemma misread_unfragmented f : unfragmented f -> misread_fragment (packet_of f) = packet_of f.
Proof.
  destruct f as [dst src vlan [] t payload]; unfold unfragmented; simpl; [|done].
  by intros [-> ->].
Qed.

(** ** Bytes of encoded integers *)

Lemma be_encode1 z : be_encode 1 z = [byte_of_Z z].
Proof. cbn [be_encode]. by rewrite Z.pow_0_r, Z.div_1_r. Qed.

Lemma be_encode2 z : be_encode 2 z = [byte_of_Z (z / 256); byte_of_Z z].
Proof. cbn [be_encode]. by rewrite Z.pow_0_r, Z.div_1_r. Qed.

Lemma be_encode4 z :
  be_encode 4 z =
    [byte_of_Z (z / 16777216); byte_of_Z (z / 65536); byte_of_Z (z / 256); byte_of_Z z].
Proof. cbn [be_encode]. by rewrite Z.pow_0_r, Z.div_1_r. Qed.

Lemma join16 z : u16_ok z -> Z.lor (Z.shiftl (u8 (byte_of_Z (z / 256))) 8) (u8 (byte_of_Z z)) = z.
Proof.
  unfold u16_ok. intros Hz. rewrite !u8_byte_of_Z.
  rewrite lor_shiftl by (try lia; apply Z.mod_pos_bound; lia).
  rewrite (Z.mod_small (z / 256)) by
    (split; [apply Z.div_pos; lia|apply Z.div_lt_upper_bound; lia]).
  change (2 ^ 8) with 256. rewrite (Z.div_mod z 256) at 3 by lia. lia.
Qed.

Lemma byte1 z : u8_ok z -> u8 (byte_of_Z z) = z.
Proof. intros Hz. rewrite u8_byte_of_Z. by apply Z.mod_small. Qed.

(** Replace a list of known length [n] by its bytes. *)
Tactic Notation "explicit" integer(n) ident(l) :=
  do n (destruct l as [|? l]; [discriminate|]); destruct l; [|discriminate].

(** ** The transport layer *)

Lemma land_1ff off flags :
  0 <= flags < 512 -> Z.land (off * 4096 + flags) 0x1ff = flags.
Proof.
  intros Hf. change 0x1ff with (Z.ones 9). rewrite Z.land_ones by lia. change (2 ^ 9) with 512.
  replace (off * 4096 + flags) with (flags + off * 8 * 512) by lia.
  rewrite Z.mod_add by lia. by apply Z.mod_small.
Qed.

Lemma shiftr_byte_off off flags :
  0 <= off < 16 -> 0 <= flags < 4096 ->
  Z.shiftr (u8 (byte_of_Z ((off * 4096 + flags) / 256))) 4 = off.
Proof.
  intros Ho Hf. rewrite u8_byte_of_Z, Z.shiftr_div_pow2 by lia. change (2 ^ 4) with 16.
  replace (off * 4096 + flags) with (flags + off * 16 * 256) by lia.
  rewrite Z.div_add by lia. assert (0 <= flags / 256 < 16) as Hq.
  { split; [apply Z.div_pos; lia|apply Z.div_lt_upper_bound; lia]. }
  rewrite Z.mod_small by lia. rewrite Z.div_add by lia. rewrite (Z.div_small (flags / 256)); lia.
Qed.

Lemma layer4_encode t payload :
  transport_wf t ->
  layer4 (proto_of t) (encode_transport t ++ payload) =
    inl (l4_of t payload, data_after t payload).
Proof.
  intros Ht. pose proof (len_nonneg payload). destruct t as [src dst off flags sa wsu|src dst l c|t c s rest];
    cbn [transport_wf proto_of encode_transport l4_of data_after] in *; unfold layer4; cbn [Z.eqb Pos.eqb].
  - destruct Ht as (Hs & Hd & Ho & Hf & Hsa & Hw). explicit 8 sa. explicit 6 wsu.
    rewrite !be_encode2. cbn [app]. rewrite !len_cons. case_test; [lia|].
    assert (be16_at (byte_of_Z (src / 256) :: byte_of_Z src :: byte_of_Z (dst / 256)
      :: byte_of_Z dst :: b :: b0 :: b1 :: b2 :: b3 :: b4 :: b5 :: b6
      :: byte_of_Z ((off * 4096 + flags) / 256) :: byte_of_Z (off * 4096 + flags)
      :: b7 :: b8 :: b9 :: b10 :: b11 :: b12 :: payload) 12 = off * 4096 + flags) as E12
      by (apply (join16 (off * 4096 + flags)); unfold u16_ok; lia).
    rewrite E12, land_1ff by done. repeat f_equal.
    + exact (join16 src Hs).
    + exact (join16 dst Hd).
    + apply (shiftr_byte_off off flags); lia.
  - destruct Ht as (Hs & Hd). rewrite !be_encode2. cbn [app]. rewrite !len_cons.
    case_test; [lia|]. repeat f_equal; [exact (join16 src Hs)|exact (join16 dst Hd)].
  - destruct Ht as (Ht & Hc & Hr). rewrite !be_encode1, be_encode2. cbn [app].
    destruct rest as [|r0 rest]; [done|]. cbn [app]. rewrite !len_cons.
    pose proof (len_nonneg (rest ++ payload)).
    case_test; [lia|]. repeat f_equal; [exact (byte1 t Ht)|exact (byte1 c Hc)].
Qed.

(** ** The network layer *)

Lemma flags_byte flags frag :
  0 <= flags < 8 -> 0 <= frag < 8192 ->
  Z.land (u8 (byte_of_Z ((flags * 8192 + frag) / 256))) 0x07 = frag / 256 mod 8.
Proof.
  intros Hf Hg. change 0x07 with (Z.ones 3). rewrite Z.land_ones by lia. change (2 ^ 3) with 8.
  rewrite u8_byte_of_Z. replace (flags * 8192 + frag) with (frag + flags * 32 * 256) by lia.
  rewrite Z.div_add by lia.
  assert (0 <= frag / 256 < 32) by (split; [apply Z.div_pos; lia|apply Z.div_lt_upper_bound; lia]).
  rewrite (Z.mod_small _ 256) by lia. replace (flags * 32) with (flags * 4 * 8) by lia.
  by rewrite Z.mod_add.
Qed.

(** The packet after the network header [n] of a packet carrying [proto]. *)
Definition with_l3 (p : Packet) (l : Layer3) (d : list byte) : Packet := mkPacket (L2 p) (Some l) (L4 p) d.

Lemma decodeIPv4_encode p tos total id flags frag ttl sum src dst proto rest :
  let n := IP4 tos total id flags frag ttl sum src dst in
  network_wf n -> u8_ok proto -> pdata p = encode_network n proto ++ rest ->
  decodeIPv4Header p = (with_l3 p (misread_l3 (l3_of n proto)) rest, Ok tt).
Proof.
  intros n (Htos & Htot & Hid & Hfl & Hfr & Httl & Hsum & Hsrc & Hdst) Hp Hd.
  rewrite decodeIPv4Header_eq, Hd. pose proof (len_nonneg rest). unfold n in *.
  cbn [encode_network]. explicit 4 src. explicit 4 dst. rewrite !be_encode1, !be_encode2.
  cbn [app]. rewrite !len_cons. case_test; [lia|]. unfold with_l3.
  cbn [l3_of misread_l3 v4_Version v4_TOS v4_TotalLen v4_ID v4_FragOff v4_TTL v4_Protocol
    v4_Checksum v4_Src v4_Dst].
  repeat f_equal; first [exact (byte1 _ Htos) | exact (join16 _ Htot) | exact (join16 _ Hid)
    | exact (byte1 _ Httl) | exact (byte1 _ Hp) | exact (join16 _ Hsum)
    | exact (flags_byte flags frag Hfl Hfr)].
Qed.

Lemma v6_word tclass flow :
  u8_ok tclass -> 0 <= flow < 1048576 ->
  let w := 6 * 268435456 + tclass * 1048576 + flow in
  let b0 := u8 (byte_of_Z (w / 16777216)) in
  let b1 := u8 (byte_of_Z (w / 65536)) in
  let b2 := u8 (byte_of_Z (w / 256)) in
  let b3 := u8 (byte_of_Z w) in
  Z.shiftr b0 4 = 6 /\
  Z.lor (Z.shiftl (Z.land b0 0x0f) 4) (Z.shiftr b1 4) = tclass /\
  Z.lor (Z.lor (Z.shiftl (Z.land b1 0x0f) 16) (Z.shiftl b2 8)) b3 = flow.
Proof.
  intros Ht Hf w b0 b1 b2 b3. unfold u8_ok in Ht.
  assert (b0 = 96 + tclass / 16) as E0.
  { unfold b0, w. rewrite u8_byte_of_Z. Z.to_euclidean_division_equations. lia. }
  assert (b1 = tclass mod 16 * 16 + flow / 65536) as E1.
  { unfold b1, w. rewrite u8_byte_of_Z. Z.to_euclidean_division_equations. lia. }
  assert (b2 = flow / 256 mod 256) as E2.
  { unfold b2, w. rewrite u8_byte_of_Z. Z.to_euclidean_division_equations. lia. }
  assert (b3 = flow mod 256) as E3.
  { unfold b3, w. rewrite u8_byte_of_Z. Z.to_euclidean_division_equations. lia. }
  change 0x0f with (Z.ones 4). rewrite !Z.land_ones, !Z.shiftr_div_pow2 by lia.
  change (2 ^ 4) with 16. rewrite E0, E1, E2, E3.
  split_and!.
  - Z.to_euclidean_division_equations. lia.
  - rewrite lor_shiftl; [|lia|]; change (2 ^ 4) with 16; Z.to_euclidean_division_equations; lia.
  - rewrite <- (Z.shiftl_shiftl _ 8 8) by lia. rewrite <- Z.shiftl_lor.
    rewrite lor_shiftl; [|lia|change (2 ^ 8) with 256; apply Z.mod_pos_bound; lia].
    rewrite lor_shiftl; [|lia|change (2 ^ 8) with 256; apply Z.mod_pos_bound; lia].
    change (2 ^ 8) with 256. Z.to_euclidean_division_equations. lia.
Qed.

Lemma decodeIPv6_encode p tclass flow payload hop src dst proto rest :
  let n := IP6 tclass flow payload hop src dst in
  network_wf n -> u8_ok proto -> pdata p = encode_network n proto ++ rest ->
  decodeIPv6Header p = (with_l3 p (l3_of n proto) rest, Ok tt).
Proof.
  intros n (Ht & Hf & Hpl & Hh & Hsrc & Hdst) Hp Hd.
  rewrite decodeIPv6Header_eq, Hd. pose proof (len_nonneg rest). unfold n in *.
  cbn [encode_network]. explicit 16 src. explicit 16 dst. rewrite !be_encode1, be_encode2, be_encode4.
  cbn [app]. rewrite !len_cons. case_test; [lia|]. unfold with_l3. cbn [l3_of].
  destruct (v6_word tclass flow Ht Hf) as (H1 & H2 & H3).
  repeat f_equal; first [exact H1 | exact H2 | exact H3 | exact (join16 _ Hpl)
    | exact (byte1 _ Hp) | exact (byte1 _ Hh)].
Qed.

(** ** The link layer *)

(** The two addresses, an ether type and what follows. *)
Definition untagged (dst src : list byte) (et : Z) (rest : list byte) : list byte :=
  dst ++ src ++ be_encode 2 et ++ rest.

Lemma decodeIEEE802_encode {S} dst src et rest (s : S) :
  length dst = 6%nat -> length src = 6%nat -> u16_ok et ->
  decodeIEEE802 (untagged dst src et rest) s =
    (s, Ok (if et =? 0x8100 then mkDatalink EmptyString EmptyString 0 et
            else mkDatalink (HardwareAddr_String src) (HardwareAddr_String dst) 0 et)).
Proof.
  intros Hd Hs He. pose proof (len_nonneg rest). unfold untagged, decodeIEEE802.
  explicit 6 dst. explicit 6 src. rewrite be_encode2. cbn [app]. rewrite !len_cons.
  match goal with |- context [?n <? 14] => destruct (Z.ltb_spec n 14); [lia|] end. unmonad.
  match goal with |- context [at16 ?l 12] =>
    assert (len l = 14 + len rest) as Hl by (rewrite !len_cons; lia);
    assert (be16_at l 12 = et) as E by exact (join16 et He) end.
  rewrite at16_ok, E by lia. change EtherTypeIEEE8021Q with 0x8100.
  destruct (et =? 0x8100); cbn [negb]; [done|]. rewrite slice_ok by lia.
  rewrite slice_ok by lia. done.
Qed.

Lemma untagged_len dst src et rest :
  length dst = 6%nat -> length src = 6%nat -> len (untagged dst src et rest) = 14 + len rest.
Proof.
  intros Hd Hs. unfold untagged. autorewrite with len. unfold len at 1 2. rewrite Hd, Hs. lia.
Qed.

Lemma untagged_drop dst src et rest :
  length dst = 6%nat -> length src = 6%nat -> drop 14 (untagged dst src et rest) = rest.
Proof.
  intros Hd Hs. unfold untagged. explicit 6 dst. explicit 6 src. by rewrite be_encode2.
Qed.

Lemma remove_tag_encode {S} dst src v et rest (s : S) :
  length dst = 6%nat -> length src = 6%nat -> u16_ok v ->
  remove_tag (untagged dst src 0x8100 (be_encode 2 v ++ be_encode 2 et ++ rest)) s =
    (s, Ok (v, untagged dst src et rest)).
Proof.
  intros Hd Hs Hv. pose proof (len_nonneg rest). unfold untagged, remove_tag.
  explicit 6 dst. explicit 6 src. rewrite !be_encode2. cbn [app]. unmonad.
  match goal with |- context [at16 ?l 14] =>
    assert (len l = 18 + len rest) as Hl by (rewrite !len_cons; lia);
    assert (be16_at l 14 = v) as E by exact (join16 v Hv) end.
  rewrite at16_ok, E by lia. rewrite !index_ok by lia. cbn [insert list_insert].
  match goal with |- context [slice ?l 0 14] =>
    assert (len l = 18 + len rest) as Hl' by (rewrite !len_cons; lia) end.
  rewrite slice_ok, slice_from by lia. done.
Qed.

Definition with_l2 (p : Packet) (l : Datalink) (d : list byte) : Packet := mkPacket l (L3 p) (L4 p) d.

Lemma decodeEthernet_encode p dst src vlan et rest :
  length dst = 6%nat -> length src = 6%nat -> (forall v, vlan = Some v -> u16_ok v) ->
  u16_ok et -> et <> 0x8100 ->
  pdata p = dst ++ src ++ encode_tag vlan ++ be_encode 2 et ++ rest ->
  decodeEthernet p =
    (with_l2 p (mkDatalink (HardwareAddr_String src) (HardwareAddr_String dst) (default 0 vlan) et)
       rest, Ok tt).
Proof.
  intros Hd Hs Hv He Hne Hp. pose proof (len_nonneg rest) as Hr. apply Z.eqb_neq in Hne.
  unfold decodeEthernet, advance_data. unmonad. destruct vlan as [v|].
  - cbn [encode_tag] in Hp. rewrite <- app_assoc in Hp.
    change (pdata p = untagged dst src 0x8100 (be_encode 2 v ++ be_encode 2 et ++ rest)) in Hp.
    rewrite Hp, untagged_len by done. autorewrite with len. case_test; [lia|].
    rewrite decodeIEEE802_encode by done. cbn [Z.eqb EtherType Pos.eqb EtherTypeIEEE8021Q].
    rewrite remove_tag_encode by (try done; by apply Hv).
    rewrite decodeIEEE802_encode, Hne by done. cbn [SrcMAC DstMAC EtherType pdata set_data set_L2].
    rewrite slice_from by (rewrite untagged_len by done; lia).
    change (Z.to_nat 14) with 14%nat. by rewrite untagged_drop.
  - cbn [encode_tag app] in Hp. change (pdata p = untagged dst src et rest) in Hp.
    rewrite Hp, untagged_len by done. case_test; [lia|].
    rewrite decodeIEEE802_encode, Hne by done. cbn [EtherType].
    change EtherTypeIEEE8021Q with 0x8100. rewrite Hne. cbn [pdata set_L2]. rewrite Hp.
    rewrite slice_from by (rewrite untagged_len by done; lia).
    change (Z.to_nat 14) with 14%nat. by rewrite untagged_drop.
Qed.

(** C15: the dissector reads frames back, the fragment fields of IPv4 excepted: for every
    well-formed Ethernet frame (tagged or not, IPv4 or IPv6 without options, TCP, UDP or
    ICMP, any payload), [Decoder] succeeds with the frame's addresses, VLAN tag, ether
    type, network and transport fields, and leaves the payload, but the [Flags] and
    [FragOff] of an IPv4 header are [misread_fragment]'s: bits 8 to 10 of the fragment
    offset, and 0.  On a frame that is IPv6, or IPv4 with no flag set and at offset 0, the
    packet is exactly the frame's. *)
Theorem Decoder_reads_frame (f : frame) :
  frame_wf f ->
  Decoder (encode_frame f) 1 NewPacket = (misread_fragment (packet_of f), Ok tt) /\
  (unfragmented f -> Decoder (encode_frame f) 1 NewPacket = (packet_of f, Ok tt)).
Proof.
  intros Hwf. enough (Decoder (encode_frame f) 1 NewPacket = (misread_fragment (packet_of f), Ok tt)) as E
    by (split; [done|]; intros Hu; by rewrite E, misread_unfragmented).
  destruct Hwf as (Hd & Hs & Hv & Hn & Ht). destruct f as [dst src vlan n t payload].
  cbn [fr_dst fr_src fr_vlan fr_l3 fr_l4 fr_payload] in *.
  unfold Decoder. rewrite bind_modify. cbn [Z.eqb Pos.eqb headerProtocolEthernet].
  unfold decodeEthernetHeader. unfold mbind at 1, M_bind at 1.
  rewrite (decodeEthernet_encode _ dst src vlan (ethertype_of n)
    (encode_network n (proto_of t) ++ encode_transport t ++ payload)); try done;
    [|by destruct n|by destruct n].
  rewrite bind_get. cbn [with_l2 L2 EtherType].
  assert (u8_ok (proto_of t)) as Hp by (by destruct t).
  assert (forall p l, l3_proto l = proto_of t ->
    decodeNextLayer (with_l3 p l (encode_transport t ++ payload)) =
      (mkPacket (L2 p) (Some l) (Some (l4_of t payload)) (data_after t payload), Ok tt)) as Hnext.
  { intros p l Hl. rewrite decodeNextLayer_eq. cbn [L3 with_l3 pdata]. by rewrite Hl, layer4_encode. }
  destruct n as [tos total id flags frag ttl sum s4 d4|tc flow pl hop s6 d6];
    cbn [ethertype_of EtherTypeIPv4 EtherTypeIPv6 Z.eqb Pos.eqb]; unfold mbind, M_bind.
  - erewrite decodeIPv4_encode; [|exact Hn|exact Hp|reflexivity]. by rewrite Hnext.
  - erewrite decodeIPv6_encode; [|exact Hn|exact Hp|reflexivity]. by rewrite Hnext.
Qed.

(** The frame of the repository's test [TestDecodeEthernetIPv4TCP]. *)
Definition example_frame : frame :=
  mkFrame (bytes [0xde; 0xad; 0x7a; 0x48; 0xcc; 0x37]) (bytes [0xd4; 0x04; 0xff; 0x01; 0x18; 0x1e])
    (Some 7) (IP4 0 619 38228 2 0 60 43835 (bytes [108; 161; 248; 94]) (bytes [192; 229; 214; 23]))
    (TCP 8183 50661 8 0x018 (bytes [0x0f; 0xf5; 0x1c; 0x14; 0x68; 0xa4; 0x11; 0x89])
       (bytes [0x01; 0x07; 0x35; 0xdc; 0; 0])) (bytes [1; 1; 8; 10]).

(** The same frame untagged, without the don't-fragment flag. *)
Definition plain_frame : frame :=
  mkFrame (fr_dst example_frame) (fr_src example_frame) None
    (IP4 0 619 38228 0 0 60 43835 (bytes [108; 161; 248; 94]) (bytes [192; 229; 214; 23]))
    (fr_l4 example_frame) (fr_payload example_frame).

Lemma example_frame_wf : frame_wf example_frame.
Proof.
  unfold frame_wf, network_wf, transport_wf, u16_ok, u8_ok. simpl.
  split_and!; try done. intros v [= <-]. done.
Qed.

Lemma plain_frame_wf : frame_wf plain_frame.
Proof. unfold frame_wf, network_wf, transport_wf, u16_ok, u8_ok. simpl. by split_and!. Qed.

Lemma Decoder_reads_frame_witness :
  take 56 (encode_frame example_frame) =
    bytes [0xde; 0xad; 0x7a; 0x48; 0xcc; 0x37; 0xd4; 0x4; 0xff; 0x1; 0x18; 0x1e;
      0x81; 0x0; 0x0; 0x7; 0x8; 0x0; 0x45; 0x0; 0x2; 0x6b; 0x95; 0x54; 0x40;
      0x0; 0x3c; 0x6; 0xab; 0x3b; 0x6c; 0xa1; 0xf8; 0x5e; 0xc0; 0xe5; 0xd6;
      0x17; 0x1f; 0xf7; 0xc5; 0xe5; 0xf; 0xf5; 0x1c; 0x14; 0x68; 0xa4; 0x11;
      0x89; 0x80; 0x18; 0x1; 0x7; 0x35; 0xdc] /\
  Decoder (encode_frame example_frame) 1 NewPacket =
    (misread_fragment (packet_of example_frame), Ok tt) /\
  Decoder (encode_frame plain_frame) 1 NewPacket = (packet_of plain_frame, Ok tt).
Proof.
  split; [vm_compute; reflexivity|]. split; apply Decoder_reads_frame; [|exact plain_frame_wf|done].
  exact example_frame_wf.
Defined.
