(* ===== verification/SFlow.v ===== *)
(** The sFlow version 5 decoder, [src/sflow/]: [decoder.go], [flow_sample.go],
    [expanded_flow_sample.go] and [flow_counter.go].

    The [io.ReadSeeker] is a [bytes.Reader] in the program ([vflow/sflow.go]); it is
    modelled with its semantics: [binary.Read] is [io.ReadFull] (an [EOF] when nothing
    is left, [ErrUnexpectedEOF] after a partial read), a plain [Read] may be short, and
    [Seek] may leave the reader beyond the end.  The sample and record loops run up to
    a 32-bit count; they take a fuel, and the facts show that one more than the number
    of bytes is always enough. *)

From S2P Require Import Prelude GoNet Reader Packet.

(** ** [bytes.Reader] *)

Record SReader : Type := mkSReader { sr_s : list byte; sr_i : Z }.

(** The unread bytes. *)
Definition unread (r : SReader) : list byte := drop (Z.to_nat (sr_i r)) (sr_s r).

(** [binary.Read] of [n] bytes, [n > 0] (or [n = 0], which reads nothing). *)
Definition ReadFull (n : Z) : M SReader (list byte) := fun r =>
  let avail := len (unread r) in
  if n =? 0 then (r, Ok [])
  else if avail =? 0 then (r, Err None EOF)
  else if avail <? n then (mkSReader (sr_s r) (sr_i r + avail), Err None ErrUnexpectedEOF)
  else (mkSReader (sr_s r) (sr_i r + n), Ok (take (Z.to_nat n) (unread r))).

(** [r.Read(b)] with [len(b) = n]: the bytes copied, the rest of [b] zero. *)
Definition Read_short (n : Z) : M SReader (list byte) := fun r =>
  let avail := len (unread r) in
  if avail =? 0 then (r, Err None EOF)
  else
    let c := Z.min n avail in
    (mkSReader (sr_s r) (sr_i r + c),
     Ok (take (Z.to_nat c) (unread r) ++ replicate (Z.to_nat (n - c)) x00)).

(** [r.Seek(n, 1)], [n >= 0]; its result is ignored by the callers. *)
Definition Seek (n : Z) : M SReader () := modify (fun r => mkSReader (sr_s r) (sr_i r + n)).

(** [read(r, &v)] for an unsigned integer [v] of [n] bytes. *)
Definition read_n (n : Z) : M SReader Z := b ← ReadFull n; mret (be_decode b).
Definition read8 : M SReader Z := read_n 1.
Definition read32 : M SReader Z := read_n 4.

(** ** Data *)

Definition DataFlowSample : Z := 1.
Definition DataCounterSample : Z := 2.
Definition DataExpandedFlowSample : Z := 3.

Record SampledHeader : Type := mkSampledHeader {
  shd_Protocol : Z; shd_FrameLength : Z; shd_Stripped : Z; shd_HeaderLength : Z;
  shd_Header : list byte
}.

Record ExtSwitchData : Type := mkExtSwitchData {
  es_SrcVlan : Z; es_SrcPriority : Z; es_DstVlan : Z; es_DstPriority : Z
}.

Record ExtRouterData : Type := mkExtRouterData {
  er_NextHop : list byte; er_SrcMask : Z; er_DstMask : Z
}.

Record GenericInterfaceCounters : Type := mkGenericInterfaceCounters {
  gic_Index : Z; gic_Type : Z; gic_Speed : Z; gic_Direction : Z; gic_Status : Z;
  gic_InOctets : Z; gic_InUnicastPackets : Z; gic_InMulticastPackets : Z;
  gic_InBroadcastPackets : Z; gic_InDiscards : Z; gic_InErrors : Z; gic_InUnknownProtocols : Z;
  gic_OutOctets : Z; gic_OutUnicastPackets : Z; gic_OutMulticastPackets : Z;
  gic_OutBroadcastPackets : Z; gic_OutDiscards : Z; gic_OutErrors : Z; gic_PromiscuousMode : Z
}.

Record EthernetInterfaceCounters : Type := mkEthernetInterfaceCounters {
  eic_AlignmentErrors : Z; eic_FCSErrors : Z; eic_SingleCollisionFrames : Z;
  eic_MultipleCollisionFrames : Z; eic_SQETestErrors : Z; eic_DeferredTransmissions : Z;
  eic_LateCollisions : Z; eic_ExcessiveCollisions : Z; eic_InternalMACTransmitErrors : Z;
  eic_CarrierSenseErrors : Z; eic_FrameTooLongs : Z; eic_InternalMACReceiveErrors : Z;
  eic_SymbolErrors : Z
}.

Record TokenRingCounters : Type := mkTokenRingCounters {
  trc_LineErrors : Z; trc_BurstErrors : Z; trc_ACErrors : Z; trc_AbortTransErrors : Z;
  trc_InternalErrors : Z; trc_LostFrameErrors : Z; trc_ReceiveCongestions : Z;
  trc_FrameCopiedErrors : Z; trc_TokenErrors : Z; trc_SoftErrors : Z; trc_HardErrors : Z;
  trc_SignalLoss : Z; trc_TransmitBeacons : Z; trc_Recoverys : Z; trc_LobeWires : Z;
  trc_Removes : Z; trc_Singles : Z; trc_FreqErrors : Z
}.

Record VGCounters : Type := mkVGCounters {
  vg_InHighPriorityFrames : Z; vg_InHighPriorityOctets : Z; vg_InNormPriorityFrames : Z;
  vg_InNormPriorityOctets : Z; vg_InIPMErrors : Z; vg_InOversizeFrameErrors : Z;
  vg_InDataErrors : Z; vg_InNullAddressedFrames : Z; vg_OutHighPriorityFrames : Z;
  vg_OutHighPriorityOctets : Z; vg_TransitionIntoTrainings : Z; vg_HCInHighPriorityOctets : Z;
  vg_HCInNormPriorityOctets : Z; vg_HCOutHighPriorityOctets : Z
}.

Record VlanCounters : Type := mkVlanCounters {
  vc_ID : Z; vc_Octets : Z; vc_UnicastPackets : Z; vc_MulticastPackets : Z;
  vc_BroadcastPackets : Z; vc_Discards : Z
}.

Record ProcessorCounters : Type := mkProcessorCounters {
  pc_CPU5s : Z; pc_CPU1m : Z; pc_CPU5m : Z; pc_TotalMemory : Z; pc_FreeMemory : Z
}.

(** The dynamic types of [Record]. *)
Inductive SFRecord : Type :=
| RRawHeader (p : Packet)
| RExtSwitch (d : ExtSwitchData)
| RExtRouter (d : ExtRouterData)
| RGenInt (d : GenericInterfaceCounters)
| REthInt (d : EthernetInterfaceCounters)
| RTRInt (d : TokenRingCounters)
| RVGInt (d : VGCounters)
| RVlan (d : VlanCounters)
| RProc (d : ProcessorCounters).

(** [map[string]Record]. *)
Abbreviation Records := (gmap string SFRecord).

Record FlowSample : Type := mkFlowSample {
  fs_SequenceNo : Z; fs_SourceID : Z; fs_SamplingRate : Z; fs_SamplePool : Z; fs_Drops : Z;
  fs_Input : Z; fs_Output : Z; fs_RecordsNo : Z; fs_Records : Records
}.

Record ExpandedFlowSample : Type := mkExpandedFlowSample {
  efs_SequenceNo : Z; efs_SourceID : Z; efs_SamplingRate : Z; efs_SamplePool : Z; efs_Drops : Z;
  efs_InputFormat : Z; efs_Input : Z; efs_OutputFormat : Z; efs_Output : Z; efs_RecordsNo : Z;
  efs_Records : Records
}.

Record CounterSample : Type := mkCounterSample {
  cs_SequenceNo : Z; cs_SourceIDType : Z; cs_SourceIDIdx : Z; cs_RecordsNo : Z;
  cs_Records : Records
}.

(** The dynamic types of [Sample]; [Counter] is always a [CounterSample]. *)
Inductive Sample : Type := SFlowSample (s : FlowSample) | SExpanded (s : ExpandedFlowSample).

Record SFDatagram : Type := mkSFDatagram {
  dg_Version : Z; dg_IPVersion : Z; dg_AgentSubID : Z; dg_SequenceNo : Z; dg_SysUpTime : Z;
  dg_SamplesNo : Z; dg_Samples : list Sample; dg_Counters : list CounterSample;
  dg_IPAddress : list byte; dg_ColTime : Z
}.

(** ** Flow records *)

Definition SampledHeader_unmarshal : M SReader SampledHeader :=
  protocol ← read32;
  frameLength ← read32;
  stripped ← read32;
  headerLength ← read32;
  if headerLength >? 1500 then fail None errMaxOutEthernetLength
  else
    let tmp := uint32 (4 - headerLength) mod 4 in
    header ← Read_short (uint32 (headerLength + tmp));
    header ← slice header 0 headerLength;
    mret (mkSampledHeader protocol frameLength stripped headerLength header).

(** The last read goes to [SrcPriority] again: [DstPriority] stays zero. *)
Definition ExtSwitchData_unmarshal : M SReader ExtSwitchData :=
  srcVlan ← read32;
  srcPriority ← read32;
  dstVlan ← read32;
  srcPriority ← read32;
  mret (mkExtSwitchData srcVlan srcPriority dstVlan 0).

Definition ExtRouterData_unmarshal (l : Z) : M SReader ExtRouterData :=
  buff ← ReadFull (uint32 (l - 8));
  nextHop ← slice buff 4 (len buff);
  srcMask ← read32;
  dstMask ← read32;
  mret (mkExtRouterData nextHop srcMask dstMask).

Definition decodeSampledHeader : M SReader Packet :=
  h ← SampledHeader_unmarshal;
  match Decoder (shd_Header h) (shd_Protocol h) NewPacket with
  | (p, Ok _) => mret p
  | (_, Err _ e) => fail None e
  | (_, Panic) => panic
  | (_, NoFuel) => nofuel
  end.

Definition decodeExtSwitchData : M SReader ExtSwitchData := ExtSwitchData_unmarshal.
Definition decodeExtRouterData (l : Z) : M SReader ExtRouterData := ExtRouterData_unmarshal l.

(** ** Counter records *)

(** [for _, field := range fields { read(r, field) }]: the widths of the fields. *)
Fixpoint read_fields (ws : list int_width) : M SReader (list Z) :=
  match ws with
  | [] => mret []
  | w :: ws' => z ← read_n (Z.of_nat (width_bytes w)); zs ← read_fields ws'; mret (z :: zs)
  end.

Definition gic_fields : list int_width :=
  [W32; W32; W64; W32; W32; W64; W32; W32; W32; W32; W32; W32; W64; W32; W32; W32; W32; W32; W32].
Definition eic_fields : list int_width := replicate 13 W32.
Definition trc_fields : list int_width := replicate 18 W32.
Definition vg_fields : list int_width :=
  [W32; W64; W32; W64; W32; W32; W32; W32; W32; W64; W32; W64; W64; W64].
Definition vc_fields : list int_width := [W32; W64; W32; W32; W32; W32].
Definition pc_fields : list int_width := [W32; W32; W32; W64; W64].

Definition gic_of (zs : list Z) : option GenericInterfaceCounters :=
  match zs with
  | [a; b; c; d; e; f; g; h; i; j; k; l; m; n; o; p; q; r; s] =>
      Some (mkGenericInterfaceCounters a b c d e f g h i j k l m n o p q r s)
  | _ => None
  end.
Definition eic_of (zs : list Z) : option EthernetInterfaceCounters :=
  match zs with
  | [a; b; c; d; e; f; g; h; i; j; k; l; m] =>
      Some (mkEthernetInterfaceCounters a b c d e f g h i j k l m)
  | _ => None
  end.
Definition trc_of (zs : list Z) : option TokenRingCounters :=
  match zs with
  | [a; b; c; d; e; f; g; h; i; j; k; l; m; n; o; p; q; r] =>
      Some (mkTokenRingCounters a b c d e f g h i j k l m n o p q r)
  | _ => None
  end.
Definition vg_of (zs : list Z) : option VGCounters :=
  match zs with
  | [a; b; c; d; e; f; g; h; i; j; k; l; m; n] => Some (mkVGCounters a b c d e f g h i j k l m n)
  | _ => None
  end.
Definition vc_of (zs : list Z) : option VlanCounters :=
  match zs with
  | [a; b; c; d; e; f] => Some (mkVlanCounters a b c d e f)
  | _ => None
  end.
Definition pc_of (zs : list Z) : option ProcessorCounters :=
  match zs with
  | [a; b; c; d; e] => Some (mkProcessorCounters a b c d e)
  | _ => None
  end.

(** Read the fields of a struct and fill it ([fill] is total on lists of that length). *)
Definition unmarshal_struct {A} (ws : list int_width) (fill : list Z -> option A) : M SReader A :=
  zs ← read_fields ws;
  match fill zs with Some a => mret a | None => panic end.

Definition decodeGenericIntCounters : M SReader GenericInterfaceCounters :=
  unmarshal_struct gic_fields gic_of.
Definition decodeEthIntCounters : M SReader EthernetInterfaceCounters :=
  unmarshal_struct eic_fields eic_of.
Definition decodeTokenRingCounters : M SReader TokenRingCounters :=
  unmarshal_struct trc_fields trc_of.
Definition decodeVGCounters : M SReader VGCounters := unmarshal_struct vg_fields vg_of.
Definition decodeVlanCounters : M SReader VlanCounters := unmarshal_struct vc_fields vc_of.
Definition decodedProcessorCounters : M SReader ProcessorCounters :=
  unmarshal_struct pc_fields pc_of.

(** ** Samples *)

(** The record loop the three kinds of samples share: [dec format length] decodes one
    record (its key and value), or [None] for a format that is skipped. *)
Fixpoint record_loop (dec : Z -> Z -> option (M SReader (string * SFRecord))) (fuel : nat)
    (i recordsNo : Z) (records : Records) : M SReader Records :=
  match fuel with
  | O => nofuel
  | S fuel' =>
      if i <? recordsNo then
        rTypeFormat ← read32;
        rTypeLength ← read32;
        match dec rTypeFormat rTypeLength with
        | Some m =>
            '(k, d) ← m;
            record_loop dec fuel' (i + 1) recordsNo (<[k := d]> records)
        | None =>
            Seek rTypeLength;;
            record_loop dec fuel' (i + 1) recordsNo records
        end
      else mret records
  end.

(** The [switch] of flow samples and of expanded flow samples. *)
Definition flow_record (format length : Z) : option (M SReader (string * SFRecord)) :=
  match format with
  | 1 => Some (d ← decodeSampledHeader; mret ("RawHeader"%string, RRawHeader d))
  | 1001 => Some (d ← decodeExtSwitchData; mret ("ExtSwitch"%string, RExtSwitch d))
  | 1002 => Some (d ← decodeExtRouterData length; mret ("ExtRouter"%string, RExtRouter d))
  | _ => None
  end.

(** The [switch] of counter samples. *)
Definition counter_record (format length : Z) : option (M SReader (string * SFRecord)) :=
  match format with
  | 1 => Some (d ← decodeGenericIntCounters; mret ("GenInt"%string, RGenInt d))
  | 2 => Some (d ← decodeEthIntCounters; mret ("EthInt"%string, REthInt d))
  | 3 => Some (d ← decodeTokenRingCounters; mret ("TRInt"%string, RTRInt d))
  | 4 => Some (d ← decodeVGCounters; mret ("VGInt"%string, RVGInt d))
  | 5 => Some (d ← decodeVlanCounters; mret ("Vlan"%string, RVlan d))
  | 1001 => Some (d ← decodedProcessorCounters; mret ("Proc"%string, RProc d))
  | _ => None
  end.

Definition FlowSample_unmarshal : M SReader FlowSample :=
  sequenceNo ← read32;
  sourceID ← read8;
  Seek 3;;
  samplingRate ← read32;
  samplePool ← read32;
  drops ← read32;
  input ← read32;
  output ← read32;
  recordsNo ← read32;
  mret (mkFlowSample sequenceNo sourceID samplingRate samplePool drops input output recordsNo ∅).

Definition decodeFlowSample (fuel : nat) : M SReader FlowSample :=
  fs ← FlowSample_unmarshal;
  records ← record_loop flow_record fuel 0 (fs_RecordsNo fs) ∅;
  mret (mkFlowSample (fs_SequenceNo fs) (fs_SourceID fs) (fs_SamplingRate fs) (fs_SamplePool fs)
          (fs_Drops fs) (fs_Input fs) (fs_Output fs) (fs_RecordsNo fs) records).

Definition ExpandedFlowSample_unmarshal : M SReader ExpandedFlowSample :=
  sequenceNo ← read32;
  sourceID ← read8;
  Seek 3;;
  samplingRate ← read32;
  samplePool ← read32;
  drops ← read32;
  inputFormat ← read32;
  input ← read32;
  outputFormat ← read32;
  output ← read32;
  recordsNo ← read32;
  mret (mkExpandedFlowSample sequenceNo sourceID samplingRate samplePool drops inputFormat input
          outputFormat output recordsNo ∅).

Definition decodeExpandedFlowSample (fuel : nat) : M SReader ExpandedFlowSample :=
  efs ← ExpandedFlowSample_unmarshal;
  records ← record_loop flow_record fuel 0 (efs_RecordsNo efs) ∅;
  mret (mkExpandedFlowSample (efs_SequenceNo efs) (efs_SourceID efs) (efs_SamplingRate efs)
          (efs_SamplePool efs) (efs_Drops efs) (efs_InputFormat efs) (efs_Input efs)
          (efs_OutputFormat efs) (efs_Output efs) (efs_RecordsNo efs) records).

Definition CounterSample_unmarshal : M SReader CounterSample :=
  sequenceNo ← read32;
  sourceIDType ← read8;
  buf ← ReadFull 3;
  b2 ← index buf 2;
  b1 ← index buf 1;
  b0 ← index buf 0;
  let sourceIDIdx := Z.lor (Z.lor (u8 b2) (Z.shiftl (u8 b1) 8)) (Z.shiftl (u8 b0) 16) in
  recordsNo ← read32;
  mret (mkCounterSample sequenceNo sourceIDType sourceIDIdx recordsNo ∅).

Definition decodeFlowCounter (fuel : nat) : M SReader CounterSample :=
  cs ← CounterSample_unmarshal;
  records ← record_loop counter_record fuel 0 (cs_RecordsNo cs) ∅;
  mret (mkCounterSample (cs_SequenceNo cs) (cs_SourceIDType cs) (cs_SourceIDIdx cs)
          (cs_RecordsNo cs) records).

(** ** Datagrams *)

Section decoder.
(** [d.filter], and [time.Now().Unix()]. *)
Context (filter : list Z) (now : Z).

Definition sfHeaderDecode : M SReader SFDatagram :=
  version ← read32;
  if negb (version =? 5) then fail None errSFVersionNotSupport
  else
    ipVersion ← read32;
    let ipLen := if ipVersion =? 2 then 16 else 4 in
    buff ← Read_short ipLen;
    agentSubID ← read32;
    sequenceNo ← read32;
    sysUpTime ← read32;
    samplesNo ← read32;
    mret (mkSFDatagram version ipVersion agentSubID sequenceNo sysUpTime samplesNo [] [] buff now).

Definition getSampleInfo : M SReader (Z * Z) :=
  sfType ← read32;
  let sfTypeEnterprise := Z.shiftr sfType 12 in
  let sfTypeFormat := Z.land sfType 0xfff in
  if negb (sfTypeEnterprise =? 0) then
    (* [sfDataLength] is still zero here *)
    Seek 0;;
    fail None errNoneEnterpriseStandard
  else
    l ← try read32;
    match l with
    | inl sfDataLength => mret (sfTypeFormat, sfDataLength)
    | inr _ => fail None errDataLengthUnknown
    end.

Fixpoint isFilterMatch_loop (l : list Z) (f : Z) : bool :=
  match l with
  | [] => false
  | v :: l' => if v =? f then true else isFilterMatch_loop l' f
  end.
Definition isFilterMatch (f : Z) : bool := isFilterMatch_loop filter f.

Definition add_Sample (s : Sample) (d : SFDatagram) : SFDatagram :=
  mkSFDatagram (dg_Version d) (dg_IPVersion d) (dg_AgentSubID d) (dg_SequenceNo d) (dg_SysUpTime d)
    (dg_SamplesNo d) (dg_Samples d ++ [s]) (dg_Counters d) (dg_IPAddress d) (dg_ColTime d).
Definition add_Counter (s : CounterSample) (d : SFDatagram) : SFDatagram :=
  mkSFDatagram (dg_Version d) (dg_IPVersion d) (dg_AgentSubID d) (dg_SequenceNo d) (dg_SysUpTime d)
    (dg_SamplesNo d) (dg_Samples d) (dg_Counters d ++ [s]) (dg_IPAddress d) (dg_ColTime d).

(** The [switch] of [SFDecode]: how the sample extends the datagram, [None] for a
    format that is skipped. *)
Definition sample_decoder (fuel : nat) (format : Z) : option (M SReader (SFDatagram -> SFDatagram)) :=
  match format with
  | 1 => Some (s ← decodeFlowSample fuel; mret (add_Sample (SFlowSample s)))
  | 2 => Some (s ← decodeFlowCounter fuel; mret (add_Counter s))
  | 3 => Some (s ← decodeExpandedFlowSample fuel; mret (add_Sample (SExpanded s)))
  | _ => None
  end.

(** The sample loop.  An error inside a sample returns the datagram so far with it, an
    error between samples only the error. *)
Fixpoint SFDecode_loop (n fuel : nat) (i : Z) (datagram : SFDatagram) : M SReader SFDatagram :=
  match n with
  | O => nofuel
  | S n' =>
      if i <? dg_SamplesNo datagram then
        '(sfTypeFormat, sfDataLength) ← getSampleInfo;
        if isFilterMatch sfTypeFormat then
          Seek sfDataLength;;
          SFDecode_loop n' fuel (i + 1) datagram
        else
          match sample_decoder fuel sfTypeFormat with
          | Some m =>
              d ← try m;
              match d with
              | inl add => SFDecode_loop n' fuel (i + 1) (add datagram)
              | inr err => fail (Some datagram) err
              end
          | None =>
              Seek sfDataLength;;
              SFDecode_loop n' fuel (i + 1) datagram
          end
      else mret datagram
  end.

Definition SFDecode (fuel : nat) : M SReader SFDatagram :=
  datagram ← sfHeaderDecode;
  SFDecode_loop fuel fuel 0 datagram.

End decoder.

Definition NewSFReader (b : list byte) : SReader := mkSReader b 0.
