(* ===== verification/SFlowFacts.v ===== *)
(** Facts about the sFlow decoder: the combinators of its reading code, and that
    [SFDecode] always ends. *)

From S2P Require Import Prelude GoNet Reader Packet SFlow.

(** ** Termination

    [ends m]: [m] keeps the bytes, only moves forward, and does not run out of fuel. *)

Definition sr_adv (r r' : SReader) : Prop := sr_s r' = sr_s r /\ sr_i r <= sr_i r'.

#[global] Instance sr_adv_preorder : PreOrder sr_adv.
Proof.
  split; [by split|]. intros r1 r2 r3 [H1 H2] [H3 H4]. split; [congruence|lia].
Qed.

Definition ends {A} (m : M SReader A) : Prop := forall r,
  0 <= sr_i r -> sr_adv r (m r).1 /\ (m r).2 <> NoFuel.

Lemma ends_ret {A} (a : A) : ends (mret a).
Proof. intros r Hr. by split; [reflexivity|]. Qed.

Lemma ends_fail {A} v e : ends (fail (A:=A) v e).
Proof. intros r Hr. by split; [reflexivity|]. Qed.

Lemma ends_panic {A} : ends (panic (A:=A)).
Proof. intros r Hr. by split; [reflexivity|]. Qed.

Lemma ends_bind {A B} (m : M SReader A) (k : A -> M SReader B) :
  ends m -> (forall a, ends (k a)) -> ends (m ≫= k).
Proof.
  intros Hm Hk r Hr. unmonad. destruct (Hm r Hr) as [[H1 H2] H3].
  destruct (m r) as [r' []]; simpl in *; try done.
  destruct (Hk a r' ltac:(lia)) as [H4 H5]. split; [|done]. etransitivity; [|exact H4].
  by split.
Qed.

Lemma ends_Seek n : 0 <= n -> ends (Seek n).
Proof. intros Hn r Hr. split; [|done]. split; simpl; [done|lia]. Qed.

Lemma ends_ReadFull n : 0 <= n -> ends (ReadFull n).
Proof.
  intros Hn r Hr. unfold ReadFull. pose proof (len_nonneg (unread r)).
  repeat case_test; simpl; (split; [|done]); (reflexivity || (split; simpl; [done|lia])).
Qed.

Lemma ends_Read_short n : 0 <= n -> ends (Read_short n).
Proof.
  intros Hn r Hr. unfold Read_short. pose proof (len_nonneg (unread r)).
  case_test; simpl; (split; [|done]); [reflexivity|]. split; simpl; [done|lia].
Qed.

Lemma ends_slice {A} (b : list A) lo hi : ends (slice b lo hi).
Proof. intros r Hr. unfold slice. case_test; by split; [reflexivity|]. Qed.

Lemma ends_index {A} (b : list A) i : ends (index b i).
Proof.
  intros r Hr. unfold index. destruct (if i <? 0 then None else b !! Z.to_nat i);
    by split; [reflexivity|].
Qed.

Lemma ends_read_n n : 0 <= n -> ends (read_n n).
Proof. intros Hn. apply ends_bind; [by apply ends_ReadFull|]. intros. apply ends_ret. Qed.

Lemma ends_read32 : ends read32.
Proof. by apply ends_read_n. Qed.

Lemma ends_read8 : ends read8.
Proof. by apply ends_read_n. Qed.

Lemma ends_try {A} (m : M SReader A) : ends m -> ends (try m).
Proof.
  intros Hm r Hr. unmonad. destruct (Hm r Hr) as [H1 H2]. by destruct (m r) as [r' []].
Qed.

#[export] Hint Resolve ends_ret ends_fail ends_panic ends_read32 ends_read8 ends_slice ends_index
  : vflow.

(** One step of an [ends] proof. *)
Ltac ends_step := apply ends_bind; [solve [eauto with vflow]|intros].

Lemma ends_SampledHeader : ends SampledHeader_unmarshal.
Proof.
  unfold SampledHeader_unmarshal. do 4 ends_step. case_test; [eauto with vflow|].
  apply ends_bind; [apply ends_Read_short; apply (wrapU_range 32); lia|]. intros.
  ends_step. eauto with vflow.
Qed.

Lemma ends_decodeSampledHeader : ends decodeSampledHeader.
Proof.
  unfold decodeSampledHeader. apply ends_bind; [apply ends_SampledHeader|]. intros h.
  assert ((Decoder (shd_Header h) (shd_Protocol h) NewPacket).2 <> NoFuel) as Hd
    by apply Decoder_no_nofuel.
  destruct (Decoder _ _ _) as [p []]; simpl in Hd; eauto with vflow. done.
Qed.

Lemma ends_ExtRouter l : ends (decodeExtRouterData l).
Proof.
  unfold decodeExtRouterData, ExtRouterData_unmarshal.
  apply ends_bind; [apply ends_ReadFull; apply (wrapU_range 32); lia|]. intros.
  do 3 ends_step. eauto with vflow.
Qed.

Lemma ends_ExtSwitch : ends decodeExtSwitchData.
Proof. unfold decodeExtSwitchData, ExtSwitchData_unmarshal. do 4 ends_step. eauto with vflow. Qed.

Lemma ends_read_fields ws : ends (read_fields ws).
Proof.
  induction ws as [|w ws IH]; cbn [read_fields]; [eauto with vflow|].
  apply ends_bind; [apply ends_read_n; lia|]. intros. apply ends_bind; [done|].
  eauto with vflow.
Qed.

Lemma ends_struct {A} ws (fill : list Z -> option A) : ends (unmarshal_struct ws fill).
Proof.
  apply ends_bind; [apply ends_read_fields|]. intros zs. destruct (fill zs); eauto with vflow.
Qed.

(** A decoder of records all of whose cases end. *)
Definition ends_dec (dec : Z -> Z -> option (M SReader (string * SFRecord))) : Prop :=
  forall f l m, dec f l = Some m -> ends m.

Lemma ends_flow_record : ends_dec flow_record.
Proof.
  intros f l m. unfold flow_record. repeat case_match; try done; intros [= <-];
    (apply ends_bind; [|eauto with vflow]);
    eauto using ends_decodeSampledHeader, ends_ExtRouter, ends_ExtSwitch.
Qed.

Lemma ends_counter_record : ends_dec counter_record.
Proof.
  intros f l m. unfold counter_record. repeat case_match; try done; intros [= <-];
    (apply ends_bind; [|eauto with vflow]); apply ends_struct.
Qed.

(** A successful read of [n] bytes leaves [n] fewer. *)
Lemma read32_ok r r' z :
  0 <= sr_i r -> read32 r = (r', Ok z) ->
  0 <= z /\ sr_s r' = sr_s r /\ 0 <= sr_i r' /\ len (unread r') = len (unread r) - 4.
Proof.
  intros Hr H. unfold read32, read_n, ReadFull, mbind, M_bind, mret, M_ret in H. simpl in H.
  destruct (Z.eqb_spec (len (unread r)) 0); [done|].
  destruct (Z.ltb_spec (len (unread r)) 4); [done|]. simplify_eq.
  split; [apply be_decode_range|]. split; [done|]. simpl. split; [lia|].
  unfold unread in *. simpl. rewrite Z2Nat.inj_add, <- drop_drop by lia.
  change (Z.to_nat 4) with 4%nat. rewrite (len_dropn 4) by (simpl; lia). lia.
Qed.

Lemma sr_adv_unread r r' : 0 <= sr_i r -> sr_adv r r' -> len (unread r') <= len (unread r).
Proof.
  intros Hr [Hs Hi]. unfold unread, len. rewrite Hs, !length_drop. lia.
Qed.

Lemma record_loop_ends dec fuel i n records r :
  ends_dec dec -> 0 <= sr_i r -> len (unread r) < Z.of_nat fuel ->
  sr_adv r (record_loop dec fuel i n records r).1 /\
  (record_loop dec fuel i n records r).2 <> NoFuel.
Proof.
  intros Hdec. revert i records r. induction fuel as [|fuel IH]; intros i records r Hr Hf.
  { pose proof (len_nonneg (unread r)). lia. }
  cbn [record_loop]. case_test; [|by split; [reflexivity|]]. unmonad.
  destruct (ends_read32 r Hr) as [Ha1 Hn1].
  destruct (read32 r) as [r1 [f| | |]] eqn:E1; try done.
  destruct (read32_ok _ _ _ Hr E1) as (_ & _ & Hr1 & Hl1).
  destruct (ends_read32 r1 Hr1) as [Ha2 Hn2].
  destruct (read32 r1) as [r2 [l| | |]] eqn:E2; simpl in *; try done;
    try (split; [by etransitivity|done]).
  destruct (read32_ok _ _ _ Hr1 E2) as (Hl & _ & Hr2 & Hl2).
  assert (sr_adv r r2) as Ha12 by (by etransitivity).
  destruct (dec f l) as [m|] eqn:Ed.
  - destruct (Hdec f l m Ed r2 Hr2) as [Ha3 Hn3]. pose proof (sr_adv_unread _ _ Hr2 Ha3).
    destruct (m r2) as [r3 [[k d]| | |]]; simpl in *; try done;
      try (split; [by etransitivity|done]).
    destruct (IH (i + 1) (<[k:=d]> records) r3) as [H1 H2]; [destruct Ha3; lia|lia|].
    split; [|done]. etransitivity; [exact Ha12|]. by etransitivity.
  - destruct (ends_Seek l Hl r2 Hr2) as [Ha3 _]. pose proof (sr_adv_unread _ _ Hr2 Ha3).
    destruct (IH (i + 1) records (Seek l r2).1) as [H1 H2]; [destruct Ha3; lia|lia|].
    split; [|done]. etransitivity; [exact Ha12|]. by etransitivity.
Qed.

(** Code that ends from readers with fewer than [n] unread bytes. *)
Definition ends_below (n : nat) {A} (m : M SReader A) : Prop := forall r,
  0 <= sr_i r -> len (unread r) < Z.of_nat n -> sr_adv r (m r).1 /\ (m r).2 <> NoFuel.

Lemma ends_below_bind {A B} n (m : M SReader A) (k : A -> M SReader B) :
  ends m -> (forall a, ends_below n (k a)) -> ends_below n (m ≫= k).
Proof.
  intros Hm Hk r Hr Hn. unmonad. destruct (Hm r Hr) as [H1 H3].
  pose proof (sr_adv_unread _ _ Hr H1).
  destruct (m r) as [r' []]; simpl in *; try done.
  destruct (Hk a r') as [H4 H5]; [destruct H1; lia|lia|]. split; [by etransitivity|done].
Qed.

Lemma ends_below_bind_ret {A B} n (m : M SReader A) (f : A -> B) :
  ends_below n m -> ends_below n (a ← m; mret (f a)).
Proof.
  intros Hm r Hr Hn. unmonad. destruct (Hm r Hr Hn) as [H1 H2]. by destruct (m r) as [r' []].
Qed.

Lemma ends_FlowSample_unmarshal : ends FlowSample_unmarshal.
Proof.
  unfold FlowSample_unmarshal. do 2 ends_step. apply ends_bind; [by apply ends_Seek|]. intros.
  do 6 ends_step. eauto with vflow.
Qed.

Lemma ends_Expanded_unmarshal : ends ExpandedFlowSample_unmarshal.
Proof.
  unfold ExpandedFlowSample_unmarshal. do 2 ends_step. apply ends_bind; [by apply ends_Seek|].
  intros. do 8 ends_step. eauto with vflow.
Qed.

Lemma ends_Counter_unmarshal : ends CounterSample_unmarshal.
Proof.
  unfold CounterSample_unmarshal. do 2 ends_step. apply ends_bind; [by apply ends_ReadFull|].
  intros. do 4 ends_step. eauto with vflow.
Qed.

Lemma sample_decoder_ends fuel f m : sample_decoder fuel f = Some m -> ends_below fuel m.
Proof.
  assert (forall dec n, ends_dec dec -> ends_below fuel (record_loop dec fuel 0 n ∅)) as Hl.
  { intros dec n Hdec r Hr Hn. by apply record_loop_ends. }
  unfold sample_decoder. repeat case_match; try done; intros [= <-];
    apply ends_below_bind_ret; (apply ends_below_bind; [|intros]);
    eauto using ends_FlowSample_unmarshal, ends_Expanded_unmarshal, ends_Counter_unmarshal,
      ends_below_bind_ret, ends_flow_record, ends_counter_record.
Qed.

Lemma ends_getSampleInfo : ends getSampleInfo.
Proof.
  unfold getSampleInfo. ends_step. case_test.
  - apply ends_bind; [by apply ends_Seek|]. eauto with vflow.
  - apply ends_bind; [apply ends_try, ends_read32|]. intros [l|e]; eauto with vflow.
Qed.

Lemma getSampleInfo_ok r r' f l :
  0 <= sr_i r -> getSampleInfo r = (r', Ok (f, l)) ->
  0 <= l /\ 0 <= sr_i r' /\ len (unread r') <= len (unread r) - 8.
Proof.
  intros Hr H. unfold getSampleInfo, mbind, M_bind in H.
  destruct (read32 r) as [r1 []] eqn:E1; try done.
  destruct (read32_ok _ _ _ Hr E1) as (_ & _ & Hr1 & Hl1).
  destruct (negb _); [done|]. unfold try in H.
  destruct (read32 r1) as [r2 []] eqn:E2; try done.
  destruct (read32_ok _ _ _ Hr1 E2) as (Hl & _ & Hr2 & Hl2).
  unfold mret, M_ret in H. simplify_eq. split; [done|]. split; [done|]. lia.
Qed.

Lemma SFDecode_loop_ends filter n fuel i dg r :
  0 <= sr_i r -> len (unread r) < Z.of_nat n -> len (unread r) < Z.of_nat fuel ->
  (SFDecode_loop filter n fuel i dg r).2 <> NoFuel.
Proof.
  revert i dg r. induction n as [|n IH]; intros i dg r Hr Hn Hf.
  { pose proof (len_nonneg (unread r)). lia. }
  cbn [SFDecode_loop]. case_test; [|done]. unfold mbind, M_bind.
  destruct (ends_getSampleInfo r Hr) as [Ha Hg].
  destruct (getSampleInfo r) as [r1 [[f l]| | |]] eqn:E1; try done.
  destruct (getSampleInfo_ok _ _ _ _ Hr E1) as (Hl & Hr1 & Hl1).
  destruct (ends_Seek l Hl r1 Hr1) as [Ha2 _]. pose proof (sr_adv_unread _ _ Hr1 Ha2).
  assert (forall d, (SFDecode_loop filter n fuel (i + 1) d (Seek l r1).1).2 <> NoFuel) as Hseek.
  { intros d. apply IH; [destruct Ha2; lia|lia|lia]. }
  destruct (isFilterMatch filter f); [apply Hseek|].
  destruct (sample_decoder fuel f) as [m|] eqn:Em; [|apply Hseek].
  destruct (sample_decoder_ends _ _ _ Em r1 Hr1) as [Ha3 Hn3]; [lia|].
  pose proof (sr_adv_unread _ _ Hr1 Ha3). unfold try.
  destruct (m r1) as [r2 [add| | |]]; simpl in *; try done.
  apply IH; [destruct Ha3; lia|lia|lia].
Qed.

Lemma ends_sfHeaderDecode now : ends (sfHeaderDecode now).
Proof.
  unfold sfHeaderDecode. ends_step. case_test; [eauto with vflow|]. ends_step.
  apply ends_bind; [apply ends_Read_short; by case_test|]. intros. do 4 ends_step.
  eauto with vflow.
Qed.

Lemma SFDecode_ends (filter : list Z) (now : Z) (b : list byte) (fuel : nat) :
  len b < Z.of_nat fuel -> (SFDecode filter now fuel (NewSFReader b)).2 <> NoFuel.
Proof.
  intros Hf. unfold SFDecode, mbind, M_bind.
  destruct (ends_sfHeaderDecode now (NewSFReader b)) as [Ha Hn]; [done|].
  pose proof (sr_adv_unread (NewSFReader b) _ ltac:(done) Ha) as Hl.
  destruct (sfHeaderDecode now (NewSFReader b)) as [r [dg| | |]]; simpl in *; try done.
  change (unread (NewSFReader b)) with b in Hl.
  apply SFDecode_loop_ends; [destruct Ha as [_ Ha]; simpl in Ha; lia|lia|lia].
Qed.

(** C30: [SFDecode] ends on every datagram: although the numbers of samples and of
    records are 32-bit counts taken from the datagram, one round more than there are
    bytes is enough for every loop. *)
Theorem SFDecode_terminates (filter : list Z) (now : Z) (b : list byte) (fuel : nat) :
  len b < Z.of_nat fuel -> (SFDecode filter now fuel (NewSFReader b)).2 <> NoFuel.
Proof. apply SFDecode_ends. Qed.

Lemma SFDecode_terminates_witness :
  let b := bytes [0; 0; 0; 5; 0; 0; 0; 1; 10; 0; 0; 1; 0; 0; 0; 0; 0; 0; 0; 0; 0; 0; 0; 0;
                  255; 255; 255; 255; 0; 0; 0; 9] in
  (SFDecode [] 0 33 (NewSFReader b)).2 <> NoFuel.
Proof. intros b. apply SFDecode_terminates. done. Defined.
