(* ===== verification/SFlowWire.v ===== *)
(** sFlow datagrams on the wire, and that [SFDecode] reads them back.

    [wire_datagram] is a datagram as the agent means it; [datagram_of]
    is the structure the collector should hold for it, given the entry each flow record
    makes: [flow_entry] is the record's own, [stored_entry] what the code keeps of it.
    [parses m p a] says that the reading code [m] consumes exactly the bytes [p] and returns [a]; the section of rules closes it under
    the monad, so that the round trip of a structure is the composition of those of its
    parts. *)

From S2P Require Import Prelude GoNet Reader Packet SFlow.

(** ** Parsers *)

Definition parses {A} (m : M SReader A) (p : list byte) (a : A) : Prop := forall r rest,
  0 <= sr_i r -> unread r = p ++ rest ->
  exists r', m r = (r', Ok a) /\ 0 <= sr_i r' /\ unread r' = rest.

Section rules.

Lemma parses_ret {A} (a : A) : parses (mret a) [] a.
Proof. intros r rest Hr Hu. by exists r. Qed.

Lemma parses_bind {A B} (m : M SReader A) (k : A -> M SReader B) p q a b :
  parses m p a -> parses (k a) q b -> parses (m ≫= k) (p ++ q) b.
Proof.
  intros Hm Hk r rest Hr Hu. rewrite <- app_assoc in Hu.
  destruct (Hm r (q ++ rest) Hr Hu) as (r1 & E1 & Hr1 & Hu1).
  destruct (Hk r1 rest Hr1 Hu1) as (r2 & E2 & Hr2 & Hu2).
  exists r2. split; [|done]. unmonad. by rewrite E1.
Qed.

(** The last part of a sequence, without the empty remainder. *)
Lemma parses_bind_ret {A B} (m : M SReader A) (f : A -> B) p a :
  parses m p a -> parses (a ← m; mret (f a)) p (f a).
Proof.
  intros Hm. rewrite <- (app_nil_r p). eapply parses_bind; [exact Hm|]. apply parses_ret.
Qed.

Lemma unread_drop (s : list byte) i n p rest :
  0 <= i -> unread (mkSReader s i) = p ++ rest -> n = len p -> unread (mkSReader s (i + n)) = rest.
Proof.
  unfold unread. cbn [sr_s sr_i]. intros Hi Hu ->. pose proof (len_nonneg p).
  rewrite Z2Nat.inj_add, <- drop_drop, Hu by lia. by apply drop_len_app.
Qed.

Lemma parses_ReadFull p : parses (ReadFull (len p)) p p.
Proof.
  intros [s i] rest Hr Hu. unfold ReadFull. rewrite Hu, len_app. cbn [sr_s sr_i] in *.
  pose proof (len_nonneg p). pose proof (len_nonneg rest).
  destruct (Z.eqb_spec (len p) 0) as [E|E].
  - destruct p; [|rewrite len_cons in E; pose proof (len_nonneg p); lia]. by exists (mkSReader s i).
  - repeat case_test; try lia. rewrite take_len_app. eexists. split; [done|].
    split; [simpl; lia|]. by eapply unread_drop.
Qed.

Lemma parses_Read_short p : p <> [] -> parses (Read_short (len p)) p p.
Proof.
  intros Hp [s i] rest Hr Hu. unfold Read_short. rewrite Hu, len_app. cbn [sr_s sr_i] in *.
  assert (0 < len p) by (destruct p; [done|rewrite len_cons; pose proof (len_nonneg p); lia]).
  pose proof (len_nonneg rest). case_test; [lia|]. rewrite Z.min_l by lia.
  rewrite take_len_app, Z.sub_diag, app_nil_r. eexists. split; [done|].
  split; [simpl; lia|]. by eapply unread_drop.
Qed.

Lemma parses_Seek p : parses (Seek (len p)) p tt.
Proof.
  intros [s i] rest Hr Hu. unfold Seek, modify. cbn [sr_s sr_i] in *. pose proof (len_nonneg p).
  eexists. split; [done|]. split; [simpl; lia|]. by eapply unread_drop.
Qed.

Lemma parses_Seek_n n p : n = len p -> parses (Seek n) p tt.
Proof. intros ->. apply parses_Seek. Qed.

Lemma parses_read_n n z :
  0 <= z < 256 ^ Z.of_nat n -> parses (read_n (Z.of_nat n)) (be_encode n z) z.
Proof.
  intros Hz. pose proof (parses_bind_ret _ be_decode _ _ (parses_ReadFull (be_encode n z))) as H.
  by rewrite len_be_encode, be_decode_encode_small in H.
Qed.

Lemma parses_read32 z : 0 <= z < 4294967296 -> parses read32 (be_encode 4 z) z.
Proof. intros Hz. by apply (parses_read_n 4). Qed.

Lemma parses_read8 z : 0 <= z < 256 -> parses read8 (be_encode 1 z) z.
Proof. intros Hz. by apply (parses_read_n 1). Qed.

(** Pure computations between reads. *)
Lemma parses_pure {A B} (m : M SReader A) (k : A -> M SReader B) q a b :
  (forall r, m r = (r, Ok a)) -> parses (k a) q b -> parses (m ≫= k) q b.
Proof.
  intros Hm Hk r rest Hr Hu. destruct (Hk r rest Hr Hu) as (r' & E & H). exists r'.
  split; [|done]. unmonad. by rewrite Hm.
Qed.

Lemma parses_read_fields l :
  Forall (fun p => 0 <= p.2 < 256 ^ Z.of_nat (width_bytes p.1)) l ->
  parses (read_fields (map fst l)) (encode_ints l) (map snd l).
Proof.
  induction 1 as [|[w z] l Hz Hl IH]; [apply parses_ret|]. unfold encode_ints.
  cbn [map concat fst snd read_fields] in *. eapply parses_bind; [by apply parses_read_n|].
  apply (parses_bind_ret _ (cons z)). exact IH.
Qed.

Lemma parses_struct {A} (fill : list Z -> option A) l a :
  Forall (fun p => 0 <= p.2 < 256 ^ Z.of_nat (width_bytes p.1)) l -> fill (map snd l) = Some a ->
  parses (unmarshal_struct (map fst l) fill) (encode_ints l) a.
Proof.
  intros Hl Ha. unfold unmarshal_struct. rewrite <- (app_nil_r (encode_ints l)).
  eapply parses_bind; [by apply parses_read_fields|]. rewrite Ha. apply parses_ret.
Qed.

End rules.

Definition u32_ok (z : Z) : Prop := 0 <= z < 4294967296.

#[export] Hint Resolve parses_ret parses_read32 parses_read8 : vflow.

(** ** Records on the wire *)

(** Flow records: a sampled header (with its padding), switch data, router data, or a
    record of another format. *)
Inductive wire_flow_record : Type :=
| WRaw (protocol frameLength stripped : Z) (header pad : list byte)
| WSwitch (srcVlan srcPriority dstVlan dstPriority : Z)
| WRouter (addrType : Z) (nextHop : list byte) (srcMask dstMask : Z)
| WOtherFlow (format : Z) (body : list byte).

Definition flow_format (w : wire_flow_record) : Z :=
  match w with
  | WRaw _ _ _ _ _ => 1 | WSwitch _ _ _ _ => 1001 | WRouter _ _ _ _ => 1002
  | WOtherFlow f _ => f
  end.

Definition flow_body (w : wire_flow_record) : list byte :=
  match w with
  | WRaw p f s h pad =>
      be_encode 4 p ++ be_encode 4 f ++ be_encode 4 s ++ be_encode 4 (len h) ++ h ++ pad
  | WSwitch a b c d => be_encode 4 a ++ be_encode 4 b ++ be_encode 4 c ++ be_encode 4 d
  | WRouter t nh sm dm => be_encode 4 t ++ nh ++ be_encode 4 sm ++ be_encode 4 dm
  | WOtherFlow _ body => body
  end.

(** The packet in a sampled header. *)
Definition dissect (header : list byte) (protocol : Z) : option Packet :=
  match Decoder header protocol NewPacket with (p, Ok _) => Some p | _ => None end.

(** The entry of [Records] for a flow record. *)
Definition flow_entry (w : wire_flow_record) : option (string * SFRecord) :=
  match w with
  | WRaw p _ _ h _ =>
      match dissect h p with Some k => Some ("RawHeader"%string, RRawHeader k) | None => None end
  | WSwitch a b c d => Some ("ExtSwitch"%string, RExtSwitch (mkExtSwitchData a b c d))
  | WRouter _ nh sm dm => Some ("ExtRouter"%string, RExtRouter (mkExtRouterData nh sm dm))
  | WOtherFlow _ _ => None
  end.

(** What the code keeps of an entry: of switch data, the destination priority is stored
    as the source priority, and the destination priority stays 0. *)
Definition misread_switch (d : SFRecord) : SFRecord :=
  match d with
  | RExtSwitch e => RExtSwitch (mkExtSwitchData (es_SrcVlan e) (es_DstPriority e) (es_DstVlan e) 0)
  | _ => d
  end.

Definition stored_entry (w : wire_flow_record) : option (string * SFRecord) :=
  prod_map id misread_switch <$> flow_entry w.

(** A record of which that loses nothing: other than switch data, or switch data without
    priorities. *)
Definition faithful_record (w : wire_flow_record) : Prop :=
  match w with WSwitch _ b _ d => b = 0 /\ d = 0 | _ => True end.

Lemma stored_faithful w : faithful_record w -> stored_entry w = flow_entry w.
Proof.
  unfold stored_entry. destruct w; simpl; try done.
  - by destruct (dissect _ _).
  - by intros [-> ->].
Qed.

(** A sampled header of at most 1500 bytes, padded to a multiple of four. *)
Definition raw_wf (p f s : Z) (h pad : list byte) : Prop :=
  u32_ok p /\ u32_ok f /\ u32_ok s /\ 0 < len h <= 1500 /\ len pad = (- len h) mod 4.

Definition flow_wf (w : wire_flow_record) : Prop :=
  match w with
  | WRaw p f s h pad => raw_wf p f s h pad /\ dissect h p <> None
  | WSwitch a b c d => u32_ok a /\ u32_ok b /\ u32_ok c /\ u32_ok d
  | WRouter t nh sm dm => u32_ok t /\ u32_ok sm /\ u32_ok dm /\ 12 + len nh < 4294967296
  | WOtherFlow f body =>
      u32_ok f /\ len body < 4294967296 /\ f <> 1 /\ f <> 1001 /\ f <> 1002
  end.

(** Counter records: the kind, and its values in order. *)
Inductive counter_kind : Type := KGenInt | KEthInt | KTRInt | KVGInt | KVlan | KProc.

Inductive wire_counter_record : Type :=
| WCounters (k : counter_kind) (zs : list Z)
| WOtherCounter (format : Z) (body : list byte).

Definition kind_format (k : counter_kind) : Z :=
  match k with KGenInt => 1 | KEthInt => 2 | KTRInt => 3 | KVGInt => 4 | KVlan => 5 | KProc => 1001 end.

Definition kind_fields (k : counter_kind) : list int_width :=
  match k with
  | KGenInt => gic_fields | KEthInt => eic_fields | KTRInt => trc_fields | KVGInt => vg_fields
  | KVlan => vc_fields | KProc => pc_fields
  end.

Definition kind_entry (k : counter_kind) (zs : list Z) : option (string * SFRecord) :=
  match k with
  | KGenInt => (fun d => ("GenInt"%string, RGenInt d)) <$> gic_of zs
  | KEthInt => (fun d => ("EthInt"%string, REthInt d)) <$> eic_of zs
  | KTRInt => (fun d => ("TRInt"%string, RTRInt d)) <$> trc_of zs
  | KVGInt => (fun d => ("VGInt"%string, RVGInt d)) <$> vg_of zs
  | KVlan => (fun d => ("Vlan"%string, RVlan d)) <$> vc_of zs
  | KProc => (fun d => ("Proc"%string, RProc d)) <$> pc_of zs
  end.

Definition counter_format (w : wire_counter_record) : Z :=
  match w with WCounters k _ => kind_format k | WOtherCounter f _ => f end.

Definition counter_body (w : wire_counter_record) : list byte :=
  match w with
  | WCounters k zs => encode_ints (zip (kind_fields k) zs)
  | WOtherCounter _ body => body
  end.

Definition counter_entry (w : wire_counter_record) : option (string * SFRecord) :=
  match w with WCounters k zs => kind_entry k zs | WOtherCounter _ _ => None end.

Definition counter_wf (w : wire_counter_record) : Prop :=
  match w with
  | WCounters k zs =>
      length zs = length (kind_fields k) /\
      Forall (fun p => 0 <= p.2 < 256 ^ Z.of_nat (width_bytes p.1)) (zip (kind_fields k) zs)
  | WOtherCounter f body =>
      u32_ok f /\ len body < 4294967296 /\ ~ (1 <= f <= 5) /\ f <> 1001
  end.

(** A record: format, length, body. *)
Definition encode_record (format : Z) (body : list byte) : list byte :=
  be_encode 4 format ++ be_encode 4 (len body) ++ body.

(** The map of the records of a sample, the last of a kind winning. *)
Definition add_entry (o : option (string * SFRecord)) (m : Records) : Records :=
  match o with Some (k, d) => <[k := d]> m | None => m end.

Definition entries (l : list (option (string * SFRecord))) (m : Records) : Records :=
  fold_left (fun m o => add_entry o m) l m.

(** ** Each record is read back *)

Lemma parses_SampledHeader p f s h pad :
  raw_wf p f s h pad ->
  parses SampledHeader_unmarshal (flow_body (WRaw p f s h pad)) (mkSampledHeader p f s (len h) h).
Proof.
  intros (Hp & Hf & Hs & Hh & Hpad). unfold SampledHeader_unmarshal. cbn [flow_body].
  eapply parses_bind; [eauto with vflow|]. eapply parses_bind; [eauto with vflow|].
  eapply parses_bind; [eauto with vflow|]. eapply parses_bind; [apply parses_read32; lia|].
  destruct (Z.gtb_spec (len h) 1500); [lia|].
  assert (uint32 (4 - len h) mod 4 = (- len h) mod 4) as Htmp.
  { unfold wrapU. rewrite Z.mod_mod_divide by (by exists 1073741824).
    replace (4 - len h) with (- len h + 1 * 4) by lia. by rewrite Z.mod_add. }
  pose proof (Z.mod_pos_bound (- len h) 4 ltac:(lia)).
  rewrite Htmp, wrapU_small by (simpl; lia).
  replace (len h + (- len h) mod 4) with (len (h ++ pad)) by (rewrite len_app; lia).
  rewrite <- (app_nil_r (h ++ pad)) at 2.
  eapply parses_bind; [apply parses_Read_short; destruct h; [by destruct Hh|done]|].
  apply parses_pure with (a := h); [|apply parses_ret].
  intros r. rewrite slice_ok by (rewrite ?len_app; lia).
  by rewrite Z.sub_0_r, drop_0, take_len_app.
Qed.

Lemma parses_flow_record w :
  flow_wf w ->
  match stored_entry w with
  | Some e => exists m, flow_record (flow_format w) (len (flow_body w)) = Some m /\
                parses m (flow_body w) e
  | None => flow_record (flow_format w) (len (flow_body w)) = None
  end.
Proof.
  intros Hw. destruct w as [p f s h pad|a b c d|t nh sm dm|f body].
  - unfold stored_entry. cbn [flow_entry flow_format]. unfold dissect. destruct Hw as [Hw Hd].
    unfold dissect in Hd. destruct (Decoder h p NewPacket) as [k o] eqn:Ek.
    destruct o as [u| | |]; try done. eexists. split; [reflexivity|].
    apply (parses_bind_ret _ (fun d => ("RawHeader"%string, RRawHeader d))). unfold decodeSampledHeader.
    rewrite <- (app_nil_r (flow_body _)). eapply parses_bind; [by apply parses_SampledHeader|].
    cbn [shd_Header shd_Protocol]. rewrite Ek. apply parses_ret.
  - destruct Hw as (Ha & Hb & Hc & Hd). eexists. split; [reflexivity|].
    apply (parses_bind_ret _ (fun d => ("ExtSwitch"%string, RExtSwitch d))).
    unfold decodeExtSwitchData, ExtSwitchData_unmarshal. cbn [flow_body].
    do 3 (eapply parses_bind; [eauto with vflow|]).
    apply (parses_bind_ret _ (fun x => mkExtSwitchData a x c 0)). eauto with vflow.
  - destruct Hw as (Ht & Hs & Hd & Hn). pose proof (len_nonneg nh). eexists. split; [reflexivity|].
    apply (parses_bind_ret _ (fun d => ("ExtRouter"%string, RExtRouter d))).
    unfold decodeExtRouterData, ExtRouterData_unmarshal. cbn [flow_body].
    rewrite !len_app, !len_be_encode. rewrite wrapU_small by (simpl; lia).
    replace (Z.of_nat 4 + (len nh + (Z.of_nat 4 + Z.of_nat 4)) - 8)
      with (len (be_encode 4 t ++ nh)) by (rewrite len_app, len_be_encode; lia).
    rewrite app_assoc. eapply parses_bind; [apply parses_ReadFull|].
    apply parses_pure with (a := nh).
    { intros r. rewrite slice_from by (rewrite len_app, len_be_encode; lia).
      by rewrite drop_app_length' by (by rewrite length_be_encode). }
    eapply parses_bind; [eauto with vflow|].
    apply (parses_bind_ret _ (fun x => mkExtRouterData nh sm x)). eauto with vflow.
  - destruct Hw as (Hf & Hl & H1 & H2 & H3). unfold stored_entry. cbn [flow_entry flow_format]. unfold flow_record.
    repeat case_match; done || lia.
Qed.

Lemma map_fst_zip_eq {A B} (l : list A) (k : list B) : length k = length l -> map fst (zip l k) = l.
Proof. intros H. apply fst_zip. lia. Qed.

Lemma map_snd_zip_eq {A B} (l : list A) (k : list B) : length k = length l -> map snd (zip l k) = k.
Proof. intros H. apply snd_zip. lia. Qed.

Lemma parses_counter_record w :
  counter_wf w ->
  match counter_entry w with
  | Some e => exists m, counter_record (counter_format w) (len (counter_body w)) = Some m /\
                parses m (counter_body w) e
  | None => counter_record (counter_format w) (len (counter_body w)) = None
  end.
Proof.
  destruct w as [k zs|f body].
  - intros [Hl Hz]. cbn [counter_entry counter_format counter_body].
    pose proof (map_fst_zip_eq (kind_fields k) zs Hl) as E1.
    pose proof (map_snd_zip_eq (kind_fields k) zs Hl) as E2.
    assert (forall A (fill : list Z -> option A) (g : A -> string * SFRecord) a, fill zs = Some a ->
      parses (d ← unmarshal_struct (kind_fields k) fill; mret (g d))
        (encode_ints (zip (kind_fields k) zs)) (g a)) as Hs.
    { intros A fill g a Ha. apply parses_bind_ret. rewrite <- E1 at 1.
      apply parses_struct; [done|]. by rewrite E2. }
    destruct k; cbn [kind_entry kind_format kind_fields] in *;
      repeat (destruct zs as [|? zs]; try discriminate Hl); cbn [fmap option_fmap option_map];
      eexists; (split; [reflexivity|]).
    + exact (Hs _ gic_of (fun d => ("GenInt"%string, RGenInt d)) _ eq_refl).
    + exact (Hs _ eic_of (fun d => ("EthInt"%string, REthInt d)) _ eq_refl).
    + exact (Hs _ trc_of (fun d => ("TRInt"%string, RTRInt d)) _ eq_refl).
    + exact (Hs _ vg_of (fun d => ("VGInt"%string, RVGInt d)) _ eq_refl).
    + exact (Hs _ vc_of (fun d => ("Vlan"%string, RVlan d)) _ eq_refl).
    + exact (Hs _ pc_of (fun d => ("Proc"%string, RProc d)) _ eq_refl).
  - intros (Hf & Hl & H1 & H2). cbn [counter_entry counter_format]. unfold counter_record.
    repeat case_match; done || lia.
Qed.

(** ** Record lists *)

(** A record on the wire with the entry it makes. *)
Record item : Type := mkItem {
  it_format : Z; it_body : list byte; it_entry : option (string * SFRecord)
}.

Definition item_ok (dec : Z -> Z -> option (M SReader (string * SFRecord))) (t : item) : Prop :=
  u32_ok (it_format t) /\ len (it_body t) < 4294967296 /\
  match it_entry t with
  | Some e => exists m, dec (it_format t) (len (it_body t)) = Some m /\ parses m (it_body t) e
  | None => dec (it_format t) (len (it_body t)) = None
  end.

Definition encode_items (l : list item) : list byte :=
  concat (map (fun t => encode_record (it_format t) (it_body t)) l).

Lemma length_encode_items l : len l <= len (encode_items l).
Proof.
  unfold encode_items. induction l as [|t l IH]; [done|]. cbn [map concat].
  unfold encode_record at 1. rewrite len_cons. autorewrite with len.
  pose proof (len_nonneg (it_body t)). lia.
Qed.

Lemma parses_record_loop dec l fuel i n records :
  Forall (item_ok dec) l -> n = i + len l -> (length l < fuel)%nat ->
  parses (record_loop dec fuel i n records) (encode_items l) (entries (map it_entry l) records).
Proof.
  intros Hl. revert fuel i records. induction Hl as [|[f b e] l (Hf & Hb & He) Hl IH];
    intros fuel i records Hn Hfuel; (destruct fuel as [|fuel]; [simpl in Hfuel; lia|]);
    cbn [record_loop]; unfold encode_items; cbn [map concat it_format it_body it_entry] in *.
  - rewrite len_nil in Hn. case_test; [lia|]. apply parses_ret.
  - rewrite len_cons in Hn. pose proof (len_nonneg l). pose proof (len_nonneg b).
    case_test; [|lia]. unfold encode_record. rewrite <- !app_assoc.
    eapply parses_bind; [eauto with vflow|].
    eapply parses_bind; [apply parses_read32; lia|].
    destruct e as [[k d]|].
    + destruct He as (m & -> & Hm). eapply parses_bind; [exact Hm|].
      apply IH; [lia|simpl in Hfuel; lia].
    + rewrite He. eapply parses_bind; [apply parses_Seek|]. apply IH; [lia|simpl in Hfuel; lia].
Qed.

Definition flow_item (w : wire_flow_record) : item :=
  mkItem (flow_format w) (flow_body w) (stored_entry w).
Definition counter_item (w : wire_counter_record) : item :=
  mkItem (counter_format w) (counter_body w) (counter_entry w).

Lemma flow_item_ok w : flow_wf w -> len (flow_body w) < 4294967296 -> item_ok flow_record (flow_item w).
Proof.
  intros Hw Hl. split; [|split; [done|]].
  - destruct w; try done. by destruct Hw.
  - by apply parses_flow_record.
Qed.

Lemma counter_item_ok w :
  counter_wf w -> len (counter_body w) < 4294967296 -> item_ok counter_record (counter_item w).
Proof.
  intros Hw Hl. split; [|split; [done|]].
  - destruct w as [k zs|]; [by destruct k|by destruct Hw].
  - by apply parses_counter_record.
Qed.

(** ** Samples *)

(** A flow sample, a counter sample, an expanded flow sample (in the layout the code
    reads, with the four-byte source id of flow samples), or a sample of another
    format.  [idx] is the three-byte index of the source id. *)
Inductive wire_sample : Type :=
| WFlow (seq src : Z) (idx : list byte) (rate pool drops input output : Z)
    (recs : list wire_flow_record)
| WCounter (seq src idx : Z) (recs : list wire_counter_record)
| WExpanded (seq src : Z) (idx : list byte) (rate pool drops inputF input outputF output : Z)
    (recs : list wire_flow_record)
| WOtherSample (format : Z) (body : list byte).

Definition sample_format (w : wire_sample) : Z :=
  match w with
  | WFlow _ _ _ _ _ _ _ _ _ => 1 | WCounter _ _ _ _ => 2
  | WExpanded _ _ _ _ _ _ _ _ _ _ _ => 3 | WOtherSample f _ => f
  end.

Definition sample_body (w : wire_sample) : list byte :=
  match w with
  | WFlow seq src idx rate pool drops input output recs =>
      be_encode 4 seq ++ be_encode 1 src ++ idx ++ be_encode 4 rate ++ be_encode 4 pool
        ++ be_encode 4 drops ++ be_encode 4 input ++ be_encode 4 output
        ++ be_encode 4 (len recs) ++ encode_items (map flow_item recs)
  | WCounter seq src idx recs =>
      be_encode 4 seq ++ be_encode 1 src ++ be_encode 3 idx ++ be_encode 4 (len recs)
        ++ encode_items (map counter_item recs)
  | WExpanded seq src idx rate pool drops inputF input outputF output recs =>
      be_encode 4 seq ++ be_encode 1 src ++ idx ++ be_encode 4 rate ++ be_encode 4 pool
        ++ be_encode 4 drops ++ be_encode 4 inputF ++ be_encode 4 input ++ be_encode 4 outputF
        ++ be_encode 4 output ++ be_encode 4 (len recs) ++ encode_items (map flow_item recs)
  | WOtherSample _ body => body
  end.

Definition flow_recs_wf (recs : list wire_flow_record) : Prop :=
  u32_ok (len recs) /\ Forall (fun w => flow_wf w /\ len (flow_body w) < 4294967296) recs.

Definition sample_wf (w : wire_sample) : Prop :=
  len (sample_body w) < 4294967296 /\
  match w with
  | WFlow seq src idx rate pool drops input output recs =>
      Forall u32_ok [seq; rate; pool; drops; input; output] /\ 0 <= src < 256 /\
      length idx = 3%nat /\ flow_recs_wf recs
  | WCounter seq src idx recs =>
      u32_ok seq /\ 0 <= src < 256 /\ 0 <= idx < 16777216 /\ u32_ok (len recs) /\
      Forall (fun w => counter_wf w /\ len (counter_body w) < 4294967296) recs
  | WExpanded seq src idx rate pool drops inputF input outputF output recs =>
      Forall u32_ok [seq; rate; pool; drops; inputF; input; outputF; output] /\ 0 <= src < 256 /\
      length idx = 3%nat /\ flow_recs_wf recs
  | WOtherSample f _ => 0 <= f < 4096 /\ f <> 1 /\ f <> 2 /\ f <> 3
  end.

(** How a sample extends the datagram, its flow records making the entries [entry]. *)
Definition sample_add (entry : wire_flow_record -> option (string * SFRecord)) (w : wire_sample)
    (d : SFDatagram) : SFDatagram :=
  match w with
  | WFlow seq src _ rate pool drops input output recs =>
      add_Sample (SFlowSample (mkFlowSample seq src rate pool drops input output (len recs)
        (entries (map entry recs) ∅))) d
  | WCounter seq src idx recs =>
      add_Counter (mkCounterSample seq src idx (len recs) (entries (map counter_entry recs) ∅)) d
  | WExpanded seq src _ rate pool drops inputF input outputF output recs =>
      add_Sample (SExpanded (mkExpandedFlowSample seq src rate pool drops inputF input outputF
        output (len recs) (entries (map entry recs) ∅))) d
  | WOtherSample _ _ => d
  end.

Lemma flow_recs_ok recs :
  flow_recs_wf recs -> Forall (item_ok flow_record) (map flow_item recs).
Proof.
  intros [_ H]. apply Forall_map. eapply Forall_impl; [exact H|]. intros w [H1 H2].
  by apply flow_item_ok.
Qed.

Lemma map_entries {A} (f : A -> item) (l : list A) :
  map it_entry (map f l) = map (fun x => it_entry (f x)) l.
Proof. by rewrite map_map. Qed.

Lemma parses_flow_loop recs fuel :
  flow_recs_wf recs -> len recs < Z.of_nat fuel ->
  parses (record_loop flow_record fuel 0 (len recs) ∅) (encode_items (map flow_item recs))
    (entries (map stored_entry recs) ∅).
Proof.
  intros Hr Hf. pose proof (parses_record_loop flow_record (map flow_item recs) fuel 0 (len recs) ∅
    (flow_recs_ok recs Hr)) as H. rewrite map_entries in H.
  apply H; unfold len in *; rewrite ?length_map; lia.
Qed.

Lemma parses_counter_loop recs fuel :
  Forall (fun w => counter_wf w /\ len (counter_body w) < 4294967296) recs ->
  len recs < Z.of_nat fuel ->
  parses (record_loop counter_record fuel 0 (len recs) ∅) (encode_items (map counter_item recs))
    (entries (map counter_entry recs) ∅).
Proof.
  intros Hr Hf. pose proof (parses_record_loop counter_record (map counter_item recs) fuel 0
    (len recs) ∅) as H. rewrite map_entries in H.
  apply H; [|unfold len in *; rewrite ?length_map; lia..].
  apply Forall_map. eapply Forall_impl; [exact Hr|]. intros w [H1 H2]. by apply counter_item_ok.
Qed.

(** Discharge the range of a field from the [Forall] of a sample. *)
Ltac field_range := match goal with H : Forall u32_ok _ |- _ =>
  rewrite !Forall_cons in H; destruct_and!; unfold u32_ok in *; done end.

(** The three kinds of samples. *)
Lemma parses_decodeFlowSample seq src idx rate pool drops input output recs fuel :
  let w := WFlow seq src idx rate pool drops input output recs in
  sample_wf w -> len recs < Z.of_nat fuel ->
  parses (decodeFlowSample fuel) (sample_body w)
    (mkFlowSample seq src rate pool drops input output (len recs)
       (entries (map stored_entry recs) ∅)).
Proof.
  intros w (_ & Hu & Hsrc & Hidx & Hrecs) Hf. unfold w, decodeFlowSample. cbn [sample_body].
  rewrite !Forall_cons in Hu. destruct Hu as (H1 & H2 & H3 & H4 & H5 & H6 & _).
  set (fs := mkFlowSample seq src rate pool drops input output (len recs) ∅).
  assert (parses FlowSample_unmarshal
    (be_encode 4 seq ++ be_encode 1 src ++ idx ++ be_encode 4 rate ++ be_encode 4 pool
       ++ be_encode 4 drops ++ be_encode 4 input ++ be_encode 4 output
       ++ be_encode 4 (len recs)) fs) as Hu.
  { unfold FlowSample_unmarshal.
    eapply parses_bind; [by apply parses_read32|]. eapply parses_bind; [by apply parses_read8|].
    eapply parses_bind; [apply parses_Seek_n; unfold len; by rewrite Hidx|].
    do 5 (eapply parses_bind; [by apply parses_read32|]).
    apply (parses_bind_ret _ (fun n => mkFlowSample seq src rate pool drops input output n ∅)).
    apply parses_read32, Hrecs. }
  pose proof (parses_bind _ (fun fs => records ← record_loop flow_record fuel 0 (fs_RecordsNo fs) ∅;
    mret (mkFlowSample (fs_SequenceNo fs) (fs_SourceID fs) (fs_SamplingRate fs) (fs_SamplePool fs)
          (fs_Drops fs) (fs_Input fs) (fs_Output fs) (fs_RecordsNo fs) records)) _ _ _ _ Hu
    (parses_bind_ret _ (fun rs => mkFlowSample seq src rate pool drops input output (len recs) rs)
      _ _ (parses_flow_loop recs fuel Hrecs Hf))) as H.
  by rewrite <- !app_assoc in H.
Qed.

Lemma parses_decodeExpanded seq src idx rate pool drops inF input outF output recs fuel :
  let w := WExpanded seq src idx rate pool drops inF input outF output recs in
  sample_wf w -> len recs < Z.of_nat fuel ->
  parses (decodeExpandedFlowSample fuel) (sample_body w)
    (mkExpandedFlowSample seq src rate pool drops inF input outF output (len recs)
       (entries (map stored_entry recs) ∅)).
Proof.
  intros w (_ & Hu & Hsrc & Hidx & Hrecs) Hf. unfold w, decodeExpandedFlowSample. cbn [sample_body].
  rewrite !Forall_cons in Hu. destruct Hu as (H1 & H2 & H3 & H4 & H5 & H6 & H7 & H8 & _).
  set (fs := mkExpandedFlowSample seq src rate pool drops inF input outF output (len recs) ∅).
  assert (parses ExpandedFlowSample_unmarshal
    (be_encode 4 seq ++ be_encode 1 src ++ idx ++ be_encode 4 rate ++ be_encode 4 pool
       ++ be_encode 4 drops ++ be_encode 4 inF ++ be_encode 4 input ++ be_encode 4 outF
       ++ be_encode 4 output ++ be_encode 4 (len recs)) fs) as Hu.
  { unfold ExpandedFlowSample_unmarshal.
    eapply parses_bind; [by apply parses_read32|]. eapply parses_bind; [by apply parses_read8|].
    eapply parses_bind; [apply parses_Seek_n; unfold len; by rewrite Hidx|].
    do 7 (eapply parses_bind; [by apply parses_read32|]).
    apply (parses_bind_ret _ (fun n =>
      mkExpandedFlowSample seq src rate pool drops inF input outF output n ∅)).
    apply parses_read32, Hrecs. }
  pose proof (parses_bind _ (fun efs =>
    records ← record_loop flow_record fuel 0 (efs_RecordsNo efs) ∅;
    mret (mkExpandedFlowSample (efs_SequenceNo efs) (efs_SourceID efs) (efs_SamplingRate efs)
          (efs_SamplePool efs) (efs_Drops efs) (efs_InputFormat efs) (efs_Input efs)
          (efs_OutputFormat efs) (efs_Output efs) (efs_RecordsNo efs) records)) _ _ _ _ Hu
    (parses_bind_ret _ (fun rs => mkExpandedFlowSample seq src rate pool drops inF input outF
      output (len recs) rs) _ _ (parses_flow_loop recs fuel Hrecs Hf))) as H.
  by rewrite <- !app_assoc in H.
Qed.

(** The three-byte source index. *)
Lemma source_index idx :
  0 <= idx < 16777216 ->
  exists b0 b1 b2, be_encode 3 idx = [b0; b1; b2] /\
    Z.lor (Z.lor (u8 b2) (Z.shiftl (u8 b1) 8)) (Z.shiftl (u8 b0) 16) = idx.
Proof.
  intros Hi. eexists _, _, _. split; [reflexivity|]. rewrite !u8_byte_of_Z.
  change (256 ^ Z.of_nat 2) with 65536. change (256 ^ Z.of_nat 1) with 256.
  change (256 ^ Z.of_nat 0) with 1. rewrite Z.div_1_r.
  rewrite (Z.lor_comm (idx mod 256)). rewrite lor_shiftl by
    (try lia; change (2 ^ 8) with 256; apply Z.mod_pos_bound; lia).
  rewrite Z.lor_comm, lor_shiftl; change (2 ^ 8) with 256; change (2 ^ 16) with 65536; [|lia|].
  all: Z.to_euclidean_division_equations; lia.
Qed.

Lemma parses_decodeFlowCounter seq src idx recs fuel :
  let w := WCounter seq src idx recs in
  sample_wf w -> len recs < Z.of_nat fuel ->
  parses (decodeFlowCounter fuel) (sample_body w)
    (mkCounterSample seq src idx (len recs) (entries (map counter_entry recs) ∅)).
Proof.
  intros w (_ & Hseq & Hsrc & Hidx & Hn & Hrecs) Hf. unfold w, decodeFlowCounter. cbn [sample_body].
  set (cs := mkCounterSample seq src idx (len recs) ∅).
  assert (parses CounterSample_unmarshal
    (be_encode 4 seq ++ be_encode 1 src ++ be_encode 3 idx ++ be_encode 4 (len recs)) cs) as Hu.
  { unfold CounterSample_unmarshal.
    eapply parses_bind; [by apply parses_read32|]. eapply parses_bind; [by apply parses_read8|].
    destruct (source_index idx Hidx) as (b0 & b1 & b2 & -> & E).
    eapply parses_bind; [apply (parses_ReadFull [b0; b1; b2])|].
    apply parses_pure with (a := b2); [done|]. apply parses_pure with (a := b1); [done|].
    apply parses_pure with (a := b0); [done|]. rewrite E.
    apply (parses_bind_ret _ (fun n => mkCounterSample seq src idx n ∅)). by apply parses_read32. }
  pose proof (parses_bind _ (fun cs =>
    records ← record_loop counter_record fuel 0 (cs_RecordsNo cs) ∅;
    mret (mkCounterSample (cs_SequenceNo cs) (cs_SourceIDType cs) (cs_SourceIDIdx cs)
          (cs_RecordsNo cs) records)) _ _ _ _ Hu
    (parses_bind_ret _ (fun rs => mkCounterSample seq src idx (len recs) rs) _ _
      (parses_counter_loop recs fuel Hrecs Hf))) as H.
  by rewrite <- !app_assoc in H.
Qed.

Lemma recs_bound_flow recs : len recs <= len (encode_items (map flow_item recs)).
Proof.
  pose proof (length_encode_items (map flow_item recs)) as H. unfold len in H at 1.
  by rewrite length_map in H.
Qed.

Lemma recs_bound_counter recs : len recs <= len (encode_items (map counter_item recs)).
Proof.
  pose proof (length_encode_items (map counter_item recs)) as H. unfold len in H at 1.
  by rewrite length_map in H.
Qed.

Lemma parses_sample w fuel :
  sample_wf w -> len (sample_body w) < Z.of_nat fuel ->
  match sample_decoder fuel (sample_format w) with
  | Some m => parses m (sample_body w) (sample_add stored_entry w)
  | None => forall d, sample_add stored_entry w d = d
  end.
Proof.
  intros Hw Hf. destruct w as [seq src idx rate pool drops input output recs|seq src idx recs
    |seq src idx rate pool drops inF input outF output recs|f body].
  - cbn [sample_format sample_decoder]. pose proof (recs_bound_flow recs).
    cbn [sample_body] in Hf. rewrite !len_app, !len_be_encode in Hf. pose proof (len_nonneg idx).
    apply (parses_bind_ret _ (fun s => add_Sample (SFlowSample s))).
    apply parses_decodeFlowSample; [done|lia].
  - cbn [sample_format sample_decoder]. pose proof (recs_bound_counter recs).
    cbn [sample_body] in Hf. rewrite !len_app, !len_be_encode in Hf.
    apply (parses_bind_ret _ add_Counter). apply parses_decodeFlowCounter; [done|lia].
  - cbn [sample_format sample_decoder]. pose proof (recs_bound_flow recs).
    cbn [sample_body] in Hf. rewrite !len_app, !len_be_encode in Hf. pose proof (len_nonneg idx).
    apply (parses_bind_ret _ (fun s => add_Sample (SExpanded s))).
    apply parses_decodeExpanded; [done|lia].
  - destruct Hw as (_ & Hr & H1 & H2 & H3). cbn [sample_format]. unfold sample_decoder.
    repeat case_match; done || lia.
Qed.

(** ** Datagrams *)

Record wire_datagram : Type := mkWire {
  wd_IPVersion : Z; wd_addr : list byte; wd_subID : Z; wd_seq : Z; wd_uptime : Z;
  wd_samples : list wire_sample
}.

Definition encode_sample (w : wire_sample) : list byte :=
  encode_record (sample_format w) (sample_body w).

Definition encode_datagram (d : wire_datagram) : list byte :=
  be_encode 4 5 ++ be_encode 4 (wd_IPVersion d) ++ wd_addr d ++ be_encode 4 (wd_subID d)
    ++ be_encode 4 (wd_seq d) ++ be_encode 4 (wd_uptime d) ++ be_encode 4 (len (wd_samples d))
    ++ concat (map encode_sample (wd_samples d)).

Definition wire_wf (d : wire_datagram) : Prop :=
  Forall u32_ok [wd_IPVersion d; wd_subID d; wd_seq d; wd_uptime d; len (wd_samples d)] /\
  len (wd_addr d) = (if wd_IPVersion d =? 2 then 16 else 4) /\ Forall sample_wf (wd_samples d).

Section datagram.
Context (filter : list Z) (now : Z).

(** The datagram the collector should hold: all samples but the filtered formats. *)
Definition datagram_of (entry : wire_flow_record -> option (string * SFRecord)) (d : wire_datagram) :
    SFDatagram :=
  fold_left (fun g w => if decide (sample_format w ∈ filter) then g else sample_add entry w g)
    (wd_samples d)
    (mkSFDatagram 5 (wd_IPVersion d) (wd_subID d) (wd_seq d) (wd_uptime d) (len (wd_samples d))
       [] [] (wd_addr d) now).

(** What the code keeps of a datagram. *)
Definition stored_datagram : wire_datagram -> SFDatagram := datagram_of stored_entry.

(** A datagram whose switch data carry no priorities. *)
Definition faithful_sample (w : wire_sample) : Prop :=
  match w with
  | WFlow _ _ _ _ _ _ _ _ recs | WExpanded _ _ _ _ _ _ _ _ _ _ recs => Forall faithful_record recs
  | _ => True
  end.

Lemma stored_sample w g : faithful_sample w -> sample_add stored_entry w g = sample_add flow_entry w g.
Proof.
  assert (forall recs, Forall faithful_record recs -> map stored_entry recs = map flow_entry recs) as H.
  { induction 1 as [|w' recs Hw _ IH]; [done|]. cbn [map]. by rewrite IH, stored_faithful. }
  destruct w; cbn [faithful_sample sample_add]; intros Hw; try done; by rewrite H.
Qed.

Lemma stored_datagram_faithful d :
  Forall faithful_sample (wd_samples d) -> stored_datagram d = datagram_of flow_entry d.
Proof.
  intros Hs. unfold stored_datagram, datagram_of. generalize (mkSFDatagram 5 (wd_IPVersion d)
    (wd_subID d) (wd_seq d) (wd_uptime d) (len (wd_samples d)) [] [] (wd_addr d) now).
  induction Hs as [|w ws Hw Hs IH]; intros g; [done|]. cbn [fold_left].
  rewrite (stored_sample w g Hw). apply IH.
Qed.

Lemma isFilterMatch_spec f : isFilterMatch filter f = bool_decide (f ∈ filter).
Proof.
  unfold isFilterMatch. induction filter as [|v l IH]; [done|]. cbn [isFilterMatch_loop].
  destruct (Z.eqb_spec v f) as [->|Hne].
  - symmetry. apply bool_decide_eq_true. by left.
  - rewrite IH. apply bool_decide_ext. rewrite elem_of_cons. naive_solver.
Qed.

Lemma parses_getSampleInfo f l :
  0 <= f < 4096 -> u32_ok l -> parses getSampleInfo (be_encode 4 f ++ be_encode 4 l) (f, l).
Proof.
  intros Hf Hl. unfold getSampleInfo. eapply parses_bind; [apply parses_read32; lia|].
  rewrite Z.shiftr_div_pow2 by lia. rewrite (Z.div_small f) by (simpl; lia). cbn [negb Z.eqb].
  change 0xfff with (Z.ones 12). rewrite Z.land_ones, Z.mod_small by (simpl; lia).
  rewrite <- (app_nil_r (be_encode 4 l)).
  eapply parses_bind with (a := inl l); [|apply parses_ret].
  intros r rest Hr Hu. destruct (parses_read32 l Hl r rest Hr Hu) as (r' & E & H).
  exists r'. unfold try. by rewrite E.
Qed.

Lemma sample_add_samplesNo w g : dg_SamplesNo (sample_add stored_entry w g) = dg_SamplesNo g.
Proof. by destruct w. Qed.

Lemma sample_format_range w : sample_wf w -> 0 <= sample_format w < 4096.
Proof. destruct w; cbn [sample_format]; try lia. by intros (_ & ? & _). Qed.

Lemma parses_SFDecode_loop ws n fuel i g :
  Forall sample_wf ws -> dg_SamplesNo g = i + len ws -> (length ws < n)%nat ->
  len (concat (map encode_sample ws)) < Z.of_nat fuel ->
  parses (SFDecode_loop filter n fuel i g) (concat (map encode_sample ws))
    (fold_left (fun g w => if decide (sample_format w ∈ filter) then g else sample_add stored_entry w g) ws g).
Proof.
  intros Hws. revert n i g. induction Hws as [|w ws Hw Hws IH]; intros n i g Hg Hn Hf;
    (destruct n as [|n]; [simpl in Hn; lia|]); cbn [SFDecode_loop map concat fold_left].
  - rewrite len_nil in Hg. case_test; [lia|]. apply parses_ret.
  - rewrite len_cons in Hg. pose proof (len_nonneg ws). case_test; [|lia].
    cbn [map concat] in Hf. unfold encode_sample at 1, encode_record in Hf.
    unfold encode_sample at 1, encode_record.
    rewrite !len_app, !len_be_encode in Hf. pose proof (len_nonneg (sample_body w)).
    pose proof (len_nonneg (concat (map encode_sample ws))).
    rewrite (app_assoc (be_encode 4 _)), <- app_assoc.
    eapply parses_bind.
    { apply parses_getSampleInfo; [by apply sample_format_range|]. split; [lia|apply Hw]. }
    cbn beta iota. rewrite isFilterMatch_spec.
    assert (forall g', dg_SamplesNo g' = dg_SamplesNo g ->
      parses (SFDecode_loop filter n fuel (i + 1) g') (concat (map encode_sample ws))
        (fold_left (fun g w => if decide (sample_format w ∈ filter) then g else sample_add stored_entry w g)
           ws g')) as Hrec by (intros g' Hg'; apply IH; [lia|simpl in Hn; lia|lia]).
    destruct (decide (sample_format w ∈ filter));
      [rewrite bool_decide_eq_true_2 by done|rewrite bool_decide_eq_false_2 by done].
    { eapply parses_bind; [apply parses_Seek|]. by apply Hrec. }
    pose proof (parses_sample w fuel Hw ltac:(lia)) as Hp.
    destruct (sample_decoder fuel (sample_format w)) as [m|].
    + eapply parses_bind with (a := inl (sample_add stored_entry w));
        [|apply Hrec, sample_add_samplesNo].
      intros r rest Hr Hu. destruct (Hp r rest Hr Hu) as (r' & E & Hr').
      exists r'. unfold try. by rewrite E.
    + eapply parses_bind; [apply parses_Seek|]. rewrite Hp. by apply Hrec.
Qed.

Lemma SFDecode_encoded (d : wire_datagram) (rest : list byte) (fuel : nat) :
  wire_wf d -> len (encode_datagram d) < Z.of_nat fuel ->
  exists r', SFDecode filter now fuel (NewSFReader (encode_datagram d ++ rest)) =
      (r', Ok (stored_datagram d)) /\ unread r' = rest.
Proof.
  intros (Hu & Ha & Hs) Hf. destruct d as [ipv addr sub seq up ws].
  cbn [wd_IPVersion wd_addr wd_subID wd_seq wd_uptime wd_samples] in *.
  rewrite !Forall_cons in Hu. destruct Hu as (H1 & H2 & H3 & H4 & H5 & _).
  set (g := mkSFDatagram 5 ipv sub seq up (len ws) [] [] addr now).
  assert (parses (sfHeaderDecode now) (be_encode 4 5 ++ be_encode 4 ipv ++ addr ++ be_encode 4 sub
    ++ be_encode 4 seq ++ be_encode 4 up ++ be_encode 4 (len ws)) g) as Hh.
  { unfold sfHeaderDecode. eapply parses_bind; [by apply parses_read32|]. cbn [negb Z.eqb Pos.eqb].
    eapply parses_bind; [by apply parses_read32|]. rewrite <- Ha.
    eapply parses_bind; [apply parses_Read_short; destruct addr; [by destruct (ipv =? 2)|done]|].
    do 3 (eapply parses_bind; [by apply parses_read32|]).
    apply (parses_bind_ret _ (fun n => mkSFDatagram 5 ipv sub seq up n [] [] addr now)).
    by apply parses_read32. }
  unfold encode_datagram in *. cbn [wd_IPVersion wd_addr wd_subID wd_seq wd_uptime wd_samples] in *.
  rewrite !len_app, !len_be_encode in Hf. pose proof (len_nonneg addr).
  assert (len ws <= len (concat (map encode_sample ws))) as Hws.
  { clear. induction ws as [|w ws IH]; [done|]. cbn [map concat]. rewrite len_cons, len_app.
    unfold encode_sample at 1, encode_record. rewrite !len_app, len_be_encode.
    pose proof (len_nonneg (be_encode 4 (len (sample_body w)))).
    pose proof (len_nonneg (sample_body w)). lia. }
  pose proof (parses_bind _ (SFDecode_loop filter fuel fuel 0) _ _ _ _ Hh
    (parses_SFDecode_loop ws fuel fuel 0 g Hs eq_refl ltac:(unfold len in *; lia) ltac:(lia))) as Hp.
  rewrite <- !app_assoc in Hp.
  destruct (Hp (NewSFReader (be_encode 4 5 ++ be_encode 4 ipv ++ addr ++ be_encode 4 sub
    ++ be_encode 4 seq ++ be_encode 4 up ++ be_encode 4 (len ws)
    ++ concat (map encode_sample ws) ++ rest)) rest) as (r' & E & _ & Hr'); [done| |].
  { unfold unread, NewSFReader. cbn [sr_s sr_i]. rewrite drop_0, <- !app_assoc. done. }
  exists r'. rewrite <- !app_assoc. by split.
Qed.

(** C14: [SFDecode] reads datagrams back.  On the encoding of any well-formed datagram
    (IPv4 or IPv6 agent; flow, counter and expanded samples; sampled headers the packet
    dissector accepts, switch and router data, the six kinds of counters, records and
    samples of other formats), followed by anything, it consumes the datagram and returns
    its header and, in their order, all its samples and counters except those of the
    filtered formats, each with a map of its records by kind: the last record of each kind,
    a sampled header as the dissector reads it, and switch data as [misread_switch] says
    (the destination priority as the source's, and 0).  When no switch data carry
    priorities, the records are those that were sent. *)
Theorem SFDecode_roundtrip (d : wire_datagram) (rest : list byte) (fuel : nat) :
  wire_wf d -> len (encode_datagram d) < Z.of_nat fuel ->
  exists r', SFDecode filter now fuel (NewSFReader (encode_datagram d ++ rest)) =
      (r', Ok (datagram_of stored_entry d)) /\ unread r' = rest /\
    (Forall faithful_sample (wd_samples d) -> datagram_of stored_entry d = datagram_of flow_entry d).
Proof.
  intros Hw Hf. destruct (SFDecode_encoded d rest fuel Hw Hf) as (r' & E & Hr).
  exists r'. split_and!; [exact E|exact Hr|apply stored_datagram_faithful].
Qed.

End datagram.

(** A datagram with one flow sample (the frame of the packet tests and switch data), a
    counter sample with VLAN counters, and a sample of an unknown format. *)
Definition example_datagram (header : list byte) : wire_datagram :=
  mkWire 1 (bytes [10; 0; 0; 1]) 0 42 1000
    [WFlow 7 0 (bytes [0; 2; 49]) 4096 8192 0 561 707
       [WRaw 1 64 4 header (bytes [0; 0]); WSwitch 7 0 7 3];
     WCounter 8 0 561 [WCounters KVlan [7; 123456789012; 1; 2; 3; 4]];
     WOtherSample 99 (bytes [1; 2; 3; 4])].
