(* ===== verification/SFlowProps.v ===== *)
(** The sFlow decoder on examples, and where it panics. *)

From S2P Require Import Prelude GoNet Reader Packet PacketWire SFlow SFlowFacts SFlowWire.

Definition example_header : list byte := encode_frame example_frame.

Lemma example_datagram_wf : wire_wf (example_datagram example_header).
Proof.
  split; [|split].
  - repeat constructor; done.
  - done.
  - repeat constructor; try done; try (vm_compute; discriminate).
Qed.

(** The same without priorities in the switch data. *)
Definition plain_datagram : wire_datagram :=
  mkWire 1 (bytes [10; 0; 0; 1]) 0 42 1000
    [WFlow 7 0 (bytes [0; 2; 49]) 4096 8192 0 561 707
       [WRaw 1 64 4 example_header (bytes [0; 0]); WSwitch 7 0 8 0]].

Lemma plain_datagram_wf : wire_wf plain_datagram.
Proof.
  split; [|split].
  - repeat constructor; done.
  - done.
  - repeat constructor; try done; try (vm_compute; discriminate).
Qed.

(** With counter samples filtered, as in the repository's tests; and without priorities. *)
Lemma SFDecode_roundtrip_witness :
  (exists r' d, SFDecode [2] 0 400
      (NewSFReader (encode_datagram (example_datagram example_header) ++ bytes [9])) = (r', Ok d) /\
    dg_Counters d = [] /\
    dg_Samples d = [SFlowSample (mkFlowSample 7 0 4096 8192 0 561 707 2
      (<["ExtSwitch"%string := RExtSwitch (mkExtSwitchData 7 3 7 0)]>
        (<["RawHeader"%string := RRawHeader (misread_fragment (packet_of example_frame))]> ∅)))]) /\
  exists r', SFDecode [] 0 400 (NewSFReader (encode_datagram plain_datagram ++ [])) =
    (r', Ok (datagram_of [] 0 flow_entry plain_datagram)).
Proof.
  split.
  - destruct (SFDecode_roundtrip [2] 0 (example_datagram example_header) (bytes [9]) 400
      example_datagram_wf) as (r' & E & _); [vm_compute; reflexivity|].
    exists r', (stored_datagram [2] 0 (example_datagram example_header)). split; [exact E|].
    split; vm_compute; reflexivity.
  - destruct (SFDecode_roundtrip [] 0 plain_datagram [] 400 plain_datagram_wf) as (r' & E & _ & H);
      [vm_compute; reflexivity|].
    exists r'. rewrite <- H; [exact E|]. repeat constructor.
Defined.

(** ** Panics *)

Lemma read32_no_panic r : returns (read32 r).2.
Proof.
  unfold read32, read_n, ReadFull. unmonad. by repeat case_test.
Qed.

(** What [ExtRouterData.unmarshal] does with the bytes it read. *)
Lemma router_rest_panic buff r :
  ((nextHop ← slice buff 4 (len buff);
    srcMask ← read32;
    dstMask ← read32;
    mret (mkExtRouterData nextHop srcMask dstMask)) r).2 = Panic <-> len buff < 4.
Proof.
  unmonad. destruct (Z.lt_ge_cases (len buff) 4).
  - by rewrite slice_panic by lia.
  - split; [|lia]. intros Hp. exfalso. revert Hp. rewrite slice_from by lia.
    pose proof (read32_no_panic r) as H1.
    destruct (read32 r) as [r2 []]; try done. pose proof (read32_no_panic r2) as H2.
    by destruct (read32 r2) as [r3 []].
Qed.

(** A router record panics the decoder exactly when its announced length is 8 to 11
    and that many bytes less eight are there: the code skips the four-byte address type
    of a next hop it did not get.  Every other length gives the data or an error. *)
Theorem ExtRouter_panics_iff (l : Z) (r : SReader) :
  u32_ok l -> (decodeExtRouterData l r).2 = Panic <-> 8 <= l < 12 /\ l - 8 <= len (unread r).
Proof.
  unfold u32_ok. intros Hl. unfold decodeExtRouterData, ExtRouterData_unmarshal.
  unfold mbind at 1, M_bind at 1.
  set (n := uint32 (l - 8)).
  assert (8 <= l /\ n = l - 8 \/ l < 8 /\ 4294967288 <= n) as Hn.
  { unfold n, wrapU. change (2 ^ 32) with 4294967296. destruct (Z.lt_ge_cases l 8).
    - right. split; [done|]. rewrite <- (Z.mod_add _ 1) by lia. rewrite Z.mod_small; lia.
    - left. split; [done|]. apply Z.mod_small. lia. }
  unfold ReadFull. pose proof (len_nonneg (unread r)).
  destruct (Z.eqb_spec n 0) as [E|E].
  { rewrite router_rest_panic, len_nil. lia. }
  destruct (Z.eqb_spec (len (unread r)) 0); [split; [done|lia]|].
  destruct (Z.ltb_spec (len (unread r)) n); [split; [done|lia]|].
  pose proof (len_take n (unread r) ltac:(lia)) as Hlen.
  rewrite router_rest_panic, Hlen. lia.
Qed.

Lemma ExtRouter_panics_iff_witness :
  (decodeExtRouterData 8 (NewSFReader [])).2 = Panic.
Proof. apply ExtRouter_panics_iff; [done|]. by split. Defined.

(** A sampled Ethernet header cut inside its VLAN tag panics the decoder: such a
    record, however it is framed, is never an error. *)
Theorem SampledHeader_panics (f s : Z) (h pad rest : list byte) (r : SReader) :
  raw_wf 1 f s h pad -> short_tagged h = true -> 0 <= sr_i r ->
  unread r = flow_body (WRaw 1 f s h pad) ++ rest ->
  (decodeSampledHeader r).2 = Panic.
Proof.
  intros Hw Hh Hr Hu. destruct (parses_SampledHeader 1 f s h pad Hw r rest Hr Hu) as (r' & E & _).
  unfold decodeSampledHeader, mbind, M_bind. rewrite E. cbn [shd_Header shd_Protocol].
  pose proof (Decoder_short_panics h NewPacket Hh) as Hp.
  by destruct (Decoder h 1 NewPacket) as [p []].
Qed.

Lemma SampledHeader_panics_witness :
  (decodeSampledHeader (NewSFReader (flow_body (WRaw 1 14 0
     (bytes [1; 2; 3; 4; 5; 6; 1; 2; 3; 4; 5; 6; 0x81; 0]) (bytes [0; 0]))))).2 = Panic.
Proof.
  apply (SampledHeader_panics 14 0 (bytes [1; 2; 3; 4; 5; 6; 1; 2; 3; 4; 5; 6; 0x81; 0])
    (bytes [0; 0]) []); [by repeat split|vm_compute; reflexivity|done|].
  by rewrite app_nil_r.
Defined.
