(* ===== verification/GoFloat.v ===== *)
(** [strconv.FormatFloat(f, 'E', -1, bitSize)] of Go's standard library, for the two
    float formats: the shortest decimal that rounds back to the float, in scientific
    notation.  A float is given by its IEEE bits. *)

From S2P Require Import Prelude GoNet.

Local Open Scope string_scope.
Open Scope Z_scope.

Record floatInfo : Type := mkFloatInfo { mantbits : Z; expbits : Z; bias : Z }.

Definition float32info : floatInfo := mkFloatInfo 23 8 (-127).
Definition float64info : floatInfo := mkFloatInfo 52 11 (-1023).

(** ** Shortest decimal

    The float is [4 * mant * 2 ^ (e - 2)]; in the same unit the decimals that round to it
    lie between [lower] and [upper], the bounds included when [mant] is even.  [A / D],
    [L / D] and [U / D] are the float and the two bounds divided by [10 ^ (k + 1 - n)],
    where [10 ^ k] is the largest power of ten below the float: rounding to [n] digits is
    rounding [A / D] to an integer. *)

Record scaled : Type := mkScaled { sc_A : Z; sc_L : Z; sc_U : Z; sc_D : Z }.

Definition scale (x l u e p : Z) : scaled :=
  let num := 2 ^ Z.max e 0 * 10 ^ Z.max (- p) 0 in
  let den := 2 ^ Z.max (- e) 0 * 10 ^ Z.max p 0 in
  mkScaled (x * num) (l * num) (u * num) den.

(** The largest [k] with [10 ^ k <= x * 2 ^ e], searched upwards from [k]. *)
Fixpoint decimal_exponent (n : nat) (x e k : Z) : Z :=
  match n with
  | O => k
  | S n' =>
      let s := scale x 0 0 e (k + 1) in
      if sc_D s <=? sc_A s then decimal_exponent n' x e (k + 1) else k
  end.

(** The digits (as a number) and the exponent of the first one: the fewest digits [n]
    for which truncating or rounding up stays within the bounds. *)
Fixpoint shortest (fuel : nat) (n : Z) (x l u e k : Z) (inclusive : bool) : Z * Z :=
  let s := scale x l u e (k + 1 - n) in
  let down := sc_A s / sc_D s in
  let up := down + 1 in
  let okdown := (sc_L s <? down * sc_D s) || (inclusive && (sc_L s =? down * sc_D s)) in
  let okup := (up * sc_D s <? sc_U s) || (inclusive && (up * sc_D s =? sc_U s)) in
  let twice := 2 * (sc_A s - down * sc_D s) in
  let roundup := (sc_D s <? twice) || ((sc_D s =? twice) && Z.odd down) in
  let up' := if up =? 10 ^ n then (10 ^ Z.max (n - 1) 0, k + 1) else (up, k) in
  match fuel with
  | O => (down, k)
  | S fuel' =>
      if okdown && okup then if roundup then up' else (down, k)
      else if okdown then (down, k)
      else if okup then up'
      else shortest fuel' (n + 1) x l u e k inclusive
  end.

(** ** Formatting *)

(** At least two exponent digits. *)
Definition fmt_exp (k : Z) : string :=
  (if k <? 0 then "-" else "+") +:+ (if Z.abs k <? 10 then "0" else "") +:+ FormatInt (Z.abs k).

(** [%E]: the first digit, a point before further ones, the exponent. *)
Definition fmtE (digits k : Z) : string :=
  match FormatInt digits with
  | String d "" => String d "" +:+ "E" +:+ fmt_exp k
  | String d ds => String d "" +:+ "." +:+ ds +:+ "E" +:+ fmt_exp k
  | "" => ""
  end.

Definition FormatFloat (f : floatInfo) (bits : Z) : string :=
  let neg := Z.testbit bits (expbits f + mantbits f) in
  let exp := Z.land (Z.shiftr bits (mantbits f)) (2 ^ expbits f - 1) in
  let mant := Z.land bits (2 ^ mantbits f - 1) in
  if exp =? 2 ^ expbits f - 1 then
    if negb (mant =? 0) then "NaN" else if neg then "-Inf" else "+Inf"
  else
    let sign := if neg then "-" else "" in
    let minexp := bias f + 1 in
    let exp' := (if exp =? 0 then 1 else exp) + bias f in
    let mant' := if exp =? 0 then mant else Z.lor mant (2 ^ mantbits f) in
    if mant' =? 0 then sign +:+ "0E+00"
    else
      let e := exp' - mantbits f - 2 in
      let x := 4 * mant' in
      let u := x + 2 in
      let l := if (2 ^ mantbits f <? mant') || (exp' =? minexp) then x - 2 else x - 1 in
      let k := decimal_exponent 4 x e ((Z.log2 x + e - 1) * 30103 / 100000 - 1) in
      let '(digits, k') := shortest 18 0 x l u e k (Z.even mant') in
      sign +:+ fmtE digits k'.

Example fmt_one : FormatFloat float64info 0x3ff0000000000000 = "1E+00".
Proof. vm_compute. reflexivity. Qed.

Example fmt_tenth : FormatFloat float64info 0x3fb999999999999a = "1E-01".
Proof. vm_compute. reflexivity. Qed.

Example fmt_third : FormatFloat float64info 0x3fd5555555555555 = "3.333333333333333E-01".
Proof. vm_compute. reflexivity. Qed.

Example fmt_max : FormatFloat float64info 0x7fefffffffffffff = "1.7976931348623157E+308".
Proof. vm_compute. reflexivity. Qed.

Example fmt_denormal : FormatFloat float64info 2 = "1E-323".
Proof. vm_compute. reflexivity. Qed.

Example fmt_min : FormatFloat float64info 1 = "5E-324".
Proof. vm_compute. reflexivity. Qed.

Example fmt_single : FormatFloat float32info 0xc0490fdb = "-3.1415927E+00".
Proof. vm_compute. reflexivity. Qed.

Example fmt_pow10 : FormatFloat float64info 0x44b52d02c7e14af6 = "1E+23".
Proof. vm_compute. reflexivity. Qed.
