(* ===== verification/Json.v ===== *)
(** JSON texts: the values the marshallers write, their compact text, and a parser for
    it.  The marshallers' theorems say that what they write parses back to the
    message.  The parser follows the grammar of RFC 8259 for texts without white space,
    escape sequences, the literals [true] and [false], and lower-case exponents; a
    number with a fraction or an exponent is kept as its text. *)

From Stdlib Require Import Strings.Ascii.
From S2P Require Import Prelude GoNet.

Local Open Scope string_scope.
Open Scope Z_scope.

Inductive json : Type :=
| JNull
| JNum (z : Z)
| JReal (text : string)
| JStr (s : string)
| JArr (l : list json)
| JObj (l : list (string * json)).

Definition quote : string := String "034"%char EmptyString.

(** ** The compact text *)

Fixpoint print (j : json) : string :=
  match j with
  | JNull => "null"
  | JNum z => FormatInt z
  | JReal t => t
  | JStr s => quote +:+ s +:+ quote
  | JArr l => "[" +:+ join "," (map print l) +:+ "]"
  | JObj l =>
      "{" +:+ join "," (map (fun m => quote +:+ m.1 +:+ quote +:+ ":" +:+ print m.2) l) +:+ "}"
  end.

Definition print_member (m : string * json) : string :=
  quote +:+ m.1 +:+ quote +:+ ":" +:+ print m.2.

(** ** Parsing *)

Definition is_digit (c : Ascii.ascii) : bool :=
  (48 <=? Ascii.nat_of_ascii c)%nat && (Ascii.nat_of_ascii c <=? 57)%nat.

Definition digit_val (c : Ascii.ascii) : N := (N.of_nat (Ascii.nat_of_ascii c) - 48)%N.

(** The decimal number at the front, after the digits read so far. *)
Fixpoint read_dec (acc : N) (s : string) : N * string :=
  match s with
  | String c s' => if is_digit c then read_dec (acc * 10 + digit_val c) s' else (acc, s)
  | EmptyString => (acc, s)
  end.

(** A character that stands for itself in a JSON string. *)
Definition plain (c : Ascii.ascii) : bool :=
  negb (Ascii.eqb c "034") && negb (Ascii.eqb c "092") && (32 <=? Ascii.nat_of_ascii c)%nat.

Fixpoint read_str (s : string) : option (string * string) :=
  match s with
  | EmptyString => None
  | String c s' =>
      if Ascii.eqb c "034" then Some (EmptyString, s')
      else if plain c then
        match read_str s' with Some (t, r) => Some (String c t, r) | None => None end
      else None
  end.

(** The text after the character [c], when it is the first one. *)
Definition eat (c : Ascii.ascii) (s : string) : option string :=
  match s with
  | String c' s' => if Ascii.eqb c c' then Some s' else None
  | EmptyString => None
  end.

Definition eat_null (s : string) : option string :=
  s1 ← eat "n" s; s2 ← eat "u" s1; s3 ← eat "l" s2; eat "l" s3.

Definition starts_digit (s : string) : bool :=
  match s with String c _ => is_digit c | EmptyString => false end.

(** An integer part: a digit, and no leading zero. *)
Definition starts_int (s : string) : bool :=
  match eat "0" s with Some s' => negb (starts_digit s') | None => starts_digit s end.

Definition starts_real (s : string) : bool :=
  match s with String c _ => Ascii.eqb c "." || Ascii.eqb c "E" | EmptyString => false end.

(** The characters of numbers. *)
Definition num_char (c : Ascii.ascii) : bool :=
  is_digit c || Ascii.eqb c "-" || Ascii.eqb c "+" || Ascii.eqb c "." || Ascii.eqb c "E".

Fixpoint span_num (s : string) : string * string :=
  match s with
  | String c s' =>
      if num_char c then let '(t, r) := span_num s' in (String c t, r) else (EmptyString, s)
  | EmptyString => (EmptyString, s)
  end.

Definition skip_minus (s : string) : string := default s (eat "-" s).

(** [E], a sign or none, digits, and nothing else. *)
Definition exp_part (s : string) : bool :=
  match eat "E" s with
  | None => false
  | Some s1 =>
      let s2 := default (default s1 (eat "+" s1)) (eat "-" s1) in
      starts_digit s2 && String.eqb (read_dec 0 s2).2 ""
  end.

(** A number with a fraction, an exponent or both, and nothing else. *)
Definition is_real (s : string) : bool :=
  let s1 := skip_minus s in
  let s2 := (read_dec 0 s1).2 in
  forallb num_char (String.list_ascii_of_string s) && starts_int s1 && starts_real s2 &&
  match eat "." s2 with
  | None => exp_part s2
  | Some s3 =>
      let s4 := (read_dec 0 s3).2 in
      starts_digit s3 && (String.eqb s4 "" || exp_part s4)
  end.

Definition read_num (s : string) : option (json * string) :=
  let s1 := skip_minus s in
  if starts_int s1 then
    let '(n, r) := read_dec 0 s1 in
    if starts_real r then
      let '(t, r') := span_num s in if is_real t then Some (JReal t, r') else None
    else Some (JNum (match eat "-" s with Some _ => - Z.of_N n | None => Z.of_N n end), r)
  else None.

Fixpoint parse (fuel : nat) (s : string) : option (json * string) :=
  match fuel with
  | O => None
  | S f =>
      match eat "[" s, eat "{" s, eat "034" s with
      | Some s', _, _ =>
          match eat "]" s' with
          | Some r => Some (JArr [], r)
          | None => p ← parse_elems f s'; Some (JArr p.1, p.2)
          end
      | _, Some s', _ =>
          match eat "}" s' with
          | Some r => Some (JObj [], r)
          | None => p ← parse_members f s'; Some (JObj p.1, p.2)
          end
      | _, _, Some s' => p ← read_str s'; Some (JStr p.1, p.2)
      | _, _, _ =>
          match eat_null s with Some r => Some (JNull, r) | None => read_num s end
      end
  end
with parse_elems (fuel : nat) (s : string) : option (list json * string) :=
  match fuel with
  | O => None
  | S f =>
      p ← parse f s;
      match eat "," p.2 with
      | Some s' => q ← parse_elems f s'; Some (p.1 :: q.1, q.2)
      | None => r ← eat "]" p.2; Some ([p.1], r)
      end
  end
with parse_members (fuel : nat) (s : string) : option (list (string * json) * string) :=
  match fuel with
  | O => None
  | S f =>
      s1 ← eat "034" s; k ← read_str s1; s2 ← eat ":" k.2; p ← parse f s2;
      match eat "," p.2 with
      | Some s' => q ← parse_members f s'; Some ((k.1, p.1) :: q.1, q.2)
      | None => r ← eat "}" p.2; Some ([(k.1, p.1)], r)
      end
  end.

(** A whole text: the parser's recursion is bounded by the text's length. *)
Definition parse_json (s : string) : option json :=
  p ← parse (String.length s) s;
  if String.eqb p.2 "" then Some p.1 else None.

(** ** Printing then parsing *)

(** All characters of a text are of a class. *)
Definition all_chars (ok : Ascii.ascii -> bool) (s : string) : Prop :=
  Forall (fun c => ok c = true) (String.list_ascii_of_string s).

Definition all_plain (s : string) : Prop := all_chars plain s.

Section json_induction.
Variable P : json -> Prop.
Hypothesis Hnull : P JNull.
Hypothesis Hnum : forall z, P (JNum z).
Hypothesis Hreal : forall t, P (JReal t).
Hypothesis Hstr : forall s, P (JStr s).
Hypothesis Harr : forall l, Forall P l -> P (JArr l).
Hypothesis Hobj : forall l, Forall (fun m => P m.2) l -> P (JObj l).

Fixpoint json_nested_ind (j : json) : P j :=
  match j with
  | JNull => Hnull
  | JNum z => Hnum z
  | JReal t => Hreal t
  | JStr s => Hstr s
  | JArr l =>
      Harr l ((fix go l : Forall P l :=
                 match l with
                           | [] => Forall_nil_2 _
                           | x :: l' => Forall_cons_2 _ _ _ (json_nested_ind x) (go l')
                           end) l)
  | JObj l =>
      Hobj l ((fix go l : Forall (fun m => P m.2) l :=
                 match l with
                           | [] => Forall_nil_2 _
                           | m :: l' =>
                               Forall_cons_2 (fun m => P m.2) m l' (json_nested_ind m.2) (go l')
                           end) l)
  end.
End json_induction.

(** All strings in the value stand for themselves. *)
Inductive safe_json : json -> Prop :=
| safe_null : safe_json JNull
| safe_num z : safe_json (JNum z)
| safe_real t : is_real t = true -> safe_json (JReal t)
| safe_str s : all_plain s -> safe_json (JStr s)
| safe_arr l : Forall safe_json l -> safe_json (JArr l)
| safe_obj l : Forall (fun m => all_plain m.1 /\ safe_json m.2) l -> safe_json (JObj l).

(** ** Valid UTF-8 *)

(** [encoding/json] reads a text back only when its strings are valid UTF-8: it replaces
    every byte of an invalid sequence. *)
Definition in_range (lo hi : nat) (c : Ascii.ascii) : bool :=
  (lo <=? Ascii.nat_of_ascii c)%nat && (Ascii.nat_of_ascii c <=? hi)%nat.

Fixpoint utf8 (s : string) : bool :=
  match s with
  | EmptyString => true
  | String a s1 =>
      if in_range 0 0x7f a then utf8 s1
      else match s1 with
           | EmptyString => false
           | String b s2 =>
               if in_range 0xc2 0xdf a then in_range 0x80 0xbf b && utf8 s2
               else match s2 with
                    | EmptyString => false
                    | String c s3 =>
                        if in_range 0xe0 0xef a then
                          in_range (if in_range 0xe0 0xe0 a then 0xa0 else 0x80)
                            (if in_range 0xed 0xed a then 0x9f else 0xbf) b
                          && in_range 0x80 0xbf c && utf8 s3
                        else match s3 with
                             | EmptyString => false
                             | String d s4 =>
                                 in_range 0xf0 0xf4 a
                                 && in_range (if in_range 0xf0 0xf0 a then 0x90 else 0x80)
                                      (if in_range 0xf4 0xf4 a then 0x8f else 0xbf) b
                                 && in_range 0x80 0xbf c && in_range 0x80 0xbf d && utf8 s4
                             end
                    end
           end
  end.

(** Of all strings of a value, keys included. *)
Fixpoint utf8_json (j : json) : bool :=
  match j with
  | JNull | JNum _ | JReal _ => true
  | JStr s => utf8 s
  | JArr l => forallb utf8_json l
  | JObj l => forallb (fun m => utf8 m.1 && utf8_json m.2) l
  end.

Lemma utf8_ascii s : all_chars (in_range 0 0x7f) s -> utf8 s = true.
Proof.
  unfold all_chars. induction s as [|a s IH]; [done|]. cbn [String.list_ascii_of_string].
  intros [Ha Hs]%Forall_cons. cbn [utf8]. rewrite Ha. by apply IH.
Qed.

(** The fuel that parsing the value's text takes. *)
Fixpoint size (j : json) : nat :=
  match j with
  | JNull | JNum _ | JReal _ | JStr _ => 1
  | JArr l => S (sum_list_with (fun x => S (size x)) l)
  | JObj l => S (sum_list_with (fun m => S (size m.2)) l)
  end.

(** What may follow a number. *)
Definition no_num (s : string) : Prop :=
  match s with String c _ => num_char c = false | EmptyString => True end.

Lemma append_assoc (s1 s2 s3 : string) : (s1 +:+ s2) +:+ s3 = s1 +:+ s2 +:+ s3.
Proof. induction s1 as [|c s1 IH]; [done|]. exact (f_equal (String c) IH). Qed.

Lemma append_nil_r (s : string) : s +:+ "" = s.
Proof. induction s as [|c s IH]; [done|]. exact (f_equal (String c) IH). Qed.

Lemma pretty_N_char_digit x : (x < 10)%N -> is_digit (pretty_N_char x) = true /\ digit_val (pretty_N_char x) = x.
Proof.
  intros Hx. assert (x = 0 \/ x = 1 \/ x = 2 \/ x = 3 \/ x = 4 \/ x = 5 \/ x = 6 \/ x = 7 \/
    x = 8 \/ x = 9)%N as H by lia. by destruct_or! H; subst.
Qed.

Lemma read_dec_pretty x s : read_dec 0 (pretty_N_go x s) = read_dec x s.
Proof.
  revert s. induction (N.lt_wf_0 x) as [x _ IH]; intros s.
  destruct (decide (x = 0)%N) as [->|Hx]; [by rewrite pretty_N_go_0|].
  rewrite pretty_N_go_step by lia. rewrite IH by (apply N.div_lt; lia). cbn [read_dec].
  destruct (pretty_N_char_digit (x `mod` 10)) as [-> ->]; [by apply N.mod_lt|].
  f_equal. rewrite (N.div_mod x 10) at 3 by done. lia.
Qed.

Lemma pretty_N_go_app x s r : pretty_N_go x s +:+ r = pretty_N_go x (s +:+ r).
Proof.
  revert s. induction (N.lt_wf_0 x) as [x _ IH]; intros s.
  destruct (decide (x = 0)%N) as [->|Hx]; [by rewrite !pretty_N_go_0|].
  rewrite !(pretty_N_go_step x) by lia. by rewrite IH by (apply N.div_lt; lia).
Qed.

Lemma read_dec_stop acc r : no_num r -> read_dec acc r = (acc, r).
Proof.
  destruct r as [|c r]; [done|]. cbn [no_num read_dec]. unfold num_char. by destruct (is_digit c).
Qed.

(** The first character of a positive decimal. *)
Lemma pretty_N_go_head x s :
  (0 < x)%N -> exists c t, pretty_N_go x s = String c t /\ is_digit c = true /\ c <> "0"%char.
Proof.
  revert s. induction (N.lt_wf_0 x) as [x _ IH]; intros s Hx. rewrite pretty_N_go_step by lia.
  destruct (pretty_N_char_digit (x `mod` 10)) as [Hd _]; [by apply N.mod_lt|].
  destruct (decide (x `div` 10 = 0)%N) as [Hq|Hq].
  - rewrite Hq, pretty_N_go_0. eexists _, _. split; [reflexivity|]. split; [done|].
    assert (x < 10)%N by (by apply (N.div_small_iff x 10)).
    rewrite N.mod_small by done.
    assert (x = 1 \/ x = 2 \/ x = 3 \/ x = 4 \/ x = 5 \/ x = 6 \/ x = 7 \/ x = 8 \/ x = 9)%N as H'
      by lia. by destruct_or! H'; subst.
  - apply IH; [apply N.div_lt; lia|by apply N.neq_0_lt_0].
Qed.

Lemma eat_eq c s : eat c (String c s) = Some s.
Proof. unfold eat. by rewrite Ascii.eqb_refl. Qed.

Lemma eat_ne c c' s : c <> c' -> eat c (String c' s) = None.
Proof. intros H. unfold eat. by destruct (Ascii.eqb_spec c c'). Qed.

Lemma digit_ne c c' : is_digit c = true -> is_digit c' = false -> c' <> c.
Proof. by intros H1 H2 ->; rewrite H1 in H2. Qed.

Lemma starts_digit_no_num r : no_num r -> starts_digit r = false.
Proof.
  destruct r as [|c r]; [done|]. cbn [no_num starts_digit]. unfold num_char.
  by destruct (is_digit c).
Qed.

Lemma starts_real_no_num r : no_num r -> starts_real r = false.
Proof.
  destruct r as [|c r]; [done|]. cbn [no_num starts_real]. unfold num_char. intros H.
  apply orb_false_iff in H as [H ->]. by apply orb_false_iff in H as [H ->].
Qed.

(** A decimal number without its sign. *)
Lemma pretty_N_pos p r :
  exists c t, pretty_N_go (N.pos p) r = String c t /\ is_digit c = true /\
    starts_int (String c t) = true /\ (no_num r -> read_dec 0 (String c t) = (N.pos p, r)).
Proof.
  destruct (pretty_N_go_head (N.pos p) r) as (c & t & E & Hc & H0); [done|].
  exists c, t. split; [done|]. split; [done|]. split.
  - unfold starts_int. by rewrite eat_ne by (by apply not_eq_sym).
  - intros Hr. rewrite <- E, read_dec_pretty. by apply read_dec_stop.
Qed.

(** A decimal number starts with a digit or a sign. *)
Lemma FormatInt_head z r :
  exists c t, FormatInt z +:+ r = String c t /\ (c = "-"%char \/ is_digit c = true).
Proof.
  unfold FormatInt. destruct z as [|p|p].
  - exists "0"%char, r. auto.
  - change (pretty (Z.pos p)) with (pretty_N_go (N.pos p) ""). rewrite pretty_N_go_app.
    destruct (pretty_N_pos p ("" +:+ r)) as (c & t & E & Hc & _). exists c, t. auto.
  - eexists _, _. split; [reflexivity|]. by left.
Qed.

Lemma read_num_pretty z r : no_num r -> read_num (FormatInt z +:+ r) = Some (JNum z, r).
Proof.
  intros Hr. unfold FormatInt. destruct z as [|p|p].
  - transitivity (if negb (starts_digit r) then
      let '(n, r') := read_dec 0 r in
      if starts_real r' then let '(t, r'') := span_num (String "0" r) in
        if is_real t then Some (JReal t, r'') else None
      else Some (JNum (Z.of_N n), r') else None); [done|].
    by rewrite starts_digit_no_num, read_dec_stop, starts_real_no_num.
  - change (pretty (Z.pos p)) with (pretty_N_go (N.pos p) ""). rewrite pretty_N_go_app.
    change ("" +:+ r) with r. destruct (pretty_N_pos p r) as (c & t & -> & Hc & Hi & Hd).
    unfold read_num, skip_minus. rewrite eat_ne by (by apply digit_ne). cbn [default].
    by rewrite Hi, Hd, starts_real_no_num.
  - change (pretty (Z.neg p)) with ("-" +:+ pretty_N_go (N.pos p) "").
    rewrite append_assoc, pretty_N_go_app. change ("" +:+ r) with r.
    destruct (pretty_N_pos p r) as (c & t & -> & Hc & Hi & Hd).
    change ("-" +:+ ?s) with (String "-" s). unfold read_num, skip_minus. rewrite eat_eq.
    cbn [default from_option id]. by rewrite Hi, Hd, starts_real_no_num.
Qed.

(** Numbers kept as text. *)
Lemma read_dec_app acc s n c t r :
  read_dec acc s = (n, String c t) -> read_dec acc (s +:+ r) = (n, String c t +:+ r).
Proof.
  revert acc. induction s as [|c' s IH]; intros acc; [done|].
  change (String c' s +:+ r) with (String c' (s +:+ r)). cbn [read_dec].
  destruct (is_digit c'); [by apply IH|]. by intros [= <- <- <-].
Qed.

Lemma span_num_app t r :
  forallb num_char (String.list_ascii_of_string t) = true -> no_num r ->
  span_num (t +:+ r) = (t, r).
Proof.
  intros Ht Hr. induction t as [|c t IH].
  - change ("" +:+ r) with r. destruct r as [|c r]; [done|]. cbn in *. by rewrite Hr.
  - change (String c t +:+ r) with (String c (t +:+ r)). cbn in Ht.
    apply andb_true_iff in Ht as [Hc Ht]. cbn [span_num]. by rewrite Hc, IH.
Qed.

Lemma starts_int_app s r :
  starts_int s = true -> starts_real (read_dec 0 s).2 = true -> starts_int (s +:+ r) = true.
Proof.
  destruct s as [|c s]; [done|]. change (String c s +:+ r) with (String c (s +:+ r)).
  unfold starts_int. unfold eat. destruct (Ascii.eqb_spec "0" c) as [<-|]; [|done].
  by destruct s.
Qed.

Lemma skip_minus_app t r : t <> "" -> skip_minus (t +:+ r) = skip_minus t +:+ r.
Proof.
  destruct t as [|c t]; [done|]. intros _. change (String c t +:+ r) with (String c (t +:+ r)).
  unfold skip_minus, eat. by destruct (Ascii.eqb "-" c).
Qed.

Lemma read_num_real t r : is_real t = true -> no_num r -> read_num (t +:+ r) = Some (JReal t, r).
Proof.
  intros Ht Hr. pose proof Ht as Ht'. unfold is_real in Ht'.
  apply andb_true_iff in Ht' as [[[Hn Hi]%andb_true_iff Hs]%andb_true_iff _].
  destruct (decide (t = "")) as [->|Hne]; [done|].
  unfold read_num. rewrite skip_minus_app, starts_int_app by done.
  destruct (read_dec 0 (skip_minus t)) as [n [|c t']] eqn:E; [done|].
  rewrite (read_dec_app _ _ _ _ _ r E), span_num_app by done.
  change (starts_real (String c t' +:+ r)) with (starts_real (String c t')).
  cbn [snd] in Hs. by rewrite Hs, Ht.
Qed.

Lemma read_str_plain s r : all_plain s -> read_str (s +:+ quote +:+ r) = Some (s, r).
Proof.
  unfold all_plain, all_chars. induction s as [|c s IH]; intros Hs; [done|].
  change (String c s +:+ quote +:+ r) with (String c (s +:+ quote +:+ r)). cbn [read_str].
  apply Forall_cons in Hs as [Hc Hs]. rewrite IH by done. rewrite Hc. unfold plain in Hc. by destruct (Ascii.eqb c "034").
Qed.

(** *** Round trip *)

Definition parses (j : json) : Prop :=
  forall fuel r, (size j <= fuel)%nat -> no_num r -> safe_json j ->
  parse fuel (print j +:+ r) = Some (j, r).

(** A number's text starts none of the other forms. *)
Lemma eat_num c z r : c <> "-"%char -> is_digit c = false -> eat c (FormatInt z +:+ r) = None.
Proof.
  intros H1 H2. destruct (FormatInt_head z r) as (c' & t & -> & [->|Hc]);
    apply eat_ne; [done|by apply digit_ne].
Qed.

Lemma eat_real c t r : is_real t = true -> num_char c = false -> eat c (t +:+ r) = None.
Proof.
  intros Ht Hc. destruct t as [|c' t]; [done|].
  change (String c' t +:+ r) with (String c' (t +:+ r)). apply eat_ne. intros ->.
  unfold is_real in Ht. cbn in Ht. by rewrite Hc in Ht.
Qed.

(** The text of a value does not start with a closing bracket. *)
Lemma eat_close j r : safe_json j -> eat "]" (print j +:+ r) = None.
Proof. destruct j; [done|intros _; by apply eat_num|inversion 1; by apply eat_real|done..]. Qed.

Lemma eat_append c r : eat c (String c "" +:+ r) = Some r.
Proof. apply eat_eq. Qed.

Ltac eats := repeat (rewrite eat_append || rewrite eat_ne by done).

Lemma parse_elems_print x l f r :
  (sum_list_with (fun x => S (size x)) (x :: l) <= f)%nat ->
  Forall parses (x :: l) -> Forall safe_json (x :: l) ->
  parse_elems f (join "," (map print (x :: l)) +:+ "]" +:+ r) = Some (x :: l, r).
Proof.
  revert x f. induction l as [|y l IH]; intros x f Hf [Hx Hp]%Forall_cons [Sx Hs]%Forall_cons;
    (destruct f as [|f]; [cbn in Hf; lia|]).
  - cbn [map join foldr]. rewrite append_nil_r. cbn [parse_elems].
    by rewrite Hx by (cbn in *; done || lia).
  - change (join "," (map print (x :: y :: l))) with (print x +:+ "," +:+ join "," (map print (y :: l))).
    rewrite !append_assoc. cbn [parse_elems]. rewrite Hx by (cbn in *; done || lia).
    cbn [mbind option_bind fst snd]. rewrite eat_append.
    by rewrite IH by (cbn in *; done || lia).
Qed.

Lemma parse_members_print x l f r :
  (sum_list_with (fun m => S (size m.2)) (x :: l) <= f)%nat ->
  Forall (fun m => parses m.2) (x :: l) ->
  Forall (fun m => all_plain m.1 /\ safe_json m.2) (x :: l) ->
  parse_members f (join "," (map print_member (x :: l)) +:+ "}" +:+ r) = Some (x :: l, r).
Proof.
  revert x f. induction l as [|y l IH];
    intros [k x] f Hf [Hx Hp]%Forall_cons [[Sk Sx] Hs]%Forall_cons;
    cbn [fst snd] in *; (destruct f as [|f]; [cbn in Hf; lia|]).
  - cbn [map join foldr]. unfold print_member. cbn [fst snd]. rewrite append_nil_r, !append_assoc.
    cbn [parse_members]. unfold quote at 1. rewrite eat_append. cbn [mbind option_bind].
    rewrite read_str_plain by done. cbn [mbind option_bind fst snd]. rewrite eat_append.
    cbn [mbind option_bind fst snd]. by rewrite Hx by (cbn in *; done || lia).
  - change (join "," (map print_member ((k, x) :: y :: l)))
      with (print_member (k, x) +:+ "," +:+ join "," (map print_member (y :: l))).
    unfold print_member at 1. cbn [fst snd]. rewrite !append_assoc.
    cbn [parse_members]. unfold quote at 1. rewrite eat_append. cbn [mbind option_bind].
    rewrite read_str_plain by done. cbn [mbind option_bind fst snd]. rewrite eat_append.
    cbn [mbind option_bind fst snd]. rewrite Hx by (cbn in *; done || lia).
    cbn [mbind option_bind fst snd]. rewrite eat_append.
    by rewrite IH by (cbn in *; done || lia).
Qed.

(** A text that the printer wrote for a value whose strings stand for themselves parses
    back to the value. *)
Lemma parse_print j : parses j.
Proof.
  induction j as [|z|t|s|l IH|l IH] using json_nested_ind; intros [|f] r Hf Hr Hs; try (cbn in Hf; lia);
    cbn [print parse].
  - done.
  - rewrite !eat_num by done. unfold eat_null. rewrite eat_num by done. by apply read_num_pretty.
  - inversion Hs; subst. rewrite !eat_real by done. unfold eat_null. rewrite eat_real by done.
    by apply read_num_real.
  - inversion Hs; subst. rewrite !append_assoc. unfold quote at 1 4 7.
    rewrite eat_append. eats. by rewrite read_str_plain.
  - inversion Hs; subst. destruct l as [|x l]; [done|]. rewrite !append_assoc, eat_append.
    pose proof (parse_elems_print x l f r) as H.
    cbn [map join] in *. rewrite !append_assoc in *.
    rewrite eat_close by (by apply Forall_cons in H0 as []).
    rewrite H by (cbn in *; done || lia). done.
  - inversion Hs; subst. destruct l as [|x l]; [done|].
    pose proof (parse_members_print x l f r) as H.
    change (map (fun m => quote +:+ m.1 +:+ quote +:+ ":" +:+ print m.2) (x :: l))
      with (map print_member (x :: l)) in *.
    rewrite !append_assoc.
    transitivity (p ← parse_members f (join "," (map print_member (x :: l)) +:+ "}" +:+ r);
                  Some (JObj p.1, p.2)); [done|].
    by rewrite H by (cbn in *; done || lia).
Qed.

Lemma length_append s1 s2 : String.length (s1 +:+ s2) = (String.length s1 + String.length s2)%nat.
Proof. induction s1 as [|c s1 IH]; [done|]. exact (f_equal S IH). Qed.

(** The text is long enough for the fuel. *)
Lemma length_join_map {A} (f : A -> string) (g : A -> nat) x l :
  Forall (fun x => g x <= String.length (f x))%nat (x :: l) ->
  (sum_list_with (fun x => S (g x)) (x :: l) <= S (String.length (join "," (map f (x :: l)))))%nat.
Proof.
  revert x. induction l as [|y l IH]; intros x [Hx Hl]%Forall_cons.
  - cbn [map join foldr sum_list_with]. rewrite length_append. cbn. lia.
  - change (join "," (map f (x :: y :: l))) with (f x +:+ "," +:+ join "," (map f (y :: l))).
    specialize (IH y Hl). rewrite !length_append. cbn [sum_list_with String.length] in *. lia.
Qed.

Lemma size_print j : safe_json j -> (size j <= String.length (print j))%nat.
Proof.
  induction j as [|z|t|s|l IH|l IH] using json_nested_ind; intros Hs; inversion Hs as [| |? Ht| |? Hl|? Hl];
    subst; cbn [size print]; rewrite ?length_append.
  - cbn. lia.
  - destruct (FormatInt_head z "") as (c & t & E & _). rewrite append_nil_r in E. rewrite E. cbn. lia.
  - destruct t; [done|]. cbn. lia.
  - unfold quote. cbn [String.length]. lia.
  - destruct l as [|x l]; [cbn; lia|].
    pose proof (length_join_map print size x l) as H. cbn [String.length] in *.
    assert (Forall (fun x => size x <= String.length (print x))%nat (x :: l)) as HF; [|specialize (H HF); lia].
    eapply Forall_impl; [apply Forall_and; split; [exact IH|exact Hl]|]. intros j [H1 H2]. auto.
  - destruct l as [|x l]; [cbn; lia|].
    pose proof (length_join_map print_member (fun m => size m.2) x l) as H.
    unfold print_member in H. cbn [String.length] in *.
    match type of H with ?A -> _ => assert A as HF; [|specialize (H HF); lia] end.
    eapply Forall_impl; [apply Forall_and; split; [exact IH|exact Hl]|].
    intros m [H1 [_ H2]]. cbv beta in *. rewrite !length_append. specialize (H1 H2). lia.
Qed.

(** Parsing inverts printing. *)
Lemma parse_json_print j : safe_json j -> parse_json (print j) = Some j.
Proof.
  intros Hs. unfold parse_json.
  pose proof (parse_print j (String.length (print j)) "" (size_print j Hs) I Hs) as H.
  rewrite append_nil_r in H. by rewrite H.
Qed.

(** What is documented of [encoding/json]: a text without escapes whose strings are valid
    UTF-8 is read back as the value it was written for. *)
Definition reads_back (json_parse : string -> option json) : Prop :=
  forall j, safe_json j -> utf8_json j = true -> json_parse (print j) = Some j.

Lemma parse_json_reads_back : reads_back parse_json.
Proof. intros j Hj _. by apply parse_json_print. Qed.
