(* ===== verification/Marshal.v ===== *)
(** What the two JSON marshallers share: the buffer and [writeValue], which is textually
    the same in [src/ipfix/marshal.go] and [src/netflow/v9/marshal.go].

    A [bytes.Buffer] is the text written to it so far, so the methods run in the state
    monad over a [string]. *)

From Stdlib Require Import Strings.Ascii.
From S2P Require Import Prelude GoNet GoFloat Interpret Json.

Local Open Scope string_scope.
Open Scope Z_scope.

(** [b.WriteString(t)], and [b.WriteByte] of one character. *)
Definition WriteString (t : string) : M string () := modify (fun b => b +:+ t).

(** The string literal of a JSON key or text, with its quotes. *)
Definition quoted (t : string) : string := quote +:+ t +:+ quote.

(** [string(b)]. *)
Definition string_of (b : list byte) : string := String.string_of_list_byte b.

(** ** Values *)

Definition writeValue (v : Value) : M string () :=
  match v with
  | VUint z | VUint8 z | VUint16 z | VUint32 z | VUint64 z => WriteString (FormatInt (int64 z))
  | VInt z | VInt8 z | VInt16 z | VInt32 z | VInt64 z => WriteString (FormatInt (int64 z))
  | VFloat32 bits => WriteString (FormatFloat float32info bits)
  | VFloat64 bits => WriteString (FormatFloat float64info bits)
  | VString s => WriteString quote;; WriteString (string_of s);; WriteString quote
  | VIP ip => WriteString quote;; WriteString (IP_String ip);; WriteString quote
  | VHardwareAddr a => WriteString quote;; WriteString (HardwareAddr_String a);; WriteString quote
  | VBytes b => WriteString quote;; WriteString ("0x" +:+ hex_EncodeToString b);; WriteString quote
  | VBool _ => fail None errUknownMarshalDataType
  end.

(** [err = m.writeValue(b, i, j)]: the error is kept in a variable, the loop goes on. *)
Definition writeValue_err (v : Value) : M string (option GoError) :=
  r ← try (writeValue v);
  mret (match r with inl _ => None | inr e => Some e end).

(** [return err]. *)
Definition return_err {S} (err : option GoError) : M S () :=
  match err with None => mret tt | Some e => fail None e end.

(** ** What [writeValue] writes *)

Definition value_text (v : Value) : string :=
  match v with
  | VUint z | VUint8 z | VUint16 z | VUint32 z | VUint64 z
  | VInt z | VInt8 z | VInt16 z | VInt32 z | VInt64 z => FormatInt (int64 z)
  | VFloat32 bits => FormatFloat float32info bits
  | VFloat64 bits => FormatFloat float64info bits
  | VString s => quoted (string_of s)
  | VIP ip => quoted (IP_String ip)
  | VHardwareAddr a => quoted (HardwareAddr_String a)
  | VBytes b => quoted ("0x" +:+ hex_EncodeToString b)
  | VBool _ => ""
  end.

Definition value_err (v : Value) : option GoError :=
  match v with VBool _ => Some errUknownMarshalDataType | _ => None end.

Lemma bind_write {A} t (m : M string A) b : (WriteString t;; m) b = m (b +:+ t).
Proof. done. Qed.

(** A list of texts with commas, one element at a time. *)
Lemma join_cons x y l : join "," (x :: y :: l) = x +:+ "," +:+ join "," (y :: l).
Proof. done. Qed.

Lemma writeValue_err_run v b :
  writeValue_err v b = (b +:+ value_text v, Ok (value_err v)).
Proof.
  destruct v; unfold writeValue_err, quoted, WriteString; unmonad;
    cbn [writeValue value_text value_err]; unfold WriteString; unmonad; cbv beta match;
    rewrite ?append_assoc, ?append_nil_r; done.
Qed.

(** Running a value and going on. *)
Lemma bind_value {A} v (k : option GoError -> M string A) b :
  (writeValue_err v ≫= k) b = k (value_err v) (b +:+ value_text v).
Proof. unfold mbind, M_bind. by rewrite writeValue_err_run. Qed.

(** ** The JSON value of a field value *)

Definition json_value (v : Value) : json :=
  match v with
  | VUint z | VUint8 z | VUint16 z | VUint32 z | VUint64 z
  | VInt z | VInt8 z | VInt16 z | VInt32 z | VInt64 z => JNum z
  | VFloat32 bits => JReal (FormatFloat float32info bits)
  | VFloat64 bits => JReal (FormatFloat float64info bits)
  | VString s => JStr (string_of s)
  | VIP ip => JStr (IP_String ip)
  | VHardwareAddr a => JStr (HardwareAddr_String a)
  | VBytes b => JStr ("0x" +:+ hex_EncodeToString b)
  | VBool _ => JArr []
  end.

Definition int64_range (z : Z) : Prop := - 2 ^ 63 <= z < 2 ^ 63.

(** The values [writeValue] has a JSON text for: no booleans, no infinities or NaNs,
    strings that need no escaping, unsigned numbers that [int64] holds. *)
Definition marshalable (v : Value) : Prop :=
  match v with
  | VBool _ => False
  | VUint z | VUint8 z | VUint16 z | VUint32 z | VUint64 z
  | VInt z | VInt8 z | VInt16 z | VInt32 z | VInt64 z => int64_range z
  | VFloat32 bits => is_real (FormatFloat float32info bits) = true
  | VFloat64 bits => is_real (FormatFloat float64info bits) = true
  | VString s => all_plain (string_of s)
  | VIP _ | VHardwareAddr _ | VBytes _ => True
  end.

Lemma int64_small z : int64_range z -> int64 z = z.
Proof. intros Hz. unfold int64_range in Hz. unfold wrapS. rewrite Z.mod_small by lia. lia. Qed.

Lemma value_text_print v : marshalable v -> value_text v = print (json_value v).
Proof. destruct v; cbn [marshalable value_text json_value print]; intros Hv; try done; by rewrite int64_small. Qed.

(** *** Texts that need no escaping *)

(** A literal. *)
Ltac chars_lit := unfold all_plain, all_chars; by_decide.
Ltac plain_lit := chars_lit.

(** The characters of addresses: lower-case hexadecimal digits, dots and colons. *)
Definition addr_char (c : Ascii.ascii) : bool :=
  is_digit c || ((97 <=? Ascii.nat_of_ascii c)%nat && (Ascii.nat_of_ascii c <=? 102)%nat) ||
  Ascii.eqb c "." || Ascii.eqb c ":".

Section classes.
Context (ok : Ascii.ascii -> bool).

Lemma all_chars_app s1 s2 : all_chars ok s1 -> all_chars ok s2 -> all_chars ok (s1 +:+ s2).
Proof.
  unfold all_chars. intros H1 H2. induction s1 as [|c s1 IH]; [done|].
  apply Forall_cons in H1 as [Hc H1]. apply Forall_cons. auto.
Qed.

Lemma all_chars_if (b : bool) s1 s2 :
  all_chars ok s1 -> all_chars ok s2 -> all_chars ok (if b then s1 else s2).
Proof. by destruct b. Qed.

Lemma all_chars_join sep l : all_chars ok sep -> Forall (all_chars ok) l -> all_chars ok (join sep l).
Proof.
  intros Hsep Hl. destruct Hl as [|x l Hx Hl]; [by constructor|]. apply all_chars_app; [done|].
  induction Hl; [by constructor|]. cbn [foldr]. auto using all_chars_app.
Qed.

Lemma all_chars_weaken (ok' : Ascii.ascii -> bool) s :
  (forall c, ok' c = true -> ok c = true) -> all_chars ok' s -> all_chars ok s.
Proof. intros H Hs. eapply Forall_impl; [exact Hs|]. exact H. Qed.

End classes.

Lemma addr_hex_digit d : all_chars addr_char (hex_digit d).
Proof. unfold hex_digit, all_chars. repeat case_match; by repeat constructor. Qed.

Lemma addr_hex b : all_chars addr_char (hex_EncodeToString b).
Proof.
  induction b as [|x b IH]; [by constructor|].
  repeat apply all_chars_app; done || apply addr_hex_digit.
Qed.

Lemma addr_hex16 g : all_chars addr_char (hex16 g).
Proof.
  unfold hex16. repeat apply all_chars_if; repeat apply all_chars_app; apply addr_hex_digit.
Qed.

Lemma addr_print_groups n gs e0 e1 i : all_chars addr_char (print_groups n gs e0 e1 i).
Proof.
  revert i. induction n as [|n IH]; intros i; [by constructor|]. cbn [print_groups].
  repeat first [apply IH|apply addr_hex16|apply all_chars_if|apply all_chars_app]; chars_lit.
Qed.

Lemma addr_pretty_N_go x s : all_chars addr_char s -> all_chars addr_char (pretty_N_go x s).
Proof.
  revert s. induction (N.lt_wf_0 x) as [x _ IH]; intros s Hs.
  destruct (decide (x = 0)%N) as [->|Hx]; [by rewrite pretty_N_go_0|].
  rewrite pretty_N_go_step by lia. apply IH; [apply N.div_lt; lia|]. apply Forall_cons. split; [|done].
  unfold addr_char. by rewrite (proj1 (pretty_N_char_digit _ (N.mod_lt x 10 ltac:(done)))).
Qed.

Lemma addr_FormatInt z : 0 <= z -> all_chars addr_char (FormatInt z).
Proof.
  intros Hz. unfold FormatInt. destruct z as [|p|p]; [by repeat constructor| |lia].
  apply addr_pretty_N_go. by constructor.
Qed.

Lemma addr_To4 p4 : all_chars addr_char (join "." (map (fun b => FormatInt (u8 b)) p4)).
Proof.
  apply all_chars_join; [chars_lit|]. apply Forall_map, Forall_true. intros b.
  apply addr_FormatInt, u8_range.
Qed.

(** The text of an address of a proper length. *)
Lemma addr_IP ip : len ip = 4 \/ len ip = 16 -> all_chars addr_char (IP_String ip).
Proof.
  intros Hl. unfold IP_String. destruct (Z.eqb_spec (len ip) 0); [lia|].
  destruct (To4 ip) as [p4|] eqn:E; [apply addr_To4|].
  destruct (Z.eqb_spec (len ip) 16) as [E16|]; cbn [negb].
  - repeat case_match; apply addr_print_groups.
  - destruct Hl as [Hl|Hl]; [|done]. unfold To4 in E. by rewrite Hl in E.
Qed.

Lemma addr_HardwareAddr a : all_chars addr_char (HardwareAddr_String a).
Proof.
  apply all_chars_join; [chars_lit|]. apply Forall_map, Forall_true. intros x.
  apply all_chars_app; apply addr_hex_digit.
Qed.

Lemma addr_char_plain c : addr_char c = true -> plain c = true.
Proof. destruct c as [[] [] [] [] [] [] [] []]; done. Qed.

Lemma all_plain_addr s : all_chars addr_char s -> all_plain s.
Proof. apply all_chars_weaken, addr_char_plain. Qed.

Lemma all_plain_hex b : all_plain (hex_EncodeToString b).
Proof. apply all_plain_addr, addr_hex. Qed.

Lemma all_plain_IP ip : all_plain (IP_String ip).
Proof.
  unfold IP_String. apply all_chars_if; [plain_lit|].
  destruct (To4 ip) as [p4|]; [apply all_plain_addr, addr_To4|].
  apply all_chars_if; [apply all_chars_app; [plain_lit|apply all_plain_hex]|].
  repeat case_match; apply all_plain_addr, addr_print_groups.
Qed.

Lemma all_plain_HardwareAddr a : all_plain (HardwareAddr_String a).
Proof. apply all_plain_addr, addr_HardwareAddr. Qed.

Lemma utf8_addr s : all_chars addr_char s -> utf8 s = true.
Proof.
  intros Hs. apply utf8_ascii. revert Hs. apply all_chars_weaken.
  intros c. by destruct c as [[] [] [] [] [] [] [] []].
Qed.

Lemma utf8_IP ip : utf8 (IP_String ip) = true.
Proof.
  unfold IP_String. destruct (len ip =? 0); [reflexivity|].
  destruct (To4 ip) as [p4|]; [apply utf8_addr, addr_To4|].
  destruct (negb _); [change (utf8 (hex_EncodeToString ip) = true); apply utf8_addr, addr_hex|].
  repeat case_match; apply utf8_addr, addr_print_groups.
Qed.

(** The strings of a value are valid UTF-8. *)
Definition utf8_value (v : Value) : bool :=
  match v with VString s => utf8 (string_of s) | _ => true end.

Lemma utf8_json_value v : utf8_value v = true -> utf8_json (json_value v) = true.
Proof.
  destruct v; cbn [utf8_value json_value utf8_json]; intros Hv; try done; auto using utf8_IP.
  - apply utf8_addr, addr_HardwareAddr.
  - match goal with |- context [hex_EncodeToString ?b] => change (utf8 (hex_EncodeToString b) = true) end.
    apply utf8_addr, addr_hex.
Qed.

Lemma json_value_safe v : marshalable v -> safe_json (json_value v).
Proof.
  destruct v; cbn [marshalable json_value]; intros Hv; try done; constructor; try done;
    auto using all_plain_IP, all_plain_HardwareAddr.
  apply all_chars_app; [plain_lit|apply all_plain_hex].
Qed.

(** A [uint64] value of 2^63 or more (an octet counter, say) is written as a negative
    number: the conversion to [int64] wraps. *)
Theorem writeValue_uint64_wraps (z : Z) (b : string) (Hz : 2 ^ 63 <= z < 2 ^ 64) :
  writeValue (VUint64 z) b = (b +:+ FormatInt (z - 2 ^ 64), Ok tt) /\ z - 2 ^ 64 < 0.
Proof.
  split; [|lia]. cbn [writeValue]. unfold WriteString, modify. do 3 f_equal. unfold wrapS.
  replace (z + 2 ^ (64 - 1)) with (z - 2 ^ 63 + 1 * 2 ^ 64) by lia.
  rewrite Z.mod_add, Z.mod_small by lia. lia.
Qed.

Lemma writeValue_uint64_wraps_witness :
  writeValue (VUint64 18446744073709551615) "" = ("-1", Ok tt) /\ -1 < 0.
Proof. apply (writeValue_uint64_wraps 18446744073709551615 ""). lia. Defined.
