(* ===== verification/MarshalIpfix.v ===== *)
(** The IPFIX JSON marshaller, [src/ipfix/marshal.go]: the object with the agent, the header
    and the data sets, written piece by piece into a buffer. *)

From Stdlib Require Import Strings.Ascii.
From S2P Require Import Prelude GoNet GoFloat Interpret Json Marshal IpfixDecoder.

Local Open Scope string_scope.
Open Scope Z_scope.

Fixpoint encodeDataSet_fields (length j : Z) (fields : list DecodedField) (err : option GoError) :
    M string (option GoError) :=
  match fields with
  | [] => mret err
  | f :: fields' =>
      WriteString ("{" +:+ quoted "I" +:+ ":");;
      WriteString (FormatInt (int64 (df_ID f)));;
      WriteString ("," +:+ quoted "V" +:+ ":");;
      err ← writeValue_err (df_Value f);
      (if negb (df_EnterpriseNo f =? 0) then
         WriteString ("," +:+ quoted "E" +:+ ":");;
         WriteString (FormatInt (int64 (df_EnterpriseNo f)))
       else mret tt);;
      (if j <? length - 1 then WriteString "}," else WriteString "}");;
      encodeDataSet_fields length (j + 1) fields' err
  end.

Fixpoint encodeDataSet_sets (dsLength i : Z) (sets : list (list DecodedField))
    (err : option GoError) : M string (option GoError) :=
  match sets with
  | [] => mret err
  | ds :: sets' =>
      WriteString "[";;
      err ← encodeDataSet_fields (len ds) 0 ds err;
      (if i <? dsLength - 1 then WriteString "]," else WriteString "]");;
      encodeDataSet_sets dsLength (i + 1) sets' err
  end.

Definition encodeDataSet (m : Message) : M string () :=
  WriteString (quoted "DataSets" +:+ ":");;
  WriteString "[";;
  err ← encodeDataSet_sets (len (msg_DataSets m)) 0 (msg_DataSets m) None;
  WriteString "]";;
  return_err err.

Fixpoint encodeDataSetFlat_fields (length j : Z) (fields : list DecodedField)
    (err : option GoError) : M string (option GoError) :=
  match fields with
  | [] => mret err
  | f :: fields' =>
      WriteString quote;;
      WriteString (FormatInt (int64 (df_ID f)));;
      WriteString (quote +:+ ":");;
      err ← writeValue_err (df_Value f);
      (if j <? length - 1 then WriteString "," else WriteString "}");;
      encodeDataSetFlat_fields length (j + 1) fields' err
  end.

Fixpoint encodeDataSetFlat_sets (dsLength i : Z) (sets : list (list DecodedField))
    (err : option GoError) : M string (option GoError) :=
  match sets with
  | [] => mret err
  | ds :: sets' =>
      WriteString "{";;
      err ← encodeDataSetFlat_fields (len ds) 0 ds err;
      (if i <? dsLength - 1 then WriteString "," else mret tt);;
      encodeDataSetFlat_sets dsLength (i + 1) sets' err
  end.

Definition encodeDataSetFlat (m : Message) : M string () :=
  WriteString (quoted "DataSets" +:+ ":");;
  WriteString "[";;
  err ← encodeDataSetFlat_sets (len (msg_DataSets m)) 0 (msg_DataSets m) None;
  WriteString "]";;
  return_err err.

Definition encodeHeader (m : Message) : M string () :=
  WriteString (quoted "Header" +:+ ":{" +:+ quoted "Version" +:+ ":");;
  WriteString (FormatInt (int64 (mh_Version (msg_Header m))));;
  WriteString ("," +:+ quoted "Length" +:+ ":");;
  WriteString (FormatInt (int64 (mh_Length (msg_Header m))));;
  WriteString ("," +:+ quoted "ExportTime" +:+ ":");;
  WriteString (FormatInt (int64 (mh_ExportTime (msg_Header m))));;
  WriteString ("," +:+ quoted "SequenceNo" +:+ ":");;
  WriteString (FormatInt (int64 (mh_SequenceNo (msg_Header m))));;
  WriteString ("," +:+ quoted "DomainID" +:+ ":");;
  WriteString (FormatInt (int64 (mh_DomainID (msg_Header m))));;
  WriteString "},".

Definition encodeAgent (m : Message) : M string () :=
  WriteString (quoted "AgentID" +:+ ":" +:+ quote);;
  WriteString (msg_AgentID m);;
  WriteString (quote +:+ ",").

Definition JSONMarshal (m : Message) : M string string :=
  WriteString "{";;
  encodeAgent m;;
  encodeHeader m;;
  encodeDataSet m;;
  WriteString "}";;
  get.

(** ** The text written *)

Definition enterprise_text (f : DecodedField) : string :=
  if df_EnterpriseNo f =? 0 then ""
  else "," +:+ quoted "E" +:+ ":" +:+ FormatInt (int64 (df_EnterpriseNo f)).

Definition field_text (f : DecodedField) : string :=
  "{" +:+ quoted "I" +:+ ":" +:+ FormatInt (int64 (df_ID f)) +:+
  "," +:+ quoted "V" +:+ ":" +:+ value_text (df_Value f) +:+ enterprise_text f +:+ "}".

Definition set_text (ds : list DecodedField) : string :=
  "[" +:+ join "," (map field_text ds) +:+ "]".

Definition header_text (h : MessageHeader) : string :=
  "{" +:+ quoted "Version" +:+ ":" +:+ FormatInt (int64 (mh_Version h)) +:+
  "," +:+ quoted "Length" +:+ ":" +:+ FormatInt (int64 (mh_Length h)) +:+
  "," +:+ quoted "ExportTime" +:+ ":" +:+ FormatInt (int64 (mh_ExportTime h)) +:+
  "," +:+ quoted "SequenceNo" +:+ ":" +:+ FormatInt (int64 (mh_SequenceNo h)) +:+
  "," +:+ quoted "DomainID" +:+ ":" +:+ FormatInt (int64 (mh_DomainID h)) +:+ "}".

Definition message_text (m : Message) : string :=
  "{" +:+ quoted "AgentID" +:+ ":" +:+ quoted (msg_AgentID m) +:+
  "," +:+ quoted "Header" +:+ ":" +:+ header_text (msg_Header m) +:+
  "," +:+ quoted "DataSets" +:+ ":" +:+
  "[" +:+ join "," (map set_text (msg_DataSets m)) +:+ "]}".

(** The variable [err] after the fields: each field overwrites it. *)
Definition last_err (fields : list DecodedField) (err : option GoError) : option GoError :=
  fold_left (fun _ f => value_err (df_Value f)) fields err.

Lemma encodeDataSet_fields_run fs length j err b :
  length = j + len fs ->
  encodeDataSet_fields length j fs err b =
    (b +:+ join "," (map field_text fs), Ok (last_err fs err)).
Proof.
  revert j err b. induction fs as [|f fs IH]; intros j err b Hl; rewrite ?len_cons in Hl.
  - cbn [encodeDataSet_fields]. unmonad. by rewrite append_nil_r.
  - cbn [encodeDataSet_fields]. rewrite !bind_write, bind_value.
    assert (forall (k : M string (option GoError)) b', ((if negb (df_EnterpriseNo f =? 0) then
         WriteString ("," +:+ quoted "E" +:+ ":");;
         WriteString (FormatInt (int64 (df_EnterpriseNo f)))
       else mret tt);; k) b' = k (b' +:+ enterprise_text f)) as HE.
    { intros k b'. unfold enterprise_text. destruct (df_EnterpriseNo f =? 0); cbn [negb].
      - by rewrite append_nil_r.
      - transitivity (k ((b' +:+ "," +:+ quoted "E" +:+ ":") +:+ FormatInt (int64 (df_EnterpriseNo f))));
          [done|]. by rewrite !append_assoc. }
    rewrite HE. destruct fs as [|f' fs].
    + rewrite len_nil in Hl. destruct (Z.ltb_spec j (length - 1)); [lia|].
      rewrite bind_write, IH by (rewrite len_nil; lia).
      cbn [map join foldr]. unfold field_text. rewrite !append_assoc, !append_nil_r. reflexivity.
    + rewrite len_cons in Hl. pose proof (len_nonneg fs).
      destruct (Z.ltb_spec j (length - 1)); [|lia].
      rewrite bind_write, IH by (rewrite len_cons; lia).
      cbn [map]. rewrite join_cons. set (X := join _ _). unfold field_text. rewrite !append_assoc. reflexivity.
Qed.

Lemma last_err_app fs fs' err : last_err (fs ++ fs') err = last_err fs' (last_err fs err).
Proof. apply fold_left_app. Qed.

Lemma encodeDataSet_sets_run dss dsLength i err b :
  dsLength = i + len dss ->
  encodeDataSet_sets dsLength i dss err b =
    (b +:+ join "," (map set_text dss), Ok (last_err (concat dss) err)).
Proof.
  revert i err b. induction dss as [|ds dss IH]; intros i err b Hl; rewrite ?len_cons in Hl.
  - cbn [encodeDataSet_sets]. unmonad. by rewrite append_nil_r.
  - cbn [encodeDataSet_sets concat]. rewrite bind_write, last_err_app.
    rewrite (bind_run (encodeDataSet_fields_run ds (len ds) 0 _ _ eq_refl)). destruct dss as [|ds' dss].
    + rewrite len_nil in Hl. destruct (Z.ltb_spec i (dsLength - 1)); [lia|].
      rewrite bind_write, IH by (rewrite len_nil; lia).
      cbn [map join foldr]. unfold set_text. rewrite !append_assoc, !append_nil_r. reflexivity.
    + rewrite len_cons in Hl. pose proof (len_nonneg dss).
      destruct (Z.ltb_spec i (dsLength - 1)); [|lia].
      rewrite bind_write, IH by (rewrite len_cons; lia).
      cbn [map]. rewrite join_cons. set (X := join _ (_ :: map set_text _)). unfold set_text.
      rewrite !append_assoc. reflexivity.
Qed.

(** The fields of all data sets, in the order they are written. *)
Definition all_fields (m : Message) : list DecodedField := concat (msg_DataSets m).

Lemma encodeAgent_run m b :
  encodeAgent m b = (b +:+ quoted "AgentID" +:+ ":" +:+ quoted (msg_AgentID m) +:+ ",", Ok tt).
Proof. unfold encodeAgent, quoted. rewrite !bind_write. unfold WriteString, modify. by rewrite !append_assoc. Qed.

Lemma encodeHeader_run m b :
  encodeHeader m b = (b +:+ quoted "Header" +:+ ":" +:+ header_text (msg_Header m) +:+ ",", Ok tt).
Proof.
  unfold encodeHeader, header_text. rewrite !bind_write. unfold WriteString, modify.
  rewrite !append_assoc. reflexivity.
Qed.

Lemma encodeDataSet_run m b :
  encodeDataSet m b =
    (b +:+ quoted "DataSets" +:+ ":" +:+ "[" +:+ join "," (map set_text (msg_DataSets m)) +:+ "]",
     match last_err (all_fields m) None with None => Ok tt | Some e => Err None e end).
Proof.
  unfold encodeDataSet. rewrite !bind_write.
  rewrite (bind_run (encodeDataSet_sets_run _ (len (msg_DataSets m)) 0 _ _ eq_refl)), bind_write.
  unfold return_err, all_fields. rewrite !append_assoc. by destruct last_err.
Qed.

Lemma JSONMarshal_run m b :
  (JSONMarshal m b).2 =
    match last_err (all_fields m) None with
    | None => Ok (b +:+ message_text m)
    | Some e => Err None e
    end.
Proof.
  unfold JSONMarshal. rewrite bind_write, (bind_run (encodeAgent_run _ _)), (bind_run (encodeHeader_run _ _)).
  unfold mbind at 1, M_bind at 1. rewrite encodeDataSet_run.
  destruct last_err; [done|]. rewrite bind_write. unfold get, message_text. cbn [snd].
  rewrite !append_assoc. reflexivity.
Qed.

(** ** JSON values *)

Definition json_field (f : DecodedField) : json :=
  JObj ([("I", JNum (df_ID f)); ("V", json_value (df_Value f))] ++
        if df_EnterpriseNo f =? 0 then [] else [("E", JNum (df_EnterpriseNo f))]).

Definition json_header (h : MessageHeader) : json :=
  JObj [("Version", JNum (mh_Version h)); ("Length", JNum (mh_Length h));
        ("ExportTime", JNum (mh_ExportTime h)); ("SequenceNo", JNum (mh_SequenceNo h));
        ("DomainID", JNum (mh_DomainID h))].

Definition json_message (m : Message) : json :=
  JObj [("AgentID", JStr (msg_AgentID m)); ("Header", json_header (msg_Header m));
        ("DataSets", JArr (map (fun ds => JArr (map json_field ds)) (msg_DataSets m)))].

Definition marshalable_field (f : DecodedField) : Prop :=
  int64_range (df_ID f) /\ int64_range (df_EnterpriseNo f) /\ marshalable (df_Value f).

(** The messages with a JSON text: numbers within [int64], strings that need no escaping,
    field values that are [marshalable]. *)
Definition marshalable_message (m : Message) : Prop :=
  all_plain (msg_AgentID m) /\
  Forall int64_range [mh_Version (msg_Header m); mh_Length (msg_Header m);
    mh_ExportTime (msg_Header m); mh_SequenceNo (msg_Header m); mh_DomainID (msg_Header m)] /\
  Forall (Forall marshalable_field) (msg_DataSets m).

Lemma field_text_print f : marshalable_field f -> field_text f = print (json_field f).
Proof.
  intros (H1 & H2 & H3). unfold field_text, json_field, enterprise_text.
  rewrite value_text_print, !int64_small by done. unfold quoted.
  destruct (df_EnterpriseNo f =? 0); cbn [app print map join foldr fst snd];
    rewrite !append_assoc; reflexivity.
Qed.

Lemma message_text_print m : marshalable_message m -> message_text m = print (json_message m).
Proof.
  intros (Ha & Hh & Hd). unfold message_text, json_message, json_header, header_text.
  rewrite !Forall_cons in Hh. destruct Hh as (? & ? & ? & ? & ? & _).
  rewrite !int64_small by done.
  assert (map set_text (msg_DataSets m) =
    map print (map (fun ds => JArr (map json_field ds)) (msg_DataSets m))) as ->.
  { rewrite map_map. apply map_ext_in. intros ds Hds. unfold set_text. cbn [print]. 
    do 3 f_equal. rewrite map_map. apply map_ext_in. intros f Hf.
    apply field_text_print. rewrite Forall_forall in Hd. specialize (Hd ds).
    rewrite Forall_forall in Hd. apply Hd; by apply list_elem_of_In. }
  unfold quoted. cbn [print map join foldr fst snd]. rewrite !append_assoc. reflexivity.
Qed.

Lemma json_field_safe f : marshalable_field f -> safe_json (json_field f).
Proof.
  intros (_ & _ & Hv). apply safe_obj. unfold json_field. apply Forall_app. split.
  - repeat apply Forall_cons_2; try apply Forall_nil_2; (split; [plain_lit|]);
      [constructor|by apply json_value_safe].
  - destruct (df_EnterpriseNo f =? 0); [done|]. apply Forall_singleton. split; [plain_lit|constructor].
Qed.

Lemma json_message_safe m : marshalable_message m -> safe_json (json_message m).
Proof.
  intros (Ha & _ & Hd). apply safe_obj.
  repeat apply Forall_cons_2; try apply Forall_nil_2; (split; [plain_lit|]); cbn [snd].
  - by constructor.
  - apply safe_obj. repeat apply Forall_cons_2; try apply Forall_nil_2; (split; [plain_lit|constructor]).
  - apply safe_arr, Forall_map. eapply Forall_impl; [exact Hd|]. intros ds Hds.
    apply safe_arr, Forall_map. eapply Forall_impl; [exact Hds|]. apply json_field_safe.
Qed.

(** The strings of a message are valid UTF-8. *)
Definition utf8_fields (dss : list (list DecodedField)) : bool :=
  forallb (forallb (fun f => utf8_value (df_Value f))) dss.

Definition utf8_message (m : Message) : bool := utf8 (msg_AgentID m) && utf8_fields (msg_DataSets m).

Lemma utf8_json_field f : utf8_value (df_Value f) = true -> utf8_json (json_field f) = true.
Proof.
  intros Hv. unfold json_field. cbn [utf8_json]. rewrite forallb_app. cbn [forallb fst snd utf8_json].
  rewrite utf8_json_value by done. by destruct (df_EnterpriseNo f =? 0).
Qed.

Lemma utf8_json_message m : utf8_message m = true -> utf8_json (json_message m) = true.
Proof.
  intros [Ha Hd]%andb_true_iff. unfold utf8_fields in Hd. unfold json_message. cbn [utf8_json forallb fst snd]. rewrite Ha.
  change (utf8 "AgentID") with true. change (utf8 "Header") with true. change (utf8 "DataSets") with true.
  change (utf8_json (json_header (msg_Header m))) with true. cbn [andb]. rewrite andb_true_r.
  rewrite forallb_forall in *. intros j (ds & <- & Hds)%in_map_iff. specialize (Hd ds Hds). cbn [utf8_json].
  rewrite forallb_forall in *. intros j (f & <- & Hf)%in_map_iff. apply utf8_json_field. by apply Hd.
Qed.

Lemma last_err_snoc fs f err : last_err (fs ++ [f]) err = value_err (df_Value f).
Proof. by rewrite last_err_app. Qed.

Lemma last_err_marshalable fs :
  Forall marshalable_field fs -> last_err fs None = None.
Proof.
  induction fs as [|f fs _] using rev_ind; [done|]. intros [_ [(_ & _ & Hv) _]%Forall_cons]%Forall_app.
  rewrite last_err_snoc. by destruct (df_Value f).
Qed.

(** C31: marshalling round trip.  For a message whose values are marshalable,
    [JSONMarshal] on an empty buffer succeeds and the text it returns parses to the JSON
    object of the message: agent, the five header numbers, and per data set the list of
    fields with id, value and, when non-zero, enterprise number. *)
Theorem JSONMarshal_roundtrip (m : Message) (Hm : marshalable_message m) :
  exists text, (JSONMarshal m "").2 = Ok text /\ parse_json text = Some (json_message m).
Proof.
  exists (message_text m). rewrite JSONMarshal_run, last_err_marshalable.
  - split; [done|]. rewrite message_text_print by done. by apply parse_json_print, json_message_safe.
  - destruct Hm as (_ & _ & Hd). unfold all_fields. by apply Forall_concat.
Qed.

(** [JSONMarshal] returns an error exactly when the very last field written is a
    boolean: the variable [err] is overwritten by every field, so the error of an earlier
    boolean field is lost. *)
Theorem JSONMarshal_error_iff (m : Message) (b : string) :
  (exists e, (JSONMarshal m b).2 = Err None e) <->
  (exists fs f v, all_fields m = (fs ++ [f])%list /\ df_Value f = VBool v).
Proof.
  rewrite JSONMarshal_run. destruct (all_fields m) as [|f fs _] using rev_ind.
  - split; [by intros []|]. intros (fs & f & v & E & _). by destruct fs.
  - rewrite last_err_snoc. split.
    + intros [e He]. exists fs, f. destruct (df_Value f); try done. eauto.
    + intros (fs' & f' & v & [_ [= <-]]%app_inj_2 & Hf); [|done]. rewrite Hf. eauto.
Qed.

(** A field with a value, in a message of its own. *)
Definition message_of (fields : list DecodedField) : Message :=
  mkMessage "10.10.10.10" (mkMessageHeader 10 420 1483484756 2563920489 34560) [fields].

Lemma JSONMarshal_roundtrip_witness :
  exists text,
    (JSONMarshal (message_of
       [mkDecodedField 8 (VIP (bytes [91; 125; 130; 121])) 0;
        mkDecodedField 6 (VBytes (bytes [0x10])) 0;
        mkDecodedField 1 (VUint64 40) 0;
        mkDecodedField 136 (VString (bytes [101; 110; 100])) 0;
        mkDecodedField 311 (VFloat64 0x3fb999999999999a) 9]) "").2 = Ok text /\
    parse_json text = Some (json_message (message_of
       [mkDecodedField 8 (VIP (bytes [91; 125; 130; 121])) 0;
        mkDecodedField 6 (VBytes (bytes [0x10])) 0;
        mkDecodedField 1 (VUint64 40) 0;
        mkDecodedField 136 (VString (bytes [101; 110; 100])) 0;
        mkDecodedField 311 (VFloat64 0x3fb999999999999a) 9])).
Proof.
  apply JSONMarshal_roundtrip. split; [plain_lit|]. split.
  - repeat apply Forall_cons_2; try apply Forall_nil_2; (split; [done|reflexivity]).
  - repeat apply Forall_cons_2; try apply Forall_nil_2; (split; [done|]); (split; [done|]);
      try done; try plain_lit; by vm_compute.
Defined.

(** Two values break the JSON text although [JSONMarshal] reports success: a boolean
    field before another field (its value is left out), and a string with a quotation
    mark (it is not escaped). *)
Theorem JSONMarshal_invalid_text :
  (exists text,
     (JSONMarshal (message_of [mkDecodedField 276 (VBool true) 0; mkDecodedField 4 (VUint8 6) 0]) "").2
       = Ok text /\ parse_json text = None) /\
  (exists text,
     (JSONMarshal (message_of [mkDecodedField 82 (VString (bytes [0x65; 0x22; 0x31])) 0]) "").2
       = Ok text /\ parse_json text = None).
Proof. split; (eexists; split; [vm_compute; reflexivity|vm_compute; reflexivity]). Qed.
