(* ===== verification/SFlowJson.v ===== *)
(** The JSON text of an sFlow datagram: [json.Marshal] of Go's standard library on the
    structs of [src/sflow] and [src/packet], as [src/vflow/sflow.go] calls it.

    [encoding/json] writes a struct as an object of its exported fields in their order, a
    map as an object with its keys sorted, a byte slice in base64, a nil interface as
    [null], and a [net.IP] by its [MarshalText], which fails on an address that has
    neither four nor sixteen bytes (the empty one gives the empty text).  None of the
    structs has field tags. *)

From Stdlib Require Import Strings.Ascii.
From stdpp Require Import sorting.
From S2P Require Import Prelude GoNet Reader Packet SFlow Json Marshal.

Local Open Scope string_scope.
Open Scope Z_scope.

(** ** Strings, byte slices and addresses *)

(** A character of an encoded string: quotes, backslashes and control characters are
    escaped, and [<], [>] and [&] for use inside HTML.  (Bytes from 128 on are parts of
    UTF-8 sequences; the strings of a datagram have none.) *)
Definition escape_char (c : Ascii.ascii) : string :=
  let n := Ascii.nat_of_ascii c in
  if Ascii.eqb c "034" || Ascii.eqb c "092" then String "092" (String c "")
  else if (n =? 10)%nat then String "092" "n"
  else if (n =? 13)%nat then String "092" "r"
  else if (n =? 9)%nat then String "092" "t"
  else if (n <? 32)%nat || Ascii.eqb c "<" || Ascii.eqb c ">" || Ascii.eqb c "&"
  then String "092" "u00" +:+ hex_byte (byte_of_Z (Z.of_nat n))
  else String c "".

Definition escape_string (s : string) : string :=
  foldr (fun c acc => escape_char c +:+ acc) "" (String.list_ascii_of_string s).

Definition go_str (s : string) : json := JStr (escape_string s).

(** [base64.StdEncoding]. *)
Definition base64_alphabet : list Ascii.ascii :=
  String.list_ascii_of_string "ABCDEFGHIJKLMNOPQRSTUVWXYZabcdefghijklmnopqrstuvwxyz0123456789+/".

Definition base64_char (n : Z) : Ascii.ascii := default "="%char (base64_alphabet !! Z.to_nat n).

Fixpoint base64 (bs : list byte) : string :=
  match bs with
  | [] => ""
  | [x] => String (base64_char (u8 x / 4)) (String (base64_char (u8 x mod 4 * 16)) "==")
  | [x; y] =>
      String (base64_char (u8 x / 4)) (String (base64_char (u8 x mod 4 * 16 + u8 y / 16))
        (String (base64_char (u8 y mod 16 * 4)) "="))
  | x :: y :: z :: bs' =>
      String (base64_char (u8 x / 4)) (String (base64_char (u8 x mod 4 * 16 + u8 y / 16))
        (String (base64_char (u8 y mod 16 * 4 + u8 z / 64)) (String (base64_char (u8 z mod 64))
          (base64 bs'))))
  end.

(** [net.IP.MarshalText]. *)
Definition ip_error (ip : list byte) : option GoError :=
  if (len ip =? 0) || (len ip =? 4) || (len ip =? 16) then None
  else Some (errMarshalIP (hex_EncodeToString ip)).

Definition go_ip (ip : list byte) : json :=
  if len ip =? 0 then go_str "" else go_str (IP_String ip).

(** An object whose members are all numbers. *)
Definition num_obj (l : list (string * Z)) : json := JObj (map (fun m => (m.1, JNum m.2)) l).

(** ** Packets *)

Definition json_Datalink (d : Datalink) : json :=
  JObj [("SrcMAC", go_str (SrcMAC d)); ("DstMAC", go_str (DstMAC d)); ("Vlan", JNum (Vlan d));
        ("EtherType", JNum (EtherType d))].

Definition json_Layer3 (l : Layer3) : json :=
  match l with
  | L3_IPv4 h =>
      JObj [("Version", JNum (v4_Version h)); ("TOS", JNum (v4_TOS h));
            ("TotalLen", JNum (v4_TotalLen h)); ("ID", JNum (v4_ID h)); ("Flags", JNum (v4_Flags h));
            ("FragOff", JNum (v4_FragOff h)); ("TTL", JNum (v4_TTL h));
            ("Protocol", JNum (v4_Protocol h)); ("Checksum", JNum (v4_Checksum h));
            ("Src", go_str (v4_Src h)); ("Dst", go_str (v4_Dst h))]
  | L3_IPv6 h =>
      JObj [("Version", JNum (v6_Version h)); ("TrafficClass", JNum (v6_TrafficClass h));
            ("FlowLabel", JNum (v6_FlowLabel h)); ("PayloadLen", JNum (v6_PayloadLen h));
            ("NextHeader", JNum (v6_NextHeader h)); ("HopLimit", JNum (v6_HopLimit h));
            ("Src", go_str (v6_Src h)); ("Dst", go_str (v6_Dst h))]
  end.

Definition json_Layer4 (l : Layer4) : json :=
  match l with
  | L4_ICMP h =>
      JObj [("Type", JNum (icmp_Type h)); ("Code", JNum (icmp_Code h));
            ("RestHeader", JStr (base64 (icmp_RestHeader h)))]
  | L4_TCP h =>
      num_obj [("SrcPort", tcp_SrcPort h); ("DstPort", tcp_DstPort h);
               ("DataOffset", tcp_DataOffset h); ("Reserved", tcp_Reserved h); ("Flags", tcp_Flags h)]
  | L4_UDP h => num_obj [("SrcPort", udp_SrcPort h); ("DstPort", udp_DstPort h)]
  end.

(** The field [data] is not exported. *)
Definition json_Packet (p : Packet) : json :=
  JObj [("L2", json_Datalink (L2 p));
        ("L3", match L3 p with Some l => json_Layer3 l | None => JNull end);
        ("L4", match L4 p with Some l => json_Layer4 l | None => JNull end)].

(** ** Records *)

Definition json_GenInt (g : GenericInterfaceCounters) : json :=
  num_obj [("Index", gic_Index g); ("Type", gic_Type g); ("Speed", gic_Speed g);
    ("Direction", gic_Direction g); ("Status", gic_Status g); ("InOctets", gic_InOctets g);
    ("InUnicastPackets", gic_InUnicastPackets g); ("InMulticastPackets", gic_InMulticastPackets g);
    ("InBroadcastPackets", gic_InBroadcastPackets g); ("InDiscards", gic_InDiscards g);
    ("InErrors", gic_InErrors g); ("InUnknownProtocols", gic_InUnknownProtocols g);
    ("OutOctets", gic_OutOctets g); ("OutUnicastPackets", gic_OutUnicastPackets g);
    ("OutMulticastPackets", gic_OutMulticastPackets g);
    ("OutBroadcastPackets", gic_OutBroadcastPackets g); ("OutDiscards", gic_OutDiscards g);
    ("OutErrors", gic_OutErrors g); ("PromiscuousMode", gic_PromiscuousMode g)].

Definition json_EthInt (e : EthernetInterfaceCounters) : json :=
  num_obj [("AlignmentErrors", eic_AlignmentErrors e); ("FCSErrors", eic_FCSErrors e);
    ("SingleCollisionFrames", eic_SingleCollisionFrames e);
    ("MultipleCollisionFrames", eic_MultipleCollisionFrames e);
    ("SQETestErrors", eic_SQETestErrors e); ("DeferredTransmissions", eic_DeferredTransmissions e);
    ("LateCollisions", eic_LateCollisions e); ("ExcessiveCollisions", eic_ExcessiveCollisions e);
    ("InternalMACTransmitErrors", eic_InternalMACTransmitErrors e);
    ("CarrierSenseErrors", eic_CarrierSenseErrors e); ("FrameTooLongs", eic_FrameTooLongs e);
    ("InternalMACReceiveErrors", eic_InternalMACReceiveErrors e);
    ("SymbolErrors", eic_SymbolErrors e)].

Definition json_TRInt (t : TokenRingCounters) : json :=
  num_obj [("LineErrors", trc_LineErrors t); ("BurstErrors", trc_BurstErrors t);
    ("ACErrors", trc_ACErrors t); ("AbortTransErrors", trc_AbortTransErrors t);
    ("InternalErrors", trc_InternalErrors t); ("LostFrameErrors", trc_LostFrameErrors t);
    ("ReceiveCongestions", trc_ReceiveCongestions t);
    ("FrameCopiedErrors", trc_FrameCopiedErrors t); ("TokenErrors", trc_TokenErrors t);
    ("SoftErrors", trc_SoftErrors t); ("HardErrors", trc_HardErrors t);
    ("SignalLoss", trc_SignalLoss t); ("TransmitBeacons", trc_TransmitBeacons t);
    ("Recoverys", trc_Recoverys t); ("LobeWires", trc_LobeWires t); ("Removes", trc_Removes t);
    ("Singles", trc_Singles t); ("FreqErrors", trc_FreqErrors t)].

Definition json_VGInt (v : VGCounters) : json :=
  num_obj [("InHighPriorityFrames", vg_InHighPriorityFrames v);
    ("InHighPriorityOctets", vg_InHighPriorityOctets v);
    ("InNormPriorityFrames", vg_InNormPriorityFrames v);
    ("InNormPriorityOctets", vg_InNormPriorityOctets v); ("InIPMErrors", vg_InIPMErrors v);
    ("InOversizeFrameErrors", vg_InOversizeFrameErrors v); ("InDataErrors", vg_InDataErrors v);
    ("InNullAddressedFrames", vg_InNullAddressedFrames v);
    ("OutHighPriorityFrames", vg_OutHighPriorityFrames v);
    ("OutHighPriorityOctets", vg_OutHighPriorityOctets v);
    ("TransitionIntoTrainings", vg_TransitionIntoTrainings v);
    ("HCInHighPriorityOctets", vg_HCInHighPriorityOctets v);
    ("HCInNormPriorityOctets", vg_HCInNormPriorityOctets v);
    ("HCOutHighPriorityOctets", vg_HCOutHighPriorityOctets v)].

Definition json_Record (r : SFRecord) : json :=
  match r with
  | RRawHeader p => json_Packet p
  | RExtSwitch d =>
      num_obj [("SrcVlan", es_SrcVlan d); ("SrcPriority", es_SrcPriority d);
               ("DstVlan", es_DstVlan d); ("DstPriority", es_DstPriority d)]
  | RExtRouter d =>
      JObj [("NextHop", go_ip (er_NextHop d)); ("SrcMask", JNum (er_SrcMask d));
            ("DstMask", JNum (er_DstMask d))]
  | RGenInt g => json_GenInt g
  | REthInt e => json_EthInt e
  | RTRInt t => json_TRInt t
  | RVGInt v => json_VGInt v
  | RVlan v =>
      num_obj [("ID", vc_ID v); ("Octets", vc_Octets v); ("UnicastPackets", vc_UnicastPackets v);
               ("MulticastPackets", vc_MulticastPackets v);
               ("BroadcastPackets", vc_BroadcastPackets v); ("Discards", vc_Discards v)]
  | RProc p =>
      num_obj [("CPU5s", pc_CPU5s p); ("CPU1m", pc_CPU1m p); ("CPU5m", pc_CPU5m p);
               ("TotalMemory", pc_TotalMemory p); ("FreeMemory", pc_FreeMemory p)]
  end.

(** The entries of a map, its keys sorted. *)
Definition key_le (a b : string * SFRecord) : Prop := String.le a.1 b.1.
#[global] Instance key_le_dec a b : Decision (key_le a b) := String.le_dec a.1 b.1.

Definition sorted_entries (m : Records) : list (string * SFRecord) := merge_sort key_le (map_to_list m).

Definition json_Records (m : Records) : json :=
  JObj (map (fun e => (escape_string e.1, json_Record e.2)) (sorted_entries m)).

(** ** Samples and datagrams *)

Definition json_Sample (s : Sample) : json :=
  match s with
  | SFlowSample f =>
      JObj [("SequenceNo", JNum (fs_SequenceNo f)); ("SourceID", JNum (fs_SourceID f));
            ("SamplingRate", JNum (fs_SamplingRate f)); ("SamplePool", JNum (fs_SamplePool f));
            ("Drops", JNum (fs_Drops f)); ("Input", JNum (fs_Input f));
            ("Output", JNum (fs_Output f)); ("RecordsNo", JNum (fs_RecordsNo f));
            ("Records", json_Records (fs_Records f))]
  | SExpanded e =>
      JObj [("SequenceNo", JNum (efs_SequenceNo e)); ("SourceID", JNum (efs_SourceID e));
            ("SamplingRate", JNum (efs_SamplingRate e)); ("SamplePool", JNum (efs_SamplePool e));
            ("Drops", JNum (efs_Drops e)); ("InputFormat", JNum (efs_InputFormat e));
            ("Input", JNum (efs_Input e)); ("OutputFormat", JNum (efs_OutputFormat e));
            ("Output", JNum (efs_Output e)); ("RecordsNo", JNum (efs_RecordsNo e));
            ("Records", json_Records (efs_Records e))]
  end.

Definition json_CounterSample (c : CounterSample) : json :=
  JObj [("SequenceNo", JNum (cs_SequenceNo c)); ("SourceIDType", JNum (cs_SourceIDType c));
        ("SourceIDIdx", JNum (cs_SourceIDIdx c)); ("RecordsNo", JNum (cs_RecordsNo c));
        ("Records", json_Records (cs_Records c))].

Definition json_SFDatagram (d : SFDatagram) : json :=
  JObj [("Version", JNum (dg_Version d)); ("IPVersion", JNum (dg_IPVersion d));
        ("AgentSubID", JNum (dg_AgentSubID d)); ("SequenceNo", JNum (dg_SequenceNo d));
        ("SysUpTime", JNum (dg_SysUpTime d)); ("SamplesNo", JNum (dg_SamplesNo d));
        ("Samples", JArr (map json_Sample (dg_Samples d)));
        ("Counters", JArr (map json_CounterSample (dg_Counters d)));
        ("IPAddress", go_ip (dg_IPAddress d)); ("ColTime", JNum (dg_ColTime d))].

(** The addresses of a datagram, in the order they are written. *)
Definition record_ips (e : string * SFRecord) : list (list byte) :=
  match e.2 with RExtRouter d => [er_NextHop d] | _ => [] end.
Definition Records_of (s : Sample) : Records :=
  match s with SFlowSample f => fs_Records f | SExpanded e => efs_Records e end.
Definition map_ips (m : Records) : list (list byte) := concat (map record_ips (sorted_entries m)).
Definition datagram_ips (d : SFDatagram) : list (list byte) :=
  concat (map (fun s => map_ips (Records_of s)) (dg_Samples d)) ++
  concat (map (fun c => map_ips (cs_Records c)) (dg_Counters d)) ++ [dg_IPAddress d].

(** [json.Marshal(datagram)]: the text, or the error of the first address without a
    text. *)
Definition json_Marshal (d : SFDatagram) : res string :=
  match omap ip_error (datagram_ips d) with
  | e :: _ => Err None e
  | [] => Ok (print (json_SFDatagram d))
  end.

Example base64_rfc4648 :
  map base64 [bytes [102]; bytes [102; 111]; bytes [102; 111; 111]; bytes [102; 111; 111; 98]] =
  ["Zg=="; "Zm8="; "Zm9v"; "Zm9vYg=="].
Proof. vm_compute. reflexivity. Qed.

(** ** The texts of decoded datagrams *)

(** A text that is its own encoding. *)
Definition text_ok (s : string) : Prop := escape_string s = s /\ all_plain s.

Definition packet_ok (p : Packet) : Prop :=
  text_ok (SrcMAC (L2 p)) /\ text_ok (DstMAC (L2 p)) /\
  match L3 p with
  | Some (L3_IPv4 h) => text_ok (v4_Src h) /\ text_ok (v4_Dst h)
  | Some (L3_IPv6 h) => text_ok (v6_Src h) /\ text_ok (v6_Dst h)
  | None => True
  end.

Definition record_ok (k : string) (r : SFRecord) : Prop :=
  text_ok k /\ match r with RRawHeader p => packet_ok p | _ => True end.

Definition records_ok (m : Records) : Prop := map_Forall record_ok m.

Definition datagram_ok (d : SFDatagram) : Prop :=
  Forall (fun s => records_ok (Records_of s)) (dg_Samples d) /\
  Forall (fun c => records_ok (cs_Records c)) (dg_Counters d) /\
  (len (dg_IPAddress d) = 4 \/ len (dg_IPAddress d) = 16).

Lemma escape_addr_char c : addr_char c = true -> escape_char c = String c "".
Proof. destruct c as [[] [] [] [] [] [] [] []]; done. Qed.

Lemma text_ok_addr s : all_chars addr_char s -> text_ok s.
Proof.
  intros Hs. split; [|by apply all_plain_addr]. unfold all_chars in Hs.
  induction s as [|c s IH]; [done|]. apply Forall_cons in Hs as [Hc Hs].
  change (escape_string (String c s)) with (escape_char c +:+ escape_string s).
  rewrite escape_addr_char, IH by done. done.
Qed.

Lemma safe_go_str s : text_ok s -> safe_json (go_str s).
Proof. intros [E H]. unfold go_str. rewrite E. by constructor. Qed.

Lemma ip_error_None ip : ip_error ip = None -> len ip = 0 \/ len ip = 4 \/ len ip = 16.
Proof.
  unfold ip_error. destruct (Z.eqb_spec (len ip) 0); [auto|].
  destruct (Z.eqb_spec (len ip) 4); [auto|]. destruct (Z.eqb_spec (len ip) 16); [auto|done].
Qed.

Lemma safe_go_ip ip : ip_error ip = None -> safe_json (go_ip ip).
Proof.
  intros [H|H]%ip_error_None; unfold go_ip.
  - rewrite H. apply safe_go_str. by split; [|constructor].
  - destruct (Z.eqb_spec (len ip) 0); [lia|]. by apply safe_go_str, text_ok_addr, addr_IP.
Qed.

Lemma base64_char_plain n : plain (base64_char n) = true.
Proof.
  unfold base64_char. destruct (base64_alphabet !! Z.to_nat n) as [c|] eqn:E; [|done].
  assert (Forall (fun c => plain c = true) base64_alphabet) as H by (unfold base64_alphabet; by_decide).
  by apply (Forall_lookup_1 _ _ _ _ H E).
Qed.

Lemma all_plain_base64 bs : all_plain (base64 bs).
Proof.
  unfold all_plain, all_chars.
  induction bs as [bs IH] using (induction_ltof1 _ length); unfold ltof in IH.
  destruct bs as [|x [|y [|z bs]]]; cbn [base64 String.list_ascii_of_string];
    repeat constructor; try apply base64_char_plain. apply IH. simpl. lia.
Qed.

(** Objects whose member names are literals. *)
Definition lit_keys {A} (l : list (string * A)) : bool :=
  forallb (fun m => forallb plain (String.list_ascii_of_string m.1)) l.

Lemma safe_lit_obj l : lit_keys l = true -> Forall (fun m => safe_json m.2) l -> safe_json (JObj l).
Proof.
  intros Hk Hl. apply safe_obj. unfold lit_keys in Hk. induction Hl as [|m l Hm Hl IH]; [done|].
  cbn [forallb] in Hk. apply andb_true_iff in Hk as [Hk1 Hk2]. constructor; [|by apply IH].
  split; [|done]. unfold all_plain, all_chars. rewrite Forall_forall. intros c Hc.
  apply forallb_forall with (x := c) in Hk1; [done|by apply list_elem_of_In].
Qed.

Lemma safe_num_obj l : lit_keys l = true -> safe_json (num_obj l).
Proof.
  intros Hk. apply safe_lit_obj.
  - unfold lit_keys in *. rewrite <- Hk. clear Hk. induction l as [|m l IH]; [done|].
    cbn [map forallb fst]. by rewrite IH.
  - apply Forall_map, Forall_true. intros m. constructor.
Qed.

Ltac safe_members :=
  repeat (apply Forall_cons_2; cbn [snd]); try apply Forall_nil_2; try (by constructor).
Ltac safe_object := apply safe_lit_obj; [reflexivity|]; safe_members.

Lemma safe_json_Packet p : packet_ok p -> safe_json (json_Packet p).
Proof.
  intros (H1 & H2 & H3). unfold json_Packet. safe_object.
  - unfold json_Datalink. safe_object; by apply safe_go_str.
  - destruct (L3 p) as [[h|h]|]; [| |constructor]; destruct H3; cbn [json_Layer3]; safe_object;
      by apply safe_go_str.
  - destruct (L4 p) as [[h|h|h]|]; [|by apply safe_num_obj|by apply safe_num_obj|constructor].
    cbn [json_Layer4]. safe_object. constructor. apply all_plain_base64.
Qed.

Lemma safe_json_Record k r :
  record_ok k r -> Forall (fun ip => ip_error ip = None) (record_ips (k, r)) -> safe_json (json_Record r).
Proof.
  intros [_ Hr] Hi. destruct r; cbn [json_Record]; try by apply safe_num_obj.
  - by apply safe_json_Packet.
  - unfold record_ips in Hi. cbn [snd] in Hi. apply Forall_cons in Hi as [Hi _]. safe_object.
    by apply safe_go_ip.
Qed.

Lemma safe_json_Records m :
  records_ok m -> Forall (fun ip => ip_error ip = None) (map_ips m) -> safe_json (json_Records m).
Proof.
  intros Hm Hi. unfold records_ok in Hm. rewrite map_Forall_to_list in Hm.
  unfold map_ips in Hi. rewrite Forall_concat, Forall_map in Hi.
  rewrite <- (merge_sort_Permutation key_le) in Hm. fold (sorted_entries m) in Hm.
  apply safe_obj, Forall_map. eapply Forall_impl; [apply Forall_and; split; [exact Hm|exact Hi]|].
  intros [k r] [Hk Hr]. cbn [uncurry fst snd] in *. split; [|by eapply safe_json_Record].
  destruct Hk as [[-> ?] _]. done.
Qed.

Lemma omap_nil_Forall ips :
  omap ip_error ips = [] <-> Forall (fun ip => ip_error ip = None) ips.
Proof.
  induction ips as [|ip ips IH]; [done|]. rewrite Forall_cons, <- IH. cbn.
  destruct (ip_error ip); naive_solver.
Qed.

(** The text of a datagram all of whose addresses have one parses back. *)
Lemma json_Marshal_ok d :
  datagram_ok d -> Forall (fun ip => ip_error ip = None) (datagram_ips d) ->
  json_Marshal d = Ok (print (json_SFDatagram d)) /\
  parse_json (print (json_SFDatagram d)) = Some (json_SFDatagram d).
Proof.
  intros (Hs & Hc & Ha) Hi. unfold json_Marshal. rewrite (proj2 (omap_nil_Forall _) Hi).
  split; [done|]. apply parse_json_print. unfold datagram_ips in Hi.
  apply Forall_app in Hi as [Hi1 [Hi2 Hi3]%Forall_app]. rewrite Forall_concat, Forall_map in Hi1, Hi2.
  unfold json_SFDatagram. safe_object.
  - constructor. apply Forall_map.
    eapply Forall_impl; [apply Forall_and; split; [exact Hs|exact Hi1]|].
    intros [f|e] [H1 H2]; cbn [Records_of json_Sample] in *; safe_object; by apply safe_json_Records.
  - constructor. apply Forall_map.
    eapply Forall_impl; [apply Forall_and; split; [exact Hc|exact Hi2]|].
    intros c [H1 H2]. unfold json_CounterSample. safe_object. by apply safe_json_Records.
  - apply safe_go_ip. by apply Forall_cons in Hi3 as [Hi3 _].
Qed.
