(* ===== verification/Mirror.v ===== *)
(** The IPFIX mirror: the header templates of [src/mirror/] ([ipv4.go], [ipv6.go],
    [udp.go]) and the sender loop [mirrorIPFIX] of [src/vflow/ipfix_unix.go], which puts
    received datagrams into new IP packets and sends them to another collector.

    The loop keeps three buffers, which it overwrites for every message: they are the
    state of the model.  What is given to the raw socket is the result of a round; whether
    the socket can be opened and which sends succeed are parameters.  The bodies
    of the messages are slices of pool buffers, which are handed back at their full size:
    that is in Buffers.v, where it is shown not to fail. *)

From S2P Require Import Prelude GoNet Packet PacketWire.

(** ** Byte slices as destinations *)

(** [binary.BigEndian.PutUint16(b[off:], v)]. *)
Definition PutUint16 {S} (b : list byte) (off v : Z) : M S (list byte) :=
  if (0 <=? off) && (off + 2 <=? len b)
  then mret (take (Z.to_nat off) b ++ be_encode 2 v ++ drop (Z.to_nat (off + 2)) b)
  else panic.

(** [b[i] = byte(v)]. *)
Definition put_byte {S} (b : list byte) (i v : Z) : M S (list byte) :=
  if (0 <=? i) && (i <? len b) then mret (<[Z.to_nat i := byte_of_Z v]> b) else panic.

(** [copy(b[lo:hi], src)]. *)
Definition copy_into {S} (b : list byte) (lo hi : Z) (src : list byte) : M S (list byte) :=
  if (0 <=? lo) && (lo <=? hi) && (hi <=? len b) then
    let n := Z.min (hi - lo) (len src) in
    mret (take (Z.to_nat lo) b ++ take (Z.to_nat n) src ++ drop (Z.to_nat (lo + n)) b)
  else panic.

(** [make([]byte, n)]. *)
Definition make_bytes (n : Z) : list byte := replicate (Z.to_nat n) x00.

(** ** Header templates *)

Definition UDPHLen : Z := 8.
Definition UDPProto : Z := 17.

Record IPv4 : Type := mkIPv4 {
  ip4_Version : Z; ip4_IHL : Z; ip4_TOS : Z; ip4_Length : Z; ip4_TTL : Z; ip4_Protocol : Z
}.

Definition NewIPv4HeaderTpl (proto : Z) : IPv4 := mkIPv4 4 5 0 0 64 (uint8 proto).

Definition IPv4_Marshal {S} (ip : IPv4) : M S (list byte) :=
  let b := make_bytes IPv4HLen in
  b ← put_byte b 0 (Z.lor (uint8 (Z.shiftl (ip4_Version ip) 4)) (ip4_IHL ip));
  b ← put_byte b 1 (ip4_TOS ip);
  b ← PutUint16 b 2 (ip4_Length ip);
  b ← put_byte b 6 0;
  b ← put_byte b 7 0;
  b ← put_byte b 8 (ip4_TTL ip);
  put_byte b 9 (ip4_Protocol ip).

Definition IPv4_SetLen {S} (b : list byte) (n : Z) : M S (list byte) :=
  PutUint16 b 2 (uint16 (IPv4HLen + uint16 n)).

Definition IPv4_SetAddrs {S} (b src dst : list byte) : M S (list byte) :=
  s ← slice src 12 16;
  b ← copy_into b 12 16 s;
  d ← slice dst 12 16;
  copy_into b 16 20 d.

Record IPv6 : Type := mkIPv6 {
  ip6_Version : Z; ip6_TrafficClass : Z; ip6_FlowLabel : Z; ip6_PayloadLength : Z;
  ip6_NextHeader : Z; ip6_HopLimit : Z
}.

Definition NewIPv6HeaderTpl (proto : Z) : IPv6 := mkIPv6 6 0 0 0 (uint8 proto) 64.

Definition IPv6_Marshal {S} (ip : IPv6) : M S (list byte) :=
  let b := make_bytes IPv6HLen in
  b ← put_byte b 0 (Z.lor (uint8 (Z.shiftl (ip6_Version ip) 4)) (Z.shiftr (ip6_TrafficClass ip) 4));
  b ← put_byte b 1 (Z.lor (uint8 (Z.shiftl (ip6_TrafficClass ip) 4))
                      (uint8 (Z.shiftr (ip6_FlowLabel ip) 16)));
  b ← PutUint16 b 2 (uint16 (ip6_FlowLabel ip));
  b ← put_byte b 6 (ip6_NextHeader ip);
  put_byte b 7 (ip6_HopLimit ip).

Definition IPv6_SetLen {S} (b : list byte) (n : Z) : M S (list byte) :=
  PutUint16 b 4 (uint16 (IPv6HLen + uint16 n)).

Definition IPv6_SetAddrs {S} (b src dst : list byte) : M S (list byte) :=
  b ← copy_into b 8 (len b) src;
  copy_into b 24 (len b) dst.

(** The name of the type is [UDP]. *)
Record UDPTpl : Type := mkUDPTpl {
  ut_SrcPort : Z; ut_DstPort : Z; ut_Length : Z; ut_Checksum : Z
}.

Definition UDP_Marshal {S} (u : UDPTpl) : M S (list byte) :=
  let b := make_bytes UDPHLen in
  b ← PutUint16 b 0 (uint16 (ut_SrcPort u));
  b ← PutUint16 b 2 (uint16 (ut_DstPort u));
  b ← PutUint16 b 4 (uint16 (UDPHLen + ut_Length u));
  PutUint16 b 6 (uint16 (ut_Checksum u)).

Definition UDP_SetLen {S} (b : list byte) (n : Z) : M S (list byte) :=
  PutUint16 b 4 (uint16 (UDPHLen + n)).

(** [SetChecksum] has an empty body in the source. *)
Definition UDP_SetChecksum {S} : M S () := mret tt.

(** The interface [IP]: the methods the sender calls. *)
Class IP (T : Type) : Type := {
  ip_Marshal : forall {S}, T -> M S (list byte);
  ip_SetLen : forall {S}, T -> list byte -> Z -> M S (list byte);
  ip_SetAddrs : forall {S}, T -> list byte -> list byte -> list byte -> M S (list byte)
}.

#[global] Instance IPv4_IP : IP IPv4 := {
  ip_Marshal := fun S => IPv4_Marshal;
  ip_SetLen := fun S _ => IPv4_SetLen;
  ip_SetAddrs := fun S _ => IPv4_SetAddrs
}.

#[global] Instance IPv6_IP : IP IPv6 := {
  ip_Marshal := fun S => IPv6_Marshal;
  ip_SetLen := fun S _ => IPv6_SetLen;
  ip_SetAddrs := fun S _ => IPv6_SetAddrs
}.

(** ** The sender *)

(** A received datagram ([IPFIXUDPMsg]): the sender's address and the payload. *)
Record IPFIXUDPMsg : Type := mkUDPMsg { um_raddr : list byte; um_body : list byte }.

Record MirrorState : Type := mkMirrorState {
  ms_ipHdr : list byte; ms_udpHdr : list byte; ms_packet : list byte
}.

Definition set_ipHdr (b : list byte) (s : MirrorState) : MirrorState :=
  mkMirrorState b (ms_udpHdr s) (ms_packet s).
Definition set_udpHdr (b : list byte) (s : MirrorState) : MirrorState :=
  mkMirrorState (ms_ipHdr s) b (ms_packet s).
Definition set_packet (b : list byte) (s : MirrorState) : MirrorState :=
  mkMirrorState (ms_ipHdr s) (ms_udpHdr s) b.

(** The sender waits at [<-ch], or has returned the error of [Send] or of [NewRawConn]. *)
Inductive MirrorEnd : Type := AtChannel | SendError | ConnError.

Section sender.
Context {T : Type} `{!IP T}.
(** [ip] with its header length, and the destination. *)
Context (ip : T) (ipHLen : Z) (dst : list byte).

(** One round of the loop: the bytes given to [conn.Send].  The [Put] of the body's buffer
    before the send is in Buffers.v. *)
Definition mirror_round (msg : IPFIXUDPMsg) : M MirrorState (list byte) :=
  let pLen := len (um_body msg) in
  s ← get;
  h ← ip_SetAddrs ip (ms_ipHdr s) (um_raddr msg) dst;
  h ← ip_SetLen ip h (pLen + UDPHLen);
  modify (set_ipHdr h);;
  u ← UDP_SetLen (ms_udpHdr s) pLen;
  modify (set_udpHdr u);;
  UDP_SetChecksum;;
  p ← copy_into (ms_packet s) 0 ipHLen h;
  p ← copy_into p ipHLen (ipHLen + 8) u;
  p ← copy_into p (ipHLen + 8) (len p) (um_body msg);
  modify (set_packet p);;
  slice p 0 (ipHLen + 8 + pLen).

(** [conn.Send], the [n]-th of them: whether it succeeds. *)
Context (Send : nat -> list byte -> bool).

(** The loop on the messages of the channel: the packets given to [Send], and how it stands
    then.  The first send that fails ends it. *)
Fixpoint mirror_loop (n : nat) (msgs : list IPFIXUDPMsg) : M MirrorState (list (list byte) * MirrorEnd) :=
  match msgs with
  | [] => mret ([], AtChannel)
  | msg :: msgs' =>
      p ← mirror_round msg;
      if Send n p then r ← mirror_loop (S n) msgs'; mret (p :: r.1, r.2) else mret ([p], SendError)
  end.

(** The headers and the packet buffer of [size] bytes before the loop. *)
Definition mirror_init (port size : Z) : M MirrorState () :=
  udpHdr ← UDP_Marshal (mkUDPTpl 55117 port 0 0);
  ipHdr ← ip_Marshal ip;
  put (mkMirrorState ipHdr udpHdr (make_bytes size)).

End sender.

(** [mirrorIPFIX(dst, port, ch)]: the packets given to [Send] for the messages of [ch];
    [connected] says whether [NewRawConn] succeeds. *)
Definition mirrorIPFIX (connected : bool) (Send : nat -> list byte -> bool) (dst : list byte) (port size : Z)
    (msgs : list IPFIXUDPMsg) : M MirrorState (list (list byte) * MirrorEnd) :=
  if negb connected then mret ([], ConnError) else
  match To4 dst with
  | Some _ =>
      let ip := NewIPv4HeaderTpl UDPProto in
      mirror_init ip port size;;
      mirror_loop ip IPv4HLen dst Send 0 msgs
  | None =>
      let ip := NewIPv6HeaderTpl UDPProto in
      mirror_init ip port size;;
      mirror_loop ip IPv6HLen dst Send 0 msgs
  end.

(** ** What is sent *)

Lemma copy_into_app {S} (a b : list byte) lo hi src (s : S) :
  lo = len a -> lo + len src <= hi -> hi <= lo + len b ->
  copy_into (a ++ b) lo hi src s = (s, Ok (a ++ src ++ drop (length src) b)).
Proof.
  intros -> H1 H2. unfold copy_into. rewrite len_app.
  pose proof (len_nonneg a). pose proof (len_nonneg src).
  destruct (Z.leb_spec 0 (len a)), (Z.leb_spec (len a) hi), (Z.leb_spec hi (len a + len b)); try lia.
  cbn [andb]. unfold mret, M_ret. rewrite Z.min_r by lia. rewrite take_len_app.
  unfold len. rewrite Nat2Z.id, firstn_all. do 3 f_equal.
  replace (Z.to_nat (Z.of_nat (length a) + Z.of_nat (length src))) with (length a + length src)%nat by lia.
  by rewrite <- drop_drop, drop_app_length.
Qed.

Lemma copy_into_bounds {S} b lo hi src (s : S) :
  hi < lo -> copy_into b lo hi src s = (s, Panic).
Proof.
  intros H. unfold copy_into. destruct (Z.leb_spec lo hi); [lia|]. by rewrite andb_false_r.
Qed.

Lemma PutUint16_app {S} (a x b : list byte) off v (s : S) :
  off = len a -> len x = 2 ->
  PutUint16 (a ++ x ++ b) off v s = (s, Ok (a ++ be_encode 2 v ++ b)).
Proof.
  intros -> Hx. unfold PutUint16. rewrite !len_app, Hx. pose proof (len_nonneg a). pose proof (len_nonneg b).
  destruct (Z.leb_spec 0 (len a)), (Z.leb_spec (len a + 2) (len a + (2 + len b))); try lia.
  cbn [andb]. unfold mret, M_ret. rewrite take_len_app.
  assert (drop (Z.to_nat (len a + 2)) (a ++ x ++ b) = b) as ->; [|done].
  rewrite <- Hx, <- len_app, app_assoc. apply drop_len_app.
Qed.

Lemma be_encode_uint16 z : be_encode 2 (uint16 z) = be_encode 2 z.
Proof.
  pose proof (be_encode_decode (be_encode 2 z)) as H. rewrite length_be_encode, be_decode_encode in H.
  exact H.
Qed.

(** What a header template promises the sender: [inv] holds of the template, survives
    the rounds, and a round fills in the header [hdr raddr n] for a payload of [n]
    bytes. *)
Class HeaderTpl {T} `{!IP T} (ip : T) (ipHLen : Z) (dst : list byte)
    (inv : list byte -> Prop) (hdr : list byte -> Z -> list byte) : Prop := {
  tpl_init : forall {S} (s : S), exists h, ip_Marshal ip s = (s, Ok h) /\ inv h;
  tpl_hlen : 0 <= ipHLen;
  tpl_fill : forall {S} (s : S) h raddr n, inv h -> length raddr = 16%nat ->
    exists h', ip_SetAddrs ip h raddr dst s = (s, Ok h') /\
               ip_SetLen ip h' (n + UDPHLen) s = (s, Ok (hdr raddr n));
  tpl_inv : forall raddr n, length raddr = 16%nat -> inv (hdr raddr n);
  tpl_len : forall raddr n, length raddr = 16%nat -> len (hdr raddr n) = ipHLen
}.

Definition udp_hdr (port n : Z) : list byte :=
  encode_transport (UDP 55117 port (8 + n) 0).

Section rounds.
Context {T : Type} `{!IP T} (ip : T) (ipHLen : Z) (dst : list byte).
Context {inv : list byte -> Prop} {hdr : list byte -> Z -> list byte}.
Context `{!HeaderTpl ip ipHLen dst inv hdr}.
Context (port size : Z).

Definition state_ok (s : MirrorState) : Prop :=
  inv (ms_ipHdr s) /\ (exists n, ms_udpHdr s = udp_hdr port n) /\ len (ms_packet s) = size.

Definition sent (msg : IPFIXUDPMsg) : list byte :=
  hdr (um_raddr msg) (len (um_body msg)) ++ udp_hdr port (len (um_body msg)) ++ um_body msg.

Lemma UDP_SetLen_udp {S} n k (s : S) : UDP_SetLen (udp_hdr port n) k s = (s, Ok (udp_hdr port k)).
Proof.
  unfold UDP_SetLen, udp_hdr, encode_transport. rewrite !app_assoc, <- (app_assoc _ _ (be_encode 2 0)).
  rewrite PutUint16_app, be_encode_uint16 by (autorewrite with len; done).
  by rewrite <- app_assoc.
Qed.

(** A round up to the packet buffer: the headers are filled in. *)
Lemma mirror_round_eq msg s :
  state_ok s -> length (um_raddr msg) = 16%nat ->
  let h := hdr (um_raddr msg) (len (um_body msg)) in
  let u := udp_hdr port (len (um_body msg)) in
  let s1 := mkMirrorState h u (ms_packet s) in
  mirror_round ip ipHLen dst msg s =
    (p ← copy_into (ms_packet s) 0 ipHLen h;
     p ← copy_into p ipHLen (ipHLen + 8) u;
     p ← copy_into p (ipHLen + 8) (len p) (um_body msg);
     modify (set_packet p);;
     slice p 0 (ipHLen + 8 + len (um_body msg))) s1.
Proof.
  intros (Hi & [k Hu] & Hp) Hr h u s1. unfold mirror_round. rewrite bind_get.
  destruct (tpl_fill s (ms_ipHdr s) (um_raddr msg) (len (um_body msg)) Hi Hr) as (h' & H1 & H2).
  rewrite (bind_run H1), (bind_run H2), bind_modify. rewrite Hu.
  by rewrite (bind_run (UDP_SetLen_udp k (len (um_body msg)) _)).
Qed.

Lemma len_udp_hdr n : len (udp_hdr port n) = 8.
Proof. unfold udp_hdr, encode_transport. by autorewrite with len. Qed.

Lemma mirror_round_sent msg s :
  state_ok s -> length (um_raddr msg) = 16%nat -> ipHLen + 8 + len (um_body msg) <= size ->
  exists s', mirror_round ip ipHLen dst msg s = (s', Ok (sent msg)) /\ state_ok s'.
Proof.
  intros Hok Hr Hs. rewrite mirror_round_eq by done. destruct Hok as (Hi & _ & Hp). unfold sent.
  set (h := hdr _ _). set (u := udp_hdr _ _). set (body := um_body msg) in *.
  assert (len h = ipHLen) as Hh by (by apply tpl_len). assert (len u = 8) as Hu by apply len_udp_hdr.
  pose proof (len_nonneg h). pose proof (len_nonneg body).
  set (P := ms_packet s) in *.
  assert (len (drop (length h) P) = size - ipHLen) as H1 by (rewrite len_dropn; unfold len in *; lia).
  assert (len (drop (length u) (drop (length h) P)) = size - ipHLen - 8) as H2.
  { rewrite len_dropn; unfold len in *; lia. }
  rewrite (bind_run (copy_into_app [] P 0 ipHLen h _ eq_refl ltac:(lia) ltac:(lia))). cbn [app].
  erewrite bind_run by (apply copy_into_app; lia). rewrite app_assoc.
  erewrite bind_run by (apply copy_into_app; rewrite ?len_app; lia).
  rewrite bind_modify, slice_ok.
  - rewrite Z.sub_0_r, drop_0. eexists. split.
    + do 3 f_equal. rewrite !app_assoc.
      replace (ipHLen + 8 + len body) with (len ((h ++ u) ++ body)) by (rewrite !len_app; lia).
      apply take_len_app.
    + split_and!; cbn [ms_ipHdr ms_udpHdr ms_packet set_packet]; [by apply tpl_inv|by eexists|].
      rewrite !len_app, len_dropn; unfold len in *; lia.
  - lia.
  - pose proof (len_nonneg (drop (length body) (drop (length u) (drop (length h) P)))).
    rewrite !len_app. lia.
Qed.

Lemma copy_into_len {S} b lo hi src (s : S) :
  match copy_into b lo hi src s with
  | (_, Ok b') => len b' = len b
  | (_, Panic) => True
  | _ => False
  end.
Proof.
  unfold copy_into. destruct (_ && _) eqn:E; [|done].
  apply andb_true_iff in E as [[E1%Z.leb_le E2%Z.leb_le]%andb_true_iff E3%Z.leb_le].
  cbn. pose proof (len_nonneg src). rewrite !len_app, len_drop, !len_take by lia. lia.
Qed.

(** A message that does not fit the packet buffer ends the process. *)
Lemma mirror_round_panic msg s :
  state_ok s -> length (um_raddr msg) = 16%nat -> size < ipHLen + 8 + len (um_body msg) ->
  (mirror_round ip ipHLen dst msg s).2 = Panic.
Proof.
  intros Hok Hr Hs. rewrite mirror_round_eq by done. destruct Hok as (_ & _ & Hp).
  unfold mbind, M_bind.
  repeat match goal with |- context [copy_into ?b ?lo ?hi ?src ?st] =>
    let H := fresh "H" in
    pose proof (copy_into_len b lo hi src st) as H; destruct (copy_into b lo hi src st) as [? []]; try done
  end.
  cbn [modify]. by rewrite slice_panic by lia.
Qed.

(** A message that can be sent: it fits, and the exporter's address is not one the template
    cannot take. *)
Context (addr_ok : list byte -> Prop) (bad_addr : list byte -> bool).
Hypothesis addr_len : forall raddr, addr_ok raddr -> bad_addr raddr = false -> length raddr = 16%nat.
Hypothesis addr_panic : forall {S} (s : S) h raddr, inv h -> bad_addr raddr = true ->
  ip_SetAddrs ip h raddr dst s = (s, Panic).

Definition sendable (msg : IPFIXUDPMsg) : bool :=
  negb (bad_addr (um_raddr msg)) && (ipHLen + 8 + len (um_body msg) <=? size).

Lemma mirror_round_cases msg s :
  state_ok s -> addr_ok (um_raddr msg) ->
  if sendable msg then exists s', mirror_round ip ipHLen dst msg s = (s', Ok (sent msg)) /\ state_ok s'
  else (mirror_round ip ipHLen dst msg s).2 = Panic.
Proof using All.
  intros Hok Ha. unfold sendable. destruct (bad_addr (um_raddr msg)) eqn:Ea; cbn [negb andb].
  - unfold mirror_round. rewrite bind_get. unfold mbind, M_bind. destruct Hok as (Hi & _).
    by rewrite (addr_panic s _ _ Hi Ea).
  - apply addr_len in Ea; [|done]. destruct (Z.leb_spec (ipHLen + 8 + len (um_body msg)) size).
    + by apply mirror_round_sent.
    + by apply mirror_round_panic.
Qed.

Context (Send : nat -> list byte -> bool).

(** The messages that go out one after the other, the first as the [n]-th. *)
Definition all_sent (n : nat) (msgs : list IPFIXUDPMsg) : Prop :=
  forall i msg, msgs !! i = Some msg -> sendable msg = true /\ Send (n + i) (sent msg) = true.

Lemma all_sent_cons n msg msgs :
  all_sent n (msg :: msgs) -> sendable msg = true /\ Send n (sent msg) = true /\ all_sent (S n) msgs.
Proof.
  intros H. destruct (H 0%nat msg eq_refl) as [H1 H2]. rewrite Nat.add_0_r in H2. split_and!; try done.
  intros i m Hm. destruct (H (S i) m Hm) as [H3 H4]. by rewrite Nat.add_succ_r in H4.
Qed.

(** The loop after messages that went out: it is at the next one. *)
Lemma mirror_loop_app pre n s :
  state_ok s -> Forall (fun msg => addr_ok (um_raddr msg)) pre -> all_sent n pre ->
  exists s', state_ok s' /\ forall msgs,
    let o := (mirror_loop ip ipHLen dst Send (n + length pre) msgs s').2 in
    let o' := (mirror_loop ip ipHLen dst Send n (pre ++ msgs) s).2 in
    (forall ps e, o = Ok (ps, e) -> o' = Ok (map sent pre ++ ps, e)) /\ (o = Panic -> o' = Panic).
Proof using All.
  intros Hok Ha. revert n s Hok. induction Ha as [|msg pre Ha _ IH]; intros n s Hok Hs.
  { exists s. split; [done|]. intros msgs. rewrite Nat.add_0_r. done. }
  apply all_sent_cons in Hs as (H1 & H2 & Hs). pose proof (mirror_round_cases msg s Hok Ha) as Hr. rewrite H1 in Hr.
  destruct Hr as (s1 & E & Hok1). destruct (IH (S n) s1 Hok1 Hs) as (s' & Hok' & E').
  exists s'. split; [done|]. intros msgs. cbn [app mirror_loop length]. rewrite (bind_run E), H2. rewrite Nat.add_succ_r.
  unfold mbind, M_bind. cbn [map app]. destruct (E' msgs) as [G1 G2]. cbn zeta in G1, G2. cbn [Nat.add] in G1, G2.
  destruct (mirror_loop ip ipHLen dst Send (S n) (pre ++ msgs) s1) as [s2 o]. cbn [snd] in G1, G2. split.
  - intros ps e Ho. by rewrite (G1 ps e Ho).
  - intros Ho. by rewrite (G2 Ho).
Qed.

Lemma UDP_Marshal_udp {S} (s : S) : UDP_Marshal (mkUDPTpl 55117 port 0 0) s = (s, Ok (udp_hdr port 0)).
Proof.
  unfold UDP_Marshal. cbn [ut_SrcPort ut_DstPort ut_Length ut_Checksum].
  erewrite bind_run by (apply (PutUint16_app [] [x00; x00] (replicate 6 x00)); done).
  erewrite bind_run by (apply (PutUint16_app _ [x00; x00] (replicate 4 x00)); by autorewrite with len).
  rewrite app_assoc.
  erewrite bind_run by (apply (PutUint16_app _ [x00; x00] (replicate 2 x00)); by autorewrite with len).
  rewrite app_assoc, <- (app_nil_r (replicate 2 x00)).
  rewrite PutUint16_app, !be_encode_uint16, app_nil_r by (by autorewrite with len).
  by rewrite <- !app_assoc.
Qed.

Lemma mirror_init_ok s :
  0 <= size -> exists s', mirror_init ip port size s = (s', Ok tt) /\ state_ok s'.
Proof.
  intros Hz. unfold mirror_init. rewrite (bind_run (UDP_Marshal_udp s)).
  destruct (tpl_init s) as (h & E & Hi). rewrite (bind_run E). eexists. split; [done|].
  split_and!; cbn [ms_ipHdr ms_udpHdr ms_packet]; [done|by eexists|].
  unfold make_bytes. rewrite len_replicate. lia.
Qed.

(** All messages go out; or one cannot be sent, or its send fails. *)
Lemma mirror_runs pre s :
  0 <= size -> Forall (fun msg => addr_ok (um_raddr msg)) pre -> all_sent 0 pre ->
  let run msgs := ((mirror_init ip port size;; mirror_loop ip ipHLen dst Send 0 msgs) s).2 in
  run pre = Ok (map sent pre, AtChannel) /\
  forall msg post, addr_ok (um_raddr msg) ->
    (sendable msg = false -> run (pre ++ msg :: post) = Panic) /\
    (sendable msg = true -> Send (length pre) (sent msg) = false ->
     run (pre ++ msg :: post) = Ok (map sent (pre ++ [msg]), SendError)).
Proof using All.
  intros Hz Ha Hs run. destruct (mirror_init_ok s Hz) as (s0 & E & Hok).
  assert (forall msgs, run msgs = (mirror_loop ip ipHLen dst Send 0 msgs s0).2) as Hrun
    by (intros msgs; unfold run; by rewrite (bind_run E)).
  destruct (mirror_loop_app pre 0 s0 Hok Ha Hs) as (s' & Hok' & H). split.
  - rewrite Hrun, <- (app_nil_r pre). rewrite (proj1 (H []) [] AtChannel); [by rewrite !app_nil_r|done].
  - intros msg post Hm. rewrite !Hrun. destruct (H (msg :: post)) as [G1 G2]. cbn zeta in G1, G2. cbn [mirror_loop Nat.add] in G1, G2.
    pose proof (mirror_round_cases msg s' Hok' Hm) as Hr. split; intros Hg; rewrite Hg in Hr.
    + apply G2. unfold mbind, M_bind. by destruct (mirror_round ip ipHLen dst msg s') as [? []].
    + intros Hf. destruct Hr as (s1 & E1 & _). rewrite map_app. apply G1. by rewrite (bind_run E1), Hf.
Qed.
End rounds.

(** ** The two header templates *)

Lemma uint16_add k n : uint16 (k + uint16 (n + 8)) = uint16 (k + 8 + n).
Proof. unfold wrapU. rewrite Zplus_mod_idemp_r. f_equal. lia. Qed.

(** The last four bytes of an address in 16-byte form. *)
Definition last4 (a : list byte) : list byte := take 4 (drop 12 a).

Definition inv4 (h : list byte) : Prop :=
  exists total b c, length b = 4%nat /\ length c = 4%nat /\
    h = encode_network (IP4 0 total 0 0 0 64 0 b c) 17.

Definition hdr4 (dst raddr : list byte) (n : Z) : list byte :=
  encode_network (IP4 0 (28 + n) 0 0 0 64 0 (last4 raddr) (last4 dst)) 17.

#[global] Instance IPv4_tpl (dst : list byte) (Hd : length dst = 16%nat) :
  HeaderTpl (NewIPv4HeaderTpl UDPProto) IPv4HLen dst inv4 (hdr4 dst).
Proof.
  split.
  - intros S s. eexists. split; [vm_compute; reflexivity|].
    exists 0, (replicate 4 x00), (replicate 4 x00). by vm_compute.
  - done.
  - intros S s h raddr n (total & b & c & Hb & Hc & ->) Hr. unfold hdr4, last4.
    explicit 4 b. explicit 4 c. explicit 16 raddr. explicit 16 dst.
    cbn [encode_network]. rewrite (be_encode2 total).
    set (t1 := byte_of_Z (total / 256)). set (t2 := byte_of_Z total). clearbody t1 t2.
    eexists. split; [vm_compute; reflexivity|].
    rewrite <- (be_encode_uint16 (28 + n)). change 28 with (20 + 8). rewrite <- (uint16_add 20).
    change (ip_SetLen (NewIPv4HeaderTpl UDPProto) ?h (n + UDPHLen))
      with (PutUint16 (S:=S) h 2 (uint16 (20 + uint16 (n + 8)))).
    set (v := uint16 (20 + _)). clearbody v.
    apply (PutUint16_app [x45; x00] [t1; t2]); done.
  - intros raddr n Hr. exists (28 + n), (last4 raddr), (last4 dst). unfold last4.
    rewrite !length_take, !length_drop, Hr, Hd. done.
  - intros raddr n Hr. unfold hdr4, encode_network, last4. autorewrite with len.
    rewrite !(len_take 4) by (unfold len; rewrite length_drop, ?Hr, ?Hd; lia). done.
Qed.

Definition inv6 (h : list byte) : Prop :=
  exists payload b c, length b = 16%nat /\ length c = 16%nat /\
    h = encode_network (IP6 0 0 payload 64 b c) 17.

(** The payload length in the header is the whole packet's: it counts the 40 bytes of
    the IPv6 header, which the field of that name does not. *)
Definition hdr6 (dst raddr : list byte) (n : Z) : list byte :=
  encode_network (IP6 0 0 (48 + n) 64 raddr dst) 17.

#[global] Instance IPv6_tpl (dst : list byte) (Hd : length dst = 16%nat) :
  HeaderTpl (NewIPv6HeaderTpl UDPProto) IPv6HLen dst inv6 (hdr6 dst).
Proof.
  split.
  - intros S s. eexists. split; [vm_compute; reflexivity|].
    exists 0, (replicate 16 x00), (replicate 16 x00). by vm_compute.
  - done.
  - intros S s h raddr n (payload & b & c & Hb & Hc & ->) Hr. unfold hdr6.
    explicit 16 b. explicit 16 c. explicit 16 raddr. explicit 16 dst.
    cbn [encode_network]. rewrite (be_encode2 payload).
    set (t1 := byte_of_Z (payload / 256)). set (t2 := byte_of_Z payload). clearbody t1 t2.
    eexists. split; [vm_compute; reflexivity|].
    rewrite <- (be_encode_uint16 (48 + n)). change 48 with (40 + 8). rewrite <- (uint16_add 40).
    change (ip_SetLen (NewIPv6HeaderTpl UDPProto) ?h (n + UDPHLen))
      with (PutUint16 (S:=S) h 4 (uint16 (40 + uint16 (n + 8)))).
    set (v := uint16 (40 + _)). clearbody v.
    apply (PutUint16_app [x60; x00; x00; x00] [t1; t2]); done.
  - intros raddr n Hr. by exists (48 + n), raddr, dst.
  - intros raddr n Hr. unfold hdr6, encode_network. autorewrite with len.
    unfold len. rewrite Hr, Hd. done.
Qed.

(** ** Theorems *)

(** The packet the sender makes of a message, and whether it fits the buffer. *)
Definition mirror_hlen (dst : list byte) : Z := match To4 dst with Some _ => 20 | None => 40 end.

Definition mirror_packet (dst : list byte) (port : Z) (msg : IPFIXUDPMsg) : list byte :=
  match To4 dst with
  | Some _ => sent (hdr := hdr4 dst) port msg
  | None => sent (hdr := hdr6 dst) port msg
  end.

(** An IPv4 sender cannot take an exporter's address of four bytes. *)
Definition short_addr (dst raddr : list byte) : bool :=
  match To4 dst with Some _ => len raddr <? 16 | None => false end.

(** A message the sender gets from the dispatcher: an address of sixteen bytes, or, for an
    IPv4 sender, of four. *)
Definition mirror_addr (dst raddr : list byte) : Prop :=
  length raddr = 16%nat \/ (length raddr = 4%nat /\ is_Some (To4 dst)).

Definition mirror_ok (dst : list byte) (size : Z) (msg : IPFIXUDPMsg) : bool :=
  negb (short_addr dst (um_raddr msg)) && (mirror_hlen dst + 8 + len (um_body msg) <=? size).

(** C37: the sender, for every sequence of messages from the dispatcher, to a destination in
    the 16-byte form of [net.ParseIP].  It returns at once when the raw socket cannot be
    opened.  While each message with its headers fits the packet buffer, has an exporter's
    address of 16 bytes if the sender is an IPv4 one, and is sent without an error, it gives
    the socket one packet per message, in order, made of that message's headers and body only
    (nothing of the reused buffers' earlier contents shows).  At the first message that does
    not fit, or whose IPv4 address has four bytes (as from a listener bound to an IPv4
    address), a slice bound is violated and the process panics; at the first send that fails,
    the sender returns. *)
Theorem mirrorIPFIX_sends (Send : nat -> list byte -> bool) (dst : list byte) (port size : Z)
    (pre : list IPFIXUDPMsg) (s : MirrorState) (Hd : length dst = 16%nat) (Hz : 0 <= size)
    (Hm : Forall (fun msg => mirror_addr dst (um_raddr msg)) pre)
    (Hs : forall i msg, pre !! i = Some msg ->
       mirror_ok dst size msg = true /\ Send i (mirror_packet dst port msg) = true) :
  (forall msgs, mirrorIPFIX false Send dst port size msgs s = (s, Ok ([], ConnError))) /\
  (mirrorIPFIX true Send dst port size pre s).2 = Ok (map (mirror_packet dst port) pre, AtChannel) /\
  forall msg post, mirror_addr dst (um_raddr msg) ->
    (mirror_ok dst size msg = false -> (mirrorIPFIX true Send dst port size (pre ++ msg :: post) s).2 = Panic) /\
    (mirror_ok dst size msg = true -> Send (length pre) (mirror_packet dst port msg) = false ->
     (mirrorIPFIX true Send dst port size (pre ++ msg :: post) s).2 =
       Ok (map (mirror_packet dst port) (pre ++ [msg]), SendError)).
Proof.
  split; [done|]. unfold mirrorIPFIX, mirror_ok, mirror_packet, mirror_hlen, short_addr, mirror_addr in *. cbn [negb].
  destruct (To4 dst) as [d4|].
  - pose proof (IPv4_tpl dst Hd). cbn [negb andb] in *.
    apply (mirror_runs (NewIPv4HeaderTpl UDPProto) 20 dst port size
      (fun a => length a = 16%nat \/ length a = 4%nat /\ is_Some (Some d4)) (fun a => len a <? 16)); try done.
    + intros a [Ha|[Ha _]] Hb%Z.ltb_ge; [done|]. unfold len in Hb. lia.
    + intros S s' h a _ Ha%Z.ltb_lt. cbn [ip_SetAddrs IPv4_IP]. unfold IPv4_SetAddrs, mbind, M_bind.
      by rewrite slice_panic by lia.
  - pose proof (IPv6_tpl dst Hd). cbn [negb andb] in *.
    apply (mirror_runs (NewIPv6HeaderTpl UDPProto) 40 dst port size
      (fun a => length a = 16%nat \/ length a = 4%nat /\ is_Some None) (fun a => false)); try done.
    intros a [Ha|[_ [x Hx]]] _; [done|]. discriminate.
Qed.

(** Two messages; one that does not fit; an exporter's address of four bytes; a send that
    fails. *)
Lemma mirrorIPFIX_sends_witness :
  let dst := bytes [0;0;0;0;0;0;0;0;0;0;255;255;192;0;2;9] in
  let src := bytes [0;0;0;0;0;0;0;0;0;0;255;255;192;0;2;1] in
  let msg := mkUDPMsg src (bytes [1; 2; 3; 4]) in
  let s := mkMirrorState [] [] [] in
  let Send := fun n (_ : list byte) => (n =? 0)%nat in
  (mirrorIPFIX true Send dst 4739 32 [msg] s).2 = Ok ([mirror_packet dst 4739 msg], AtChannel) /\
  (mirrorIPFIX true Send dst 4739 32 [msg; mkUDPMsg src (bytes [1; 2; 3; 4; 5])] s).2 = Panic /\
  (mirrorIPFIX true Send dst 4739 32 [msg; mkUDPMsg (bytes [192; 0; 2; 1]) []] s).2 = Panic /\
  (mirrorIPFIX true Send dst 4739 32 [msg; msg; msg] s).2 =
    Ok ([mirror_packet dst 4739 msg; mirror_packet dst 4739 msg], SendError).
Proof.
  intros dst src msg s Send.
  destruct (mirrorIPFIX_sends Send dst 4739 32 [msg] s) as (_ & H1 & H2).
  - reflexivity.
  - lia.
  - repeat constructor.
  - intros [|i] m Hi; [|discriminate]. injection Hi as <-. split; reflexivity.
  - split; [exact H1|]. split; [|split].
    + apply (H2 (mkUDPMsg src (bytes [1; 2; 3; 4; 5])) []); [by left|reflexivity].
    + apply (H2 (mkUDPMsg (bytes [192; 0; 2; 1]) []) []); [|reflexivity]. right. split; [reflexivity|]. by eexists.
    + apply (H2 msg [msg]); [by left|reflexivity|reflexivity].
Defined.

Lemma l4_udp port n body p l :
  u16_ok port -> l3_proto l = 17 ->
  decodeNextLayer (with_l3 p l (udp_hdr port n ++ body)) =
    (mkPacket (L2 p) (Some l) (Some (L4_UDP (mkUDPHeader 55117 port))) body, Ok tt).
Proof.
  intros Hp Hl. rewrite decodeNextLayer_eq. cbn [L3 with_l3 pdata]. unfold udp_hdr.
  by rewrite Hl, (layer4_encode (UDP 55117 port (8 + n) 0)).
Qed.

Lemma length_last4 a : length a = 16%nat -> length (last4 a) = 4%nat.
Proof. intros H. unfold last4. by rewrite length_take, length_drop, H. Qed.

(** A mirrored IPv4 packet is what a dissector makes of it: read as an IPv4 packet, it
    has the original sender's and the mirror's addresses, the total length of the packet,
    ports 55117 and the mirror's, and the received datagram as its payload. *)
Theorem mirror_packet_v4 (dst : list byte) (d4 : list byte) (port : Z) (msg : IPFIXUDPMsg)
    (Hd : length dst = 16%nat) (Ht : To4 dst = Some d4) (Hr : length (um_raddr msg) = 16%nat)
    (Hp : 0 <= port < 65536) (Hl : len (um_body msg) <= 65507) :
  Decoder (mirror_packet dst port msg) 11 NewPacket =
    (mkPacket zeroDatalink
       (Some (L3_IPv4 (mkIPv4Header 4 0 (len (mirror_packet dst port msg)) 0 0 0 64 17 0
                         (IP_String (last4 (um_raddr msg))) (IP_String (last4 dst)))))
       (Some (L4_UDP (mkUDPHeader 55117 port))) (um_body msg), Ok tt).
Proof.
  unfold mirror_packet. rewrite Ht. unfold sent.
  set (n := len (um_body msg)) in *. pose proof (len_nonneg (um_body msg)).
  assert (len (hdr4 dst (um_raddr msg) n ++ udp_hdr port n ++ um_body msg) = 28 + n) as ->.
  { pose proof (IPv4_tpl dst Hd). rewrite !len_app, len_udp_hdr, tpl_len by done.
    unfold n, IPv4HLen. lia. }
  unfold Decoder. rewrite bind_modify. cbn [Z.eqb Pos.eqb headerProtocolEthernet headerProtocolIPv4].
  unfold hdr4. erewrite bind_run; [|eapply decodeIPv4_encode; [| |reflexivity]; [|done]].
  - by rewrite l4_udp.
  - unfold network_wf, u8_ok, u16_ok. rewrite !length_last4 by done.
    split_and!; (done || lia || (unfold n in *; lia)).
Qed.

Lemma mirror_packet_v4_witness :
  let dst := bytes [0;0;0;0;0;0;0;0;0;0;255;255;192;0;2;9] in
  let src := bytes [0;0;0;0;0;0;0;0;0;0;255;255;192;0;2;1] in
  let msg := mkUDPMsg src (bytes [1; 2; 3; 4]) in
  To4 dst = Some (bytes [192;0;2;9]) /\
  pdata (Decoder (mirror_packet dst 4739 msg) 11 NewPacket).1 = bytes [1; 2; 3; 4].
Proof.
  intros dst src msg. split; [vm_compute; reflexivity|].
  rewrite (mirror_packet_v4 dst (bytes [192;0;2;9]) 4739 msg);
    [reflexivity|reflexivity|vm_compute; reflexivity|reflexivity|lia|]. by vm_compute.
Defined.

(** A mirrored IPv6 packet announces 40 bytes too many: the dissector reads a payload
    length of the whole packet, header included, instead of what follows the header; and
    its UDP checksum, mandatory for IPv6, is zero. *)
Theorem mirror_packet_v6 (dst : list byte) (port : Z) (msg : IPFIXUDPMsg)
    (Hd : length dst = 16%nat) (Ht : To4 dst = None) (Hr : length (um_raddr msg) = 16%nat)
    (Hp : 0 <= port < 65536) (Hl : len (um_body msg) <= 65487) :
  Decoder (mirror_packet dst port msg) 12 NewPacket =
    (mkPacket zeroDatalink
       (Some (L3_IPv6 (mkIPv6Header 6 0 0 (len (mirror_packet dst port msg)) 17 64
                         (IP_String (um_raddr msg)) (IP_String dst))))
       (Some (L4_UDP (mkUDPHeader 55117 port))) (um_body msg), Ok tt) /\
  take 2 (drop 46 (mirror_packet dst port msg)) = [x00; x00].
Proof.
  unfold mirror_packet. rewrite Ht. unfold sent.
  set (n := len (um_body msg)) in *. pose proof (len_nonneg (um_body msg)).
  assert (len (hdr6 dst (um_raddr msg) n) = 40) as Hh by (pose proof (IPv6_tpl dst Hd); by apply tpl_len).
  split.
  - assert (len (hdr6 dst (um_raddr msg) n ++ udp_hdr port n ++ um_body msg) = 48 + n) as ->.
    { rewrite !len_app, len_udp_hdr, Hh. unfold n. lia. }
    unfold Decoder. rewrite bind_modify.
    cbn [Z.eqb Pos.eqb headerProtocolEthernet headerProtocolIPv4 headerProtocolIPv6].
    unfold hdr6. erewrite bind_run; [|eapply decodeIPv6_encode; [| |reflexivity]; [|done]].
    + by rewrite l4_udp.
    + unfold network_wf, u8_ok, u16_ok. split_and!; (done || lia || (unfold n in *; lia)).
  - replace 46%nat with (length (hdr6 dst (um_raddr msg) n) + 6)%nat by (unfold len in Hh; lia).
    rewrite <- drop_drop, drop_app_length. unfold udp_hdr, encode_transport. rewrite !be_encode2. reflexivity.
Qed.

Lemma mirror_packet_v6_witness :
  let dst := bytes [0x20;1;0x0d;0xb8;0;0;0;0;0;0;0;0;0;0;0;9] in
  let msg := mkUDPMsg (bytes [0x20;1;0x0d;0xb8;0;0;0;0;0;0;0;0;0;0;0;1]) (bytes [1; 2; 3; 4]) in
  To4 dst = None /\ take 2 (drop 46 (mirror_packet dst 4739 msg)) = [x00; x00].
Proof.
  intros dst msg. split; [vm_compute; reflexivity|].
  apply (mirror_packet_v6 dst 4739 msg); [reflexivity|vm_compute; reflexivity|reflexivity|lia|].
  by vm_compute.
Defined.
