(* ===== verification/Collector.v ===== *)
(** The IPFIX collector, [src/vflow/ipfix.go]: the worker that decodes, marshals and
    publishes every received datagram.

    A worker's round is modelled whole: the copy to the mirror queue, [Decode] with the
    shared template cache, the error log, the counter, [JSONMarshal] into the reset
    buffer, and the send to the message queue, which drops the message when the queue is
    full.  The queues are lists bounded by the channels' capacity. *)

From S2P Require Import Prelude GoNet InfoModel Interpret TemplateCache Reader IpfixDecoder IpfixFacts IpfixDecode IpfixMessage Json Marshal MarshalIpfix Mirror.

Local Open Scope string_scope.
Open Scope Z_scope.

(** ** The worker *)

(** The capacity of the channels [ipfixUDPCh], [ipfixMCh] and [ipfixMQCh]. *)
Definition chan_cap : Z := 1000.

(** [select { case ch <- x: default: }]. *)
Definition try_send {A} (x : A) (ch : list A) : list A :=
  if len ch <? chan_cap then (ch ++ [x])%list else ch.

(** The channel after such sends of [xs], nothing being received meanwhile. *)
Definition try_sends {A} (xs ch : list A) : list A := fold_left (fun ch x => try_send x ch) xs ch.

Lemma try_sends_app {A} (xs ys ch : list A) : try_sends (xs ++ ys) ch = try_sends ys (try_sends xs ch).
Proof. apply fold_left_app. Qed.

(** What such sends leave: the first elements that fit. *)
Lemma try_sends_take {A} (xs ch : list A) :
  len ch <= chan_cap -> try_sends xs ch = (ch ++ take (Z.to_nat (chan_cap - len ch)) xs)%list.
Proof.
  unfold try_sends. revert ch. induction xs as [|x xs IH]; intros ch H; cbn [fold_left].
  { by rewrite take_nil, app_nil_r. }
  unfold try_send at 2. destruct (Z.ltb_spec (len ch) chan_cap) as [Hl|Hl].
  - rewrite IH by (rewrite len_app, len_cons, len_nil; lia). rewrite len_app, len_cons, len_nil.
    replace (Z.to_nat (chan_cap - len ch)) with (S (Z.to_nat (chan_cap - (len ch + (1 + 0))))) by lia.
    cbn [take]. by rewrite <- app_assoc.
  - rewrite IH by done. replace (Z.to_nat (chan_cap - len ch)) with 0%nat by lia. done.
Qed.

Section worker.
Context (im : IANAInfoModel) {MC : Type} `{!StoreOps TemplateRecord MC}.
Context (unix_now : nat -> Z) (mirrorEnabled : bool).

Record Collector : Type := mkCollector {
  co_mCache : MC;
  co_rpcChan : list RPCRequest;
  co_clock : nat;
  co_DecodedCount : Z;
  co_MCh : list IPFIXUDPMsg;
  co_MQCh : list string;
  co_log : list GoError
}.

Definition after_decode (d : DecState (MC:=MC)) (c : Collector) : Collector :=
  mkCollector (st_mem d) (st_rpcChan d) (st_clock d) (co_DecodedCount c) (co_MCh c) (co_MQCh c)
    (co_log c).
Definition count_decoded (c : Collector) : Collector :=
  mkCollector (co_mCache c) (co_rpcChan c) (co_clock c) (uint64 (co_DecodedCount c + 1)) (co_MCh c)
    (co_MQCh c) (co_log c).
Definition send_mirror (m : IPFIXUDPMsg) (c : Collector) : Collector :=
  mkCollector (co_mCache c) (co_rpcChan c) (co_clock c) (co_DecodedCount c) (try_send m (co_MCh c))
    (co_MQCh c) (co_log c).
Definition send_mq (b : string) (c : Collector) : Collector :=
  mkCollector (co_mCache c) (co_rpcChan c) (co_clock c) (co_DecodedCount c) (co_MCh c)
    (try_send b (co_MQCh c)) (co_log c).
Definition log_error (e : GoError) (c : Collector) : Collector :=
  mkCollector (co_mCache c) (co_rpcChan c) (co_clock c) (co_DecodedCount c) (co_MCh c) (co_MQCh c)
    (co_log c ++ [e])%list.

(** [d.Decode(mCache)], then [logger.Println(err)]; the message, nil when the header
    could not be decoded. *)
Definition worker_decode (fuel : nat) (msg : IPFIXUDPMsg) : M Collector (option Message) :=
  c ← get;
  let '(d, o) := Decode im (um_raddr msg) unix_now fuel
    (NewDecoder (um_body msg) (co_mCache c) (co_rpcChan c) (co_clock c)) in
  modify (after_decode d);;
  match o with
  | Ok m => mret (Some m)
  | Err v e => modify (log_error e);; mret v
  | Panic => panic
  | NoFuel => nofuel
  end.

(** [decodedMsg.JSONMarshal(buf)] with the buffer reset, then the send. *)
Definition worker_publish (m : Message) : M Collector () :=
  if len (msg_DataSets m) >? 0 then
    match (JSONMarshal m "").2 with
    | Ok b => modify (send_mq b)
    | Err _ e => modify (log_error e)
    | Panic => panic
    | NoFuel => nofuel
    end
  else mret tt.

Definition ipfixWorker_round (fuel : nat) (msg : IPFIXUDPMsg) : M Collector () :=
  (if mirrorEnabled then modify (send_mirror msg) else mret tt);;
  o ← worker_decode fuel msg;
  match o with
  | None => mret tt
  | Some m => modify count_decoded;; worker_publish m
  end.

(** The loop, on the messages of the queue until it is closed. *)
Fixpoint ipfixWorker (fuel : nat) (msgs : list IPFIXUDPMsg) : M Collector () :=
  match msgs with
  | [] => mret tt
  | msg :: msgs' => ipfixWorker_round fuel msg;; ipfixWorker fuel msgs'
  end.

(** The channels [ipfixMCh] and [ipfixMQCh] are shared with the other workers, which fill
    them, and with the producer and the mirror, which empty them.  So that a worker can be
    followed whatever the others do, the same loop that records what the worker offers the
    two channels in its [select]s, one round after the other. *)
Definition no_offers (c : Collector) : Collector :=
  mkCollector (co_mCache c) (co_rpcChan c) (co_clock c) (co_DecodedCount c) [] [] (co_log c).

Record Offers : Type := mkOffers { of_MQCh : list string; of_MCh : list IPFIXUDPMsg }.

Definition add_offers (o : Offers) (c : Collector) : Offers :=
  mkOffers (of_MQCh o ++ co_MQCh c) (of_MCh o ++ co_MCh c).

Fixpoint ipfixWorker_offers (fuel : nat) (msgs : list IPFIXUDPMsg) (o : Offers) : M Collector Offers :=
  match msgs with
  | [] => mret o
  | msg :: msgs' =>
      modify no_offers;; ipfixWorker_round fuel msg;; c ← get;
      ipfixWorker_offers fuel msgs' (add_offers o c)
  end.

End worker.

(** ** What the worker does *)

Section worker_facts.
Context (im : IANAInfoModel) {MC : Type} `{!TemplateStore TemplateRecord MC}.
Context (unix_now : nat -> Z) (mirrorEnabled : bool).

(** *** Any input *)

Definition collector_ok (c : Collector (MC:=MC)) : Prop :=
  cache_ok (co_mCache c) /\ len (co_MCh c) <= chan_cap /\ len (co_MQCh c) <= chan_cap /\
  0 <= co_DecodedCount c < 2 ^ 64.

Lemma len_try_send {A} (x : A) ch : len ch <= chan_cap -> len (try_send x ch) <= chan_cap.
Proof.
  intros H. unfold try_send. destruct (Z.ltb_spec (len ch) chan_cap); [|done].
  rewrite len_app, len_cons, len_nil. lia.
Qed.

Lemma safe_worker_decode fuel msg : safe collector_ok (fun _ => True) (worker_decode im unix_now fuel msg).
Proof.
  intros c (Hc & Hm & Hq & Hn). unfold worker_decode. rewrite bind_get.
  pose proof (Decode_safe im (um_raddr msg) unix_now fuel (um_body msg) (co_mCache c)
    (co_rpcChan c) (co_clock c) Hc) as [Hd Hp].
  destruct (Decode _ _ _ _ _) as [d o]. rewrite bind_modify. cbn [fst snd] in *.
  assert (collector_ok (after_decode d c)) by done.
  destruct o; try done; by unmonad.
Qed.

Lemma safe_worker_publish m : safe collector_ok (fun _ => True) (worker_publish m).
Proof.
  intros c Hc. unfold worker_publish. destruct (_ >? 0); [|done]. rewrite JSONMarshal_run.
  destruct Hc as (H1 & H2 & H3 & H4).
  destruct (last_err _ _); unmonad; (split; [|done]); split_and!;
    first [done | by apply len_try_send | apply H4].
Qed.

Lemma safe_ipfixWorker_round fuel msg :
  safe collector_ok (fun _ => True) (ipfixWorker_round im unix_now mirrorEnabled fuel msg).
Proof.
  unfold ipfixWorker_round. apply (safe_bind _ (fun _ => True)).
  { destruct mirrorEnabled; [|by apply safe_ret]. apply safe_modify.
    intros c (? & ? & ? & [? ?]). split_and!; first [done | by apply len_try_send]. }
  intros _ _. apply (safe_bind _ (fun _ => True)); [apply safe_worker_decode|]. intros [m|] _.
  - apply (safe_bind _ (fun _ => True)); [|intros _ _; apply safe_worker_publish].
    apply safe_modify. intros c (? & ? & ? & ?). split_and!; try done; apply (wrapU_range 64); lia.
  - by apply safe_ret.
Qed.

Lemma safe_ipfixWorker fuel msgs : safe collector_ok (fun _ => True) (ipfixWorker im unix_now mirrorEnabled fuel msgs).
Proof.
  induction msgs as [|msg msgs IH]; [by apply safe_ret|]. cbn [ipfixWorker].
  apply (safe_bind _ (fun _ => True)); [apply safe_ipfixWorker_round|by intros].
Qed.

Lemma no_offers_ok (c : Collector (MC:=MC)) : collector_ok c -> collector_ok (no_offers c).
Proof. intros (? & ? & ? & [? ?]). by split_and!. Qed.

(** *** The worker and its offers *)

(** The channels of [c], where those of [c'] are offered. *)
Definition with_offers (q : list string) (mch : list IPFIXUDPMsg) (c' : Collector (MC:=MC)) : Collector (MC:=MC) :=
  mkCollector (co_mCache c') (co_rpcChan c') (co_clock c') (co_DecodedCount c')
    (try_sends (co_MCh c') mch) (try_sends (co_MQCh c') q) (co_log c').

Lemma round_offers fuel msg (c : Collector (MC:=MC)) :
  let r := ipfixWorker_round im unix_now mirrorEnabled fuel msg (no_offers c) in
  ipfixWorker_round im unix_now mirrorEnabled fuel msg c = (with_offers (co_MQCh c) (co_MCh c) r.1, r.2).
Proof.
  unfold ipfixWorker_round, worker_decode, worker_publish. destruct mirrorEnabled; unmonad;
    (destruct (Decode _ _ _ _ _) as [d [m|[m|] e| |]]); try done; cbn;
    destruct (_ >? 0); try done; rewrite JSONMarshal_run; by destruct (last_err _ _).
Qed.

Lemma worker_offers_from fuel msgs (c c' : Collector (MC:=MC)) (o : Offers) q mch :
  no_offers c = no_offers c' -> co_MQCh c = try_sends (of_MQCh o) q -> co_MCh c = try_sends (of_MCh o) mch ->
  let r := ipfixWorker im unix_now mirrorEnabled fuel msgs c in
  let r' := ipfixWorker_offers im unix_now mirrorEnabled fuel msgs o c' in
  no_offers r.1 = no_offers r'.1 /\
  match r'.2 with
  | Ok o' => r.2 = Ok tt /\ co_MQCh r.1 = try_sends (of_MQCh o') q /\ co_MCh r.1 = try_sends (of_MCh o') mch
  | Err _ e => r.2 = Err None e
  | Panic => r.2 = Panic
  | NoFuel => r.2 = NoFuel
  end.
Proof.
  revert c c' o. induction msgs as [|msg msgs IH]; intros c c' o Hc Hq Hm; [done|].
  cbn [ipfixWorker ipfixWorker_offers]. rewrite bind_modify. unfold mbind, M_bind. rewrite (round_offers fuel msg c), Hc.
  destruct (ipfixWorker_round _ _ _ _ _ (no_offers c')) as [c2 [[]|v e| |]]; cbn [fst snd]; try done.
  apply IH; [done|..]; cbn [with_offers add_offers co_MQCh co_MCh of_MQCh of_MCh]; by rewrite try_sends_app, ?Hq, ?Hm.
Qed.

(** The worker on its channels, nothing being received meanwhile, is the recording one
    with its offers sent to the channels. *)
Lemma worker_offers fuel msgs (c : Collector (MC:=MC)) :
  let r := ipfixWorker im unix_now mirrorEnabled fuel msgs c in
  let r' := ipfixWorker_offers im unix_now mirrorEnabled fuel msgs (mkOffers [] []) c in
  no_offers r.1 = no_offers r'.1 /\
  match r'.2 with
  | Ok o => r.2 = Ok tt /\ co_MQCh r.1 = try_sends (of_MQCh o) (co_MQCh c) /\
            co_MCh r.1 = try_sends (of_MCh o) (co_MCh c)
  | Err _ e => r.2 = Err None e
  | Panic => r.2 = Panic
  | NoFuel => r.2 = NoFuel
  end.
Proof. by apply worker_offers_from. Qed.

(** A worker survives every sequence of datagrams: whatever bytes arrive from whatever
    addresses, no round panics, the template cache stays well-formed, and neither queue
    grows beyond its capacity. *)
Theorem ipfixWorker_safe (fuel : nat) (msgs : list IPFIXUDPMsg) (c : Collector (MC:=MC))
    (Hc : collector_ok c) :
  collector_ok (ipfixWorker im unix_now mirrorEnabled fuel msgs c).1 /\ (ipfixWorker im unix_now mirrorEnabled fuel msgs c).2 <> Panic.
Proof.
  destruct (safe_ipfixWorker fuel msgs c Hc) as [H1 H2]. split; [done|]. by destruct (_).2.
Qed.

(** *** Streams of IPFIX messages *)

(** A datagram that encodes a message, with the exporter it comes from. *)
Record datagram : Type := mkDatagram {
  dg_raddr : list byte; dg_header : MessageHeader; dg_sets : list wire_set; dg_trail : list byte
}.

Definition datagram_msg (d : datagram) : IPFIXUDPMsg :=
  mkUDPMsg (dg_raddr d) (encode_message (dg_header d) (dg_sets d) ++ dg_trail d).

(** What a datagram means when the templates [env] are known and [q] is requested. *)
Definition sem_datagram (d : datagram) (env : gmap Z TemplateRecord) (q : list RPCRequest) : sem_state :=
  sem_sets im (dg_raddr d) (dg_sets d) (mkSem env [] [] q).

Definition message_of_datagram (d : datagram) (g : sem_state) : Message :=
  mkMessage (IP_String (dg_raddr d)) (dg_header d) (sem_data g).

(** The messages of a stream and the templates known at its end: each datagram is read
    with the templates announced so far. *)
Fixpoint sem_stream (ds : list datagram) (env : gmap Z TemplateRecord) (q : list RPCRequest) :
    list Message * gmap Z TemplateRecord :=
  match ds with
  | [] => ([], env)
  | d :: ds' =>
      let g := sem_datagram d env q in
      let '(ms, env') := sem_stream ds' (sem_env g) (sem_rpc g) in
      (message_of_datagram d g :: ms, env')
  end.

Fixpoint stream_wf (fuel : nat) (ds : list datagram) (env : gmap Z TemplateRecord)
    (q : list RPCRequest) : Prop :=
  match ds with
  | [] => True
  | d :: ds' =>
      let g := sem_datagram d env q in
      (header_wf (dg_header d) /\ len (dg_trail d) <= 4 /\
       sets_wf im (dg_raddr d) (dg_sets d) (mkSem env [] [] q) /\
       len (encode_message (dg_header d) (dg_sets d)) < Z.of_nat fuel /\
       Forall (Forall marshalable_field) (sem_data g)) /\
      stream_wf fuel ds' (sem_env g) (sem_rpc g)
  end.

Definition has_data (m : Message) : bool := len (msg_DataSets m) >? 0.

Lemma marshalable_of_datagram d g :
  header_wf (dg_header d) -> Forall (Forall marshalable_field) (sem_data g) ->
  marshalable_message (message_of_datagram d g).
Proof.
  intros (H1 & H2 & H3 & H4 & H5) Hd. split; [apply all_plain_IP|]. split; [|done].
  cbn [message_of_datagram msg_Header]. unfold int64_range. repeat constructor; lia.
Qed.

Lemma worker_publish_text m (c : Collector (MC:=MC)) :
  marshalable_message m -> len (co_MQCh c) < chan_cap ->
  exists c', worker_publish m c = (c', Ok tt) /\
    co_MQCh c' = (co_MQCh c ++ (if has_data m then [message_text m] else []))%list /\
    co_mCache c' = co_mCache c /\ co_rpcChan c' = co_rpcChan c /\
    co_DecodedCount c' = co_DecodedCount c.
Proof.
  intros Hm Hq. unfold worker_publish, has_data. destruct (len (msg_DataSets m) >? 0).
  - rewrite JSONMarshal_run, last_err_marshalable.
    + eexists. split; [done|]. cbn [co_MQCh send_mq]. unfold try_send.
      destruct (Z.ltb_spec (len (co_MQCh c)) chan_cap); [done|lia].
    + destruct Hm as (_ & _ & Hd). by apply Forall_concat.
  - exists c. by rewrite app_nil_r.
Qed.

Lemma ipfixWorker_round_message fuel d env (c : Collector (MC:=MC)) :
  header_wf (dg_header d) -> len (dg_trail d) <= 4 -> cache_repr env (co_mCache c) ->
  sets_wf im (dg_raddr d) (dg_sets d) (mkSem env [] [] (co_rpcChan c)) ->
  len (encode_message (dg_header d) (dg_sets d)) < Z.of_nat fuel ->
  Forall (Forall marshalable_field) (sem_data (sem_datagram d env (co_rpcChan c))) ->
  len (co_MQCh c) < chan_cap ->
  let g := sem_datagram d env (co_rpcChan c) in
  let m := message_of_datagram d g in
  exists c', ipfixWorker_round im unix_now mirrorEnabled fuel (datagram_msg d) c = (c', Ok tt) /\
    co_MQCh c' = (co_MQCh c ++ (if has_data m then [message_text m] else []))%list /\
    cache_repr (sem_env g) (co_mCache c') /\ co_rpcChan c' = sem_rpc g /\
    co_DecodedCount c' = uint64 (co_DecodedCount c + 1).
Proof.
  intros Hh Ht Hm Hs Hf Hd Hq g m. unfold ipfixWorker_round.
  set (c1 := if mirrorEnabled then send_mirror (datagram_msg d) c else c).
  assert (forall A (k : M (Collector (MC:=MC)) A),
    ((if mirrorEnabled then modify (send_mirror (datagram_msg d)) else mret tt);; k) c = k c1) as ->
    by (intros A k; unfold c1; by destruct mirrorEnabled).
  assert (co_mCache c1 = co_mCache c /\ co_rpcChan c1 = co_rpcChan c /\ co_MQCh c1 = co_MQCh c /\
    co_DecodedCount c1 = co_DecodedCount c) as (E1 & E2 & E3 & E4) by (unfold c1; by destruct mirrorEnabled).
  destruct (Decode_message im (dg_raddr d) unix_now (dg_header d) (dg_sets d) (dg_trail d) env
    (co_mCache c1) (co_rpcChan c1) (co_clock c1) fuel) as (s' & E & Hc & Hr & _); try done;
    [by rewrite E1|by rewrite E2|]. rewrite E2 in *. fold (sem_datagram d env (co_rpcChan c)) in *.
  fold g in E, Hc, Hr. fold (message_of_datagram d g) in E. fold m in E.
  assert (exists c2, worker_decode im unix_now fuel (datagram_msg d) c1 = (c2, Ok (Some m)) /\
    co_mCache c2 = st_mem s' /\ co_rpcChan c2 = st_rpcChan s' /\ co_MQCh c2 = co_MQCh c /\
    co_DecodedCount c2 = co_DecodedCount c) as (c2 & Ed & F1 & F2 & F3 & F4).
  { unfold worker_decode. rewrite bind_get, E2. cbn [datagram_msg um_raddr um_body]. rewrite E.
    rewrite bind_modify. destruct (combineErrors _); unmonad; eexists; (split; [reflexivity|]);
      cbn [after_decode log_error co_mCache co_rpcChan co_MQCh co_DecodedCount]; by rewrite E3, E4. }
  rewrite (bind_run Ed), bind_modify.
  destruct (worker_publish_text m (count_decoded c2)) as (c' & Ep & G1 & G2 & G3 & G4).
  - by apply marshalable_of_datagram.
  - cbn [count_decoded co_MQCh]. by rewrite F3.
  - exists c'. split; [done|]. cbn [count_decoded co_MQCh co_mCache co_rpcChan co_DecodedCount] in *.
    rewrite G1, G2, G3, G4, F1, F2, F3, F4. done.
Qed.

Lemma sem_stream_marshalable fuel ds env q :
  stream_wf fuel ds env q -> Forall marshalable_message (sem_stream ds env q).1.
Proof.
  revert env q. induction ds as [|d ds IH]; intros env q; [constructor|].
  cbn [stream_wf sem_stream]. intros [(H1 & _ & _ & _ & H5) Hwf]. specialize (IH _ _ Hwf).
  destruct (sem_stream _ _ _) as [ms env']. constructor; [by apply marshalable_of_datagram|done].
Qed.

(** The texts themselves. *)
Lemma ipfixWorker_texts (fuel : nat) (ds : list datagram) (env : gmap Z TemplateRecord)
    (c : Collector (MC:=MC)) :
  stream_wf fuel ds env (co_rpcChan c) -> cache_repr env (co_mCache c) ->
  len (co_MQCh c) + len ds <= chan_cap -> 0 <= co_DecodedCount c < 2 ^ 64 ->
  exists c',
    ipfixWorker im unix_now mirrorEnabled fuel (map datagram_msg ds) c = (c', Ok tt) /\
    co_MQCh c' =
      (co_MQCh c ++ map message_text (List.filter has_data (sem_stream ds env (co_rpcChan c)).1))%list /\
    cache_repr (sem_stream ds env (co_rpcChan c)).2 (co_mCache c') /\
    co_DecodedCount c' = uint64 (co_DecodedCount c + len ds).
Proof.
  revert env c. induction ds as [|d ds IH]; intros env c Hwf Hm Hq Hn.
  { exists c. cbn. rewrite app_nil_r, Z.add_0_r, (wrapU_small 64) by done. done. }
  destruct Hwf as [(H1 & H2 & H3 & H4 & H5) Hwf]. rewrite len_cons in Hq. pose proof (len_nonneg ds).
  destruct (ipfixWorker_round_message fuel d env c) as (c1 & E & F1 & F2 & F3 & F4); try done; [lia|].
  set (g := sem_datagram d env (co_rpcChan c)) in *. set (m := message_of_datagram d g) in *.
  destruct (IH (sem_env g) c1) as (c' & E' & G1 & G2 & G3).
  - by rewrite F3.
  - done.
  - rewrite F1, len_app. destruct (has_data m); rewrite ?len_cons, ?len_nil; lia.
  - rewrite F4. apply (wrapU_range 64). lia.
  - exists c'. cbn [map ipfixWorker sem_stream]. rewrite (bind_run E). split; [done|].
    fold g m. rewrite F3 in *. destruct (sem_stream ds (sem_env g) (sem_rpc g)) as [ms env']. cbn [fst snd] in *.
    split; [|split; [done|]].
    + rewrite G1, F1, <- app_assoc. f_equal. cbn [List.filter]. by destruct (has_data m).
    + rewrite G3, F4, len_cons. unfold wrapU. rewrite Zplus_mod_idemp_l. f_equal. lia.
Qed.

(** What it offers, whatever the channels. *)
Lemma ipfixWorker_offered (fuel : nat) (ds : list datagram) (env : gmap Z TemplateRecord)
    (c : Collector (MC:=MC)) (o : Offers) :
  stream_wf fuel ds env (co_rpcChan c) -> cache_repr env (co_mCache c) -> 0 <= co_DecodedCount c < 2 ^ 64 ->
  exists c' o',
    ipfixWorker_offers im unix_now mirrorEnabled fuel (map datagram_msg ds) o c = (c', Ok o') /\
    of_MQCh o' =
      (of_MQCh o ++ map message_text (List.filter has_data (sem_stream ds env (co_rpcChan c)).1))%list /\
    cache_repr (sem_stream ds env (co_rpcChan c)).2 (co_mCache c') /\
    co_DecodedCount c' = uint64 (co_DecodedCount c + len ds).
Proof.
  revert env c o. induction ds as [|d ds IH]; intros env c o Hwf Hm Hn.
  { exists c, o. cbn. rewrite app_nil_r, Z.add_0_r, (wrapU_small 64) by done. done. }
  destruct Hwf as [(H1 & H2 & H3 & H4 & H5) Hwf].
  destruct (ipfixWorker_round_message fuel d env (no_offers c)) as (c1 & E & F1 & F2 & F3 & F4); try done.
  cbn [no_offers co_rpcChan co_MQCh co_DecodedCount] in *.
  set (g := sem_datagram d env (co_rpcChan c)) in *. set (m := message_of_datagram d g) in *.
  destruct (IH (sem_env g) c1 (add_offers o c1)) as (c' & o' & E' & G1 & G2 & G3).
  - by rewrite F3.
  - done.
  - rewrite F4. apply (wrapU_range 64). lia.
  - exists c', o'. cbn [map ipfixWorker_offers sem_stream]. rewrite bind_modify, (bind_run E), bind_get.
    split; [done|]. fold g m. rewrite F3 in *.
    destruct (sem_stream ds (sem_env g) (sem_rpc g)) as [ms env']. cbn [fst snd] in *. split; [|split; [done|]].
    + rewrite G1. cbn [add_offers of_MQCh]. rewrite F1, <- app_assoc. f_equal. cbn [List.filter]. by destruct (has_data m).
    + rewrite G3, F4, len_cons. unfold wrapU. rewrite Zplus_mod_idemp_l. f_equal. lia.
Qed.

(** The texts parse to the messages. *)
Lemma stream_texts_parse fuel ds env q :
  stream_wf fuel ds env q ->
  map parse_json (map message_text (List.filter has_data (sem_stream ds env q).1)) =
    map (fun m => Some (json_message m)) (List.filter has_data (sem_stream ds env q).1).
Proof.
  intros Hwf. rewrite map_map. apply map_ext_in. intros m [Hin _]%filter_In.
  pose proof (sem_stream_marshalable fuel ds env _ Hwf) as Hall. rewrite List.Forall_forall in Hall.
  pose proof (Hall m Hin). rewrite message_text_print by done. by apply parse_json_print, json_message_safe.
Qed.

(** What a worker publishes.  For every stream of datagrams that encode well-formed
    messages with marshalable fields, from any exporters, the worker counts every message
    and publishes, in order, one JSON text per message that has records; each text
    parses to the JSON object of that message as the wire format means it, read with the
    templates known when it arrived.  At the end the cache holds the announced
    templates. *)
Theorem ipfixWorker_publishes (fuel : nat) (ds : list datagram) (env : gmap Z TemplateRecord)
    (c : Collector (MC:=MC))
    (Hwf : stream_wf fuel ds env (co_rpcChan c)) (Hm : cache_repr env (co_mCache c))
    (Hq : len (co_MQCh c) + len ds <= chan_cap) (Hn : 0 <= co_DecodedCount c < 2 ^ 64) :
  exists c' texts,
    ipfixWorker im unix_now mirrorEnabled fuel (map datagram_msg ds) c = (c', Ok tt) /\
    co_MQCh c' = (co_MQCh c ++ texts)%list /\
    map parse_json texts =
      map (fun m => Some (json_message m)) (List.filter has_data (sem_stream ds env (co_rpcChan c)).1) /\
    cache_repr (sem_stream ds env (co_rpcChan c)).2 (co_mCache c') /\
    co_DecodedCount c' = uint64 (co_DecodedCount c + len ds).
Proof.
  destruct (ipfixWorker_texts fuel ds env c Hwf Hm Hq Hn) as (c' & E & H1 & H2 & H3).
  exists c', (map message_text (List.filter has_data (sem_stream ds env (co_rpcChan c)).1)).
  split_and!; try done. by apply (stream_texts_parse fuel).
Qed.

End worker_facts.

(** ** Examples *)

Definition fresh_collector : Collector (MC:=MemCache TemplateRecord) :=
  mkCollector (GetCache None) [] 0 0 [] [] [].

Lemma collector_ok_fresh : collector_ok fresh_collector.
Proof. split; [apply cache_ok_fresh|]. by split_and!. Qed.

Lemma ipfixWorker_safe_witness :
  (ipfixWorker InfoModel (fun _ => 0) true 20
     [mkUDPMsg (bytes [192; 0; 2; 1]) (bytes [0; 9; 255])] fresh_collector).2 <> Panic.
Proof. apply (ipfixWorker_safe InfoModel (fun _ => 0) true). apply collector_ok_fresh. Defined.

(** An exporter that announces a template, then sends two records of it. *)
Definition example_stream : list datagram :=
  [mkDatagram (bytes [192; 0; 2; 1]) example_header [WTemplates [example_template] 0] [];
   mkDatagram (bytes [192; 0; 2; 1]) example_header
     [WData 256 [bytes [192; 0; 2; 1; 6; 0; 0; 0; 0; 0; 0; 16; 0];
                 bytes [192; 0; 2; 2; 17; 0; 0; 0; 0; 0; 0; 0; 80]]] (bytes [0])].

(** An announcement followed by records of the announced template is well-formed. *)
Ltac stream_wf_example :=
  split; [|split; [|exact I]]; (split; [done|]); (split; [done|]); (split; [|split; [done|]]);
  [ refine (conj _ I); split; [done|]; split; [done|]; repeat constructor; try done; by left
  | constructor
  | refine (conj _ I); split; [done|]; split; [done|]; intros tr Htr; vm_compute in Htr;
    injection Htr as <-; split; [done|]; by repeat constructor
  | match goal with |- Forall _ ?l =>
      let l' := eval vm_compute in l in replace l with l' by (vm_compute; reflexivity) end;
    repeat constructor; done ].

Lemma example_stream_wf : stream_wf InfoModel 100 example_stream ∅ [].
Proof. stream_wf_example. Qed.

Lemma ipfixWorker_publishes_witness :
  exists c' texts,
    ipfixWorker InfoModel (fun _ => 0) false 100 (map datagram_msg example_stream) fresh_collector
      = (c', Ok tt) /\
    co_MQCh c' = texts /\ length texts = 1%nat /\ co_DecodedCount c' = 2.
Proof.
  destruct (ipfixWorker_publishes InfoModel (fun _ => 0) false 100 example_stream ∅ fresh_collector)
    as (c' & texts & E & Hq & Ht & _ & Hn).
  - apply example_stream_wf.
  - apply cache_repr_fresh.
  - done.
  - done.
  - exists c', texts. split; [exact E|]. split; [exact Hq|]. split; [|by rewrite Hn].
    apply (f_equal length) in Ht. rewrite !length_map in Ht. rewrite Ht. vm_compute. reflexivity.
Defined.
