(* ===== verification/MQRuns.v ===== *)
(** The channel between the workers and the producer: [ipfixMQCh], [netflowV9MQCh] and
    [sFlowMQCh] of [src/vflow/].  The workers offer what they publish and go on when the
    channel is full ([select { case ipfixMQCh <- b: default: }]); the loop of [inputMsg] of
    [src/producer/] takes it out at the same time.  Nothing closes the channel: [Shutdown]
    of [src/producer/producer.go] is never called. *)

From S2P Require Import Prelude Collector Totals.

Open Scope Z_scope.

#[local] Arguments total : simpl never.

Record Publishing (A : Type) : Type := mkPublishing {
  pb_todo : list (list A);     (* what each worker is to publish, in order *)
  pb_ch : list A;              (* ipfixMQCh *)
  pb_taken : list A;           (* received by the loop of inputMsg *)
  pb_dropped : list A
}.
Arguments mkPublishing {A}.
Arguments pb_todo {A} p. Arguments pb_ch {A} p. Arguments pb_taken {A} p. Arguments pb_dropped {A} p.

Inductive pub_label : Type := Publishes (w : nat) | Produces.

Section publishing.
Context {A : Type}.

Definition pub_start (texts : list (list A)) : Publishing A := mkPublishing texts [] [] [].

(** The [select] of a worker. *)
Definition offer (x : A) (p : Publishing A) : Publishing A :=
  if len (pb_ch p) <? chan_cap
  then mkPublishing (pb_todo p) (pb_ch p ++ [x]) (pb_taken p) (pb_dropped p)
  else mkPublishing (pb_todo p) (pb_ch p) (pb_taken p) (pb_dropped p ++ [x]).

Definition pub_step (l : pub_label) (p : Publishing A) : option (Publishing A) :=
  match l with
  | Publishes w =>
      match pb_todo p !! w with
      | Some (x :: xs) =>
          Some (offer x (mkPublishing (<[w := xs]> (pb_todo p)) (pb_ch p) (pb_taken p) (pb_dropped p)))
      | _ => None
      end
  | Produces =>
      match pb_ch p with
      | x :: q => Some (mkPublishing (pb_todo p) q (pb_taken p ++ [x]) (pb_dropped p))
      | [] => None
      end
  end.

(** Everything is in one place; each worker publishes in its order; a text is dropped only
    after a thousand others. *)
Record pub_inv (texts : list (list A)) (p : Publishing A) : Prop := {
  pb_where : forall f : A -> Z, total (total f) texts =
    total (total f) (pb_todo p) + total f (pb_ch p) + total f (pb_taken p) + total f (pb_dropped p);
  pb_cap : len (pb_ch p) <= chan_cap;
  pb_drop : pb_dropped p <> [] -> chan_cap <= len (pb_ch p) + len (pb_taken p)
}.

Lemma pub_inv_start texts : pub_inv texts (pub_start texts).
Proof. split; cbn; [intros f; unfold total; cbn; lia|unfold chan_cap; change (len []) with 0; lia|done]. Qed.

Lemma pub_inv_step texts l p p' : pub_inv texts p -> pub_step l p = Some p' -> pub_inv texts p'.
Proof.
  intros [H1 H2 H3] E. destruct p as [todo ch taken dropped]. cbn in *. destruct l as [w|]; cbn in E.
  - destruct (todo !! w) as [[|x xs]|] eqn:Ew; try done. injection E as <-. unfold offer. cbn.
    assert (forall f, total (total f) (<[w := xs]> todo) = total (total f) todo - f x) as Ht.
    { intros f. rewrite (total_insert _ _ _ _ _ Ew). unfold total. cbn. lia. }
    destruct (Z.ltb_spec (len ch) chan_cap); split; cbn.
    + intros f. rewrite H1, Ht, total_snoc. lia.
    + rewrite len_app. change (len [x]) with 1. lia.
    + intros Hd. specialize (H3 Hd). rewrite len_app. change (len [x]) with 1. lia.
    + intros f. rewrite H1, Ht, total_snoc. lia.
    + done.
    + intros _. pose proof (len_nonneg taken). lia.
  - destruct ch as [|x q]; [done|]. injection E as <-. rewrite len_cons in *. split; cbn.
    + intros f. rewrite H1, total_snoc. unfold total. cbn. lia.
    + lia.
    + intros Hd. specialize (H3 Hd). rewrite (len_app taken). change (len [x]) with 1. lia.
Qed.

Lemma pub_inv_exec texts ls p : exec_with pub_step ls (pub_start texts) = Some p -> pub_inv texts p.
Proof.
  intros E. eapply (exec_with_inv pub_step (pub_inv texts)); [|apply pub_inv_start|exact E].
  intros l q q'. apply pub_inv_step.
Qed.

(** The texts are in one place each. *)
Lemma pub_places `{!EqDecision A} texts p :
  pub_inv texts p -> Permutation (concat texts) (concat (pb_todo p) ++ pb_ch p ++ pb_taken p ++ pb_dropped p).
Proof.
  intros Hp. apply totals_permutation. intros f. rewrite !total_app, !total_concat, (pb_where _ _ Hp). lia.
Qed.

(** Nothing is dropped while fewer than 1001 texts are published. *)
Lemma pub_no_drop texts p : pub_inv texts p -> len (concat texts) <= chan_cap -> pb_dropped p = [].
Proof.
  intros Hp Hl. destruct (pb_dropped p) as [|x l] eqn:Ed; [done|]. exfalso.
  pose proof (pb_drop _ _ Hp ltac:(by rewrite Ed)) as H. pose proof (pb_where _ _ Hp (fun _ => 1)) as Hw.
  rewrite <- !total_concat, !total_const, Ed, len_cons in Hw. pose proof (len_nonneg l).
  pose proof (len_nonneg (concat (pb_todo p))). lia.
Qed.
End publishing.

(** Publishing the texts of messages is publishing the messages. *)
Section map.
Context {A B : Type} (f : A -> B).

Definition pub_map (p : Publishing A) : Publishing B :=
  mkPublishing (map (map f) (pb_todo p)) (map f (pb_ch p)) (map f (pb_taken p)) (map f (pb_dropped p)).

Lemma pub_step_map l p : pub_step l (pub_map p) = option_map pub_map (pub_step l p).
Proof.
  destruct p as [todo ch taken dropped]. destruct l as [w|]; cbn.
  - rewrite list_lookup_fmap. destruct (todo !! w) as [[|x xs]|] eqn:Ew; try done. cbn.
    unfold offer. cbn. unfold len. rewrite length_map. destruct (_ <? _); unfold pub_map; cbn;
      by rewrite ?map_app, (list_fmap_insert (map f)).
  - destruct ch as [|x q]; [done|]. cbn. unfold pub_map. cbn. by rewrite map_app.
Qed.

Lemma pub_exec_map ls p q :
  exec_with pub_step ls (pub_map p) = Some q -> exists p', exec_with pub_step ls p = Some p' /\ q = pub_map p'.
Proof.
  revert p. induction ls as [|l ls IH]; intros p E; cbn in *; [simplify_eq; eauto|].
  rewrite pub_step_map in E. destruct (pub_step l p) as [p1|]; [|done]. by apply IH.
Qed.
End map.
