(* ===== verification/IpfixWorkers.v ===== *)
(** The workers of the IPFIX collector, several at once: each takes its own datagrams from
    the channel, and they share the template cache.  The interleavings are those of
    Interleave.v, at every access to the cache.

    Nothing a worker reads depends on what the others put into the message queue, the
    mirror queue, the request channel and the counters.  So a worker's program records what
    it offers the two queues and what it adds to the counter ([WorkerOutput]); the message
    queue itself, one channel for all workers with the producer at its other end, is
    [Publishing] of MQRuns.v, fed with these offers in any order the workers' [select]s
    come in. *)

From S2P Require Import Prelude GoNet InfoModel Interpret TemplateCache Interleave Reader Json Marshal IpfixDecoder IpfixFacts IpfixDecode IpfixMessage IpfixShared MarshalIpfix Mirror Collector MQRuns.

Open Scope Z_scope.

(** What a worker leaves besides the templates. *)
Record WorkerOutput : Type := mkWorkerOutput {
  wo_offers : Offers; wo_DecodedCount : Z; wo_log : list GoError
}.

(** The worker's loop on its datagrams, as a program over the cache it shares. *)
Definition ipfixWorker_program (im : IANAInfoModel) (unix_now : nat -> Z) (mirrorEnabled : bool)
    (fuel : nat) (msgs : list IPFIXUDPMsg) : program TemplateRecord WorkerOutput := fun MC O m =>
  let '(c, o) := ipfixWorker_offers im unix_now mirrorEnabled fuel msgs (mkOffers [] [])
    (mkCollector m [] 0 0 [] [] []) in
  (co_mCache c,
   match o with
   | Ok offers => Ok (mkWorkerOutput offers (co_DecodedCount c) (co_log c))
   | Err _ e => Err None e
   | Panic => Panic
   | NoFuel => NoFuel
   end).

(** ** The worker on two stores *)

Section worker_sim.
Context (im : IANAInfoModel) (unix_now : nat -> Z) (mirrorEnabled : bool) (fuel : nat).
Context {MC1 MC2 : Type} (O1 : StoreOps TemplateRecord MC1) (O2 : StoreOps TemplateRecord MC2).
Context (R E : MC1 -> MC2 -> Prop) (HS : store_sim any_addr tr_wf O1 O2 R E).

Definition co_rel (c1 : Collector (MC:=MC1)) (c2 : Collector (MC:=MC2)) : Prop :=
  R (co_mCache c1) (co_mCache c2) /\ co_rpcChan c1 = co_rpcChan c2 /\ co_clock c1 = co_clock c2 /\
  co_DecodedCount c1 = co_DecodedCount c2 /\ co_MCh c1 = co_MCh c2 /\ co_MQCh c1 = co_MQCh c2 /\
  co_log c1 = co_log c2.

Definition co_esc (c1 : Collector (MC:=MC1)) (c2 : Collector (MC:=MC2)) : Prop :=
  E (co_mCache c1) (co_mCache c2).

Lemma stays_co_same {A} (m : M (Collector (MC:=MC2)) A) :
  (forall c, co_mCache (m c).1 = co_mCache c) -> stays co_esc m.
Proof. intros H. apply stays_any. intros c1 c2. unfold co_esc. by rewrite H. Qed.

Lemma sim_co_modify f1 f2 :
  (forall c1 c2, co_rel c1 c2 -> co_rel (f1 c1) (f2 c2)) -> sim co_rel co_esc eq (modify f1) (modify f2).
Proof. apply sim_modify. Qed.

Lemma stays_worker_decode msg : stays co_esc (worker_decode im unix_now fuel msg).
Proof.
  apply stays_any. intros c1 c2 HE. unfold worker_decode. rewrite bind_get.
  pose proof (stays_Decode im O1 O2 any_addr R E HS (um_raddr msg) unix_now fuel
    (NewDecoder [] (co_mCache c1) [] 0)
    (NewDecoder (um_body msg) (co_mCache c2) (co_rpcChan c2) (co_clock c2)) HE) as [H _].
  destruct (Decode _ _ _ _ _) as [d o]. rewrite bind_modify. by destruct o.
Qed.

Lemma sim_worker_decode msg :
  sim co_rel co_esc eq (worker_decode im unix_now fuel msg) (worker_decode im unix_now fuel msg).
Proof.
  intros c1 c2 (HR & Hq & Hc & Hn & Hm & Hp & Hl). unfold worker_decode. rewrite !bind_get, Hq, Hc.
  pose proof (sim_Decode im O1 O2 any_addr R E HS (um_raddr msg) I unix_now fuel
    (NewDecoder (um_body msg) (co_mCache c1) (co_rpcChan c2) (co_clock c2))
    (NewDecoder (um_body msg) (co_mCache c2) (co_rpcChan c2) (co_clock c2))) as H.
  specialize (H ltac:(by split_and!)).
  destruct (Decode im _ _ _ (NewDecoder _ (co_mCache c1) _ _)) as [d1 [a1|v1 e1| |]],
    (Decode im _ _ _ (NewDecoder _ (co_mCache c2) _ _)) as [d2 [a2|v2 e2| |]];
    cbn [fst snd] in H; cbn [res_rel] in H; try tauto; rewrite !bind_modify;
    try (destruct H as [(H1 & H2 & H3 & H4 & H5) H]).
  - subst a2. split; [|done]. by split_and!.
  - destruct H as [Hv ->]. split; [split_and!; try done; cbn; by rewrite Hl|].
    cbn. by inversion Hv; subst.
  - split; [|done]. by split_and!.
Qed.

(** Steps that touch only the queues, the counter and the log. *)
Lemma sim_co_send b :
  sim co_rel co_esc eq (modify (send_mq (MC:=MC1) b)) (modify (send_mq (MC:=MC2) b)).
Proof. apply sim_modify. intros c1 c2 (? & ? & ? & ? & ? & Hp & ?). split_and!; try done. cbn. by rewrite Hp. Qed.

Lemma sim_co_log e :
  sim co_rel co_esc eq (modify (log_error (MC:=MC1) e)) (modify (log_error (MC:=MC2) e)).
Proof. apply sim_modify. intros c1 c2 (? & ? & ? & ? & ? & ? & Hl). split_and!; try done. cbn. by rewrite Hl. Qed.

Lemma sim_worker_publish m : sim co_rel co_esc eq (worker_publish m) (worker_publish m).
Proof.
  unfold worker_publish. destruct (_ >? 0); [|by apply sim_ret]. rewrite JSONMarshal_run.
  destruct (last_err _ _); [apply sim_co_log|apply sim_co_send].
Qed.

Lemma stays_worker_publish m : stays co_esc (worker_publish m).
Proof.
  apply stays_co_same. intros c. unfold worker_publish. destruct (_ >? 0); [|done].
  rewrite JSONMarshal_run. by destruct (last_err _ _).
Qed.

Lemma stays_round_rest (o : option Message) : stays co_esc
  (match o with None => mret tt | Some m => modify count_decoded;; worker_publish m end).
Proof.
  destruct o; [|apply stays_ret]. apply stays_bind; [by apply stays_co_same|].
  intros _. apply stays_worker_publish.
Qed.

Lemma stays_round msg : stays co_esc (ipfixWorker_round im unix_now mirrorEnabled fuel msg).
Proof.
  unfold ipfixWorker_round. apply stays_bind; [destruct mirrorEnabled; by apply stays_co_same|].
  intros _. apply stays_bind; [apply stays_worker_decode|apply stays_round_rest].
Qed.

Lemma sim_round msg : sim co_rel co_esc eq (ipfixWorker_round im unix_now mirrorEnabled fuel msg)
  (ipfixWorker_round im unix_now mirrorEnabled fuel msg).
Proof.
  unfold ipfixWorker_round. eapply sim_bind with (Q := eq).
  - destruct mirrorEnabled; [|by apply sim_ret]. apply sim_modify.
    intros c1 c2 (? & ? & ? & ? & Hm & ? & ?). split_and!; try done. cbn. by rewrite Hm.
  - intros _. apply stays_bind; [apply stays_worker_decode|apply stays_round_rest].
  - intros _ _ _. eapply sim_bind; [apply sim_worker_decode|apply stays_round_rest|].
    intros o ? <-. destruct o; [|by apply sim_ret]. eapply sim_bind with (Q := eq).
    + apply sim_modify. intros c1 c2 (? & ? & ? & Hn & ? & ? & ?). split_and!; try done. cbn. by rewrite Hn.
    + intros _. apply stays_worker_publish.
    + intros _ _ _. apply sim_worker_publish.
Qed.

Lemma stays_worker msgs o : stays co_esc (ipfixWorker_offers im unix_now mirrorEnabled fuel msgs o).
Proof.
  revert o. induction msgs as [|msg msgs IH]; intros o; cbn [ipfixWorker_offers]; [apply stays_ret|].
  apply stays_bind; [by apply stays_co_same|]. intros _. apply stays_bind; [apply stays_round|]. intros _.
  apply stays_bind; [apply stays_get|]. intros c. apply IH.
Qed.

Lemma sim_worker msgs o : sim co_rel co_esc eq (ipfixWorker_offers im unix_now mirrorEnabled fuel msgs o)
  (ipfixWorker_offers im unix_now mirrorEnabled fuel msgs o).
Proof.
  revert o. induction msgs as [|msg msgs IH]; intros o; cbn [ipfixWorker_offers]; [by apply sim_ret|].
  assert (forall o, stays co_esc (c ← get; ipfixWorker_offers im unix_now mirrorEnabled fuel msgs (add_offers o c))) as Hs.
  { intros o'. apply stays_bind; [apply stays_get|]. intros c. apply stays_worker. }
  eapply sim_bind with (Q := eq).
  - apply sim_modify. intros c1 c2 (? & ? & ? & ? & ? & ? & ?). by split_and!.
  - intros _. apply stays_bind; [apply stays_round|]. intros _. apply Hs.
  - intros _ _ _. eapply sim_bind with (Q := eq); [apply sim_round|intros _; apply Hs|]. intros _ _ _.
    eapply sim_bind; [apply sim_get|intros; apply stays_worker|].
    intros c1 c2 (_ & _ & _ & _ & Hm & Hq & _). unfold add_offers. rewrite Hm, Hq. apply IH.
Qed.

End worker_sim.

#[global] Instance ipfixWorker_parametric im unix_now mirrorEnabled fuel msgs :
  Parametric tr_wf (ipfixWorker_program im unix_now mirrorEnabled fuel msgs).
Proof.
  intros MC1 MC2 O1 O2 R E HS m1 m2 Hm. unfold ipfixWorker_program.
  pose proof (sim_worker im unix_now mirrorEnabled fuel O1 O2 R E HS msgs (mkOffers [] [])
    (mkCollector m1 [] 0 0 [] [] []) (mkCollector m2 [] 0 0 [] [] []) ltac:(by split_and!)) as H.
  destruct (ipfixWorker_offers _ _ _ _ _ _ (mkCollector m1 _ _ _ _ _ _)) as [c1 [a1|v1 e1| |]],
    (ipfixWorker_offers _ _ _ _ _ _ (mkCollector m2 _ _ _ _ _ _)) as [c2 [a2|v2 e2| |]];
    cbn [fst snd res_rel] in *; try tauto;
    try (destruct H as [(H1 & H2 & H3 & H4 & H5 & H6 & H7) H]; split; [done|]; try done).
  - by rewrite H, H4, H7.
  - by destruct H as [_ ->].
Qed.

(** ** How a worker ends *)

Section worker_ends.
Context (im : IANAInfoModel) (unix_now : nat -> Z) (mirrorEnabled : bool) (fuel : nat).

(** It does not return an error, on any store. *)
Lemma round_no_error {MC} `{!StoreOps TemplateRecord MC} msg (c c' : Collector (MC:=MC)) v e :
  ipfixWorker_round im unix_now mirrorEnabled fuel msg c <> (c', Err v e).
Proof.
  unfold ipfixWorker_round, worker_decode, worker_publish. destruct mirrorEnabled; unmonad;
    (destruct (Decode _ _ _ _ _) as [d [m|[m|] e'| |]]); try done; cbn;
    destruct (_ >? 0); try done; rewrite JSONMarshal_run; by destruct (last_err _ _).
Qed.

Lemma offers_no_error {MC} `{!StoreOps TemplateRecord MC} msgs o (c c' : Collector (MC:=MC)) v e :
  ipfixWorker_offers im unix_now mirrorEnabled fuel msgs o c <> (c', Err v e).
Proof.
  revert o c. induction msgs as [|msg msgs IH]; intros o c; [done|]. cbn [ipfixWorker_offers].
  rewrite bind_modify. unfold mbind, M_bind.
  pose proof (round_no_error msg (no_offers c)) as H.
  destruct (ipfixWorker_round _ _ _ _ _ (no_offers c)) as [c1 [[]|v1 e1| |]]; try done; [apply IH|].
  by destruct (H c1 v1 e1).
Qed.

(** A worker that runs out of rounds, alone on a cache: after some of its datagrams, each
    finished, it comes to one with a set whose record loop never ends. *)
Definition loops_forever {MC} `{!TemplateStore TemplateRecord MC} (msgs : list IPFIXUDPMsg) (m : MC) : Prop :=
  exists pre msg post c offers,
    msgs = pre ++ msg :: post /\
    ipfixWorker_offers im unix_now mirrorEnabled fuel pre (mkOffers [] []) (mkCollector m [] 0 0 [] [] []) =
      (c, Ok offers) /\
    reaches_stuck im (um_raddr msg) unix_now fuel
      (Decode_start (um_raddr msg) (NewDecoder (um_body msg) (co_mCache c) (co_rpcChan c) (co_clock c))).

Context {MC : Type} `{!TemplateStore TemplateRecord MC}.

Lemma round_nofuel msg (c c' : Collector (MC:=MC)) :
  cache_ok (co_mCache c) -> len (um_body msg) < Z.of_nat fuel ->
  ipfixWorker_round im unix_now mirrorEnabled fuel msg c = (c', NoFuel) ->
  reaches_stuck im (um_raddr msg) unix_now fuel
    (Decode_start (um_raddr msg) (NewDecoder (um_body msg) (co_mCache c) (co_rpcChan c) (co_clock c))).
Proof.
  intros Hc Hf E. apply Decode_nofuel; [done|done|]. revert E.
  unfold ipfixWorker_round, worker_decode, worker_publish. destruct mirrorEnabled; unmonad; cbn;
    (destruct (Decode _ _ _ _ _) as [d [m|[m|] e'| |]]); try done; cbn;
    (destruct (_ >? 0); try done; rewrite JSONMarshal_run; by destruct (last_err _ _)).
Qed.

Lemma offers_nofuel msgs o (c c' : Collector (MC:=MC)) :
  collector_ok c -> Forall (fun msg => len (um_body msg) < Z.of_nat fuel) msgs ->
  ipfixWorker_offers im unix_now mirrorEnabled fuel msgs o c = (c', NoFuel) ->
  exists pre msg post c1 o1,
    msgs = pre ++ msg :: post /\
    ipfixWorker_offers im unix_now mirrorEnabled fuel pre o c = (c1, Ok o1) /\
    reaches_stuck im (um_raddr msg) unix_now fuel
      (Decode_start (um_raddr msg) (NewDecoder (um_body msg) (co_mCache c1) (co_rpcChan c1) (co_clock c1))).
Proof.
  intros Hc Hf. revert o c Hc. induction Hf as [|msg msgs Hl Hf IH]; intros o c Hc; [done|].
  cbn [ipfixWorker_offers]. rewrite bind_modify. unfold mbind, M_bind.
  destruct (safe_ipfixWorker_round im unix_now mirrorEnabled fuel msg (no_offers c) (no_offers_ok c Hc)) as [Hs _].
  pose proof (round_nofuel msg (no_offers c)) as Hn.
  destruct (ipfixWorker_round _ _ _ _ _ (no_offers c)) as [c1 [[]|v e| |]] eqn:E; try done.
  - intros E'. destruct (IH (add_offers o c1) c1) as (pre & msg' & post & c2 & o2 & -> & E2 & H); [|done|].
    { done. }
    exists (msg :: pre), msg', post, c2, o2. split; [done|]. split; [|done]. cbn [ipfixWorker_offers].
    rewrite bind_modify. unfold mbind, M_bind. by rewrite E.
  - intros _. exists [], msg, msgs, c, o. split; [done|]. split; [done|]. apply (Hn c1); [apply Hc|done|done].
Qed.
End worker_ends.

(** ** All interleavings *)

Section workers.
Context (im : IANAInfoModel) {MC : Type} `{!TemplateStore TemplateRecord MC}.
Context (unix_now : nat -> Z) (mirrorEnabled : bool) (fuel : nat).

(** One worker for each list of datagrams. *)
Definition ipfixWorkers (msgss : list (list IPFIXUDPMsg)) : list (program TemplateRecord WorkerOutput) :=
  map (ipfixWorker_program im unix_now mirrorEnabled fuel) msgss.

Lemma ipfixWorkers_parametric msgss : Forall (Parametric tr_wf) (ipfixWorkers msgss).
Proof.
  apply Forall_forall. intros p Hp. apply list_elem_of_In, in_map_iff in Hp as (msgs & <- & _). apply _.
Qed.

Lemma worker_no_error msgss t (sys : System TemplateRecord MC) msgs v e :
  msgss !! t = Some msgs -> worker_result (ipfixWorkers msgss) t sys <> Some (Err v e).
Proof.
  intros Hmsgs. unfold worker_result, ipfixWorkers. rewrite list_lookup_fmap, Hmsgs. cbn [fmap option_fmap option_map].
  destruct (sys_hist sys !! t) as [h|]; [|done]. unfold replay, ipfixWorker_program.
  pose proof (offers_no_error im unix_now mirrorEnabled fuel msgs (mkOffers [] [])
    (mkCollector (mkScript h Running) [] 0 0 [] [] [])) as H.
  destruct (ipfixWorker_offers _ _ _ _ _ _ _) as [c [o|v1 e1| |]]; destruct (co_mCache c) as [l []]; try done;
    intros ?; by apply (H c v1 e1).
Qed.

(** C16: workers that share the cache never disturb each other into a panic.  In every
    interleaving of any number of workers, whatever datagrams they were given, at every
    access to the template cache, whatever bound is set on their loops: the cache stays
    well-formed; a worker that is at an access can make it; and a worker that is not has
    returned, or has used up the bound.  When the bound is above the length of its
    datagrams and no worker announced a template that another one accessed, the latter
    means that the worker's decoder is in the record loop that never ends. *)
Theorem ipfix_workers_safe (msgss : list (list IPFIXUDPMsg)) (m : MC) (ls : list nat)
    (sys : System TemplateRecord MC) (Hm : cache_ok m)
    (He : exec_with (worker_step (ipfixWorkers msgss)) ls (sys_start (ipfixWorkers msgss) m) = Some sys) :
  cache_ok (sys_cache sys) /\
  forall t msgs, msgss !! t = Some msgs ->
    match worker_result (ipfixWorkers msgss) t sys with
    | None => is_Some (worker_step (ipfixWorkers msgss) t sys)
    | Some (Ok _) => True
    | Some NoFuel =>
        race_free sys -> Forall (fun msg => len (um_body msg) < Z.of_nat fuel) msgs ->
        loops_forever im unix_now mirrorEnabled fuel msgs m
    | Some _ => False
    end.
Proof.
  pose proof (sys_inv_exec tr_wf _ (ipfixWorkers_parametric msgss) ls m sys Hm He) as Hi.
  split; [exact (proj1 Hi)|]. intros t msgs Hmsgs.
  assert (ipfixWorkers msgss !! t = Some (ipfixWorker_program im unix_now mirrorEnabled fuel msgs)) as Ep
    by (unfold ipfixWorkers; by rewrite list_lookup_fmap, Hmsgs).
  pose proof (worker_progress tr_wf _ (ipfixWorkers_parametric msgss) t sys Hi (lookup_lt_Some _ _ _ Ep)) as Hp.
  destruct (worker_result (ipfixWorkers msgss) t sys) as [[out|v e| |]|] eqn:Er; try done.
  - by apply (worker_no_error msgss t sys msgs v e Hmsgs).
  - intros Hr Hf. destruct (worker_alone tr_wf _ (ipfixWorkers_parametric msgss) m ls sys t _ _ Hm He Hr Ep Er)
      as (mt & Ha & _). unfold ipfixWorker_program in Ha.
    destruct (ipfixWorker_offers _ _ _ _ _ _ _) as [c [o|v e| |]] eqn:E; try done.
    apply (offers_nofuel im unix_now mirrorEnabled fuel msgs _ _ c); [by split_and!|done|done].
Qed.

(** The messages of a stream that have records. *)
Definition stream_messages (env : gmap Z TemplateRecord) (ds : list datagram) : list Message :=
  List.filter has_data (sem_stream im ds env []).1.

(** The texts that the workers offer the message queue, when they have returned. *)
Definition offered (ps : list (program TemplateRecord WorkerOutput)) (sys : System TemplateRecord MC) :
    list (list string) :=
  map (fun t => match worker_result ps t sys with Some (Ok out) => of_MQCh (wo_offers out) | _ => [] end)
    (seq 0 (length ps)).

Definition all_returned (ps : list (program TemplateRecord WorkerOutput)) (sys : System TemplateRecord MC) : Prop :=
  forall t, (t < length ps)%nat -> is_Some (worker_result ps t sys).

Section streams.
Context (dss : list (list datagram)) (env : gmap Z TemplateRecord) (m : MC) (ls : list nat)
  (sys : System TemplateRecord MC).
Let ps := ipfixWorkers (map (map datagram_msg) dss).
Hypotheses (Hm : cache_repr env m) (Hwf : Forall (fun ds => stream_wf im fuel ds env []) dss)
  (He : exec_with (worker_step ps) ls (sys_start ps m) = Some sys) (Hr : race_free sys).

(** A worker that has returned offered the texts of its messages. *)
Lemma worker_texts t ds o :
  dss !! t = Some ds -> worker_result ps t sys = Some o ->
  exists out, o = Ok out /\ of_MQCh (wo_offers out) = map message_text (stream_messages env ds) /\
    wo_DecodedCount out = uint64 (len ds).
Proof using Hm Hwf He Hr.
  intros Hds Ho.
  assert (ps !! t = Some (ipfixWorker_program im unix_now mirrorEnabled fuel (map datagram_msg ds))) as Ep.
  { unfold ps, ipfixWorkers. rewrite map_map. by rewrite list_lookup_fmap, Hds. }
  destruct (worker_alone tr_wf ps (ipfixWorkers_parametric _) m ls sys t _ o (proj1 Hm) He Hr Ep Ho)
    as (mt & Ha & _).
  eapply Forall_lookup_1 in Hwf as Hs; [|exact Hds].
  destruct (ipfixWorker_offered im unix_now mirrorEnabled fuel ds env (mkCollector m [] 0 0 [] [] []) (mkOffers [] []))
    as (c' & o' & E & Hq & _ & Hn); try done.
  unfold ipfixWorker_program in Ha. rewrite E in Ha. injection Ha as <- <-.
  eexists. split; [reflexivity|]. by split.
Qed.

Lemma offered_texts :
  all_returned ps sys -> offered ps sys = map (map message_text) (map (stream_messages env) dss).
Proof using Hm Hwf He Hr.
  intros Hall. apply list_eq. intros t. unfold offered. rewrite !list_lookup_fmap.
  destruct (dss !! t) as [ds|] eqn:Eds.
  - assert (t < length ps)%nat as Hlt.
    { unfold ps, ipfixWorkers. rewrite !length_map. by eapply lookup_lt_Some. }
    rewrite lookup_seq_lt by done. cbn. destruct (Hall t Hlt) as [o Ho]. rewrite Ho.
    destruct (worker_texts t ds o Eds Ho) as (out & -> & Ht & _). by rewrite Ht.
  - rewrite lookup_seq_ge; [done|]. unfold ps, ipfixWorkers. rewrite !length_map. by apply lookup_ge_None.
Qed.
End streams.

(** C2: what several workers publish at once.  For streams of well-formed messages with
    marshalable fields, in every interleaving in which no worker announces a template that
    another one looks up or announces too, each worker that has returned has counted its
    datagrams and offered the message queue, in order, exactly the JSON texts of the
    messages that its own stream means, read with the templates known at the start:
    working on one cache at the same time makes no difference.  When all have returned,
    in whatever order their offers and the producer meet at the one channel, every message
    is in exactly one place: still to be offered, in the channel, with the producer, or
    dropped; the channel never holds more than 1000 texts, and one is dropped only after
    1000 were taken in. *)
Theorem ipfix_workers_publish (dss : list (list datagram)) (env : gmap Z TemplateRecord) (m : MC)
    (ls : list nat) (sys : System TemplateRecord MC) :
  let ps := ipfixWorkers (map (map datagram_msg) dss) in
  forall (Hm : cache_repr env m) (Hwf : Forall (fun ds => stream_wf im fuel ds env []) dss)
    (He : exec_with (worker_step ps) ls (sys_start ps m) = Some sys) (Hr : race_free sys),
  (forall t ds o, dss !! t = Some ds -> worker_result ps t sys = Some o ->
    exists out, o = Ok out /\
      map parse_json (of_MQCh (wo_offers out)) =
        map (fun msg => Some (json_message msg)) (stream_messages env ds) /\
      wo_DecodedCount out = uint64 (len ds)) /\
  (all_returned ps sys -> forall pls pb,
    exec_with pub_step pls (pub_start (offered ps sys)) = Some pb ->
    Permutation (map parse_json (concat (pb_todo pb) ++ pb_ch pb ++ pb_taken pb ++ pb_dropped pb))
      (map (fun msg => Some (json_message msg)) (concat (map (stream_messages env) dss))) /\
    len (pb_ch pb) <= 1000 /\
    (pb_dropped pb <> [] -> 1000 <= len (pb_ch pb) + len (pb_taken pb))).
Proof.
  intros ps Hm Hwf He Hr. subst ps. assert (forall ds, ds ∈ dss -> map parse_json (map message_text (stream_messages env ds)) =
    map (fun msg => Some (json_message msg)) (stream_messages env ds)) as Hparse.
  { intros ds Hds. apply (stream_texts_parse im fuel). rewrite Forall_forall in Hwf. by apply Hwf. }
  split.
  - intros t ds o Hds Ho. destruct (worker_texts dss env m ls sys Hm Hwf He Hr t ds o Hds Ho) as (out & -> & Ht & Hn).
    exists out. split; [done|]. rewrite Ht. split; [|done]. apply Hparse. by eapply list_elem_of_lookup_2.
  - intros Hall pls pb Hpub. rewrite (offered_texts dss env m ls sys Hm Hwf He Hr Hall) in Hpub.
    pose proof (pub_inv_exec _ pls pb Hpub) as Hi. split; [|split; [apply Hi|apply Hi]].
    rewrite <- (pub_places _ pb Hi), !concat_map, !map_map.
    erewrite map_ext_in; [reflexivity|]. intros ds Hds%list_elem_of_In. by apply Hparse.
Qed.

End workers.

(** ** Examples *)

(** The stream of Collector.v from another exporter. *)
Definition other_stream : list datagram :=
  map (fun d => mkDatagram (bytes [192; 0; 2; 9]) (dg_header d) (dg_sets d) (dg_trail d)) example_stream.

Abbreviation example_workers :=
  (ipfixWorkers InfoModel (fun _ => 0) false 100
    (map (map datagram_msg) [example_stream; other_stream])).

Abbreviation two_streams := [example_stream; other_stream].

(** The workers, and then the channel. *)
Definition run_both {MC} `{!StoreOps TemplateRecord MC} (ps : list (program TemplateRecord WorkerOutput)) (ls : list nat) (m : MC)
    (pls : list pub_label) : option (System TemplateRecord MC * Publishing string) :=
  sys ← exec_with (worker_step ps) ls (sys_start ps m);
  pb ← exec_with pub_step pls (pub_start (offered ps sys));
  Some (sys, pb).

Lemma run_both_some {MC} `{!StoreOps TemplateRecord MC} (ps : list (program TemplateRecord WorkerOutput)) ls (m : MC) pls sys pb :
  run_both ps ls m pls = Some (sys, pb) ->
  exec_with (worker_step ps) ls (sys_start ps m) = Some sys /\ exec_with pub_step pls (pub_start (offered ps sys)) = Some pb.
Proof.
  unfold run_both. destruct (exec_with (worker_step ps) ls (sys_start ps m)) as [sys'|]; [|done]. cbn.
  destruct (exec_with pub_step pls (pub_start (offered ps sys'))) as [pb'|] eqn:E; [|done]. cbn. intros ?. by simplify_eq.
Qed.

(** Both announce, then both look up; the second publishes first; the producer takes both
    texts. *)
Abbreviation two_run :=
  (run_both (MC:=MemCache TemplateRecord) example_workers [0; 1; 1; 0]%nat (GetCache None)
     [Publishes 1; Publishes 0; Produces; Produces]).

(** Free of races, both workers finished, and the channel drained. *)
Definition two_ended (r : System TemplateRecord (MemCache TemplateRecord) * Publishing string) : bool :=
  race_freeb r.1 && forallb (fun t => match worker_result example_workers t r.1 with Some _ => true | None => false end) [0; 1]%nat &&
  match concat (pb_todo r.2), pb_ch r.2, pb_dropped r.2, pb_taken r.2 with [], [], [], [_; _] => true | _, _, _, _ => false end.

Lemma two_ended_spec sys pb :
  two_ended (sys, pb) = true ->
  race_free sys /\ all_returned example_workers sys /\
  concat (pb_todo pb) = [] /\ pb_ch pb = [] /\ pb_dropped pb = [] /\ length (pb_taken pb) = 2%nat.
Proof.
  unfold two_ended. cbn [fst snd]. intros [[Hr Hf]%andb_prop Hd]%andb_prop.
  split; [by apply race_freeb_ok|]. split.
  - assert (length example_workers = 2%nat) as Hl by reflexivity. revert Hf Hl. generalize example_workers as ps.
    intros ps Hf Hl t Ht. rewrite Hl in Ht. apply forallb_forall with (x := t) in Hf.
    + by destruct (worker_result ps t sys).
    + destruct t as [|[|t]]; [by left|by right; left|lia].
  - destruct (concat _), (pb_ch pb), (pb_dropped pb); try done. by destruct (pb_taken pb) as [|x [|y [|z l]]].
Qed.

Lemma two_run_ok : exists r, two_run = Some r /\ two_ended r = true.
Proof. apply eval_some. vm_compute. reflexivity. Qed.

Lemma other_stream_wf : stream_wf InfoModel 100 other_stream ∅ [].
Proof. stream_wf_example. Qed.

Lemma example_streams_wf : Forall (fun ds => stream_wf InfoModel 100 ds ∅ []) two_streams.
Proof.
  constructor; [exact example_stream_wf|]. constructor; [exact other_stream_wf|constructor].
Qed.

Lemma ipfix_workers_publish_witness :
  exists (sys : System TemplateRecord (MemCache TemplateRecord)) (pb : Publishing string),
    exec_with pub_step [Publishes 1; Publishes 0; Produces; Produces] (pub_start (offered example_workers sys)) = Some pb /\
    length (pb_taken pb) = 2%nat /\
    Permutation (map parse_json (pb_taken pb))
      (map (fun msg => Some (json_message msg)) (concat (map (stream_messages InfoModel ∅) two_streams))).
Proof.
  destruct two_run_ok as ([sys pb] & E & He). destruct (run_both_some _ _ _ _ _ _ E) as [Es Ep].
  destruct (two_ended_spec sys pb He) as (Hr & Hf & H5 & H6 & H7 & H8).
  destruct (ipfix_workers_publish InfoModel (fun _ => 0) false 100 two_streams ∅ (GetCache None) [0; 1; 1; 0]%nat sys
    cache_repr_fresh example_streams_wf Es Hr) as [_ H].
  destruct (H Hf _ pb Ep) as [Hp _]. exists sys, pb. split; [exact Ep|]. split; [exact H8|].
  rewrite H5, H6, H7, app_nil_r in Hp. exact Hp.
Defined.

(** A datagram with a set of id 1, whose record loop never ends, at a second worker. *)
Definition loop_msg : IPFIXUDPMsg :=
  mkUDPMsg (bytes [192; 0; 2; 1])
    (bytes [0; 10; 0; 25; 0; 0; 0; 0; 0; 0; 0; 0; 0; 0; 0; 0; 0; 1; 0; 9; 1; 2; 3; 4; 5]).

Abbreviation loop_workers := (ipfixWorkers InfoModel (fun _ => 0) false 100 [map datagram_msg example_stream; [loop_msg]]).

Definition loop_state (sys : System TemplateRecord (MemCache TemplateRecord)) : bool :=
  race_freeb sys &&
  match worker_result loop_workers 0 sys, worker_result loop_workers 1 sys with
  | None, Some NoFuel => true | _, _ => false
  end.

Lemma loop_run_ok :
  exists sys, exec_with (worker_step loop_workers) [0]%nat (sys_start loop_workers (GetCache None)) = Some sys /\
    loop_state sys = true.
Proof. apply eval_some. vm_compute. reflexivity. Qed.

Lemma loop_state_spec sys : loop_state sys = true ->
  race_free sys /\ worker_result loop_workers 0 sys = None /\ worker_result loop_workers 1 sys = Some NoFuel.
Proof.
  unfold loop_state. generalize loop_workers as ps. intros ps [Hr H]%andb_prop.
  split; [by apply race_freeb_ok|]. destruct (worker_result ps 0 sys); [done|].
  by destruct (worker_result ps 1 sys) as [[]|].
Qed.

(** After the first worker's announcement: it can go on, and the second one loops. *)
Lemma ipfix_workers_safe_witness :
  exists sys, exec_with (worker_step loop_workers) [0]%nat (sys_start loop_workers (GetCache None)) = Some sys /\
    is_Some (worker_step loop_workers 0 sys) /\
    loops_forever InfoModel (fun _ => 0) false 100 [loop_msg] (GetCache (T:=TemplateRecord) None).
Proof.
  destruct loop_run_ok as (sys & E & Hs). destruct (loop_state_spec sys Hs) as (Hr & H0 & H1).
  destruct (ipfix_workers_safe InfoModel (fun _ => 0) false 100 [map datagram_msg example_stream; [loop_msg]]
    (GetCache None) [0]%nat sys cache_ok_fresh E) as [_ H].
  exists sys. split; [exact E|]. split.
  - pose proof (H 0%nat (map datagram_msg example_stream) eq_refl) as Hw. rewrite H0 in Hw. exact Hw.
  - pose proof (H 1%nat [loop_msg] eq_refl) as Hw. rewrite H1 in Hw. apply Hw; [exact Hr|].
    repeat constructor.
Defined.

(** The exporter sends a template and then its records; two workers take one datagram
    each. *)
Definition racing_workers : list (program TemplateRecord WorkerOutput) :=
  ipfixWorkers InfoModel (fun _ => 0) false 100 (map (fun d => [datagram_msg d]) example_stream).

(** How many texts the second worker publishes, and the errors it logs. *)
Definition racing_outcome (ls : list nat) : option (nat * list GoError) :=
  match exec_with (worker_step racing_workers) ls
          (sys_start (MC:=MemCache TemplateRecord) racing_workers (GetCache None)) with
  | Some sys => match worker_result racing_workers 1 sys with
                | Some (Ok out) => Some (length (of_MQCh (wo_offers out)), wo_log out)
                | _ => None
                end
  | None => None
  end.

(** Datagrams of one exporter can overtake each other.  A template and the records that
    follow it, taken by two workers, are decoded when the first worker reaches the cache
    first; in the other order the records are lost: nothing is published, and the error
    is that the template is unknown. *)
Theorem workers_race :
  racing_outcome [0; 1]%nat = Some (1%nat, []) /\
  racing_outcome [1; 0]%nat = Some (0%nat, [errIpfixUnknownTemplate "192.0.2.1" 256]).
Proof. split; vm_compute; reflexivity. Qed.
