(* ===== verification/NetflowCollector.v ===== *)
(** The NetFlow v9 collector, [src/vflow/netflow_v9.go]: the worker that decodes, marshals
    and publishes every received datagram.

    It differs from the IPFIX worker: there is no mirror queue and no template request, and
    the test before the marshaller is [DataSets != nil], which holds as soon as one record
    was appended to the nil slice the message starts with. *)

From S2P Require Import Prelude GoNet InfoModel Interpret TemplateCache Reader Json Marshal Collector NetflowDecoder NetflowFacts NetflowMessage MarshalNetflow.

Local Open Scope string_scope.
Open Scope Z_scope.

(** ** The worker *)

Record NetflowV9UDPMsg : Type := mkNFUDPMsg { nm_raddr : list byte; nm_body : list byte }.

Section worker.
Context (im : IANAInfoModel) {MC : Type} `{!StoreOps TemplateRecord MC}.
Context (unix_now : nat -> Z).

Record NFCollector : Type := mkNFCollector {
  nc_mCacheNF9 : MC;
  nc_clock : nat;
  nc_DecodedCount : Z;
  nc_MQCh : list string;
  nc_log : list GoError
}.

Definition nf_after_decode (d : DecState (MC:=MC)) (c : NFCollector) : NFCollector :=
  mkNFCollector (st_mem d) (st_clock d) (nc_DecodedCount c) (nc_MQCh c) (nc_log c).
Definition nf_count_decoded (c : NFCollector) : NFCollector :=
  mkNFCollector (nc_mCacheNF9 c) (nc_clock c) (uint64 (nc_DecodedCount c + 1)) (nc_MQCh c) (nc_log c).
Definition nf_send_mq (b : string) (c : NFCollector) : NFCollector :=
  mkNFCollector (nc_mCacheNF9 c) (nc_clock c) (nc_DecodedCount c) (try_send b (nc_MQCh c)) (nc_log c).
Definition nf_log_error (e : GoError) (c : NFCollector) : NFCollector :=
  mkNFCollector (nc_mCacheNF9 c) (nc_clock c) (nc_DecodedCount c) (nc_MQCh c) (nc_log c ++ [e])%list.

(** [d.Decode(mCacheNF9)], then [logger.Println(err)]; the message, nil when the header
    could not be decoded. *)
Definition nf_worker_decode (fuel : nat) (msg : NetflowV9UDPMsg) : M NFCollector (option Message) :=
  c ← get;
  let '(d, o) := Decode im (nm_raddr msg) unix_now fuel
    (NewDecoder (nm_body msg) (nc_mCacheNF9 c) (nc_clock c)) in
  modify (nf_after_decode d);;
  match o with
  | Ok m => mret (Some m)
  | Err v e => modify (nf_log_error e);; mret v
  | Panic => panic
  | NoFuel => nofuel
  end.

(** [decodedMsg.DataSets != nil]: [Decode] only ever appends to the nil slice. *)
Definition DataSets_set (m : Message) : bool :=
  match msg_DataSets m with [] => false | _ => true end.

(** [decodedMsg.JSONMarshal(buf)] with the buffer reset, then the send. *)
Definition nf_worker_publish (m : Message) : M NFCollector () :=
  if DataSets_set m then
    match (JSONMarshal m "").2 with
    | Ok b => modify (nf_send_mq b)
    | Err _ e => modify (nf_log_error e)
    | Panic => panic
    | NoFuel => nofuel
    end
  else mret tt.

Definition netflowV9Worker_round (fuel : nat) (msg : NetflowV9UDPMsg) : M NFCollector () :=
  o ← nf_worker_decode fuel msg;
  match o with
  | None => mret tt
  | Some m => modify nf_count_decoded;; nf_worker_publish m
  end.

(** The loop, on the messages of the queue until it is closed. *)
Fixpoint netflowV9Worker (fuel : nat) (msgs : list NetflowV9UDPMsg) : M NFCollector () :=
  match msgs with
  | [] => mret tt
  | msg :: msgs' => netflowV9Worker_round fuel msg;; netflowV9Worker fuel msgs'
  end.

(** The channel [netflowV9MQCh] is shared with the other workers and the producer: the same
    loop that records what the worker offers it, one round after the other. *)
Definition nf_no_offers (c : NFCollector) : NFCollector :=
  mkNFCollector (nc_mCacheNF9 c) (nc_clock c) (nc_DecodedCount c) [] (nc_log c).

Fixpoint netflowV9Worker_offers (fuel : nat) (msgs : list NetflowV9UDPMsg) (o : list string) :
    M NFCollector (list string) :=
  match msgs with
  | [] => mret o
  | msg :: msgs' =>
      modify nf_no_offers;; netflowV9Worker_round fuel msg;; c ← get;
      netflowV9Worker_offers fuel msgs' (o ++ nc_MQCh c)%list
  end.

End worker.

(** ** What the worker does *)

Section worker_facts.
Context (im : IANAInfoModel) {MC : Type} `{!TemplateStore TemplateRecord MC}.
Context (unix_now : nat -> Z).

(** *** Any input *)

Definition nf_collector_ok (c : NFCollector (MC:=MC)) : Prop :=
  cache_ok (nc_mCacheNF9 c) /\ len (nc_MQCh c) <= chan_cap /\ 0 <= nc_DecodedCount c < 2 ^ 64.

Lemma safe_nf_worker_decode fuel msg :
  safe nf_collector_ok (fun _ => True) (nf_worker_decode im unix_now fuel msg).
Proof.
  intros c (Hc & Hq & Hn). unfold nf_worker_decode. rewrite bind_get.
  pose proof (v9_Decode_safe im (nm_raddr msg) unix_now fuel (nm_body msg) (nc_mCacheNF9 c)
    (nc_clock c) Hc) as [Hd Hp].
  destruct (Decode _ _ _ _ _) as [d o]. rewrite bind_modify. cbn [fst snd] in *.
  assert (nf_collector_ok (nf_after_decode d c)) by done.
  destruct o; try done; by unmonad.
Qed.

Lemma safe_nf_worker_publish m : safe nf_collector_ok (fun _ => True) (nf_worker_publish m).
Proof.
  intros c Hc. unfold nf_worker_publish. destruct (DataSets_set m); [|done].
  rewrite v9_JSONMarshal_run. destruct Hc as (H1 & H2 & H3).
  destruct (last_err _ _); unmonad; (split; [|done]); split_and!;
    first [done | by apply len_try_send | apply H3].
Qed.

Lemma safe_netflowV9Worker_round fuel msg :
  safe nf_collector_ok (fun _ => True) (netflowV9Worker_round im unix_now fuel msg).
Proof.
  apply (safe_bind _ (fun _ => True)); [apply safe_nf_worker_decode|]. intros [m|] _.
  - apply (safe_bind _ (fun _ => True)); [|intros _ _; apply safe_nf_worker_publish].
    apply safe_modify. intros c (? & ? & ?). split_and!; try done; apply (wrapU_range 64); lia.
  - by apply safe_ret.
Qed.

Lemma safe_netflowV9Worker fuel msgs :
  safe nf_collector_ok (fun _ => True) (netflowV9Worker im unix_now fuel msgs).
Proof.
  induction msgs as [|msg msgs IH]; [by apply safe_ret|]. cbn [netflowV9Worker].
  apply (safe_bind _ (fun _ => True)); [apply safe_netflowV9Worker_round|by intros].
Qed.

Lemma nf_no_offers_ok (c : NFCollector (MC:=MC)) : nf_collector_ok c -> nf_collector_ok (nf_no_offers c).
Proof. intros (? & ? & [? ?]). by split_and!. Qed.

(** *** The worker and its offers *)

Lemma nf_round_offers fuel msg (c : NFCollector (MC:=MC)) :
  let r := netflowV9Worker_round im unix_now fuel msg (nf_no_offers c) in
  netflowV9Worker_round im unix_now fuel msg c =
    (mkNFCollector (nc_mCacheNF9 r.1) (nc_clock r.1) (nc_DecodedCount r.1)
       (try_sends (nc_MQCh r.1) (nc_MQCh c)) (nc_log r.1), r.2).
Proof.
  unfold netflowV9Worker_round, nf_worker_decode, nf_worker_publish. unmonad.
  (destruct (Decode _ _ _ _ _) as [d [m|[m|] e| |]]); try done; cbn;
    destruct (DataSets_set m); try done; rewrite v9_JSONMarshal_run; by destruct (last_err _ _).
Qed.

Lemma nf_worker_offers_from fuel msgs (c c' : NFCollector (MC:=MC)) (o q : list string) :
  nf_no_offers c = nf_no_offers c' -> nc_MQCh c = try_sends o q ->
  let r := netflowV9Worker im unix_now fuel msgs c in
  let r' := netflowV9Worker_offers im unix_now fuel msgs o c' in
  nf_no_offers r.1 = nf_no_offers r'.1 /\
  match r'.2 with
  | Ok o' => r.2 = Ok tt /\ nc_MQCh r.1 = try_sends o' q
  | Err _ e => r.2 = Err None e
  | Panic => r.2 = Panic
  | NoFuel => r.2 = NoFuel
  end.
Proof.
  revert c c' o. induction msgs as [|msg msgs IH]; intros c c' o Hc Hq; [done|].
  cbn [netflowV9Worker netflowV9Worker_offers]. rewrite bind_modify. unfold mbind, M_bind.
  rewrite (nf_round_offers fuel msg c), Hc.
  destruct (netflowV9Worker_round _ _ _ _ (nf_no_offers c')) as [c2 [[]|v e| |]]; cbn [fst snd]; try done.
  apply IH; [done|]. cbn [nc_MQCh]. by rewrite try_sends_app, Hq.
Qed.

(** The worker on its channel, nothing being received meanwhile, is the recording one with
    its offers sent to the channel. *)
Lemma nf_worker_offers fuel msgs (c : NFCollector (MC:=MC)) :
  let r := netflowV9Worker im unix_now fuel msgs c in
  let r' := netflowV9Worker_offers im unix_now fuel msgs [] c in
  nf_no_offers r.1 = nf_no_offers r'.1 /\
  match r'.2 with
  | Ok o => r.2 = Ok tt /\ nc_MQCh r.1 = try_sends o (nc_MQCh c)
  | Err _ e => r.2 = Err None e
  | Panic => r.2 = Panic
  | NoFuel => r.2 = NoFuel
  end.
Proof. by apply nf_worker_offers_from. Qed.

(** *** Streams of export packets *)

(** A datagram that encodes an export packet, with the exporter it comes from. *)
Record nf_datagram : Type := mkNFDatagram {
  nd_raddr : list byte; nd_header : PacketHeader; nd_sets : list wire_set; nd_trail : list byte
}.

Definition nf_datagram_msg (d : nf_datagram) : NetflowV9UDPMsg :=
  mkNFUDPMsg (nd_raddr d) (encode_packet (nd_header d) (nd_sets d) ++ nd_trail d).

(** What a datagram means when the templates [env] are known. *)
Definition nf_sem_datagram (d : nf_datagram) (env : gmap Z TemplateRecord) : sem_state :=
  sem_sets im (nd_raddr d) (nd_sets d) (mkSem env zeroTemplateRecord [] [] []).

Definition nf_message_of (d : nf_datagram) (g : sem_state) : Message :=
  mkMessage (IP_String (nd_raddr d)) (nd_header d) (sem_last g) (sem_headers g) (sem_data g).

Fixpoint nf_sem_stream (ds : list nf_datagram) (env : gmap Z TemplateRecord) :
    list Message * gmap Z TemplateRecord :=
  match ds with
  | [] => ([], env)
  | d :: ds' =>
      let g := nf_sem_datagram d env in
      let '(ms, env') := nf_sem_stream ds' (sem_env g) in
      (nf_message_of d g :: ms, env')
  end.

Definition nf_datagram_wf (fuel : nat) (d : nf_datagram) (env : gmap Z TemplateRecord) : Prop :=
  header_wf (nd_header d) /\ len (nd_trail d) <= 4 /\
  sets_wf im (nd_raddr d) (nd_sets d) (mkSem env zeroTemplateRecord [] [] []) /\
  len (encode_packet (nd_header d) (nd_sets d)) < Z.of_nat fuel /\
  Forall (Forall marshalable_field) (sem_data (nf_sem_datagram d env)).

Fixpoint nf_stream_wf (fuel : nat) (ds : list nf_datagram) (env : gmap Z TemplateRecord) : Prop :=
  match ds with
  | [] => True
  | d :: ds' => nf_datagram_wf fuel d env /\ nf_stream_wf fuel ds' (sem_env (nf_sem_datagram d env))
  end.

Definition nf_has_data (m : Message) : bool := len (msg_DataSets m) >? 0.

Lemma DataSets_set_has_data m : DataSets_set m = nf_has_data m.
Proof.
  unfold DataSets_set, nf_has_data. destruct (msg_DataSets m) as [|x l]; [done|].
  rewrite len_cons. pose proof (len_nonneg l). symmetry. apply Z.gtb_lt. lia.
Qed.

Lemma nf_marshalable_message_of d g :
  header_wf (nd_header d) -> Forall (Forall marshalable_field) (sem_data g) ->
  marshalable_message (nf_message_of d g).
Proof.
  intros (H1 & H2 & H3 & H4 & H5 & H6) Hd. split; [apply all_plain_IP|]. split; [|done].
  cbn [nf_message_of msg_Header]. unfold int64_range. repeat constructor; lia.
Qed.

Lemma nf_worker_publish_text m (c : NFCollector (MC:=MC)) :
  marshalable_message m -> len (nc_MQCh c) < chan_cap ->
  exists c', nf_worker_publish m c = (c', Ok tt) /\
    nc_MQCh c' = (nc_MQCh c ++ (if nf_has_data m then [message_text m] else []))%list /\
    nc_mCacheNF9 c' = nc_mCacheNF9 c /\ nc_DecodedCount c' = nc_DecodedCount c.
Proof.
  intros Hm Hq. unfold nf_worker_publish. rewrite DataSets_set_has_data. destruct (nf_has_data m).
  - rewrite v9_JSONMarshal_run, v9_last_err_marshalable.
    + eexists. split; [done|]. cbn [nc_MQCh nf_send_mq]. unfold try_send.
      destruct (Z.ltb_spec (len (nc_MQCh c)) chan_cap); [done|lia].
    + destruct Hm as (_ & _ & Hd). by apply Forall_concat.
  - exists c. by rewrite app_nil_r.
Qed.

Lemma netflowV9Worker_round_message fuel d env (c : NFCollector (MC:=MC)) :
  nf_datagram_wf fuel d env -> cache_repr env (nc_mCacheNF9 c) -> len (nc_MQCh c) < chan_cap ->
  let g := nf_sem_datagram d env in
  let m := nf_message_of d g in
  exists c', netflowV9Worker_round im unix_now fuel (nf_datagram_msg d) c = (c', Ok tt) /\
    nc_MQCh c' = (nc_MQCh c ++ (if nf_has_data m then [message_text m] else []))%list /\
    cache_repr (sem_env g) (nc_mCacheNF9 c') /\
    nc_DecodedCount c' = uint64 (nc_DecodedCount c + 1).
Proof.
  intros (Hh & Ht & Hs & Hf & Hd) Hm Hq g m. unfold netflowV9Worker_round.
  destruct (v9_Decode_message im (nd_raddr d) unix_now (nd_header d) (nd_sets d) (nd_trail d) env
    (nc_mCacheNF9 c) (nc_clock c) fuel) as (s' & E & Hc & _); try done.
  fold (nf_sem_datagram d env) in E, Hc. fold g in E, Hc. fold (nf_message_of d g) in E. fold m in E.
  assert (exists c2, nf_worker_decode im unix_now fuel (nf_datagram_msg d) c = (c2, Ok (Some m)) /\
    nc_mCacheNF9 c2 = st_mem s' /\ nc_MQCh c2 = nc_MQCh c /\
    nc_DecodedCount c2 = nc_DecodedCount c) as (c2 & Ed & F1 & F2 & F3).
  { unfold nf_worker_decode. rewrite bind_get. cbn [nf_datagram_msg nm_raddr nm_body]. rewrite E.
    rewrite bind_modify. destruct (combineErrors _); unmonad; by eexists. }
  rewrite (bind_run Ed), bind_modify.
  destruct (nf_worker_publish_text m (nf_count_decoded c2)) as (c' & Ep & G1 & G2 & G3).
  - by apply nf_marshalable_message_of.
  - cbn [nf_count_decoded nc_MQCh]. by rewrite F2.
  - exists c'. split; [done|]. cbn [nf_count_decoded nc_MQCh nc_mCacheNF9 nc_DecodedCount] in *.
    by rewrite G1, G2, G3, F1, F2, F3.
Qed.

(** What a NetFlow v9 worker publishes.  On every stream of datagrams that encode
    well-formed export packets with marshalable fields, from any exporters, the worker
    counts every packet and publishes, in order, one JSON text per packet that has
    records; each text parses to the JSON object of that packet as the wire format means
    it, read with the templates known when it arrived.  At the end the cache holds the
    announced templates. *)
Theorem netflowV9Worker_publishes (fuel : nat) (ds : list nf_datagram)
    (env : gmap Z TemplateRecord) (c : NFCollector (MC:=MC))
    (Hwf : nf_stream_wf fuel ds env) (Hm : cache_repr env (nc_mCacheNF9 c))
    (Hq : len (nc_MQCh c) + len ds <= chan_cap) (Hn : 0 <= nc_DecodedCount c < 2 ^ 64) :
  exists c' texts,
    netflowV9Worker im unix_now fuel (map nf_datagram_msg ds) c = (c', Ok tt) /\
    nc_MQCh c' = (nc_MQCh c ++ texts)%list /\
    map parse_json texts =
      map (fun m => Some (json_message m)) (List.filter nf_has_data (nf_sem_stream ds env).1) /\
    cache_repr (nf_sem_stream ds env).2 (nc_mCacheNF9 c') /\
    nc_DecodedCount c' = uint64 (nc_DecodedCount c + len ds).
Proof.
  revert env c Hwf Hm Hq Hn. induction ds as [|d ds IH]; intros env c Hwf Hm Hq Hn.
  { exists c, []. rewrite app_nil_r, len_nil, Z.add_0_r, (wrapU_small 64) by done. done. }
  destruct Hwf as [Hd Hwf]. rewrite len_cons in Hq. pose proof (len_nonneg ds).
  destruct (netflowV9Worker_round_message fuel d env c) as (c1 & E & F1 & F2 & F3); try done; [lia|].
  set (g := nf_sem_datagram d env) in *. set (m := nf_message_of d g) in *.
  destruct (IH (sem_env g) c1) as (c' & texts & E' & G1 & G2 & G3 & G4); try done.
  - rewrite F1, len_app. destruct (nf_has_data m); rewrite ?len_cons, ?len_nil; lia.
  - rewrite F3. apply (wrapU_range 64). lia.
  - exists c', ((if nf_has_data m then [message_text m] else []) ++ texts)%list.
    cbn [map netflowV9Worker]. rewrite (bind_run E). split; [done|].
    split; [rewrite G1, F1; by rewrite app_assoc|].
    cbn [nf_sem_stream]. fold g m. destruct (nf_sem_stream ds (sem_env g)) as [ms env'].
    cbn [fst snd] in *. split; [|split; [done|]].
    2: { rewrite G4, F3, len_cons. unfold wrapU. rewrite Zplus_mod_idemp_l. f_equal. lia. }
    cbn [List.filter]. rewrite map_app, G2. destruct (nf_has_data m); [|done]. cbn [map app]. f_equal.
    destruct Hd as (Hh & _ & _ & _ & Hd). pose proof (nf_marshalable_message_of d g Hh Hd).
    rewrite v9_message_text_print by done. by apply parse_json_print, v9_json_message_safe.
Qed.

(** What it offers, whatever the channel. *)
Lemma netflowV9Worker_offered (fuel : nat) (ds : list nf_datagram) (env : gmap Z TemplateRecord)
    (c : NFCollector (MC:=MC)) (o : list string) :
  nf_stream_wf fuel ds env -> cache_repr env (nc_mCacheNF9 c) -> 0 <= nc_DecodedCount c < 2 ^ 64 ->
  exists c',
    netflowV9Worker_offers im unix_now fuel (map nf_datagram_msg ds) o c =
      (c', Ok (o ++ map message_text (List.filter nf_has_data (nf_sem_stream ds env).1))%list) /\
    nc_DecodedCount c' = uint64 (nc_DecodedCount c + len ds).
Proof.
  revert env c o. induction ds as [|d ds IH]; intros env c o Hwf Hm Hn.
  { exists c. cbn. rewrite app_nil_r, Z.add_0_r, (wrapU_small 64) by done. done. }
  destruct Hwf as [Hd Hwf].
  destruct (netflowV9Worker_round_message fuel d env (nf_no_offers c)) as (c1 & E & F1 & F2 & F3); try done.
  cbn [nf_no_offers nc_MQCh nc_DecodedCount app] in *.
  set (g := nf_sem_datagram d env) in *. set (m := nf_message_of d g) in *.
  destruct (IH (sem_env g) c1 (o ++ nc_MQCh c1)%list) as (c' & E' & G); try done.
  - rewrite F3. apply (wrapU_range 64). lia.
  - exists c'. cbn [map netflowV9Worker_offers nf_sem_stream]. rewrite bind_modify, (bind_run E), bind_get, E'.
    fold g m. destruct (nf_sem_stream ds (sem_env g)) as [ms env']. cbn [fst]. split.
    + rewrite F1, <- app_assoc. cbn [List.filter]. by destruct (nf_has_data m).
    + rewrite G, F3, len_cons. unfold wrapU. rewrite Zplus_mod_idemp_l. f_equal. lia.
Qed.

(** The texts parse to the packets. *)
Lemma nf_stream_texts_parse fuel ds env :
  nf_stream_wf fuel ds env ->
  map parse_json (map message_text (List.filter nf_has_data (nf_sem_stream ds env).1)) =
    map (fun m => Some (json_message m)) (List.filter nf_has_data (nf_sem_stream ds env).1).
Proof.
  revert env. induction ds as [|d ds IH]; intros env; [done|]. cbn [nf_stream_wf nf_sem_stream].
  intros [(Hh & _ & _ & _ & Hd) Hwf]. specialize (IH _ Hwf).
  pose proof (nf_marshalable_message_of d _ Hh Hd).
  destruct (nf_sem_stream ds _) as [ms env']. cbn [fst List.filter] in *.
  destruct (nf_has_data _); [|done]. cbn [map]. f_equal; [|done].
  rewrite v9_message_text_print by done. by apply parse_json_print, v9_json_message_safe.
Qed.

(** A NetFlow v9 worker survives every sequence of datagrams: whatever bytes arrive
    from whatever addresses, no round panics, the template cache stays well-formed, and
    the queue never grows beyond its capacity. *)
Theorem netflowV9Worker_safe (fuel : nat) (msgs : list NetflowV9UDPMsg) (c : NFCollector (MC:=MC))
    (Hc : nf_collector_ok c) :
  nf_collector_ok (netflowV9Worker im unix_now fuel msgs c).1 /\ (netflowV9Worker im unix_now fuel msgs c).2 <> Panic.
Proof.
  destruct (safe_netflowV9Worker fuel msgs c Hc) as [H1 H2]. split; [done|]. by destruct (_).2.
Qed.

End worker_facts.

(** ** Examples *)

Definition fresh_nf_collector : NFCollector (MC:=MemCache TemplateRecord) :=
  mkNFCollector (GetCache None) 0 0 [] [].

Lemma netflowV9Worker_safe_witness :
  (netflowV9Worker InfoModel (fun _ => 0) 20
     [mkNFUDPMsg (bytes [192; 0; 2; 1]) (bytes [0; 10; 255])] fresh_nf_collector).2 <> Panic.
Proof.
  apply (netflowV9Worker_safe InfoModel (fun _ => 0)). split; [apply v9_cache_ok_fresh|]. by split.
Defined.

(** An exporter that announces a template, then sends two records of it. *)
Definition example_nf_stream : list nf_datagram :=
  [mkNFDatagram (bytes [192; 0; 2; 1]) example_header
     [WTemplates false [WTemplate 256 [mkFieldSpecifier 8 4; mkFieldSpecifier 4 1]] []] [];
   mkNFDatagram (bytes [192; 0; 2; 1]) example_header
     [WData 256 [bytes [192; 0; 2; 1; 6]; bytes [192; 0; 2; 2; 17]] (bytes [0; 0])] []].

(** An announcement followed by records of the announced template is well-formed. *)
Ltac nf_stream_wf_example :=
  split; [|split; [|exact I]]; (split; [done|]); (split; [done|]); (split; [|split; [done|]]);
  [ refine (conj _ I); split; [done|]; split; [done|]; by repeat constructor
  | constructor
  | refine (conj _ I); split; [done|]; split; [done|]; split; [done|]; intros tr Htr;
    vm_compute in Htr; injection Htr as <-; split; [done|]; by repeat constructor
  | match goal with |- Forall _ ?l =>
      let l' := eval vm_compute in l in replace l with l' by (vm_compute; reflexivity) end;
    repeat constructor; done ].

Lemma example_nf_stream_wf : nf_stream_wf InfoModel 100 example_nf_stream ∅.
Proof. nf_stream_wf_example. Qed.

Lemma netflowV9Worker_publishes_witness :
  exists c' texts,
    netflowV9Worker InfoModel (fun _ => 0) 100 (map nf_datagram_msg example_nf_stream)
      fresh_nf_collector = (c', Ok tt) /\
    nc_MQCh c' = texts /\ length texts = 1%nat /\ nc_DecodedCount c' = 2.
Proof.
  destruct (netflowV9Worker_publishes InfoModel (fun _ => 0) 100 example_nf_stream ∅
    fresh_nf_collector) as (c' & texts & E & Hq & Ht & _ & Hn).
  - apply example_nf_stream_wf.
  - apply v9_cache_repr_fresh.
  - done.
  - done.
  - exists c', texts. split; [exact E|]. split; [exact Hq|]. split; [|by rewrite Hn].
    apply (f_equal length) in Ht. rewrite !length_map in Ht. rewrite Ht. vm_compute. reflexivity.
Defined.
