(* ===== verification/NetflowWorkers.v ===== *)
(** The workers of the NetFlow v9 collector, several at once on the shared template cache;
    see IpfixWorkers.v. *)

From S2P Require Import Prelude GoNet InfoModel Interpret TemplateCache Interleave Reader Json Marshal Collector MQRuns NetflowDecoder NetflowFacts NetflowMessage NetflowProps NetflowShared MarshalNetflow NetflowCollector.

Open Scope Z_scope.

(** What a worker leaves besides the templates. *)
Record NFWorkerOutput : Type := mkNFWorkerOutput {
  nwo_offers : list string; nwo_DecodedCount : Z; nwo_log : list GoError
}.

Definition netflowV9Worker_program (im : IANAInfoModel) (unix_now : nat -> Z) (fuel : nat)
    (msgs : list NetflowV9UDPMsg) : program TemplateRecord NFWorkerOutput := fun MC O m =>
  let '(c, o) := netflowV9Worker_offers im unix_now fuel msgs [] (mkNFCollector m 0 0 [] []) in
  (nc_mCacheNF9 c,
   match o with
   | Ok offers => Ok (mkNFWorkerOutput offers (nc_DecodedCount c) (nc_log c))
   | Err _ e => Err None e
   | Panic => Panic
   | NoFuel => NoFuel
   end).

(** ** The worker on two stores *)

Section worker_sim.
Context (im : IANAInfoModel) (unix_now : nat -> Z) (fuel : nat).
Context {MC1 MC2 : Type} (O1 : StoreOps TemplateRecord MC1) (O2 : StoreOps TemplateRecord MC2).
Context (R E : MC1 -> MC2 -> Prop) (HS : store_sim any_addr tr_wf O1 O2 R E).

Definition nc_rel (c1 : NFCollector (MC:=MC1)) (c2 : NFCollector (MC:=MC2)) : Prop :=
  R (nc_mCacheNF9 c1) (nc_mCacheNF9 c2) /\ nc_clock c1 = nc_clock c2 /\
  nc_DecodedCount c1 = nc_DecodedCount c2 /\ nc_MQCh c1 = nc_MQCh c2 /\ nc_log c1 = nc_log c2.

Definition nc_esc (c1 : NFCollector (MC:=MC1)) (c2 : NFCollector (MC:=MC2)) : Prop :=
  E (nc_mCacheNF9 c1) (nc_mCacheNF9 c2).

Lemma stays_nc_same {A} (m : M (NFCollector (MC:=MC2)) A) :
  (forall c, nc_mCacheNF9 (m c).1 = nc_mCacheNF9 c) -> stays nc_esc m.
Proof. intros H. apply stays_any. intros c1 c2. unfold nc_esc. by rewrite H. Qed.

Lemma stays_nf_worker_decode msg : stays nc_esc (nf_worker_decode im unix_now fuel msg).
Proof.
  apply stays_any. intros c1 c2 HE. unfold nf_worker_decode. rewrite bind_get.
  pose proof (v9_stays_Decode im O1 O2 any_addr R E HS (nm_raddr msg) unix_now fuel
    (NewDecoder [] (nc_mCacheNF9 c1) 0)
    (NewDecoder (nm_body msg) (nc_mCacheNF9 c2) (nc_clock c2)) HE) as [H _].
  destruct (Decode _ _ _ _ _) as [d o]. rewrite bind_modify. by destruct o.
Qed.

Lemma sim_nf_worker_decode msg :
  sim nc_rel nc_esc eq (nf_worker_decode im unix_now fuel msg) (nf_worker_decode im unix_now fuel msg).
Proof.
  intros c1 c2 (HR & Hc & Hn & Hp & Hl). unfold nf_worker_decode. rewrite !bind_get, Hc.
  pose proof (v9_sim_Decode im O1 O2 any_addr R E HS (nm_raddr msg) I unix_now fuel
    (NewDecoder (nm_body msg) (nc_mCacheNF9 c1) (nc_clock c2))
    (NewDecoder (nm_body msg) (nc_mCacheNF9 c2) (nc_clock c2))) as H.
  specialize (H ltac:(by split_and!)).
  destruct (Decode im _ _ _ (NewDecoder _ (nc_mCacheNF9 c1) _)) as [d1 [a1|v1 e1| |]],
    (Decode im _ _ _ (NewDecoder _ (nc_mCacheNF9 c2) _)) as [d2 [a2|v2 e2| |]];
    cbn [fst snd] in H; cbn [res_rel] in H; try tauto; rewrite !bind_modify;
    try (destruct H as [(H1 & H2 & H3 & H4) H]).
  - subst a2. split; [|done]. by split_and!.
  - destruct H as [Hv ->]. split; [split_and!; try done; cbn; by rewrite Hl|].
    cbn. by inversion Hv; subst.
  - split; [|done]. by split_and!.
Qed.

Lemma sim_nf_worker_publish m : sim nc_rel nc_esc eq (nf_worker_publish m) (nf_worker_publish m).
Proof.
  unfold nf_worker_publish. destruct (DataSets_set m); [|by apply sim_ret]. rewrite v9_JSONMarshal_run.
  destruct (last_err _ _); apply sim_modify; intros c1 c2 (? & ? & ? & Hp & Hl); split_and!; try done;
    cbn; by rewrite ?Hp, ?Hl.
Qed.

Lemma stays_nf_round_rest (o : option Message) : stays nc_esc
  (match o with None => mret tt | Some m => modify nf_count_decoded;; nf_worker_publish m end).
Proof.
  destruct o; [|apply stays_ret]. apply stays_bind; [by apply stays_nc_same|].
  intros _. apply stays_nc_same. intros c. unfold nf_worker_publish. destruct (DataSets_set _); [|done].
  rewrite v9_JSONMarshal_run. by destruct (last_err _ _).
Qed.

Lemma sim_nf_round msg : sim nc_rel nc_esc eq (netflowV9Worker_round im unix_now fuel msg)
  (netflowV9Worker_round im unix_now fuel msg).
Proof.
  unfold netflowV9Worker_round. eapply sim_bind; [apply sim_nf_worker_decode|apply stays_nf_round_rest|].
  intros o ? <-. destruct o as [m|]; [|by apply sim_ret]. eapply sim_bind with (Q := eq).
  - apply sim_modify. intros c1 c2 (? & ? & Hn & ? & ?). split_and!; try done. cbn. by rewrite Hn.
  - intros _. apply stays_nc_same. intros c. unfold nf_worker_publish. destruct (DataSets_set _); [|done].
    rewrite v9_JSONMarshal_run. by destruct (last_err _ _).
  - intros _ _ _. apply sim_nf_worker_publish.
Qed.

Lemma stays_nf_round msg : stays nc_esc (netflowV9Worker_round im unix_now fuel msg).
Proof. apply stays_bind; [apply stays_nf_worker_decode|apply stays_nf_round_rest]. Qed.

Lemma stays_nf_worker msgs o : stays nc_esc (netflowV9Worker_offers im unix_now fuel msgs o).
Proof.
  revert o. induction msgs as [|msg msgs IH]; intros o; cbn [netflowV9Worker_offers]; [apply stays_ret|].
  apply stays_bind; [by apply stays_nc_same|]. intros _. apply stays_bind; [apply stays_nf_round|]. intros _.
  apply stays_bind; [apply stays_get|]. intros c. apply IH.
Qed.

Lemma sim_nf_worker msgs o : sim nc_rel nc_esc eq (netflowV9Worker_offers im unix_now fuel msgs o)
  (netflowV9Worker_offers im unix_now fuel msgs o).
Proof.
  revert o. induction msgs as [|msg msgs IH]; intros o; cbn [netflowV9Worker_offers]; [by apply sim_ret|].
  assert (forall o, stays nc_esc (c ← get; netflowV9Worker_offers im unix_now fuel msgs (o ++ nc_MQCh c))) as Hs.
  { intros o'. apply stays_bind; [apply stays_get|]. intros c. apply stays_nf_worker. }
  eapply sim_bind with (Q := eq).
  - apply sim_modify. intros c1 c2 (? & ? & ? & ? & ?). by split_and!.
  - intros _. apply stays_bind; [apply stays_nf_round|]. intros _. apply Hs.
  - intros _ _ _. eapply sim_bind with (Q := eq); [apply sim_nf_round|intros _; apply Hs|]. intros _ _ _.
    eapply sim_bind; [apply sim_get|intros; apply stays_nf_worker|].
    intros c1 c2 (_ & _ & _ & Hq & _). rewrite Hq. apply IH.
Qed.

End worker_sim.

#[global] Instance netflowV9Worker_parametric im unix_now fuel msgs :
  Parametric tr_wf (netflowV9Worker_program im unix_now fuel msgs).
Proof.
  intros MC1 MC2 O1 O2 R E HS m1 m2 Hm. unfold netflowV9Worker_program.
  pose proof (sim_nf_worker im unix_now fuel O1 O2 R E HS msgs []
    (mkNFCollector m1 0 0 [] []) (mkNFCollector m2 0 0 [] []) ltac:(by split_and!)) as H.
  destruct (netflowV9Worker_offers _ _ _ _ _ (mkNFCollector m1 _ _ _ _)) as [c1 [a1|v1 e1| |]],
    (netflowV9Worker_offers _ _ _ _ _ (mkNFCollector m2 _ _ _ _)) as [c2 [a2|v2 e2| |]];
    cbn [fst snd res_rel] in *; try tauto;
    try (destruct H as [(H1 & H2 & H3 & H4 & H5) H]; split; [done|]; try done).
  - by rewrite H, H3, H5.
  - by destruct H as [_ ->].
Qed.

(** ** How a worker ends *)

Section worker_ends.
Context (im : IANAInfoModel) (unix_now : nat -> Z) (fuel : nat).

(** It does not return an error, on any store. *)
Lemma nf_round_no_error {MC} `{!StoreOps TemplateRecord MC} msg (c c' : NFCollector (MC:=MC)) v e :
  netflowV9Worker_round im unix_now fuel msg c <> (c', Err v e).
Proof.
  unfold netflowV9Worker_round, nf_worker_decode, nf_worker_publish. unmonad.
  destruct (Decode _ _ _ _ _) as [d [m|[m|] e'| |]]; try done; cbn;
    destruct (DataSets_set m); try done; rewrite v9_JSONMarshal_run; by destruct (last_err _ _).
Qed.

Lemma nf_offers_no_error {MC} `{!StoreOps TemplateRecord MC} msgs o (c c' : NFCollector (MC:=MC)) v e :
  netflowV9Worker_offers im unix_now fuel msgs o c <> (c', Err v e).
Proof.
  revert o c. induction msgs as [|msg msgs IH]; intros o c; [done|]. cbn [netflowV9Worker_offers].
  rewrite bind_modify. unfold mbind, M_bind.
  pose proof (nf_round_no_error msg (nf_no_offers c)) as H.
  destruct (netflowV9Worker_round _ _ _ _ (nf_no_offers c)) as [c1 [[]|v1 e1| |]]; try done; [apply IH|].
  by destruct (H c1 v1 e1).
Qed.

(** A worker that runs out of rounds, alone on a cache: after some of its datagrams, each
    finished, it comes to one with a FlowSet whose record loop never ends. *)
Definition nf_loops_forever {MC} `{!TemplateStore TemplateRecord MC} (msgs : list NetflowV9UDPMsg) (m : MC) : Prop :=
  exists pre msg post c offers,
    msgs = pre ++ msg :: post /\
    netflowV9Worker_offers im unix_now fuel pre [] (mkNFCollector m 0 0 [] []) = (c, Ok offers) /\
    reaches_stuck im (nm_raddr msg) unix_now fuel
      (Decode_start (nm_raddr msg) (NewDecoder (nm_body msg) (nc_mCacheNF9 c) (nc_clock c))).

Context {MC : Type} `{!TemplateStore TemplateRecord MC}.

Lemma nf_round_nofuel msg (c c' : NFCollector (MC:=MC)) :
  cache_ok (nc_mCacheNF9 c) -> len (nm_body msg) < Z.of_nat fuel ->
  netflowV9Worker_round im unix_now fuel msg c = (c', NoFuel) ->
  reaches_stuck im (nm_raddr msg) unix_now fuel
    (Decode_start (nm_raddr msg) (NewDecoder (nm_body msg) (nc_mCacheNF9 c) (nc_clock c))).
Proof.
  intros Hc Hf E. apply v9_Decode_nofuel; [done|done|]. revert E.
  unfold netflowV9Worker_round, nf_worker_decode, nf_worker_publish. unmonad. cbn.
  destruct (Decode _ _ _ _ _) as [d [m|[m|] e'| |]]; try done; cbn;
    (destruct (DataSets_set m); try done; rewrite v9_JSONMarshal_run; by destruct (last_err _ _)).
Qed.

Lemma nf_offers_nofuel msgs o (c c' : NFCollector (MC:=MC)) :
  nf_collector_ok c -> Forall (fun msg => len (nm_body msg) < Z.of_nat fuel) msgs ->
  netflowV9Worker_offers im unix_now fuel msgs o c = (c', NoFuel) ->
  exists pre msg post c1 o1,
    msgs = pre ++ msg :: post /\
    netflowV9Worker_offers im unix_now fuel pre o c = (c1, Ok o1) /\
    reaches_stuck im (nm_raddr msg) unix_now fuel
      (Decode_start (nm_raddr msg) (NewDecoder (nm_body msg) (nc_mCacheNF9 c1) (nc_clock c1))).
Proof.
  intros Hc Hf. revert o c Hc. induction Hf as [|msg msgs Hl Hf IH]; intros o c Hc; [done|].
  cbn [netflowV9Worker_offers]. rewrite bind_modify. unfold mbind, M_bind.
  destruct (safe_netflowV9Worker_round im unix_now fuel msg (nf_no_offers c) (nf_no_offers_ok c Hc)) as [Hs _].
  pose proof (nf_round_nofuel msg (nf_no_offers c)) as Hn.
  destruct (netflowV9Worker_round _ _ _ _ (nf_no_offers c)) as [c1 [[]|v e| |]] eqn:E; try done.
  - intros E'. destruct (IH (o ++ nc_MQCh c1) c1) as (pre & msg' & post & c2 & o2 & -> & E2 & H); [done|done|].
    exists (msg :: pre), msg', post, c2, o2. split; [done|]. split; [|done]. cbn [netflowV9Worker_offers].
    rewrite bind_modify. unfold mbind, M_bind. by rewrite E.
  - intros _. exists [], msg, msgs, c, o. split; [done|]. split; [done|]. apply (Hn c1); [apply Hc|done|done].
Qed.
End worker_ends.

(** ** All interleavings *)

Section workers.
Context (im : IANAInfoModel) {MC : Type} `{!TemplateStore TemplateRecord MC}.
Context (unix_now : nat -> Z) (fuel : nat).

(** One worker for each list of datagrams. *)
Definition netflowV9Workers (msgss : list (list NetflowV9UDPMsg)) :
    list (program TemplateRecord NFWorkerOutput) :=
  map (netflowV9Worker_program im unix_now fuel) msgss.

Lemma netflowV9Workers_parametric msgss : Forall (Parametric tr_wf) (netflowV9Workers msgss).
Proof.
  apply Forall_forall. intros p Hp. apply list_elem_of_In, in_map_iff in Hp as (msgs & <- & _). apply _.
Qed.

Lemma nf_worker_no_error msgss t (sys : System TemplateRecord MC) msgs v e :
  msgss !! t = Some msgs -> worker_result (netflowV9Workers msgss) t sys <> Some (Err v e).
Proof.
  intros Hmsgs. unfold worker_result, netflowV9Workers. rewrite list_lookup_fmap, Hmsgs. cbn [fmap option_fmap option_map].
  destruct (sys_hist sys !! t) as [h|]; [|done]. unfold replay, netflowV9Worker_program.
  pose proof (nf_offers_no_error im unix_now fuel msgs [] (mkNFCollector (mkScript h Running) 0 0 [] [])) as H.
  destruct (netflowV9Worker_offers _ _ _ _ _ _) as [c [o|v1 e1| |]]; destruct (nc_mCacheNF9 c) as [l []]; try done;
    intros ?; by apply (H c v1 e1).
Qed.

(** The packets of a stream that have records. *)
Definition nf_stream_messages (env : gmap Z TemplateRecord) (ds : list nf_datagram) : list Message :=
  List.filter nf_has_data (nf_sem_stream im ds env).1.

(** The texts that the workers offer the message queue, when they have returned. *)
Definition nf_offered (ps : list (program TemplateRecord NFWorkerOutput)) (sys : System TemplateRecord MC) :
    list (list string) :=
  map (fun t => match worker_result ps t sys with Some (Ok out) => nwo_offers out | _ => [] end) (seq 0 (length ps)).

Definition nf_all_returned (ps : list (program TemplateRecord NFWorkerOutput)) (sys : System TemplateRecord MC) : Prop :=
  forall t, (t < length ps)%nat -> is_Some (worker_result ps t sys).

Section streams.
Context (msgss : list (list NetflowV9UDPMsg)) (env : gmap Z TemplateRecord) (m : MC) (ls : list nat)
  (sys : System TemplateRecord MC).
Hypotheses (Hm : cache_repr env m)
  (He : exec_with (worker_step (netflowV9Workers msgss)) ls (sys_start (netflowV9Workers msgss) m) = Some sys).

(** How each worker stands. *)
Lemma nf_worker_stands t msgs :
  msgss !! t = Some msgs ->
  match worker_result (netflowV9Workers msgss) t sys with
  | None => is_Some (worker_step (netflowV9Workers msgss) t sys)
  | Some (Ok _) => True
  | Some NoFuel =>
      race_free sys -> Forall (fun msg => len (nm_body msg) < Z.of_nat fuel) msgs ->
      nf_loops_forever im unix_now fuel msgs m
  | Some _ => False
  end.
Proof using Hm He.
  intros Hmsgs. pose proof (sys_inv_exec tr_wf _ (netflowV9Workers_parametric msgss) ls m sys (proj1 Hm) He) as Hi.
  assert (netflowV9Workers msgss !! t = Some (netflowV9Worker_program im unix_now fuel msgs)) as Ep
    by (unfold netflowV9Workers; by rewrite list_lookup_fmap, Hmsgs).
  pose proof (worker_progress tr_wf _ (netflowV9Workers_parametric msgss) t sys Hi (lookup_lt_Some _ _ _ Ep)) as Hp.
  destruct (worker_result (netflowV9Workers msgss) t sys) as [[out|v e| |]|] eqn:Er; try done.
  - by apply (nf_worker_no_error msgss t sys msgs v e Hmsgs).
  - intros Hr Hf. destruct (worker_alone tr_wf _ (netflowV9Workers_parametric msgss) m ls sys t _ _ (proj1 Hm) He Hr Ep Er)
      as (mt & Ha & _). unfold netflowV9Worker_program in Ha.
    destruct (netflowV9Worker_offers _ _ _ _ _ _) as [c [o|v e| |]] eqn:E; try done.
    apply (nf_offers_nofuel im unix_now fuel msgs _ _ c); [split_and!; [apply Hm|done..]|done|done].
Qed.

(** A worker that has returned offered the texts of its packets. *)
Lemma nf_worker_texts t ds o :
  race_free sys -> msgss !! t = Some (map nf_datagram_msg ds) -> nf_stream_wf im fuel ds env ->
  worker_result (netflowV9Workers msgss) t sys = Some o ->
  exists out, o = Ok out /\ nwo_offers out = map message_text (nf_stream_messages env ds) /\
    nwo_DecodedCount out = uint64 (len ds).
Proof using Hm He.
  intros Hr Hds Hs Ho.
  assert (netflowV9Workers msgss !! t =
    Some (netflowV9Worker_program im unix_now fuel (map nf_datagram_msg ds))) as Ep
    by (unfold netflowV9Workers; by rewrite list_lookup_fmap, Hds).
  destruct (worker_alone tr_wf _ (netflowV9Workers_parametric msgss) m ls sys t _ o (proj1 Hm) He Hr Ep Ho)
    as (mt & Ha & _).
  destruct (netflowV9Worker_offered im unix_now fuel ds env (mkNFCollector m 0 0 [] []) []) as (c' & E & Hn); try done.
  unfold netflowV9Worker_program in Ha. rewrite E in Ha. injection Ha as <- <-.
  eexists. split; [reflexivity|]. by split.
Qed.
End streams.

Lemma nf_offered_texts (dss : list (list nf_datagram)) env (m : MC) ls (sys : System TemplateRecord MC) :
  let ps := netflowV9Workers (map (map nf_datagram_msg) dss) in
  cache_repr env m -> exec_with (worker_step ps) ls (sys_start ps m) = Some sys -> race_free sys ->
  Forall (fun ds => nf_stream_wf im fuel ds env) dss -> nf_all_returned ps sys ->
  nf_offered ps sys = map (map message_text) (map (nf_stream_messages env) dss).
Proof.
  intros ps Hm He Hr Hwf Hall. apply list_eq. intros t. unfold nf_offered. rewrite !list_lookup_fmap.
  destruct (dss !! t) as [ds|] eqn:Eds.
  - assert (t < length ps)%nat as Hlt.
    { unfold ps, netflowV9Workers. rewrite !length_map. by eapply lookup_lt_Some. }
    rewrite lookup_seq_lt by done. cbn. destruct (Hall t Hlt) as [o Ho]. rewrite Ho.
    eapply Forall_lookup_1 in Hwf as Hs; [|exact Eds].
    destruct (nf_worker_texts _ env m ls sys Hm He t ds o Hr) as (out & -> & Ht & _); try done.
    + by rewrite list_lookup_fmap, Eds.
    + by rewrite Ht.
  - rewrite lookup_seq_ge; [done|]. unfold ps, netflowV9Workers. rewrite !length_map. by apply lookup_ge_None.
Qed.

(** C3: what several NetFlow v9 workers do at once.  In every interleaving at every access
    to the shared cache, whatever the datagrams, the cache stays well-formed, no worker
    panics, and one that is at an access can make it; one that uses up a loop bound above
    the length of its datagrams, in an interleaving without races on templates, is in the
    record loop that never ends.  For streams of well-formed packets with marshalable
    fields, in the interleavings without races, each worker that has returned has counted
    its datagrams and offered the message queue, in order, exactly the JSON texts of the
    packets its own stream means; and when all have returned, in whatever order their offers
    and the producer meet at the one channel, every packet is in exactly one place: still to
    be offered, in the channel, with the producer, or dropped, which happens only after 1000
    were taken in. *)
Theorem netflow_workers_publish (dss : list (list nf_datagram)) (env : gmap Z TemplateRecord)
    (m : MC) (ls : list nat) (sys : System TemplateRecord MC) (msgss : list (list NetflowV9UDPMsg))
    (Hm : cache_repr env m)
    (He : exec_with (worker_step (netflowV9Workers msgss)) ls
            (sys_start (netflowV9Workers msgss) m) = Some sys) :
  let ps := netflowV9Workers msgss in
  (cache_ok (sys_cache sys) /\
   forall t msgs, msgss !! t = Some msgs ->
     match worker_result ps t sys with
     | None => is_Some (worker_step ps t sys)
     | Some (Ok _) => True
     | Some NoFuel =>
         race_free sys -> Forall (fun msg => len (nm_body msg) < Z.of_nat fuel) msgs ->
         nf_loops_forever im unix_now fuel msgs m
     | Some _ => False
     end) /\
  (race_free sys -> msgss = map (map nf_datagram_msg) dss ->
   Forall (fun ds => nf_stream_wf im fuel ds env) dss ->
   (forall t ds o, dss !! t = Some ds -> worker_result ps t sys = Some o ->
     exists out, o = Ok out /\
       map parse_json (nwo_offers out) =
         map (fun msg => Some (json_message msg)) (nf_stream_messages env ds) /\
       nwo_DecodedCount out = uint64 (len ds)) /\
   (nf_all_returned ps sys -> forall pls pb,
     exec_with pub_step pls (pub_start (nf_offered ps sys)) = Some pb ->
     Permutation (map parse_json (concat (pb_todo pb) ++ pb_ch pb ++ pb_taken pb ++ pb_dropped pb))
       (map (fun msg => Some (json_message msg)) (concat (map (nf_stream_messages env) dss))) /\
     len (pb_ch pb) <= 1000 /\
     (pb_dropped pb <> [] -> 1000 <= len (pb_ch pb) + len (pb_taken pb)))).
Proof.
  intros ps. split; [split|].
  - exact (proj1 (sys_inv_exec tr_wf _ (netflowV9Workers_parametric msgss) ls m sys (proj1 Hm) He)).
  - apply (nf_worker_stands msgss env m ls sys Hm He).
  - intros Hr -> Hwf. subst ps.
    assert (forall ds, ds ∈ dss -> map parse_json (map message_text (nf_stream_messages env ds)) =
      map (fun msg => Some (json_message msg)) (nf_stream_messages env ds)) as Hparse.
    { intros ds Hds. apply (nf_stream_texts_parse im fuel). rewrite Forall_forall in Hwf. by apply Hwf. }
    split.
    + intros t ds o Hds Ho. eapply Forall_lookup_1 in Hwf as Hs; [|exact Hds].
      destruct (nf_worker_texts _ env m ls sys Hm He t ds o Hr) as (out & -> & Ht & Hn); try done.
      { by rewrite list_lookup_fmap, Hds. }
      exists out. split; [done|]. rewrite Ht. split; [|done]. apply Hparse. by eapply list_elem_of_lookup_2.
    + intros Hall pls pb Hpub. rewrite (nf_offered_texts dss env m ls sys Hm He Hr Hwf Hall) in Hpub.
      pose proof (pub_inv_exec _ pls pb Hpub) as Hi. split; [|split; [apply Hi|apply Hi]].
      rewrite <- (pub_places _ pb Hi), !concat_map, !map_map. erewrite map_ext_in; [reflexivity|].
      intros ds Hds%list_elem_of_In. by apply Hparse.
Qed.

End workers.

(** ** Examples *)

(** The stream of NetflowCollector.v from another exporter. *)
Definition other_nf_stream : list nf_datagram :=
  map (fun d => mkNFDatagram (bytes [192; 0; 2; 9]) (nd_header d) (nd_sets d) (nd_trail d))
    example_nf_stream.

Abbreviation two_nf_streams := [example_nf_stream; other_nf_stream].

Abbreviation example_nf_workers := (netflowV9Workers InfoModel (fun _ => 0) 100 (map (map nf_datagram_msg) two_nf_streams)).

(** The workers, and then the channel. *)
Definition nf_run_both {MC} `{!StoreOps TemplateRecord MC} (ps : list (program TemplateRecord NFWorkerOutput)) (ls : list nat)
    (m : MC) (pls : list pub_label) : option (System TemplateRecord MC * Publishing string) :=
  sys ← exec_with (worker_step ps) ls (sys_start ps m);
  pb ← exec_with pub_step pls (pub_start (nf_offered ps sys));
  Some (sys, pb).

Lemma nf_run_both_some {MC} `{!StoreOps TemplateRecord MC} (ps : list (program TemplateRecord NFWorkerOutput)) ls (m : MC) pls sys pb :
  nf_run_both ps ls m pls = Some (sys, pb) ->
  exec_with (worker_step ps) ls (sys_start ps m) = Some sys /\ exec_with pub_step pls (pub_start (nf_offered ps sys)) = Some pb.
Proof.
  unfold nf_run_both. destruct (exec_with (worker_step ps) ls (sys_start ps m)) as [sys'|]; [|done]. cbn.
  destruct (exec_with pub_step pls (pub_start (nf_offered ps sys'))) as [pb'|] eqn:E; [|done]. cbn. intros ?. by simplify_eq.
Qed.

(** Both announce, then both look up; the second publishes first, and the producer takes
    its text. *)
Abbreviation two_nf_run :=
  (nf_run_both (MC:=MemCache TemplateRecord) example_nf_workers [0; 1; 1; 0]%nat (GetCache None)
     [Publishes 1; Produces; Publishes 0]).

Definition two_nf_ended (r : System TemplateRecord (MemCache TemplateRecord) * Publishing string) : bool :=
  race_freeb r.1 && forallb (fun t => match worker_result example_nf_workers t r.1 with Some _ => true | None => false end) [0; 1]%nat &&
  match concat (pb_todo r.2), pb_ch r.2, pb_dropped r.2, pb_taken r.2 with [], [_], [], [_] => true | _, _, _, _ => false end.

Lemma two_nf_ended_spec sys pb :
  two_nf_ended (sys, pb) = true ->
  race_free sys /\ nf_all_returned example_nf_workers sys /\
  concat (pb_todo pb) = [] /\ length (pb_ch pb) = 1%nat /\ pb_dropped pb = [] /\ length (pb_taken pb) = 1%nat.
Proof.
  unfold two_nf_ended. cbn [fst snd]. intros [[Hr Hf]%andb_prop Hd]%andb_prop.
  split; [by apply race_freeb_ok|]. split.
  - assert (length example_nf_workers = 2%nat) as Hl by reflexivity. revert Hf Hl. generalize example_nf_workers as ps.
    intros ps Hf Hl t Ht. rewrite Hl in Ht. apply forallb_forall with (x := t) in Hf.
    + by destruct (worker_result ps t sys).
    + destruct t as [|[|t]]; [by left|by right; left|lia].
  - destruct (concat _), (pb_ch pb) as [|? []], (pb_dropped pb); try done. by destruct (pb_taken pb) as [|x []].
Qed.

Lemma two_nf_run_ok : exists r, two_nf_run = Some r /\ two_nf_ended r = true.
Proof. apply eval_some. vm_compute. reflexivity. Qed.

Lemma other_nf_stream_wf : nf_stream_wf InfoModel 100 other_nf_stream ∅.
Proof. nf_stream_wf_example. Qed.

Lemma two_nf_streams_wf : Forall (fun ds => nf_stream_wf InfoModel 100 ds ∅) two_nf_streams.
Proof. constructor; [exact example_nf_stream_wf|]. constructor; [exact other_nf_stream_wf|constructor]. Qed.

(** A datagram with a FlowSet of id 2, whose record loop never ends, at a second worker. *)
Definition nf_loop_msg : NetflowV9UDPMsg :=
  mkNFUDPMsg (bytes [192; 0; 2; 1])
    (bytes [0; 9; 0; 1; 0; 0; 0; 0; 0; 0; 0; 0; 0; 0; 0; 0; 0; 0; 0; 0; 0; 2; 0; 9; 1; 2; 3; 4; 5]).

Abbreviation nf_loop_workers :=
  (netflowV9Workers InfoModel (fun _ => 0) 100 [map nf_datagram_msg example_nf_stream; [nf_loop_msg]]).

Definition nf_loop_state (sys : System TemplateRecord (MemCache TemplateRecord)) : bool :=
  race_freeb sys &&
  match worker_result nf_loop_workers 0 sys, worker_result nf_loop_workers 1 sys with
  | None, Some NoFuel => true | _, _ => false
  end.

Lemma nf_loop_run_ok :
  exists sys, exec_with (worker_step nf_loop_workers) [0]%nat (sys_start nf_loop_workers (GetCache None)) = Some sys /\
    nf_loop_state sys = true.
Proof. apply eval_some. vm_compute. reflexivity. Qed.

Lemma nf_loop_state_spec sys : nf_loop_state sys = true ->
  race_free sys /\ worker_result nf_loop_workers 0 sys = None /\ worker_result nf_loop_workers 1 sys = Some NoFuel.
Proof.
  unfold nf_loop_state. generalize nf_loop_workers as ps. intros ps [Hr H]%andb_prop.
  split; [by apply race_freeb_ok|]. destruct (worker_result ps 0 sys); [done|].
  by destruct (worker_result ps 1 sys) as [[]|].
Qed.

(** The two streams end in the channel and with the producer; with the second datagram
    instead, the first worker can go on after its announcement while the second one loops. *)
Lemma netflow_workers_publish_witness :
  (exists (sys : System TemplateRecord (MemCache TemplateRecord)) (pb : Publishing string),
    exec_with pub_step [Publishes 1; Produces; Publishes 0] (pub_start (nf_offered example_nf_workers sys)) = Some pb /\
    length (pb_taken pb) = 1%nat /\
    Permutation (map parse_json (pb_ch pb ++ pb_taken pb))
      (map (fun msg => Some (json_message msg)) (concat (map (nf_stream_messages InfoModel ∅) two_nf_streams)))) /\
  (exists sys, exec_with (worker_step nf_loop_workers) [0]%nat (sys_start nf_loop_workers (GetCache None)) = Some sys /\
    is_Some (worker_step nf_loop_workers 0 sys) /\
    nf_loops_forever InfoModel (fun _ => 0) 100 [nf_loop_msg] (GetCache (T:=TemplateRecord) None)).
Proof.
  split.
  - destruct two_nf_run_ok as ([sys pb] & E & He). destruct (nf_run_both_some _ _ _ _ _ _ E) as [Es Ep].
    destruct (two_nf_ended_spec sys pb He) as (Hr & Hf & H5 & _ & H7 & H8).
    destruct (netflow_workers_publish InfoModel (fun _ => 0) 100 two_nf_streams ∅ (GetCache None) [0; 1; 1; 0]%nat sys
      (map (map nf_datagram_msg) two_nf_streams) v9_cache_repr_fresh Es) as [_ H].
    destruct (H Hr eq_refl two_nf_streams_wf) as [_ Hc]. destruct (Hc Hf _ pb Ep) as [Hp _].
    exists sys, pb. split; [exact Ep|]. split; [exact H8|]. rewrite H5, H7, app_nil_r in Hp. exact Hp.
  - destruct nf_loop_run_ok as (sys & E & Hs). destruct (nf_loop_state_spec sys Hs) as (Hr & H0 & H1).
    destruct (netflow_workers_publish InfoModel (fun _ => 0) 100 [] ∅ (GetCache None) [0]%nat sys
      [map nf_datagram_msg example_nf_stream; [nf_loop_msg]] v9_cache_repr_fresh E) as [[_ H] _].
    exists sys. split; [exact E|]. split.
    + pose proof (H 0%nat (map nf_datagram_msg example_nf_stream) eq_refl) as Hw. rewrite H0 in Hw. exact Hw.
    + pose proof (H 1%nat [nf_loop_msg] eq_refl) as Hw. rewrite H1 in Hw. apply Hw; [exact Hr|]. repeat constructor.
Defined.
