(* ===== verification/SFlowCollector.v ===== *)
(** The sFlow collector, [src/vflow/sflow.go]: the worker that decodes every received
    datagram and publishes it as JSON.  A datagram that does not decode, or that has no
    flow sample, is dropped silently; one that cannot be marshalled is logged. *)

From S2P Require Import Prelude GoNet Reader Packet SFlow SFlowFacts SFlowWire Json Marshal SFlowJson Collector.

Local Open Scope string_scope.
Open Scope Z_scope.

(** ** Decoded datagrams have texts *)

Section texts.

Ltac keeps_steps :=
  repeat first [apply keeps_fail|apply keeps_panic|apply keeps_nofuel|apply keeps_index
               |apply (keeps_ret _ (fun _ => True)); exact I
               |apply keeps_seq; [|intros ?]].

Lemma keeps_at_ {S} (P : S -> Prop) b i : keeps P (fun _ => True) (at_ b i).
Proof. unfold at_. keeps_steps. Qed.

Lemma keeps_at16 {S} (P : S -> Prop) b i : keeps P (fun _ => True) (at16 b i).
Proof. unfold at16. keeps_steps; apply keeps_at_. Qed.

Definition mac_ok (d : Datalink) : Prop := text_ok (SrcMAC d) /\ text_ok (DstMAC d).

Lemma text_ok_empty : text_ok "".
Proof. by split; [|constructor]. Qed.

Lemma text_ok_mac a : text_ok (HardwareAddr_String a).
Proof. apply text_ok_addr, addr_HardwareAddr. Qed.

Lemma keeps_decodeIEEE802 {S} (P : S -> Prop) b : keeps P mac_ok (decodeIEEE802 b).
Proof.
  unfold decodeIEEE802. destruct (len b <? 14); [apply keeps_fail|].
  apply keeps_seq; [apply keeps_at16|]. intros t. destruct (negb _).
  - apply (keeps_bind _ _ _ _ _ (keeps_slice _ _ _ _)). intros ? _.
    apply (keeps_bind _ _ _ _ _ (keeps_slice _ _ _ _)). intros ? _.
    apply keeps_ret. split; apply text_ok_mac.
  - apply keeps_ret. split; apply text_ok_empty.
Qed.

Lemma keeps_slice_any {S A} (P : S -> Prop) (b : list A) lo hi : keeps P (fun _ => True) (slice b lo hi).
Proof. intros s Hs. destruct (keeps_slice P b lo hi s Hs) as [H _]. split; [done|]. by destruct (_).2. Qed.

Lemma keeps_advance n : keeps packet_ok (fun _ => True) (advance_data n).
Proof.
  unfold advance_data. apply keeps_seq; [by apply keeps_state|]. intros p.
  apply keeps_seq; [apply keeps_slice_any|]. intros d. by apply keeps_modify.
Qed.

Lemma keeps_decodeEthernet : keeps packet_ok (fun _ => True) decodeEthernet.
Proof.
  unfold decodeEthernet. apply keeps_seq; [by apply keeps_state|]. intros p.
  destruct (_ <? 14); [apply keeps_fail|].
  apply (keeps_bind _ _ _ _ _ (keeps_decodeIEEE802 _ _)). intros d Hd.
  apply (keeps_bind _ mac_ok).
  - destruct (_ =? _); [|by apply keeps_ret]. apply (keeps_seq _ _ (remove_tag (pdata p))).
    + unfold remove_tag. keeps_steps; apply keeps_at16 || apply keeps_slice_any.
    + intros [vlan rest]. apply keeps_seq; [by apply keeps_modify|]. intros _.
      apply (keeps_bind _ _ _ _ _ (keeps_decodeIEEE802 _ _)). intros d' Hd'. by apply keeps_ret.
  - intros d' [H1 H2]. apply keeps_seq; [|intros _; apply keeps_advance].
    apply keeps_modify. intros q (_ & _ & H3). done.
Qed.

Lemma packet_ok_network m : m = decodeIPv4Header \/ m = decodeIPv6Header \/ m = decodeNextLayer ->
  keeps packet_ok (fun _ => True) m.
Proof.
  intros Hm p (H1 & H2 & H3). split; [|by destruct (_).2]. destruct Hm as [->|[->| ->]].
  - rewrite decodeIPv4Header_eq. case_test; [done|]. split; [done|]. split; [done|].
    split; apply text_ok_addr, addr_IP; left; unfold len in *; rewrite length_take, length_drop; lia.
  - rewrite decodeIPv6Header_eq. case_test; [done|]. split; [done|]. split; [done|].
    split; apply text_ok_addr, addr_IP; right; unfold len in *; rewrite length_take, length_drop; lia.
  - assert (packet_ok p) by done. rewrite decodeNextLayer_eq.
    destruct (L3 p) as [l|] eqn:E; [|done]. destruct (layer4 _ _) as [[? ?]|]; [|done].
    split; [done|]. split; [done|]. done.
Qed.

Lemma Decoder_ok b proto p : packet_ok p -> packet_ok (Decoder b proto p).1.
Proof.
  intros Hp. apply (fun H => proj1 ((H : keeps packet_ok (fun _ => True) (Decoder b proto)) p Hp)).
  unfold Decoder, decodeEthernetHeader. apply keeps_seq; [by apply keeps_modify|]. intros _.
  repeat first [case_match|apply keeps_fail|apply keeps_decodeEthernet|by apply keeps_state
               |apply packet_ok_network; by auto|apply keeps_seq; [|intros ?]].
Qed.

End texts.

Section datagrams.

Definition yields {A} (Q : A -> Prop) (m : M SReader A) : Prop := keeps (fun _ => True) Q m.

Lemma yields_any {A} (m : M SReader A) : yields (fun _ => True) m.
Proof. intros r _. split; [done|]. by destruct (_).2. Qed.

Lemma yields_seq {A B} (R : B -> Prop) (m : M SReader A) (k : A -> M SReader B) :
  (forall a, yields R (k a)) -> yields R (m ≫= k).
Proof. intros Hk. apply keeps_seq; [apply yields_any|done]. Qed.

Lemma yields_bind_ret {A B} (Q : A -> Prop) (R : B -> Prop) (m : M SReader A) (f : A -> B) :
  yields Q m -> (forall a, Q a -> R (f a)) -> yields R (a ← m; mret (f a)).
Proof. intros Hm HR. apply (keeps_bind _ _ _ _ _ Hm). intros a Ha. by apply keeps_ret, HR. Qed.

Lemma yields_Read_short n : 0 <= n -> yields (fun b => len b = n) (Read_short n).
Proof.
  intros Hn r _. split; [done|]. unfold Read_short. destruct (Z.eqb_spec (len (unread r)) 0); [done|].
  cbn [snd]. pose proof (len_nonneg (unread r)). rewrite len_app, len_take, len_replicate by lia. lia.
Qed.

Lemma packet_ok_New : packet_ok NewPacket.
Proof. split; [apply text_ok_empty|]. split; [apply text_ok_empty|done]. Qed.

Lemma yields_SampledHeader : yields packet_ok decodeSampledHeader.
Proof.
  unfold decodeSampledHeader. apply yields_seq. intros h.
  pose proof (Decoder_ok (shd_Header h) (shd_Protocol h) NewPacket packet_ok_New) as H.
  destruct (Decoder _ _ _) as [p []]; [by apply keeps_ret|apply keeps_fail|apply keeps_panic|apply keeps_nofuel].
Qed.

Definition dec_ok (dec : Z -> Z -> option (M SReader (string * SFRecord))) : Prop :=
  forall f l m, dec f l = Some m -> yields (fun e => record_ok e.1 e.2) m.

Lemma yields_entry {A} (m : M SReader A) (k : string) (g : A -> SFRecord) :
  yields (fun a => record_ok k (g a)) m -> yields (fun e => record_ok e.1 e.2) (d ← m; mret (k, g d)).
Proof. intros H. by apply (yields_bind_ret _ _ _ _ H). Qed.

Lemma yields_plain_entry {A} (m : M SReader A) (k : string) (g : A -> SFRecord) :
  text_ok k -> (forall a p, g a <> RRawHeader p) ->
  yields (fun e => record_ok e.1 e.2) (d ← m; mret (k, g d)).
Proof.
  intros Hk Hg. apply (yields_bind_ret _ _ _ _ (yields_any m)). intros a _. split; [done|].
  specialize (Hg a). cbn [snd]. destruct (g a); try done. by destruct (Hg p).
Qed.

Ltac text_lit := split; [reflexivity|chars_lit].

Lemma flow_record_ok : dec_ok flow_record.
Proof.
  intros f l m. unfold flow_record. repeat case_match; try done; intros [= <-].
  1: apply (yields_plain_entry _ _ RExtSwitch); [text_lit|done].
  1: apply (yields_plain_entry _ _ RExtRouter); [text_lit|done].
  apply (yields_entry _ _ RRawHeader). intros r Hr. destruct (yields_SampledHeader r Hr) as [H1 H2].
  split; [done|]. destruct (_).2; try done. split; [text_lit|done].
Qed.

Lemma counter_record_ok : dec_ok counter_record.
Proof.
  intros f l m. unfold counter_record. repeat case_match; try done; intros [= <-];
    apply yields_plain_entry; done || text_lit.
Qed.

Lemma yields_record_loop dec fuel i n records :
  dec_ok dec -> records_ok records -> yields records_ok (record_loop dec fuel i n records).
Proof.
  intros Hd. revert i records. induction fuel as [|fuel IH]; intros i records Hr; [apply keeps_nofuel|].
  cbn [record_loop]. destruct (i <? n); [|by apply keeps_ret].
  apply yields_seq. intros f. apply yields_seq. intros l. destruct (dec f l) as [m|] eqn:E.
  - apply (keeps_bind _ _ _ _ _ (Hd f l m E)). intros [k d] Hk. apply IH. by apply map_Forall_insert_2.
  - apply yields_seq. intros _. by apply IH.
Qed.

Lemma records_ok_empty : records_ok ∅.
Proof. apply map_Forall_empty. Qed.

(** How a sample extends the datagram keeps it well-formed. *)
Definition extends_ok (add : SFDatagram -> SFDatagram) : Prop := forall d, datagram_ok d -> datagram_ok (add d).

Lemma add_Sample_ok s : records_ok (Records_of s) -> extends_ok (add_Sample s).
Proof. intros Hs d (H1 & H2 & H3). split; [|by split]. apply Forall_app. auto. Qed.

Lemma add_Counter_ok c : records_ok (cs_Records c) -> extends_ok (add_Counter c).
Proof. intros Hs d (H1 & H2 & H3). split; [done|]. split; [|done]. apply Forall_app. auto. Qed.

Lemma sample_decoder_ok fuel f m : sample_decoder fuel f = Some m -> yields extends_ok m.
Proof.
  unfold sample_decoder. repeat case_match; try done; intros [= <-].
  - eapply yields_bind_ret; [|intros s Hs; apply (add_Sample_ok (SExpanded s)), Hs].
    unfold decodeExpandedFlowSample. apply yields_seq. intros fs.
    eapply yields_bind_ret; [|intros a Ha; exact Ha].
    apply yields_record_loop; [apply flow_record_ok|apply records_ok_empty].
  - eapply yields_bind_ret; [|intros s Hs; apply add_Counter_ok, Hs].
    unfold decodeFlowCounter. apply yields_seq. intros fs.
    eapply yields_bind_ret; [|intros a Ha; exact Ha].
    apply yields_record_loop; [apply counter_record_ok|apply records_ok_empty].
  - eapply yields_bind_ret; [|intros s Hs; apply (add_Sample_ok (SFlowSample s)), Hs].
    unfold decodeFlowSample. apply yields_seq. intros fs. eapply yields_bind_ret; [|intros a Ha; exact Ha].
    apply yields_record_loop; [apply flow_record_ok|apply records_ok_empty].
Qed.

Lemma yields_SFDecode_loop filter n fuel i d :
  datagram_ok d -> yields datagram_ok (SFDecode_loop filter n fuel i d).
Proof.
  revert i d. induction n as [|n IH]; intros i d Hd; [apply keeps_nofuel|]. cbn [SFDecode_loop].
  destruct (i <? dg_SamplesNo d); [|by apply keeps_ret]. apply yields_seq. intros [f l].
  destruct (isFilterMatch filter f); [apply yields_seq; intros _; by apply IH|].
  destruct (sample_decoder fuel f) as [m|] eqn:E; [|apply yields_seq; intros _; by apply IH].
  apply (keeps_bind _ (fun x => match x with inl add => extends_ok add | inr _ => True end)).
  - intros r Hr. destruct (sample_decoder_ok fuel f m E r Hr) as [_ H]. split; [done|].
    unfold try. by destruct (m r) as [r' []].
  - intros [add|e] Ha; [by apply IH, Ha|apply keeps_fail].
Qed.

(** Every datagram the decoder returns: its strings are their own encodings, and the
    agent's address has four or sixteen bytes. *)
Lemma SFDecode_datagram_ok filter now fuel : yields datagram_ok (SFDecode filter now fuel).
Proof.
  apply (keeps_bind _ datagram_ok); [|intros d Hd; by apply yields_SFDecode_loop].
  unfold sfHeaderDecode. apply yields_seq. intros v. destruct (negb _); [apply keeps_fail|].
  apply yields_seq. intros ipv. cbv zeta.
  eapply keeps_bind; [apply yields_Read_short; by destruct (ipv =? 2)|]. intros b Hb. cbv beta in Hb.
  do 3 (apply yields_seq; intros ?). apply (yields_bind_ret _ _ _ _ (yields_any _)). intros n _.
  split; [constructor|]. split; [constructor|]. cbn [dg_IPAddress]. rewrite Hb.
  destruct (ipv =? 2); auto.
Qed.

End datagrams.

(** ** The worker *)

Record SFUDPMsg : Type := mkSFUDPMsg { sm_raddr : list byte; sm_body : list byte }.

Section worker.
(** [opts.SFlowTypeFilter], and [time.Now().Unix()] when the [n]-th message is decoded. *)
Context (filter : list Z) (unix_now : nat -> Z).

Record SFCollector : Type := mkSFCollector {
  sc_clock : nat;
  sc_DecodedCount : Z;
  sc_MQCh : list string;
  sc_log : list GoError
}.

Definition sf_tick (c : SFCollector) : SFCollector :=
  mkSFCollector (S (sc_clock c)) (sc_DecodedCount c) (sc_MQCh c) (sc_log c).
Definition sf_count_decoded (c : SFCollector) : SFCollector :=
  mkSFCollector (sc_clock c) (uint64 (sc_DecodedCount c + 1)) (sc_MQCh c) (sc_log c).
Definition sf_send_mq (b : string) (c : SFCollector) : SFCollector :=
  mkSFCollector (sc_clock c) (sc_DecodedCount c) (try_send b (sc_MQCh c)) (sc_log c).
Definition sf_log_error (e : GoError) (c : SFCollector) : SFCollector :=
  mkSFCollector (sc_clock c) (sc_DecodedCount c) (sc_MQCh c) (sc_log c ++ [e])%list.

(** [json.Marshal], the counter and the send. *)
Definition sf_worker_publish (d : SFDatagram) : M SFCollector () :=
  match json_Marshal d with
  | Ok b => modify sf_count_decoded;; modify (sf_send_mq b)
  | Err _ e => modify (sf_log_error e)
  | Panic => panic
  | NoFuel => nofuel
  end.

Definition sFlowWorker_round (fuel : nat) (msg : SFUDPMsg) : M SFCollector () :=
  c ← get;
  modify sf_tick;;
  match (SFDecode filter (unix_now (sc_clock c)) fuel (NewSFReader (sm_body msg))).2 with
  | Ok datagram =>
      if len (dg_Samples datagram) <? 1 then mret tt else sf_worker_publish datagram
  | Err _ _ => mret tt
  | Panic => panic
  | NoFuel => nofuel
  end.

(** The loop, on the messages of the queue until it is closed. *)
Fixpoint sFlowWorker (fuel : nat) (msgs : list SFUDPMsg) : M SFCollector () :=
  match msgs with
  | [] => mret tt
  | msg :: msgs' => sFlowWorker_round fuel msg;; sFlowWorker fuel msgs'
  end.

(** *** Any input *)

(** C21: a round of the sFlow worker on any bytes, with room in the queue.  It drops the
    message when the decoder fails or finds no flow sample.  Otherwise it counts the
    datagram and publishes a text that parses to the datagram's JSON object, unless some
    router record has a next hop that is not of zero, four or sixteen bytes: then the
    whole datagram is only logged.  The round always ends; it panics only where the
    decoder does. *)
Theorem sFlowWorker_round_outcome (fuel : nat) (msg : SFUDPMsg) (c : SFCollector)
    (Hf : len (sm_body msg) < Z.of_nat fuel) (Hq : len (sc_MQCh c) < chan_cap) :
  match (SFDecode filter (unix_now (sc_clock c)) fuel (NewSFReader (sm_body msg))).2 with
  | Ok d =>
      if len (dg_Samples d) <? 1 then sFlowWorker_round fuel msg c = (sf_tick c, Ok tt)
      else match omap ip_error (datagram_ips d) with
           | [] => exists text, parse_json text = Some (json_SFDatagram d) /\
               sFlowWorker_round fuel msg c =
                 (mkSFCollector (S (sc_clock c)) (uint64 (sc_DecodedCount c + 1))
                    (sc_MQCh c ++ [text])%list (sc_log c), Ok tt)
           | e :: _ => sFlowWorker_round fuel msg c = (sf_log_error e (sf_tick c), Ok tt)
           end
  | Err _ _ => sFlowWorker_round fuel msg c = (sf_tick c, Ok tt)
  | Panic => (sFlowWorker_round fuel msg c).2 = Panic
  | NoFuel => False
  end.
Proof.
  unfold sFlowWorker_round. rewrite bind_get, bind_modify.
  pose proof (SFDecode_ends filter (unix_now (sc_clock c)) (sm_body msg) fuel Hf) as Ht.
  destruct (SFDecode_datagram_ok filter (unix_now (sc_clock c)) fuel (NewSFReader (sm_body msg)) I)
    as [_ Hd].
  destruct (SFDecode _ _ _ _) as [r [d|v e| |]]; cbn [snd] in *; try done.
  destruct (len (dg_Samples d) <? 1); [done|]. unfold sf_worker_publish.
  destruct (omap ip_error (datagram_ips d)) as [|e es] eqn:E.
  - destruct (json_Marshal_ok d Hd) as [-> Hp]; [by apply omap_nil_Forall|].
    exists (print (json_SFDatagram d)). split; [done|]. unmonad. unfold sf_send_mq, try_send.
    cbn [sc_MQCh sf_count_decoded sf_tick]. destruct (Z.ltb_spec (len (sc_MQCh c)) chan_cap); [done|lia].
  - unfold json_Marshal. by rewrite E.
Qed.

(** *** Streams of datagrams *)

(** A datagram and the bytes after it. *)
Record sf_datagram : Type := mkSFDg { sd_raddr : list byte; sd_wire : wire_datagram; sd_trail : list byte }.

Definition sf_datagram_msg (d : sf_datagram) : SFUDPMsg :=
  mkSFUDPMsg (sd_raddr d) (encode_datagram (sd_wire d) ++ sd_trail d).

(** The datagrams of a stream as the collector should hold them, from the [k]-th on. *)
Fixpoint sf_stream (k : nat) (ds : list sf_datagram) : list SFDatagram :=
  match ds with
  | [] => []
  | d :: ds' => stored_datagram filter (unix_now k) (sd_wire d) :: sf_stream (S k) ds'
  end.

Definition has_samples (d : SFDatagram) : bool := negb (len (dg_Samples d) <? 1).

Definition sf_stream_wf (fuel : nat) (k : nat) (ds : list sf_datagram) : Prop :=
  Forall (fun d => wire_wf (sd_wire d) /\ len (encode_datagram (sd_wire d)) < Z.of_nat fuel) ds /\
  Forall (fun g => Forall (fun ip => ip_error ip = None) (datagram_ips g)) (sf_stream k ds).

Lemma sFlowWorker_round_datagram fuel d c :
  wire_wf (sd_wire d) -> len (encode_datagram (sd_wire d)) < Z.of_nat fuel ->
  let g := stored_datagram filter (unix_now (sc_clock c)) (sd_wire d) in
  Forall (fun ip => ip_error ip = None) (datagram_ips g) ->
  let text := print (json_SFDatagram g) in
  parse_json text = Some (json_SFDatagram g) /\
  sFlowWorker_round fuel (sf_datagram_msg d) c =
    (if has_samples g
     then mkSFCollector (S (sc_clock c)) (uint64 (sc_DecodedCount c + 1)) (try_send text (sc_MQCh c)) (sc_log c)
     else sf_tick c, Ok tt).
Proof.
  intros Hw Hf g Hi text. unfold sFlowWorker_round. rewrite bind_get, bind_modify.
  destruct (SFDecode_encoded filter (unix_now (sc_clock c)) (sd_wire d) (sd_trail d) fuel Hw Hf) as (r & E & _).
  destruct (SFDecode_datagram_ok filter (unix_now (sc_clock c)) fuel
    (NewSFReader (sm_body (sf_datagram_msg d))) I) as [_ Hd].
  cbn [sf_datagram_msg sm_body] in *. rewrite E in *. cbn [snd] in *. fold g in Hd |- *.
  destruct (json_Marshal_ok g Hd Hi) as [Em Hp]. split; [done|]. unfold has_samples, sf_worker_publish.
  destruct (len (dg_Samples g) <? 1); [done|]. by rewrite Em.
Qed.

(** C4: what an sFlow worker publishes.  On every stream of datagrams, of any length, that
    encode well-formed sFlow datagrams whose next hops have a text, it offers the queue, in
    order, one JSON text per datagram that has a flow sample outside the filter, and counts
    those; each text parses to the JSON object of the datagram as the decoder stores it.
    Whatever is in the queue, it takes the texts while it has fewer than 1000 and drops the
    others, nothing being received meanwhile; the worker does not block or log. *)
Theorem sFlowWorker_publishes (fuel : nat) (ds : list sf_datagram) (c : SFCollector)
    (Hwf : sf_stream_wf fuel (sc_clock c) ds) (Hn : 0 <= sc_DecodedCount c < 2 ^ 64) :
  let gs := List.filter has_samples (sf_stream (sc_clock c) ds) in
  exists c' texts,
    sFlowWorker fuel (map sf_datagram_msg ds) c = (c', Ok tt) /\
    map parse_json texts = map (fun g => Some (json_SFDatagram g)) gs /\
    sc_MQCh c' = try_sends texts (sc_MQCh c) /\
    (len (sc_MQCh c) <= chan_cap ->
     sc_MQCh c' = (sc_MQCh c ++ take (Z.to_nat (chan_cap - len (sc_MQCh c))) texts)%list) /\
    sc_DecodedCount c' = uint64 (sc_DecodedCount c + len gs) /\ sc_log c' = sc_log c.
Proof.
  intros gs. enough (exists c' texts,
    sFlowWorker fuel (map sf_datagram_msg ds) c = (c', Ok tt) /\
    map parse_json texts = map (fun g => Some (json_SFDatagram g)) gs /\
    sc_MQCh c' = try_sends texts (sc_MQCh c) /\
    sc_DecodedCount c' = uint64 (sc_DecodedCount c + len gs) /\ sc_log c' = sc_log c)
    as (c' & texts & H1 & H2 & H3 & H4 & H5).
  { exists c', texts. split_and!; try done. intros Hl. by rewrite H3, try_sends_take. }
  unfold gs. clear gs. destruct Hwf as [Hw Hi]. revert c Hi Hn.
  induction Hw as [|d ds [Hw Hf] Hws IH]; intros c Hi Hn.
  { exists c, []. cbn. rewrite Z.add_0_r, (wrapU_small 64) by done. done. }
  cbn [sf_stream] in Hi. apply Forall_cons in Hi as [Hi1 Hi2].
  destruct (sFlowWorker_round_datagram fuel d c Hw Hf Hi1) as [Hp E].
  set (g := stored_datagram _ _ _) in *. set (text := print _) in *.
  cbn [map sFlowWorker sf_stream List.filter]. rewrite (bind_run E). fold g.
  destruct (has_samples g); [|by apply (IH (sf_tick c))].
  set (c1 := mkSFCollector _ _ _ _). destruct (IH c1) as (c' & texts & E' & G1 & G2 & G3 & G4).
  - done.
  - apply (wrapU_range 64). lia.
  - exists c', (text :: texts). split; [done|]. cbn [c1 sc_MQCh sc_DecodedCount sc_log sc_clock] in *.
    cbn [map]. rewrite Hp, G1. split; [done|]. split; [done|]. split; [|done].
    rewrite G3, len_cons. unfold wrapU. rewrite Zplus_mod_idemp_l. f_equal. lia.
Qed.

End worker.

(** ** Examples *)

Definition fresh_sf_collector : SFCollector := mkSFCollector 0 0 [] [].

(** A flow sample with router data whose next hop has the given bytes. *)
Definition router_datagram (nextHop : list byte) : wire_datagram :=
  mkWire 1 (bytes [10; 0; 0; 1]) 0 42 1000
    [WFlow 7 0 (bytes [0; 2; 49]) 4096 8192 0 561 707 [WRouter 1 nextHop 24 16]].

(** A next hop of five bytes. *)
Lemma sFlowWorker_round_outcome_witness :
  sFlowWorker_round [] (fun _ => 0) 200
    (sf_datagram_msg (mkSFDg [] (router_datagram (bytes [1; 2; 3; 4; 5])) [])) fresh_sf_collector =
  (mkSFCollector 1 0 [] [errMarshalIP "0102030405"], Ok tt).
Proof.
  pose proof (sFlowWorker_round_outcome [] (fun _ => 0) 200
    (sf_datagram_msg (mkSFDg [] (router_datagram (bytes [1; 2; 3; 4; 5])) [])) fresh_sf_collector
    eq_refl eq_refl) as H.
  vm_compute in H. vm_compute. exact H.
Defined.

Lemma sFlowWorker_publishes_witness :
  exists c' texts,
    sFlowWorker [2] (fun _ => 0) 400
      (map sf_datagram_msg [mkSFDg [] (router_datagram (bytes [192; 0; 2; 1])) (bytes [9])])
      fresh_sf_collector = (c', Ok tt) /\
    sc_MQCh c' = take 1000 texts /\ length texts = 1%nat /\ sc_DecodedCount c' = 1.
Proof.
  destruct (sFlowWorker_publishes [2] (fun _ => 0) 400
    [mkSFDg [] (router_datagram (bytes [192; 0; 2; 1])) (bytes [9])] fresh_sf_collector)
    as (c' & texts & E & Ht & _ & Hq & Hn & _).
  - split; [|repeat constructor; vm_compute; reflexivity].
    apply Forall_singleton. split; [|vm_compute; reflexivity].
    split; [repeat constructor; done|]. split; [done|].
    repeat constructor; try done; try (vm_compute; discriminate).
  - done.
  - exists c', texts. split; [exact E|]. split; [by apply Hq|]. split; [|by rewrite Hn; vm_compute].
    apply (f_equal length) in Ht. rewrite !length_map in Ht. rewrite Ht. vm_compute. reflexivity.
Defined.
