(* ===== verification/Workers.v ===== *)
(** The supervisor of the worker pool, [dynWorkers] of [src/vflow/ipfix.go] (the sFlow and
    NetFlow collectors have the same text), as a transition system: the supervisor's
    rounds and retirements interleave with the workers that it or [run] started.

    A worker enters in two steps, as its goroutine does: it is counted in
    [stats.Workers] ([PStart]), then it puts its quit channel into the pool ([PEnter]),
    which blocks while the pool is full.  Nothing makes the supervisor wait for the first of
    them, so a round can overlook goroutines; how many is part of the runs. *)

From S2P Require Import Prelude.

Lemma iter_S {A} n (f : A -> A) x : Nat.iter (S n) f x = f (Nat.iter n f x).
Proof. done. Qed.

Lemma iter_plus {A} m n (f : A -> A) x : Nat.iter (m + n) f x = Nat.iter m f (Nat.iter n f x).
Proof. induction m as [|m IH]; [done|]. exact (f_equal f IH). Qed.

Section pool.
(** [i.workers] and [maxWorkers]. *)
Context (workers maxWorkers : Z).

Record Pool : Type := mkPool {
  p_Workers : Z;    (* stats.Workers, an int32 *)
  p_pool : Z;       (* len(i.pool) *)
  p_starting : Z;   (* goroutines created by the supervisor, not yet counted *)
  p_entering : Z;   (* counted, not yet in the pool *)
  p_nSeq : Z;       (* consecutive rounds without load *)
  p_retire : nat    (* iterations left of the retirement loop *)
}.

(** The state after [run] has counted and created the initial workers. *)
Definition pool_init : Pool := mkPool (int32 (0 + workers)) 0 0 workers 0 0.

Definition newWorkers (load : Z) : Z :=
  if load >? 300 then 100 else if load >? 200 then 60 else if load >? 100 then 40 else 30.

(** One round of the supervisor after measuring [load], up to the retirement loop. *)
Definition dynWorkers_round (load : Z) (p : Pool) : Pool :=
  if (load >? 15) && (p_Workers p + newWorkers load >? maxWorkers) then p
  else
    let starting := if load >? 15 then p_starting p + newWorkers load else p_starting p in
    if load =? 0 then
      if p_nSeq p + 1 >? 15 then mkPool (p_Workers p) (p_pool p) starting (p_entering p) 0 10
      else mkPool (p_Workers p) (p_pool p) starting (p_entering p) (p_nSeq p + 1) 0
    else mkPool (p_Workers p) (p_pool p) starting (p_entering p) 0 0.

(** One iteration of the retirement loop. *)
Definition retire_one (p : Pool) : Pool :=
  if p_pool p >? workers then
    mkPool (int32 (p_Workers p - 1)) (p_pool p - 1) (p_starting p) (p_entering p) (p_nSeq p)
      (pred (p_retire p))
  else mkPool (p_Workers p) (p_pool p) (p_starting p) (p_entering p) (p_nSeq p) (pred (p_retire p)).

(** What happens next: the supervisor's round or an iteration of its retirement loop, a
    created goroutine that counts itself, a counted worker that puts its channel into the
    pool. *)
Inductive PoolEvent : Type :=
| PRound (load : Z)
| PRetire
| PStart
| PEnter.

(** The interleavings.  The supervisor waits for nothing but its ticker: a round may begin
    while goroutines created by an earlier one have not counted themselves yet. *)
Inductive pool_step : PoolEvent -> Pool -> Pool -> Prop :=
| step_round load p :
    0 <= load -> p_retire p = O -> pool_step (PRound load) p (dynWorkers_round load p)
| step_retire p : p_retire p <> O -> pool_step PRetire p (retire_one p)
| step_start p :
    0 < p_starting p ->
    pool_step PStart p (mkPool (int32 (p_Workers p + 1)) (p_pool p) (p_starting p - 1)
                          (p_entering p + 1) (p_nSeq p) (p_retire p))
| step_enter p :
    0 < p_entering p -> p_pool p < maxWorkers ->
    pool_step PEnter p (mkPool (p_Workers p) (p_pool p + 1) (p_starting p) (p_entering p - 1)
                          (p_nSeq p) (p_retire p)).

(** The goroutines a round overlooks, because they are not in [stats.Workers] yet. *)
Definition lag (e : PoolEvent) (p : Pool) : Z :=
  match e with PRound _ => p_starting p | _ => 0 end.

(** The states a run leads to, with the most goroutines any of its rounds overlooked. *)
Inductive pool_run : Z -> Pool -> Prop :=
| run_init : pool_run 0 pool_init
| run_step d e p p' : pool_run d p -> pool_step e p p' -> pool_run (Z.max d (lag e p)) p'.

(** ** Invariant *)

Definition pool_inv (p : Pool) : Prop :=
  p_Workers p = int32 (p_pool p + p_entering p) /\ workers <= p_pool p + p_entering p /\
  0 <= p_pool p <= maxWorkers /\ 0 <= p_starting p /\ 0 <= p_entering p /\ 0 <= p_nSeq p <= 15.

(** The workers, with those being created, against the limit and the overlooked ones. *)
Definition pool_limit (d : Z) (p : Pool) : Prop :=
  0 <= d /\
  (maxWorkers + d < 2 ^ 31 -> p_pool p + p_entering p + p_starting p <= maxWorkers + d).

Context (Hw : 0 <= workers <= maxWorkers) (Hmax : maxWorkers < 2 ^ 31).

Lemma int32_small z : 0 <= z < 2 ^ 31 -> int32 z = z.
Proof. intros Hz. unfold wrapS. rewrite Z.mod_small by lia. lia. Qed.

Lemma int32_add z n : int32 (int32 z + n) = int32 (z + n).
Proof.
  unfold wrapS. f_equal. set (h := 2 ^ (_ - 1)).
  replace ((z + h) `mod` _ - h + n + h) with ((z + h) `mod` 2 ^ 32 + n) by lia.
  rewrite Zplus_mod_idemp_l. f_equal. lia.
Qed.

Lemma newWorkers_range load : 30 <= newWorkers load <= 100.
Proof. unfold newWorkers. repeat case_test; lia. Qed.

Lemma pool_inv_init : pool_inv pool_init /\ pool_limit 0 pool_init.
Proof.
  unfold pool_inv, pool_limit, pool_init. cbn [p_Workers p_pool p_starting p_entering p_nSeq].
  lia.
Qed.

Lemma pool_inv_step e p p' : pool_inv p -> pool_step e p p' -> pool_inv p'.
Proof.
  intros (H1 & H2 & H3 & H4 & H5 & H6) Hs.
  destruct Hs as [load p Hl Hr|p Hr|p Hst|p Hen Hp]; unfold pool_inv in *.
  - pose proof (newWorkers_range load). unfold dynWorkers_round.
    destruct (Z.gtb_spec load 15), (Z.gtb_spec (p_Workers p + newWorkers load) maxWorkers),
      (Z.eqb_spec load 0), (Z.gtb_spec (p_nSeq p + 1) 15);
      cbn [andb p_Workers p_pool p_starting p_entering p_nSeq]; lia.
  - unfold retire_one. destruct (Z.gtb_spec (p_pool p) workers);
      cbn [p_Workers p_pool p_starting p_entering p_nSeq]; [|lia].
    split; [|lia]. rewrite H1, <-Z.add_opp_r, int32_add. f_equal. lia.
  - cbn [p_Workers p_pool p_starting p_entering p_nSeq].
    split; [|lia]. rewrite H1, int32_add. f_equal. lia.
  - cbn [p_Workers p_pool p_starting p_entering p_nSeq].
    split; [|lia]. rewrite H1. f_equal. lia.
Qed.

Lemma pool_limit_step d e p p' :
  pool_inv p -> pool_limit d p -> pool_step e p p' -> pool_limit (Z.max d (lag e p)) p'.
Proof.
  intros (H1 & H2 & H3 & H4 & H5 & H6) [Hd HL] Hs. split; [lia|]. intros Hb.
  specialize (HL ltac:(lia)). rewrite int32_small in H1 by lia.
  destruct Hs as [load p Hl Hr|p Hr|p Hst|p Hen Hp]; unfold lag in *.
  - unfold dynWorkers_round.
    destruct (Z.gtb_spec load 15), (Z.gtb_spec (p_Workers p + newWorkers load) maxWorkers),
      (Z.eqb_spec load 0), (Z.gtb_spec (p_nSeq p + 1) 15);
      cbn [andb p_Workers p_pool p_starting p_entering p_nSeq]; lia.
  - unfold retire_one. destruct (Z.gtb_spec (p_pool p) workers);
      cbn [p_Workers p_pool p_starting p_entering p_nSeq]; lia.
  - cbn [p_Workers p_pool p_starting p_entering p_nSeq]. lia.
  - cbn [p_Workers p_pool p_starting p_entering p_nSeq]. lia.
Qed.

Lemma pool_run_inv d p : pool_run d p -> pool_inv p /\ pool_limit d p.
Proof.
  induction 1 as [|d e p p' _ [IHi IHl] Hs]; [apply pool_inv_init|].
  split; [by eapply pool_inv_step|by eapply pool_limit_step].
Qed.

(** C39: the worker pool, for [0 <= workers <= maxWorkers < 2^31] and any interleaving of
    the supervisor with the goroutines it creates.  Let [d] be the most goroutines that any
    round of the supervisor overlooked, because they had been created and had not counted
    themselves yet.  The pool's channel never holds more than [maxWorkers] entries, the
    workers in it and the ones about to enter are never fewer than the configured number,
    and [stats.Workers] is their number, as an [int32].  While [maxWorkers + d] fits an
    [int32] the counter is exact, and together with the goroutines being created it is at
    most [maxWorkers + d].  So [maxWorkers] is a bound, and no worker waits for a place in
    the pool, in the runs in which every round finds all earlier goroutines counted
    ([d = 0]); nothing in the code enforces that, and the witness has a run that exceeds
    [maxWorkers]. *)
Theorem pool_bounds (d : Z) (p : Pool) (Hr : pool_run d p) :
  0 <= p_pool p <= maxWorkers /\ workers <= p_pool p + p_entering p /\
  p_Workers p = int32 (p_pool p + p_entering p) /\
  (maxWorkers + d < 2 ^ 31 ->
   p_Workers p = p_pool p + p_entering p /\ p_Workers p + p_starting p <= maxWorkers + d) /\
  (d = 0 -> workers <= p_Workers p <= maxWorkers /\ (0 < p_entering p -> p_pool p < maxWorkers)).
Proof.
  destruct (pool_run_inv d p Hr) as [(H1 & H2 & H3 & H4 & H5 & H6) [Hd HL]].
  split_and!; [lia..|done| |].
  - intros Hb. specialize (HL Hb). rewrite int32_small in H1 by lia. lia.
  - intros ->. specialize (HL ltac:(lia)). rewrite int32_small in H1 by lia. lia.
Qed.

(** ** Idle rounds *)

(** The supervisor alone: a round, then its retirement loop to the end. *)
Definition idle_round (p : Pool) : Pool :=
  let p' := dynWorkers_round 0 p in Nat.iter (p_retire p') retire_one p'.

Lemma retire_iter n w po st en ns r :
  workers <= po -> w = po + en -> 0 <= en -> w < 2 ^ 31 ->
  Nat.iter n retire_one (mkPool w po st en ns r) =
    mkPool (w - Z.min (Z.of_nat n) (po - workers)) (po - Z.min (Z.of_nat n) (po - workers)) st en ns
      (r - n)%nat.
Proof.
  intros H1 H2 H3 H4. induction n as [|n IH].
  - change (Nat.iter 0 ?f ?x) with x. rewrite Z.min_l by lia. f_equal; lia.
  - rewrite iter_S, IH. unfold retire_one. cbn [p_pool p_Workers p_starting p_entering p_nSeq p_retire].
    destruct (Z.gtb_spec (po - Z.min (Z.of_nat n) (po - workers)) workers).
    + rewrite int32_small by lia. f_equal; lia.
    + f_equal; lia.
Qed.

Lemma idle_round_count k w po st en :
  (k <= 15)%nat ->
  Nat.iter k idle_round (mkPool w po st en 0 0) = mkPool w po st en (Z.of_nat k) 0.
Proof.
  induction k as [|k IH]; intros Hk; [done|].
  rewrite iter_S, IH by lia. unfold idle_round, dynWorkers_round.
  cbn [p_pool p_Workers p_starting p_entering p_nSeq p_retire Z.gtb Z.compare Z.eqb andb].
  destruct (Z.gtb_spec (Z.of_nat k + 1) 15); [lia|]. cbn [p_retire Nat.iter nat_rect]. f_equal. lia.
Qed.

(** Sixteen rounds without load retire up to ten workers. *)
Lemma idle_cycle w :
  workers <= w < 2 ^ 31 ->
  Nat.iter 16 idle_round (mkPool w w 0 0 0 0) =
    mkPool (w - Z.min 10 (w - workers)) (w - Z.min 10 (w - workers)) 0 0 0 0.
Proof.
  intros Hr. rewrite iter_S.
  rewrite idle_round_count by lia. unfold idle_round, dynWorkers_round.
  cbn [p_pool p_Workers p_starting p_entering p_nSeq p_retire Z.gtb Z.compare Z.eqb andb].
  change (Z.of_nat 15 + 1 >? 15) with true. cbn [p_retire].
  by rewrite retire_iter by lia.
Qed.

(** Without load the pool shrinks back: after [16 * n] idle rounds of the supervisor,
    [10 * n] workers have been retired, but not below the configured number. *)
Theorem pool_shrinks (n : nat) (w : Z) (Hr : workers <= w < 2 ^ 31) :
  p_Workers (Nat.iter (16 * n) idle_round (mkPool w w 0 0 0 0)) =
    Z.max workers (w - 10 * Z.of_nat n).
Proof.
  revert w Hr. induction n as [|n IH]; intros w Hr; [cbn; lia|].
  replace (16 * S n)%nat with (16 * n + 16)%nat by lia. rewrite iter_plus, idle_cycle by done.
  rewrite IH by lia. lia.
Qed.

End pool.

(** A run whose rounds find every goroutine counted, and one whose second round does not:
    two rounds of 30 goroutines each, and then 62 workers where the limit is 40. *)
Lemma run_start workers maxWorkers d p n :
  Z.of_nat n <= p_starting p -> pool_run workers maxWorkers d p -> 0 <= d ->
  pool_run workers maxWorkers d
    (Nat.iter n (fun p => mkPool (int32 (p_Workers p + 1)) (p_pool p) (p_starting p - 1)
                            (p_entering p + 1) (p_nSeq p) (p_retire p)) p).
Proof.
  intros Hn Hr Hd.
  set (f := fun p => mkPool _ _ _ _ _ _).
  assert (pool_run workers maxWorkers d (Nat.iter n f p) /\
          p_starting (Nat.iter n f p) = p_starting p - Z.of_nat n) as [? _]; [|done].
  induction n as [|n IH]; [split; [done|cbn; lia]|].
  destruct IH as [IH He]; [lia|]. rewrite iter_S. split; [|unfold f at 1; cbn [p_starting]; lia].
  rewrite <-(Z.max_l d 0) by done.
  apply (run_step workers maxWorkers d PStart _ _ IH). apply step_start. lia.
Qed.

Lemma pool_bounds_witness :
  (pool_run 2 1000 0 (mkPool 2 1 30 1 0 0) /\ 2 <= 2 <= 1000) /\
  (pool_run 2 40 30 (mkPool 62 0 0 62 0 0) /\ 62 + 0 <= 40 + 30).
Proof.
  split.
  - assert (pool_run 2 1000 0 (mkPool 2 1 30 1 0 0)) as Hr.
    { apply (run_step 2 1000 0 (PRound 40) (mkPool 2 1 0 1 0 0)); [|by apply (step_round 2 1000 40)].
      apply (run_step 2 1000 0 PEnter (pool_init 2)); [constructor|]. by apply (step_enter 2 1000 (pool_init 2)). }
    split; [exact Hr|]. pose proof (pool_bounds 2 1000 ltac:(lia) ltac:(lia) 0 _ Hr) as (_ & _ & _ & _ & Hd).
    exact (proj1 (Hd eq_refl)).
  - assert (pool_run 2 40 30 (mkPool 62 0 0 62 0 0)) as Hr.
    { apply (run_start 2 40 30 (mkPool 2 0 60 2 0 0) 60); [done| |done].
      apply (run_step 2 40 0 (PRound 40) (mkPool 2 0 30 2 0 0)); [|by apply (step_round 2 40 40)].
      apply (run_step 2 40 0 (PRound 40) (pool_init 2)); [constructor|]. by apply (step_round 2 40 40). }
    split; [exact Hr|]. pose proof (pool_bounds 2 40 ltac:(lia) ltac:(lia) 30 _ Hr) as (_ & _ & _ & Hd & _).
    exact (proj2 (Hd ltac:(lia))).
Defined.

Lemma pool_shrinks_witness :
  p_Workers (Nat.iter (16 * 2) (idle_round 200 10000) (mkPool 215 215 0 0 0 0)) = 200.
Proof. rewrite (pool_shrinks 200 10000); [reflexivity|lia|lia|lia]. Defined.
