(* ===== verification/Discovery.v ===== *)
(** Template exchange between collectors, [src/ipfix/memcache_rpc.go], with the node
    discovery that [src/disc/disc.go] repeats.

    Every node hears the others' hello packets and keeps when each was last heard
    ([vFlowServers]).  When a worker asks for an unknown template, [RPC] calls
    [IRPC.Get] on the nodes heard within five minutes, one after the other, and stores
    the first template it gets.  The transport between nodes (TCP, [net/rpc]) is the
    parameter [call]: what a call of a node for a request returns, [None] for a failed
    connection or an error. *)

From S2P Require Import Prelude TemplateCache IpfixDecoder.

Open Scope Z_scope.

(** ** Discovery *)

(** [vFlowServers]: the time of the last hello of each host. *)
Abbreviation vFlowServers := (gmap string Z).

(** A hello packet from [host] at time [now]; [laddrs] are the node's own addresses. *)
Definition receive_hello (laddrs : gset string) (host : string) (now : Z) (s : vFlowServers) :
    vFlowServers :=
  if bool_decide (host ∈ laddrs) then s else <[host := now]> s.

(** [rpcServers]: the hosts heard within 300 seconds, in the map's order of iteration;
    the others are deleted. *)
Definition alive (now : Z) (kv : string * Z) : Prop := now - kv.2 < 300.
#[global] Instance alive_dec now kv : Decision (alive now kv).
Proof. unfold alive. apply _. Defined.

Definition rpcServers (now : Z) (s : vFlowServers) : list string * vFlowServers :=
  let s' := filter (alive now) s in ((map_to_list s').*1, s').

(** ** Remote procedure calls *)

Section rpc.
Context {MC : Type} `{!TemplateStore TemplateRecord MC}.

(** [IRPC.Get] on the node that is called. *)
Definition IRPC_Get (req : RPCRequest) : M MC TemplateRecord :=
  o ← ts_retrieve (rpc_ID req) (rpc_IP req);
  match o with
  | Some tr => mret tr
  | None => fail (Some zeroTemplateRecord) errNotAvail
  end.

(** The servers in turn until one answers. *)
Fixpoint RPC_ask (call : string -> RPCRequest -> option TemplateRecord) (servers : list string)
    (req : RPCRequest) (now : Z) : M MC () :=
  match servers with
  | [] => mret tt
  | rpcServer :: servers' =>
      match call rpcServer req with
      | None => RPC_ask call servers' req now
      | Some tr => ts_insert (rpc_ID req) (rpc_IP req) tr now
      end
  end.

Record Node : Type := mkNode { nd_cache : MC; nd_servers : vFlowServers; nd_rpcChan : list RPCRequest }.

(** One round of [RPC]: a request is taken from [rpcChan] and handled. *)
Definition RPC_round (call : string -> RPCRequest -> option TemplateRecord) (now : Z) :
    M Node () := fun n =>
  match nd_rpcChan n with
  | [] => (n, Ok tt)
  | req :: q =>
      let '(servers, s') := rpcServers now (nd_servers n) in
      let '(m', o) := RPC_ask call servers req now (nd_cache n) in
      (mkNode m' s' q, o)
  end.

(** *** Facts *)

Lemma rpcServers_alive now s host :
  (host ∈ (rpcServers now s).1) <-> (exists t, s !! host = Some t /\ now - t < 300).
Proof.
  unfold rpcServers. cbn [fst]. rewrite list_elem_of_fmap. split.
  - intros ([h t] & -> & H%elem_of_map_to_list). apply map_lookup_filter_Some in H. by exists t.
  - intros (t & Hs & Ht). exists (host, t). split; [done|]. apply elem_of_map_to_list.
    by apply map_lookup_filter_Some.
Qed.

Lemma RPC_ask_ok call servers req now m :
  ts_wf m -> exists m', RPC_ask call servers req now m = (m', Ok tt) /\ ts_wf m' /\
    ((exists host tr, host ∈ servers /\ call host req = Some tr /\
        forall k, ts_lookup m' k =
          if decide (k = cache_key (rpc_ID req) (rpc_IP req)) then Some tr else ts_lookup m k) \/
     ((forall host, host ∈ servers -> call host req = None) /\ m' = m)).
Proof.
  intros Hm. induction servers as [|host servers IH]; cbn [RPC_ask].
  - exists m. split; [done|]. split; [done|]. right. split; [|done]. intros h Hh. by apply not_elem_of_nil in Hh.
  - destruct (call host req) as [tr|] eqn:E.
    + destruct (ts_insert_ok m (rpc_ID req) (rpc_IP req) tr now Hm) as (m' & H1 & H2 & H3).
      exists m'. split; [done|]. split; [done|]. left. exists host, tr. split; [by left|]. by split.
    + destruct IH as (m' & H1 & H2 & [(h & tr & Hh & Hc & Hl)|[Hn He]]); exists m'; (split; [done|]);
        (split; [done|]).
      * left. exists h, tr. split; [by right|]. by split.
      * right. split; [|done]. intros h [->|Hh]%elem_of_cons; [done|by apply Hn].
Qed.

(** Template exchange.  When a request is handled while some node heard within the
    last 300 seconds can answer it, the cache afterwards holds under the request's key a
    template that such a node answered with, and every other key is untouched; when none
    can, the cache is unchanged.  The request leaves the channel, and of the known nodes
    exactly those not heard for 300 seconds are forgotten. *)
Theorem RPC_round_learns (call : string -> RPCRequest -> option TemplateRecord) (now : Z)
    (n : Node) (req : RPCRequest) (q : list RPCRequest)
    (Hm : ts_wf (nd_cache n)) (Hq : nd_rpcChan n = req :: q) :
  let live host := exists t, nd_servers n !! host = Some t /\ now - t < 300 in
  exists m', RPC_round call now n = (mkNode m' (filter (alive now) (nd_servers n)) q, Ok tt) /\
    ts_wf m' /\
    ((exists host tr, live host /\ call host req = Some tr /\
        forall k, ts_lookup m' k =
          if decide (k = cache_key (rpc_ID req) (rpc_IP req)) then Some tr
          else ts_lookup (nd_cache n) k) \/
     ((forall host, live host -> call host req = None) /\ m' = nd_cache n)).
Proof.
  intros live. unfold RPC_round. rewrite Hq.
  destruct (RPC_ask_ok call (rpcServers now (nd_servers n)).1 req now (nd_cache n) Hm)
    as (m' & H1 & H2 & H3).
  exists m'. rewrite (surjective_pairing (rpcServers now (nd_servers n))), H1.
  split; [done|]. split; [done|]. unfold live. destruct H3 as [(h & tr & Hh & H3)|[Hn He]].
  - left. exists h, tr. by rewrite <- rpcServers_alive.
  - right. split; [|done]. intros h Hh%rpcServers_alive. by apply Hn.
Qed.

(** What [IRPC.Get] answers: the template stored under the request's key, or the error
    that it is not available; the answering cache does not change. *)
Theorem IRPC_Get_spec (req : RPCRequest) (m : MC) (Hm : ts_wf m) :
  IRPC_Get req m =
    (m, match ts_lookup m (cache_key (rpc_ID req) (rpc_IP req)) with
        | Some tr => Ok tr
        | None => Err (Some zeroTemplateRecord) errNotAvail
        end).
Proof.
  unfold IRPC_Get. rewrite (bind_run (ts_retrieve_ok _ _ _ Hm)). by destruct (ts_lookup _ _).
Qed.

End rpc.

(** The time of the last hello of a host in a sequence of hellos. *)
Definition last_hello (host : string) (hellos : list (string * Z)) : option Z :=
  fold_left (fun acc h => if bool_decide (h.1 = host) then Some h.2 else acc) hellos None.

(** The table after a sequence of hellos. *)
Definition after_hellos (laddrs : gset string) (hellos : list (string * Z)) : vFlowServers :=
  fold_left (fun s h => receive_hello laddrs h.1 h.2 s) hellos ∅.

Lemma after_hellos_lookup laddrs hellos host :
  after_hellos laddrs hellos !! host =
    if bool_decide (host ∈ laddrs) then None else last_hello host hellos.
Proof.
  unfold after_hellos, last_hello. induction hellos as [|[h u] hellos IH] using rev_ind.
  - cbn [fold_left]. rewrite lookup_empty. by case_bool_decide.
  - rewrite !fold_left_app. cbn [fold_left fst snd]. unfold receive_hello at 1.
    destruct (decide (h = host)) as [->|Hne].
    + rewrite (bool_decide_true (host = host)) by done.
      case_bool_decide; [exact IH|]. by rewrite lookup_insert_eq.
    + rewrite (bool_decide_false (h = host)) by done.
      destruct (bool_decide (h ∈ laddrs)); [exact IH|]. by rewrite lookup_insert_ne.
Qed.

(** Discovery: after any sequence of hellos, a host is offered for calls at [now]
    exactly when it is not one of the node's own addresses and its last hello is less
    than 300 seconds old. *)
Theorem discovery_live (laddrs : gset string) (hellos : list (string * Z)) (now : Z) (host : string) :
  (host ∈ (rpcServers now (after_hellos laddrs hellos)).1) <->
  (~ (host ∈ laddrs) /\ exists t, last_hello host hellos = Some t /\ now - t < 300).
Proof.
  rewrite rpcServers_alive. rewrite after_hellos_lookup. case_bool_decide as Hl.
  - split; [by intros (t & [=] & _)|by intros []].
  - split; [by intros|by intros []].
Qed.

(** A node that has heard two others, one of them long ago; the live one knows the
    requested template. *)
Lemma RPC_round_learns_witness :
  let tr := mkTemplateRecord 256 1 [mkFieldSpecifier 8 4 0] 0 [] in
  let req := mkRPCRequest 256 (bytes [192; 0; 2; 1]) in
  let n := mkNode (GetCache (T:=TemplateRecord) None)
             (<["10.0.0.2"%string := 950]> (<["10.0.0.3"%string := 10]> ∅)) [req] in
  exists m', RPC_round (fun _ _ => Some tr) 1000 n =
      (mkNode m' (filter (alive 1000) (nd_servers n)) [], Ok tt) /\
    ts_lookup m' (cache_key 256 (bytes [192; 0; 2; 1])) = Some tr.
Proof.
  intros tr req n.
  destruct (RPC_round_learns (fun _ _ => Some tr) 1000 n req []) as (m' & H1 & _ & H3);
    [apply (GetCache_fresh_wf (T:=TemplateRecord))|reflexivity|].
  exists m'. split; [exact H1|]. destruct H3 as [(h & t & _ & [= <-] & H3)|[H3 _]].
  - rewrite H3. by rewrite decide_True.
  - assert (Some tr = None) as E; [|done]. apply (H3 "10.0.0.2"%string). exists 950.
    split; [apply lookup_insert_eq|lia].
Defined.

Lemma IRPC_Get_spec_witness :
  IRPC_Get (mkRPCRequest 256 (bytes [192; 0; 2; 1])) (GetCache (T:=TemplateRecord) None) =
    (GetCache None, Err (Some zeroTemplateRecord) errNotAvail).
Proof.
  rewrite (IRPC_Get_spec (mkRPCRequest 256 (bytes [192; 0; 2; 1])) (GetCache (T:=TemplateRecord) None));
    [|apply (GetCache_fresh_wf (T:=TemplateRecord))].
  change (ts_lookup (GetCache (T:=TemplateRecord) None)) with (cache_lookup (T:=TemplateRecord) (GetCache None)).
  by rewrite GetCache_fresh_lookup.
Defined.
