(* ===== verification/GoStrings.v ===== *)
(** Functions of Go's standard library on strings that the configuration and the producers
    call: [strings.Split], [Contains], [Trim] and [HasSuffix] (with a one-character set or
    separator), [strconv.ParseUint], [Atoi], [ParseInt] and [ParseBool], [path.Split] and
    [path.Join].  A failed conversion is [None]. *)

From Stdlib Require Import Strings.Ascii.
From S2P Require Import Prelude GoNet Json.

Local Open Scope string_scope.
Open Scope Z_scope.

(** ** [strings] *)

(** [strings.Split(s, sep)], [sep] of one character: always at least one part. *)
Fixpoint Split (sep : Ascii.ascii) (s : string) : list string :=
  match s with
  | EmptyString => [""]
  | String c s' =>
      if Ascii.eqb c sep then "" :: Split sep s'
      else match Split sep s' with
           | [] => [String c ""]
           | p :: ps => String c p :: ps
           end
  end.

(** [strings.Contains(s, "c")]. *)
Fixpoint Contains (c : Ascii.ascii) (s : string) : bool :=
  match s with
  | EmptyString => false
  | String c' s' => Ascii.eqb c' c || Contains c s'
  end.

Fixpoint TrimLeft (c : Ascii.ascii) (s : string) : string :=
  match s with
  | String c' s' => if Ascii.eqb c' c then TrimLeft c s' else s
  | EmptyString => s
  end.

Fixpoint TrimRight (c : Ascii.ascii) (s : string) : string :=
  match s with
  | EmptyString => ""
  | String c' s' =>
      match TrimRight c s' with
      | EmptyString => if Ascii.eqb c' c then "" else String c' ""
      | t => String c' t
      end
  end.

(** [strings.Trim(s, "c")]. *)
Definition Trim (c : Ascii.ascii) (s : string) : string := TrimRight c (TrimLeft c s).

(** [strings.HasSuffix(s, suffix)]. *)
Fixpoint HasSuffix (s suffix : string) : bool :=
  String.eqb s suffix ||
  match s with EmptyString => false | String _ s' => HasSuffix s' suffix end.

(** ** [strconv] *)

Definition digits_only (s : string) : bool :=
  match s with EmptyString => false | _ => forallb is_digit (String.list_ascii_of_string s) end.

(** [strconv.ParseUint(s, 10, bits)]: digits only, within the range. *)
Definition ParseUint (bits : Z) (s : string) : option Z :=
  if digits_only s then
    let n := Z.of_N (read_dec 0 s).1 in
    if n <? 2 ^ bits then Some n else None
  else None.

(** A value with its sign, within [bits] bits. *)
Definition signed (bits : Z) (neg : bool) (n : Z) : option Z :=
  if neg then if n <=? 2 ^ (bits - 1) then Some (- n) else None
  else if n <? 2 ^ (bits - 1) then Some n else None.

(** An optional sign and the rest. *)
Definition split_sign (s : string) : bool * string :=
  match s with
  | String c s' =>
      if Ascii.eqb c "-" then (true, s') else if Ascii.eqb c "+" then (false, s') else (false, s)
  | EmptyString => (false, s)
  end.

(** [strconv.Atoi(s)] with a 64-bit [int]. *)
Definition Atoi (s : string) : option Z :=
  let '(neg, s') := split_sign s in
  if digits_only s' then signed 64 neg (Z.of_N (read_dec 0 s').1) else None.

(** A digit in a base up to 16. *)
Definition digit_in (base : Z) (c : Ascii.ascii) : option Z :=
  let n := Z.of_nat (Ascii.nat_of_ascii c) in
  let v := if (48 <=? n) && (n <=? 57) then n - 48
           else if (97 <=? n) && (n <=? 102) then n - 87
           else if (65 <=? n) && (n <=? 70) then n - 55 else 99 in
  if v <? base then Some v else None.

Fixpoint read_base (base acc : Z) (s : string) : option Z :=
  match s with
  | EmptyString => Some acc
  | String c s' => v ← digit_in base c; read_base base (acc * base + v) s'
  end.

(** [strconv.ParseInt(s, 0, 64)] of Go 1.8: the base follows the prefix [0x] or [0]. *)
Definition ParseInt0 (s : string) : option Z :=
  let '(neg, s') := split_sign s in
  n ← match s' with
      | EmptyString => None
      | String c EmptyString => digit_in 10 c
      | String c (String x r) =>
          if Ascii.eqb c "0" then
            if Ascii.eqb x "x" || Ascii.eqb x "X" then
              match r with EmptyString => None | _ => read_base 16 0 r end
            else read_base 8 0 (String x r)
          else read_base 10 0 s'
      end;
  signed 64 neg n.

(** [strconv.ParseBool(s)]. *)
Definition ParseBool (s : string) : option bool :=
  if existsb (String.eqb s) ["1"; "t"; "T"; "TRUE"; "true"; "True"] then Some true
  else if existsb (String.eqb s) ["0"; "f"; "F"; "FALSE"; "false"; "False"] then Some false
  else None.

(** ** [path] *)

(** [path.Split(s)]: everything up to the last slash, and the rest. *)
Fixpoint path_Split (s : string) : string * string :=
  match s with
  | EmptyString => ("", "")
  | String c s' =>
      let '(d, f) := path_Split s' in
      match d with
      | EmptyString => if Ascii.eqb c "/" then (String c "", f) else ("", String c f)
      | _ => (String c d, f)
      end
  end.

(** [path.Clean]: empty and [.] elements are dropped, [..] removes the element before it;
    [out] holds the kept elements, last first. *)
Fixpoint clean_elems (rooted : bool) (out elems : list string) : list string :=
  match elems with
  | [] => rev out
  | e :: elems' =>
      if String.eqb e "" || String.eqb e "." then clean_elems rooted out elems'
      else if String.eqb e ".." then
        match out with
        | [] => clean_elems rooted (if rooted then [] else [".."]) elems'
        | o :: out' =>
            if String.eqb o ".." then clean_elems rooted (".." :: out) elems'
            else clean_elems rooted out' elems'
        end
      else clean_elems rooted (e :: out) elems'
  end.

Definition path_Clean (s : string) : string :=
  let rooted := match s with String c _ => Ascii.eqb c "/" | EmptyString => false end in
  let body := join "/" (clean_elems rooted [] (Split "/" s)) in
  if rooted then "/" +:+ body else if String.eqb body "" then "." else body.

(** [path.Join(a, b)]. *)
Definition path_Join (a b : string) : string :=
  if String.eqb a "" then if String.eqb b "" then "" else path_Clean b
  else path_Clean (a +:+ "/" +:+ b).

(** ** Facts *)

Lemma Split_nonempty sep s : Split sep s <> [].
Proof. destruct s as [|c s]; [done|]. cbn. destruct (Ascii.eqb c sep); [done|]. by destruct (Split sep s). Qed.

(** Joining the parts gives the string back. *)
Lemma join_Split sep s : join (String sep "") (Split sep s) = s.
Proof.
  induction s as [|c s IH]; [done|]. cbn [Split].
  pose proof (Split_nonempty sep s) as Hn. destruct (Split sep s) as [|p ps]; [done|].
  destruct (Ascii.eqb_spec c sep) as [->|]; cbn [join foldr] in *; by rewrite <- IH.
Qed.

Lemma read_dec_digits s : digits_only s = true -> (read_dec 0 s).2 = "".
Proof.
  intros Hs. assert (forallb is_digit (String.list_ascii_of_string s) = true) as H
    by (by destruct s). clear Hs. generalize 0%N. induction s as [|c s IH]; intros n; [done|].
  cbn in H. apply andb_true_iff in H as [Hc H]. cbn [read_dec]. rewrite Hc. by apply IH.
Qed.

Lemma all_digits_pretty n s :
  forallb is_digit (String.list_ascii_of_string s) = true ->
  forallb is_digit (String.list_ascii_of_string (pretty_N_go n s)) = true.
Proof.
  revert s. induction (N.lt_wf_0 n) as [n _ IH]; intros s Hs.
  destruct (decide (n = 0)%N) as [->|Hn]; [by rewrite pretty_N_go_0|].
  rewrite pretty_N_go_step by lia. apply IH; [apply N.div_lt; lia|]. cbn.
  by rewrite (proj1 (pretty_N_char_digit _ (N.mod_lt n 10 ltac:(done)))).
Qed.

Lemma digits_FormatInt z : 0 <= z -> digits_only (FormatInt z) = true.
Proof.
  intros Hz. unfold FormatInt. destruct z as [|p|p]; [done| |lia].
  change (pretty (Z.pos p)) with (pretty_N_go (N.pos p) "").
  destruct (pretty_N_go_head (N.pos p) "") as (c & t & E & _ & _); [done|].
  pose proof (all_digits_pretty (N.pos p) "" eq_refl) as H. rewrite E in *. done.
Qed.

Lemma read_dec_FormatInt z : 0 <= z -> Z.of_N (read_dec 0 (FormatInt z)).1 = z.
Proof.
  intros Hz. unfold FormatInt. destruct z as [|p|p]; [done| |lia].
  change (pretty (Z.pos p)) with (pretty_N_go (N.pos p) ""). by rewrite read_dec_pretty.
Qed.

(** Parsing inverts printing. *)
Lemma ParseUint_FormatInt bits z : 0 <= z < 2 ^ bits -> ParseUint bits (FormatInt z) = Some z.
Proof.
  intros Hz. unfold ParseUint. rewrite digits_FormatInt, read_dec_FormatInt by lia.
  by destruct (Z.ltb_spec z (2 ^ bits)); [|lia].
Qed.

Lemma split_sign_digit c s : is_digit c = true -> split_sign (String c s) = (false, String c s).
Proof.
  intros Hc. unfold split_sign. destruct (Ascii.eqb_spec c "-") as [->|]; [done|].
  by destruct (Ascii.eqb_spec c "+") as [->|].
Qed.

Lemma Atoi_FormatInt z : 0 <= z < 2 ^ 63 -> Atoi (FormatInt z) = Some z.
Proof.
  intros Hz. unfold Atoi. pose proof (digits_FormatInt z ltac:(lia)) as Hd.
  pose proof (read_dec_FormatInt z ltac:(lia)) as Hr.
  destruct (FormatInt z) as [|c s]; [done|]. pose proof Hd as Hd'. cbn in Hd'.
  apply andb_true_iff in Hd' as [Hc _]. rewrite split_sign_digit, Hd, Hr by done.
  unfold signed. by destruct (Z.ltb_spec z (2 ^ (64 - 1))); [|lia].
Qed.

(** A character that is not a digit, after digits. *)
Lemma Contains_digits c s : is_digit c = false -> digits_only s = true -> Contains c s = false.
Proof.
  intros Hc Hs. assert (forallb is_digit (String.list_ascii_of_string s) = true) as H
    by (by destruct s). clear Hs. induction s as [|d s IH]; [done|]. cbn in *.
  apply andb_true_iff in H as [Hd H]. rewrite IH by done.
  by destruct (Ascii.eqb_spec d c) as [->|]; [rewrite Hd in Hc|].
Qed.

Lemma Contains_app_char c s : Contains c (s +:+ String c "") = true.
Proof.
  induction s as [|d s IH].
  - change (Ascii.eqb c c || false = true). by rewrite Ascii.eqb_refl.
  - change (Ascii.eqb d c || Contains c (s +:+ String c "") = true). rewrite IH. apply orb_true_r.
Qed.

Lemma Trim_digits c s :
  is_digit c = false -> digits_only s = true -> Trim c (s +:+ String c "") = s.
Proof.
  intros Hc Hs. assert (forallb is_digit (String.list_ascii_of_string s) = true) as H
    by (by destruct s).
  assert (TrimRight c (s +:+ String c "") = s) as Hr.
  { clear Hs. induction s as [|d s IH].
    { change ((if Ascii.eqb c c then EmptyString else String c EmptyString) = EmptyString).
      by rewrite Ascii.eqb_refl. }
    change (String d s +:+ String c "") with (String d (s +:+ String c "")).
    cbn in H. apply andb_true_iff in H as [Hd H]. cbn [TrimRight]. rewrite IH by done.
    destruct s; [|done]. by destruct (Ascii.eqb_spec d c) as [->|]; [rewrite Hd in Hc|]. }
  unfold Trim. destruct s as [|d s]; [done|].
  change (String d s +:+ String c "") with (String d (s +:+ String c "")) in *.
  cbn [TrimLeft]. cbn in H. apply andb_true_iff in H as [Hd _].
  by destruct (Ascii.eqb_spec d c) as [->|]; [rewrite Hd in Hc|].
Qed.

Example atoi_ex : map Atoi ["12"; "-3"; "+4"; ""; "1x"; "9223372036854775808"; "-9223372036854775808"] =
  [Some 12; Some (-3); Some 4; None; None; None; Some (-9223372036854775808)].
Proof. vm_compute. reflexivity. Qed.

Example parseint_ex : map ParseInt0 ["12"; "0x1F"; "-010"; "0"; "08"; "0x"; ""] =
  [Some 12; Some 31; Some (-8); Some 0; None; None; None].
Proof. vm_compute. reflexivity. Qed.

Example path_ex :
  path_Split "/etc/vflow/vflow.conf" = ("/etc/vflow/", "vflow.conf") /\ path_Split "a.conf" = ("", "a.conf") /\
  path_Join "/etc/vflow/" "mq.conf" = "/etc/vflow/mq.conf" /\ path_Join "" "mq.conf" = "mq.conf" /\
  path_Clean "a//./b/../c" = "a/c" /\ path_Clean "/../x" = "/x" /\ path_Clean "../x" = "../x".
Proof. vm_compute. auto 10. Qed.
