(* ===== verification/Flags.v ===== *)
(** The command line: package [flag] of the Go standard library, for any table of flags.
    The programs of the repository that take flags instantiate it: vflow itself
    (Options.v), the monitor, the stress tool and the two consumers. *)

From Stdlib Require Import Strings.Ascii.
From S2P Require Import Prelude GoNet Json GoStrings.

Local Open Scope string_scope.
Open Scope Z_scope.

(** ** Arguments *)

(** The flag's name up to [=], and the value after it; a name starts with another
    character. *)
Fixpoint cut_eq (s : string) : string * option string :=
  match s with
  | EmptyString => ("", None)
  | String c s' =>
      if Ascii.eqb c "=" then ("", Some s')
      else let '(n, v) := cut_eq s' in (String c n, v)
  end.

(** An argument that starts with a dash: the name after one or two of them, [None] when
    the argument is not a flag; [Some ""] ends the flags. *)
Definition flag_name (s : string) : option string :=
  match s with
  | String c (String d r) =>
      if Ascii.eqb c "-" then if Ascii.eqb d "-" then Some r else Some (String d r) else None
  | _ => None
  end.

Definition bad_name (name : string) : bool :=
  match name with
  | String c _ => Ascii.eqb c "-" || Ascii.eqb c "="
  | EmptyString => true
  end.

(** ** [flag.Parse] *)

Section parse.
(** The targets of the flags, how a name finds its target, which targets are boolean, and
    [flag.Value.Set], [None] being an error. *)
Context {O T : Type} (lookup : string -> option T) (is_bool : T -> bool)
        (assign : T -> string -> O -> option O).

(** The arguments after the program's name; [None] when the process exits with an error
    or the usage. *)
Fixpoint Parse (args : list string) (o : O) : option O :=
  match args with
  | [] => Some o
  | s :: args' =>
      if String.eqb s "--" then Some o
      else match flag_name s with
      | None => Some o
      | Some nv =>
          if bad_name nv then None
          else
            let '(name, value) := cut_eq nv in
            match lookup name with
            | None => None
            | Some t =>
                if is_bool t then
                  o' ← assign t (default "true" value) o; Parse args' o'
                else
                  match value, args' with
                  | Some v, _ => o' ← assign t v o; Parse args' o'
                  | None, v :: args'' => o' ← assign t v o; Parse args'' o'
                  | None, [] => None
                  end
            end
      end
  end.

End parse.

(** An assignment on the command line, [-name=value]. *)
Definition render (a : string * string) : string := "-" +:+ a.1 +:+ "=" +:+ a.2.

(** The flags' names: not empty, without a dash in front and without [=]. *)
Definition name_ok (n : string) : bool := negb (bad_name n) && negb (Contains "=" n).

Lemma cut_eq_app n v : Contains "=" n = false -> cut_eq (n +:+ "=" +:+ v) = (n, Some v).
Proof.
  induction n as [|c n IH]; [done|]. cbn [Contains]. intros [Hc Hn]%orb_false_iff.
  change (String c n +:+ ?r) with (String c (n +:+ r)). cbn [cut_eq]. by rewrite Hc, IH.
Qed.

Lemma flag_name_render a : name_ok a.1 = true ->
  String.eqb (render a) "--" = false /\ flag_name (render a) = Some (a.1 +:+ "=" +:+ a.2) /\
  bad_name (a.1 +:+ "=" +:+ a.2) = false.
Proof.
  destruct a as [n v]. unfold name_ok, render. cbn [fst snd].
  intros [Hb Hc]%andb_true_iff. destruct n as [|c n]; [done|]. cbn [bad_name] in *.
  apply negb_true_iff in Hb. apply orb_false_iff in Hb as [Hd He].
  split_and!.
  - change (String.eqb (String "-" (String c (n +:+ "=" +:+ v))) "--" = false).
    cbn [String.eqb]. by rewrite Hd.
  - change (flag_name (String "-" (String c (n +:+ "=" +:+ v))) = Some (String c (n +:+ "=" +:+ v))).
    cbn [flag_name]. by rewrite Hd.
  - change (bad_name (String c (n +:+ "=" +:+ v)) = false). cbn [bad_name]. by rewrite Hd, He.
Qed.

Section parse_facts.
Context {O T : Type} (lookup : string -> option T) (is_bool : T -> bool)
        (assign : T -> string -> O -> option O).
Hypothesis names_ok : forall n t, lookup n = Some t -> name_ok n = true.

Lemma Parse_cons a args o t :
  lookup a.1 = Some t ->
  Parse lookup is_bool assign (render a :: args) o = (o' ← assign t a.2 o; Parse lookup is_bool assign args o').
Proof using names_ok.
  intros Hl. pose proof (names_ok _ _ Hl) as Hn.
  destruct (flag_name_render a Hn) as (H1 & H2 & H3). cbn [Parse]. rewrite H1, H2, H3.
  rewrite cut_eq_app, Hl by (by apply andb_true_iff in Hn as [_ ?%negb_true_iff]).
  by destruct (is_bool t).
Qed.

End parse_facts.

(** ** Tables of [flag.StringVar], [flag.IntVar] and [flag.BoolVar] *)

Inductive setter (O : Type) : Type :=
| StringVar (set : string -> O -> O)
| IntVar (set : Z -> O -> O)
| BoolVar (set : bool -> O -> O).
Arguments StringVar {O}.
Arguments IntVar {O}.
Arguments BoolVar {O}.

Section tables.
Context {O : Type} (table : list (string * setter O)).

Definition Lookup (name : string) : option (setter O) :=
  snd <$> List.find (fun e => String.eqb e.1 name) table.

Definition IsBoolFlag (t : setter O) : bool := match t with BoolVar _ => true | _ => false end.

Definition Set_ (t : setter O) (value : string) (o : O) : option O :=
  match t with
  | StringVar set => Some (set value o)
  | IntVar set => (fun z => set z o) <$> ParseInt0 value
  | BoolVar set => (fun b => set b o) <$> ParseBool value
  end.

Definition ParseTable : list string -> O -> option O := Parse Lookup IsBoolFlag Set_.

(** The assignments one after the other. *)
Fixpoint assign_all (asg : list (string * string)) (o : O) : option O :=
  match asg with
  | [] => Some o
  | a :: asg' => t ← Lookup a.1; o' ← Set_ t a.2 o; assign_all asg' o'
  end.

Hypothesis table_ok : forallb (fun e => name_ok e.1) table = true.

Lemma Lookup_name n t : Lookup n = Some t -> name_ok n = true.
Proof using table_ok.
  unfold Lookup. destruct (List.find _ table) as [[n' s']|] eqn:E; [|done]. intros _.
  apply find_some in E as [Hin He]. cbn in He. apply String.eqb_eq in He as <-.
  rewrite forallb_forall in table_ok. apply (table_ok _ Hin).
Qed.

Lemma ParseTable_cons a args o t :
  Lookup a.1 = Some t -> ParseTable (render a :: args) o = (o' ← Set_ t a.2 o; ParseTable args o').
Proof using table_ok. apply Parse_cons, Lookup_name. Qed.

Lemma ParseTable_render asg o :
  Forall (fun a => is_Some (Lookup a.1)) asg -> ParseTable (map render asg) o = assign_all asg o.
Proof using table_ok.
  intros Ha. revert o. induction Ha as [|a asg [t Ht] _ IH]; intros o; [done|].
  cbn [map assign_all]. rewrite (ParseTable_cons _ _ _ t Ht), Ht. cbn.
  destruct (Set_ t a.2 o) as [o'|]; [apply IH|done].
Qed.

(** A flag that is not in the table ends the program, whatever comes after it. *)
Lemma ParseTable_unknown a asg args o :
  Forall (fun b => is_Some (Lookup b.1)) asg ->
  name_ok a.1 = true -> Lookup a.1 = None ->
  ParseTable (map render asg ++ render a :: args) o = None.
Proof using table_ok.
  intros Ha Hok Hl. revert o. induction Ha as [|b asg [t Ht] _ IH]; intros o; cbn [map app].
  - destruct (flag_name_render a Hok) as (H1 & H2 & H3).
    unfold ParseTable. cbn [Parse]. rewrite H1, H2, H3.
    by rewrite cut_eq_app, Hl by (by apply andb_true_iff in Hok as [_ ?%negb_true_iff]).
  - rewrite (ParseTable_cons _ _ _ t Ht). destruct (Set_ t b.2 o) as [o'|]; [apply IH|done].
Qed.

End tables.
