(* ===== verification/Options.v ===== *)
(** The configuration, [src/vflow/options.go]: the defaults, the configuration file, the
    command line, the number of processors and the process-id file.

    [option_field] names the fields of the Go struct [Options], so that the YAML decoder
    and the flag package, which assign fields by name, can be stated once for all of
    them.  The package [flag] and the parts of [strconv] and [path] it uses are written
    out; the YAML library is a parameter with the assignments it makes as a law, and the
    file system and [kill -0] are parameters too.  The logger is not part of the record. *)

From Stdlib Require Import Strings.Ascii Floats.SpecFloat.
From S2P Require Import Prelude GoNet Json GoStrings Flags.

Local Open Scope string_scope.
Open Scope Z_scope.

(** ** The options *)

(** The Go types of the fields: [bool], [int], [string] and [arrUInt32Flags]. *)
Inductive GoVal : Type := GBool (b : bool) | GInt (z : Z) | GStr (s : string) | GFilter (l : list Z).

Inductive option_field : Type :=
| Verbose | LogFile | PIDFile | CPUCap | DynWorkers | version | StatsEnabled | StatsHTTPAddr
| StatsHTTPPort | SFlowEnabled | SFlowPort | SFlowUDPSize | SFlowWorkers | SFlowTopic
| SFlowTypeFilter | IPFIXEnabled | IPFIXRPCEnabled | IPFIXPort | IPFIXAddr | IPFIXUDPSize
| IPFIXWorkers | IPFIXTopic | IPFIXMirrorAddr | IPFIXMirrorPort | IPFIXMirrorWorkers
| IPFIXTplCacheFile | NetflowV9Enabled | NetflowV9Port | NetflowV9UDPSize | NetflowV9Workers
| NetflowV9Topic | NetflowV9TplCacheFile | MQName | MQConfigFile | VFlowConfigPath.

#[global] Instance option_field_eq : EqDecision option_field.
Proof. solve_decision. Defined.

Record Options : Type := mkOptions {
  o_Verbose : bool; o_LogFile : string; o_PIDFile : string; o_CPUCap : string;
  o_DynWorkers : bool; o_version : bool; o_StatsEnabled : bool; o_StatsHTTPAddr : string;
  o_StatsHTTPPort : string; o_SFlowEnabled : bool; o_SFlowPort : Z; o_SFlowUDPSize : Z;
  o_SFlowWorkers : Z; o_SFlowTopic : string; o_SFlowTypeFilter : list Z; o_IPFIXEnabled : bool;
  o_IPFIXRPCEnabled : bool; o_IPFIXPort : Z; o_IPFIXAddr : string; o_IPFIXUDPSize : Z;
  o_IPFIXWorkers : Z; o_IPFIXTopic : string; o_IPFIXMirrorAddr : string; o_IPFIXMirrorPort : Z;
  o_IPFIXMirrorWorkers : Z; o_IPFIXTplCacheFile : string; o_NetflowV9Enabled : bool;
  o_NetflowV9Port : Z; o_NetflowV9UDPSize : Z; o_NetflowV9Workers : Z; o_NetflowV9Topic : string;
  o_NetflowV9TplCacheFile : string; o_MQName : string; o_MQConfigFile : string;
  o_VFlowConfigPath : string
}.

(** The value of a field, and the assignment of a value of the field's type. *)
Definition field_get (f : option_field) (o : Options) : GoVal :=
  match f with
  | Verbose => GBool (o_Verbose o) | LogFile => GStr (o_LogFile o)
  | PIDFile => GStr (o_PIDFile o) | CPUCap => GStr (o_CPUCap o)
  | DynWorkers => GBool (o_DynWorkers o) | version => GBool (o_version o)
  | StatsEnabled => GBool (o_StatsEnabled o) | StatsHTTPAddr => GStr (o_StatsHTTPAddr o)
  | StatsHTTPPort => GStr (o_StatsHTTPPort o) | SFlowEnabled => GBool (o_SFlowEnabled o)
  | SFlowPort => GInt (o_SFlowPort o) | SFlowUDPSize => GInt (o_SFlowUDPSize o)
  | SFlowWorkers => GInt (o_SFlowWorkers o) | SFlowTopic => GStr (o_SFlowTopic o)
  | SFlowTypeFilter => GFilter (o_SFlowTypeFilter o) | IPFIXEnabled => GBool (o_IPFIXEnabled o)
  | IPFIXRPCEnabled => GBool (o_IPFIXRPCEnabled o) | IPFIXPort => GInt (o_IPFIXPort o)
  | IPFIXAddr => GStr (o_IPFIXAddr o) | IPFIXUDPSize => GInt (o_IPFIXUDPSize o)
  | IPFIXWorkers => GInt (o_IPFIXWorkers o) | IPFIXTopic => GStr (o_IPFIXTopic o)
  | IPFIXMirrorAddr => GStr (o_IPFIXMirrorAddr o) | IPFIXMirrorPort => GInt (o_IPFIXMirrorPort o)
  | IPFIXMirrorWorkers => GInt (o_IPFIXMirrorWorkers o)
  | IPFIXTplCacheFile => GStr (o_IPFIXTplCacheFile o)
  | NetflowV9Enabled => GBool (o_NetflowV9Enabled o) | NetflowV9Port => GInt (o_NetflowV9Port o)
  | NetflowV9UDPSize => GInt (o_NetflowV9UDPSize o)
  | NetflowV9Workers => GInt (o_NetflowV9Workers o) | NetflowV9Topic => GStr (o_NetflowV9Topic o)
  | NetflowV9TplCacheFile => GStr (o_NetflowV9TplCacheFile o) | MQName => GStr (o_MQName o)
  | MQConfigFile => GStr (o_MQConfigFile o) | VFlowConfigPath => GStr (o_VFlowConfigPath o)
  end.

(** The YAML key of a field: its tag, or its name in lower case; [version] is not exported. *)
Definition yaml_key (f : option_field) : option string :=
  match f with
  | Verbose => Some "verbose" | LogFile => Some "log-file" | PIDFile => Some "pid-file"
  | CPUCap => Some "cpu-cap" | DynWorkers => Some "dynamic-workers" | version => None
  | StatsEnabled => Some "stats-enabled" | StatsHTTPAddr => Some "stats-http-addr"
  | StatsHTTPPort => Some "stats-http-port" | SFlowEnabled => Some "sflow-enabled"
  | SFlowPort => Some "sflow-port" | SFlowUDPSize => Some "sflow-udp-size"
  | SFlowWorkers => Some "sflow-workers" | SFlowTopic => Some "sflow-topic"
  | SFlowTypeFilter => Some "sflow-type-filter" | IPFIXEnabled => Some "ipfix-enabled"
  | IPFIXRPCEnabled => Some "ipfix-rpc-enabled" | IPFIXPort => Some "ipfix-port"
  | IPFIXAddr => Some "ipfix-addr" | IPFIXUDPSize => Some "ipfix-udp-size"
  | IPFIXWorkers => Some "ipfix-workers" | IPFIXTopic => Some "ipfix-topic"
  | IPFIXMirrorAddr => Some "ipfix-mirror-addr" | IPFIXMirrorPort => Some "ipfix-mirror-port"
  | IPFIXMirrorWorkers => Some "ipfix-mirror-workers"
  | IPFIXTplCacheFile => Some "ipfix-tpl-cache-file"
  | NetflowV9Enabled => Some "netflow9-enabled" | NetflowV9Port => Some "netflow9-port"
  | NetflowV9UDPSize => Some "netflow9-udp-size" | NetflowV9Workers => Some "netflow9-workers"
  | NetflowV9Topic => Some "netflow9-topic"
  | NetflowV9TplCacheFile => Some "netflow9-tpl-cache-file" | MQName => Some "mq-name"
  | MQConfigFile => Some "mq-config-file" | VFlowConfigPath => Some "vflowconfigpath"
  end.

Definition NewOptions : Options := mkOptions
  false "" "/var/run/vflow.pid" "100%" true false true "" "8081" true 6343 1500 200 "vflow.sflow"
  [] true true 4739 "" 1500 200 "vflow.ipfix" "" 4172 5 "/tmp/vflow.templates" true 4729 1500 200
  "vflow.netflow9" "/tmp/netflowv9.templates" "kafka" "mq.conf" "/etc/vflow".

(** The flags of [vFlowFlagSet]; [config] is kept in a local variable. *)
Definition flag_table : list (string * option option_field) :=
  [("config", None);
   ("verbose", Some Verbose); ("dynamic-workers", Some DynWorkers); ("version", Some version);
   ("log-file", Some LogFile); ("pid-file", Some PIDFile); ("cpu-cap", Some CPUCap);
   ("stats-enabled", Some StatsEnabled); ("stats-http-port", Some StatsHTTPPort);
   ("stats-http-addr", Some StatsHTTPAddr); ("sflow-enabled", Some SFlowEnabled);
   ("sflow-port", Some SFlowPort); ("sflow-max-udp-size", Some SFlowUDPSize);
   ("sflow-workers", Some SFlowWorkers); ("sflow-topic", Some SFlowTopic);
   ("sflow-type-filter", Some SFlowTypeFilter); ("ipfix-enabled", Some IPFIXEnabled);
   ("ipfix-rpc-enabled", Some IPFIXRPCEnabled); ("ipfix-port", Some IPFIXPort);
   ("ipfix-addr", Some IPFIXAddr); ("ipfix-max-udp-size", Some IPFIXUDPSize);
   ("ipfix-workers", Some IPFIXWorkers); ("ipfix-topic", Some IPFIXTopic);
   ("ipfix-tpl-cache-file", Some IPFIXTplCacheFile); ("ipfix-mirror-addr", Some IPFIXMirrorAddr);
   ("ipfix-mirror-port", Some IPFIXMirrorPort);
   ("ipfix-mirror-workers", Some IPFIXMirrorWorkers);
   ("netflow9-enabled", Some NetflowV9Enabled); ("netflow9-port", Some NetflowV9Port);
   ("netflow9-max-udp-size", Some NetflowV9UDPSize); ("netflow9-workers", Some NetflowV9Workers);
   ("netflow9-topic", Some NetflowV9Topic);
   ("netflow9-tpl-cache-file", Some NetflowV9TplCacheFile); ("mqueue", Some MQName);
   ("mqueue-conf", Some MQConfigFile)].

Definition set_b (f g : option_field) (v : GoVal) (old : bool) : bool :=
  match v with GBool x => if decide (f = g) then x else old | _ => old end.
Definition set_i (f g : option_field) (v : GoVal) (old : Z) : Z :=
  match v with GInt x => if decide (f = g) then x else old | _ => old end.
Definition set_s (f g : option_field) (v : GoVal) (old : string) : string :=
  match v with GStr x => if decide (f = g) then x else old | _ => old end.
Definition set_f (f g : option_field) (v : GoVal) (old : list Z) : list Z :=
  match v with GFilter x => if decide (f = g) then x else old | _ => old end.

(** An assignment of the wrong type is refused. *)
Definition field_kind (f : option_field) (v : GoVal) : bool :=
  match field_get f NewOptions, v with
  | GBool _, GBool _ | GInt _, GInt _ | GStr _, GStr _ | GFilter _, GFilter _ => true
  | _, _ => false
  end.

Definition field_set (f : option_field) (v : GoVal) (o : Options) : option Options :=
  if field_kind f v then Some (mkOptions
    (set_b f Verbose v (o_Verbose o)) (set_s f LogFile v (o_LogFile o))
    (set_s f PIDFile v (o_PIDFile o)) (set_s f CPUCap v (o_CPUCap o))
    (set_b f DynWorkers v (o_DynWorkers o)) (set_b f version v (o_version o))
    (set_b f StatsEnabled v (o_StatsEnabled o)) (set_s f StatsHTTPAddr v (o_StatsHTTPAddr o))
    (set_s f StatsHTTPPort v (o_StatsHTTPPort o)) (set_b f SFlowEnabled v (o_SFlowEnabled o))
    (set_i f SFlowPort v (o_SFlowPort o)) (set_i f SFlowUDPSize v (o_SFlowUDPSize o))
    (set_i f SFlowWorkers v (o_SFlowWorkers o)) (set_s f SFlowTopic v (o_SFlowTopic o))
    (set_f f SFlowTypeFilter v (o_SFlowTypeFilter o)) (set_b f IPFIXEnabled v (o_IPFIXEnabled o))
    (set_b f IPFIXRPCEnabled v (o_IPFIXRPCEnabled o)) (set_i f IPFIXPort v (o_IPFIXPort o))
    (set_s f IPFIXAddr v (o_IPFIXAddr o)) (set_i f IPFIXUDPSize v (o_IPFIXUDPSize o))
    (set_i f IPFIXWorkers v (o_IPFIXWorkers o)) (set_s f IPFIXTopic v (o_IPFIXTopic o))
    (set_s f IPFIXMirrorAddr v (o_IPFIXMirrorAddr o))
    (set_i f IPFIXMirrorPort v (o_IPFIXMirrorPort o))
    (set_i f IPFIXMirrorWorkers v (o_IPFIXMirrorWorkers o))
    (set_s f IPFIXTplCacheFile v (o_IPFIXTplCacheFile o))
    (set_b f NetflowV9Enabled v (o_NetflowV9Enabled o))
    (set_i f NetflowV9Port v (o_NetflowV9Port o))
    (set_i f NetflowV9UDPSize v (o_NetflowV9UDPSize o))
    (set_i f NetflowV9Workers v (o_NetflowV9Workers o))
    (set_s f NetflowV9Topic v (o_NetflowV9Topic o))
    (set_s f NetflowV9TplCacheFile v (o_NetflowV9TplCacheFile o)) (set_s f MQName v (o_MQName o))
    (set_s f MQConfigFile v (o_MQConfigFile o)) (set_s f VFlowConfigPath v (o_VFlowConfigPath o)))
  else None.

(** ** Flag values *)

(** [arrUInt32Flags.Set]: the numbers before the first bad one stay appended. *)
Fixpoint arrUInt32Flags_Set_loop (arr : list string) (a : list Z) : list Z * bool :=
  match arr with
  | [] => (a, true)
  | v :: arr' =>
      match ParseUint 32 v with
      | Some v64 => arrUInt32Flags_Set_loop arr' (a ++ [uint32 v64])%list
      | None => (a, false)
      end
  end.

Definition arrUInt32Flags_Set (value : string) (a : list Z) : list Z * bool :=
  arrUInt32Flags_Set_loop (Split "," value) a.

(** [flag.Value.Set] of a field: [None] is an error. *)
Definition flag_value (f : option_field) (value : string) (o : Options) : option GoVal :=
  match field_get f o with
  | GBool _ => GBool <$> ParseBool value
  | GInt _ => GInt <$> ParseInt0 value
  | GStr _ => Some (GStr value)
  | GFilter a => match arrUInt32Flags_Set value a with (a', true) => Some (GFilter a') | _ => None end
  end.

Definition flag_Set (f : option_field) (value : string) (o : Options) : option Options :=
  v ← flag_value f value o; field_set f v o.

(** ** The command line: [flag.Parse] *)

Definition isBoolFlag (t : option option_field) : bool :=
  match t with Some f => field_kind f (GBool true) | None => false end.

Definition flag_lookup (name : string) : option (option option_field) :=
  snd <$> List.find (fun e => String.eqb e.1 name) flag_table.

(** Assign a flag; the value of [config] only goes to a local variable. *)
Definition flag_assign (t : option option_field) (value : string) (o : Options) : option Options :=
  match t with None => Some o | Some f => flag_Set f value o end.

(** [flag.Parse] with the table. *)
Definition flag_Parse : list string -> Options -> option Options := Parse flag_lookup isBoolFlag flag_assign.

(** ** The configuration file *)

(** The argument after the first [-config]; [Panic] when there is none. *)
Fixpoint config_arg (args : list string) : res (option string) :=
  match args with
  | [] => Ok None
  | a :: args' =>
      if String.eqb a "-config" then
        match args' with file :: _ => Ok (Some file) | [] => Panic end
      else config_arg args'
  end.

Section config.
(** [ioutil.ReadFile], and [yaml.Unmarshal] into the options: the options it leaves and
    whether it succeeded. *)
Context (ReadFile : string -> option string)
        (yaml_Unmarshal : string -> Options -> Options * bool).

Definition with_config_path (p : string) (o : Options) : Options :=
  default o (field_set VFlowConfigPath (GStr p) o).

Definition vFlowLoadCfg (os_Args : list string) (o : Options) : res Options :=
  match config_arg os_Args with
  | Ok c =>
      let file := default (path_Join (o_VFlowConfigPath o) "vflow.conf") c in
      let o := match c with Some f => with_config_path (path_Split f).1 o | None => o end in
      match ReadFile file with
      | None => Ok o
      | Some b => Ok (yaml_Unmarshal b o).1
      end
  | Err _ e => Err None e
  | Panic => Panic
  | NoFuel => NoFuel
  end.

(** [opts.vFlowFlagSet()]; [Ok None] when [flag.Parse] exits the process. *)
Definition vFlowFlagSet (os_Args : list string) (o : Options) : res (option Options) :=
  match vFlowLoadCfg os_Args o with
  | Ok o => Ok (flag_Parse (tail os_Args) o)
  | Err _ e => Err None e
  | Panic => Panic
  | NoFuel => NoFuel
  end.

End config.

(** ** Processors *)

(** [float32] arithmetic: 24 bits of precision, rounded to nearest. *)
Definition float32_of (z : Z) : spec_float := binary_normalize 24 128 z 0 false.
Definition float32_div : spec_float -> spec_float -> spec_float := SFdiv 24 128.
Definition float32_mul : spec_float -> spec_float -> spec_float := SFmul 24 128.

(** [int(x)] of a finite float: truncation. *)
Definition int_of_float (x : spec_float) : Z :=
  match x with
  | S754_finite s m e =>
      let a := if 0 <=? e then Zpos m * 2 ^ e else Zpos m / 2 ^ (- e) in
      if s then - a else a
  | _ => 0
  end.

(** The share of the available processors. *)
Definition percent_of (availCPU pct : Z) : Z :=
  int_of_float (float32_mul (float32_of availCPU) (float32_div (float32_of pct) (float32_of 100))).

(** [opts.GetCPU()] with [availCPU = runtime.NumCPU()]; [None] is [Logger.Fatalf]. *)
Definition GetCPU (availCPU : Z) (o : Options) : option Z :=
  numCPU ← (if Contains "%" (o_CPUCap o) then
              pctInt ← Atoi (Trim "%" (o_CPUCap o));
              if (pctInt <? 1) || (pctInt >? 100) then None
              else Some (percent_of availCPU pctInt)
            else
              numInt ← Atoi (o_CPUCap o);
              if numInt <? 1 then None else Some numInt);
  Some (if numCPU >? availCPU then availCPU else numCPU).

(** [runtime.GOMAXPROCS(n)] in [main]: the processors used afterwards; a number below
    one changes nothing, and at the start all are used. *)
Definition GOMAXPROCS (availCPU n : Z) : Z := if n <? 1 then availCPU else n.

(** ** The process-id file *)

(** Writing at the start of an existing file that is not truncated. *)
Definition overwrite (old new : string) : string :=
  new +:+ String.substring (String.length new) (String.length old - String.length new) old.

(** The files that matter, by name; [None] in [open] is an error of [os.OpenFile]. *)
Abbreviation Files := (gmap string string).

(** The logger: the file it writes to, [None] for standard error, whether a line carries
    its place in the source, and the lines so far, each with the destination and the flag
    it was written with.  The date of a line is left out. *)
Record LogLine : Type := mkLogLine { ll_out : option string; ll_shortfile : bool; ll_text : string }.
Record Logger : Type := mkLogger { lg_out : option string; lg_shortfile : bool; lg_lines : list LogLine }.

(** [log.New(os.Stderr, ...)] of [NewOptions]. *)
Definition NewLogger : Logger := mkLogger None false [].

Definition Println (text : string) (lg : Logger) : Logger :=
  mkLogger (lg_out lg) (lg_shortfile lg)
    (lg_lines lg ++ [mkLogLine (lg_out lg) (lg_shortfile lg) text])%list.

Section start.
(** The outcome of [kill -0], which files [os.OpenFile] can open and its error otherwise,
    the process id, and the version set by the linker. *)
Context (kill0 writable : string -> bool) (open_error : string -> string) (pid : Z) (ldversion : string).

(** [opts.vFlowPIDWrite()]: [O_WRONLY|O_CREATE]. *)
Definition vFlowPIDWrite (o : Options) (lg : Logger) (fs : Files) : Logger * Files :=
  if writable (o_PIDFile o) then
    (lg, <[o_PIDFile o := overwrite (default "" (fs !! o_PIDFile o)) (FormatInt pid)]> fs)
  else (Println (open_error (o_PIDFile o)) lg, fs).

(** [opts.vFlowIsRunning()]. *)
Definition vFlowIsRunning (o : Options) (fs : Files) : bool :=
  match fs !! o_PIDFile o with None => false | Some b => kill0 b end.

(** [init]: the version. *)
Definition version_text : string := if String.eqb ldversion "" then "unknown" else ldversion.

(** [opts.vFlowVersion()]: what is printed before the process exits. *)
Definition vFlowVersion (o : Options) : option string :=
  if o_version o then Some ("vFlow version: " +:+ version_text) else None.

(** Verbose logging and the log file, which is opened to append and so created. *)
Definition set_logger (o : Options) (lg : Logger) (fs : Files) : Logger * Files :=
  let lg :=
    if o_Verbose o then
      let lg := Println "the full logging enabled" lg in mkLogger (lg_out lg) true (lg_lines lg)
    else lg in
  if String.eqb (o_LogFile o) "" then (lg, fs)
  else if writable (o_LogFile o) then
    (mkLogger (Some (o_LogFile o)) (lg_shortfile lg) (lg_lines lg),
     <[o_LogFile o := default "" (fs !! o_LogFile o)]> fs)
  else (Println (open_error (o_LogFile o)) lg, fs).

(** What [GetOptions] comes to. *)
Inductive Startup : Type :=
| StartPanic                            (* [os.Args[i+1]] out of range *)
| StartExit                             (* flag errors *)
| StartVersion (text : string)          (* [-version] *)
| StartRunning (lg : Logger)            (* [log.Fatal]: already running *)
| Started (o : Options) (lg : Logger) (fs : Files).

(** [GetOptions()]. *)
Definition GetOptions (ReadFile : Files -> string -> option string)
    (yaml_Unmarshal : string -> Options -> Options * bool) (os_Args : list string) (fs : Files) : Startup :=
  match vFlowFlagSet (ReadFile fs) yaml_Unmarshal os_Args NewOptions with
  | Ok (Some o) =>
      match vFlowVersion o with
      | Some text => StartVersion text
      | None =>
          let '(lg, fs) := set_logger o NewLogger fs in
          if vFlowIsRunning o fs then StartRunning (Println "the vFlow already is running!" lg)
          else
            let '(lg, fs) := vFlowPIDWrite o lg fs in
            let lg := Println ("Welcome to vFlow v." +:+ version_text +:+ " Apache License 2.0") lg in
            let lg := Println "Copyright (C) 2018 Verizon. github.com/VerizonDigital/vflow" lg in
            Started o lg fs
      end
  | Ok None => StartExit
  | _ => StartPanic
  end.

End start.

(** ** Assignments *)

Lemma field_kind_get f o : field_kind f (field_get f o) = true.
Proof. by destruct f. Qed.

Lemma field_set_get f v o :
  field_kind f v = true ->
  exists o', field_set f v o = Some o' /\
    forall g, field_get g o' = if decide (f = g) then v else field_get g o.
Proof.
  intros Hk. unfold field_set. rewrite Hk. eexists. split; [reflexivity|]. intros g.
  destruct g, v, f; try discriminate Hk; reflexivity.
Qed.

(** The kind of a field does not change. *)
Lemma field_kind_of f o v :
  match field_get f o, v with
  | GBool _, GBool _ | GInt _, GInt _ | GStr _, GStr _ | GFilter _, GFilter _ => true
  | _, _ => false
  end = field_kind f v.
Proof. by destruct f, v. Qed.

(** ** Processors: bounds *)

Definition nonneg_float (x : spec_float) : Prop :=
  match x with S754_finite s _ _ | S754_zero s | S754_infinity s => s = false | S754_nan => True end.

Lemma int_of_nonneg x : nonneg_float x -> 0 <= int_of_float x.
Proof.
  destruct x as [| | |s m e]; cbn; try lia. intros ->. destruct (0 <=? e) eqn:E.
  - pose proof (Z.pow_nonneg 2 e). lia.
  - apply Z.div_pos; [lia|]. apply Z.pow_pos_nonneg; lia.
Qed.

Lemma round_nonneg m e l : nonneg_float (binary_round_aux 24 128 false m e l).
Proof.
  unfold binary_round_aux. destruct (shr_fexp _ _ _ _ _) as [mrs' e'].
  destruct (shr_fexp _ _ _ _ _) as [mrs'' e'']. destruct (shr_m mrs''); try done.
  by destruct (e'' <=? _).
Qed.

Lemma float32_of_nonneg z : 0 <= z -> nonneg_float (float32_of z).
Proof.
  intros Hz. unfold float32_of, binary_normalize. destruct z as [|p|p]; [done| |lia].
  unfold binary_round. destruct (shl_align _ _ _). apply round_nonneg.
Qed.

Lemma float32_mul_nonneg x y : nonneg_float x -> nonneg_float y -> nonneg_float (float32_mul x y).
Proof.
  destruct x, y; cbn; try done; intros -> ->; try done. apply round_nonneg.
Qed.

Lemma float32_div_nonneg x y : nonneg_float x -> nonneg_float y -> nonneg_float (float32_div x y).
Proof.
  destruct x, y; unfold float32_div, SFdiv; cbn; try done; intros -> ->; try done.
  destruct (SFdiv_core_binary _ _ _ _ _ _) as [[? ?] ?]. apply round_nonneg.
Qed.

Lemma percent_of_nonneg a p : 0 <= a -> 0 <= p -> 0 <= percent_of a p.
Proof.
  intros Ha Hp. apply int_of_nonneg, float32_mul_nonneg, float32_div_nonneg;
    apply float32_of_nonneg; lia.
Qed.

(** Less than one processor is rounded to none, checked for the pairs there are. *)
Lemma percent_of_small a p : 1 <= a -> 1 <= p -> a * p < 100 -> percent_of a p = 0.
Proof.
  intros Ha Hp Hap.
  assert (forallb (fun a => forallb (fun p => percent_of (Z.of_nat a) (Z.of_nat p) =? 0)
      (seq 1 (Z.to_nat (99 / Z.of_nat a)))) (seq 1 99) = true) as H by (vm_compute; reflexivity).
  rewrite forallb_forall in H. specialize (H (Z.to_nat a)).
  rewrite forallb_forall in H. specialize (H ltac:(apply in_seq; nia) (Z.to_nat p)).
  rewrite !Z2Nat.id in H by lia. apply Z.eqb_eq, H, in_seq.
  assert (p <= 99 / a) by (apply Z.div_le_lower_bound; lia). lia.
Qed.

(** The processors vFlow uses.  Whatever the setting [cpu-cap], a start that is not
    refused uses between one and all of the available processors, and a plain number is
    respected.  But a percentage that amounts to less than one processor makes [GetCPU]
    zero, which [main] passes on to a call that ignores it: vFlow then uses all
    processors. *)
Theorem GetCPU_procs (availCPU n : Z) (o : Options)
    (Ha : 1 <= availCPU) (Hn : GetCPU availCPU o = Some n) :
  0 <= n <= availCPU /\ 1 <= GOMAXPROCS availCPU n <= availCPU /\
  (forall k, 1 <= k < 2 ^ 63 -> o_CPUCap o = FormatInt k -> n = Z.min k availCPU) /\
  (forall p, 1 <= p <= 100 -> o_CPUCap o = FormatInt p +:+ "%" -> availCPU * p < 100 ->
     GOMAXPROCS availCPU n = availCPU).
Proof.
  assert (0 <= n <= availCPU) as Hr.
  { unfold GetCPU in Hn. destruct (if Contains _ _ then _ else _) as [m|] eqn:E; [|done].
    cbn in Hn. injection Hn as <-. assert (0 <= m).
    { destruct (Contains _ _); [destruct (Atoi (Trim _ _)) as [p|]; [|done]|
        destruct (Atoi _) as [p|]; [|done]]; cbn in E.
      - destruct (Z.ltb_spec p 1), (Z.gtb_spec p 100); try done. injection E as <-.
        apply percent_of_nonneg; lia.
      - destruct (Z.ltb_spec p 1); [done|]. injection E as <-. lia. }
    destruct (Z.gtb_spec m availCPU); lia. }
  split; [done|]. split; [unfold GOMAXPROCS; destruct (Z.ltb_spec n 1); lia|].
  unfold GetCPU in Hn. split.
  - intros k Hk E. rewrite E in Hn.
    rewrite Contains_digits in Hn by (done || apply digits_FormatInt; lia).
    rewrite Atoi_FormatInt in Hn by lia. cbn in Hn. destruct (Z.ltb_spec k 1); [lia|].
    cbn in Hn. injection Hn as <-. destruct (Z.gtb_spec k availCPU); lia.
  - intros p Hp E Hs. rewrite E in Hn.
    rewrite Contains_app_char, Trim_digits in Hn by (done || apply digits_FormatInt; lia).
    rewrite Atoi_FormatInt in Hn by lia. cbn in Hn.
    destruct (Z.ltb_spec p 1), (Z.gtb_spec p 100); try lia. cbn in Hn. injection Hn as <-.
    rewrite percent_of_small by lia. destruct (Z.gtb_spec 0 availCPU); [lia|done].
Qed.

(** ** Precedence *)

(** The numbers of a filter flag. *)
Definition filter_numbers (value : string) : option (list Z) := mapM (ParseUint 32) (Split "," value).

(** The assignment names a flag and its value has the flag's type. *)
Definition asg_ok (a : string * string) : Prop :=
  match flag_lookup a.1 with
  | None => False
  | Some None => True
  | Some (Some f) =>
      match field_get f NewOptions with
      | GBool _ => ParseBool a.2 <> None
      | GInt _ => ParseInt0 a.2 <> None
      | GStr _ => True
      | GFilter _ => filter_numbers a.2 <> None
      end
  end.

Definition assigns (f : option_field) (a : string * string) : bool :=
  bool_decide (flag_lookup a.1 = Some (Some f)).

(** The value of a field after assignments: the last one counts, except that filters
    add up. *)
Definition value_after (f : option_field) (asg : list (string * string)) (base : GoVal) : GoVal :=
  let own := map snd (List.filter (assigns f) asg) in
  match base with
  | GFilter a => GFilter (a ++ concat (map (fun v => default [] (filter_numbers v)) own))
  | GBool b => GBool (default b (last (omap ParseBool own)))
  | GInt z => GInt (default z (last (omap ParseInt0 own)))
  | GStr s => GStr (default s (last own))
  end.

Lemma Set_loop_ok arr a l :
  mapM (ParseUint 32) arr = Some l -> arrUInt32Flags_Set_loop arr a = ((a ++ l)%list, true).
Proof.
  revert a l. induction arr as [|v arr IH]; intros a l H.
  - injection H as <-. cbn. by rewrite app_nil_r.
  - cbn in H. destruct (ParseUint 32 v) as [n|] eqn:E; [|done]. cbn in H.
    destruct (mapM (ParseUint 32) arr) as [l'|] eqn:E'; [|done]. injection H as <-.
    cbn [arrUInt32Flags_Set_loop]. rewrite E. rewrite (IH _ _ eq_refl), <- app_assoc.
    unfold ParseUint in E. destruct (digits_only v); [|done].
    destruct (Z.ltb_spec (Z.of_N (read_dec 0 v).1) (2 ^ 32)); [|done]. injection E as <-.
    rewrite (wrapU_small 32) by lia. done.
Qed.

(** One assignment. *)
Lemma flag_assign_ok a t o :
  asg_ok a -> flag_lookup a.1 = Some t ->
  exists o', flag_assign t a.2 o = Some o' /\
    forall g, field_get g o' = value_after g [a] (field_get g o).
Proof.
  intros Ha Hl. unfold asg_ok in Ha. rewrite Hl in Ha. destruct t as [f|].
  2: { exists o. split; [done|]. intros g. unfold value_after, assigns. cbn [List.filter].
       rewrite Hl, bool_decide_eq_false_2 by done. destruct (field_get g o); try done.
       cbn. by rewrite app_nil_r. }
  assert (exists v, flag_value f a.2 o = Some v /\ field_kind f v = true /\
    v = value_after f [a] (field_get f o)) as (v & Hv & Hk & Ev).
  { unfold value_after, assigns, flag_value. cbn [List.filter].
    rewrite Hl, bool_decide_eq_true_2 by done. cbn [map last concat snd].
    pose proof (fun w => field_kind_of f o w) as Hko. pose proof (fun w => field_kind_of f NewOptions w) as Hkn.
    destruct (field_get f o) as [b|z|s|l] eqn:Eo; destruct (field_get f NewOptions) eqn:En;
      try (specialize (Hko (field_get f NewOptions)); rewrite En, <- Hkn in Hko; discriminate).
    - destruct (ParseBool a.2) as [x|] eqn:Ex; [|done]. exists (GBool x). rewrite <- Hko.
      cbn. by rewrite Ex.
    - destruct (ParseInt0 a.2) as [x|] eqn:Ex; [|done]. exists (GInt x). rewrite <- Hko.
      cbn. by rewrite Ex.
    - exists (GStr a.2). by rewrite <- Hko.
    - destruct (filter_numbers a.2) as [x|] eqn:Ex; [|done]. unfold arrUInt32Flags_Set.
      rewrite (Set_loop_ok _ _ _ Ex). exists (GFilter (l ++ x)%list). rewrite <- Hko. cbn.
      by rewrite app_nil_r. }
  destruct (field_set_get f v o Hk) as (o' & Es & Hg). exists o'. split.
  - unfold flag_assign, flag_Set. rewrite Hv. done.
  - intros g. rewrite Hg. destruct (decide (f = g)) as [<-|Hne]; [done|].
    unfold value_after, assigns. cbn [List.filter].
    rewrite Hl, bool_decide_eq_false_2 by congruence. destruct (field_get g o); try done.
    cbn. by rewrite app_nil_r.
Qed.

Lemma value_after_app f asg1 asg2 base :
  value_after f (asg1 ++ asg2) base = value_after f asg2 (value_after f asg1 base).
Proof.
  unfold value_after. cbv zeta. rewrite List.filter_app.
  destruct base as [b|z|s|a]; rewrite List.map_app;
    set (o1 := map snd _); set (o2 := map snd _).
  - rewrite omap_app, last_app. by destruct (last (omap ParseBool o2)).
  - rewrite omap_app, last_app. by destruct (last (omap ParseInt0 o2)).
  - rewrite last_app. by destruct (last o2).
  - by rewrite List.map_app, concat_app, app_assoc.
Qed.

Lemma flag_lookup_name n t : flag_lookup n = Some t -> name_ok n = true.
Proof.
  unfold flag_lookup. destruct (List.find _ flag_table) as [[n' t']|] eqn:E; [|done]. intros _.
  apply find_some in E as [Hin Heq]. cbn in Heq. apply String.eqb_eq in Heq as <-.
  assert (forallb (fun e => name_ok e.1) flag_table = true) as H by (vm_compute; reflexivity).
  rewrite forallb_forall in H. apply (H _ Hin).
Qed.

Lemma flag_Parse_cons a args o t :
  flag_lookup a.1 = Some t ->
  flag_Parse (render a :: args) o = (o' ← flag_assign t a.2 o; flag_Parse args o').
Proof. apply Parse_cons, flag_lookup_name. Qed.

Lemma flag_Parse_render asg o :
  Forall asg_ok asg ->
  exists o', flag_Parse (map render asg) o = Some o' /\
    forall f, field_get f o' = value_after f asg (field_get f o).
Proof.
  intros Ha. revert o. induction Ha as [|a asg Ha _ IH]; intros o.
  - exists o. split; [done|]. intros f. unfold value_after. cbn.
    destruct (field_get f o); cbn; by rewrite ?app_nil_r.
  - destruct (flag_lookup a.1) as [t|] eqn:Hl.
    2: { unfold asg_ok in Ha. by rewrite Hl in Ha. }
    cbn [map]. rewrite (flag_Parse_cons _ _ _ _ Hl).
    destruct (flag_assign_ok a t o Ha Hl) as (o1 & E1 & H1). rewrite E1.
    destruct (IH o1) as (o' & E' & H'). exists o'. split; [done|]. intros f.
    rewrite H', H1. symmetry. apply (value_after_app f [a] asg).
Qed.

Lemma config_arg_render asg : config_arg (map render asg) = Ok None.
Proof.
  induction asg as [|a asg IH]; [done|]. cbn [map config_arg].
  destruct (String.eqb_spec (render a) "-config") as [E|]; [|done]. exfalso.
  assert (Contains "=" (render a) = true) as H; [|by rewrite E in H].
  unfold render. change ("-" +:+ ?r) with (String "-" r). cbn [Contains Ascii.eqb].
  induction a.1 as [|c n IHn]; [done|].
  change (String c n +:+ ?r) with (String c (n +:+ r)). cbn [Contains].
  apply orb_true_iff in IHn as [|IHn]; [done|]. change (Ascii.eqb "-" "=") with false.
  cbn [orb]. by rewrite IHn, orb_true_r.
Qed.

Section precedence.
Context (ReadFile : string -> option string)
        (yaml_Unmarshal : string -> Options -> Options * bool)
        (doc : string -> gmap string GoVal).

(** The YAML library on a mapping: a key assigns the field that has it as its tag, when
    the value has the field's type; every other field keeps its value. *)
Definition yaml_law : Prop := forall b o f,
  field_get f (yaml_Unmarshal b o).1 =
    match yaml_key f ≫= (fun k => doc b !! k) with
    | Some v => if field_kind f v then v else field_get f o
    | None => field_get f o
    end.
(** The command line: the program, an optional configuration file, the assignments. *)
Definition command_line (prog : string) (cfg : option string) (asg : list (string * string)) : list string :=
  prog :: (match cfg with Some p => ["-config"; p] | None => [] end ++ map render asg)%list.

(** The file that is read, and the value of a field without the command line's flags. *)
Definition config_file (cfg : option string) : string := default "/etc/vflow/vflow.conf" cfg.

Definition default_value (cfg : option string) (f : option_field) : GoVal :=
  match cfg with
  | Some p => if decide (f = VFlowConfigPath) then GStr (path_Split p).1 else field_get f NewOptions
  | None => field_get f NewOptions
  end.

Definition file_value (cfg : option string) (f : option_field) : GoVal :=
  match ReadFile (config_file cfg) ≫= (fun b => yaml_key f ≫= (fun k => doc b !! k)) with
  | Some v => if field_kind f v then v else default_value cfg f
  | None => default_value cfg f
  end.

Lemma vFlowLoadCfg_value prog cfg asg :
  yaml_law -> prog <> "-config" ->
  exists o, vFlowLoadCfg ReadFile yaml_Unmarshal (command_line prog cfg asg) NewOptions = Ok o /\
    forall f, field_get f o = file_value cfg f.
Proof.
  intros Hy Hp. unfold vFlowLoadCfg, command_line.
  assert (config_arg (prog :: match cfg with Some p => ["-config"; p] | None => [] end
    ++ map render asg)%list = Ok cfg) as ->.
  { cbn [config_arg]. destruct (String.eqb_spec prog "-config"); [done|].
    destruct cfg as [p|]; [done|]. apply config_arg_render. }
  set (o1 := match cfg with Some f => _ | None => _ end).
  assert (forall f, field_get f o1 = default_value cfg f) as H1.
  { intros f. unfold o1, default_value. destruct cfg as [p|]; [|done]. unfold with_config_path.
    destruct (field_set_get VFlowConfigPath (GStr (path_Split p).1) NewOptions) as (o' & -> & Hg); [done|].
    cbn [default from_option id]. rewrite Hg. by repeat case_decide; subst. }
  change (path_Join (o_VFlowConfigPath NewOptions) "vflow.conf") with "/etc/vflow/vflow.conf".
  fold (config_file cfg). unfold file_value. destruct (ReadFile (config_file cfg)) as [b|].
  - eexists. split; [reflexivity|]. intros f. rewrite Hy, H1. done.
  - exists o1. auto.
Qed.

(** C36: Where an option comes from.  With the command line [-config file -a=x -b=y ...]
    (the file optional, every flag known and its value of its type), and a YAML parser that
    sets the fields whose keys the file gives with values of their types, vFlow starts with
    options in which every field but one has the value of its last assignment on the command
    line, else the value the configuration file gives it, else its default.  The exception
    is the filter of sFlow types, which collects the values of the file and of all its
    flags. *)
Theorem options_precedence (prog : string) (cfg : option string) (asg : list (string * string))
    (Hy : yaml_law) (Hp : prog <> "-config") (Ha : Forall asg_ok asg) :
  exists o, vFlowFlagSet ReadFile yaml_Unmarshal (command_line prog cfg asg) NewOptions = Ok (Some o) /\
    forall f, field_get f o = value_after f asg (file_value cfg f).
Proof.
  destruct (vFlowLoadCfg_value prog cfg asg Hy Hp) as (o1 & E1 & H1). unfold vFlowFlagSet.
  rewrite E1. cbn [command_line tail].
  destruct (flag_Parse_render asg o1 Ha) as (o & E & H). exists o. split.
  - f_equal. rewrite <- E. by destruct cfg.
  - intros f. by rewrite H, H1.
Qed.

End precedence.

(** ** The process-id file *)

Lemma overwrite_short old new :
  (String.length old <= String.length new)%nat -> overwrite old new = new.
Proof.
  intros H. unfold overwrite. replace (String.length old - String.length new)%nat with 0%nat by lia.
  assert (forall n s, String.substring n 0 s = "") as ->; [|apply append_nil_r].
  intros n s. revert n. induction s as [|c s IH]; intros [|n]; try done. apply IH.
Qed.

Lemma length_substring s n k :
  (n + k <= String.length s)%nat -> String.length (String.substring n k s) = k.
Proof.
  revert n k. induction s as [|c s IH]; intros [|n] [|k] H; cbn in *; try done; try lia.
  - by rewrite IH by (cbn; lia).
  - apply IH. lia.
  - apply IH. lia.
Qed.

(** Opening the log file leaves what the other files hold. *)
Lemma set_logger_lookup writable open_error o lg fs p :
  default "" ((set_logger writable open_error o lg fs).2 !! p) = default "" (fs !! p).
Proof.
  unfold set_logger. destruct (String.eqb _ _); [done|]. destruct (writable _); [|done]. cbn [snd].
  destruct (decide (o_LogFile o = p)) as [<-|Hne]; [by rewrite lookup_insert_eq|by rewrite lookup_insert_ne].
Qed.

(** The process-id file after a start. *)
Lemma GetOptions_files kill0 writable open_error pid ldversion ReadFile yaml os_Args fs o lg fs' :
  GetOptions kill0 writable open_error pid ldversion ReadFile yaml os_Args fs = Started o lg fs' ->
  writable (o_PIDFile o) = true ->
  fs' !! o_PIDFile o = Some (overwrite (default "" (fs !! o_PIDFile o)) (FormatInt pid)).
Proof.
  unfold GetOptions. destruct (vFlowFlagSet _ _ _ _) as [[o'|]| | |]; try done.
  destruct (vFlowVersion _ _); [done|]. pose proof (set_logger_lookup writable open_error o' NewLogger fs) as H.
  destruct (set_logger _ _ _ _ _) as [lg1 fs1]. cbn [snd] in H. destruct (vFlowIsRunning _ _ _); [done|].
  unfold vFlowPIDWrite. intros E Hw. destruct (writable (o_PIDFile o')) eqn:Ew; injection E as <- <- <-.
  - by rewrite lookup_insert_eq, H.
  - by rewrite Ew in Hw.
Qed.

(** The process-id file.  A start that succeeds leaves exactly its own id in the file
    when what the file held was not longer; otherwise the tail of the old content stays
    behind the new id, and the file names another process. *)
Theorem GetOptions_pid (ReadFile : Files -> string -> option string)
    (yaml_Unmarshal : string -> Options -> Options * bool) (kill0 writable : string -> bool)
    (open_error : string -> string) (pid : Z) (ldversion : string) (os_Args : list string)
    (fs fs' : Files) (o : Options) (lg : Logger)
    (Hs : GetOptions kill0 writable open_error pid ldversion ReadFile yaml_Unmarshal os_Args fs = Started o lg fs')
    (Hw : writable (o_PIDFile o) = true) :
  let old := default "" (fs !! o_PIDFile o) in
  fs' !! o_PIDFile o = Some (FormatInt pid) <->
  (String.length old <= String.length (FormatInt pid))%nat.
Proof.
  cbv zeta. rewrite (GetOptions_files _ _ _ _ _ _ _ _ _ _ _ _ Hs Hw). set (old := default "" _).
  split; intros H.
  - injection H as H. destruct (decide (String.length old <= String.length (FormatInt pid))%nat); [done|].
    apply (f_equal String.length) in H. unfold overwrite in H.
    rewrite length_append, length_substring in H by lia. lia.
  - by rewrite overwrite_short.
Qed.

(** ** Examples *)

Definition example_doc : gmap string GoVal :=
  {["ipfix-port" := GInt 5000; "sflow-type-filter" := GFilter [1]; "verbose" := GStr "oops"]}.

(** A decoder that assigns the fields of [example_doc], whatever the text. *)
Definition example_yaml (b : string) (o : Options) : Options * bool :=
  (mkOptions (o_Verbose o) (o_LogFile o) (o_PIDFile o) (o_CPUCap o) (o_DynWorkers o) (o_version o)
     (o_StatsEnabled o) (o_StatsHTTPAddr o) (o_StatsHTTPPort o) (o_SFlowEnabled o) (o_SFlowPort o)
     (o_SFlowUDPSize o) (o_SFlowWorkers o) (o_SFlowTopic o) [1] (o_IPFIXEnabled o)
     (o_IPFIXRPCEnabled o) 5000 (o_IPFIXAddr o) (o_IPFIXUDPSize o) (o_IPFIXWorkers o)
     (o_IPFIXTopic o) (o_IPFIXMirrorAddr o) (o_IPFIXMirrorPort o) (o_IPFIXMirrorWorkers o)
     (o_IPFIXTplCacheFile o) (o_NetflowV9Enabled o) (o_NetflowV9Port o) (o_NetflowV9UDPSize o)
     (o_NetflowV9Workers o) (o_NetflowV9Topic o) (o_NetflowV9TplCacheFile o) (o_MQName o)
     (o_MQConfigFile o) (o_VFlowConfigPath o), false).

Lemma example_yaml_law : yaml_law example_yaml (fun _ => example_doc).
Proof. intros b o f. destruct f; vm_compute; reflexivity. Qed.

Lemma options_precedence_witness :
  exists o, vFlowFlagSet (fun _ => Some "a configuration") example_yaml
      ["vflow"; "-config"; "/opt/vflow/my.conf"; "-sflow-type-filter=2,3"; "-ipfix-workers=7";
       "-ipfix-workers=0x10"] NewOptions = Ok (Some o) /\
    o_SFlowTypeFilter o = [1; 2; 3] /\ o_IPFIXWorkers o = 16 /\ o_IPFIXPort o = 5000 /\
    o_VFlowConfigPath o = "/opt/vflow/" /\ o_MQName o = "kafka".
Proof.
  destruct (options_precedence (fun _ => Some "a configuration") example_yaml (fun _ => example_doc)
    "vflow" (Some "/opt/vflow/my.conf")
    [("sflow-type-filter", "2,3"); ("ipfix-workers", "7"); ("ipfix-workers", "0x10")])
    as (o & E & H).
  - apply example_yaml_law.
  - done.
  - repeat constructor; vm_compute; discriminate.
  - exists o. split; [exact E|].
    assert (forall f v, value_after f [("sflow-type-filter", "2,3"); ("ipfix-workers", "7");
      ("ipfix-workers", "0x10")] (file_value (fun _ => Some "a configuration") (fun _ => example_doc)
      (Some "/opt/vflow/my.conf") f) = v -> field_get f o = v) as H' by (by intros f v <-).
    pose proof (H' SFlowTypeFilter (GFilter [1; 2; 3]) eq_refl). pose proof (H' IPFIXWorkers (GInt 16) eq_refl).
    pose proof (H' IPFIXPort (GInt 5000) eq_refl). pose proof (H' MQName (GStr "kafka") eq_refl).
    pose proof (H' VFlowConfigPath (GStr "/opt/vflow/") eq_refl).
    cbn [field_get] in *. split_and!; congruence.
Defined.

Lemma GetCPU_procs_witness :
  exists n, GetCPU 8 (default NewOptions (field_set CPUCap (GStr "10%") NewOptions)) = Some n /\
    GOMAXPROCS 8 n = 8.
Proof.
  exists 0. split; [vm_compute; reflexivity|].
  destruct (GetCPU_procs 8 0 (default NewOptions (field_set CPUCap (GStr "10%") NewOptions)))
    as (_ & _ & _ & H); [done|vm_compute; reflexivity|].
  apply (H 10); [done|vm_compute; reflexivity|done].
Defined.

Definition example_files : Files := {["/var/run/vflow.pid" := "12345"]}.

(** A process of id 99 after one of id 12345 that has ended. *)
Lemma GetOptions_pid_witness :
  exists lg (fs1 : Files),
    GetOptions (fun _ => false) (fun _ => true) (fun _ => "denied") 99 "" (fun _ _ => None) example_yaml
      ["vflow"; "-verbose"; "-log-file=/var/log/vflow.log"] example_files
      = Started (default NewOptions (flag_Parse ["-verbose"; "-log-file=/var/log/vflow.log"] NewOptions)) lg fs1 /\
    (fs1 !! "/var/run/vflow.pid") <> Some "99".
Proof.
  eexists _, _. split; [vm_compute; reflexivity|]. intros H.
  match type of H with ?fs !! _ = _ =>
    pose proof (proj1 (GetOptions_pid (fun _ _ => None) example_yaml (fun _ => false) (fun _ => true)
      (fun _ => "denied") 99 "" ["vflow"; "-verbose"; "-log-file=/var/log/vflow.log"] example_files fs
      (default NewOptions (flag_Parse ["-verbose"; "-log-file=/var/log/vflow.log"] NewOptions)) _
      eq_refl eq_refl) H) as Hl end.
  vm_compute in Hl. lia.
Defined.

Example pid_tail :
  (vFlowPIDWrite (fun _ => true) (fun _ => "denied") 99 NewOptions NewLogger example_files).2
    !! "/var/run/vflow.pid" = Some "99345".
Proof. vm_compute. reflexivity. Qed.

(** Only the form [-config file] is seen before the flags are parsed. *)
Example config_equals_ignored :
  config_arg ["vflow"; "-config=/opt/my.conf"] = Ok None /\
  flag_Parse ["-config=/opt/my.conf"] NewOptions = Some NewOptions /\
  config_arg ["vflow"; "-config"] = Panic.
Proof. vm_compute. auto. Qed.
