(* ===== verification/GoPrintf.v ===== *)
(** What package [fmt] does with a format string and no operands: [doPrintf] of
    [fmt.Fprintf(w, format)], as the raw-socket producer calls it.  Text without a percent
    sign is written as it is; a verb becomes an error text, for there is no operand. *)

From Stdlib Require Import Strings.Ascii.
From S2P Require Import Prelude GoNet Json GoStrings.

Local Open Scope string_scope.
Open Scope Z_scope.

(** ** Runes *)

Definition byte_val (c : Ascii.ascii) : Z := Z.of_N (N_of_ascii c).
Definition in_range (lo hi : Z) (c : Ascii.ascii) : bool := (lo <=? byte_val c) && (byte_val c <=? hi).
Definition cont (c : Ascii.ascii) : bool := in_range 128 191 c.

(** The replacement character U+FFFD. *)
Definition runeError : string :=
  String (ascii_of_N 239) (String (ascii_of_N 191) (String (ascii_of_N 189) "")).

(** [utf8.DecodeRuneInString], as the bytes of the rune written again and the rest. *)
Definition DecodeRune (s : string) : string * string :=
  match s with
  | "" => ("", "")
  | String a s1 =>
      if byte_val a <? 128 then (String a "", s1)
      else match s1 with
      | String b s2 =>
          if in_range 194 223 a && cont b then (String a (String b ""), s2)
          else match s2 with
          | String c s3 =>
              if (((byte_val a =? 224) && in_range 160 191 b) ||
                  ((in_range 225 236 a || in_range 238 239 a) && cont b) ||
                  ((byte_val a =? 237) && in_range 128 159 b)) && cont c
              then (String a (String b (String c "")), s3)
              else match s3 with
              | String d s4 =>
                  if (((byte_val a =? 240) && in_range 144 191 b) ||
                      (in_range 241 243 a && cont b) ||
                      ((byte_val a =? 244) && in_range 128 143 b)) && cont c && cont d
                  then (String a (String b (String c (String d ""))), s4)
                  else (runeError, s1)
              | "" => (runeError, s1)
              end
          | "" => (runeError, s1)
          end
      | "" => (runeError, s1)
      end
  end.

(** ** Verbs *)

Fixpoint skip_flags (s : string) : string :=
  match s with
  | String c s' =>
      if existsb (Ascii.eqb c) ["#"; "0"; "+"; "-"; " "]%char then skip_flags s' else s
  | "" => ""
  end.

(** [parsenum]: whether there is a number, its value and the rest; a number over a million
    gives up at the end of the string. *)
Fixpoint parsenum (isnum : bool) (num : Z) (s : string) : bool * Z * string :=
  match s with
  | String c s' =>
      if is_digit c then
        if (num >? 1000000) then (false, 0, "")
        else parsenum true (num * 10 + (byte_val c - 48)) s'
      else (isnum, num, s)
  | "" => (isnum, num, "")
  end.

(** The text up to the first closing bracket, and the text after it. *)
Fixpoint to_bracket (s : string) : option (string * string) :=
  match s with
  | "" => None
  | String c s' =>
      if Ascii.eqb c "]" then Some ("", s')
      else match to_bracket s' with
           | Some (a, r) => Some (String c a, r)
           | None => None
           end
  end.

(** [argNumber] with no operands: whether the argument number is still good, whether an
    index was found, and the rest. *)
Definition argNumber (good : bool) (s : string) : bool * bool * string :=
  match s with
  | String "["%char s' =>
      if (String.length s <? 3)%nat then (false, false, s')
      else match to_bracket s' with
           | None => (false, false, s')
           | Some (a, r) =>
               let '(isnum, _, rest) := parsenum false 0 a in
               (false, isnum && bool_decide (rest = "") && negb (bool_decide (a = "")), r)
           end
  | _ => (good, false, s)
  end.

Definition star (s : string) : option string :=
  match s with String "*"%char s' => Some s' | _ => None end.

Definition dot (s : string) : option string :=
  match s with String "."%char s' => Some s' | _ => None end.

(** Width: a star has no operand to read. *)
Definition width (good after : bool) (s : string) : string * bool * bool * string :=
  match star s with
  | Some s' => ("%!(BADWIDTH)", good, false, s')
  | None => let '(isnum, _, s') := parsenum false 0 s in
            ("", good && negb (after && isnum), after, s')
  end.

Definition precision (good after : bool) (s : string) : string * bool * bool * string :=
  match dot s with
  | None => ("", good, after, s)
  | Some s1 =>
      let '(good, after', s2) := argNumber (good && negb after) s1 in
      match star s2 with
      | Some s3 => ("%!(BADPREC)", good, false, s3)
      | None => let '(_, _, s3) := parsenum false 0 s2 in ("", good, after', s3)
      end
  end.

(** One verb, after its percent sign: what is written, and the rest. *)
Definition verb (s : string) : string * string :=
  let '(good, after, s) := argNumber true (skip_flags s) in
  let '(w1, good, after, s) := width good after s in
  let '(w2, good, after, s) := precision good after s in
  let '(good, _, s) := if after then (good, after, s) else argNumber good s in
  let front := w1 +:+ w2 in
  match s with
  | "" => (front +:+ "%!(NOVERB)", "")
  | _ =>
      let '(r, s') := DecodeRune s in
      (front +:+ (if String.eqb r "%" then "%"
                  else "%!" +:+ r +:+ (if good then "(MISSING)" else "(BADINDEX)")), s')
  end.

(** The loop of [doPrintf]; every round consumes a character. *)
Fixpoint doPrintf (fuel : nat) (s : string) : option string :=
  match fuel, s with
  | _, "" => Some ""
  | O, _ => None
  | S fuel', String c s' =>
      if Ascii.eqb c "%" then
        let '(w, rest) := verb s' in
        match doPrintf fuel' rest with Some o => Some (w +:+ o) | None => None end
      else match doPrintf fuel' s' with Some o => Some (String c o) | None => None end
  end.

(** [fmt.Sprintf(format)]. *)
Definition Sprintf0 (format : string) : string :=
  default "" (doPrintf (String.length format) format).

(** ** Facts *)

Lemma skip_flags_length s : (String.length (skip_flags s) <= String.length s)%nat.
Proof. induction s as [|c s IH]; [done|]. cbn [skip_flags]. destruct (existsb _ _); cbn; lia. Qed.

Lemma parsenum_length i n s : (String.length (parsenum i n s).2 <= String.length s)%nat.
Proof.
  revert i n. induction s as [|c s IH]; intros i n; [done|]. cbn [parsenum].
  destruct (is_digit c); [|done]. destruct (_ >? _); cbn; [lia|].
  etransitivity; [apply IH|]. lia.
Qed.

Lemma to_bracket_length s a r : to_bracket s = Some (a, r) -> (String.length r < String.length s)%nat.
Proof.
  revert a. induction s as [|c s IH]; intros a; [done|]. cbn [to_bracket].
  destruct (Ascii.eqb c "]"); [intros [= <- <-]; cbn; lia|].
  destruct (to_bracket s) as [[a' r']|]; [|done]. intros [= <- <-].
  specialize (IH a' eq_refl). cbn. lia.
Qed.

Lemma argNumber_length g s : (String.length (argNumber g s).2 <= String.length s)%nat.
Proof.
  destruct s as [|c s]; [done|]. unfold argNumber.
  destruct c as [[] [] [] [] [] [] [] []]; try (cbn [snd]; lia).
  destruct (_ <? 3)%nat; [cbn; lia|].
  destruct (to_bracket s) as [[a r]|] eqn:E; [|cbn; lia]. apply to_bracket_length in E.
  destruct (parsenum _ _ _) as [[]]. cbn. lia.
Qed.

Lemma star_length s s' : star s = Some s' -> (String.length s' < String.length s)%nat.
Proof.
  destruct s as [|c s]; [done|]. unfold star. destruct c as [[] [] [] [] [] [] [] []]; try done.
  intros [= ->]. cbn. lia.
Qed.

Lemma dot_length s s' : dot s = Some s' -> (String.length s' < String.length s)%nat.
Proof.
  destruct s as [|c s]; [done|]. unfold dot. destruct c as [[] [] [] [] [] [] [] []]; try done.
  intros [= ->]. cbn. lia.
Qed.

Lemma width_length g a s : (String.length (width g a s).2 <= String.length s)%nat.
Proof.
  unfold width. destruct (star s) eqn:E; [apply star_length in E; cbn; lia|].
  pose proof (parsenum_length false 0 s). by destruct (parsenum _ _ _) as [[]].
Qed.

Lemma precision_length g a s : (String.length (precision g a s).2 <= String.length s)%nat.
Proof.
  unfold precision. destruct (dot s) as [s1|] eqn:E; [|done]. apply dot_length in E.
  pose proof (argNumber_length (g && negb a) s1). destruct (argNumber _ _) as [[] s2]. cbn in *.
  destruct (star s2) eqn:E2; [apply star_length in E2; cbn; lia|].
  pose proof (parsenum_length false 0 s2). destruct (parsenum _ _ _) as [[]]. cbn in *. lia.
Qed.

Lemma DecodeRune_length s : s <> "" -> (String.length (DecodeRune s).2 < String.length s)%nat.
Proof.
  destruct s as [|a s]; [done|]. intros _. unfold DecodeRune.
  repeat case_match; subst; cbn; lia.
Qed.

Lemma verb_length s : (String.length (verb s).2 <= String.length s)%nat.
Proof.
  unfold verb. pose proof (skip_flags_length s).
  pose proof (argNumber_length true (skip_flags s)). destruct (argNumber _ _) as [[g a] s1]. cbn in *.
  pose proof (width_length g a s1). destruct (width _ _ _) as [[[w1 g2] a2] s2]. cbn in *.
  pose proof (precision_length g2 a2 s2). destruct (precision _ _ _) as [[[w2 g3] a3] s3]. cbn in *.
  assert (String.length (if a3 then (g3, a3, s3) else argNumber g3 s3).2 <= String.length s3)%nat.
  { destruct a3; [done|]. apply argNumber_length. }
  destruct (if a3 then _ else _) as [[g4 a4] s4]. cbn in *.
  destruct s4 as [|c s4]; [cbn; lia|].
  pose proof (DecodeRune_length (String c s4) ltac:(done)). destruct (DecodeRune _). cbn in *. lia.
Qed.

(** A round consumes a character, so the length of the format is fuel enough. *)
Lemma doPrintf_total fuel s : (String.length s <= fuel)%nat -> is_Some (doPrintf fuel s).
Proof.
  revert s. induction fuel as [|fuel IH]; intros [|c s] Hl; cbn in *; try (by eexists); [lia|].
  destruct (Ascii.eqb c "%").
  - pose proof (verb_length s). destruct (verb s) as [w rest]. cbn in *.
    destruct (IH rest) as [o ->]; [lia|]. by eexists.
  - destruct (IH s) as [o ->]; [lia|]. by eexists.
Qed.

(** Text without a percent sign is written as it is. *)
Lemma Sprintf0_plain s : Contains "%" s = false -> Sprintf0 s = s.
Proof.
  unfold Sprintf0. enough (forall fuel, (String.length s <= fuel)%nat -> Contains "%" s = false ->
    doPrintf fuel s = Some s) as H by (intros Hc; by rewrite H).
  induction s as [|c s IH]; intros [|fuel] Hl Hc; cbn in *; try done; [lia|].
  apply orb_false_iff in Hc as [Hc Hs]. rewrite (IH fuel) by (lia || done). by rewrite Hc.
Qed.

Example Sprintf0_percent : Sprintf0 "100% of %d" = "100%!o(MISSING)f %!d(MISSING)".
Proof. reflexivity. Qed.
