(* ===== verification/Exchanger.v ===== *)
(** The NetFlow exchanger, [src/mirror/udp_mirror.go]: decoded NetFlow v9 messages are
    matched against the rules of their exporter, and the matching records are written out
    again and sent to the rule's destination.

    The clients are shared through the map [udpCliets]; dialling and writing to a socket
    are parameters.  The package variable [logger] is part of the state: nothing in the
    package assigns it, and a method call on a nil [*log.Logger] panics. *)

From Stdlib Require Import Strings.Ascii.
From S2P Require Import Prelude GoNet InfoModel Interpret TemplateCache Reader Json GoStrings NetflowDecoder NetflowFacts NetflowTypes.

Local Open Scope string_scope.
Local Open Scope list_scope.
Open Scope Z_scope.

(** ** Data *)

Definition INPUT_ID : Z := 10.
Definition OUTPUT_ID : Z := 14.

Record ExchangeRule : Type := mkRule { r_InPort : Z; r_OutPort : Z; r_DistAddress : string }.

Record ExchangerConfig : Type := mkExConfig { ec_Source : string; ec_Rules : list ExchangeRule }.

Definition zeroExchangerConfig : ExchangerConfig := mkExConfig "" [].

(** The connection is the address it was dialled to, [None] for nil. *)
Record UdpMirror : Type := mkUdpMirror {
  u_remoteAddress : string; u_port : string; u_conn : option string
}.

Record UdpMirrorExchanger : Type := mkExchanger {
  mirrorConfigs : list ExchangerConfig;
  mirrorMaps : gmap string ExchangerConfig;
  udpCliets : gmap string UdpMirror
}.

Record SourcedNetflowMessage : Type := mkSourced { SourceAddr : string; Msg : Message }.

(** The exchanger with the package's [logger] (set or nil), [netflowChannel], and the
    datagrams sent so far with their destinations. *)
Record ExState : Type := mkExState {
  ex_ume : UdpMirrorExchanger; ex_logger : bool; ex_channel : list SourcedNetflowMessage;
  ex_sent : list (string * list byte)
}.

Definition set_ume (u : UdpMirrorExchanger) (s : ExState) : ExState :=
  mkExState u (ex_logger s) (ex_channel s) (ex_sent s).

Definition NewMirror (remoteAddress port : string) : UdpMirror := mkUdpMirror remoteAddress port None.

(** ** Starting *)

(** [initMap]: the last configuration of a source counts. *)
Definition initMap (u : UdpMirrorExchanger) : UdpMirrorExchanger :=
  mkExchanger (mirrorConfigs u)
    (fold_left (fun m ec => <[ec_Source ec := ec]> m) (mirrorConfigs u) ∅) (udpCliets u).

(** The inner loop of [initUdpClients]: a client for the first rule of a source, under
    the source's name. *)
Fixpoint init_rules (source : string) (rules : list ExchangeRule) (clients : gmap string UdpMirror) :
    res (gmap string UdpMirror) :=
  match rules with
  | [] => Ok clients
  | ecr :: rules' =>
      let addrPort := Split ":" (r_DistAddress ecr) in
      match clients !! source with
      | Some _ => init_rules source rules' clients
      | None =>
          match addrPort with
          | host :: port :: _ => init_rules source rules' (<[source := NewMirror host port]> clients)
          | _ => Panic
          end
      end
  end.

Fixpoint init_clients (configs : list ExchangerConfig) (clients : gmap string UdpMirror) :
    res (gmap string UdpMirror) :=
  match configs with
  | [] => Ok clients
  | ec :: configs' =>
      match init_rules (ec_Source ec) (ec_Rules ec) clients with
      | Ok clients' => init_clients configs' clients'
      | o => o
      end
  end.

Definition initUdpClients (u : UdpMirrorExchanger) : res UdpMirrorExchanger :=
  match init_clients (mirrorConfigs u) ∅ with
  | Ok clients => Ok (mkExchanger (mirrorConfigs u) (mirrorMaps u) clients)
  | Err _ e => Err None e
  | Panic => Panic
  | NoFuel => NoFuel
  end.

(** [LoadCfgAndRun] once the file is read; [configs] is what the YAML library fills in,
    [None] an error.  Starting the goroutine of [run] changes no state. *)
Definition LoadCfgAndRun (configs : option (list ExchangerConfig)) : M ExState () := fun s =>
  match configs with
  | None => (s, Err None errNotAvail)
  | Some c =>
      let u := initMap (mkExchanger c (mirrorMaps (ex_ume s)) (udpCliets (ex_ume s))) in
      match initUdpClients u with
      | Ok u' => (set_ume u' s, Ok tt)
      | Err _ e => (s, Err None e)
      | Panic => (set_ume u s, Panic)
      | NoFuel => (s, NoFuel)
      end
  end.

(** [ExchangeMessage]: the source is the message's agent, whatever the argument.
    [None]: the sender blocks, the channel holding 1000 messages. *)
Definition ExchangeMessage (sourceAddr : string) (msg : Message) (s : ExState) : option ExState :=
  if len (ex_channel s) <? 1000
  then Some (mkExState (ex_ume s) (ex_logger s) (ex_channel s ++ [mkSourced (msg_AgentID msg) msg])
               (ex_sent s))
  else None.

(** ** Writing a message *)

(** [binary.Write(buf, binary.BigEndian, v)]: values without a fixed size are refused, and
    the error is ignored. *)
Definition binary_Write (v : Value) : list byte :=
  match v with
  | VBool b => be_encode 1 (if b then 1 else 0)
  | VUint8 z | VInt8 z => be_encode 1 z
  | VUint16 z | VInt16 z => be_encode 2 z
  | VUint32 z | VInt32 z | VFloat32 z => be_encode 4 z
  | VUint64 z | VInt64 z | VFloat64 z => be_encode 8 z
  | VHardwareAddr b | VIP b | VBytes b => b
  | VUint _ | VInt _ | VString _ => []
  end.

Definition write_field (f : DecodedField) : list byte := be_encode 2 (df_ID f) ++ binary_Write (df_Value f).

Definition write_specs (l : list TemplateFieldSpecifier) : list byte :=
  concat (map (fun f => be_encode 2 (fs_ElementID f) ++ be_encode 2 (fs_Length f)) l).

Definition write_template (tr : TemplateRecord) : list byte :=
  if tr_FieldCount tr >? 0 then
    be_encode 2 (tr_TemplateID tr) ++ be_encode 2 (tr_FieldCount tr) ++
    write_specs (tr_FieldSpecifiers tr) ++
    (if tr_ScopeFieldCount tr >? 0 then write_specs (tr_ScopeFieldSpecifiers tr) else [])
  else [].

(** The loop over the set headers: [fields[i]] for the [i]-th header. *)
Fixpoint write_sets (headers : list SetHeader) (i : nat) (fields : list (list DecodedField)) :
    res (list byte) :=
  match headers with
  | [] => Ok []
  | h :: headers' =>
      match fields !! i with
      | None => Panic
      | Some record =>
          match write_sets headers' (S i) fields with
          | Ok rest => Ok (be_encode 2 (sh_FlowSetID h) ++ be_encode 2 (len fields) ++
                           concat (map write_field record) ++ rest)
          | o => o
          end
      end
  end.

Definition toBytes (originalMsg : Message) (seq : Z) (fields : list (list DecodedField)) :
    res (list byte) :=
  let h := msg_Header originalMsg in
  let count := uint16 (uint16 (0 + tr_FieldCount (msg_TemplaRecord originalMsg))
                       + uint16 (len (msg_SetHeaders originalMsg))) in
  let front :=
    be_encode 2 (ph_Version h) ++ be_encode 2 count ++ be_encode 4 (ph_SysUpTime h) ++
    be_encode 4 (ph_UNIXSecs h) ++ be_encode 4 seq ++ be_encode 4 (ph_SrcID h) ++
    write_template (msg_TemplaRecord originalMsg) ++
    concat (map (fun record => concat (map write_field record)) fields) in
  match write_sets (msg_SetHeaders originalMsg) 0 fields with
  | Ok sets => Ok (front ++ sets)
  | o => o
  end.

(** ** Exchanging *)

(** [decodedData.Value == port], an [interface{}] against an [int32]. *)
Definition equals_int32 (v : Value) (port : Z) : bool :=
  match v with VInt32 z => z =? port | _ => false end.

(** The loop over a record's fields: [inputMatch] and [outputMatch]. *)
Definition match_step (rule : ExchangeRule) (m : bool * bool) (f : DecodedField) : bool * bool :=
  if df_ID f =? INPUT_ID then
    (if equals_int32 (df_Value f) (r_InPort rule) || (r_InPort rule =? -1) then true else m.1, m.2)
  else if df_ID f =? OUTPUT_ID then
    (m.1, if equals_int32 (df_Value f) (r_OutPort rule) || (r_OutPort rule =? -1) then true else m.2)
  else m.

Definition record_matches (rule : ExchangeRule) (nfData : list DecodedField) : bool :=
  let m := fold_left (match_step rule) nfData (false, false) in m.1 && m.2.

Section run.
(** Whether a UDP address can be dialled, and whether a write to it succeeds. *)
Context (dial : string -> bool) (write_ok : string -> list byte -> bool).

Definition openConn (c : UdpMirror) : UdpMirror :=
  let addr := u_remoteAddress c +:+ ":" +:+ u_port c in
  if dial addr then mkUdpMirror (u_remoteAddress c) (u_port c) (Some addr) else c.

Definition put_client (key : string) (c : UdpMirror) : M ExState () := modify (fun s =>
  set_ume (mkExchanger (mirrorConfigs (ex_ume s)) (mirrorMaps (ex_ume s))
             (<[key := c]> (udpCliets (ex_ume s)))) s).

Definition record_sent (addr : string) (b : list byte) : M ExState () := modify (fun s =>
  mkExState (ex_ume s) (ex_logger s) (ex_channel s) (ex_sent s ++ [(addr, b)])).

Definition logger_Printf : M ExState () := s ← get; if ex_logger s then mret tt else panic.

(** [udpCliets[key].Send(b)]: a missing client is a nil pointer. *)
Definition Send (key : string) (b : list byte) : M ExState () :=
  s ← get;
  match udpCliets (ex_ume s) !! key with
  | None => panic
  | Some c =>
      let c := match u_conn c with None => openConn c | Some _ => c end in
      put_client key c;;
      match u_conn c with
      | None => panic
      | Some addr =>
          if write_ok addr b then record_sent addr b
          else logger_Printf;; put_client key (openConn c)
      end
  end.

(** The body of the loop over the rules. *)
Definition run_rule (msg : Message) (rule : ExchangeRule) : M ExState () :=
  let datas := List.filter (record_matches rule) (msg_DataSets msg) in
  if len datas >? 0 then
    b ← lift_res (toBytes msg 0 datas);
    Send (r_DistAddress rule) b
  else mret tt.

Fixpoint run_rules (msg : Message) (rules : list ExchangeRule) : M ExState () :=
  match rules with
  | [] => mret tt
  | rule :: rules' => run_rule msg rule;; run_rules msg rules'
  end.

(** One round of the goroutine: [None] while the channel is empty. *)
Definition run_round : M ExState () :=
  s ← get;
  match ex_channel s with
  | [] => mret tt
  | sMsg :: q =>
      modify (fun s => mkExState (ex_ume s) (ex_logger s) q (ex_sent s));;
      logger_Printf;;
      let ec := default zeroExchangerConfig (mirrorMaps (ex_ume s) !! SourceAddr sMsg) in
      run_rules (Msg sMsg) (ec_Rules ec)
  end.

End run.

(** ** What a round does *)

Lemma InfoModel_entry k m :
  InfoModel !! k = Some m -> (k, m) ∈ InfoModel_1 ++ InfoModel_2 ++ InfoModel_3.
Proof. apply elem_of_list_to_map_2. Qed.

(** The interface elements are not of the type the rules' ports have. *)
Definition port_entry_ok (e : ElementKey * InfoElementEntry) : bool :=
  match Type_ e.2 with
  | Int32 => negb ((FieldID e.2 =? INPUT_ID) || (FieldID e.2 =? OUTPUT_ID))
  | _ => true
  end.

Lemma InfoModel_ports k m : InfoModel !! k = Some m -> port_entry_ok (k, m) = true.
Proof.
  intros H%InfoModel_entry. apply list_elem_of_In in H. revert H.
  apply (proj1 (forallb_forall port_entry_ok _)). reflexivity.
Qed.

Lemma typed_never_int32 f port :
  field_typed InfoModel f -> df_ID f = INPUT_ID \/ df_ID f = OUTPUT_ID ->
  equals_int32 (df_Value f) port = false.
Proof.
  intros (k & m & Hm & Hid & _ & Ht) Hp. apply InfoModel_ports in Hm.
  unfold port_entry_ok in Hm. cbn in Hm. rewrite Hid in Hp.
  destruct (Type_ m), (df_Value f); try done. by destruct Hp as [Hp | Hp]; rewrite Hp in Hm.
Qed.

(** A record with both interfaces. *)
Definition has_id (id : Z) (record : list DecodedField) : bool :=
  existsb (fun f => df_ID f =? id) record.
Definition has_ports (record : list DecodedField) : bool :=
  has_id INPUT_ID record && has_id OUTPUT_ID record.

(** The rule's ports are both the wildcard. *)
Definition wildcard (rule : ExchangeRule) : bool :=
  (r_InPort rule =? -1) && (r_OutPort rule =? -1).

Lemma match_fold rule record i o :
  Forall (field_typed InfoModel) record ->
  fold_left (match_step rule) record (i, o) =
  (i || (r_InPort rule =? -1) && has_id INPUT_ID record,
   o || (r_OutPort rule =? -1) && has_id OUTPUT_ID record).
Proof.
  intros H. revert i o. induction H as [|f record Hf _ IH]; intros i o.
  { cbn. by rewrite !andb_false_r, !orb_false_r. }
  cbn [fold_left]. unfold match_step at 2. cbn [fst snd has_id existsb].
  destruct (Z.eqb_spec (df_ID f) INPUT_ID) as [E|E].
  - rewrite typed_never_int32 by auto. rewrite IH, E. cbn.
    by destruct (r_InPort rule =? -1), i.
  - destruct (Z.eqb_spec (df_ID f) OUTPUT_ID) as [E'|E']; rewrite IH; [|done].
    rewrite typed_never_int32 by auto. cbn. by destruct (r_OutPort rule =? -1), o.
Qed.

Lemma record_matches_eq rule record :
  Forall (field_typed InfoModel) record -> record_matches rule record = wildcard rule && has_ports record.
Proof.
  intros H. unfold record_matches. rewrite match_fold by done. unfold wildcard, has_ports. cbn.
  destruct (_ =? _), (_ =? _), (has_id _ _); cbn; done.
Qed.

Lemma matching_records rule m :
  msg_typed InfoModel m ->
  List.filter (record_matches rule) (msg_DataSets m) =
  if wildcard rule then List.filter has_ports (msg_DataSets m) else [].
Proof.
  unfold msg_typed. intros H. induction H as [|r rs Hr _ IH]; [by destruct (wildcard rule)|].
  cbn. rewrite record_matches_eq, IH by done. by destruct (wildcard rule).
Qed.

(** [toBytes] needs as many records as the message has set headers. *)
Lemma write_sets_outcome headers i fields :
  match write_sets headers i fields with
  | Ok _ => (i + length headers <= length fields \/ headers = [])%nat
  | Panic => (length fields < i + length headers)%nat
  | _ => False
  end.
Proof.
  revert i. induction headers as [|h headers IH]; intros i; cbn [write_sets]; [by right|].
  destruct (fields !! i) as [record|] eqn:E.
  - apply lookup_lt_Some in E. specialize (IH (S i)).
    destruct (write_sets headers (S i) fields); cbn [length]; try done; [left|lia].
    destruct IH as [IH | ->]; cbn; lia.
  - apply lookup_ge_None in E. cbn. lia.
Qed.

Lemma toBytes_outcome m seq fields :
  if (length fields <? length (msg_SetHeaders m))%nat
  then toBytes m seq fields = Panic
  else exists b, toBytes m seq fields = Ok b.
Proof.
  pose proof (write_sets_outcome (msg_SetHeaders m) 0 fields) as H. unfold toBytes.
  destruct (write_sets _ _ _) eqn:E; try done; destruct (Nat.ltb_spec (length fields) (length (msg_SetHeaders m)));
    try done; try (by eexists).
  - destruct H as [H | H]; [lia|]. rewrite H in *. cbn in *. lia.
  - lia.
Qed.

(** The clients are registered under the names of sources only. *)
Lemma init_rules_keys source rules clients clients' key c :
  init_rules source rules clients = Ok clients' -> clients' !! key = Some c ->
  key = source \/ is_Some (clients !! key).
Proof.
  revert clients. induction rules as [|r rules IH]; intros clients; cbn [init_rules].
  { intros [= <-] ->. by right. }
  destruct (clients !! source) as [?|] eqn:E; [by apply IH|].
  destruct (Split _ _) as [|host [|port rest]]; try done. intros H Hk.
  destruct (IH _ H Hk) as [-> | H']; [by left|].
  destruct (decide (key = source)) as [-> | Hn]; [by left|].
  rewrite lookup_insert_ne in H' by done. by right.
Qed.

Lemma init_clients_keys configs clients clients' key c :
  init_clients configs clients = Ok clients' -> clients' !! key = Some c ->
  key ∈ map ec_Source configs \/ is_Some (clients !! key).
Proof.
  revert clients. induction configs as [|ec configs IH]; intros clients; cbn [init_clients].
  { intros [= <-] ->. by right. }
  destruct (init_rules _ _ _) as [cl| | |] eqn:E; try done. intros H Hk.
  cbn. destruct (IH _ H Hk) as [H' | [c' H']]; [left; by right|].
  destruct (init_rules_keys _ _ _ _ _ _ E H') as [-> | ?]; [left; left|by right].
Qed.

Lemma LoadCfgAndRun_keys configs s0 s key c :
  LoadCfgAndRun (Some configs) s0 = (s, Ok tt) -> udpCliets (ex_ume s) !! key = Some c ->
  key ∈ map ec_Source configs.
Proof.
  unfold LoadCfgAndRun, initUdpClients. cbn [mirrorConfigs initMap].
  destruct (init_clients configs ∅) as [cl| | |] eqn:E; try done. intros [= <-] Hk. cbn in Hk.
  destruct (init_clients_keys _ _ _ _ _ E Hk) as [? | [? H]]; [done|].
  by rewrite lookup_empty in H.
Qed.

(** The first message makes the goroutine panic, because nothing sets [logger]. *)
Lemma first_message_panics dial write_ok configs addr m s0 s1 s2 :
  ex_logger s0 = false -> LoadCfgAndRun (Some configs) s0 = (s1, Ok tt) ->
  ExchangeMessage addr m s1 = Some s2 -> (run_round dial write_ok s2).2 = Panic.
Proof.
  intros Hl H1 H2. unfold LoadCfgAndRun in H1. destruct (initUdpClients _); try done.
  injection H1 as <-. unfold ExchangeMessage in H2. destruct (_ <? _); [|done].
  injection H2 as <-. unfold run_round, logger_Printf. unmonad. cbn.
  destruct (ex_channel s0); cbn; by rewrite Hl.
Qed.

Lemma filter_all_or_short {A} (f : A -> bool) l :
  if forallb f l then List.filter f l = l else (length (List.filter f l) < length l)%nat.
Proof.
  induction l as [|x l IH]; [done|]. cbn. pose proof (List.filter_length_le f l).
  destruct (f x), (forallb f l); cbn in *; rewrite ?IH; done || lia.
Qed.

Lemma filter_nil_iff {A} (f : A -> bool) l : (len (List.filter f l) >? 0) = existsb f l.
Proof.
  induction l as [|x l IH]; [done|]. cbn. destruct (f x); [|done].
  by rewrite len_cons; apply Z.gtb_lt; pose proof (len_nonneg (List.filter f l)); lia.
Qed.

Lemma run_rule_typed dial write_ok m rule s :
  msg_typed InfoModel m -> msg_paired m ->
  if wildcard rule && existsb has_ports (msg_DataSets m) then
    if forallb has_ports (msg_DataSets m)
    then exists b, toBytes m 0 (msg_DataSets m) = Ok b /\
                   run_rule dial write_ok m rule s = Send dial write_ok (r_DistAddress rule) b s
    else run_rule dial write_ok m rule s = (s, Panic)
  else run_rule dial write_ok m rule s = (s, Ok tt).
Proof.
  intros Ht Hp. unfold run_rule. rewrite matching_records by done.
  destruct (wildcard rule); cbn [andb]; [|done]. rewrite filter_nil_iff.
  destruct (existsb _ _); [|done]. pose proof (filter_all_or_short has_ports (msg_DataSets m)) as Hf.
  unmonad. unfold lift_res. pose proof (toBytes_outcome m 0 (List.filter has_ports (msg_DataSets m))) as Hb.
  rewrite Hp in Hb. destruct (forallb has_ports _).
  - rewrite Hf, Nat.ltb_irrefl in *. destruct Hb as [b ->]. by exists b.
  - apply Nat.ltb_lt in Hf. rewrite Hf in Hb. by rewrite Hb.
Qed.

(** The message of a decoder's result. *)
Definition decoded {R} (out : R * res Message) (m : Message) : Prop :=
  match out.2 with Ok m' | Err (Some m') _ => m' = m | _ => False end.

(** What a rule does with a NetFlow v9 message, when the exchanger was started from
    [configs] and the message is one that [Decode] returned for some datagram.  A rule that
    names a port never matches, since the decoded interface numbers are unsigned and the
    rule's ports signed.  A wildcard rule does nothing when no record has both interfaces;
    it panics when some records have them and some do not; when all have them the message
    is written and sent under the rule's destination, which panics unless the destination
    is spelled as one of the sources. *)
Theorem exchange_rule_outcome {MC} `{!TemplateStore TemplateRecord MC} (raddr : list byte)
    (unix_now : nat -> Z) (fuel : nat) (datagram : list byte) (mem : MC) (clock : nat) (m : Message)
    (configs : list ExchangerConfig) (s0 s : ExState) (dial : string -> bool)
    (write_ok : string -> list byte -> bool) (rule : ExchangeRule) :
  decoded (Decode InfoModel raddr unix_now fuel (NewDecoder datagram mem clock)) m ->
  LoadCfgAndRun (Some configs) s0 = (s, Ok tt) ->
  if wildcard rule && existsb has_ports (msg_DataSets m) then
    if forallb has_ports (msg_DataSets m)
    then exists b, toBytes m 0 (msg_DataSets m) = Ok b /\
                   run_rule dial write_ok m rule s = Send dial write_ok (r_DistAddress rule) b s /\
                   (r_DistAddress rule ∉ map ec_Source configs ->
                    run_rule dial write_ok m rule s = (s, Panic))
    else run_rule dial write_ok m rule s = (s, Panic)
  else run_rule dial write_ok m rule s = (s, Ok tt).
Proof.
  intros Hm Hl. assert (msg_typed InfoModel m /\ msg_paired m) as [Ht Hp].
  { pose proof (v9_Decode_typed InfoModel raddr unix_now fuel datagram mem clock) as H.
    unfold decoded in Hm. by destruct (Decode _ _ _ _ _).2 as [|[]| |]; subst. }
  pose proof (run_rule_typed dial write_ok m rule s Ht Hp) as H.
  destruct (_ && _); [|done]. destruct (forallb _ _); [|done].
  destruct H as (b & Hb & Hr). exists b. split; [done|]. split; [done|]. intros Hd.
  rewrite Hr. unfold Send. unmonad.
  destruct (udpCliets (ex_ume s) !! r_DistAddress rule) eqn:E; [|done].
  by apply (LoadCfgAndRun_keys _ _ _ _ _ Hl) in E.
Qed.

(** A template of the two interfaces and one record, and a wildcard rule whose destination
    no source is named as. *)
Definition example_datagram : list byte :=
  bytes [0; 9; 0; 2; 0; 0; 0; 1; 0; 0; 0; 2; 0; 0; 0; 3; 0; 0; 0; 4;
         0; 0; 0; 16; 1; 0; 0; 2; 0; 10; 0; 4; 0; 14; 0; 4;
         1; 0; 0; 12; 0; 0; 0; 7; 0; 0; 0; 9].

Definition example_configs : list ExchangerConfig :=
  [mkExConfig "192.0.2.1" [mkRule (-1) (-1) "198.51.100.7:9996"]].

Definition example_exstate : ExState := mkExState (mkExchanger [] ∅ ∅) true [] [].

Definition example_msg : Message := Eval vm_compute in
  match (Decode InfoModel (bytes [192; 0; 2; 1]) (fun _ => 0) 60
           (NewDecoder example_datagram (GetCache None) 0)).2 with Ok m => m | _ => zeroMessage end.

Definition example_running : ExState := (LoadCfgAndRun (Some example_configs) example_exstate).1.

Lemma exchange_rule_outcome_witness :
  len (msg_DataSets example_msg) = 1 /\
  run_rule (fun _ => true) (fun _ _ => true) example_msg (mkRule (-1) (-1) "198.51.100.7:9996")
    example_running = (example_running, Panic).
Proof.
  split; [reflexivity|].
  assert (Hd : decoded (Decode InfoModel (bytes [192; 0; 2; 1]) (fun _ => 0) 60
                 (NewDecoder example_datagram (GetCache None) 0)) example_msg).
  { vm_compute. reflexivity. }
  assert (Hl : LoadCfgAndRun (Some example_configs) example_exstate = (example_running, Ok tt)).
  { vm_compute. reflexivity. }
  destruct (exchange_rule_outcome _ _ _ _ _ _ _ _ _ _ (fun _ => true) (fun _ _ => true)
    (mkRule (-1) (-1) "198.51.100.7:9996") Hd Hl) as (b & _ & _ & H).
  apply H. cbn. intros [Hin | []]%list_elem_of_In. discriminate Hin.
Defined.
