(* ===== verification/Producers.v ===== *)
(** The producers, [src/producer]: the message-queue interface, its four implementations
    (Kafka, NSQ, NATS and raw sockets) and the [Producer] that runs one of them.

    The channel is the list of the messages received before it is closed.  The client
    libraries, the network, the file system and the YAML library are parameters: a call
    is numbered, so that the same call can succeed once and fail the next time.  Every
    implementation records what becomes of each message: the attempts to hand its text over,
    accepted or failed, and, for Kafka, the messages that are dropped without an attempt. *)

From Stdlib Require Import Strings.Ascii.
From S2P Require Import Prelude GoNet Json GoStrings GoPrintf.

Local Open Scope string_scope.
Local Open Scope list_scope.
Open Scope Z_scope.

(** ** The interface [MQueue] *)

(** What happens to a message in the loop: the client library accepts it, the attempt to hand
    it over fails, or no attempt is made and it is dropped. *)
Inductive fate : Type := Sent | Failed | Skipped.

Definition is_sent (x : fate) : bool := match x with Sent => true | _ => false end.

Definition Attempt : Type := (string * fate)%type.

(** What [setup] comes to; [SetupFatal] is [logger.Fatal], which ends the process. *)
Inductive Setup (S : Type) : Type := SetupOk (s : S) | SetupErr (s : S) | SetupFatal | SetupPanic.
Arguments SetupOk {S}. Arguments SetupErr {S}. Arguments SetupFatal {S}. Arguments SetupPanic {S}.

(** A queue: its state, [setup] on a configuration file and [inputMsg] on a topic, the
    channel's messages and the error counter ([None] would be a loop that does not end),
    with the observations its contract is stated with. *)
Record MQueue : Type := mkMQueue {
  mq_State : Type;
  mq_new : mq_State;
  mq_setup : string -> mq_State -> Setup mq_State;
  mq_inputMsg : string -> list string -> mq_State * Z -> option (mq_State * Z);
  mq_log : mq_State -> list Attempt;
  mq_payload : string -> string;
  mq_retries : mq_State -> nat;
  mq_skips : bool
}.

(** What happens to one message: it is handed over after at most [R] failures, or given
    up after [R + 1] of them, or, by a queue that skips, dropped without an attempt. *)
Inductive attempts (skips : bool) (R : nat) (m : string) : list Attempt -> Prop :=
| attempts_ok k : (k <= R)%nat -> attempts skips R m (replicate k (m, Failed) ++ [(m, Sent)])
| attempts_lost : skips = false -> attempts skips R m (replicate (S R) (m, Failed))
| attempts_skipped : skips = true -> attempts skips R m [(m, Skipped)].

(** The failed attempts and the messages dropped without one. *)
Definition failures (l : list Attempt) : Z := len (List.filter (fun a => negb (is_sent a.2)) l).

(** What a queue promises its producer: the loop ends when the channel is closed, every
    message is attempted or dropped in the order of the channel within the bound on retries,
    and the error counter grows by one at each failed attempt and each message dropped. *)
Class MQueueSpec (q : MQueue) : Prop := mq_inputMsg_spec :
  forall topic msgs s ec, 0 <= ec < 2 ^ 64 ->
    exists s' runs,
      Forall2 (fun m r => attempts (mq_skips q) (mq_retries q s) (mq_payload q m) r) msgs runs /\
      mq_inputMsg q topic msgs (s, ec) = Some (s', uint64 (ec + failures (concat runs))) /\
      mq_log q s' = mq_log q s ++ concat runs.

Lemma failures_app l1 l2 : failures (l1 ++ l2) = failures l1 + failures l2.
Proof. unfold failures. by rewrite List.filter_app, len_app. Qed.

Lemma failures_replicate k m : failures (replicate k (m, Failed)) = Z.of_nat k.
Proof.
  induction k as [|k IH]; [done|]. unfold failures in *. cbn. rewrite len_cons, IH. lia.
Qed.

Lemma attempts_failures b R m r : attempts b R m r -> 0 <= failures r <= Z.of_nat (S R).
Proof.
  intros [k Hk|_|_].
  - rewrite failures_app, failures_replicate. change (failures [(m, Sent)]) with 0. lia.
  - rewrite failures_replicate. lia.
  - change (failures [(m, Skipped)]) with 1. lia.
Qed.

(** The loop over a channel meets the contract when one message does. *)
Section channel_loop.
Context {S : Type} (one : string -> S * Z -> option (S * Z)) (log : S -> list Attempt).
Context (payload : string -> string) (retries : S -> nat) (skips : bool).

Fixpoint channel_loop (msgs : list string) (st : S * Z) : option (S * Z) :=
  match msgs with
  | [] => Some st
  | m :: msgs' => match one m st with Some st' => channel_loop msgs' st' | None => None end
  end.

Hypothesis one_spec : forall m s ec, exists s' r,
  attempts skips (retries s) (payload m) r /\
  one m (s, uint64 ec) = Some (s', uint64 (ec + failures r)) /\
  log s' = log s ++ r /\ retries s' = retries s.

Lemma channel_loop_spec msgs s ec :
  exists s' runs,
    Forall2 (fun m r => attempts skips (retries s) (payload m) r) msgs runs /\
    channel_loop msgs (s, uint64 ec) = Some (s', uint64 (ec + failures (concat runs))) /\
    log s' = log s ++ concat runs.
Proof using one_spec.
  revert s ec. induction msgs as [|m msgs IH]; intros s ec; cbn [channel_loop].
  { exists s, []. split_and!; [constructor| |by rewrite app_nil_r].
    cbn. by rewrite Z.add_0_r. }
  destruct (one_spec m s ec) as (s1 & r & Hr & -> & Hl & Hn).
  destruct (IH s1 (ec + failures r)) as (s2 & runs & Hruns & -> & Hl2).
  exists s2, (r :: runs). rewrite Hn in Hruns. split_and!; [by constructor| |].
  - cbn [concat]. rewrite failures_app. do 3 f_equal. lia.
  - cbn [concat]. by rewrite Hl2, Hl, <- app_assoc.
Qed.

Lemma channel_loop_mq msgs s ec :
  0 <= ec < 2 ^ 64 ->
  exists s' runs,
    Forall2 (fun m r => attempts skips (retries s) (payload m) r) msgs runs /\
    channel_loop msgs (s, ec) = Some (s', uint64 (ec + failures (concat runs))) /\
    log s' = log s ++ concat runs.
Proof using one_spec.
  intros Hec. pose proof (channel_loop_spec msgs s ec) as H. by rewrite wrapU_small in H.
Qed.
End channel_loop.

(** [ioutil.ReadFile] and [yaml.Unmarshal] into the configuration, the [load] of every
    queue: the configuration afterwards and whether there was no error. *)
Definition load {C : Type} (ReadFile : string -> option string)
    (yaml_Unmarshal : string -> C -> C * bool) (f : string) (config : C) : C * bool :=
  match ReadFile f with
  | None => (config, false)
  | Some b => yaml_Unmarshal b config
  end.

Definition inc (ec : Z) : Z := uint64 (ec + 1).

(** ** Raw sockets, [rawSocket.go] *)

Module RawSocket.

Record RawSocketConfig : Type := mkRawSocketConfig { URL : string; Protocol : string; MaxRetry : Z }.

(** The connection is the number of the dial that made it. *)
Record RawSocket : Type := mkRawSocket {
  connection : option nat; config : RawSocketConfig; calls : nat; log : list Attempt
}.

Definition new : RawSocket := mkRawSocket None (mkRawSocketConfig "" "" 0) 0 [].

Section rawsocket.
Context (ReadFile : string -> option string).
Context (yaml_Unmarshal : string -> RawSocketConfig -> RawSocketConfig * bool).
(** The [n]-th call: [net.Dial] may fail, and so may [Fprintf], with the text of its error. *)
Context (Dial : nat -> string -> string -> bool) (Fprintf : nat -> option nat -> string -> option string).

Definition load_ : string -> RawSocketConfig -> RawSocketConfig * bool := load ReadFile yaml_Unmarshal.

Definition setup (configFile : string) (rs : RawSocket) : Setup RawSocket :=
  let '(c, ok) := load_ configFile (mkRawSocketConfig "localhost:9555" "tcp" 2) in
  if negb ok then SetupErr (mkRawSocket (connection rs) c (calls rs) (log rs))
  else if Dial (calls rs) (Protocol c) (URL c)
  then SetupOk (mkRawSocket (Some (calls rs)) c (S (calls rs)) (log rs))
  else SetupErr (mkRawSocket None c (S (calls rs)) (log rs)).

(** The text written for a message: the message itself is the format. *)
Definition payload (msg : string) : string := Sprintf0 (msg +:+ String "010"%char "").

Definition record (text : string) (ok : fate) (rs : RawSocket) : RawSocket :=
  mkRawSocket (connection rs) (config rs) (S (calls rs)) (log rs ++ [(text, ok)]).

(** A new connection after a broken pipe. *)
Definition reconnect (rs : RawSocket) : RawSocket :=
  if Dial (calls rs) (Protocol (config rs)) (URL (config rs))
  then mkRawSocket (Some (calls rs)) (config rs) (S (calls rs)) (log rs)
  else mkRawSocket (connection rs) (config rs) (S (calls rs)) (log rs).

(** The loop [for i := 0; ; i++] over the attempts for one message. *)
Fixpoint retry (fuel : nat) (i : Z) (text : string) (st : RawSocket * Z) : option (RawSocket * Z) :=
  match fuel with
  | O => None
  | S fuel' =>
      let '(rs, ec) := st in
      match Fprintf (calls rs) (connection rs) text with
      | None => Some (record text Sent rs, ec)
      | Some err =>
          let rs := record text Failed rs in
          let rs := if HasSuffix err "broken pipe" then reconnect rs else rs in
          if i >=? MaxRetry (config rs) then Some (rs, inc ec)
          else retry fuel' (i + 1) text (rs, inc ec)
      end
  end.

Definition retries (rs : RawSocket) : nat := Z.to_nat (MaxRetry (config rs)).

Definition send (msg : string) (st : RawSocket * Z) : option (RawSocket * Z) :=
  retry (S (retries st.1)) 0 (payload msg) st.

Definition inputMsg (topic : string) (mCh : list string) (st : RawSocket * Z) :
    option (RawSocket * Z) := channel_loop send mCh st.

Definition queue : MQueue := mkMQueue RawSocket new setup inputMsg log payload retries false.

Lemma reconnect_keeps rs :
  config (reconnect rs) = config rs /\ log (reconnect rs) = log rs.
Proof. unfold reconnect. by destruct (Dial _ _ _). Qed.

Lemma retry_S fuel i text rs ec :
  retry (S fuel) i text (rs, ec) =
  match Fprintf (calls rs) (connection rs) text with
  | None => Some (record text Sent rs, ec)
  | Some err =>
      let rs1 := if HasSuffix err "broken pipe" then reconnect (record text Failed rs)
                 else record text Failed rs in
      if i >=? MaxRetry (config rs1) then Some (rs1, inc ec)
      else retry fuel (i + 1) text (rs1, inc ec)
  end.
Proof. reflexivity. Qed.

(** With [n] retries left the loop makes at most [n + 1] attempts. *)
Lemma retry_spec n i text rs ec :
  0 <= i -> (Z.to_nat (MaxRetry (config rs) - i) = n)%nat ->
  exists rs' r, attempts false n text r /\
    retry (S n) i text (rs, uint64 ec) = Some (rs', uint64 (ec + failures r)) /\
    log rs' = log rs ++ r /\ config rs' = config rs.
Proof.
  revert i rs ec. induction n as [|n IH]; intros i rs ec Hi Hn; rewrite retry_S; cbv zeta;
    (destruct (Fprintf _ _ _) as [err|];
     [|exists (record text Sent rs), [(text, Sent)];
       split_and!; [apply (attempts_ok _ _ _ 0); lia|by rewrite Z.add_0_r|done|done]]);
    set (rs1 := if HasSuffix err _ then _ else _);
    assert (config rs1 = config rs /\ log rs1 = log rs ++ [(text, Failed)]) as [Hc Hl] by
      (unfold rs1; destruct (HasSuffix _ _); [|done];
       destruct (reconnect_keeps (record text Failed rs)) as [-> ->]; done);
    rewrite Hc; unfold inc; rewrite wrapU_add_l; case_test; try lia.
  - exists rs1, [(text, Failed)]. split_and!; try done. by apply (attempts_lost _ 0).
  - destruct (IH (i + 1) rs1 (ec + 1)) as (rs' & r & Hr & -> & Hl' & Hc'); [lia|rewrite Hc; lia|].
    exists rs', ((text, Failed) :: r). split_and!.
    + destruct Hr as [k Hk|_|]; [apply (attempts_ok _ _ _ (S k)); lia|by apply attempts_lost|done].
    + change ((text, Failed) :: r) with ([(text, Failed)] ++ r). rewrite failures_app.
      change (failures [(text, Failed)]) with 1. do 3 f_equal. lia.
    + by rewrite Hl', Hl, <- app_assoc.
    + by rewrite Hc'.
Qed.

#[export] Instance queue_spec : MQueueSpec queue.
Proof.
  intros topic msgs s ec Hec. apply (channel_loop_mq send log payload retries false); [|done].
  clear. intros m rs ec. unfold send. cbn [fst].
  destruct (retry_spec (retries rs) 0 (payload m) rs ec) as (rs' & r & Hr & -> & Hl & Hc);
    [done|unfold retries; f_equal; lia|].
  exists rs', r. split_and!; try done. unfold retries. by rewrite Hc.
Qed.

End rawsocket.
End RawSocket.

(** ** NSQ and NATS, [nsq.go] and [nats.go] *)

(** One [Publish]: an attempt without retries. *)
Record Client : Type := mkClient { cl_server : string; cl_calls : nat; cl_log : list Attempt }.

Definition publish (Publish : nat -> string -> string -> bool) (topic msg : string)
    (st : Client * Z) : option (Client * Z) :=
  let '(c, ec) := st in
  let ok := Publish (cl_calls c) topic msg in
  Some (mkClient (cl_server c) (S (cl_calls c)) (cl_log c ++ [(msg, if ok then Sent else Failed)]), if ok then ec else inc ec).

Lemma publish_spec Publish topic m c ec :
  exists c' r, attempts false 0 m r /\
    publish Publish topic m (c, uint64 ec) = Some (c', uint64 (ec + failures r)) /\
    cl_log c' = cl_log c ++ r.
Proof.
  cbn [publish]. set (ok := Publish _ _ _).
  exists (mkClient (cl_server c) (S (cl_calls c)) (cl_log c ++ [(m, if ok then Sent else Failed)])),
    [(m, if ok then Sent else Failed)].
  split_and!; [| |done].
  - destruct ok; [by apply (attempts_ok _ _ _ 0)|by apply (attempts_lost _ 0)].
  - destruct ok; [by rewrite Z.add_0_r|]. unfold inc. by rewrite wrapU_add_l.
Qed.

Module NSQ.
Section nsq.
Context (ReadFile : string -> option string) (yaml_Unmarshal : string -> string -> string * bool).
Context (NewProducer : string -> bool) (Publish : nat -> string -> string -> bool).

Definition load_ : string -> string -> string * bool := load ReadFile yaml_Unmarshal.

(** A configuration file that cannot be loaded is only logged. *)
Definition setup (configFile : string) (n : Client) : Setup Client :=
  let '(server, _) := load_ configFile "localhost:4150" in
  let n := mkClient server (cl_calls n) (cl_log n) in
  if NewProducer server then SetupOk n else SetupErr n.

Definition inputMsg (topic : string) (mCh : list string) (st : Client * Z) : option (Client * Z) :=
  channel_loop (publish Publish topic) mCh st.

Definition queue : MQueue :=
  mkMQueue Client (mkClient "" 0 []) setup inputMsg cl_log (fun m => m) (fun _ => 0%nat) false.

#[export] Instance queue_spec : MQueueSpec queue.
Proof.
  intros topic msgs s ec Hec.
  apply (channel_loop_mq (publish Publish topic) cl_log (fun m => m) (fun _ => 0%nat) false); [|done].
  intros m c ec'. destruct (publish_spec Publish topic m c ec') as (c' & r & ? & ? & ?). by exists c', r.
Qed.
End nsq.
End NSQ.

Module NATS.
Section nats.
Context (ReadFile : string -> option string) (yaml_Unmarshal : string -> string -> string * bool).
Context (DefaultURL : string) (Connect : string -> bool) (Publish : nat -> string -> string -> bool).

Definition load_ : string -> string -> string * bool := load ReadFile yaml_Unmarshal.

(** A configuration file that cannot be loaded is an error. *)
Definition setup (configFile : string) (n : Client) : Setup Client :=
  let '(url, ok) := load_ configFile DefaultURL in
  let n := mkClient url (cl_calls n) (cl_log n) in
  if negb ok then SetupErr n else if Connect url then SetupOk n else SetupErr n.

Definition inputMsg (topic : string) (mCh : list string) (st : Client * Z) : option (Client * Z) :=
  channel_loop (publish Publish topic) mCh st.

Definition queue : MQueue :=
  mkMQueue Client (mkClient "" 0 []) setup inputMsg cl_log (fun m => m) (fun _ => 0%nat) false.

#[export] Instance queue_spec : MQueueSpec queue.
Proof.
  intros topic msgs s ec Hec.
  apply (channel_loop_mq (publish Publish topic) cl_log (fun m => m) (fun _ => 0%nat) false); [|done].
  intros m c ec'. destruct (publish_spec Publish topic m c ec') as (c' & r & ? & ? & ?). by exists c', r.
Qed.
End nats.
End NATS.

(** ** Kafka, [kafka.go] *)

Module Kafka.

Record KafkaConfig : Type := mkKafkaConfig {
  Brokers : list string; Compression : string; RetryMax : Z; RequestSizeMax : Z;
  RetryBackoff : Z; TLSCertFile : string; TLSKeyFile : string; CAFile : string; VerifySSL : bool
}.

Definition zeroConfig : KafkaConfig := mkKafkaConfig [] "" 0 0 0 "" "" "" false.

Definition defaultConfig : KafkaConfig :=
  mkKafkaConfig ["localhost:9092"] "" 2 104857600 10 "" "" "" true.

(** The fields of the struct in its order, with the [env] tags. *)
Inductive kafka_field : Type :=
| F_Brokers | F_Compression | F_RetryMax | F_RequestSizeMax | F_RetryBackoff | F_TLSCertFile
| F_TLSKeyFile | F_CAFile | F_VerifySSL.

Definition fields : list kafka_field :=
  [F_Brokers; F_Compression; F_RetryMax; F_RequestSizeMax; F_RetryBackoff; F_TLSCertFile;
   F_TLSKeyFile; F_CAFile; F_VerifySSL].

Definition env_tag (f : kafka_field) : string :=
  match f with
  | F_Brokers => "BROKERS" | F_Compression => "COMPRESSION" | F_RetryMax => "RETRY_MAX"
  | F_RequestSizeMax => "REQUEST_SIZE_MAX" | F_RetryBackoff => "RETRY_BACKOFF"
  | F_TLSCertFile => "TLS_CERT" | F_TLSKeyFile => "TLS_KEY" | F_CAFile => "CA_FILE"
  | F_VerifySSL => "VERIFY_SSL"
  end.

(** [f.Index(0).SetString(elm)] for every element: the first broker is overwritten. *)
Fixpoint set_first (elms : list string) (brokers : list string) : res (list string) :=
  match elms with
  | [] => Ok brokers
  | elm :: elms' => match brokers with [] => Panic | _ :: bs => set_first elms' (elm :: bs) end
  end.

(** The switch on the kind of the field; [int32] is none of its cases. *)
Definition set_env (f : kafka_field) (val : string) (c : KafkaConfig) : res KafkaConfig :=
  match c with
  | mkKafkaConfig br co rm rs rb tc tk ca vs =>
      match f with
      | F_Brokers =>
          match set_first (Split ";" val) br with
          | Ok br' => Ok (mkKafkaConfig br' co rm rs rb tc tk ca vs)
          | _ => Panic
          end
      | F_Compression => Ok (mkKafkaConfig br val rm rs rb tc tk ca vs)
      | F_RetryMax => Ok (mkKafkaConfig br co (default rm (Atoi val)) rs rb tc tk ca vs)
      | F_RequestSizeMax => Ok c
      | F_RetryBackoff => Ok (mkKafkaConfig br co rm rs (default rb (Atoi val)) tc tk ca vs)
      | F_TLSCertFile => Ok (mkKafkaConfig br co rm rs rb val tk ca vs)
      | F_TLSKeyFile => Ok (mkKafkaConfig br co rm rs rb tc val ca vs)
      | F_CAFile => Ok (mkKafkaConfig br co rm rs rb tc tk val vs)
      | F_VerifySSL => Ok (mkKafkaConfig br co rm rs rb tc tk ca (default vs (ParseBool val)))
      end
  end.

Fixpoint loadEnv_loop (LookupEnv : string -> option string) (prefix : string)
    (fs : list kafka_field) (c : KafkaConfig) : res KafkaConfig :=
  match fs with
  | [] => Ok c
  | f :: fs' =>
      match LookupEnv (prefix +:+ "_" +:+ env_tag f) with
      | None => loadEnv_loop LookupEnv prefix fs' c
      | Some val =>
          match set_env f val c with
          | Ok c' => loadEnv_loop LookupEnv prefix fs' c'
          | o => o
          end
      end
  end.

Definition loadEnv (LookupEnv : string -> option string) (prefix : string) (c : KafkaConfig) :
    res KafkaConfig := loadEnv_loop LookupEnv prefix fields c.

(** What [setup] fills in of [tls.Config] and of [sarama.Config]; durations are in
    nanoseconds. *)
Record TLSConfig : Type := mkTLSConfig {
  Certificates : string * string; RootCAs : string; InsecureSkipVerify : bool
}.

Inductive Codec : Type := CompressionNone | CompressionGZIP | CompressionLZ4 | CompressionSnappy.

Record SaramaConfig : Type := mkSaramaConfig {
  ClientID : string; Retry_Max : Z; Retry_Backoff : Z; MaxRequestSize : Z;
  Producer_Compression : Codec; Net_TLS : option TLSConfig
}.

Record Kafka : Type := mkKafka {
  config : KafkaConfig; producer : option SaramaConfig; closed : bool; calls : nat; log : list Attempt
}.

Definition new : Kafka := mkKafka zeroConfig None false 0 [].

Definition compression (name : string) : Codec :=
  if String.eqb name "gzip" then CompressionGZIP
  else if String.eqb name "lz4" then CompressionLZ4
  else if String.eqb name "snappy" then CompressionSnappy
  else CompressionNone.

Definition sarama_config (c : KafkaConfig) (tls : option TLSConfig) : SaramaConfig :=
  mkSaramaConfig "vFlow.Kafka" (RetryMax c) (wrapS 64 (RetryBackoff c * 1000000)) (RequestSizeMax c)
    (compression (Compression c)) tls.

Section kafka.
Context (ReadFile : string -> option string).
Context (yaml_Unmarshal : string -> KafkaConfig -> KafkaConfig * bool).
Context (LoadX509KeyPair : string -> string -> bool) (LookupEnv : string -> option string).
Context (Validate : SaramaConfig -> bool) (NewAsyncProducer : list string -> SaramaConfig -> bool).
(** The case the [n]-th select takes: [true] when the client accepts the message, [false]
    when an error of an earlier message is received. *)
Context (select : nat -> string -> string -> bool).

Definition load_ : string -> KafkaConfig -> KafkaConfig * bool := load ReadFile yaml_Unmarshal.

(** [None]: the files cannot be read, [logger.Fatal]. *)
Definition tlsConfig (c : KafkaConfig) : option (option TLSConfig) :=
  if negb (String.eqb (TLSCertFile c) "") && negb (String.eqb (TLSKeyFile c) "")
     && negb (String.eqb (CAFile c) "") then
    if negb (LoadX509KeyPair (TLSCertFile c) (TLSKeyFile c)) then None
    else match ReadFile (CAFile c) with
         | None => None
         | Some caCert => Some (Some (mkTLSConfig (TLSCertFile c, TLSKeyFile c) caCert (VerifySSL c)))
         end
  else Some None.

Definition setup (configFile : string) (k : Kafka) : Setup Kafka :=
  let '(c, _) := load_ configFile defaultConfig in
  match tlsConfig c with
  | None => SetupFatal
  | Some tls =>
      let sc := sarama_config c tls in
      match loadEnv LookupEnv "VFLOW_KAFKA" c with
      | Ok c' =>
          if negb (Validate sc) then SetupFatal
          else if NewAsyncProducer (Brokers c') sc
          then SetupOk (mkKafka c' (Some sc) false (calls k) (log k))
          else SetupErr (mkKafka c' None false (calls k) (log k))
      | _ => SetupPanic
      end
  end.

(** The body of the loop: when the select receives an error, which is one of an earlier
    message, the message in hand is dropped unsent. *)
Definition send (topic msg : string) (st : Kafka * Z) : option (Kafka * Z) :=
  let '(k, ec) := st in
  let ok := select (calls k) topic msg in
  Some (mkKafka (config k) (producer k) (closed k) (S (calls k))
          (log k ++ [(msg, if ok then Sent else Skipped)]),
        if ok then ec else inc ec).

(** After the loop [k.producer.Close()]. *)
Definition inputMsg (topic : string) (mCh : list string) (st : Kafka * Z) : option (Kafka * Z) :=
  match channel_loop (send topic) mCh st with
  | Some (k, ec) => Some (mkKafka (config k) (producer k) true (calls k) (log k), ec)
  | None => None
  end.

Definition queue : MQueue :=
  mkMQueue Kafka new setup inputMsg log (fun m => m) (fun _ => 0%nat) true.

#[export] Instance queue_spec : MQueueSpec queue.
Proof.
  intros topic msgs s ec Hec.
  destruct (channel_loop_mq (send topic) log (fun m => m) (fun _ => 0%nat) true) with (msgs := msgs) (s := s) (ec := ec)
    as (s' & runs & Hr & E & Hl); [|done|].
  - clear. intros m k ec. cbn [send]. set (ok := select _ _ _).
    exists (mkKafka (config k) (producer k) (closed k) (S (calls k))
      (log k ++ [(m, if ok then Sent else Skipped)])), [(m, if ok then Sent else Skipped)].
    split_and!; [| |done|done].
    + destruct ok; [by apply (attempts_ok _ _ _ 0)|by apply attempts_skipped].
    + destruct ok; [by rewrite Z.add_0_r|]. unfold inc. by rewrite wrapU_add_l.
  - eexists _, runs. split_and!; [exact Hr| |].
    + cbn. unfold inputMsg. by rewrite E.
    + exact Hl.
Qed.

Lemma set_first_eq elms b bs :
  set_first elms (b :: bs) = Ok (default b (last elms) :: bs).
Proof using.
  revert b. induction elms as [|e elms IH]; intros b; [done|]. cbn [set_first]. rewrite IH.
  rewrite last_cons. by destruct (last elms).
Qed.

(** The brokers an environment leaves. *)
Definition env_brokers (brokers : list string) : list string :=
  match LookupEnv "VFLOW_KAFKA_BROKERS" with
  | None => brokers
  | Some v => default "" (last (Split ";" v)) :: tail brokers
  end.

Lemma loadEnv_cons f fs c :
  loadEnv_loop LookupEnv "VFLOW_KAFKA" (f :: fs) c =
  match LookupEnv ("VFLOW_KAFKA" +:+ "_" +:+ env_tag f) with
  | None => loadEnv_loop LookupEnv "VFLOW_KAFKA" fs c
  | Some val =>
      match set_env f val c with
      | Ok c' => loadEnv_loop LookupEnv "VFLOW_KAFKA" fs c'
      | o => o
      end
  end.
Proof using. reflexivity. Qed.

Lemma loadEnv_others fs c c' :
  F_Brokers ∉ fs ->
  loadEnv_loop LookupEnv "VFLOW_KAFKA" fs c = Ok c' -> Brokers c' = Brokers c.
Proof using.
  intros Hf. revert c. induction fs as [|g fs IH]; intros c.
  { by intros [= ->]. }
  apply not_elem_of_cons in Hf as [Hg Hf]. rewrite loadEnv_cons. destruct (LookupEnv _); [|by apply IH].
  destruct c, g; cbn [set_env]; try done; intros H; by rewrite (IH Hf _ H).
Qed.

Lemma not_brokers : F_Brokers ∉ tail fields.
Proof using. unfold fields. cbn. rewrite !not_elem_of_cons. repeat split; try done. apply not_elem_of_nil. Qed.

Lemma loadEnv_brokers c c' :
  loadEnv LookupEnv "VFLOW_KAFKA" c = Ok c' -> Brokers c' = env_brokers (Brokers c).
Proof using.
  unfold loadEnv, fields. rewrite loadEnv_cons. cbn [env_tag]. unfold env_brokers.
  change ("VFLOW_KAFKA" +:+ "_" +:+ "BROKERS") with "VFLOW_KAFKA_BROKERS".
  destruct (LookupEnv "VFLOW_KAFKA_BROKERS") as [v|].
  2: { apply loadEnv_others, not_brokers. }
  destruct c as [br co rm rs rb tc tk ca vs]. cbn [set_env].
  destruct br as [|b bs].
  { destruct (Split ";" v) eqn:E; [by apply Split_nonempty in E|done]. }
  rewrite set_first_eq. intros H. apply loadEnv_others in H; [|apply not_brokers].
  rewrite H. cbn. f_equal. destruct (last (Split ";" v)) eqn:E; [done|].
  apply last_None in E. by apply Split_nonempty in E.
Qed.
End kafka.
End Kafka.

(** ** The producer, [producer.go] *)

Record Producer : Type := mkProducer {
  MQ : option MQueue; MQConfigFile : string; MQErrorCount : Z; Topic : string
}.

(** What [Run] comes to; when it returns nil, with the attempts made and the error count. *)
Inductive RunResult : Type :=
| RunPanic | RunFatal | RunErr | RunLoops | RunDone (log : list Attempt) (ec : Z).

(** [Run]: the interface value may be nil; the channel [msgs] is consumed only when
    [setup] succeeds. *)
Definition Run (p : Producer) (msgs : list string) : RunResult :=
  match MQ p with
  | None => RunPanic
  | Some q =>
      match mq_setup q (MQConfigFile p) (mq_new q) with
      | SetupPanic => RunPanic
      | SetupFatal => RunFatal
      | SetupErr _ => RunErr
      | SetupOk s =>
          match mq_inputMsg q (Topic p) msgs (s, MQErrorCount p) with
          | Some (s', ec) => RunDone (mq_log q s') ec
          | None => RunLoops
          end
      end
  end.

(** [Shutdown] closes the channel, [closed] says whether it is closed already. *)
Definition Shutdown (closed : bool) : res bool := if closed then Panic else Ok true.

(** [NewProducer]'s registry. *)
Definition NewProducer (kafka nsq nats rawSocket : MQueue) (mqName : string) : Producer :=
  let mq :=
    if String.eqb mqName "kafka" then Some kafka
    else if String.eqb mqName "nsq" then Some nsq
    else if String.eqb mqName "nats" then Some nats
    else if String.eqb mqName "rawSocket" then Some rawSocket
    else None in
  mkProducer mq "" 0 "".

(** A queue whose [setup] and whose [inputMsg] leave the log alone until they attempt
    something. *)
Definition setup_silent (q : MQueue) : Prop :=
  forall f s, mq_setup q f (mq_new q) = SetupOk s -> mq_log q s = [].

(** The producer against the interface. *)
Lemma Run_spec q f ec topic msgs s :
  MQueueSpec q -> setup_silent q -> 0 <= ec < 2 ^ 64 ->
  mq_setup q f (mq_new q) = SetupOk s ->
  exists runs, Forall2 (fun m r => attempts (mq_skips q) (mq_retries q s) (mq_payload q m) r) msgs runs /\
    Run (mkProducer (Some q) f ec topic) msgs =
    RunDone (concat runs) (uint64 (ec + failures (concat runs))).
Proof.
  intros Hq Hs Hec E. destruct (Hq topic msgs s ec Hec) as (s' & runs & Hr & Hi & Hl).
  exists runs. split; [done|]. unfold Run. cbn [MQ MQConfigFile Topic MQErrorCount].
  by rewrite E, Hi, Hl, (Hs _ _ E).
Qed.

Lemma kafka_silent rf y x e v n sel : setup_silent (Kafka.queue rf y x e v n sel).
Proof.
  intros f s. cbn. unfold Kafka.setup. destruct (Kafka.load_ _ _ _ _) as [c ok].
  repeat case_match; try done. by intros [= <-].
Qed.

Lemma nsq_silent rf y n p : setup_silent (NSQ.queue rf y n p).
Proof.
  intros f s. cbn. unfold NSQ.setup. destruct (NSQ.load_ _ _ _ _) as [c ok].
  repeat case_match; try done. by intros [= <-].
Qed.

Lemma nats_silent rf y d c p : setup_silent (NATS.queue rf y d c p).
Proof.
  intros f s. cbn. unfold NATS.setup. destruct (NATS.load_ _ _ _ _) as [u ok].
  repeat case_match; try done. by intros [= <-].
Qed.

Lemma raw_silent rf y d w : setup_silent (RawSocket.queue rf y d w).
Proof.
  intros f s. cbn. unfold RawSocket.setup. destruct (RawSocket.load_ _ _ _ _) as [u ok].
  repeat case_match; try done. by intros [= <-].
Qed.

#[export] Hint Resolve kafka_silent nsq_silent nats_silent raw_silent : vflow.
#[export] Hint Resolve Kafka.queue_spec NSQ.queue_spec NATS.queue_spec RawSocket.queue_spec : vflow.

(** The four implementations in their environments. *)
Section registry.
Context (ReadFile : string -> option string) (LookupEnv : string -> option string).
Context (yaml_Unmarshal : string -> string -> string * bool).
Context (yaml_kafka : string -> Kafka.KafkaConfig -> Kafka.KafkaConfig * bool).
Context (yaml_raw : string -> RawSocket.RawSocketConfig -> RawSocket.RawSocketConfig * bool).
Context (LoadX509KeyPair : string -> string -> bool) (Validate : Kafka.SaramaConfig -> bool).
Context (NewAsyncProducer : list string -> Kafka.SaramaConfig -> bool).
Context (select : nat -> string -> string -> bool).
Context (nsq_NewProducer : string -> bool) (nsq_Publish : nat -> string -> string -> bool).
Context (DefaultURL : string) (nats_Connect : string -> bool).
Context (nats_Publish : nat -> string -> string -> bool).
Context (Dial : nat -> string -> string -> bool) (Fprintf : nat -> option nat -> string -> option string).

Definition kafka : MQueue :=
  Kafka.queue ReadFile yaml_kafka LoadX509KeyPair LookupEnv Validate NewAsyncProducer select.
Definition nsq : MQueue := NSQ.queue ReadFile yaml_Unmarshal nsq_NewProducer nsq_Publish.
Definition nats : MQueue := NATS.queue ReadFile yaml_Unmarshal DefaultURL nats_Connect nats_Publish.
Definition rawSocket : MQueue := RawSocket.queue ReadFile yaml_raw Dial Fprintf.

(** The producer of a name, with the fields its caller sets. *)
Definition producer_of (mqName f topic : string) (ec : Z) : Producer :=
  mkProducer (MQ (NewProducer kafka nsq nats rawSocket mqName)) f ec topic.

Lemma registered mqName q :
  MQ (NewProducer kafka nsq nats rawSocket mqName) = Some q -> MQueueSpec q /\ setup_silent q.
Proof. cbn. repeat case_match; try done; intros [= <-]; split; unfold kafka, nsq, nats, rawSocket; auto with vflow. Qed.

(** C34: A producer run, whatever the name of the queue, the environment and the failures
    of its client library, whose calls are taken to return.  An unregistered name panics.
    Otherwise, when [setup] succeeds, the run ends once the channel is closed, and every
    message was dealt with in the order of the channel: by NSQ, NATS and the raw socket it
    was handed over after at most as many failures as the queue's bound on retries (0, 0 and
    [MaxRetry]), or given up after one more; by Kafka it was handed to the client library, or
    dropped without an attempt, when the [select] received the error of an earlier message
    instead.  The error counter grew by one at each failed attempt and at each message that
    was dropped so; errors that the Kafka client still holds when the channel is closed are
    not counted.  When [setup] does not succeed no message is taken. *)
Theorem producer_Run_outcome (mqName f topic : string) (ec : Z) (msgs : list string) :
  0 <= ec < 2 ^ 64 ->
  match MQ (NewProducer kafka nsq nats rawSocket mqName) with
  | None =>
      (mqName ∉ ["kafka"; "nsq"; "nats"; "rawSocket"]) /\ Run (producer_of mqName f topic ec) msgs = RunPanic
  | Some q =>
      match mq_setup q f (mq_new q) with
      | SetupOk s =>
          exists runs,
            Forall2 (fun m r => attempts (mq_skips q) (mq_retries q s) (mq_payload q m) r) msgs runs /\
            Run (producer_of mqName f topic ec) msgs =
            RunDone (concat runs) (uint64 (ec + failures (concat runs)))
      | SetupErr _ => Run (producer_of mqName f topic ec) msgs = RunErr
      | SetupFatal => Run (producer_of mqName f topic ec) msgs = RunFatal
      | SetupPanic => Run (producer_of mqName f topic ec) msgs = RunPanic
      end
  end.
Proof.
  intros Hec. unfold producer_of.
  destruct (MQ (NewProducer kafka nsq nats rawSocket mqName)) as [q|] eqn:E.
  - destruct (registered _ _ E) as [Hq Hs].
    destruct (mq_setup q f (mq_new q)) eqn:Es; [by apply Run_spec|..];
      unfold Run; cbn [MQ MQConfigFile]; by rewrite Es.
  - split; [|done]. cbn in E. repeat case_match; try done.
    rewrite !not_elem_of_cons. repeat split; try (by apply String.eqb_neq); apply not_elem_of_nil.
Qed.
End registry.

(** What the environment does to the Kafka producer.  Whatever it holds, the client is
    configured from the configuration file alone: retries, back-off, request size,
    compression and TLS do not depend on the environment.  Of the brokers only the first is
    replaced, by the last of the list given; and certificates are left unverified exactly
    when the configuration asks for their verification. *)
Theorem kafka_setup_env (ReadFile : string -> option string)
    (yaml_Unmarshal : string -> Kafka.KafkaConfig -> Kafka.KafkaConfig * bool)
    (LoadX509KeyPair : string -> string -> bool) (LookupEnv : string -> option string)
    (Validate : Kafka.SaramaConfig -> bool) (NewAsyncProducer : list string -> Kafka.SaramaConfig -> bool)
    (configFile : string) (k k' : Kafka.Kafka) :
  Kafka.setup ReadFile yaml_Unmarshal LoadX509KeyPair LookupEnv Validate NewAsyncProducer configFile k
    = SetupOk k' ->
  let c := (Kafka.load_ ReadFile yaml_Unmarshal configFile Kafka.defaultConfig).1 in
  exists tls,
    Kafka.tlsConfig ReadFile LoadX509KeyPair c = Some tls /\
    Kafka.producer k' = Some (Kafka.sarama_config c tls) /\
    Kafka.Brokers (Kafka.config k') = Kafka.env_brokers LookupEnv (Kafka.Brokers c) /\
    NewAsyncProducer (Kafka.Brokers (Kafka.config k')) (Kafka.sarama_config c tls) = true /\
    (forall t, tls = Some t -> Kafka.InsecureSkipVerify t = Kafka.VerifySSL c).
Proof.
  unfold Kafka.setup. destruct (Kafka.load_ _ _ _ _) as [c ok]. cbv zeta. cbn [fst].
  destruct (Kafka.tlsConfig _ _ c) as [tls|] eqn:Et; [|done].
  destruct (Kafka.loadEnv _ _ c) as [c'| | |] eqn:Ee; try done.
  destruct (negb _); [done|]. destruct (NewAsyncProducer _ _) eqn:Ea; [|done]. intros [= <-].
  exists tls. apply Kafka.loadEnv_brokers in Ee. split_and!; try done.
  intros t ->. unfold Kafka.tlsConfig in Et. repeat case_match; try done. by injection Et as <-.
Qed.

(** A message without a percent sign goes over a raw socket as it is, with a newline. *)
Lemma raw_payload_plain msg :
  Contains "%" msg = false -> RawSocket.payload msg = msg +:+ String "010"%char "".
Proof.
  intros H. apply Sprintf0_plain. induction msg as [|c msg IH]; [done|]. cbn in *.
  apply orb_false_iff in H as [Hc H]. apply orb_false_iff. split; [done|by apply IH].
Qed.

Example raw_payload_percent :
  RawSocket.payload "{load:95%}" = "{load:95%!}(MISSING)" +:+ String "010"%char "".
Proof. reflexivity. Qed.

(** A raw socket whose first two writes fail with a broken pipe, retrying once. *)
Definition example_Fprintf (n : nat) (conn : option nat) (text : string) : option string :=
  if (n <? 5)%nat then Some "write tcp: broken pipe" else None.

Lemma producer_Run_outcome_witness :
  exists runs,
    Forall2 (fun m r => attempts false 1 (RawSocket.payload m) r) ["a"; "b"] runs /\
    Run (producer_of (fun _ => Some "retry-max: 1") (fun _ => None) (fun b c => (c, true))
           (fun b c => (c, true)) (fun b c => (RawSocket.mkRawSocketConfig "h:1" "tcp" 1, true))
           (fun _ _ => true) (fun _ => true) (fun _ _ => true) (fun _ _ _ => true) (fun _ => true)
           (fun _ _ _ => true) "" (fun _ => true) (fun _ _ _ => true) (fun _ _ _ => true) example_Fprintf
           "rawSocket" "/etc/vflow/mq.conf" "vflow.ipfix" 7) ["a"; "b"] =
    RunDone (concat runs) (wrapU 64 (7 + failures (concat runs))).
Proof.
  apply (producer_Run_outcome (fun _ => Some "retry-max: 1") (fun _ => None) (fun b c => (c, true))
           (fun b c => (c, true)) (fun b c => (RawSocket.mkRawSocketConfig "h:1" "tcp" 1, true))
           (fun _ _ => true) (fun _ => true) (fun _ _ => true) (fun _ _ _ => true) (fun _ => true)
           (fun _ _ _ => true) "" (fun _ => true) (fun _ _ _ => true) (fun _ _ _ => true) example_Fprintf
           "rawSocket" "/etc/vflow/mq.conf" "vflow.ipfix" 7 ["a"; "b"]).
  lia.
Defined.

(** Two brokers in the environment, of which the last replaces the first of the file, and a
    retry bound there that is not used. *)
Definition example_env (v : string) : option string :=
  if String.eqb v "VFLOW_KAFKA_BROKERS" then Some "b1:9092;b2:9092"
  else if String.eqb v "VFLOW_KAFKA_RETRY_MAX" then Some "9" else None.

Lemma kafka_setup_env_witness :
  exists k', Kafka.setup (fun _ => None) (fun b c => (c, true)) (fun _ _ => true) example_env
               (fun _ => true) (fun _ _ => true) "/etc/vflow/mq.conf" Kafka.new = SetupOk k' /\
    Kafka.Brokers (Kafka.config k') = ["b2:9092"] /\
    exists sc, Kafka.producer k' = Some sc /\ Kafka.Retry_Max sc = 2.
Proof.
  eexists. split; [reflexivity|]. split; [reflexivity|].
  edestruct (kafka_setup_env (fun _ => None) (fun b c => (c, true)) (fun _ _ => true) example_env
               (fun _ => true) (fun _ _ => true) "/etc/vflow/mq.conf" Kafka.new) as (tls & _ & Hp & _);
    [reflexivity|].
  exists (Kafka.sarama_config Kafka.defaultConfig tls). split; [exact Hp|reflexivity].
Defined.
