(* ===== verification/Lifecycle.v ===== *)
(** The life of a collector, [run] and [shutdown] of [src/vflow/ipfix.go],
    [src/vflow/netflow_v9.go] and [src/vflow/sflow.go], and [main] of
    [src/vflow/vflow.go], which starts the three and stops them on a signal.

    A collector is three kinds of goroutine over a channel of 1000 datagrams: the reader
    ([run]), the workers, which take datagrams, and [shutdown].  Their interleavings are
    sequences of labels; [step] is what one label does, [None] when it cannot happen (the
    goroutine blocks or is elsewhere).  The datagrams read, taken by a worker and still
    queued are all recorded.  What a worker does with a datagram is in Collector.v,
    NetflowCollector.v and SFlowCollector.v; the number of workers in Workers.v. *)

From S2P Require Import Prelude GoNet Json GoStrings Options Collector Workers.

Open Scope Z_scope.

(** ** A collector *)

(** The fields [New...] sets and the options that [run] and [shutdown] read; [sc_guarded]
    says whether [shutdown] returns at once when the collector is disabled, [sc_caches]
    whether it has a template cache. *)
Record ServiceConfig : Type := mkServiceConfig {
  sc_port : Z; sc_addr : string; sc_workers : Z; sc_enabled : bool; sc_guarded : bool; sc_caches : bool
}.

(** [NewIPFIX], [NewNetflowV9] and [NewSFlow]. *)
Definition NewIPFIX (opts : Options) : ServiceConfig :=
  mkServiceConfig (o_IPFIXPort opts) (o_IPFIXAddr opts) (o_IPFIXWorkers opts) (o_IPFIXEnabled opts) true true.
Definition NewNetflowV9 (opts : Options) : ServiceConfig :=
  mkServiceConfig (o_NetflowV9Port opts) EmptyString (o_NetflowV9Workers opts) (o_NetflowV9Enabled opts) true true.
Definition NewSFlow (opts : Options) : ServiceConfig :=
  mkServiceConfig (o_SFlowPort opts) EmptyString (o_SFlowWorkers opts) (o_SFlowEnabled opts) false false.

Section service.
Context {msg : Type} (cfg : ServiceConfig).

(** Where the reader is: before listening, after starting the workers, at the loop's test,
    in [ReadFromUDP], at the send of a datagram, or returned. *)
Inductive Phase : Type := Starting | Listening | Looping | Reading | Sending (m : msg) | Returned.

(** Where [shutdown] is: not called, sleeping, about to close the channel, or returned. *)
Inductive Stopping : Type := NotCalled | Sleeping | Closing | StopReturned.

(** Why the process died, if it did. *)
Inductive Death : Type := Panicked | Exited.

(** [dumped] is the outcome of [mCache.Dump], once it was called: whether it succeeded. *)
Record Service : Type := mkService {
  phase : Phase; stopping : Stopping; stop : bool; udpCh : list msg; ch_closed : bool;
  alive : nat; stats_Workers : Z; stats_UDPCount : Z; loaded : bool; dumped : option bool;
  received : list msg; taken : list msg; dead : option Death
}.

Definition service_init : Service :=
  mkService Starting NotCalled false [] false 0 0 0 false None [] [] None.

Inductive label : Type :=
| LListen (ok : bool)   (* [net.ListenUDP] and the start of the workers *)
| LLoad                 (* elements, cache, and the helper goroutines *)
| LTest                 (* [for !i.stop] *)
| LRecv (m : msg)       (* a datagram is read *)
| LTimeout              (* the read fails *)
| LSend                 (* [ch <- msg] *)
| LTake                 (* a worker receives a datagram *)
| LExit                 (* a worker finds the channel closed *)
| LShutdown             (* [shutdown] is called *)
| LWake (ok : bool)     (* its second is over; the templates are dumped, or that fails *)
| LClose.               (* [close(ch)] *)

Definition with_phase (p : Phase) (s : Service) : Service :=
  mkService p (stopping s) (stop s) (udpCh s) (ch_closed s) (alive s) (stats_Workers s)
    (stats_UDPCount s) (loaded s) (dumped s) (received s) (taken s) (dead s).

Definition with_stopping (p : Stopping) (s : Service) : Service :=
  mkService (phase s) p (stop s) (udpCh s) (ch_closed s) (alive s) (stats_Workers s)
    (stats_UDPCount s) (loaded s) (dumped s) (received s) (taken s) (dead s).

Definition die (d : Death) (s : Service) : Service :=
  mkService (phase s) (stopping s) (stop s) (udpCh s) (ch_closed s) (alive s) (stats_Workers s)
    (stats_UDPCount s) (loaded s) (dumped s) (received s) (taken s) (Some d).

(** The steps of [run]: the start of the listener and the workers. *)
Definition run_listen (ok : bool) (s : Service) : Service :=
  if negb (sc_enabled cfg) then with_phase Returned s
  else if negb ok then die Exited s
  else mkService Listening (stopping s) (stop s) (udpCh s) (ch_closed s) (Z.to_nat (sc_workers cfg))
         (int32 (stats_Workers s + int32 (sc_workers cfg))) (stats_UDPCount s) (loaded s) (dumped s)
         (received s) (taken s) (dead s).

Definition run_load (s : Service) : Service :=
  mkService Looping (stopping s) (stop s) (udpCh s) (ch_closed s) (alive s) (stats_Workers s)
    (stats_UDPCount s) true (dumped s) (received s) (taken s) (dead s).

Definition run_recv (m : msg) (s : Service) : Service :=
  mkService (Sending m) (stopping s) (stop s) (udpCh s) (ch_closed s) (alive s) (stats_Workers s)
    (uint64 (stats_UDPCount s + 1)) (loaded s) (dumped s) (received s ++ [m]) (taken s) (dead s).

(** A send on a closed channel panics, on a full one it waits. *)
Definition run_send (m : msg) (s : Service) : option Service :=
  if ch_closed s then Some (die Panicked s)
  else if len (udpCh s) <? chan_cap
  then Some (mkService Looping (stopping s) (stop s) (udpCh s ++ [m]) (ch_closed s) (alive s)
               (stats_Workers s) (stats_UDPCount s) (loaded s) (dumped s) (received s) (taken s) (dead s))
  else None.

Definition run_step (l : label) (s : Service) : option Service :=
  match l, phase s with
  | LListen ok, Starting => Some (run_listen ok s)
  | LLoad, Listening => Some (run_load s)
  | LTest, Looping => Some (with_phase (if stop s then Returned else Reading) s)
  | LRecv m, Reading => Some (run_recv m s)
  | LTimeout, Reading => Some (with_phase Looping s)
  | LSend, Sending m => run_send m s
  | _, _ => None
  end.

(** The steps of [shutdown]; an error of [Dump] is logged and changes nothing else. *)
Definition shutdown_step (l : label) (s : Service) : option Service :=
  match l, stopping s with
  | LShutdown, NotCalled =>
      if sc_guarded cfg && negb (sc_enabled cfg) then Some (with_stopping StopReturned s)
      else Some (mkService (phase s) Sleeping true (udpCh s) (ch_closed s) (alive s) (stats_Workers s)
                   (stats_UDPCount s) (loaded s) (dumped s) (received s) (taken s) (dead s))
  | LWake ok, Sleeping =>
      Some (mkService (phase s) Closing (stop s) (udpCh s) (ch_closed s) (alive s) (stats_Workers s)
              (stats_UDPCount s) (loaded s) (if sc_caches cfg then Some ok else None) (received s) (taken s)
              (dead s))
  | LClose, Closing =>
      if ch_closed s then Some (die Panicked s)
      else Some (mkService (phase s) StopReturned (stop s) (udpCh s) true (alive s) (stats_Workers s)
                   (stats_UDPCount s) (loaded s) (dumped s) (received s) (taken s) (dead s))
  | _, _ => None
  end.

(** A worker's select on the channel of datagrams. *)
Definition worker_step (l : label) (s : Service) : option Service :=
  match l, alive s, udpCh s with
  | LTake, S _, m :: q =>
      Some (mkService (phase s) (stopping s) (stop s) q (ch_closed s) (alive s) (stats_Workers s)
              (stats_UDPCount s) (loaded s) (dumped s) (received s) (taken s ++ [m]) (dead s))
  | LExit, S n, [] =>
      if ch_closed s
      then Some (mkService (phase s) (stopping s) (stop s) [] (ch_closed s) n (stats_Workers s)
                   (stats_UDPCount s) (loaded s) (dumped s) (received s) (taken s) (dead s))
      else None
  | _, _, _ => None
  end.

Definition step (l : label) (s : Service) : option Service :=
  match dead s with
  | Some _ => None
  | None =>
      match l with
      | LListen _ | LLoad | LTest | LRecv _ | LTimeout | LSend => run_step l s
      | LShutdown | LWake _ | LClose => shutdown_step l s
      | LTake | LExit => worker_step l s
      end
  end.

Local Abbreviation exec := (exec_with step).

(** [run] and [shutdown] have both returned: what [main] waits for. *)
Definition finished (s : Service) : bool :=
  match phase s, stopping s with Returned, StopReturned => true | _, _ => false end.

(** The datagram between the read and the send. *)
Definition pending (s : Service) : list msg :=
  match phase s with Sending m => [m] | _ => [] end.

(** ** The invariant *)

Definition reading (s : Service) : bool :=
  match phase s with Looping | Reading | Sending _ => true | _ => false end.

Record service_inv (s : Service) : Prop := {
  inv_order : received s = taken s ++ udpCh s ++ pending s;
  inv_cap : len (udpCh s) <= chan_cap;
  inv_count : stats_UDPCount s = uint64 (len (received s));
  inv_closed : ch_closed s = true -> stopping s = StopReturned /\ stop s = true;
  inv_stop : stopping s = Sleeping \/ stopping s = Closing -> stop s = true;
  inv_loaded : reading s = true \/ received s <> [] -> loaded s = true;
  inv_enabled : phase s <> Starting -> phase s <> Returned -> sc_enabled cfg = true;
  inv_dead : dead s = Some Panicked -> ch_closed s = true /\ pending s <> []
}.

Lemma service_inv_init : service_inv service_init.
Proof. split; cbn; try done; by intros [|]. Qed.

Lemma snoc_nonempty {A} (l : list A) x : l ++ [x] <> [].
Proof. by destruct l. Qed.

#[local] Hint Resolve snoc_nonempty : vflow.

(** A goal about a state built from one that satisfies the invariant. *)
Ltac inv_step :=
  match goal with H : service_inv _ |- _ => destruct H end;
  split; unfold pending, reading in *; cbn in *; simplify_eq; rewrite ?app_nil_r in *;
  repeat match goal with
  | |- _ -> _ => intro
  | H : _ \/ _ |- _ => destruct H
  end; eauto; try done; try (by intuition eauto with vflow); try congruence.

Lemma inv_run l s s' : dead s = None -> service_inv s -> run_step l s = Some s' -> service_inv s'.
Proof.
  intros Hd Hi. destruct s as [p st sp ch cl al w n ld du rc tk de]. cbn in Hd. subst de.
  unfold run_step, run_listen, run_load, run_recv, run_send. cbn.
  destruct l, p; try done.
  - destruct (sc_enabled cfg) eqn:Ee; cbn; [destruct ok|]; intros [= <-]; inv_step.
  - intros [= <-]. inv_step.
  - intros [= <-]. destruct sp; inv_step.
  - intros [= <-]. inv_step.
    + by rewrite <- app_assoc.
    + by rewrite (len_app _ [m]), wrapU_add_l.
  - intros [= <-]. inv_step.
  - destruct cl; [intros [= <-]; inv_step|]. case_test; [|done]. intros [= <-]. inv_step.
    rewrite len_app. change (len [m]) with 1. lia.
Qed.

Lemma inv_shutdown l s s' :
  dead s = None -> service_inv s -> shutdown_step l s = Some s' -> service_inv s'.
Proof.
  intros Hd Hi. destruct s as [p st sp ch cl al w n ld du rc tk de]. cbn in Hd. subst de.
  unfold shutdown_step. cbn. destruct l, st; try done.
  - destruct (_ && _); intros [= <-]; inv_step.
  - intros [= <-]. inv_step.
  - destruct cl; [|intros [= <-]; inv_step]. by destruct (inv_closed _ Hi eq_refl).
Qed.

Lemma inv_worker l s s' :
  dead s = None -> service_inv s -> worker_step l s = Some s' -> service_inv s'.
Proof.
  intros Hd Hi. destruct s as [p st sp ch cl al w n ld du rc tk de]. cbn in Hd. subst de.
  unfold worker_step. cbn. destruct l; try done; destruct al as [|al]; try done; destruct ch as [|m ch]; try done.
  - intros [= <-]. inv_step; [by rewrite <- app_assoc|]. rewrite len_cons in *. lia.
  - destruct cl; [|done]. intros [= <-]. inv_step.
Qed.

Lemma inv_step_ok l s s' : service_inv s -> step l s = Some s' -> service_inv s'.
Proof.
  intros Hi. unfold step. destruct (dead s) eqn:Hd; [done|].
  destruct l; eauto using inv_run, inv_shutdown, inv_worker.
Qed.

Lemma inv_exec ls s s' : service_inv s -> exec ls s = Some s' -> service_inv s'.
Proof. apply exec_with_inv, inv_step_ok. Qed.

(** The only step that panics is a send after the channel was closed. *)
Lemma panic_only_send l s s' :
  service_inv s -> step l s = Some s' -> dead s' = Some Panicked ->
  l = LSend /\ ch_closed s = true /\ pending s <> [].
Proof.
  intros Hi. unfold step. destruct (dead s) eqn:Hd; [done|]. destruct s as [p st sp ch cl al w n ld du rc tk de].
  cbn in *. subst de. unfold run_step, run_listen, run_send, shutdown_step, worker_step, pending. cbn.
  destruct l; repeat case_match; try done; intros [= <-]; cbn; try done.
  all: by destruct (inv_closed _ Hi eq_refl).
Qed.

Lemma returned_stays l s s' : phase s = Returned -> step l s = Some s' -> phase s' = Returned.
Proof.
  intros Hp. unfold step. destruct (dead s); [done|]. destruct s as [p st sp ch cl al w n ld du rc tk de].
  cbn in *. subst p. unfold shutdown_step, worker_step. cbn.
  destruct l; cbn; repeat case_match; try done; by intros [= <-].
Qed.

Lemma returned_never_panics ls s s' :
  service_inv s -> dead s <> Some Panicked -> phase s = Returned -> exec ls s = Some s' -> dead s' <> Some Panicked.
Proof.
  revert s. induction ls as [|l ls IH]; intros s Hi Hd Hp; cbn [exec_with]; [by intros [= <-]|].
  destruct (step l s) as [s1|] eqn:E; [|done]. intros H. apply (IH s1); [..|done].
  - eauto using inv_step_ok.
  - intros Hx. destruct (panic_only_send _ _ _ Hi E Hx) as (_ & _ & Hn). unfold pending in Hn. by rewrite Hp in Hn.
  - eauto using returned_stays.
Qed.

Lemma drain s :
  dead s = None -> alive s <> O -> exists s',
    exec (replicate (length (udpCh s)) LTake) s = Some s' /\ udpCh s' = [] /\
    taken s' = taken s ++ udpCh s /\ received s' = received s /\ pending s' = pending s.
Proof.
  intros Hd Ha. remember (udpCh s) as q eqn:Eq. revert s Hd Ha Eq.
  induction q as [|m q IH]; intros s Hd Ha Eq; cbn.
  { exists s. by rewrite app_nil_r. }
  unfold step. rewrite Hd. unfold worker_step. destruct (alive s) as [|n] eqn:Ea; [done|]. rewrite <- Eq.
  match goal with |- context [exec_with _ _ ?x] => destruct (IH x) as (s' & H1 & H2 & H3 & H4 & H5); [done|done|done|] end.
  exists s'. split_and!; [exact H1|done| |done|exact H5]. rewrite H3. cbn. by rewrite <- app_assoc.
Qed.

(** [Dump] has been called if there is a cache. *)
Definition dump_called (s : Service) : Prop := is_Some (dumped s) <-> sc_caches cfg = true.

(** How far [shutdown] is, and what it has done. *)
Definition stop_inv (s : Service) : Prop :=
  match stopping s with
  | NotCalled => stop s = false /\ ch_closed s = false /\ dumped s = None
  | Sleeping => stop s = true /\ ch_closed s = false
  | Closing => stop s = true /\ ch_closed s = false /\ dump_called s
  | StopReturned => sc_enabled cfg = true -> stop s = true /\ ch_closed s = true /\ dump_called s
  end.

Lemma stop_inv_step l s s' : stop_inv s -> step l s = Some s' -> stop_inv s'.
Proof.
  unfold step. destruct (dead s); [done|]. destruct s as [p st sp ch cl al w n ld du rc tk de].
  unfold stop_inv, dump_called, run_step, run_listen, run_load, run_recv, run_send, shutdown_step, worker_step. cbn.
  intros Hi. destruct l; repeat case_match; try done; intros [= <-]; subst; cbn in *; try done; try tauto.
  - intros He. match goal with H : _ && negb _ = true |- _ => by rewrite He, andb_false_r in H end.
  - destruct Hi. split_and!; try done.
  - destruct Hi. split_and!; try done.
Qed.

End service.

(** The states that sequences of steps of a collector reach. *)
Abbreviation exec cfg := (exec_with (step cfg)).

Arguments Phase : clear implicits.
Arguments Service : clear implicits.
Arguments label : clear implicits.

(** ** The three collectors *)

(** The goroutines of each, with the options it was built from. *)
Definition IPFIX_step {msg} (opts : Options) : label msg -> Service msg -> option (Service msg) :=
  step (NewIPFIX opts).
Definition NetflowV9_step {msg} (opts : Options) : label msg -> Service msg -> option (Service msg) :=
  step (NewNetflowV9 opts).
Definition SFlow_step {msg} (opts : Options) : label msg -> Service msg -> option (Service msg) :=
  step (NewSFlow opts).

(** [maxWorkers], and the supervisor of each collector's workers: the transition system of
    Workers.v with the collector's number of workers. *)
Definition maxWorkers (NumCPU : Z) : Z := NumCPU * 10000.

Definition IPFIX_dynWorkers (opts : Options) (NumCPU : Z) : PoolEvent -> Pool -> Pool -> Prop :=
  pool_step (sc_workers (NewIPFIX opts)) (maxWorkers NumCPU).
Definition NetflowV9_dynWorkers (opts : Options) (NumCPU : Z) : PoolEvent -> Pool -> Pool -> Prop :=
  pool_step (sc_workers (NewNetflowV9 opts)) (maxWorkers NumCPU).
Definition SFlow_dynWorkers (opts : Options) (NumCPU : Z) : PoolEvent -> Pool -> Pool -> Prop :=
  pool_step (sc_workers (NewSFlow opts)) (maxWorkers NumCPU).

(** [main]'s collectors, in its order. *)
Definition main_configs (opts : Options) : list ServiceConfig := [NewSFlow opts; NewIPFIX opts; NewNetflowV9 opts].

(** C22: For every interleaving of the reader, the workers and [shutdown], no datagram is
    lost, duplicated or reordered between the socket and the workers: what was read is what
    the workers took, then what is queued, then the one being sent.  The queue never holds
    more than 1000, [UDPCount] is the number read modulo 2^64, the template cache was loaded
    before the first datagram was read, and the process panics only in the send of a
    datagram on the closed channel. *)
Theorem service_conserves {msg} (cfg : ServiceConfig) (ls : list (label msg)) (s : Service msg) :
  exec cfg ls service_init = Some s ->
  received s = taken s ++ udpCh s ++ pending s /\ len (udpCh s) <= 1000 /\
  stats_UDPCount s = uint64 (len (received s)) /\
  (received s <> [] -> loaded s = true) /\
  (dead s = Some Panicked -> ch_closed s = true /\ exists m, phase s = Sending m).
Proof.
  intros H. apply (inv_exec cfg) in H; [|apply service_inv_init]. destruct H. split_and!; try done; auto.
  intros Hd. destruct (inv_dead0 Hd) as [Hc Hp]. split; [done|].
  unfold pending in Hp. destruct (phase s); try done. by eexists.
Qed.

(** A shutdown whose reader has returned.  No interleaving panics any more, and if a
    worker is alive the datagrams still queued can be taken, after which the workers have
    taken everything that was read. *)
Theorem shutdown_drains {msg} (cfg : ServiceConfig) (ls : list (label msg)) (s : Service msg) :
  exec cfg ls service_init = Some s -> dead s = None -> phase s = Returned -> alive s <> O ->
  (forall ls' s', exec cfg ls' s = Some s' -> dead s' <> Some Panicked) /\
  exists s', exec cfg (replicate (length (udpCh s)) LTake) s = Some s' /\
    udpCh s' = [] /\ taken s' = received s'.
Proof.
  intros H Hd Hp Ha. apply (inv_exec cfg) in H; [|apply service_inv_init]. split.
  - intros ls' s'. apply returned_never_panics; [done|by rewrite Hd|done].
  - destruct (drain cfg s Hd Ha) as (s' & H1 & H2 & H3 & H4 & _). exists s'. split_and!; [done|done|].
    rewrite H3, H4, (inv_order _ _ H). unfold pending. rewrite Hp. by rewrite app_nil_r.
Qed.

(** C24: A shutdown while the queue is full.  The reader waits in the send; when the workers
    take nothing for the second that [shutdown] sleeps, the templates are dumped, whether or
    not that succeeds the channel is closed under the reader, and the process panics instead
    of ending. *)
Theorem shutdown_full_panics {msg} (cfg : ServiceConfig) (ls : list (label msg)) (s : Service msg) (m : msg) :
  exec cfg ls service_init = Some s -> dead s = None -> phase s = Sending m -> stopping s = NotCalled ->
  len (udpCh s) = 1000 ->
  step cfg LSend s = None /\
  forall ok, exists s', exec cfg [LShutdown; LWake ok; LClose; LSend] s = Some s' /\
    dead s' = Some Panicked /\ dumped s' = if sc_caches cfg then Some ok else None.
Proof.
  intros H Hd Hp Hs Hf. apply (inv_exec cfg) in H; [|apply service_inv_init]. destruct H.
  assert (Hc : ch_closed s = false).
  { destruct (ch_closed s) eqn:E; [|done]. destruct (inv_closed0 eq_refl) as [Hx _]. by rewrite Hs in Hx. }
  assert (He : sc_enabled cfg = true) by (apply inv_enabled0; by rewrite Hp).
  destruct s as [p st sp ch cl al w n ld du rc tk de]. cbn in *. subst. split.
  - cbn. unfold run_send. cbn. by rewrite Hf.
  - intros ok. cbn. rewrite He, andb_false_r. cbn. eexists. split; [reflexivity|]. done.
Qed.

(** ** [main] *)

Section main.
Context {msg : Type} (cfgs : list ServiceConfig).

(** Whether a signal has been received, and the collectors. *)
Record Main : Type := mkMain { signalled : bool; protos : list (Service msg) }.

Inductive main_label : Type := MSignal | MProto (i : nat) (l : label msg).

Definition is_shutdown (l : label msg) : bool := match l with LShutdown => true | _ => false end.

(** Every collector's [run] is started; [shutdown] is called after the signal.  A panic or
    an exit in one goroutine ends them all. *)
Definition main_step (l : main_label) (st : Main) : option Main :=
  if existsb (fun s => bool_decide (is_Some (dead s))) (protos st) then None
  else match l with
  | MSignal => if signalled st then None else Some (mkMain true (protos st))
  | MProto i l =>
      if is_shutdown l && negb (signalled st) then None
      else match cfgs !! i, protos st !! i with
           | Some cfg, Some s =>
               match step cfg l s with
               | Some s' => Some (mkMain (signalled st) (<[i := s']> (protos st)))
               | None => None
               end
           | _, _ => None
           end
  end.

Definition main_exec : list main_label -> Main -> option Main := exec_with main_step.

Definition main_init : Main := mkMain false (map (fun _ => service_init) cfgs).

(** [wg.Wait()] returns. *)
Definition main_done (st : Main) : bool := signalled st && forallb finished (protos st).

Definition main_inv (st : Main) : Prop :=
  Forall2 (fun cfg s => service_inv cfg s /\ stop_inv cfg s /\ (signalled st = false -> stopping s = NotCalled))
    cfgs (protos st).

Lemma main_inv_init : main_inv main_init.
Proof.
  unfold main_inv, main_init. cbn. induction cfgs; cbn; constructor; [|done].
  split; [apply service_inv_init|done].
Qed.

Lemma stopping_step cfg l s s' :
  is_shutdown l = false -> stopping s = NotCalled -> step cfg l s = Some s' -> stopping s' = NotCalled.
Proof.
  unfold step. destruct (dead s); [done|]. destruct s as [p st sp ch cl al w n ld du rc tk de].
  unfold run_step, run_listen, run_load, run_recv, run_send, shutdown_step, worker_step. cbn.
  intros Hl Hs. destruct l; repeat case_match; try done; intros [= <-]; by subst.
Qed.

Lemma main_inv_step l st st' : main_inv st -> main_step l st = Some st' -> main_inv st'.
Proof.
  unfold main_inv, main_step. intros Hi. destruct (existsb _ _); [done|]. destruct l as [|i l].
  - destruct (signalled st); [done|]. intros [= <-]. cbn.
    eapply Forall2_impl; [exact Hi|]. cbn. intros ? ? (? & ? & ?). split; [done|]. by split.
  - destruct (is_shutdown l && _) eqn:El; [done|].
    destruct (cfgs !! i) as [cfg|] eqn:Ec; [|done]. destruct (protos st !! i) as [s|] eqn:Es; [|done].
    destruct (step cfg l s) as [s'|] eqn:E; [|done]. intros [= <-]. cbn.
    destruct (Forall2_lookup_lr _ _ _ _ _ _ Hi Ec Es) as (H1 & H2 & H3).
    rewrite <- (list_insert_id cfgs i cfg) by done. apply Forall2_insert; [done|].
    split; [by eapply inv_step_ok|]. split; [by eapply stop_inv_step|]. intros Hg.
    rewrite Hg, andb_true_r in El. by eapply stopping_step; [|apply H3|].
Qed.

Lemma main_inv_exec ls st st' : main_inv st -> main_exec ls st = Some st' -> main_inv st'.
Proof. apply exec_with_inv, main_inv_step. Qed.

(** C23: The whole process.  Before the signal no collector has been told to stop, none has
    closed its channel or dumped its templates.  When [main] returns there was a signal, and
    every enabled collector has stopped reading, closed its channel and called [Dump] if it
    has a template cache, with whatever result: a [Dump] that failed was only logged.  What
    the collector read is what its workers took and what is left in its queue, which is lost
    with the process. *)
Theorem main_stops (ls : list main_label) (st : Main) :
  main_exec ls main_init = Some st ->
  (signalled st = false ->
   Forall (fun s => stop s = false /\ ch_closed s = false /\ dumped s = None) (protos st)) /\
  (main_done st = true ->
   signalled st = true /\
   Forall2 (fun cfg s => sc_enabled cfg = true ->
     stop s = true /\ ch_closed s = true /\ (is_Some (dumped s) <-> sc_caches cfg = true) /\
     received s = taken s ++ udpCh s) cfgs (protos st)).
Proof.
  intros H. apply main_inv_exec in H; [|apply main_inv_init]. split.
  - intros Hs. eapply Forall2_Forall_r; [exact H|]. apply Forall_forall. intros cfg _ s (_ & H2 & H3).
    unfold stop_inv in H2. by rewrite (H3 Hs) in H2.
  - intros Hd. unfold main_done in Hd. apply andb_true_iff in Hd as [Hs Hf]. split; [done|].
    apply Forall2_same_length_lookup. split; [by eapply Forall2_length|].
    intros i cfg s Hc Hp He. destruct (Forall2_lookup_lr _ _ _ _ _ _ H Hc Hp) as (H1 & H2 & _).
    assert (finished s = true) as Hfin.
    { apply (proj1 (forallb_forall _ _) Hf). by eapply list_elem_of_In, list_elem_of_lookup_2. }
    unfold finished in Hfin. destruct (phase s) eqn:Ep; try done. destruct (stopping s) eqn:Est; try done.
    unfold stop_inv in H2. rewrite Est in H2. destruct (H2 He) as (? & ? & ?). split_and!; try done.
    rewrite (inv_order _ _ H1). unfold pending. rewrite Ep. by rewrite app_nil_r.
Qed.
End main.

(** ** Examples *)

Definition example_cfg : ServiceConfig := mkServiceConfig 4739 EmptyString 2 true true true.

(** [n] datagrams are read while the workers take none. *)
Definition flood (n : nat) : list (label nat) :=
  LListen true :: LLoad :: concat (replicate n [LTest; LRecv 0%nat; LSend]).

Lemma exec_flood n :
  (n <= 1000)%nat ->
  exists s, exec example_cfg (flood n) service_init = Some s /\ phase s = Looping /\
    stopping s = NotCalled /\ dead s = None /\ stop s = false /\ ch_closed s = false /\
    len (udpCh s) = Z.of_nat n.
Proof.
  induction n as [|n IH]; intros Hn; [by eexists|].
  destruct IH as (s & E & Hp & Hs & Hd & Hst & Hc & Hl); [lia|].
  assert (Hf : flood (S n) = flood n ++ [LTest; LRecv 0%nat; LSend]).
  { unfold flood. rewrite replicate_S_end, concat_app. cbn. by rewrite ?app_nil_r. }
  rewrite Hf, exec_with_app, E. cbn [exec_with]. unfold step. rewrite Hd. unfold run_step. rewrite Hp, Hst. cbn. rewrite Hd.
  cbn. rewrite Hd. unfold run_send. cbn. rewrite Hc, Hl. unfold chan_cap. case_test; [|lia].
  eexists. split; [reflexivity|]. cbn. rewrite len_app, Hl. change (len [0%nat]) with 1. split_and!; try done. lia.
Qed.

Definition result (ls : list (label nat)) : Service nat :=
  default service_init (exec example_cfg ls service_init).

Definition trace_read : list (label nat) := flood 2 ++ [LTake; LTest; LRecv 5%nat].
Definition trace_stop : list (label nat) := flood 2 ++ [LShutdown; LTest; LWake true; LClose].

Lemma exec_trace_read : exec example_cfg trace_read service_init = Some (result trace_read).
Proof. vm_compute. reflexivity. Qed.

Lemma exec_trace_stop : exec example_cfg trace_stop service_init = Some (result trace_stop).
Proof. vm_compute. reflexivity. Qed.

Lemma service_conserves_witness :
  taken (result trace_read) = [0%nat] /\ udpCh (result trace_read) = [0%nat] /\
  received (result trace_read) =
    taken (result trace_read) ++ udpCh (result trace_read) ++ pending (result trace_read).
Proof.
  split; [reflexivity|]. split; [reflexivity|].
  apply (service_conserves example_cfg trace_read (result trace_read) exec_trace_read).
Defined.

Lemma shutdown_drains_witness :
  finished (result trace_stop) = true /\ len (udpCh (result trace_stop)) = 2 /\
  exists s', exec example_cfg (replicate (length (udpCh (result trace_stop))) LTake)
               (result trace_stop) = Some s' /\ taken s' = received s'.
Proof.
  destruct (shutdown_drains example_cfg trace_stop (result trace_stop) exec_trace_stop)
    as (_ & s' & H1 & _ & H3); [reflexivity|reflexivity|vm_compute; lia|].
  split; [reflexivity|]. split; [reflexivity|]. exists s'. split; [exact H1|exact H3].
Defined.

(** [main] may return with datagrams in the queue: the state of the previous example is
    one in which [run] and [shutdown] have returned. *)
Lemma shutdown_full_panics_witness :
  exists s s', exec example_cfg (flood 1000 ++ [LTest; LRecv 7%nat]) service_init = Some s /\
    exec example_cfg [LShutdown; LWake false; LClose; LSend] s = Some s' /\ dead s' = Some Panicked.
Proof.
  destruct (exec_flood 1000) as (s & E & Hp & Hs & Hd & Hst & Hc & Hl); [lia|].
  assert (Ex : exec example_cfg (flood 1000 ++ [LTest; LRecv 7%nat]) service_init =
               Some (run_recv 7%nat (with_phase Reading s))).
  { rewrite exec_with_app, E. cbn [exec_with]. unfold step. rewrite Hd. unfold run_step. rewrite Hp, Hst. cbn. by rewrite Hd. }
  destruct (shutdown_full_panics example_cfg _ _ 7%nat Ex) as [_ H]; [done|done|done|done|].
  destruct (H false) as (s' & H1 & H2 & _).
  exists (run_recv 7%nat (with_phase Reading s)), s'. split; [exact Ex|]. split; [exact H1|exact H2].
Defined.

Definition main_trace : list (main_label (msg:=nat)) :=
  [MProto 0 (LListen true); MProto 0 LLoad; MProto 0 LTest; MProto 0 (LRecv 3%nat); MProto 0 LSend;
   MSignal; MProto 0 LShutdown; MProto 0 LTest; MProto 0 (LWake false); MProto 0 LClose].

Definition main_result : Main (msg:=nat) :=
  default (main_init [example_cfg]) (main_exec [example_cfg] main_trace (main_init [example_cfg])).

Lemma exec_main_trace :
  main_exec [example_cfg] main_trace (main_init [example_cfg]) = Some main_result.
Proof. vm_compute. reflexivity. Qed.

Lemma main_stops_witness :
  main_done main_result = true /\ signalled main_result = true /\
  map udpCh (protos main_result) = [[3%nat]] /\ map dumped (protos main_result) = [Some false].
Proof.
  destruct (main_stops [example_cfg] main_trace main_result exec_main_trace) as [_ H].
  split; [reflexivity|]. split; [apply H; reflexivity|]. split; reflexivity.
Defined.
