(* ===== verification/Dispatcher.v ===== *)
(** The IPFIX mirror's dispatcher, [mirrorIPFIXDispatcher] of [src/vflow/ipfix_unix.go],
    and the raw sockets of [src/mirror/mirror.go] its workers send with.

    The collector's workers put copies of datagrams in [ch] (dropping them when it is
    full); the dispatcher moves them to [ch4] or [ch6] by the family of their exporter, and
    the mirror workers, all on the channel of the destination's family, send them.  The
    goroutines interleave as sequences of labels, as in Lifecycle.v; what a mirror worker
    does with a datagram is [mirrorIPFIX] of Mirror.v. *)

From S2P Require Import Prelude GoNet Mirror Collector.

Open Scope Z_scope.

(** ** Raw sockets *)

(** The address given to the system calls. *)
Inductive Sockaddr : Type := NilSockaddr | SockaddrInet4 (addr : list byte) | SockaddrInet6 (addr : list byte).

(** The values of [AF_INET], [AF_INET6], [SOCK_RAW] and [IPPROTO_RAW]; 0 is the zero value. *)
Inductive Family : Type := AF_ZERO | AF_INET | AF_INET6.

Record Conn : Type := mkConn { family : Family; fd : Z; conn_raddr : Sockaddr }.

(** [net.IP.To16]. *)
Definition To16 (ip : list byte) : option (list byte) :=
  if (length ip =? 4)%nat then Some (replicate 10 x00 ++ [xff; xff] ++ ip)
  else if (length ip =? 16)%nat then Some ip
  else None.

Section sockets.
(** The system calls: [socket] gives a descriptor or fails. *)
Context (Socket : Family -> option Z) (Sendto : Z -> list byte -> Sockaddr -> bool) (Close : Z -> bool).

Definition NewRawConn (raddr : list byte) : Conn * bool :=
  let '(family, addr) :=
    match To4 raddr with
    | Some ipv4 => (AF_INET, SockaddrInet4 ipv4)
    | None => match To16 raddr with
              | Some ipv6 => (AF_INET6, SockaddrInet6 ipv6)
              | None => (AF_ZERO, NilSockaddr)
              end
    end in
  match Socket family with
  | Some fd => (mkConn family fd addr, true)
  | None => (mkConn family (-1) addr, false)
  end.

Definition Conn_Send (c : Conn) (b : list byte) : bool := Sendto (fd c) b (conn_raddr c).

Definition Conn_Close (c : Conn) (b : list byte) : bool := Close (fd c).
End sockets.

(** ** The dispatcher *)

Section dispatcher.
(** [net.ParseIP(opts.IPFIXMirrorAddr)], and [opts.IPFIXMirrorWorkers]. *)
Context (dst : list byte) (workers : nat).

Definition is4 (ip : list byte) : bool := bool_decide (is_Some (To4 ip)).

Record Dispatcher : Type := mkDispatcher {
  d_ch : list IPFIXUDPMsg;          (* ipfixMCh *)
  d_ch4 : list IPFIXUDPMsg;
  d_ch6 : list IPFIXUDPMsg;
  d_msg : option IPFIXUDPMsg;       (* received, not yet passed on *)
  d_alive : nat;                    (* mirror workers that have not returned *)
  d_dispatched : list IPFIXUDPMsg;  (* received from [ch] *)
  d_mirrored : list IPFIXUDPMsg     (* taken by the mirror workers *)
}.

(** The state when [ipfixMirrorEnabled] is set. *)
Definition dispatcher_init : Dispatcher := mkDispatcher [] [] [] None workers [] [].

Inductive dlabel : Type :=
| DCopy (m : IPFIXUDPMsg)   (* a worker of the collector offers a copy *)
| DRecv                     (* [msg = <-ch] *)
| DPut                      (* [ch4 <- msg] or [ch6 <- msg] *)
| DMirror (ok : bool).      (* a mirror worker takes a datagram and sends it *)

Definition dispatch (m : IPFIXUDPMsg) (s : Dispatcher) : option Dispatcher :=
  if is4 (um_raddr m) then
    if len (d_ch4 s) <? chan_cap
    then Some (mkDispatcher (d_ch s) (d_ch4 s ++ [m]) (d_ch6 s) None (d_alive s) (d_dispatched s) (d_mirrored s))
    else None
  else
    if len (d_ch6 s) <? chan_cap
    then Some (mkDispatcher (d_ch s) (d_ch4 s) (d_ch6 s ++ [m]) None (d_alive s) (d_dispatched s) (d_mirrored s))
    else None.

(** The channel of the workers; a worker whose send fails returns. *)
Definition mirror_take (ok : bool) (s : Dispatcher) : option Dispatcher :=
  match d_alive s with
  | O => None
  | S n =>
      let alive := if ok then S n else n in
      if is4 dst then
        match d_ch4 s with
        | m :: q => Some (mkDispatcher (d_ch s) q (d_ch6 s) (d_msg s) alive (d_dispatched s) (d_mirrored s ++ [m]))
        | [] => None
        end
      else
        match d_ch6 s with
        | m :: q => Some (mkDispatcher (d_ch s) (d_ch4 s) q (d_msg s) alive (d_dispatched s) (d_mirrored s ++ [m]))
        | [] => None
        end
  end.

Definition dstep (l : dlabel) (s : Dispatcher) : option Dispatcher :=
  match l, d_msg s, d_ch s with
  | DCopy m, _, _ =>
      Some (mkDispatcher (try_send m (d_ch s)) (d_ch4 s) (d_ch6 s) (d_msg s) (d_alive s) (d_dispatched s)
              (d_mirrored s))
  | DRecv, None, m :: q =>
      Some (mkDispatcher q (d_ch4 s) (d_ch6 s) (Some m) (d_alive s) (d_dispatched s ++ [m]) (d_mirrored s))
  | DPut, Some m, _ => dispatch m s
  | DMirror ok, _, _ => mirror_take ok s
  | _, _, _ => None
  end.

(** The datagrams of the destination's family, and the others. *)
Definition same_family (m : IPFIXUDPMsg) : bool := Bool.eqb (is4 (um_raddr m)) (is4 dst).
Definition own_ch (s : Dispatcher) : list IPFIXUDPMsg := if is4 dst then d_ch4 s else d_ch6 s.
Definition other_ch (s : Dispatcher) : list IPFIXUDPMsg := if is4 dst then d_ch6 s else d_ch4 s.
Definition held (s : Dispatcher) : list IPFIXUDPMsg := match d_msg s with Some m => [m] | None => [] end.

Record dispatcher_inv (s : Dispatcher) : Prop := {
  dinv_own : List.filter same_family (d_dispatched s) =
             d_mirrored s ++ own_ch s ++ List.filter same_family (held s);
  dinv_other : List.filter (fun m => negb (same_family m)) (d_dispatched s) =
               other_ch s ++ List.filter (fun m => negb (same_family m)) (held s);
  dinv_cap : len (d_ch s) <= chan_cap /\ len (d_ch4 s) <= chan_cap /\ len (d_ch6 s) <= chan_cap
}.

Lemma dispatcher_inv_init : dispatcher_inv dispatcher_init.
Proof. unfold dispatcher_init. split; unfold own_ch, other_ch; by destruct (is4 dst). Qed.

Lemma dispatcher_inv_step l s s' : dispatcher_inv s -> dstep l s = Some s' -> dispatcher_inv s'.
Proof.
  intros [H1 H2 (H3 & H4 & H5)]. destruct s as [ch ch4 ch6 m al dp mi].
  unfold dstep, dispatch, mirror_take, own_ch, other_ch, held in *. cbn in *.
  destruct l as [x| | |ok].
  - intros [= <-]. split; [done|done|]. cbn. split; [by apply len_try_send|done].
  - destruct m as [m|]; [done|]. destruct ch as [|x ch]; [done|]. intros [= <-].
    rewrite len_cons in H3. split; cbn; [| |split; [lia|done]].
    + by rewrite List.filter_app, H1, app_nil_r, <- app_assoc.
    + by rewrite List.filter_app, H2, app_nil_r.
  - destruct m as [m|]; [|done]. assert (Hs : same_family m = Bool.eqb (is4 (um_raddr m)) (is4 dst)) by done.
    cbn in H1, H2. rewrite Hs in H1, H2. unfold chan_cap in *.
    destruct (is4 (um_raddr m)), (is4 dst) eqn:Ed; cbn in H1, H2; (case_test; [|done]); intros [= <-];
      (split; unfold own_ch, other_ch, held, chan_cap; rewrite ?Ed; cbn; rewrite ?app_nil_r in *; try done;
       rewrite len_app; change (len [m]) with 1; lia).
  - destruct al as [|al]; [done|].
    destruct (is4 dst) eqn:Ed; [destruct ch4 as [|x q]|destruct ch6 as [|x q]]; try done; intros [= <-];
      (rewrite ?len_cons in *; split; unfold own_ch, other_ch, held; rewrite ?Ed; cbn; try done;
       [by rewrite <- app_assoc|lia]).
Qed.

(** The state in which nothing is dispatched any more. *)
Definition stalled (s : Dispatcher) : Prop :=
  (exists m, d_msg s = Some m /\ same_family m = false) /\ len (other_ch s) = chan_cap.

Lemma stalled_step l s s' : stalled s -> dstep l s = Some s' -> stalled s' /\ d_dispatched s' = d_dispatched s.
Proof.
  intros [(m & Hm & Hf) Hl]. destruct s as [ch ch4 ch6 mo al dp mi]. cbn in Hm. subst mo.
  unfold stalled, dstep, dispatch, mirror_take, other_ch, same_family in *. cbn in *.
  destruct l as [x| | |ok]; [intros [= <-]; by eauto|done| |].
  - destruct (is4 (um_raddr m)), (is4 dst); cbn in *; try done; case_test; try done; lia.
  - destruct al; [done|]. destruct (is4 dst); repeat case_match; try done; intros [= <-]; by eauto.
Qed.

Lemma dispatcher_inv_exec ls s : exec_with dstep ls dispatcher_init = Some s -> dispatcher_inv s.
Proof. apply (exec_with_inv dstep dispatcher_inv dispatcher_inv_step), dispatcher_inv_init. Qed.

End dispatcher.

(** Every interleaving of the collector's workers, the dispatcher and the mirror
    workers keeps the datagrams of the destination's family in order and complete: what was
    dispatched is what the mirror workers took, then what is queued, then the one in the
    dispatcher's hands.  The datagrams of the other family reach no worker; they stay in
    their channel.  No channel exceeds 1000. *)
Theorem dispatcher_conserves (dst : list byte) (workers : nat) (ls : list dlabel) (s : Dispatcher) :
  exec_with (dstep dst) ls (dispatcher_init workers) = Some s ->
  List.filter (same_family dst) (d_dispatched s) =
    d_mirrored s ++ own_ch dst s ++ List.filter (same_family dst) (held s) /\
  List.filter (fun m => negb (same_family dst m)) (d_dispatched s) =
    other_ch dst s ++ List.filter (fun m => negb (same_family dst m)) (held s) /\
  len (d_ch s) <= 1000 /\ len (d_ch4 s) <= 1000 /\ len (d_ch6 s) <= 1000.
Proof.
  intros H. destruct (dispatcher_inv_exec _ _ _ _ H). by split_and!; try apply dinv_cap0.
Qed.

(** C38: The mirror stops after 1001 datagrams of the other family.  No interleaving
    dispatches more of them, and once that many have been dispatched nothing is dispatched
    any more, of either family. *)
Theorem dispatcher_stalls (dst : list byte) (workers : nat) (ls : list dlabel) (s : Dispatcher) :
  exec_with (dstep dst) ls (dispatcher_init workers) = Some s ->
  let others := len (List.filter (fun m => negb (same_family dst m)) (d_dispatched s)) in
  others <= 1001 /\
  (others = 1001 -> forall ls' s', exec_with (dstep dst) ls' s = Some s' -> d_dispatched s' = d_dispatched s).
Proof.
  intros H. apply dispatcher_inv_exec in H. destruct H as [_ H2 (_ & H4 & H5)]. cbn zeta. rewrite H2, len_app.
  assert (len (other_ch dst s) <= 1000) by (unfold other_ch; by destruct (is4 dst)).
  unfold held. destruct (d_msg s) as [m|] eqn:Em; cbn [List.filter].
  2: { change (len []) with 0. split; [lia|]. intros. lia. }
  destruct (same_family dst m) eqn:Es; cbn [negb].
  { change (len []) with 0. split; [lia|]. intros. lia. }
  change (len [m]) with 1. split; [lia|]. intros Hl ls' s' He.
  assert (Hst : stalled dst s) by (split; [by exists m|unfold chan_cap; lia]).
  eapply (exec_with_inv (dstep dst) (fun x => stalled dst x /\ d_dispatched x = d_dispatched s)) in He;
    [apply He| |done].
  intros l x x' [Hx Hd] E. destruct (stalled_step _ _ _ _ Hx E) as [? ->]. by split.
Qed.

(** A mirror to an IPv4 address, and IPv6 exporters. *)
Definition example_dst4 : list byte := bytes [192; 0; 2; 9].
Definition from6 : IPFIXUDPMsg := mkUDPMsg (bytes [32; 1; 13; 184; 0; 0; 0; 0; 0; 0; 0; 0; 0; 0; 0; 1]) [].
Definition from4 : IPFIXUDPMsg := mkUDPMsg (bytes [198; 51; 100; 4]) [].

Definition flood6 (n : nat) : list dlabel := concat (replicate n [DCopy from6; DRecv; DPut]).

Lemma exec_flood6 n :
  (n <= 1000)%nat ->
  exec_with (dstep example_dst4) (flood6 n) (dispatcher_init 1) =
  Some (mkDispatcher [] [] (replicate n from6) None 1 (replicate n from6) []).
Proof.
  induction n as [|n IH]; intros Hn; [done|].
  assert (Hf : flood6 (S n) = flood6 n ++ [DCopy from6; DRecv; DPut]).
  { unfold flood6. rewrite replicate_S_end, concat_app. cbn. by rewrite ?app_nil_r. }
  rewrite Hf, exec_with_app, IH by lia. rewrite replicate_S_end. cbn. unfold dispatch.
  change (try_send from6 []) with [from6]. cbn. replace (is4 _) with false by reflexivity.
  rewrite len_replicate. unfold chan_cap. case_test; [done|lia].
Qed.

Lemma dispatcher_conserves_witness :
  exists s, exec_with (dstep example_dst4) [DCopy from4; DCopy from6; DRecv; DPut; DMirror true; DRecv]
              (dispatcher_init 1) = Some s /\
    d_mirrored s = [from4] /\ List.filter (same_family example_dst4) (d_dispatched s) = [from4].
Proof.
  eexists. split; [reflexivity|]. split; [reflexivity|].
  apply (dispatcher_conserves example_dst4 1 [DCopy from4; DCopy from6; DRecv; DPut; DMirror true; DRecv]).
  reflexivity.
Defined.

Lemma dispatcher_stalls_witness :
  exists s, exec_with (dstep example_dst4) (flood6 1000 ++ [DCopy from6; DRecv; DCopy from4])
              (dispatcher_init 1) = Some s /\ d_ch s = [from4] /\
    forall ls' s', exec_with (dstep example_dst4) ls' s = Some s' -> d_dispatched s' = d_dispatched s.
Proof.
  pose (s := mkDispatcher [from4] [] (replicate 1000 from6) (Some from6) 1 (replicate 1000 from6 ++ [from6]) []).
  assert (E : exec_with (dstep example_dst4) (flood6 1000 ++ [DCopy from6; DRecv; DCopy from4])
                (dispatcher_init 1) = Some s).
  { rewrite exec_with_app, exec_flood6 by lia. reflexivity. }
  exists s. split; [exact E|]. split; [reflexivity|].
  apply (dispatcher_stalls example_dst4 1 _ s E). vm_compute. reflexivity.
Defined.
