(* ===== verification/Buffers.v ===== *)
(** The buffers of the collectors: the [sync.Pool]s [ipfixBuffer], [netflowV9Buffer] and
    [sFlowBuffer] of [src/vflow/ipfix.go], [netflow_v9.go] and [sflow.go], from which the
    read loop takes the array a datagram is read into, and to which the workers and the
    mirror's senders hand it back.

    A message of the channels is a slice of such an array, so the goroutines share memory:
    a datagram that is read into an array which somebody still looks at would change under
    its reader.  The goroutines are modelled once, over an interface [Memory] of what they
    do with buffers; one instance is the heap of arrays with the pool, the other has no
    arrays at all: there a message carries its bytes.  That the second describes what the
    first does is shown in BufferFacts.v; it is what the files that model the workers on byte
    lists rest on. *)

From S2P Require Import Prelude GoNet Packet Mirror Collector Options Dispatcher Totals.

Open Scope Z_scope.

#[local] Arguments total : simpl never.

(** ** What is done with buffers *)

(** What [sync.Pool.Get] does is up to the pool: it gives any buffer that was put, or calls
    [New] even when it has some. *)
Inductive Choice : Type := New | Pooled (k : nat).

(** [Raw] is a buffer whose contents do not matter, [Body] one that holds a datagram. *)
Class Memory (Mem Raw Body : Type) : Type := {
  pool_Get : Choice -> Mem -> option (Mem * Raw);
  (* [Put(b[:size])]; [None] is the panic of the slice expression *)
  pool_Put : Raw -> Mem -> option Mem;
  (* the collector of garbage drops what is in a pool *)
  pool_drop : nat -> Mem -> option Mem;
  (* [n, _, _ := conn.ReadFromUDP(b)] and [b[:n]] *)
  read_into : Raw -> list byte -> Mem -> Mem * Body;
  (* [append(b[:0], body...)] *)
  append_to : Raw -> Body -> Mem -> Mem * Body;
  body_bytes : Mem -> Body -> list byte;
  body_raw : Body -> Raw
}.

Record UDPMsg (B : Type) : Type := mkUDPMsg { raddr : list byte; body : B }.
Arguments mkUDPMsg {B} raddr body.
Arguments raddr {B} u.
Arguments body {B} u.

(** ** Where the goroutines are *)

(** The read loop: before [for !i.stop], after [Get], and with a message to send. *)
Inductive ReadLoop (R B : Type) : Type :=
| RTest
| RHas (b : R)
| RFull (m : UDPMsg B)
| RReturned.
Arguments RTest {R B}. Arguments RHas {R B} b. Arguments RFull {R B} m. Arguments RReturned {R B}.

(** A worker: before the [Get] of its first lines; with a buffer to put; at the [select];
    with a message; with a buffer for the mirror; with the copy in it; decoding and
    marshalling, with the bytes it has looked at and where. *)
Inductive Worker (R B : Type) : Type :=
| WStart
| WTop (b : R)
| WWait
| WGot (m : UDPMsg B)
| WMirror (m : UDPMsg B) (b : R)
| WMirrored (m mirror : UDPMsg B)
| WDecode (m : UDPMsg B) (seen : list (nat * byte))
| WReturned.
Arguments WStart {R B}. Arguments WTop {R B} b. Arguments WWait {R B}. Arguments WGot {R B} m.
Arguments WMirror {R B} m b. Arguments WMirrored {R B} m mirror. Arguments WDecode {R B} m seen.
Arguments WReturned {R B}.

(** A sender of the mirror: before [NewRawConn]; at [<-ch]; with a message; with the message copied into
    [packet]; with the buffer handed back. *)
Inductive Sender (B : Type) : Type :=
| SStart
| SIdle
| SHave (m : UDPMsg B)
| SCopied (m : UDPMsg B) (pLen : Z) (payload : list byte)
| SSend (raddr : list byte) (pLen : Z) (payload : list byte)
| SReturned.
Arguments SStart {B}. Arguments SIdle {B}. Arguments SHave {B} m. Arguments SCopied {B} m pLen payload.
Arguments SSend {B} raddr pLen payload. Arguments SReturned {B}.

(** What was done with a datagram: its exporter, its bytes, the bytes the worker saw. *)
Record Decoded : Type := mkDecoded { de_raddr : list byte; de_bytes : list byte; de_seen : list (nat * byte) }.

Record State (Mem R B : Type) : Type := mkState {
  st_mem : Mem;
  st_read : ReadLoop R B;
  st_stop : bool;                     (* i.stop *)
  st_closed : bool;                   (* close(ipfixUDPCh) *)
  st_UDPCh : list (UDPMsg B);
  st_workers : list (Worker R B);
  st_mirror : bool;                   (* ipfixMirrorEnabled *)
  st_MCh : list (UDPMsg B);
  st_held : option (UDPMsg B);        (* the dispatcher's msg *)
  st_ch4 : list (UDPMsg B);
  st_ch6 : list (UDPMsg B);
  st_senders : list (Sender B);
  st_received : list (list byte * list byte);   (* what ReadFromUDP gave *)
  st_decoded : list Decoded;
  st_sent : list (list byte * list byte)        (* what was mirrored *)
}.
Arguments mkState {Mem R B}.
Arguments st_mem {Mem R B} s. Arguments st_read {Mem R B} s. Arguments st_stop {Mem R B} s.
Arguments st_closed {Mem R B} s. Arguments st_UDPCh {Mem R B} s. Arguments st_workers {Mem R B} s.
Arguments st_mirror {Mem R B} s. Arguments st_MCh {Mem R B} s. Arguments st_held {Mem R B} s.
Arguments st_ch4 {Mem R B} s. Arguments st_ch6 {Mem R B} s. Arguments st_senders {Mem R B} s.
Arguments st_received {Mem R B} s. Arguments st_decoded {Mem R B} s. Arguments st_sent {Mem R B} s.

(** A step ends in a state or takes the process down: [b[:size]] out of range, a send on
    the closed channel, [packet] too short for the headers and the datagram, a panic of the
    decoder (the sFlow decoder has some: Packet.v, SFlowProps.v). *)
Inductive Crash : Type := SliceBounds | ClosedChannel | ShortPacket | DecodePanic.
Inductive Outcome (S : Type) : Type := Running (s : S) | Crashed (c : Crash).
Arguments Running {S} s. Arguments Crashed {S} c.

Inductive blabel : Type :=
(* shutdown *)
| BStop | BClose
(* run *)
| BGet (c : Choice) | BReturn | BReadErr | BRead (raddr data : list byte) | BSend
(* the workers: started by run or dynWorkers, and their loop *)
| BSpawn | BStart (w : nat) (c : Choice) | BPut (w : nat) | BTake (w : nat) | BQuit (w : nat) | BClosed (w : nat)
| BSkip (w : nat) | BMirror (w : nat) (c : Choice) | BCopy (w : nat) | BOffer (w : nat)
| BLook (w i : nat) | BDone (w : nat) | BPanic (w : nat)
(* the pool *)
| BDrop (k : nat)
(* mirrorIPFIXDispatcher and mirrorIPFIX *)
| BEnable | BRecv | BDispatch
| BSDial (k : nat) (ok : bool) | BSTake (k : nat) | BSCopy (k : nat) | BSPut (k : nat) | BSSend (k : nat) (ok : bool).

(** What the collectors differ in: [opts.IPFIXUDPSize] and its siblings; whether a worker
    takes a buffer before its loop; whether there is a mirror, the address it sends to and
    the number of its senders. *)
Record Setup : Type := mkSetup {
  su_size : nat; su_initial : bool; su_mirror : bool; su_dst : list byte; su_senders : nat
}.

(** ** Steps *)

Section updates.
Context {Mem R B : Type}.
Implicit Type s : State Mem R B.

Definition with_mem (m : Mem) s : State Mem R B :=
  mkState m (st_read s) (st_stop s) (st_closed s) (st_UDPCh s) (st_workers s) (st_mirror s) (st_MCh s) (st_held s)
    (st_ch4 s) (st_ch6 s) (st_senders s) (st_received s) (st_decoded s) (st_sent s).
Definition with_read (r : ReadLoop R B) s : State Mem R B :=
  mkState (st_mem s) r (st_stop s) (st_closed s) (st_UDPCh s) (st_workers s) (st_mirror s) (st_MCh s) (st_held s)
    (st_ch4 s) (st_ch6 s) (st_senders s) (st_received s) (st_decoded s) (st_sent s).
Definition with_flags (stop closed mirror : bool) s : State Mem R B :=
  mkState (st_mem s) (st_read s) stop closed (st_UDPCh s) (st_workers s) mirror (st_MCh s) (st_held s)
    (st_ch4 s) (st_ch6 s) (st_senders s) (st_received s) (st_decoded s) (st_sent s).
Definition with_UDPCh (q : list (UDPMsg B)) s : State Mem R B :=
  mkState (st_mem s) (st_read s) (st_stop s) (st_closed s) q (st_workers s) (st_mirror s) (st_MCh s) (st_held s)
    (st_ch4 s) (st_ch6 s) (st_senders s) (st_received s) (st_decoded s) (st_sent s).
Definition with_workers (ws : list (Worker R B)) s : State Mem R B :=
  mkState (st_mem s) (st_read s) (st_stop s) (st_closed s) (st_UDPCh s) ws (st_mirror s) (st_MCh s) (st_held s)
    (st_ch4 s) (st_ch6 s) (st_senders s) (st_received s) (st_decoded s) (st_sent s).
Definition with_channels (mch : list (UDPMsg B)) (held : option (UDPMsg B)) (ch4 ch6 : list (UDPMsg B)) s :
    State Mem R B :=
  mkState (st_mem s) (st_read s) (st_stop s) (st_closed s) (st_UDPCh s) (st_workers s) (st_mirror s) mch held
    ch4 ch6 (st_senders s) (st_received s) (st_decoded s) (st_sent s).
Definition with_senders (ms : list (Sender B)) s : State Mem R B :=
  mkState (st_mem s) (st_read s) (st_stop s) (st_closed s) (st_UDPCh s) (st_workers s) (st_mirror s) (st_MCh s)
    (st_held s) (st_ch4 s) (st_ch6 s) ms (st_received s) (st_decoded s) (st_sent s).
Definition with_history received decoded sent s : State Mem R B :=
  mkState (st_mem s) (st_read s) (st_stop s) (st_closed s) (st_UDPCh s) (st_workers s) (st_mirror s) (st_MCh s)
    (st_held s) (st_ch4 s) (st_ch6 s) (st_senders s) received decoded sent.

Definition with_worker (w : nat) (ph : Worker R B) s : State Mem R B := with_workers (<[w := ph]> (st_workers s)) s.
Definition with_sender (k : nat) (ph : Sender B) s : State Mem R B := with_senders (<[k := ph]> (st_senders s)) s.
End updates.

Section steps.
Context {Mem R B : Type} `{Memory Mem R B} (su : Setup).
Implicit Type s : State Mem R B.

(** [mirror.IPv4HLen] or [mirror.IPv6HLen]. *)
Definition ipHLen : Z := if is4 (su_dst su) then IPv4HLen else IPv6HLen.
Definition UDPSize : Z := Z.of_nat (su_size su).

Definition state_init (m : Mem) : State Mem R B :=
  mkState m RTest false false [] [] false [] None [] []
    (if su_mirror su then replicate (su_senders su) SStart else []) [] [] [].

(** [run], and the two writes of [shutdown] the other goroutines see. *)
Definition read_step (l : blabel) s : option (Outcome (State Mem R B)) :=
  match l, st_read s with
  | BStop, _ => Some (Running (with_flags true (st_closed s) (st_mirror s) s))
  | BClose, _ =>
      if st_stop s && negb (st_closed s)
      then Some (Running (with_flags (st_stop s) true (st_mirror s) s)) else None
  | BReturn, RTest => if st_stop s then Some (Running (with_read RReturned s)) else None
  | BGet c, RTest =>
      if st_stop s then None else
      '(m, b) ← pool_Get c (st_mem s); Some (Running (with_mem m (with_read (RHas b) s)))
  | BReadErr, RHas b => Some (Running (with_read RTest s))
  | BRead a data, RHas b =>
      let '(m, x) := read_into b data (st_mem s) in
      Some (Running (with_mem m (with_read (RFull (mkUDPMsg a x))
        (with_history (st_received s ++ [(a, body_bytes m x)]) (st_decoded s) (st_sent s) s))))
  | BSend, RFull m =>
      if st_closed s then Some (Crashed ClosedChannel)
      else if len (st_UDPCh s) <? chan_cap
           then Some (Running (with_UDPCh (st_UDPCh s ++ [m]) (with_read RTest s)))
           else None
  | _, _ => None
  end.

(** [ipfixWorker], [netflowV9Worker] and [sFlowWorker], round by round.  Decoding and
    marshalling are looks at the bytes, any number of them, that end in [BDone], in [BPanic],
    or never: which of these happens on which bytes is the matter of the files that model the
    decoders. *)
Definition worker_step (w : nat) (l : blabel) s : option (Outcome (State Mem R B)) :=
  ph ← st_workers s !! w;
  match l, ph with
  | BStart _ c, WStart =>
      '(m, b) ← pool_Get c (st_mem s); Some (Running (with_mem m (with_worker w (WTop b) s)))
  | BPut _, WTop b =>
      match pool_Put b (st_mem s) with
      | Some m => Some (Running (with_mem m (with_worker w WWait s)))
      | None => Some (Crashed SliceBounds)
      end
  | BQuit _, WWait => Some (Running (with_worker w WReturned s))
  | BTake _, WWait =>
      match st_UDPCh s with
      | m :: q => Some (Running (with_UDPCh q (with_worker w (WGot m) s)))
      | [] => None
      end
  | BClosed _, WWait =>
      match st_UDPCh s with
      | [] => if st_closed s then Some (Running (with_worker w WReturned s)) else None
      | _ => None
      end
  | BSkip _, WGot m => if st_mirror s then None else Some (Running (with_worker w (WDecode m []) s))
  | BMirror _ c, WGot m =>
      if st_mirror s
      then '(mem, b) ← pool_Get c (st_mem s); Some (Running (with_mem mem (with_worker w (WMirror m b) s)))
      else None
  | BCopy _, WMirror m b =>
      let '(mem, x) := append_to b (body m) (st_mem s) in
      Some (Running (with_mem mem (with_worker w (WMirrored m (mkUDPMsg (raddr m) x)) s)))
  | BOffer _, WMirrored m mm =>
      Some (Running (with_channels (try_send mm (st_MCh s)) (st_held s) (st_ch4 s) (st_ch6 s)
        (with_worker w (WDecode m []) s)))
  | BLook _ i, WDecode m seen =>
      x ← body_bytes (st_mem s) (body m) !! i;
      Some (Running (with_worker w (WDecode m (seen ++ [(i, x)])) s))
  | BDone _, WDecode m seen =>
      Some (Running (with_worker w (WTop (body_raw (body m)))
        (with_history (st_received s)
           (st_decoded s ++ [mkDecoded (raddr m) (body_bytes (st_mem s) (body m)) seen]) (st_sent s) s)))
  | BPanic _, WDecode m seen => Some (Crashed DecodePanic)
  | _, _ => None
  end.

(** [mirrorIPFIXDispatcher]. *)
Definition dispatcher_step (l : blabel) s : option (Outcome (State Mem R B)) :=
  match l, st_held s, st_MCh s with
  | BEnable, _, _ => if su_mirror su then Some (Running (with_flags (st_stop s) (st_closed s) true s)) else None
  | BRecv, None, m :: q =>
      if st_mirror s then Some (Running (with_channels q (Some m) (st_ch4 s) (st_ch6 s) s)) else None
  | BDispatch, Some m, q =>
      if is4 (raddr m)
      then if len (st_ch4 s) <? chan_cap
           then Some (Running (with_channels q None (st_ch4 s ++ [m]) (st_ch6 s) s)) else None
      else if len (st_ch6 s) <? chan_cap
           then Some (Running (with_channels q None (st_ch4 s) (st_ch6 s ++ [m]) s)) else None
  | _, _, _ => None
  end.

(** [mirrorIPFIX]: the first two [copy] and the slice of the third need room for the
    headers; [copy] stops at the end of [packet]; the datagram is sent as
    [packet[0 : ipHLen+8+pLen]]. *)
Definition sender_step (k : nat) (l : blabel) s : option (Outcome (State Mem R B)) :=
  ph ← st_senders s !! k;
  match l, ph with
  | BSDial _ ok, SStart => Some (Running (with_sender k (if ok then SIdle else SReturned) s))
  | BSTake _, SIdle =>
      if is4 (su_dst su)
      then match st_ch4 s with
           | m :: q => Some (Running (with_channels (st_MCh s) (st_held s) q (st_ch6 s) (with_sender k (SHave m) s)))
           | [] => None
           end
      else match st_ch6 s with
           | m :: q => Some (Running (with_channels (st_MCh s) (st_held s) (st_ch4 s) q (with_sender k (SHave m) s)))
           | [] => None
           end
  | BSCopy _, SHave m =>
      let p := body_bytes (st_mem s) (body m) in
      if ipHLen + UDPHLen <=? UDPSize
      then Some (Running (with_sender k
             (SCopied m (len p) (take (Z.to_nat (UDPSize - ipHLen - UDPHLen)) p)) s))
      else Some (Crashed ShortPacket)
  | BSPut _, SCopied m n p =>
      match pool_Put (body_raw (body m)) (st_mem s) with
      | Some mem => Some (Running (with_mem mem (with_sender k (SSend (raddr m) n p) s)))
      | None => Some (Crashed SliceBounds)
      end
  | BSSend _ ok, SSend a n p =>
      if ipHLen + UDPHLen + n <=? UDPSize
      then Some (Running (with_sender k (if ok then SIdle else SReturned)
             (if ok then with_history (st_received s) (st_decoded s) (st_sent s ++ [(a, p)]) s else s)))
      else Some (Crashed ShortPacket)
  | _, _ => None
  end.

Definition buffer_step (l : blabel) s : option (Outcome (State Mem R B)) :=
  match l with
  | BStop | BClose | BGet _ | BReturn | BReadErr | BRead _ _ | BSend => read_step l s
  | BSpawn => Some (Running (with_workers (st_workers s ++ [if su_initial su then WStart else WWait]) s))
  | BStart w _ | BPut w | BTake w | BQuit w | BClosed w | BSkip w | BMirror w _ | BCopy w | BOffer w
  | BLook w _ | BDone w | BPanic w => worker_step w l s
  | BDrop k => m ← pool_drop k (st_mem s); Some (Running (with_mem m s))
  | BEnable | BRecv | BDispatch => dispatcher_step l s
  | BSDial k _ | BSTake k | BSCopy k | BSPut k | BSSend k _ => sender_step k l s
  end.

Fixpoint buffer_run (ls : list blabel) s : option (Outcome (State Mem R B)) :=
  match ls with
  | [] => Some (Running s)
  | l :: ls =>
      match buffer_step l s with
      | Some (Running s') => buffer_run ls s'
      | Some (Crashed c) => match ls with [] => Some (Crashed c) | _ => None end
      | None => None
      end
  end.
End steps.

(** ** Two memories *)

(** The heap: a slice [b[:n]] of an array, which every slice here starts at the front of;
    the capacity is the length of the array. *)
Record Slice : Type := mkSlice { sl_array : nat; sl_len : nat }.

Record Heap : Type := mkHeap {
  h_arrays : gmap nat (list byte);
  h_pool : list nat;                 (* the arrays that were put, as [b[:size]] *)
  h_next : nat
}.

Definition array_at (h : Heap) (a : nat) : list byte := default [] (h_arrays h !! a).

Definition alloc (x : list byte) (h : Heap) : Heap :=
  mkHeap (<[h_next h := x]> (h_arrays h)) (h_pool h) (S (h_next h)).

Definition store (a : nat) (x : list byte) (h : Heap) : Heap :=
  mkHeap (<[a := x]> (h_arrays h)) (h_pool h) (h_next h).

Definition heap_init : Heap := mkHeap ∅ [] 0.

Section memories.
(** The size of the buffers, and the spare room the run-time system gives a slice that
    [append] has to move. *)
Context (size : nat) (spare : nat -> nat).

Definition heap_Get (c : Choice) (h : Heap) : option (Heap * Slice) :=
  match c with
  | New => Some (alloc (replicate size x00) h, mkSlice (h_next h) size)
  | Pooled k =>
      a ← h_pool h !! k;
      Some (mkHeap (h_arrays h) (delete k (h_pool h)) (h_next h), mkSlice a size)
  end.

Definition heap_Put (b : Slice) (h : Heap) : option Heap :=
  if (size <=? length (array_at h (sl_array b)))%nat
  then Some (mkHeap (h_arrays h) (h_pool h ++ [sl_array b]) (h_next h))
  else None.

Definition heap_drop (k : nat) (h : Heap) : option Heap :=
  match h_pool h !! k with
  | Some _ => Some (mkHeap (h_arrays h) (delete k (h_pool h)) (h_next h))
  | None => None
  end.

Definition heap_bytes (h : Heap) (b : Slice) : list byte := take (sl_len b) (array_at h (sl_array b)).

Definition heap_read_into (b : Slice) (data : list byte) (h : Heap) : Heap * Slice :=
  let got := take (sl_len b) data in
  (store (sl_array b) (got ++ drop (length got) (array_at h (sl_array b))) h, mkSlice (sl_array b) (length got)).

Definition heap_append_to (b x : Slice) (h : Heap) : Heap * Slice :=
  let src := heap_bytes h x in
  let old := array_at h (sl_array b) in
  if (length src <=? length old)%nat
  then (store (sl_array b) (src ++ drop (length src) old) h, mkSlice (sl_array b) (length src))
  else (alloc (src ++ replicate (spare (length src)) x00) h, mkSlice (h_next h) (length src)).

#[local] Instance heap_memory : Memory Heap Slice Slice := {
  pool_Get := heap_Get;
  pool_Put := heap_Put;
  pool_drop := heap_drop;
  read_into := heap_read_into;
  append_to := heap_append_to;
  body_bytes := heap_bytes;
  body_raw := fun b => b
}.

(** No arrays: a datagram is its bytes, a free buffer is nothing. *)
#[local] Instance value_memory : Memory unit unit (list byte) := {
  pool_Get := fun _ _ => Some (tt, tt);
  pool_Put := fun _ _ => Some tt;
  pool_drop := fun _ _ => Some tt;
  read_into := fun _ data _ => (tt, take size data);
  append_to := fun _ x _ => (tt, x);
  body_bytes := fun _ x => x;
  body_raw := fun _ => tt
}.
End memories.

(** ** From slices to bytes *)

Section fmap.
Context {R B R' B' : Type} (r : R -> R') (g : B -> B').

Definition map_msg (m : UDPMsg B) : UDPMsg B' := mkUDPMsg (raddr m) (g (body m)).

Definition map_read (p : ReadLoop R B) : ReadLoop R' B' :=
  match p with
  | RTest => RTest | RHas b => RHas (r b) | RFull m => RFull (map_msg m) | RReturned => RReturned
  end.

Definition map_worker (p : Worker R B) : Worker R' B' :=
  match p with
  | WStart => WStart | WTop b => WTop (r b) | WWait => WWait | WGot m => WGot (map_msg m)
  | WMirror m b => WMirror (map_msg m) (r b) | WMirrored m mm => WMirrored (map_msg m) (map_msg mm)
  | WDecode m seen => WDecode (map_msg m) seen | WReturned => WReturned
  end.

Definition map_sender (p : Sender B) : Sender B' :=
  match p with
  | SStart => SStart | SIdle => SIdle | SHave m => SHave (map_msg m)
  | SCopied m n p => SCopied (map_msg m) n p
  | SSend a n p => SSend a n p | SReturned => SReturned
  end.

Definition map_state {Mem Mem' : Type} (m : Mem') (s : State Mem R B) : State Mem' R' B' :=
  mkState m (map_read (st_read s)) (st_stop s) (st_closed s) (map_msg <$> st_UDPCh s)
    (map_worker <$> st_workers s) (st_mirror s) (map_msg <$> st_MCh s) (map_msg <$> st_held s)
    (map_msg <$> st_ch4 s) (map_msg <$> st_ch6 s) (map_sender <$> st_senders s)
    (st_received s) (st_decoded s) (st_sent s).
End fmap.

Definition outcome_map {S S'} (f : S -> S') (o : Outcome S) : Outcome S' :=
  match o with Running s => Running (f s) | Crashed c => Crashed c end.

Abbreviation HeapState := (State Heap Slice Slice).
Abbreviation ValueState := (State unit unit (list byte)).

(** The bytes the goroutines would find in memory [h], and in their own memory. *)
Definition view (h : Heap) (s : HeapState) : ValueState := map_state (fun _ => tt) (heap_bytes h) tt s.
Definition contents (s : HeapState) : ValueState := view (st_mem s) s.

(** ** Who has which array *)

Section owners.
Context (a : nat).

Definition at_array (b : nat) : Z := if decide (b = a) then 1 else 0.
Definition slice_owns (b : Slice) : Z := at_array (sl_array b).
Definition msg_owns (m : UDPMsg Slice) : Z := slice_owns (body m).

Definition read_owns (p : ReadLoop Slice Slice) : Z :=
  match p with RHas b => slice_owns b | RFull m => msg_owns m | _ => 0 end.

Definition worker_owns (p : Worker Slice Slice) : Z :=
  match p with
  | WTop b => slice_owns b
  | WGot m | WDecode m _ => msg_owns m
  | WMirror m b => msg_owns m + slice_owns b
  | WMirrored m mm => msg_owns m + msg_owns mm
  | _ => 0
  end.

Definition sender_owns (p : Sender Slice) : Z :=
  match p with SHave m | SCopied m _ _ => msg_owns m | _ => 0 end.

Definition held_owns (p : option (UDPMsg Slice)) : Z := match p with Some m => msg_owns m | None => 0 end.

(** How many have array [a] in hand, the pool and the channels included. *)
Definition owners (s : HeapState) : Z :=
  total at_array (h_pool (st_mem s)) + read_owns (st_read s) + total msg_owns (st_UDPCh s) +
  total worker_owns (st_workers s) + total msg_owns (st_MCh s) + held_owns (st_held s) +
  total msg_owns (st_ch4 s) + total msg_owns (st_ch6 s) + total sender_owns (st_senders s).
End owners.

Section invariant.
Context (size : nat).

Record heap_inv (s : HeapState) : Prop := {
  hi_once : forall a, owners a s <= 1;
  hi_room : forall a, 0 < owners a s -> (size <= length (array_at (st_mem s) a))%nat /\ (a < h_next (st_mem s))%nat;
  hi_read : match st_read s with RHas b => sl_len b = size | _ => True end
}.
End invariant.

(** ** The three collectors *)

(** [net.ParseIP]. *)
Definition IPFIX_setup (ParseIP : string -> list byte) (opts : Options) : Setup :=
  mkSetup (Z.to_nat (o_IPFIXUDPSize opts)) true (negb (String.eqb (o_IPFIXMirrorAddr opts) EmptyString))
    (ParseIP (o_IPFIXMirrorAddr opts)) (Z.to_nat (o_IPFIXMirrorWorkers opts)).

Definition NetflowV9_setup (opts : Options) : Setup := mkSetup (Z.to_nat (o_NetflowV9UDPSize opts)) true false [] 0.

Definition SFlow_setup (opts : Options) : Setup := mkSetup (Z.to_nat (o_SFlowUDPSize opts)) false false [] 0.
