(* ===== verification/BufferFacts.v ===== *)
(** Why the goroutines of the collectors may share buffers (Buffers.v): at any time an array
    has at most one owner, be it the pool, a channel, the read loop, a worker or a sender of
    the mirror.  What one of them writes is therefore seen by nobody else, and the run on
    the heap is, step by step, the run in which messages carry their bytes.  On that run
    every datagram is in one place, and is decoded once, as it was received. *)

From S2P Require Import Prelude GoNet Packet Mirror Collector Options Dispatcher Buffers Totals.

Open Scope Z_scope.

#[local] Arguments total : simpl never.

(** ** Counting owners *)

Lemma at_array_bounds a b : 0 <= at_array a b <= 1.
Proof. unfold at_array. case_decide; lia. Qed.

Lemma slice_owns_nonneg a b : 0 <= slice_owns a b.
Proof. apply at_array_bounds. Qed.

Lemma msg_owns_nonneg a m : 0 <= msg_owns a m.
Proof. apply at_array_bounds. Qed.

Lemma worker_owns_nonneg a p : 0 <= worker_owns a p.
Proof.
  destruct p; cbn; try done; try apply slice_owns_nonneg; try apply msg_owns_nonneg;
    (apply Z.add_nonneg_nonneg; first [apply slice_owns_nonneg|apply msg_owns_nonneg]).
Qed.

Lemma sender_owns_nonneg a p : 0 <= sender_owns a p.
Proof. destruct p; cbn; try done; apply msg_owns_nonneg. Qed.

Lemma read_owns_nonneg a p : 0 <= read_owns a p.
Proof. destruct p; cbn; try done; first [apply slice_owns_nonneg|apply msg_owns_nonneg]. Qed.

Lemma held_owns_nonneg a p : 0 <= held_owns a p.
Proof. destruct p; cbn; [apply msg_owns_nonneg|done]. Qed.

(** All the parts of [owners] are counts. *)
Ltac owners_nonneg a s :=
  pose proof (total_nonneg (at_array a) (h_pool (st_mem s)) (fun b => proj1 (at_array_bounds a b)));
  pose proof (read_owns_nonneg a (st_read s));
  pose proof (total_nonneg (msg_owns a) (st_UDPCh s) (msg_owns_nonneg a));
  pose proof (total_nonneg (worker_owns a) (st_workers s) (worker_owns_nonneg a));
  pose proof (total_nonneg (msg_owns a) (st_MCh s) (msg_owns_nonneg a));
  pose proof (held_owns_nonneg a (st_held s));
  pose proof (total_nonneg (msg_owns a) (st_ch4 s) (msg_owns_nonneg a));
  pose proof (total_nonneg (msg_owns a) (st_ch6 s) (msg_owns_nonneg a));
  pose proof (total_nonneg (sender_owns a) (st_senders s) (sender_owns_nonneg a)).

(** A part of the state owns an array, so the state does. *)
Ltac owned_part H s :=
  let a := fresh in intros a ?; apply H; owners_nonneg a s; unfold owners; lia.

(** *** Memories that agree on what is owned *)

Lemma msg_view h h' (m : UDPMsg Slice) :
  (0 < msg_owns (sl_array (body m)) m -> array_at h (sl_array (body m)) = array_at h' (sl_array (body m))) ->
  map_msg (heap_bytes h) m = map_msg (heap_bytes h') m.
Proof.
  intros H. unfold map_msg, heap_bytes. do 2 f_equal. apply H. unfold msg_owns, slice_owns, at_array.
  by rewrite decide_True.
Qed.

Section frame.
Context (h h' : Heap).

Lemma msgs_view (l : list (UDPMsg Slice)) :
  (forall a, 0 < total (msg_owns a) l -> array_at h a = array_at h' a) ->
  map_msg (heap_bytes h) <$> l = map_msg (heap_bytes h') <$> l.
Proof.
  intros H. apply map_ext_in. intros m Hm%list_elem_of_In. apply msg_view. intros Hp. apply H.
  pose proof (total_elem (msg_owns (sl_array (body m))) l m (msg_owns_nonneg _) Hm). lia.
Qed.

Lemma worker_view p :
  (forall a, 0 < worker_owns a p -> array_at h a = array_at h' a) ->
  map_worker (fun _ => tt) (heap_bytes h) p = map_worker (fun _ => tt) (heap_bytes h') p.
Proof.
  intros H. assert (forall m, (forall a, 0 < msg_owns a m -> 0 < worker_owns a p) ->
    map_msg (heap_bytes h) m = map_msg (heap_bytes h') m) as Hm.
  { intros m Hm. apply msg_view. intros Hp. by apply H, Hm. }
  destruct p as [|b| |m|m b|m mm|m seen|]; cbn [map_worker]; try done; rewrite !Hm; try done; intros a Ha; cbn in *.
  all: pose proof (msg_owns_nonneg a m); try pose proof (msg_owns_nonneg a mm); try pose proof (slice_owns_nonneg a b); lia.
Qed.

Lemma sender_view p :
  (forall a, 0 < sender_owns a p -> array_at h a = array_at h' a) ->
  map_sender (heap_bytes h) p = map_sender (heap_bytes h') p.
Proof. intros H. destruct p; cbn in *; try done; by rewrite (msg_view h h'); [|intros; apply H]. Qed.

(** What the goroutines find does not depend on arrays nobody has. *)
Lemma view_frame s : (forall a, 0 < owners a s -> array_at h a = array_at h' a) -> view h s = view h' s.
Proof.
  intros H. unfold view, map_state. f_equal.
  - assert (forall a, 0 < read_owns a (st_read s) -> array_at h a = array_at h' a) as Hr.
    { owned_part H s. }
    destruct (st_read s); cbn in *; try done. by rewrite (msg_view h h'); [|intros; apply Hr].
  - apply msgs_view. owned_part H s.
  - apply map_ext_in. intros p Hp%list_elem_of_In. apply worker_view. intros a Ha. apply H.
    pose proof (total_elem (worker_owns a) _ p (worker_owns_nonneg _) Hp). owners_nonneg a s. unfold owners. lia.
  - apply msgs_view. owned_part H s.
  - assert (forall a, 0 < held_owns a (st_held s) -> array_at h a = array_at h' a) as Hr.
    { owned_part H s. }
    destruct (st_held s); cbn in *; try done. by rewrite (msg_view h h'); [|intros; apply Hr].
  - apply msgs_view. owned_part H s.
  - apply msgs_view. owned_part H s.
  - apply map_ext_in. intros p Hp%list_elem_of_In. apply sender_view. intros a Ha. apply H.
    pose proof (total_elem (sender_owns a) _ p (sender_owns_nonneg _) Hp). owners_nonneg a s. unfold owners. lia.
Qed.
End frame.

(** *** The operations of the heap *)

Section heap_ops.
Context (size : nat) (spare : nat -> nat).

Lemma array_at_alloc x h a : array_at (alloc x h) a = if decide (a = h_next h) then x else array_at h a.
Proof.
  unfold array_at, alloc. cbn. case_decide; [subst; by rewrite lookup_insert_eq|by rewrite lookup_insert_ne].
Qed.

Lemma array_at_store b x h a : array_at (store b x h) a = if decide (a = b) then x else array_at h a.
Proof.
  unfold array_at, store. cbn. case_decide; [subst; by rewrite lookup_insert_eq|by rewrite lookup_insert_ne].
Qed.

(** Nobody new has an array, and no array became shorter. *)
Lemma heap_inv_less s s' :
  heap_inv size s -> (forall a, owners a s' <= owners a s) ->
  (forall a, (length (array_at (st_mem s) a) <= length (array_at (st_mem s') a))%nat) ->
  (h_next (st_mem s) <= h_next (st_mem s'))%nat ->
  match st_read s' with RHas b => sl_len b = size | _ => True end -> heap_inv size s'.
Proof.
  intros [H1 H2 H3] Ho Ha Hn Hr. split; [intros a; specialize (Ho a)|intros a; specialize (Ho a)|done].
  - specialize (H1 a). lia.
  - intros Hp. destruct (H2 a ltac:(lia)). specialize (Ha a). lia.
Qed.

(** Somebody has a new array. *)
Lemma heap_inv_fresh s s' x :
  heap_inv size s -> (size <= length x)%nat ->
  h_arrays (st_mem s') = <[h_next (st_mem s) := x]> (h_arrays (st_mem s)) -> h_next (st_mem s') = S (h_next (st_mem s)) ->
  (forall a, owners a s' <= owners a s + at_array a (h_next (st_mem s))) ->
  match st_read s' with RHas b => sl_len b = size | _ => True end -> heap_inv size s'.
Proof.
  intros [H1 H2 H3] Hx Ea En Ho Hr. split; [intros a; specialize (Ho a)|intros a; specialize (Ho a)|done]; unfold at_array in Ho.
  - specialize (H1 a). case_decide as E; [|lia]. subst. destruct (decide (0 < owners (h_next (st_mem s)) s)); [|lia].
    destruct (H2 (h_next (st_mem s)) ltac:(lia)). lia.
  - intros Hp. unfold array_at. rewrite Ea, En. case_decide as E.
    + subst. rewrite lookup_insert_eq. cbn. lia.
    + rewrite lookup_insert_ne by done. destruct (H2 a ltac:(lia)). unfold array_at in *. lia.
Qed.

(** [Get] hands over a buffer of the pool or a new one. *)
Lemma heap_Get_cases c h h' b :
  heap_Get size c h = Some (h', b) ->
  sl_len b = size /\
  ((forall a, total (at_array a) (h_pool h') = total (at_array a) (h_pool h) - slice_owns a b) /\
   h_arrays h' = h_arrays h /\ h_next h' = h_next h \/
   h' = alloc (replicate size x00) h /\ sl_array b = h_next h).
Proof.
  destruct c as [|k]; cbn; intros H; [simplify_eq; by split; [|right]|].
  destruct (h_pool h !! k) as [x|] eqn:E; [|by cbn in H]. cbn in H; simplify_eq. split; [done|]. left. split; [|done].
  intros a. cbn [h_pool]. by rewrite (total_delete _ _ _ _ E).
Qed.

(** A state that differs from [s] in having [b], got from the pool. *)
Lemma heap_inv_Get c s h' b s' :
  heap_inv size s -> heap_Get size c (st_mem s) = Some (h', b) -> st_mem s' = h' ->
  (forall a, owners a s' - total (at_array a) (h_pool h') =
             owners a s - total (at_array a) (h_pool (st_mem s)) + slice_owns a b) ->
  match st_read s' with RHas b => sl_len b = size | _ => True end -> heap_inv size s'.
Proof.
  intros Hi Hg Em Ho Hr. destruct (heap_Get_cases _ _ _ _ Hg) as [_ [(Hp & Ea & En)|[-> Eb]]].
  - apply (heap_inv_less s); [done|..|done]; intros; unfold array_at; rewrite ?Em, ?Ea, ?En; try lia.
    specialize (Ho a). rewrite Hp in Ho. lia.
  - apply (heap_inv_fresh s _ (replicate size x00)); rewrite ?Em; try done; [by rewrite length_replicate|].
    intros a. specialize (Ho a). unfold slice_owns in Ho. rewrite Eb in Ho. cbn [alloc h_pool] in Ho. lia.
Qed.

(** Getting a buffer changes nothing that somebody has. *)
Lemma view_Get c s h' b :
  heap_inv size s -> heap_Get size c (st_mem s) = Some (h', b) -> view h' s = view (st_mem s) s.
Proof.
  intros Hi Hg. apply view_frame. intros a Ha. destruct (heap_Get_cases _ _ _ _ Hg) as [_ [(Hp & Ea & En)|[-> Eb]]].
  - unfold array_at. by rewrite Ea.
  - rewrite array_at_alloc, decide_False; [done|]. intros ->. destruct (hi_room _ _ Hi _ Ha). lia.
Qed.

(** [Put] does not fail on what somebody has. *)
Lemma heap_Put_owned s b :
  heap_inv size s -> 0 < owners (sl_array b) s ->
  heap_Put size b (st_mem s) =
    Some (mkHeap (h_arrays (st_mem s)) (h_pool (st_mem s) ++ [sl_array b]) (h_next (st_mem s))).
Proof.
  intros Hi Ho. unfold heap_Put. destruct (hi_room _ _ Hi _ Ho) as [H _]. by rewrite (proj2 (Nat.leb_le _ _) H).
Qed.

(** What [ReadFromUDP] leaves in the buffer. *)
Lemma heap_read_into_bytes b data h h' x :
  heap_read_into b data h = (h', x) ->
  heap_bytes h' x = take (sl_len b) data /\ sl_array x = sl_array b /\ h_pool h' = h_pool h /\ h_next h' = h_next h /\
  (forall a, a <> sl_array b -> array_at h' a = array_at h a) /\
  (forall a, (length (array_at h a) <= length (array_at h' a))%nat).
Proof.
  unfold heap_read_into. intros E. simplify_eq. unfold heap_bytes. cbn [sl_array sl_len].
  rewrite array_at_store, decide_True by done. split_and!; try done.
  - by rewrite take_app_length.
  - intros a Ha. by rewrite array_at_store, decide_False.
  - intros a. rewrite array_at_store. case_decide; [subst; rewrite length_app, length_drop; lia|lia].
Qed.

(** [append] writes the buffer or moves to a new array. *)
Lemma heap_append_to_bytes b x h h' y :
  heap_append_to spare b x h = (h', y) ->
  heap_bytes h' y = heap_bytes h x /\ h_pool h' = h_pool h /\
  ((sl_array y = sl_array b /\ h_next h' = h_next h /\
    (forall a, a <> sl_array b -> array_at h' a = array_at h a) /\
    (forall a, (length (array_at h a) <= length (array_at h' a))%nat)) \/
   (sl_array y = h_next h /\ (length (array_at h (sl_array b)) <= length (array_at h' (h_next h)))%nat /\
    (exists z, h' = alloc z h))).
Proof.
  unfold heap_append_to. set (src := heap_bytes h x). case_match eqn:E; intros ?; simplify_eq.
  - unfold heap_bytes. cbn [sl_array sl_len]. rewrite array_at_store, decide_True by done. rewrite take_app_length.
    split_and!; [done..|]. left. apply Nat.leb_le in E. split_and!; try done.
    + intros a Ha. by rewrite array_at_store, decide_False.
    + intros a. rewrite array_at_store. case_decide; [subst; rewrite length_app, length_drop; lia|lia].
  - unfold heap_bytes. cbn [sl_array sl_len]. rewrite array_at_alloc, decide_True by done. rewrite take_app_length.
    apply Nat.leb_gt in E. split_and!; [done..|]. right. rewrite length_app. split_and!; [done|lia|by eexists].
Qed.
End heap_ops.

(** ** The goroutines keep the invariant *)

Section steps_sound.
Context (su : Setup) (spare : nat -> nat).
#[local] Existing Instances heap_memory value_memory.

(** The two systems. *)
Definition heap_step : blabel -> HeapState -> option (Outcome HeapState) :=
  buffer_step (H := heap_memory (su_size su) spare) su.
Definition value_step : blabel -> ValueState -> option (Outcome ValueState) :=
  buffer_step (H := value_memory (su_size su)) su.

Lemma owners_worker a w p q s :
  st_workers s !! w = Some p ->
  owners a (with_worker w q s) = owners a s - worker_owns a p + worker_owns a q.
Proof. intros H. unfold owners. cbn. rewrite (total_insert _ _ _ _ _ H). lia. Qed.

Lemma owners_sender a k p q s :
  st_senders s !! k = Some p ->
  owners a (with_sender k q s) = owners a s - sender_owns a p + sender_owns a q.
Proof. intros H. unfold owners. cbn. rewrite (total_insert _ _ _ _ _ H). lia. Qed.

Lemma owners_read a p s : owners a (with_read p s) = owners a s - read_owns a (st_read s) + read_owns a p.
Proof. unfold owners. cbn. lia. Qed.

Lemma owners_mem a h s :
  owners a (with_mem h s) = owners a s - total (at_array a) (h_pool (st_mem s)) + total (at_array a) (h_pool h).
Proof. unfold owners. cbn [with_mem st_mem st_read st_UDPCh st_workers st_MCh st_held st_ch4 st_ch6 st_senders]. lia. Qed.

(** A worker or a sender that has an array is one of its owners. *)
Lemma worker_owner a w p s : st_workers s !! w = Some p -> worker_owns a p <= owners a s.
Proof.
  intros H%list_elem_of_lookup_2. pose proof (total_elem (worker_owns a) _ p (worker_owns_nonneg _) H).
  owners_nonneg a s. unfold owners. lia.
Qed.

Lemma sender_owner a k p s : st_senders s !! k = Some p -> sender_owns a p <= owners a s.
Proof.
  intros H%list_elem_of_lookup_2. pose proof (total_elem (sender_owns a) _ p (sender_owns_nonneg _) H).
  owners_nonneg a s. unfold owners. lia.
Qed.

Lemma owns_self b : slice_owns (sl_array b) b = 1.
Proof. unfold slice_owns, at_array. by rewrite decide_True. Qed.

(** What [try_send] drops is collected. *)
Lemma try_send_total {A} (f : A -> Z) x l : 0 <= f x -> total f (try_send x l) <= total f l + f x.
Proof. intros H. unfold try_send. case_match; [rewrite total_snoc; lia|lia]. Qed.

Definition step_ok (l : blabel) (s : HeapState) (o : Outcome HeapState) : Prop :=
  value_step l (contents s) = Some (outcome_map contents o) /\
  match o with Running s' => heap_inv (su_size su) s' | Crashed c => c <> SliceBounds end.

Lemma heap_inv_move s s' :
  heap_inv (su_size su) s -> st_mem s' = st_mem s -> (forall a, owners a s' <= owners a s) ->
  match st_read s' with RHas b => sl_len b = su_size su | _ => True end -> heap_inv (su_size su) s'.
Proof. intros Hi Hm Ho Hr. by apply (heap_inv_less _ s); rewrite ?Hm. Qed.

Ltac owners_simpl :=
  repeat first [rewrite owners_mem | erewrite owners_worker by done | erewrite owners_sender by done | rewrite owners_read].

#[local] Arguments heap_read_into : simpl never.
#[local] Arguments heap_append_to : simpl never.
#[local] Arguments heap_Get : simpl never.
#[local] Arguments heap_Put : simpl never.
#[local] Arguments heap_bytes : simpl never.

(** A step that only moves messages and buffers from hand to hand. *)
Ltac move_inv s a :=
  apply (heap_inv_move s); [done|done|intros a; unfold owners; cbn|cbn; try done].

Lemma len_fmap {A B} (f : A -> B) l : len (f <$> l) = len l.
Proof. unfold len. by rewrite length_fmap. Qed.

Lemma BGet_ok c s o : heap_inv (su_size su) s -> heap_step (BGet c) s = Some o -> step_ok (BGet c) s o.
Proof.
  intros Hi. unfold heap_step, step_ok, value_step. cbn. destruct (st_read s) eqn:Er; try done. cbn. case_match; [done|].
  destruct (heap_Get _ c _) as [[h b]|] eqn:Eg; [|done]. cbn. intros ?. simplify_eq. cbn. split.
  - unfold contents. cbn. by rewrite <- (view_Get _ _ _ _ _ Hi Eg).
  - apply (heap_inv_Get _ c s h b); [done..| |].
    + intros a. owners_simpl. rewrite Er. cbn. lia.
    + cbn. by destruct (heap_Get_cases _ _ _ _ _ Eg).
Qed.

Lemma BRead_ok a data s o : heap_inv (su_size su) s -> heap_step (BRead a data) s = Some o -> step_ok (BRead a data) s o.
Proof.
  intros Hi. unfold heap_step, step_ok, value_step. cbn. destruct (st_read s) as [|b|m|] eqn:Er; try done. cbn.
  destruct (heap_read_into b data (st_mem s)) as [h x] eqn:E. intros ?. simplify_eq. cbn.
  destruct (heap_read_into_bytes _ _ _ _ _ E) as (Hx & Ha & Hp & Hn & Ho & Hl).
  pose proof (hi_read _ _ Hi) as Hb. rewrite Er in Hb. split.
  - assert (view (st_mem s) (with_read RTest s) = view h (with_read RTest s)) as Hv.
    { apply view_frame. intros c Hc. symmetry. apply Ho. intros ->. rewrite owners_read, Er in Hc. cbn in Hc.
      rewrite owns_self in Hc. pose proof (hi_once _ _ Hi (sl_array b)). lia. }
    unfold contents at 2, view, map_state. cbn. unfold map_msg at 1. cbn. rewrite Hx, Hb.
    exact (f_equal (fun v : ValueState => Some (Running (with_read (RFull (mkUDPMsg a (take (su_size su) data)))
      (with_history (st_received v ++ [(a, take (su_size su) data)]) (st_decoded v) (st_sent v) v)))) Hv).
  - apply (heap_inv_less _ s); [done|..|done]; cbn; [|done|lia].
    intros c. unfold owners. cbn. rewrite Hp, Er. cbn. unfold msg_owns at 1, slice_owns at 1. cbn. rewrite Ha. done.
Qed.

Lemma read_step_ok l s o :
  heap_inv (su_size su) s -> read_step (H := heap_memory (su_size su) spare) l s = Some o ->
  match l with BStop | BClose | BGet _ | BReturn | BReadErr | BRead _ _ | BSend => step_ok l s o | _ => True end.
Proof.
  intros Hi. destruct l; try done; intros Hs.
  3: by apply BGet_ok. 5: by apply BRead_ok.
  all: unfold step_ok, value_step; cbn in *.
  - simplify_eq. split; [done|]. move_inv s a; [done|apply Hi].
  - case_match; [|done]. simplify_eq. split; [done|]. move_inv s a; [done|apply Hi].
  - destruct (st_read s) eqn:Er; try done. cbn. case_match; [|done]. simplify_eq. split; [done|].
    move_inv s a. rewrite Er. cbn. lia.
  - destruct (st_read s) as [|b| |] eqn:Er; try done. cbn. simplify_eq. split; [done|].
    move_inv s a. rewrite Er. cbn. pose proof (slice_owns_nonneg a b). lia.
  - destruct (st_read s) as [| |m|] eqn:Er; try done. cbn. rewrite len_fmap.
    repeat case_match; simplify_eq; (split; [|done || move_inv s a]).
    + done.
    + unfold contents, view, map_state. cbn. by rewrite fmap_app.
    + rewrite Er, total_snoc. cbn. lia.
Qed.

(** *** Workers *)

Lemma view_worker h w q s :
  view h (with_worker w q s) = with_worker w (map_worker (fun _ => tt) (heap_bytes h) q) (view h s).
Proof. unfold view, map_state, with_worker, with_workers. cbn. by rewrite list_fmap_insert. Qed.

Lemma with_worker_twice {Mem R B} w (q q' : Worker R B) (s : State Mem R B) :
  with_worker w q (with_worker w q' s) = with_worker w q s.
Proof. unfold with_worker, with_workers. cbn. by rewrite list_insert_insert_eq. Qed.

Lemma contents_worker w s :
  st_workers (contents s) !! w = map_worker (fun _ => tt) (heap_bytes (st_mem s)) <$> (st_workers s !! w).
Proof. cbn. by rewrite list_lookup_fmap. Qed.

(** [Get] by a worker: the buffer is added to what it has. *)
Lemma worker_Get_ok c w p q s h b :
  heap_inv (su_size su) s -> st_workers s !! w = Some p -> heap_Get (su_size su) c (st_mem s) = Some (h, b) ->
  (forall a, worker_owns a q = worker_owns a p + slice_owns a b) ->
  contents (with_mem h (with_worker w q s)) =
    with_mem tt (with_worker w (map_worker (fun _ => tt) (heap_bytes h) q) (contents s)) /\
  map_worker (fun _ => tt) (heap_bytes h) p = map_worker (fun _ => tt) (heap_bytes (st_mem s)) p /\
  heap_inv (su_size su) (with_mem h (with_worker w q s)).
Proof.
  intros Hi Ew Eg Hq. pose proof (view_Get _ _ _ _ _ Hi Eg) as Hv. split_and!.
  - transitivity (view h (with_worker w q s)); [done|]. by rewrite view_worker, Hv.
  - apply (f_equal st_workers) in Hv. cbn in Hv. apply (f_equal (fun l => l !! w)) in Hv.
    rewrite !list_lookup_fmap, Ew in Hv. cbn in Hv. by simplify_eq.
  - apply (heap_inv_Get _ c s h b); [done..| |cbn; apply Hi].
    intros a. rewrite owners_mem, (owners_worker _ _ _ _ _ Ew), Hq. cbn. lia.
Qed.

(** [Put] by a worker: the buffer is the pool's, and nobody's view changes. *)
Lemma put_view s b :
  view (mkHeap (h_arrays (st_mem s)) (h_pool (st_mem s) ++ [sl_array b]) (h_next (st_mem s))) s = view (st_mem s) s.
Proof. by apply view_frame. Qed.

Lemma BPut_ok w b s :
  heap_inv (su_size su) s -> st_workers s !! w = Some (WTop b) ->
  exists h, heap_Put (su_size su) b (st_mem s) = Some h /\
    contents (with_mem h (with_worker w WWait s)) = with_mem tt (with_worker w WWait (contents s)) /\
    heap_inv (su_size su) (with_mem h (with_worker w WWait s)).
Proof.
  intros Hi Ew. eexists. split.
  { apply heap_Put_owned; [done|]. pose proof (worker_owner (sl_array b) _ _ _ Ew) as H. cbn in H.
    rewrite owns_self in H. lia. }
  set (h := mkHeap _ _ _). split.
  - transitivity (view h (with_worker w WWait s)); [done|]. rewrite view_worker.
    unfold h. by rewrite put_view.
  - apply (heap_inv_less _ s); [done|..|apply Hi]; intros; cbn; try lia; [|done].
    rewrite owners_mem, (owners_worker _ _ _ _ _ Ew). cbn. rewrite total_snoc. unfold slice_owns. lia.
Qed.

(** The copy for the mirror goes to an array only this worker has. *)
Lemma BCopy_ok w m b s h x :
  heap_inv (su_size su) s -> st_workers s !! w = Some (WMirror m b) ->
  heap_append_to spare b (body m) (st_mem s) = (h, x) ->
  contents (with_mem h (with_worker w (WMirrored m (mkUDPMsg (raddr m) x)) s)) =
    with_mem tt (with_worker w (WMirrored (map_msg (heap_bytes (st_mem s)) m)
      (mkUDPMsg (raddr m) (heap_bytes (st_mem s) (body m)))) (contents s)) /\
  heap_inv (su_size su) (with_mem h (with_worker w (WMirrored m (mkUDPMsg (raddr m) x)) s)).
Proof.
  intros Hi Ew E. destruct (heap_append_to_bytes _ _ _ _ _ _ E) as (Hx & Hp & Hc).
  assert (view (st_mem s) (with_worker w (WGot m) s) = view h (with_worker w (WGot m) s)) as Hv.
  { apply view_frame. intros a Ha. rewrite (owners_worker _ _ _ _ _ Ew) in Ha. cbn in Ha.
    destruct Hc as [(_ & _ & Ho & _)|(_ & _ & z & ->)].
    - symmetry. apply Ho. intros ->. rewrite owns_self in Ha. pose proof (hi_once _ _ Hi (sl_array b)). lia.
    - rewrite array_at_alloc. case_decide as En; [|done]. subst.
      pose proof (slice_owns_nonneg (h_next (st_mem s)) b).
      destruct (hi_room _ _ Hi (h_next (st_mem s)) ltac:(lia)). lia. }
  split.
  - transitivity (view h (with_worker w (WMirrored m (mkUDPMsg (raddr m) x)) s)); [done|].
    rewrite view_worker. rewrite !view_worker in Hv.
    assert (map_msg (heap_bytes h) m = map_msg (heap_bytes (st_mem s)) m) as Em.
    { apply (f_equal (fun v => st_workers v !! w)) in Hv. cbn in Hv.
      rewrite !list_lookup_insert_eq in Hv by (rewrite length_fmap; by eapply lookup_lt_Some). congruence. }
    cbn [map_worker] in *. rewrite Em in *. apply (f_equal (with_worker w (WMirrored (map_msg (heap_bytes (st_mem s)) m)
      (mkUDPMsg (raddr m) (heap_bytes (st_mem s) (body m)))))) in Hv. rewrite !with_worker_twice in Hv.
    unfold map_msg at 2. cbn [raddr body]. rewrite Hx. by rewrite <- Hv.
  - destruct Hc as [(Ha & Hn & Ho & Hl)|(Ha & Hl & z & ->)].
    + apply (heap_inv_less _ s); [done|..|apply Hi]; intros; cbn; try lia; [|apply Hl].
      rewrite owners_mem, (owners_worker _ _ _ _ _ Ew), Hp. cbn. unfold msg_owns at 3, slice_owns. cbn. rewrite Ha. lia.
    + apply (heap_inv_fresh _ s _ z); [done|..|apply Hi]; cbn; try done.
      * rewrite array_at_alloc, decide_True in Hl by done.
        pose proof (worker_owner (sl_array b) _ _ _ Ew) as Hw. cbn in Hw. rewrite owns_self in Hw.
        pose proof (msg_owns_nonneg (sl_array b) m). destruct (hi_room _ _ Hi (sl_array b) ltac:(lia)). lia.
      * intros a. rewrite owners_mem, (owners_worker _ _ _ _ _ Ew). cbn. unfold msg_owns at 3, slice_owns at 2. cbn.
        rewrite Ha. pose proof (slice_owns_nonneg a b). lia.
Qed.

Lemma contents_with_worker w q s :
  contents (with_worker w q s) = with_worker w (map_worker (fun _ => tt) (heap_bytes (st_mem s)) q) (contents s).
Proof. apply view_worker. Qed.

(** A worker goes on with what it has, or less. *)
Lemma worker_move_ok w p q s :
  heap_inv (su_size su) s -> st_workers s !! w = Some p -> (forall a, worker_owns a q <= worker_owns a p) ->
  heap_inv (su_size su) (with_worker w q s).
Proof.
  intros Hi Ew Hq. apply (heap_inv_move s); [done..| |cbn; apply Hi]. intros a.
  rewrite (owners_worker _ _ _ _ _ Ew). specialize (Hq a). lia.
Qed.

Lemma worker_step_ok w l s o :
  heap_inv (su_size su) s -> worker_step (H := heap_memory (su_size su) spare) w l s = Some o ->
  worker_step (H := value_memory (su_size su)) w l (contents s) = Some (outcome_map contents o) /\
  match o with Running s' => heap_inv (su_size su) s' | Crashed c => c <> SliceBounds end.
Proof.
  intros Hi. unfold worker_step. rewrite contents_worker.
  destruct (st_workers s !! w) as [p|] eqn:Ew; [|done]. cbn.
  destruct l, p as [|b| |m|m b|m mm|m seen|]; cbn; intros Hs; try done.
  - destruct (heap_Get _ c _) as [[h b]|] eqn:Eg; [|done]. cbn in *. simplify_eq.
    destruct (worker_Get_ok c w _ (WTop b) s h b Hi Ew Eg) as (Hc & _ & Hn); [done|]. cbn. by rewrite Hc.
  - destruct (BPut_ok w b s Hi Ew) as (h & Eh & Hc & Hn). rewrite Eh in Hs. simplify_eq. cbn. by rewrite Hc.
  - destruct (st_UDPCh s) as [|m q] eqn:Eq; [done|]. cbn. simplify_eq. cbn. split.
    + unfold contents, view, map_state, with_worker, with_workers, with_UDPCh. cbn. by rewrite list_fmap_insert.
    + move_inv s a; [|apply Hi]. rewrite Eq, (total_insert _ _ _ _ _ Ew). unfold total. cbn. lia.
  - simplify_eq. cbn. rewrite contents_with_worker. split; [done|]. by apply (worker_move_ok w _ _ _ Hi Ew).
  - destruct (st_UDPCh s) eqn:Eq; [|done]. cbn. case_match; [|done]. simplify_eq. cbn. rewrite contents_with_worker.
    split; [done|]. by apply (worker_move_ok w _ _ _ Hi Ew).
  - case_match; [done|]. simplify_eq. cbn. rewrite contents_with_worker. split; [done|].
    by apply (worker_move_ok w _ _ _ Hi Ew).
  - case_match; [|done]. destruct (heap_Get _ c _) as [[h b]|] eqn:Eg; [|done]. cbn in *. simplify_eq.
    destruct (worker_Get_ok c w _ (WMirror m b) s h b Hi Ew Eg) as (Hc & Hm & Hn); [done|]. cbn in *. rewrite Hc.
    split; [|done]. by replace (map_msg (heap_bytes h) m) with (map_msg (heap_bytes (st_mem s)) m) by congruence.
  - destruct (heap_append_to spare b (body m) (st_mem s)) as [h x] eqn:E. simplify_eq. cbn.
    destruct (BCopy_ok w m b s h x Hi Ew E) as [Hc Hn]. by rewrite Hc.
  - simplify_eq. cbn. split.
    + unfold contents, view, map_state, with_worker, with_workers, with_channels. cbn. rewrite list_fmap_insert.
      unfold try_send. rewrite len_fmap. by destruct (len (st_MCh s) <? chan_cap); rewrite ?fmap_app.
    + move_inv s a; [|apply Hi]. rewrite (total_insert _ _ _ _ _ Ew). cbn.
      pose proof (try_send_total (msg_owns a) mm (st_MCh s) (msg_owns_nonneg a mm)). lia.
  - destruct (heap_bytes (st_mem s) (body m) !! i) as [x|] eqn:Ex; [|done]. cbn in *. simplify_eq. cbn.
    rewrite contents_with_worker. split; [done|]. by apply (worker_move_ok w _ _ _ Hi Ew).
  - simplify_eq. cbn. split.
    + unfold contents, view, map_state, with_worker, with_workers, with_history. cbn. by rewrite list_fmap_insert.
    + move_inv s a; [|apply Hi]. by rewrite (total_insert _ _ _ _ _ Ew), Z.sub_add.
  - by simplify_eq.
Qed.

(** *** The mirror *)

Lemma dispatcher_step_ok l s o :
  heap_inv (su_size su) s -> dispatcher_step su l s = Some o ->
  dispatcher_step su l (contents s) = Some (outcome_map contents o) /\
  match o with Running s' => heap_inv (su_size su) s' | Crashed c => c <> SliceBounds end.
Proof.
  intros Hi. unfold dispatcher_step. cbn. destruct l; try done.
  - case_match; [|done]. intros ?. simplify_eq. split; [done|]. move_inv s a; [done|apply Hi].
  - destruct (st_held s) as [m|] eqn:Eh, (st_MCh s) as [|m' q] eqn:Eq; try done. cbn. case_match; [|done]. intros ?. simplify_eq.
    split; [done|]. move_inv s a; [|apply Hi]. rewrite Eh, Eq. unfold total. cbn. lia.
  - destruct (st_held s) as [m|] eqn:Eh; [|done]. cbn. rewrite !len_fmap.
    repeat case_match; try done; intros ?; simplify_eq; (split; [|move_inv s a; [|apply Hi]]).
    1, 3: by unfold contents, view, map_state; cbn; rewrite fmap_app.
    all: rewrite Eh, total_snoc; cbn; lia.
Qed.

Lemma contents_with_sender k q s :
  contents (with_sender k q s) = with_sender k (map_sender (heap_bytes (st_mem s)) q) (contents s).
Proof. unfold contents, view, map_state, with_sender, with_senders. cbn. by rewrite list_fmap_insert. Qed.

Lemma sender_move_ok k p q s :
  heap_inv (su_size su) s -> st_senders s !! k = Some p -> (forall a, sender_owns a q <= sender_owns a p) ->
  heap_inv (su_size su) (with_sender k q s).
Proof.
  intros Hi Ek Hq. apply (heap_inv_move s); [done..| |cbn; apply Hi]. intros a.
  rewrite (owners_sender _ _ _ _ _ Ek). specialize (Hq a). lia.
Qed.

Lemma BSPut_ok k m n p s :
  heap_inv (su_size su) s -> st_senders s !! k = Some (SCopied m n p) ->
  exists h, heap_Put (su_size su) (body m) (st_mem s) = Some h /\
    contents (with_mem h (with_sender k (SSend (raddr m) n p) s)) =
      with_mem tt (with_sender k (SSend (raddr m) n p) (contents s)) /\
    heap_inv (su_size su) (with_mem h (with_sender k (SSend (raddr m) n p) s)).
Proof.
  intros Hi Ek. eexists. split.
  { apply heap_Put_owned; [done|]. pose proof (sender_owner (sl_array (body m)) _ _ _ Ek) as H. cbn in H.
    unfold msg_owns in H. rewrite owns_self in H. lia. }
  split.
  - pose proof (put_view (with_sender k (SSend (raddr m) n p) s) (body m)) as Hv. cbn in Hv.
    transitivity (contents (with_sender k (SSend (raddr m) n p) s)); [exact Hv|]. by rewrite contents_with_sender.
  - apply (heap_inv_less _ s); [done|..|apply Hi]; intros; cbn; try lia; [|done].
    rewrite owners_mem, (owners_sender _ _ _ _ _ Ek). cbn. rewrite total_snoc. unfold msg_owns, slice_owns. lia.
Qed.

Lemma sender_step_ok k l s o :
  heap_inv (su_size su) s -> sender_step (H := heap_memory (su_size su) spare) su k l s = Some o ->
  sender_step (H := value_memory (su_size su)) su k l (contents s) = Some (outcome_map contents o) /\
  match o with Running s' => heap_inv (su_size su) s' | Crashed c => c <> SliceBounds end.
Proof.
  intros Hi. unfold sender_step. cbn [contents view map_state st_senders]. rewrite list_lookup_fmap.
  destruct (st_senders s !! k) as [p|] eqn:Ek; [|done]. cbn.
  destruct l, p as [| |m|m n p|a n p|]; cbn; intros Hs; try done.
  - simplify_eq. cbn. rewrite contents_with_sender. split; [by destruct ok|]. apply (sender_move_ok k _ _ _ Hi Ek). by destruct ok.
  - destruct (is4 (su_dst su)).
    + destruct (st_ch4 s) as [|m q] eqn:Eq; [done|]. cbn. simplify_eq. cbn. split.
      * unfold contents, view, map_state, with_sender, with_senders, with_channels. cbn. by rewrite list_fmap_insert.
      * move_inv s a; [|apply Hi]. rewrite Eq, (total_insert _ _ _ _ _ Ek). unfold total. cbn. lia.
    + destruct (st_ch6 s) as [|m q] eqn:Eq; [done|]. cbn. simplify_eq. cbn. split.
      * unfold contents, view, map_state, with_sender, with_senders, with_channels. cbn. by rewrite list_fmap_insert.
      * move_inv s a; [|apply Hi]. rewrite Eq, (total_insert _ _ _ _ _ Ek). unfold total. cbn. lia.
  - case_match; simplify_eq; cbn; [|done]. rewrite contents_with_sender. split; [done|].
    by apply (sender_move_ok k _ _ _ Hi Ek).
  - destruct (BSPut_ok k m n p s Hi Ek) as (h & Eh & Hc & Hn). rewrite Eh in Hs. simplify_eq. cbn. by rewrite Hc.
  - case_match; simplify_eq; cbn; [|done]. destruct ok.
    + split.
      * unfold contents, view, map_state, with_sender, with_senders, with_history. cbn. by rewrite list_fmap_insert.
      * move_inv s x; [|apply Hi]. rewrite (total_insert _ _ _ _ _ Ek). cbn. lia.
    + rewrite contents_with_sender. split; [done|]. by apply (sender_move_ok k _ _ _ Hi Ek).
Qed.

(** One step of the goroutines on the heap is the step with the bytes themselves. *)
Lemma buffer_step_ok l s o : heap_inv (su_size su) s -> heap_step l s = Some o -> step_ok l s o.
Proof.
  intros Hi. destruct l as [| |c| | |a d| | |w c|w|w|w|w|w|w c|w|w|w i|w|w|k| | | |k ok|k|k|k|k ok]; intros Hs;
    lazymatch goal with
    | |- step_ok BSpawn _ _ => idtac
    | |- step_ok (BDrop _) _ _ => idtac
    | w : nat, _ : Choice |- step_ok ?l _ _ => exact (worker_step_ok w l s o Hi Hs)
    | k : nat |- step_ok ?l _ _ => first [exact (worker_step_ok k l s o Hi Hs)|exact (sender_step_ok k l s o Hi Hs)
                                         |exact (worker_step_ok w l s o Hi Hs)]
    | |- step_ok ?l _ _ => first [exact (read_step_ok l s o Hi Hs)|exact (dispatcher_step_ok l s o Hi Hs)]
    end.
  - unfold heap_step in Hs. cbn in Hs. simplify_eq. unfold step_ok, value_step. cbn. split.
    + unfold contents, view, map_state, with_workers. cbn. rewrite fmap_app. by destruct (su_initial su).
    + move_inv s a; [|apply Hi]. rewrite total_snoc. destruct (su_initial su); cbn; lia.
  - unfold heap_step in Hs. cbn in Hs. unfold heap_drop in Hs. destruct (h_pool (st_mem s) !! k) as [a|] eqn:Ek; [|done].
    cbn in Hs. simplify_eq. unfold step_ok, value_step. cbn. split.
    + done.
    + apply (heap_inv_less _ s); [done|..|apply Hi]; intros; cbn; try lia; [|done]. rewrite owners_mem. cbn [h_pool].
      rewrite (total_delete _ _ _ _ Ek). pose proof (at_array_bounds a0 a). lia.
Qed.

Definition heap_run : list blabel -> HeapState -> option (Outcome HeapState) :=
  buffer_run (H := heap_memory (su_size su) spare) su.
Definition value_run : list blabel -> ValueState -> option (Outcome ValueState) :=
  buffer_run (H := value_memory (su_size su)) su.

Definition heap_start : HeapState := state_init su heap_init.
Definition value_start : ValueState := state_init su tt.

Lemma heap_inv_start : heap_inv (su_size su) heap_start.
Proof.
  assert (forall a, owners a heap_start = 0) as H.
  { intros a. unfold owners, heap_start, state_init. cbn. rewrite (total_zero (sender_owns a)); [done|].
    intros p Hp. destruct (su_mirror su); [|done]. apply list_elem_of_In, elem_of_replicate in Hp as [-> _]. done. }
  split; [..|done]; intros a; rewrite (H a); lia.
Qed.

Lemma contents_start : contents heap_start = value_start.
Proof.
  unfold contents, view, map_state, heap_start, value_start, state_init. cbn. f_equal.
  destruct (su_mirror su); [|done]. by rewrite fmap_replicate.
Qed.

Lemma run_ok ls s o :
  heap_inv (su_size su) s -> heap_run ls s = Some o ->
  value_run ls (contents s) = Some (outcome_map contents o) /\
  match o with Running s' => heap_inv (su_size su) s' | Crashed c => c <> SliceBounds end.
Proof.
  unfold heap_run, value_run. revert s. induction ls as [|l ls IH]; intros s Hi; cbn [buffer_run]; [intros ?; by simplify_eq|].
  destruct (buffer_step su l s) as [[s'|c]|] eqn:Es; [..|done];
    destruct (buffer_step_ok l s _ Hi Es) as [Hv Hn]; unfold value_step in Hv; rewrite Hv; cbn.
  - intros Hr. by apply IH.
  - destruct ls; [|done]. intros ?. by simplify_eq.
Qed.

(** A label that always finds the buffer it asks for. *)
Definition fresh_label (l : blabel) : bool :=
  match l with
  | BGet (Pooled _) | BStart _ (Pooled _) | BMirror _ (Pooled _) | BDrop _ => false
  | _ => true
  end.

Lemma fresh_worker w l s :
  fresh_label l = true -> worker_step (H := heap_memory (su_size su) spare) w l s = None ->
  worker_step (H := value_memory (su_size su)) w l (contents s) = None.
Proof.
  intros Hf. unfold worker_step. rewrite contents_worker. destruct (st_workers s !! w) as [p|]; [|done]. cbn.
  destruct l as [| |c| | |a d| | |v c|v|v|v|v|v|v c|v|v|v i|v|v|k| | | |k ok|k|k|k|k ok], p as [|b| |m|m b|m mm|m seen|];
    try done; try (destruct c; [|done]); cbn; try done.
  - by destruct (heap_Put _ b (st_mem s)).
  - by destruct (st_UDPCh s).
  - destruct (st_UDPCh s); [|done]. cbn. by destruct (st_closed s).
  - by destruct (st_mirror s).
  - by destruct (st_mirror s).
  - by destruct (heap_append_to spare b (body m) (st_mem s)).
  - by destruct (heap_bytes (st_mem s) (body m) !! i).
Qed.

Lemma fresh_sender k l s :
  sender_step (H := heap_memory (su_size su) spare) su k l s = None ->
  sender_step (H := value_memory (su_size su)) su k l (contents s) = None.
Proof.
  unfold sender_step. cbn [contents view map_state st_senders]. rewrite list_lookup_fmap.
  destruct (st_senders s !! k) as [p|]; [|done]. cbn.
  destruct l, p as [| |m|m n p|a n p|]; cbn; try done.
  - destruct (is4 _); [by destruct (st_ch4 s)|by destruct (st_ch6 s)].
  - by case_match.
  - by destruct (heap_Put _ (body m) (st_mem s)).
  - by case_match.
Qed.

Lemma fresh_enabled l s : fresh_label l = true -> heap_step l s = None -> value_step l (contents s) = None.
Proof.
  unfold heap_step, value_step. intros Hf.
  destruct l as [| |c| | |a d| | |w c|w|w|w|w|w|w c|w|w|w i|w|w|k| | | |k ok|k|k|k|k ok]; cbn [buffer_step];
    try (by apply fresh_worker); try (by apply fresh_sender); try done.
  - cbn. by case_match.
  - destruct c; [|done]. cbn. destruct (st_read s); cbn; try done. by case_match.
  - cbn. destruct (st_read s); cbn; try done. by case_match.
  - cbn. destruct (st_read s); cbn; try done.
  - cbn. destruct (st_read s) as [|b| |]; cbn; try done.
  - cbn. destruct (st_read s); cbn; try done. rewrite len_fmap. by repeat case_match.
  - cbn. by case_match.
  - cbn. destruct (st_held s), (st_MCh s); cbn; try done. by case_match.
  - cbn. destruct (st_held s); cbn; try done. rewrite !len_fmap. by repeat case_match.
Qed.

Lemma fresh_run ls s v :
  heap_inv (su_size su) s -> Forall (fun l => fresh_label l = true) ls -> value_run ls (contents s) = Some v ->
  exists o, heap_run ls s = Some o.
Proof.
  intros Hi Hf. revert s Hi. unfold value_run, heap_run. induction Hf as [|l ls Hl _ IH]; intros s Hi; cbn [buffer_run]; [eauto|].
  destruct (buffer_step (H := heap_memory (su_size su) spare) su l s) as [o|] eqn:Es.
  - destruct (buffer_step_ok l s o Hi Es) as [Hv Hn]. unfold value_step in Hv. rewrite Hv.
    destruct o as [s'|c]; cbn; [by apply IH|]. destruct ls; [eauto|done].
  - pose proof (fresh_enabled l s Hl Es) as E. unfold value_step in E. by rewrite E.
Qed.
End steps_sound.

(** ** Every datagram is decoded once, as it was received *)

Section values.
Context (su : Setup).

Abbreviation datagram := (fun m : UDPMsg (list byte) => (raddr m, body m)).

(** The datagrams the collector has received and not decoded. *)
Definition read_hand (p : ReadLoop unit (list byte)) : list (list byte * list byte) :=
  match p with RFull m => [datagram m] | _ => [] end.

Definition worker_hand (p : Worker unit (list byte)) : list (list byte * list byte) :=
  match p with
  | WGot m | WMirror m _ | WMirrored m _ | WDecode m _ => [datagram m]
  | _ => []
  end.

Definition in_hand (v : ValueState) : list (list byte * list byte) :=
  read_hand (st_read v) ++ (datagram <$> st_UDPCh v) ++ (st_workers v ≫= worker_hand).

Definition decoded_datagram (d : Decoded) : list byte * list byte := (de_raddr d, de_bytes d).

(** The bytes a worker saw are those of the datagram, where it looked. *)
Definition seen_ok (data : list byte) (seen : list (nat * byte)) : Prop :=
  Forall (fun p => data !! p.1 = Some p.2) seen.

(** What a goroutine has past the mirror, and what the mirror has of it. *)
Section weights.
Context (f : list byte * list byte -> Z).

Definition worker_passed (p : Worker unit (list byte)) : Z :=
  match p with WMirrored m _ | WDecode m _ => f (datagram m) | _ => 0 end.

Definition worker_copy (p : Worker unit (list byte)) : Z :=
  match p with WMirrored _ mm => f (datagram mm) | _ => 0 end.

Definition sender_copy (p : Sender (list byte)) : Z :=
  match p with
  | SHave m | SCopied m _ _ => f (datagram m)
  | SSend a n p => if ipHLen su + UDPHLen + n <=? UDPSize su then f (a, p) else 0
  | _ => 0
  end.

Definition copies (v : ValueState) : Z :=
  total worker_copy (st_workers v) + total (fun m => f (datagram m)) (st_MCh v) +
  match st_held v with Some m => f (datagram m) | None => 0 end +
  total (fun m => f (datagram m)) (st_ch4 v) + total (fun m => f (datagram m)) (st_ch6 v) +
  total sender_copy (st_senders v) + total f (st_sent v).

Definition passed (v : ValueState) : Z :=
  total worker_passed (st_workers v) + total (fun d => f (decoded_datagram d)) (st_decoded v).

Definition undecoded (v : ValueState) : Z :=
  total f (read_hand (st_read v)) + total (fun m => f (datagram m)) (st_UDPCh v) +
  total (fun p => total f (worker_hand p)) (st_workers v).
End weights.

Definition worker_true (p : Worker unit (list byte)) : Prop :=
  match p with WMirrored m mm => mm = m | WDecode m seen => seen_ok (body m) seen | _ => True end.

Definition sender_true (p : Sender (list byte)) : Prop :=
  match p with
  | SCopied m n p => n = len (body m) /\ p = take (Z.to_nat (UDPSize su - ipHLen su - UDPHLen)) (body m)
  | _ => True
  end.

Record value_inv (v : ValueState) : Prop := {
  vi_received : forall f, total f (st_received v) = undecoded f v + total (fun d => f (decoded_datagram d)) (st_decoded v);
  vi_mirror : forall f, (forall d, 0 <= f d) -> copies f v <= passed f v;
  vi_workers : Forall worker_true (st_workers v);
  vi_senders : Forall sender_true (st_senders v);
  vi_seen : Forall (fun d => seen_ok (de_bytes d) (de_seen d)) (st_decoded v)
}.

Lemma value_inv_start : value_inv (value_start su).
Proof.
  unfold value_start, state_init. split; cbn; try done.
  - intros f Hf. unfold copies, passed. cbn. rewrite (total_zero (sender_copy f)); [done|].
    intros p Hp. destruct (su_mirror su); [|done]. apply list_elem_of_In, elem_of_replicate in Hp as [-> _]. done.
  - destruct (su_mirror su); [|done]. by apply Forall_replicate.
Qed.

(** The invariant after a step that leaves most of the state alone. *)
Lemma value_inv_step v v' :
  value_inv v ->
  (forall f, total f (st_received v') - undecoded f v' - total (fun d => f (decoded_datagram d)) (st_decoded v') =
             total f (st_received v) - undecoded f v - total (fun d => f (decoded_datagram d)) (st_decoded v)) ->
  (forall f, (forall d, 0 <= f d) -> copies f v' - passed f v' <= copies f v - passed f v) ->
  Forall worker_true (st_workers v') -> Forall sender_true (st_senders v') ->
  Forall (fun d => seen_ok (de_bytes d) (de_seen d)) (st_decoded v') -> value_inv v'.
Proof.
  intros [H1 H2 H3 H4 H5] E1 E2 F1 F2 F3. split; try done; intros f.
  - specialize (H1 f). specialize (E1 f). lia.
  - intros Hf. specialize (H2 f Hf). specialize (E2 f Hf). lia.
Qed.

#[local] Existing Instance value_memory.

Lemma value_read_step l v v' :
  value_inv v -> read_step (H := value_memory (su_size su)) l v = Some (Running v') -> value_inv v'.
Proof.
  intros Hi Hs. destruct l; cbn in Hs; try done.
  all: destruct (st_read v) eqn:Er; try done; cbn in Hs; repeat case_match; simplify_eq; try apply Hi.
  all: apply (value_inv_step v); [done|intros f; unfold undecoded; cbn; rewrite ?Er, ?total_snoc; unfold total; cbn; lia
    |intros f Hf; unfold copies, passed; cbn; lia|apply Hi..].
Qed.

Lemma true_insert w q v : value_inv v -> worker_true q -> Forall worker_true (<[w := q]> (st_workers v)).
Proof. intros Hi Hq. apply Forall_insert; [apply Hi|done]. Qed.

Lemma value_worker_step w l v v' :
  value_inv v -> worker_step (H := value_memory (su_size su)) w l v = Some (Running v') -> value_inv v'.
Proof.
  intros Hi. unfold worker_step. destruct (st_workers v !! w) as [p|] eqn:Ew; [|done]. cbn.
  pose proof (proj1 (Forall_lookup _ _) (vi_workers _ Hi) _ _ Ew) as Hp.
  destruct l, p as [|b| |m|m b|m mm|m seen|]; cbn in *; try done; intros Hs.
  3: destruct (st_UDPCh v) as [|m q] eqn:Eq; [done|].
  5: destruct (st_UDPCh v) as [|m q] eqn:Eq; [|done].
  all: repeat case_match; simplify_eq; try done.
  10: destruct (body m !! i) as [x|] eqn:Ex; [|done]; cbn in Hs; simplify_eq.
  all: apply (value_inv_step v); [done|intros f; unfold undecoded|intros f Hf; unfold copies, passed| | |]; cbn;
    rewrite ?(total_insert _ _ _ _ _ Ew), ?total_snoc, ?Eq; try apply Hi; try (by apply true_insert);
    try (cbn; unfold total; cbn; lia).
  all: try (unfold decoded_datagram; cbn; pose proof (Hf (raddr m, body m)); unfold total; cbn; lia).
  all: try (apply true_insert; [done|]; first [by destruct m|apply Forall_nil_2]).
  - pose proof (try_send_total (fun m => f (raddr m, body m)) m (st_MCh v) (Hf _)). cbn in *. lia.
  - apply true_insert; [done|]. cbn. apply Forall_app_2; [done|]. by apply Forall_singleton.
  - unfold decoded_datagram. cbn. unfold total. cbn. lia.
  - apply Forall_app_2; [apply Hi|]. by apply Forall_singleton.
Qed.

Lemma value_dispatcher_step l v v' : value_inv v -> dispatcher_step su l v = Some (Running v') -> value_inv v'.
Proof.
  intros Hi. unfold dispatcher_step. destruct l, (st_held v) as [m|] eqn:Eh; try done.
  3: destruct (st_MCh v) as [|m q] eqn:Eq; [done|].
  all: intros Hs; repeat case_match; simplify_eq; try done.
  all: apply (value_inv_step v); [done|intros f; unfold undecoded|intros f Hf; unfold copies, passed| | |]; cbn;
    rewrite ?total_snoc, ?Eq, ?Eh; try apply Hi; try (unfold total; cbn; lia).
Qed.

(** A packet that is long enough carries the whole datagram. *)
Lemma sender_copy_put f m n p :
  (forall d, 0 <= f d) -> sender_true (SCopied m n p) -> sender_copy f (SSend (raddr m) n p) <= f (datagram m).
Proof.
  intros Hf [-> ->]. cbn. case_match eqn:E; [|apply Hf]. apply Z.leb_le in E. rewrite take_ge; [done|].
  unfold len in E. lia.
Qed.

Lemma value_sender_step k l v v' :
  value_inv v -> sender_step (H := value_memory (su_size su)) su k l v = Some (Running v') -> value_inv v'.
Proof.
  intros Hi. unfold sender_step. destruct (st_senders v !! k) as [p|] eqn:Ek; [|done]. cbn.
  pose proof (proj1 (Forall_lookup _ _) (vi_senders _ Hi) _ _ Ek) as Hp.
  destruct l, p as [| |m|m n p|a n p|]; cbn in *; try done; intros Hs.
  2: destruct (is4 _); [destruct (st_ch4 v) as [|m q] eqn:Eq; [done|]|destruct (st_ch6 v) as [|m q] eqn:Eq; [done|]].
  all: repeat case_match; simplify_eq; try done.
  all: apply (value_inv_step v); [done|intros f; unfold undecoded|intros f Hf; unfold copies, passed| | |]; cbn;
    rewrite ?(total_insert _ _ _ _ _ Ek), ?total_snoc, ?Eq; try apply Hi; 
    try (apply Forall_insert; [apply Hi|done]); try (unfold total; cbn; lia).
  - pose proof (sender_copy_put f m n p Hf Hp). cbn in *. lia.
  - cbn. rewrite H. lia.
  - cbn. rewrite H. pose proof (Hf (a, p)). lia.
Qed.

Lemma value_step_inv l v v' : value_inv v -> value_step su l v = Some (Running v') -> value_inv v'.
Proof.
  intros Hi. unfold value_step.
  destruct l; cbn [buffer_step]; try (by apply value_read_step); try (by apply value_worker_step);
    try (by apply value_dispatcher_step); try (by apply value_sender_step); intros Hs; cbn in Hs; simplify_eq.
  - apply (value_inv_step v); [done|intros f; unfold undecoded|intros f Hf; unfold copies, passed| | |]; cbn; rewrite ?total_snoc;
      try apply Hi; try (destruct (su_initial su); unfold total; cbn; lia).
    apply Forall_app_2; [apply Hi|]. apply Forall_singleton. by destruct (su_initial su).
  - by destruct Hi.
Qed.

Lemma value_run_inv ls v v' : value_inv v -> value_run su ls v = Some (Running v') -> value_inv v'.
Proof.
  unfold value_run. revert v. induction ls as [|l ls IH]; intros v Hi; cbn [buffer_run]; [intros ?; by simplify_eq|].
  destruct (buffer_step su l v) as [[w|c]|] eqn:Es; [..|done].
  - apply IH. by apply (value_step_inv l v).
  - by destruct ls.
Qed.

Lemma undecoded_in_hand f v : total f (in_hand v) = undecoded f v.
Proof.
  unfold in_hand, undecoded. rewrite !total_app, total_bind, Z.add_assoc. f_equal. f_equal.
  by rewrite (total_map f (fun m => (raddr m, body m))).
Qed.

Section nonneg.
Context (f : list byte * list byte -> Z) (Hf : forall d, 0 <= f d).

Lemma sent_copies v : total f (st_sent v) <= copies f v.
Proof.
  assert (forall p, 0 <= worker_copy f p) as H1 by (intros []; cbn; done || apply Hf).
  assert (forall p, 0 <= sender_copy f p) as H2.
  { intros []; cbn; try done; try apply Hf. destruct (_ <=? _); [apply Hf|done]. }
  assert (0 <= match st_held v with Some m => f (raddr m, body m) | None => 0 end) as H3.
  { destruct (st_held v); [apply Hf|done]. }
  pose proof (fun l => total_nonneg (fun m => f (raddr m, body m)) l (fun m => Hf _)) as H4.
  pose proof (H4 (st_MCh v)). pose proof (H4 (st_ch4 v)). pose proof (H4 (st_ch6 v)).
  pose proof (total_nonneg _ (st_workers v) H1). pose proof (total_nonneg _ (st_senders v) H2). unfold copies. lia.
Qed.

Lemma passed_received v :
  passed f v <= undecoded f v + total (fun d => f (decoded_datagram d)) (st_decoded v).
Proof.
  assert (total (worker_passed f) (st_workers v) <= total (fun p => total f (worker_hand p)) (st_workers v)).
  { induction (st_workers v) as [|p l IH]; [done|]. pose proof Hf as Hd. unfold total in *. cbn.
    destruct p; cbn; try lia; specialize (Hd (raddr m, body m)); lia. }
  pose proof (total_nonneg f (read_hand (st_read v)) Hf).
  pose proof (total_nonneg (fun m => f (raddr m, body m)) (st_UDPCh v) (fun m => Hf _)).
  unfold passed, undecoded. lia.
Qed.
End nonneg.

(** What was received is in somebody's hands or decoded; what was mirrored was received. *)
Lemma value_conserved v :
  value_inv v ->
  Permutation (st_received v) (in_hand v ++ map decoded_datagram (st_decoded v)) /\ st_sent v ⊆+ st_received v.
Proof.
  intros Hi. split.
  - apply totals_permutation. intros f. rewrite (vi_received _ Hi), total_app, undecoded_in_hand. by rewrite total_map.
  - apply totals_submseteq. intros f Hf. rewrite (vi_received _ Hi). pose proof (vi_mirror _ Hi f Hf).
    pose proof (sent_copies f Hf v). pose proof (passed_received f Hf v). lia.
Qed.
End values.

(** ** The theorems *)

(** C5: the buffers of the pool cannot be told from values.  Whatever the goroutines of a
    collector do, in whatever order, and whichever buffers the pool gives: the run on shared
    arrays is, with the contents of the arrays in place of the slices, the same run in which
    every message carries its own bytes; in particular no datagram changes while it is
    queued, decoded, mirrored or sent, and handing a buffer back at its full size does not
    panic.  Conversely every run on values is a run on arrays. *)
Theorem buffers_refine (su : Setup) (spare : nat -> nat) (ls : list blabel) :
  (forall o, heap_run su spare ls (heap_start su) = Some o ->
     value_run su ls (value_start su) = Some (outcome_map contents o) /\ o <> Crashed SliceBounds) /\
  (forall v, Forall (fun l => fresh_label l = true) ls -> value_run su ls (value_start su) = Some v ->
     exists o, heap_run su spare ls (heap_start su) = Some o /\ v = outcome_map contents o).
Proof.
  rewrite <- contents_start. split.
  - intros o Hr. destruct (run_ok su spare ls _ o (heap_inv_start su) Hr) as [Hv Ho]. split; [done|].
    by destruct o; [|intros [= ->]].
  - intros v Hf Hv. destruct (fresh_run su spare ls _ v (heap_inv_start su) Hf Hv) as [o Ho]. exists o. split; [done|].
    destruct (run_ok su spare ls _ o (heap_inv_start su) Ho) as [H _]. congruence.
Qed.

(** C6: no datagram is lost, changed or counted twice.  At any time the datagrams received
    are those in the hands of the read loop, the channel and the workers, as the shared
    arrays hold them now, and the decoded ones; what a worker saw while it decoded, at
    whatever times it looked, is the datagram; and the datagrams the mirror has sent are
    datagrams that were received, each at most once. *)
Theorem buffers_conserve (su : Setup) (spare : nat -> nat) (ls : list blabel) (s : HeapState) :
  heap_run su spare ls (heap_start su) = Some (Running s) ->
  Permutation (st_received s) (in_hand (contents s) ++ map decoded_datagram (st_decoded s)) /\
  Forall (fun d => seen_ok (de_bytes d) (de_seen d)) (st_decoded s) /\
  st_sent s ⊆+ st_received s.
Proof.
  intros Hr. destruct (run_ok su spare ls _ _ (heap_inv_start su) Hr) as [Hv _]. rewrite contents_start in Hv.
  pose proof (value_run_inv su ls _ _ (value_inv_start su) Hv) as Hi.
  destruct (value_conserved su _ Hi) as [H1 H2]. pose proof (vi_seen _ _ Hi). done.
Qed.

(** ** A run *)

Definition example_setup : Setup := mkSetup 64 true true (bytes [192; 0; 2; 1]) 1.
Definition exporter : list byte := bytes [10; 0; 0; 1].

(** Two datagrams: the second is read, into the buffer the first worker put back, while the
    first is mirrored and decoded. *)
Definition example_labels : list blabel :=
  [BSpawn; BEnable; BSDial 0 true; BStart 0 New; BPut 0; BGet (Pooled 0); BRead exporter (bytes [1; 2; 3]); BSend;
   BGet New; BTake 0; BMirror 0 New; BCopy 0; BOffer 0; BLook 0 1; BRead exporter (bytes [4; 5]); BSend; BLook 0 2;
   BDone 0; BPut 0; BGet (Pooled 0); BTake 0; BRecv; BDispatch; BSTake 0; BSCopy 0; BSPut 0; BSSend 0 true].

Abbreviation example_run := (heap_run example_setup (fun n => n) example_labels (heap_start example_setup)).

Definition example_end : HeapState :=
  match example_run with Some (Running s) => s | _ => heap_start example_setup end.

Lemma example_runs : example_run = Some (Running example_end).
Proof. vm_compute. reflexivity. Qed.

Lemma buffers_refine_witness :
  value_run example_setup example_labels (value_start example_setup) = Some (Running (contents example_end)) /\
  st_UDPCh (contents example_end) = [] /\ st_sent example_end = [(exporter, bytes [1; 2; 3])].
Proof.
  destruct (buffers_refine example_setup (fun n => n) example_labels) as [H _].
  split; [exact (proj1 (H _ example_runs))|]. split; vm_compute; reflexivity.
Defined.

Lemma buffers_conserve_witness :
  Permutation (st_received example_end) (in_hand (contents example_end) ++ map decoded_datagram (st_decoded example_end)) /\
  st_decoded example_end = [mkDecoded exporter (bytes [1; 2; 3]) [(1%nat, x02); (2%nat, x03)]] /\
  in_hand (contents example_end) = [(exporter, bytes [4; 5])].
Proof.
  split; [|split; vm_compute; reflexivity].
  exact (proj1 (buffers_conserve example_setup (fun n => n) example_labels example_end example_runs)).
Defined.
