(* ===== verification/BufferDrains.v ===== *)
(** The workers of a collector get everything done, as long as every decode returns.  A worker
    waits for nothing but the channel of datagrams: the sends to the mirror and to the queue
    do not block, and the pool always has a buffer.  So once the read loop has returned, the
    workers make only so many more steps, in whatever order, and stop with every datagram
    decoded.  On which datagrams a decoder does not return, or panics, is shown in
    IpfixDecode.v, NetflowProps.v, Packet.v and SFlowProps.v. *)

From S2P Require Import Prelude GoNet Packet Mirror Collector Options Dispatcher Buffers BufferFacts Totals.

Open Scope Z_scope.

#[local] Arguments total : simpl never.

(** A step in the loop of a worker, other than a look at a byte, the panic of a decoder, and
    the end that [dynWorkers] asks for. *)
Definition is_work (l : blabel) : bool :=
  match l with
  | BStart _ _ | BPut _ | BTake _ | BClosed _ | BSkip _ | BMirror _ _ | BCopy _ | BOffer _ | BDone _ => true
  | _ => false
  end.

(** The steps a worker has before it, at most. *)
Definition worker_steps {R B} (p : Worker R B) : Z :=
  match p with
  | WGot _ => 6 | WMirror _ _ => 5 | WMirrored _ _ => 4 | WDecode _ _ => 3 | WStart => 3 | WTop _ => 2 | WWait => 1
  | WReturned => 0
  end.

Definition work_left {Mem R B} (s : State Mem R B) : Z :=
  6 * len (st_UDPCh s) + total worker_steps (st_workers s).

Lemma work_left_nonneg {Mem R B} (s : State Mem R B) : 0 <= work_left s.
Proof.
  pose proof (total_nonneg worker_steps (st_workers s) ltac:(by intros [])). unfold work_left, len. lia.
Qed.

(** A worker that has not returned. *)
Definition active {R B} (p : Worker R B) : bool := match p with WReturned => false | _ => true end.

(** There is somebody to take what is in the channel. *)
Definition attended {Mem R B} (s : State Mem R B) : Prop :=
  st_UDPCh s = [] \/ exists w p, st_workers s !! w = Some p /\ active p = true.

Section work.
Context (su : Setup).

(** Whatever the memory: a step of a worker leaves less to do, does not touch the read loop,
    and a worker returns only when it finds the channel empty. *)
Lemma work_step {Mem R B} `{Memory Mem R B} l (s s' : State Mem R B) :
  is_work l = true -> buffer_step su l s = Some (Running s') ->
  work_left s' < work_left s /\ (st_read s' = st_read s /\ st_received s' = st_received s) /\
  (attended s -> attended s').
Proof.
  intros Hl E.
  assert (exists w, worker_step w l s = Some (Running s')) as [w E'] by (destruct l; try done; eauto). clear E.
  unfold worker_step in E'. destruct (st_workers s !! w) as [p|] eqn:Ew; [|done]. cbn in E'.
  assert (forall q (v : State Mem R B), active q = true -> st_workers v = <[w := q]> (st_workers s) ->
    exists w p, st_workers v !! w = Some p /\ active p = true) as Ha.
  { intros q v Hq Ev. exists w, q. split; [|done]. rewrite Ev, list_lookup_insert_eq; [done|]. by eapply lookup_lt_Some. }
  destruct l, p as [|b| |m|m b|m mm|m seen|]; try done; cbn in E'.
  all: try (destruct (st_mirror s); try done).
  all: try (destruct (pool_Get c (st_mem s)) as [[mem b]|]; [|done]; cbn in E').
  all: try (destruct (append_to b (body m) (st_mem s)) as [mem x]).
  all: repeat case_match; simplify_eq; (split; [|split; [done|]]).
  all: try (unfold work_left; cbn; rewrite (total_insert _ _ _ _ _ Ew); cbn;
    repeat match goal with H : st_UDPCh _ = _ |- _ => rewrite H, ?len_cons end; lia).
  all: intros _; first [left; done | right; eapply Ha; [|cbn; reflexivity]; done].
Qed.

Lemma work_run {Mem R B} `{Memory Mem R B} ls (s : State Mem R B) s' :
  Forall (fun l => is_work l = true) ls -> buffer_run su ls s = Some (Running s') ->
  len ls + work_left s' <= work_left s /\ (st_read s' = st_read s /\ st_received s' = st_received s) /\
  (attended s -> attended s').
Proof.
  intros Hl. revert s. induction Hl as [|l ls Hl Hls IH]; intros s E; cbn in E.
  - simplify_eq. change (len []) with 0. split_and!; [lia|done..|auto].
  - destruct (buffer_step su l s) as [[s1|c]|] eqn:Es; [|by destruct ls|done].
    destruct (work_step l s s1 Hl Es) as (H1 & [H2 H2'] & H3). destruct (IH s1 E) as (H4 & [H5 H5'] & H6).
    rewrite len_cons. split_and!; [lia|congruence..|auto].
Qed.

(** The only panic of a worker is that of [Put]. *)
Lemma work_crash {Mem R B} `{Memory Mem R B} ls (s : State Mem R B) c :
  Forall (fun l => is_work l = true) ls -> buffer_run su ls s = Some (Crashed c) -> c = SliceBounds.
Proof.
  intros Hl. revert s. induction Hl as [|l ls Hl Hls IH]; intros s E; cbn in E; [done|].
  destruct (buffer_step su l s) as [[s1|c1]|] eqn:Es; [by apply (IH s1)| |done].
  destruct ls; [|done]. simplify_eq.
  assert (exists w, worker_step w l s = Some (Crashed c)) as [w E'] by (destruct l; try done; eauto). clear Es.
  unfold worker_step in E'. destruct (st_workers s !! w) as [p|]; [|done]. cbn in E'.
  destruct l, p as [|b| |m|m b|m mm|m seen|]; try done; cbn in E'.
  all: try (destruct (st_mirror s); try done).
  all: try (destruct (pool_Get c0 (st_mem s)) as [[mem b]|]; done).
  all: try (destruct (append_to b (body m) (st_mem s)) as [mem x]).
  all: repeat case_match; by simplify_eq.
Qed.

(** Where nobody can go on, on values: the channel is empty and nobody has a datagram. *)
Lemma value_stuck v :
  attended v -> (forall l, is_work l = true -> fresh_label l = true -> value_step su l v = None) ->
  st_UDPCh v = [] /\ Forall (fun p => worker_hand p = []) (st_workers v).
Proof.
  intros Ha Hs. assert (forall w p, st_workers v !! w = Some p -> p = WReturned \/ p = WWait) as Hw.
  { intros w p Ew. destruct p as [|b| |m|m b|m mm|m seen|]; [..|by left]; try (by right);
      [pose proof (Hs (BStart w New) eq_refl eq_refl) as H|pose proof (Hs (BPut w) eq_refl eq_refl) as H
      |destruct (st_mirror v) eqn:Em;
         [pose proof (Hs (BMirror w New) eq_refl eq_refl) as H|pose proof (Hs (BSkip w) eq_refl eq_refl) as H]
      |pose proof (Hs (BCopy w) eq_refl eq_refl) as H|pose proof (Hs (BOffer w) eq_refl eq_refl) as H
      |pose proof (Hs (BDone w) eq_refl eq_refl) as H];
      unfold value_step in H; cbn in H; unfold worker_step in H; rewrite Ew in H; cbn in H; rewrite ?Em in H; done. }
  split.
  - destruct Ha as [|(w & p & Ew & Hp)]; [done|]. destruct (Hw w p Ew) as [->| ->]; [done|].
    destruct (st_UDPCh v) as [|m q] eqn:Eq; [done|]. pose proof (Hs (BTake w) eq_refl eq_refl) as H.
    unfold value_step in H. cbn in H. unfold worker_step in H. rewrite Ew in H. cbn in H. by rewrite Eq in H.
  - apply Forall_lookup_2. intros w p Ew. by destruct (Hw w p Ew) as [->| ->].
Qed.
End work.

(** C8: The workers of a collector get through what was received, as long as their decoders
    return.  Take any state in which the read loop has returned and a worker is still there,
    or nothing is queued, and any continuation by steps of the workers in which each decode
    that ends returns (it may fail, but does not panic) and no worker is told to quit.  No
    hand-back of a buffer panics; there are at most [work_left s] such steps, in any order and
    with any buffers of the pool; and when none of them is possible any more, so that no
    decode is still running, every datagram ever received has been decoded, as it was
    received, exactly once. *)
Theorem collector_drains (su : Setup) (spare : nat -> nat) (ls ls' : list blabel) (s : HeapState) (o : Outcome HeapState) :
  heap_run su spare ls (heap_start su) = Some (Running s) -> st_read s = RReturned -> attended s ->
  Forall (fun l => is_work l = true) ls' -> heap_run su spare ls' s = Some o ->
  exists s', o = Running s' /\ len ls' <= work_left s /\
    ((forall l, is_work l = true -> heap_step su spare l s' = None) ->
     Permutation (st_received s) (map decoded_datagram (st_decoded s'))).
Proof.
  intros Hr Hd Ha Hl Hr'.
  destruct (run_ok su spare ls _ _ (heap_inv_start su) Hr) as [Hv Hi]. rewrite contents_start in Hv.
  destruct (run_ok su spare ls' s o Hi Hr') as [Hv' Hi'].
  destruct o as [s'|c]; [|by apply (work_crash su) in Hr']. exists s'. split; [done|].
  destruct (work_run su ls' s s' Hl Hr') as (H1 & [H2 H3] & H4). pose proof (work_left_nonneg s'). split; [lia|]. intros Hs.
  pose proof (value_run_inv su ls _ _ (value_inv_start su) Hv) as Hw.
  destruct (value_conserved su _ (value_run_inv su ls' _ _ Hw Hv')) as [Hp _]. cbn [outcome_map] in Hp.
  destruct (value_stuck su (contents s')) as [Hq Hh].
  - destruct (H4 Ha) as [E|(w & p & Ew & Hpa)]; [left; cbn; by rewrite E|right]. exists w.
    eexists. rewrite contents_worker, Ew. cbn. split; [done|]. by destruct p.
  - intros l Hl' Hf. apply (fresh_enabled su spare); auto.
  - change (st_received s') with (st_received (contents s')) in H3. rewrite <- H3, Hp. unfold in_hand. rewrite Hq. cbn.
    rewrite H2, Hd. cbn. cbn in Hh. clear - Hh. induction Hh as [|p l Hp _ IH]; [done|]. cbn. by rewrite Hp.
Qed.

(** ** A run *)

(** The workers wait for datagrams and there are none. *)
Definition settled (s : HeapState) : bool :=
  forallb (fun p => match p with WWait | WReturned => true | _ => false end) (st_workers s) &&
  match st_UDPCh s with [] => negb (st_closed s) | _ => false end.

Lemma settled_stuck su spare s l : settled s = true -> is_work l = true -> heap_step su spare l s = None.
Proof.
  unfold settled, heap_step. intros [Hw Hq]%andb_prop Hl. apply Is_true_true, forallb_True in Hw.
  rewrite Forall_lookup in Hw. destruct (st_UDPCh s) as [|m q] eqn:Eq; [|done]. apply negb_true_iff in Hq.
  destruct l; try done; cbn [buffer_step]; unfold worker_step; destruct (st_workers s !! w) as [p|] eqn:Ew; try done;
    specialize (Hw _ _ Ew); destruct p; try done; cbn; by rewrite Eq, ?Hq.
Qed.

(** A datagram in the channel when the read loop returns. *)
Definition late_setup : Setup := mkSetup 64 true false [] 0.
Definition late_labels : list blabel :=
  [BSpawn; BStart 0 New; BPut 0; BGet (Pooled 0); BRead exporter (bytes [7; 8]); BSend; BStop; BReturn].
Definition last_labels : list blabel := [BTake 0; BSkip 0; BDone 0; BPut 0].

Abbreviation late_run := (heap_run late_setup (fun n => n) late_labels (heap_start late_setup)).
Definition late_state : HeapState := match late_run with Some (Running s) => s | _ => heap_start late_setup end.
Abbreviation last_run := (heap_run late_setup (fun n => n) last_labels late_state).
Definition last_state : HeapState := match last_run with Some (Running s) => s | _ => heap_start late_setup end.

Lemma late_runs : late_run = Some (Running late_state) /\ last_run = Some (Running last_state).
Proof. split; vm_compute; reflexivity. Qed.

Lemma collector_drains_witness :
  Permutation (st_received late_state) (map decoded_datagram (st_decoded last_state)) /\
  st_received late_state = [(exporter, bytes [7; 8])].
Proof.
  destruct late_runs as [E1 E2].
  destruct (collector_drains late_setup (fun n => n) late_labels last_labels late_state (Running last_state) E1)
    as (s' & Es & _ & H).
  - vm_compute. reflexivity.
  - right. exists 0%nat. eexists. split; vm_compute; reflexivity.
  - repeat constructor.
  - exact E2.
  - injection Es as <-. split; [|vm_compute; reflexivity]. apply H. intros l. apply settled_stuck. vm_compute. reflexivity.
Defined.
