(* ===== verification/BufferService.v ===== *)
(** The collectors of Buffers.v as services of Lifecycle.v.  Lifecycle.v has the read loop,
    the channel and the shutdown with messages of any type and workers that only take; the
    goroutines of Buffers.v do all the rest on shared arrays.  Every run of them, seen from
    the channel, is a run of the service, so what is shown there of the order, of the queue
    and of the shutdown holds of the datagrams in the arrays. *)

From S2P Require Import Prelude GoNet Packet Mirror Collector Options Dispatcher Lifecycle Buffers BufferFacts Totals.

Open Scope Z_scope.

#[local] Arguments total : simpl never.

Abbreviation datagram_msg := (UDPMsg (list byte)).

(** Where the read loop is. *)
Definition phase_of (p : ReadLoop unit (list byte)) : Phase datagram_msg :=
  match p with RTest => Looping | RHas _ => Reading | RFull m => Sending m | RReturned => Returned end.

(** Where [shutdown] is, as far as the goroutines see it. *)
Definition stopping_of (stop closed : bool) : Stopping :=
  if closed then StopReturned else if stop then Sleeping else NotCalled.

(** The steps of the service a step of the goroutines is seen as. *)
Definition service_labels (size : nat) (l : blabel) (v : ValueState) : list (label datagram_msg) :=
  match l with
  | BStop => if st_stop v then [] else [LShutdown]
  | BClose => [LWake true; LClose]
  | BGet _ | BReturn => [LTest]
  | BReadErr => [LTimeout]
  | BRead a data => [LRecv (mkUDPMsg a (take size data))]
  | BSend => [LSend]
  | BTake _ => [LTake]
  | BClosed _ => [LExit]
  | _ => []
  end.

Definition spawns (l : blabel) : Z := match l with BSpawn => 1 | _ => 0 end.
Definition working (p : Worker unit (list byte)) : Z := match p with WReturned => 0 | _ => 1 end.

Section service.
Context (su : Setup) (cfg : ServiceConfig) (Hcfg : sc_enabled cfg = true).

(** [n] workers are still to be started. *)
Record serves (n : Z) (v : ValueState) (s : Service datagram_msg) : Prop := {
  sv_dead : dead s = None;
  sv_phase : phase s = phase_of (st_read v);
  sv_stop : stop s = st_stop v;
  sv_closed : ch_closed s = st_closed v;
  sv_stopping : stopping s = stopping_of (st_stop v) (st_closed v);
  sv_queue : udpCh s = st_UDPCh v;
  sv_received : map (fun m => (raddr m, body m)) (received s) = st_received v;
  sv_left : 0 <= n;
  sv_alive : n + total working (st_workers v) <= Z.of_nat (alive s);
  sv_order : st_closed v = true -> st_stop v = true
}.

(** What the service is after the outcome of a step. *)
Definition outcome_serves (n : Z) (o : Outcome ValueState) (s : Service datagram_msg) : Prop :=
  match o with
  | Running v => serves n v s
  | Crashed ClosedChannel => dead s = Some Panicked
  | Crashed _ => True
  end.

Abbreviation service_exec := (exec_with (Lifecycle.step cfg)).

Lemma serves_read l n v s o :
  serves n v s -> read_step (H := value_memory (su_size su)) l v = Some o ->
  exists s', service_exec (service_labels (su_size su) l v) s = Some s' /\ outcome_serves n o s'.
Proof.
  destruct s as [ph st sp ch cl al ws uc ld du rc tk dd]. intros [H1 H2 H3 H4 H5 H6 H7 Hn H8 H9] E. cbn in *. subst.
  destruct l; cbn in E; try done; unfold service_labels; cbn.
  - simplify_eq. destruct (st_stop v) eqn:Es.
    + eexists. split; [done|]. by split; cbn.
    + assert (st_closed v = false) as Ec by (destruct (st_closed v); [by specialize (H9 eq_refl)|done]).
      rewrite Ec. cbn. unfold stopping_of. cbn. rewrite Hcfg, andb_false_r. eexists. split; [done|].
      split; cbn; by rewrite ?Ec.
  - destruct (st_stop v) eqn:Es, (st_closed v) eqn:Ec; try done. cbn in E. simplify_eq. cbn. eexists. split; [done|].
    split; cbn; by rewrite ?Es.
  - destruct (st_read v) eqn:Er; try done. destruct (st_stop v) eqn:Es; [done|]. simplify_eq. cbn. eexists. split; [done|].
    split; cbn; by rewrite ?Es.
  - destruct (st_read v) eqn:Er; try done. destruct (st_stop v) eqn:Es; [|done]. simplify_eq. cbn. eexists. split; [done|].
    split; cbn; by rewrite ?Es.
  - destruct (st_read v) eqn:Er; try done. simplify_eq. cbn. eexists. split; [done|]. by split; cbn.
  - destruct (st_read v) eqn:Er; try done. simplify_eq. cbn. eexists. split; [done|]. split; cbn; try done. by rewrite map_app, H7.
  - destruct (st_read v) eqn:Er; try done. unfold run_send. cbn. destruct (st_closed v) eqn:Ec.
    + simplify_eq. cbn. by eexists.
    + destruct (len (st_UDPCh v) <? chan_cap); [|done]. simplify_eq. cbn. eexists. split; [done|]. split; cbn; by rewrite ?Ec.
Qed.

(** The steps of the workers the service does not see. *)
Lemma serves_worker l w n v s o :
  serves n v s -> worker_step (H := value_memory (su_size su)) w l v = Some o ->
  exists s', service_exec (match l with BTake _ => [LTake] | BClosed _ => [LExit] | _ => [] end) s = Some s' /\
    outcome_serves n o s'.
Proof.
  destruct s as [ph st sp ch cl al ws uc ld du rc tk dd]. intros [H1 H2 H3 H4 H5 H6 H7 Hn H8 H9] E. cbn in *. subst.
  unfold worker_step in E. destruct (st_workers v !! w) as [p|] eqn:Ew; [|done]. cbn in E.
  assert (working p <= total working (st_workers v)) as Hp.
  { apply total_elem; [by intros []|by eapply list_elem_of_lookup_2]. }
  assert (forall q, working q <= working p -> n + total working (<[w := q]> (st_workers v)) <= Z.of_nat al) as Hq.
  { intros q Hq. rewrite (total_insert _ _ _ _ _ Ew). lia. }
  destruct l, p as [|b| |m|m b|m mm|m seen|]; cbn in E, Hp, Hq; try done.
  3: { destruct (st_UDPCh v) as [|m q] eqn:Eq; [done|]. simplify_eq. destruct al as [|al]; [lia|]. cbn.
       eexists. split; [done|]. split; cbn; try done. by apply Hq. }
  4: { destruct (st_UDPCh v) as [|m q] eqn:Eq; [|done]. destruct (st_closed v) eqn:Ec; [|done]. simplify_eq.
       destruct al as [|al]; [lia|]. cbn. eexists. split; [done|]. split; cbn; rewrite ?Ec; try done.
       rewrite (total_insert _ _ _ _ _ Ew). cbn. lia. }
  all: try (destruct (body m !! i) as [x|]; [|done]; cbn in E).
  all: repeat case_match; simplify_eq; try done; eexists; (split; [done|]); split; cbn; try done; try (by apply Hq).
Qed.

(** A step of which the service sees nothing. *)
Lemma serves_same n v v' s :
  serves n v s -> st_read v' = st_read v -> st_stop v' = st_stop v -> st_closed v' = st_closed v ->
  st_UDPCh v' = st_UDPCh v -> st_received v' = st_received v -> st_workers v' = st_workers v -> serves n v' s.
Proof. intros [H1 H2 H3 H4 H5 H6 H7 Hn H8 H9] E1 E2 E3 E4 E5 E6. split; rewrite ?E1, ?E2, ?E3, ?E4, ?E5, ?E6; done. Qed.

Lemma serves_sender k l n v s o :
  serves n v s -> sender_step (H := value_memory (su_size su)) su k l v = Some o -> outcome_serves n o s.
Proof.
  intros Hv E. unfold sender_step in E. destruct (st_senders v !! k) as [p|]; [|done]. cbn in E.
  destruct l, p; cbn in E; try done; repeat case_match; simplify_eq; try done; by apply (serves_same n v).
Qed.

Lemma serves_step l n v s o :
  serves (n + spawns l) v s -> 0 <= n -> value_step su l v = Some o ->
  exists s', service_exec (service_labels (su_size su) l v) s = Some s' /\ outcome_serves n o s'.
Proof.
  unfold value_step. intros Hv Hn E.
  destruct l as [| |c| | |a d| | |w c|w|w|w|w|w|w c|w|w|w i|w|w|k| | | |k ok|k|k|k|k ok]; cbn [spawns] in Hv; rewrite ?Z.add_0_r in Hv;
    cbn [buffer_step] in E;
    try (by apply (serves_read _ _ _ _ _ Hv E)); try (by apply (serves_worker _ _ _ _ _ _ Hv E)).
  - injection E as <-. exists s. split; [done|]. destruct Hv as [H1 H2 H3 H4 H5 H6 H7 Hm H8 H9].
    split; cbn; try done. rewrite total_snoc. destruct (su_initial su); cbn; lia.
  - injection E as <-. exists s. split; [done|]. by apply (serves_same n v).
  - cbn in E. case_match; [|done]. simplify_eq. exists s. split; [done|]. by apply (serves_same n v).
  - cbn in E. repeat case_match; simplify_eq; try done. exists s. split; [done|]. by apply (serves_same n v).
  - cbn in E. repeat case_match; simplify_eq; try done; (exists s; split; [done|]; by apply (serves_same n v)).
  - exists s. split; [done|]. by apply (serves_sender k (BSDial k ok) n v).
  - exists s. split; [done|]. by apply (serves_sender k (BSTake k) n v).
  - exists s. split; [done|]. by apply (serves_sender k (BSCopy k) n v).
  - exists s. split; [done|]. by apply (serves_sender k (BSPut k) n v).
  - exists s. split; [done|]. by apply (serves_sender k (BSSend k ok) n v).
Qed.

Lemma serves_run ls n v s o :
  serves (n + total spawns ls) v s -> 0 <= n -> value_run su ls v = Some o ->
  exists ls' s', service_exec ls' s = Some s' /\ outcome_serves n o s'.
Proof.
  intros Hs Hn. revert v s Hs. unfold value_run. induction ls as [|l ls IH]; intros v s Hs; cbn [buffer_run].
  - intros ?. simplify_eq. exists [], s. split; [done|]. by rewrite Z.add_0_r in Hs.
  - assert (serves ((n + total spawns ls) + spawns l) v s) as Hl.
    { by replace (n + total spawns ls + spawns l) with (n + total spawns (l :: ls)) by (unfold total; cbn; lia). }
    pose proof (total_nonneg spawns ls ltac:(by intros [])).
    destruct (buffer_step su l v) as [[v'|c]|] eqn:E; [..|done].
    + destruct (serves_step l _ v s _ Hl ltac:(lia) E) as (s1 & E1 & H1). intros Hr.
      destruct (IH v' s1 H1 Hr) as (ls' & s' & E' & H'). exists (service_labels (su_size su) l v ++ ls'), s'.
      split; [|done]. by rewrite exec_with_app, E1.
    + destruct ls; [|done]. intros ?. simplify_eq.
      destruct (serves_step l n v s (Crashed c)) as (s1 & E1 & H1); [|done|done|by eauto].
      unfold total in Hl. cbn in Hl. by rewrite Z.add_0_r in Hl.
Qed.
End service.

(** The service after its start. *)
Lemma serves_start su cfg ls :
  sc_enabled cfg = true -> sc_workers cfg = total spawns ls ->
  exists s, exec_with (Lifecycle.step cfg) [LListen true; LLoad] service_init = Some s /\
    serves (0 + total spawns ls) (value_start su) s.
Proof.
  intros Hc Hw. pose proof (total_nonneg spawns ls ltac:(by intros [])). cbn. unfold run_listen. rewrite Hc. cbn.
  eexists. split; [done|]. split; cbn; try done; rewrite ?Hw; unfold total in *; cbn; lia.
Qed.

(** C7: a collector on shared buffers is the service of Lifecycle.v.  Whatever its goroutines
    do, the read loop, the channel and the shutdown make a run of the service, started with
    as many workers as were ever started, that has received the same datagrams and has the
    same datagrams, as the arrays hold them, in the channel; the process panics in a send on
    the closed channel only where the service does.  In particular the workers take the
    datagrams in the order they came, and at most 1000 wait. *)
Theorem collector_serves (su : Setup) (spare : nat -> nat) (cfg : ServiceConfig) (ls : list blabel)
    (o : Outcome HeapState) :
  sc_enabled cfg = true -> sc_workers cfg = total spawns ls ->
  heap_run su spare ls (heap_start su) = Some o ->
  exists ls' svc, exec_with (Lifecycle.step cfg) (LListen true :: LLoad :: ls') service_init = Some svc /\
  match o with
  | Running s =>
      dead svc = None /\ phase svc = phase_of (st_read (contents s)) /\
      stop svc = st_stop s /\ ch_closed svc = st_closed s /\ udpCh svc = st_UDPCh (contents s) /\
      map (fun m => (raddr m, body m)) (received svc) = st_received s /\
      st_received s = map (fun m => (raddr m, body m)) (taken svc) ++
        map (fun m => (raddr m, body m)) (st_UDPCh (contents s)) ++ read_hand (st_read (contents s)) /\
      len (st_UDPCh s) <= 1000
  | Crashed c => c = ClosedChannel -> dead svc = Some Panicked
  end.
Proof.
  intros Hc Hw Hr. destruct (run_ok su spare ls _ o (heap_inv_start su) Hr) as [Hv _]. rewrite contents_start in Hv.
  destruct (serves_start su cfg ls Hc Hw) as (s0 & E0 & H0).
  destruct (serves_run su cfg Hc ls 0 _ s0 _ H0 (Z.le_refl 0) Hv) as (ls' & svc & E & H).
  assert (exec_with (Lifecycle.step cfg) (LListen true :: LLoad :: ls') service_init = Some svc) as Ex.
  { change (LListen true :: LLoad :: ls') with ([LListen true; LLoad] ++ ls'). by rewrite exec_with_app, E0. }
  exists ls', svc. split; [done|]. destruct o as [s|c]; cbn in H; [|by intros ->].
  pose proof (inv_exec cfg _ _ _ (service_inv_init cfg) Ex) as Hi. destruct H as [H1 H2 H3 H4 _ H6 H7 _ _ _].
  pose proof (inv_cap _ _ Hi) as Hl. split_and!; try done.
  - change (st_received s) with (st_received (contents s)). rewrite <- H7, (inv_order _ _ Hi), !map_app, H6. do 2 f_equal.
    unfold pending. rewrite H2. by destruct (st_read (contents s)).
  - rewrite H6 in Hl. cbn in Hl. by rewrite len_fmap in Hl.
Qed.

Definition one_worker : ServiceConfig := mkServiceConfig 4739 EmptyString 1 true true true.

(** The run of BufferFacts.v, with the service it is. *)
Lemma collector_serves_witness :
  exists ls' svc, exec_with (Lifecycle.step one_worker) (LListen true :: LLoad :: ls') service_init = Some svc /\
    dead svc = None /\ map (fun m => (raddr m, body m)) (received svc) = st_received example_end.
Proof.
  destruct (collector_serves example_setup (fun n => n) one_worker example_labels (Running example_end)) as (ls' & svc & E & H).
  - reflexivity.
  - reflexivity.
  - exact example_runs.
  - exists ls', svc. split; [exact E|]. split; [exact (proj1 H)|]. apply H.
Defined.
