(* ===== verification/Stats.v ===== *)
(** The statistics service, [src/vflow/stats.go] with the [status] methods of the three
    collectors, and the structs of [src/monitor/store/store.go] the monitor reads its
    answers into.

    A Go struct of numbers is a record with a table of its fields, from which come its
    JSON text and what [json.Unmarshal] does to it: a member is assigned to the field of
    its name (or else of its name up to case), [null] assigns nothing, and a value that is
    not an integer of the field's type is an error that does not stop the decoding.  How
    a text is cut into a JSON value is a parameter, with the law that it reads back the
    compact text of a value; [parse_json] is one that does. *)

From Stdlib Require Import Strings.Ascii Btauto.
From S2P Require Import Prelude GoNet Json GoStrings.

Local Open Scope string_scope.
Local Open Scope list_scope.
Open Scope Z_scope.

(** ** Structs and JSON *)

Section structs.
Context {R : Type}.

Record field : Type := mkField { f_name : string; f_get : R -> Z; f_set : Z -> R -> R }.

Definition to_json (fields : list field) (r : R) : json :=
  JObj (map (fun f => (f_name f, JNum (f_get f r))) fields).
End structs.
Arguments field : clear implicits.

Definition lower (c : Ascii.ascii) : Ascii.ascii :=
  let n := Ascii.nat_of_ascii c in
  if (65 <=? n)%nat && (n <=? 90)%nat then Ascii.ascii_of_nat (n + 32) else c.

Fixpoint fold_case (s : string) : string :=
  match s with "" => "" | String c s' => String (lower c) (fold_case s') end.

(** The field of a key: an exact match, or else the first one up to case. *)
Definition find_field {A} (name : A -> string) (fields : list A) (key : string) : option A :=
  match List.find (fun f => String.eqb (name f) key) fields with
  | Some f => Some f
  | None => List.find (fun f => String.eqb (fold_case (name f)) (fold_case key)) fields
  end.

Definition in_int64 (z : Z) : bool := (- 2 ^ 63 <=? z) && (z <? 2 ^ 63).

(** A value into an [int64]: the new value and whether there was no error. *)
Definition decode_int64 (j : json) (old : Z) : Z * bool :=
  match j with
  | JNum z => if in_int64 z then (z, true) else (old, false)
  | JNull => (old, true)
  | _ => (old, false)
  end.

(** The members of an object in turn, [assign] giving what each does. *)
Fixpoint decode_members {R} (assign : string -> json -> R -> R * bool) (ms : list (string * json)) (r : R) :
    R * bool :=
  match ms with
  | [] => (r, true)
  | (k, j) :: ms' =>
      let '(r, ok) := assign k j r in
      let '(r, ok') := decode_members assign ms' r in (r, ok && ok')
  end.

Definition decode_object {R} (assign : string -> json -> R -> R * bool) (j : json) (r : R) : R * bool :=
  match j with
  | JObj ms => decode_members assign ms r
  | JNull => (r, true)
  | _ => (r, false)
  end.

Definition assign_field {R} (fields : list (field R)) (k : string) (j : json) (r : R) : R * bool :=
  match find_field f_name fields k with
  | None => (r, true)
  | Some f => let '(z, ok) := decode_int64 j (f_get f r) in (f_set f z r, ok)
  end.

Definition decode_struct {R} (fields : list (field R)) : json -> R -> R * bool :=
  decode_object (assign_field fields).

(** ** The counters of a collector *)

(** [SFlowStats] and [NetflowV9Stats] of the server, [SFlow] and [NetflowV9] of the monitor. *)
Record Counters : Type := mkCounters {
  UDPQueue : Z; MessageQueue : Z; UDPCount : Z; DecodedCount : Z; MQErrorCount : Z; Workers : Z
}.

(** [IPFIXStats] of the server, [IPFIX] of the monitor. *)
Record IPFIXCounters : Type := mkIPFIXCounters { UDPMirrorQueue : Z; ipfix_counters : Counters }.

Definition counters_fields : list (field Counters) :=
  [mkField "UDPQueue" UDPQueue
     (fun z r => mkCounters z (MessageQueue r) (UDPCount r) (DecodedCount r) (MQErrorCount r) (Workers r));
   mkField "MessageQueue" MessageQueue
     (fun z r => mkCounters (UDPQueue r) z (UDPCount r) (DecodedCount r) (MQErrorCount r) (Workers r));
   mkField "UDPCount" UDPCount
     (fun z r => mkCounters (UDPQueue r) (MessageQueue r) z (DecodedCount r) (MQErrorCount r) (Workers r));
   mkField "DecodedCount" DecodedCount
     (fun z r => mkCounters (UDPQueue r) (MessageQueue r) (UDPCount r) z (MQErrorCount r) (Workers r));
   mkField "MQErrorCount" MQErrorCount
     (fun z r => mkCounters (UDPQueue r) (MessageQueue r) (UDPCount r) (DecodedCount r) z (Workers r));
   mkField "Workers" Workers
     (fun z r => mkCounters (UDPQueue r) (MessageQueue r) (UDPCount r) (DecodedCount r) (MQErrorCount r) z)].

(** A field of the embedded counters. *)
Definition lift_field (f : field Counters) : field IPFIXCounters :=
  mkField (f_name f) (fun r => f_get f (ipfix_counters r))
    (fun z r => mkIPFIXCounters (UDPMirrorQueue r) (f_set f z (ipfix_counters r))).

(** The fields of the IPFIX struct, [UDPMirrorQueue] being its second. *)
Definition ipfix_fields : list (field IPFIXCounters) :=
  match map lift_field counters_fields with
  | f :: fs => f :: mkField "UDPMirrorQueue" UDPMirrorQueue (fun z r => mkIPFIXCounters z (ipfix_counters r)) :: fs
  | [] => []
  end.

(** ** [status] and the handlers *)

(** [status]: the lengths of the channels, and the counters loaded from [stats]. *)
Definition IPFIX_status (udpCh mCh mqCh : Z) (stats : IPFIXCounters) : IPFIXCounters :=
  let c := ipfix_counters stats in
  mkIPFIXCounters mCh (mkCounters udpCh mqCh (UDPCount c) (DecodedCount c) (MQErrorCount c) (Workers c)).

Definition SFlow_status (udpCh mqCh : Z) (stats : Counters) : Counters :=
  mkCounters udpCh mqCh (UDPCount stats) (DecodedCount stats) (MQErrorCount stats) (Workers stats).

Definition NetflowV9_status (udpCh mqCh : Z) (stats : Counters) : Counters :=
  mkCounters udpCh mqCh (UDPCount stats) (DecodedCount stats) (MQErrorCount stats) (Workers stats).

(** The struct of the /flow endpoint. *)
Record FlowData : Type := mkFlowData {
  fd_StartTime : Z; fd_IPFIX : IPFIXCounters; fd_SFlow : Counters; fd_NetflowV9 : Counters
}.

Definition FlowData_json (d : FlowData) : json :=
  JObj [("StartTime", JNum (fd_StartTime d)); ("IPFIX", to_json ipfix_fields (fd_IPFIX d));
        ("SFlow", to_json counters_fields (fd_SFlow d)); ("NetflowV9", to_json counters_fields (fd_NetflowV9 d))].

(** [StatsFlowHandler]: the body of the answer. *)
Definition StatsFlowHandler (d : FlowData) : string := print (FlowData_json d).

(** What [StatsSysHandler] reads from the runtime, in the order of its struct. *)
Record SysData : Type := mkSysData {
  MemAlloc : Z; MemTotalAlloc : Z; MemHeapAlloc : Z; MemHeapSys : Z; MemHeapReleased : Z;
  MCacheInuse : Z; GCSys : Z; GCNext : Z; GCLast : string; NumLogicalCPU : Z; NumGoroutine : Z;
  MaxProcs : Z; GoVersion : string; StartTime : Z
}.

Definition SysData_json (d : SysData) : json :=
  JObj [("MemAlloc", JNum (MemAlloc d)); ("MemTotalAlloc", JNum (MemTotalAlloc d));
        ("MemHeapAlloc", JNum (MemHeapAlloc d)); ("MemHeapSys", JNum (MemHeapSys d));
        ("MemHeapReleased", JNum (MemHeapReleased d)); ("MCacheInuse", JNum (MCacheInuse d));
        ("GCSys", JNum (GCSys d)); ("GCNext", JNum (GCNext d)); ("GCLast", JStr (GCLast d));
        ("NumLogicalCPU", JNum (NumLogicalCPU d)); ("NumGoroutine", JNum (NumGoroutine d));
        ("MaxProcs", JNum (MaxProcs d)); ("GoVersion", JStr (GoVersion d)); ("StartTime", JNum (StartTime d))].

Definition StatsSysHandler (d : SysData) : string := print (SysData_json d).

(** [statsHTTPServer]'s multiplexer: the endpoints served when the service is enabled;
    [None] is the answer of the mux to any other path. *)
Definition statsHTTPServer (enabled : bool) (sys : SysData) (flow : FlowData) (path : string) :
    option string :=
  if negb enabled then None
  else if String.eqb path "/sys" then Some (StatsSysHandler sys)
  else if String.eqb path "/flow" then Some (StatsFlowHandler flow)
  else None.

(** ** The monitor's structs *)

Record Flow : Type := mkFlow {
  fl_StartTime : Z; fl_Timestamp : Z; fl_IPFIX : IPFIXCounters; fl_SFlow : Counters; fl_NetflowV9 : Counters
}.

Definition zeroCounters : Counters := mkCounters 0 0 0 0 0 0.
Definition zeroFlow : Flow := mkFlow 0 0 (mkIPFIXCounters 0 zeroCounters) zeroCounters zeroCounters.

Definition Flow_json (f : Flow) : json :=
  JObj [("StartTime", JNum (fl_StartTime f)); ("Timestamp", JNum (fl_Timestamp f));
        ("IPFIX", to_json ipfix_fields (fl_IPFIX f)); ("SFlow", to_json counters_fields (fl_SFlow f));
        ("NetflowV9", to_json counters_fields (fl_NetflowV9 f))].

Inductive flow_field : Type := FStartTime | FTimestamp | FIPFIX | FSFlow | FNetflowV9.

Definition flow_name (f : flow_field) : string :=
  match f with
  | FStartTime => "StartTime" | FTimestamp => "Timestamp" | FIPFIX => "IPFIX" | FSFlow => "SFlow"
  | FNetflowV9 => "NetflowV9"
  end.

Definition assign_flow (k : string) (j : json) (f : Flow) : Flow * bool :=
  match f with
  | mkFlow st ts ip sf nf =>
      match find_field flow_name [FStartTime; FTimestamp; FIPFIX; FSFlow; FNetflowV9] k with
      | None => (f, true)
      | Some FStartTime => let '(z, ok) := decode_int64 j st in (mkFlow z ts ip sf nf, ok)
      | Some FTimestamp => let '(z, ok) := decode_int64 j ts in (mkFlow st z ip sf nf, ok)
      | Some FIPFIX => let '(c, ok) := decode_struct ipfix_fields j ip in (mkFlow st ts c sf nf, ok)
      | Some FSFlow => let '(c, ok) := decode_struct counters_fields j sf in (mkFlow st ts ip c nf, ok)
      | Some FNetflowV9 => let '(c, ok) := decode_struct counters_fields j nf in (mkFlow st ts ip sf c, ok)
      end
  end.

Definition decode_flow : json -> Flow -> Flow * bool := decode_object assign_flow.

Record Sys : Type := mkSys {
  s_MemHeapAlloc : Z; s_MemAlloc : Z; s_MCacheInuse : Z; s_GCNext : Z; s_MemTotalAlloc : Z;
  s_GCSys : Z; s_MemHeapSys : Z; s_NumGoroutine : Z; s_NumLogicalCPU : Z; s_MemHeapReleased : Z
}.

Definition zeroSys : Sys := mkSys 0 0 0 0 0 0 0 0 0 0.

Definition sys_fields : list (field Sys) :=
  [mkField "MemHeapAlloc" s_MemHeapAlloc (fun z '(mkSys a b c d e f g h i j) => mkSys z b c d e f g h i j);
   mkField "MemAlloc" s_MemAlloc (fun z '(mkSys a b c d e f g h i j) => mkSys a z c d e f g h i j);
   mkField "MCacheInuse" s_MCacheInuse (fun z '(mkSys a b c d e f g h i j) => mkSys a b z d e f g h i j);
   mkField "GCNext" s_GCNext (fun z '(mkSys a b c d e f g h i j) => mkSys a b c z e f g h i j);
   mkField "MemTotalAlloc" s_MemTotalAlloc (fun z '(mkSys a b c d e f g h i j) => mkSys a b c d z f g h i j);
   mkField "GCSys" s_GCSys (fun z '(mkSys a b c d e f g h i j) => mkSys a b c d e z g h i j);
   mkField "MemHeapSys" s_MemHeapSys (fun z '(mkSys a b c d e f g h i j) => mkSys a b c d e f z h i j);
   mkField "NumGoroutine" s_NumGoroutine (fun z '(mkSys a b c d e f g h i j) => mkSys a b c d e f g z i j);
   mkField "NumLogicalCPU" s_NumLogicalCPU (fun z '(mkSys a b c d e f g h i j) => mkSys a b c d e f g h z j);
   mkField "MemHeapReleased" s_MemHeapReleased (fun z '(mkSys a b c d e f g h i j) => mkSys a b c d e f g h i z)].

Definition decode_sys : json -> Sys -> Sys * bool := decode_struct sys_fields.

(** ** Reading back *)

Definition counters_ok (c : Counters) : bool :=
  in_int64 (UDPQueue c) && in_int64 (MessageQueue c) && in_int64 (UDPCount c) &&
  in_int64 (DecodedCount c) && in_int64 (MQErrorCount c) && in_int64 (Workers c).

Definition ipfix_ok (c : IPFIXCounters) : bool := in_int64 (UDPMirrorQueue c) && counters_ok (ipfix_counters c).

Lemma decode_int64_num z old : decode_int64 (JNum z) old = (if in_int64 z then z else old, in_int64 z).
Proof. cbn. by destruct (in_int64 z). Qed.

(** The numbers of a struct read back: exactly when they all fit. *)
Section read_back.
Context {R : Type} (table : list (field R)) (r : R).

Definition fits_all (fs : list (field R)) : bool := forallb (fun f => in_int64 (f_get f r)) fs.

Lemma decode_members_numbers fs r0 :
  Forall (fun f => find_field f_name table (f_name f) = Some f) fs ->
  exists r', decode_members (assign_field table) (map (fun f => (f_name f, JNum (f_get f r))) fs) r0
             = (r', fits_all fs) /\
    (fits_all fs = true -> r' = fold_left (fun x f => f_set f (f_get f r) x) fs r0).
Proof.
  intros H. revert r0. induction H as [|f fs Hf _ IH]; intros r0; [by exists r0|].
  cbn [map decode_members]. unfold assign_field at 1. rewrite Hf, decode_int64_num.
  destruct (IH (f_set f (if in_int64 (f_get f r) then f_get f r else f_get f r0) r0)) as (r' & -> & Hr).
  exists r'. cbn [fits_all forallb fold_left]. split; [done|]. fold (fits_all fs).
  destruct (in_int64 (f_get f r)); [|done]. apply Hr.
Qed.
End read_back.

Lemma decode_counters c c0 :
  exists c', decode_struct counters_fields (to_json counters_fields c) c0 = (c', counters_ok c) /\
    (counters_ok c = true -> c' = c).
Proof.
  destruct (decode_members_numbers counters_fields c counters_fields c0) as (c' & E & H).
  { by repeat constructor. }
  exists c'. assert (Hb : counters_ok c = fits_all c counters_fields) by (unfold counters_ok, fits_all; cbn; btauto).
  rewrite Hb. split; [exact E|]. intros Hok. rewrite (H Hok). by destruct c, c0.
Qed.

Lemma decode_ipfix c c0 :
  exists c', decode_struct ipfix_fields (to_json ipfix_fields c) c0 = (c', ipfix_ok c) /\
    (ipfix_ok c = true -> c' = c).
Proof.
  destruct (decode_members_numbers ipfix_fields c ipfix_fields c0) as (c' & E & H).
  { by repeat constructor. }
  exists c'. assert (Hb : ipfix_ok c = fits_all c ipfix_fields) by (unfold ipfix_ok, counters_ok, fits_all; cbn; btauto).
  rewrite Hb. split; [exact E|]. intros Hok. rewrite (H Hok). by destruct c as [? []], c0 as [? []].
Qed.

Definition flow_ok (f : Flow) : bool :=
  in_int64 (fl_StartTime f) && in_int64 (fl_Timestamp f) && ipfix_ok (fl_IPFIX f) &&
  counters_ok (fl_SFlow f) && counters_ok (fl_NetflowV9 f).

Definition data_ok (d : FlowData) : bool :=
  in_int64 (fd_StartTime d) && ipfix_ok (fd_IPFIX d) && counters_ok (fd_SFlow d) && counters_ok (fd_NetflowV9 d).

(** The flow the monitor makes of an answer. *)
Definition flow_of (d : FlowData) (timestamp : Z) : Flow :=
  mkFlow (fd_StartTime d) timestamp (fd_IPFIX d) (fd_SFlow d) (fd_NetflowV9 d).

(** Evaluation up to the next member of the top object. *)
Ltac flow_cbn :=
  cbn -[in_int64 decode_int64 decode_struct to_json ipfix_fields counters_fields ipfix_ok counters_ok].

Lemma decode_FlowData d f :
  exists f', decode_flow (FlowData_json d) f = (f', data_ok d) /\
    (data_ok d = true -> f' = flow_of d (fl_Timestamp f)).
Proof.
  destruct d as [st ip sf nf], f as [st0 ts0 ip0 sf0 nf0].
  destruct (decode_ipfix ip ip0) as (ip' & Eip & Hip). destruct (decode_counters sf sf0) as (sf' & Esf & Hsf).
  destruct (decode_counters nf nf0) as (nf' & Enf & Hnf).
  unfold decode_flow, FlowData_json, data_ok.
  flow_cbn. rewrite decode_int64_num. flow_cbn. rewrite Eip. flow_cbn. rewrite Esf. flow_cbn. rewrite Enf. flow_cbn.
  eexists. split; [apply pair_equal_spec; split; [reflexivity|btauto]|].
  destruct (in_int64 st); [|done]. destruct (ipfix_ok ip); [|done]. destruct (counters_ok sf); [|done].
  destruct (counters_ok nf); [|done]. intros _. by rewrite Hip, Hsf, Hnf.
Qed.

Lemma decode_Flow f f0 : flow_ok f = true -> decode_flow (Flow_json f) f0 = (f, true).
Proof.
  destruct f as [st ts ip sf nf], f0 as [st0 ts0 ip0 sf0 nf0]. unfold flow_ok.
  rewrite !andb_true_iff. cbn [fl_StartTime fl_Timestamp fl_IPFIX fl_SFlow fl_NetflowV9]. intros ((((H1 & H2) & H3) & H4) & H5).
  destruct (decode_ipfix ip ip0) as (ip' & Eip & Hip). destruct (decode_counters sf sf0) as (sf' & Esf & Hsf).
  destruct (decode_counters nf nf0) as (nf' & Enf & Hnf). unfold decode_flow, Flow_json.
  flow_cbn. rewrite decode_int64_num, H1. flow_cbn. rewrite decode_int64_num, H2. flow_cbn. rewrite Eip, H3. flow_cbn.
  rewrite Esf, H4. flow_cbn. rewrite Enf, H5. flow_cbn. by rewrite Hip, Hsf, Hnf.
Qed.

Lemma safe_numbers {R} (fields : list (field R)) r :
  Forall (fun f => all_plain (f_name f)) fields -> safe_json (to_json fields r).
Proof. intros H. constructor. induction H; cbn; constructor; [by split; [|constructor]|done]. Qed.

Lemma counters_names : Forall (fun f => all_plain (f_name f)) counters_fields.
Proof. by repeat constructor. Qed.

Lemma ipfix_names : Forall (fun f => all_plain (f_name f)) ipfix_fields.
Proof. by repeat constructor. Qed.

#[export] Hint Resolve safe_numbers counters_names ipfix_names : vflow.

Lemma FlowData_safe d : safe_json (FlowData_json d).
Proof. repeat constructor; auto with vflow. Qed.

Lemma Flow_safe f : safe_json (Flow_json f).
Proof. repeat constructor; auto with vflow. Qed.
