(* ===== verification/GoJson.v ===== *)
(** [encoding/json] of Go's standard library on the types of the template cache: numbers,
    slices, pointers, maps with integer keys, and structs.

    A [codec] is what [json.Marshal] writes for a type and what [json.Unmarshal] does to a
    value of it: an object's members are assigned to the fields of their names (exactly or
    up to case), unknown members are skipped, [null] leaves numbers and structs alone and
    clears the others, a pointer is followed or allocated, the elements of an array are
    decoded into the elements of the slice that are there.  [None] is an error; after an
    error the callers modelled here do not use the value.

    A nil and an empty slice are the same list, written as [null]: the slices of this
    program are nil when they are empty.  A nil map and a nil pointer are [None]. *)

From stdpp Require Import sorting.
From Stdlib Require Import Strings.Ascii.
From S2P Require Import Prelude GoNet Json GoStrings Stats.

Local Open Scope string_scope.
Local Open Scope list_scope.
Open Scope Z_scope.

Record codec (A : Type) : Type := mkCodec {
  jzero : A;
  jenc : A -> json;
  jdec : A -> json -> option A
}.
Arguments mkCodec {A} _ _ _.
Arguments jzero {A} _.
Arguments jenc {A} _ _.
Arguments jdec {A} _ _ _.

(** ** Numbers *)

Definition number_codec (in_range : Z -> bool) : codec Z := mkCodec 0 JNum (fun old j =>
  match j with
  | JNum z => if in_range z then Some z else None
  | JNull => Some old
  | _ => None
  end).

Definition in_uint (w z : Z) : bool := (0 <=? z) && (z <? 2 ^ w).

Definition uint16_codec : codec Z := number_codec (in_uint 16).
Definition uint32_codec : codec Z := number_codec (in_uint 32).
Definition int64_codec : codec Z := number_codec in_int64.

(** ** Slices and pointers *)

Section containers.
Context {A : Type} (c : codec A).

Fixpoint dec_elems (old : list A) (js : list json) : option (list A) :=
  match js with
  | [] => Some []
  | j :: js' =>
      let '(o, old') := match old with [] => (jzero c, []) | x :: old' => (x, old') end in
      match jdec c o j with
      | Some a => match dec_elems old' js' with Some l => Some (a :: l) | None => None end
      | None => None
      end
  end.

Definition slice_codec : codec (list A) :=
  mkCodec [] (fun l => match l with [] => JNull | _ => JArr (map (jenc c) l) end) (fun old j =>
    match j with
    | JArr js => dec_elems old js
    | JNull => Some []
    | _ => None
    end).

Definition ptr_codec : codec (option A) :=
  mkCodec None (fun p => match p with Some a => jenc c a | None => JNull end) (fun old j =>
    match j with
    | JNull => Some None
    | _ => match jdec c (default (jzero c) old) j with Some a => Some (Some a) | None => None end
    end).

(** ** Maps: the keys are decimal, and written in the order of their texts *)

Definition key_le (m1 m2 : string * json) : Prop := String.leb m1.1 m2.1 = true.
#[global] Instance key_le_dec m1 m2 : Decision (key_le m1 m2).
Proof. unfold key_le. apply _. Defined.

Definition enc_entry (e : Z * A) : string * json := (FormatInt e.1, jenc c e.2).

(** A member into the map: every element is decoded into a fresh value. *)
Fixpoint dec_entries (w : Z) (ms : list (string * json)) (m : gmap Z A) : option (gmap Z A) :=
  match ms with
  | [] => Some m
  | (k, j) :: ms' =>
      match ParseUint w k, jdec c (jzero c) j with
      | Some n, Some a => dec_entries w ms' (<[n := a]> m)
      | _, _ => None
      end
  end.

Definition map_codec (w : Z) : codec (option (gmap Z A)) :=
  mkCodec None
    (fun o => match o with
              | None => JNull
              | Some m => JObj (merge_sort key_le (map enc_entry (map_to_list m)))
              end)
    (fun old j => match j with
                  | JNull => Some None
                  | JObj ms => match dec_entries w ms (default ∅ old) with Some m => Some (Some m) | None => None end
                  | _ => None
                  end).

End containers.

(** ** Structs *)

(** A field: its name, what it is written as, and what a member does to it. *)
Record jfield (R : Type) : Type := mkJField {
  jf_name : string; jf_enc : R -> json; jf_dec : R -> json -> option R
}.
Arguments mkJField {R} _ _ _.
Arguments jf_name {R} _.
Arguments jf_enc {R} _ _.
Arguments jf_dec {R} _ _ _.

Definition fld {R B} (name : string) (c : codec B) (get : R -> B) (set : B -> R -> R) : jfield R :=
  mkJField name (fun r => jenc c (get r))
    (fun r j => match jdec c (get r) j with Some b => Some (set b r) | None => None end).

Section structs.
Context {R : Type} (zero : R) (fields : list (jfield R)).

Fixpoint dec_members (ms : list (string * json)) (r : R) : option R :=
  match ms with
  | [] => Some r
  | (k, j) :: ms' =>
      match find_field jf_name fields k with
      | None => dec_members ms' r
      | Some f => match jf_dec f r j with Some r' => dec_members ms' r' | None => None end
      end
  end.

Definition struct_codec : codec R :=
  mkCodec zero (fun r => JObj (map (fun f => (jf_name f, jf_enc f r)) fields)) (fun r j =>
    match j with
    | JObj ms => dec_members ms r
    | JNull => Some r
    | _ => None
    end).

End structs.

(** ** Round trips *)

(** What is written for a value that satisfies [P] has no escapes and reads back. *)
Definition codec_ok {A} (c : codec A) (P : A -> Prop) : Prop :=
  forall a, P a -> safe_json (jenc c a) /\ jdec c (jzero c) (jenc c a) = Some a.

Lemma number_ok in_range : codec_ok (number_codec in_range) (fun z => in_range z = true).
Proof. intros z Hz. split; [constructor|]. cbn. by rewrite Hz. Qed.

Lemma uint_ok w : codec_ok (number_codec (in_uint w)) (fun z => 0 <= z < 2 ^ w).
Proof.
  intros z Hz. apply number_ok. unfold in_uint. apply andb_true_iff.
  split; [apply Z.leb_le|apply Z.ltb_lt]; lia.
Qed.

Lemma int64_ok : codec_ok int64_codec (fun z => - 2 ^ 63 <= z < 2 ^ 63).
Proof.
  intros z Hz. apply number_ok. unfold in_int64. apply andb_true_iff.
  split; [apply Z.leb_le|apply Z.ltb_lt]; lia.
Qed.

Section container_ok.
Context {A : Type} (c : codec A) (P : A -> Prop) (Hc : codec_ok c P).

Lemma dec_elems_ok l : Forall P l -> dec_elems c [] (map (jenc c) l) = Some l.
Proof.
  induction 1 as [|a l Ha Hl IH]; [done|]. cbn. rewrite (proj2 (Hc a Ha)). by rewrite IH.
Qed.

Lemma slice_ok' : codec_ok (slice_codec c) (Forall P).
Proof.
  intros l Hl. cbn. destruct l as [|a l]; [split; [constructor|done]|]. split.
  - constructor. apply Forall_forall. intros j Hj. apply list_elem_of_In, in_map_iff in Hj as (x & <- & Hx).
    apply Hc. eapply Forall_forall; [exact Hl|by apply list_elem_of_In].
  - by apply dec_elems_ok.
Qed.

(** A pointer to something that is not written as [null]. *)
Lemma ptr_ok : (forall a, jenc c a <> JNull) -> codec_ok (ptr_codec c) (fun o => exists a, o = Some a /\ P a).
Proof.
  intros Hn o (a & -> & Ha). destruct (Hc a Ha) as [H1 H2]. cbn. split; [done|].
  specialize (Hn a). rewrite H2. by destruct (jenc c a).
Qed.

Lemma dec_entries_ok w (l : list (Z * A)) m :
  Forall (fun e => 0 <= e.1 < 2 ^ w /\ P e.2) l ->
  dec_entries c w (map (enc_entry c) l) m = Some (fold_left (fun m e => <[e.1 := e.2]> m) l m).
Proof.
  intros Hl. revert m. induction Hl as [|[k a] l [Hk Ha] Hl IH]; intros m; [done|]. cbn in *.
  rewrite ParseUint_FormatInt by done. rewrite (proj2 (Hc a Ha)). apply IH.
Qed.

Lemma fold_insert_perm (l : list (Z * A)) (m : gmap Z A) :
  l ≡ₚ map_to_list m -> fold_left (fun m e => <[e.1 := e.2]> m) l ∅ = m.
Proof.
  intros Hl. rewrite <- fold_left_rev_right.
  assert (forall l : list (Z * A), fold_right (fun e m => <[e.1 := e.2]> m) ∅ l = list_to_map (M := gmap Z A) l) as ->.
  { clear. induction l as [|[k a] l IH]; [done|]. cbn. by rewrite IH. }
  assert (rev l ≡ₚ map_to_list m) as Hr by (rewrite <- Hl; symmetry; apply Permutation_rev).
  rewrite <- (list_to_map_to_list m). apply list_to_map_proper; [|done].
  rewrite Hr. apply NoDup_fst_map_to_list.
Qed.

Lemma FormatInt_plain z : 0 <= z -> all_plain (FormatInt z).
Proof.
  intros Hz. pose proof (digits_FormatInt z Hz) as Hd. unfold digits_only in Hd.
  destruct (FormatInt z) as [|c0 s]; [done|]. rewrite forallb_forall in Hd. apply Forall_forall.
  intros ch Hch%list_elem_of_In%Hd. by destruct ch as [[] [] [] [] [] [] [] []].
Qed.

Lemma map_ok w : codec_ok (map_codec c w) (fun o => exists m, o = Some m /\
  forall k a, m !! k = Some a -> 0 <= k < 2 ^ w /\ P a).
Proof.
  intros o (m & -> & Hm). cbn. pose proof (merge_sort_Permutation key_le (map (enc_entry c) (map_to_list m))) as Hp.
  apply Permutation_map_inv in Hp as (l & -> & Hl).
  assert (Forall (fun e => 0 <= e.1 < 2 ^ w /\ P e.2) l) as Hf.
  { apply Forall_forall. intros [k a]. rewrite <- Hl. rewrite elem_of_map_to_list. apply Hm. }
  split.
  - constructor. apply Forall_forall. intros e He. apply list_elem_of_In, in_map_iff in He as ([k a] & <- & He).
    apply list_elem_of_In in He. apply (proj1 (Forall_forall _ _) Hf) in He as [Hk Ha].
    split; [apply FormatInt_plain; apply Hk|by apply Hc].
  - rewrite dec_entries_ok by done. by rewrite (fold_insert_perm l m).
Qed.

End container_ok.

(** ** The texts are valid UTF-8 *)

Definition codec_utf8 {A} (c : codec A) : Prop := forall a, utf8_json (jenc c a) = true.

Lemma utf8_FormatInt z : utf8 (FormatInt z) = true.
Proof.
  assert (forall z, 0 <= z -> utf8 (FormatInt z) = true) as Hnat.
  { intros z' Hz. pose proof (digits_FormatInt z' Hz) as Hd. unfold digits_only in Hd.
    destruct (FormatInt z') as [|c0 s]; [done|]. rewrite forallb_forall in Hd. apply utf8_ascii, Forall_forall.
    intros ch Hch%list_elem_of_In%Hd. by destruct ch as [[] [] [] [] [] [] [] []]. }
  destruct z as [|p|p]; [reflexivity|by apply Hnat|]. change (utf8 (FormatInt (Z.pos p)) = true). by apply Hnat.
Qed.

Lemma number_utf8 in_range : codec_utf8 (number_codec in_range).
Proof. by intros z. Qed.

Lemma slice_utf8 {A} (c : codec A) : codec_utf8 c -> codec_utf8 (slice_codec c).
Proof.
  intros Hc l. cbn. destruct l as [|a l]; [done|]. cbn [utf8_json]. apply forallb_forall.
  intros j (x & <- & _)%in_map_iff. apply Hc.
Qed.

Lemma ptr_utf8 {A} (c : codec A) : codec_utf8 c -> codec_utf8 (ptr_codec c).
Proof. intros Hc [a|]; [apply Hc|done]. Qed.

Lemma map_utf8 {A} (c : codec A) w : codec_utf8 c -> codec_utf8 (map_codec c w).
Proof.
  intros Hc [m|]; [|done]. cbn [map_codec jenc utf8_json]. apply forallb_forall. intros e He.
  rewrite (merge_sort_Permutation key_le) in He. apply in_map_iff in He as ([k a] & <- & _).
  cbn. by rewrite utf8_FormatInt, Hc.
Qed.

Lemma struct_utf8 {R} (zero : R) fields :
  Forall (fun f => utf8 (jf_name f) = true /\ forall r, utf8_json (jf_enc f r) = true) fields ->
  codec_utf8 (struct_codec zero fields).
Proof.
  intros Hf r. cbn [struct_codec jenc utf8_json]. apply forallb_forall. intros m (f & <- & Hin)%in_map_iff.
  rewrite List.Forall_forall in Hf. destruct (Hf f Hin) as [H1 H2]. cbn. by rewrite H1, H2.
Qed.

(** The fields of a struct with literal names. *)
Ltac struct_utf8 tac :=
  apply struct_utf8; repeat constructor; try reflexivity; intros ?; cbn [jf_enc fld]; tac.
