(* ===== verification/CacheFile.v ===== *)
(** The template cache on disk: [Dump] and [GetCache] of [src/ipfix/memcache.go] and
    [src/netflow/v9/memcache.go] down to the text of the file, over any template type with
    a codec.

    [FileShard] and [FileDisk] are the Go types as [json.Unmarshal] can leave them, with nil
    pointers and nil maps; [of_file] is the cache when there are none.  Cutting the file's
    text into a JSON value is a parameter with the law [reads_back] of Json.v; the file system is a
    parameter. *)

From Stdlib Require Import Strings.Ascii.
From S2P Require Import Prelude GoNet Json GoStrings Stats GoJson TemplateCache.

Local Open Scope string_scope.
Local Open Scope list_scope.
Open Scope Z_scope.

Section cache_file.
Context {T : Type} (template_codec : codec T).

Record FileShard : Type := mkFileShard { fs_Templates : option (gmap Z (Data T)) }.
Record FileDisk : Type := mkFileDisk { fd_Cache : list (option FileShard); fd_ShardNo : Z }.

Definition data_codec : codec (Data T) :=
  struct_codec (mkData (jzero template_codec) 0)
    [fld "Template" template_codec Template (fun t d => mkData t (Timestamp d));
     fld "Timestamp" int64_codec Timestamp (fun z d => mkData (Template d) z)].

(** The embedded [sync.RWMutex] has no exported field. *)
Definition shard_codec : codec FileShard :=
  struct_codec (mkFileShard None)
    [fld "Templates" (map_codec data_codec 32) fs_Templates (fun m _ => mkFileShard m)].

Definition disk_codec : codec FileDisk :=
  struct_codec (mkFileDisk [] 0)
    [fld "Cache" (slice_codec (ptr_codec shard_codec)) fd_Cache (fun l d => mkFileDisk l (fd_ShardNo d));
     fld "ShardNo" int64_codec fd_ShardNo (fun z d => mkFileDisk (fd_Cache d) z)].

(** A cache in memory, and a cache that was read. *)
Definition to_file (m : MemCache T) : list (option FileShard) :=
  map (fun s => Some (mkFileShard (Some (Templates s)))) m.

Fixpoint of_file (l : list (option FileShard)) : option (MemCache T) :=
  match l with
  | [] => Some []
  | Some (mkFileShard (Some ts)) :: l' =>
      match of_file l' with Some m => Some (mkShard ts :: m) | None => None end
  | _ => None
  end.

(** [Dump]: the text written to the file, and whether that succeeded. *)
Definition Dump_file (WriteFile : string -> bool) (m : MemCache T) : string * bool :=
  let b := print (jenc disk_codec (mkFileDisk (to_file m) shardNo)) in (b, WriteFile b).

(** [GetCache]: [file] is what [ioutil.ReadFile] returns, [None] an error. *)
Definition GetCache_file (json_parse : string -> option json) (file : option string) : list (option FileShard) :=
  let fresh := to_file (replicate (Z.to_nat shardNo) (mkShard ∅)) in
  match file with
  | None => fresh
  | Some b =>
      match json_parse b with
      | None => fresh
      | Some j =>
          match jdec disk_codec (jzero disk_codec) j with
          | None => fresh
          | Some mem => if fd_ShardNo mem =? shardNo then fd_Cache mem else fresh
          end
      end
  end.

(** ** Round trip *)

Context (template_ok : T -> Prop) (Ht : codec_ok template_codec template_ok) (Hu : codec_utf8 template_codec).

Definition data_ok (d : Data T) : Prop := template_ok (Template d) /\ - 2 ^ 63 <= Timestamp d < 2 ^ 63.

Definition shard_range (s : TemplatesShard T) : Prop :=
  forall k d, Templates s !! k = Some d -> 0 <= k < 2 ^ 32 /\ data_ok d.

(** All keys, templates and time stamps fit their Go types. *)
Definition cache_range (m : MemCache T) : Prop := Forall shard_range m.

Lemma data_codec_ok : codec_ok data_codec data_ok.
Proof.
  intros [t z] [H1 H2]. cbn in H1, H2. destruct (Ht t H1) as [S1 E1]. destruct (int64_ok z H2) as [S2 E2].
  cbn in E2. split; cbn; [repeat first [done|constructor]|]. by rewrite E1, E2.
Qed.

Lemma shard_codec_ok : codec_ok shard_codec (fun s => exists ts, s = mkFileShard (Some ts) /\ shard_range (mkShard ts)).
Proof.
  intros s (ts & -> & Hs).
  destruct (map_ok data_codec data_ok data_codec_ok 32 (Some ts)) as [S1 E1]; [by exists ts|].
  split; [repeat first [done|constructor]|]. cbn -[map_codec]. cbn in E1 |- *. by rewrite E1.
Qed.

Lemma disk_codec_ok m : cache_range m -> codec_ok disk_codec (fun d => d = mkFileDisk (to_file m) shardNo).
Proof.
  intros Hm d ->.
  destruct (slice_ok' (ptr_codec shard_codec) _ (ptr_ok shard_codec _ shard_codec_ok ltac:(done)) (to_file m))
    as [S1 E1].
  { unfold to_file. apply Forall_map. eapply Forall_impl; [exact Hm|]. intros s Hs.
    eexists. split; [done|]. destruct s as [ts]. by exists ts. }
  destruct (int64_ok shardNo ltac:(done)) as [S2 E2].
  split; [cbn; repeat first [done|constructor]|]. cbn -[slice_codec]. cbn in E1 |- *. by rewrite E1.
Qed.

Lemma disk_codec_utf8 : codec_utf8 disk_codec.
Proof using Hu.
  assert (codec_utf8 data_codec) by (struct_utf8 ltac:(first [apply Hu|apply number_utf8])).
  assert (codec_utf8 shard_codec) by (struct_utf8 ltac:(by apply map_utf8)).
  struct_utf8 ltac:(first [by apply slice_utf8, ptr_utf8|apply number_utf8]).
Qed.

Lemma of_to_file m : of_file (to_file m) = Some m.
Proof. unfold to_file. induction m as [|[ts] m IH]; [done|]. cbn in *. by rewrite IH. Qed.

(** What [Dump] wrote is read back. *)
Lemma GetCache_Dump json_parse WriteFile m :
  reads_back json_parse -> cache_range m ->
  of_file (GetCache_file json_parse (Some (Dump_file WriteFile m).1)) = Some m.
Proof.
  intros Hp Hm. destruct (disk_codec_ok m Hm _ eq_refl) as [S E].
  unfold GetCache_file, Dump_file. cbn [fst]. rewrite Hp by (done || apply disk_codec_utf8). rewrite E. cbn [fd_ShardNo fd_Cache].
  rewrite Z.eqb_refl. apply of_to_file.
Qed.

End cache_file.
Arguments FileShard : clear implicits.
Arguments FileDisk : clear implicits.
