(* ===== verification/IpfixCacheFile.v ===== *)
(** The IPFIX cache file: the codec of the templates of [src/ipfix/decoder.go], and that a
    collector that is stopped and started again has the same templates as before,
    whatever datagrams it received. *)

From Stdlib Require Import Strings.Ascii.
From S2P Require Import Prelude GoNet Json GoStrings Stats GoJson CacheFile InfoModel Interpret TemplateCache Reader IpfixDecoder IpfixFacts IpfixDecode IpfixMessage IpfixSource Marshal MarshalIpfix Mirror Collector.

Local Open Scope string_scope.
Local Open Scope list_scope.
Open Scope Z_scope.

(** ** Templates *)

Definition spec_codec : codec TemplateFieldSpecifier :=
  struct_codec (mkFieldSpecifier 0 0 0)
    [fld "ElementID" uint16_codec fs_ElementID (fun z f => mkFieldSpecifier z (fs_Length f) (fs_EnterpriseNo f));
     fld "Length" uint16_codec fs_Length (fun z f => mkFieldSpecifier (fs_ElementID f) z (fs_EnterpriseNo f));
     fld "EnterpriseNo" uint32_codec fs_EnterpriseNo (fun z f => mkFieldSpecifier (fs_ElementID f) (fs_Length f) z)].

Definition template_codec : codec TemplateRecord :=
  struct_codec zeroTemplateRecord
    [fld "TemplateID" uint16_codec tr_TemplateID (fun z t =>
       mkTemplateRecord z (tr_FieldCount t) (tr_FieldSpecifiers t) (tr_ScopeFieldCount t) (tr_ScopeFieldSpecifiers t));
     fld "FieldCount" uint16_codec tr_FieldCount (fun z t =>
       mkTemplateRecord (tr_TemplateID t) z (tr_FieldSpecifiers t) (tr_ScopeFieldCount t) (tr_ScopeFieldSpecifiers t));
     fld "FieldSpecifiers" (slice_codec spec_codec) tr_FieldSpecifiers (fun l t =>
       mkTemplateRecord (tr_TemplateID t) (tr_FieldCount t) l (tr_ScopeFieldCount t) (tr_ScopeFieldSpecifiers t));
     fld "ScopeFieldCount" uint16_codec tr_ScopeFieldCount (fun z t =>
       mkTemplateRecord (tr_TemplateID t) (tr_FieldCount t) (tr_FieldSpecifiers t) z (tr_ScopeFieldSpecifiers t));
     fld "ScopeFieldSpecifiers" (slice_codec spec_codec) tr_ScopeFieldSpecifiers (fun l t =>
       mkTemplateRecord (tr_TemplateID t) (tr_FieldCount t) (tr_FieldSpecifiers t) (tr_ScopeFieldCount t) l)].

(** The fields fit their Go types. *)
Definition spec_range (f : TemplateFieldSpecifier) : Prop :=
  0 <= fs_ElementID f < 65536 /\ 0 <= fs_Length f < 65536 /\ 0 <= fs_EnterpriseNo f < 4294967296.

Definition template_range (t : TemplateRecord) : Prop :=
  0 <= tr_TemplateID t < 65536 /\ 0 <= tr_FieldCount t < 65536 /\ Forall spec_range (tr_FieldSpecifiers t) /\
  0 <= tr_ScopeFieldCount t < 65536 /\ Forall spec_range (tr_ScopeFieldSpecifiers t).

Lemma spec_codec_ok : codec_ok spec_codec spec_range.
Proof.
  intros [e l n] (H1 & H2 & H3). cbn in H1, H2, H3.
  pose proof (uint_ok 16 e H1) as [_ E1]. pose proof (uint_ok 16 l H2) as [_ E2].
  pose proof (uint_ok 32 n H3) as [_ E3]. cbn in E1, E2, E3. split; cbn; [repeat constructor|].
  by rewrite E1, E2, E3.
Qed.

Lemma template_codec_ok : codec_ok template_codec template_range.
Proof.
  intros [id n fs sn sfs] (H1 & H2 & H3 & H4 & H5). cbn in H1, H2, H3, H4, H5.
  pose proof (uint_ok 16 id H1) as [_ E1]. pose proof (uint_ok 16 n H2) as [_ E2].
  destruct (slice_ok' spec_codec _ spec_codec_ok fs H3) as [S3 E3].
  pose proof (uint_ok 16 sn H4) as [_ E4].
  destruct (slice_ok' spec_codec _ spec_codec_ok sfs H5) as [S5 E5].
  split; [cbn -[slice_codec]; repeat first [done|constructor]|].
  change (jzero (slice_codec spec_codec)) with (@nil TemplateFieldSpecifier) in E3, E5.
  cbn -[slice_codec] in *. rewrite E1, E2. cbn -[slice_codec]. rewrite E3. cbn -[slice_codec].
  rewrite E4. cbn -[slice_codec]. by rewrite E5.
Qed.

Lemma template_codec_utf8 : codec_utf8 template_codec.
Proof.
  assert (codec_utf8 spec_codec) by (struct_utf8 ltac:(apply number_utf8)).
  struct_utf8 ltac:(first [by apply slice_utf8|apply number_utf8]).
Qed.

(** ** What [Decode] stores fits *)

Lemma reads_spec_range : reads spec_range TemplateFieldSpecifier_unmarshal.
Proof.
  unfold TemplateFieldSpecifier_unmarshal. do 2 reads_step. case_match.
  - reads_step. apply reads_ret. split_and!; cbn; try lia; [by apply Z.land_nonneg; lia|].
    change 32767 with (Z.ones 15). rewrite Z.land_ones by lia.
    pose proof (Z.mod_pos_bound a (2 ^ 15) ltac:(lia)). lia.
  - apply reads_ret. split_and!; cbn; lia.
Qed.

Lemma reads_fields_range n acc :
  Forall spec_range acc -> reads (Forall spec_range) (unmarshal_fields n acc).
Proof.
  revert acc. induction n as [|n IH]; intros acc Hacc; simpl; [by apply reads_ret|].
  eapply reads_bind; [apply reads_spec_range|]. intros tf Htf. apply IH. apply Forall_app; auto.
Qed.

Lemma reads_scope_range n acc :
  Forall spec_range acc -> reads (Forall spec_range) (unmarshal_scope n [] acc).
Proof.
  revert acc. induction n as [|n IH]; intros acc Hacc; simpl; [by apply reads_ret|].
  eapply reads_bind; [apply reads_spec_range|]. intros tf Htf. apply IH. auto.
Qed.

Lemma reads_template_range : reads template_range TemplateRecord_unmarshal.
Proof.
  unfold TemplateRecord_unmarshal.
  eapply reads_bind with (Q := fun th => 0 <= th_TemplateID th < 65536 /\ 0 <= th_FieldCount th < 65536).
  - unfold TemplateHeader_unmarshal. do 2 reads_step. by apply reads_ret.
  - intros th [H1 H2]. eapply reads_bind; [by apply reads_fields_range|]. intros fields Hf.
    apply reads_ret. split_and!; cbn; done || lia.
Qed.

Lemma reads_opts_range : reads template_range TemplateRecord_unmarshalOpts.
Proof.
  unfold TemplateRecord_unmarshalOpts.
  eapply reads_bind with (Q := fun th => 0 <= th_TemplateID th < 65536 /\ 0 <= th_FieldCount th < 65536 /\
    0 <= th_ScopeFieldCount th < 65536).
  - unfold TemplateHeader_unmarshalOpts. do 3 reads_step. by apply reads_ret.
  - intros th (H1 & H2 & H3). eapply reads_bind; [by apply reads_scope_range|]. intros scope Hs.
    eapply reads_bind; [by apply reads_fields_range|]. intros fields Hf. apply reads_ret.
    split_and!; cbn; done || lia.
Qed.

Lemma carried_range b t : carried b t -> template_range t.
Proof.
  intros (pre & suf & c & _ & [H|H]).
  - destruct (reads_template_range (mkReader suf c)) as (_ & _ & Hq). by rewrite H in Hq.
  - destruct (reads_opts_range (mkReader suf c)) as (_ & _ & Hq). by rewrite H in Hq.
Qed.

Lemma template_range_wf t : template_range t -> tr_wf t.
Proof.
  intros (_ & _ & H3 & _ & H5). split; (eapply Forall_impl; [eassumption|]); intros f (_ & H & _); exact H.
Qed.

(** ** The invariant of the cache *)

Definition file_ok (m : MemCache TemplateRecord) : Prop := cache_wf m /\ cache_range template_range m.

Lemma file_ok_retrieve id addr m : file_ok m ->
  exists o, MemCache_retrieve id addr m = (m, Ok o) /\ forall t, o = Some t -> tr_wf t.
Proof.
  intros [Hw Hr]. eexists. split; [by apply retrieve_ok|]. unfold cache_lookup. intros t.
  destruct (m !! _) as [shard|] eqn:E; [|done]. cbn.
  destruct (Templates shard !! _) as [d|] eqn:Ed; [|done]. intros [= <-].
  eapply Forall_lookup_1 in Hr; [|exact E]. apply template_range_wf. by apply (Hr _ d Ed).
Qed.

Lemma file_ok_insert t addr now m : file_ok m -> template_range t -> - 2 ^ 63 <= now < 2 ^ 63 ->
  exists m', MemCache_insert (tr_TemplateID t) addr t now m = (m', Ok tt) /\ file_ok m'.
Proof.
  intros [Hw Hr] Ht Hn. destruct (getShard_ok m (tr_TemplateID t) addr Hw) as (shard & Hs & Hg).
  eexists. split; [unfold MemCache_insert; unmonad; rewrite Hg; reflexivity|]. split.
  - unfold cache_wf in *. by rewrite length_insert.
  - apply Forall_insert; [done|]. intros k d. cbn. rewrite lookup_insert_Some.
    intros [[<- <-]|[_ Hd]]; [split; [apply cache_key_range|by split]|].
    eapply Forall_lookup_1 in Hr; [|exact Hs]. by apply Hr.
Qed.

Lemma file_ok_fresh : file_ok (GetCache None).
Proof.
  split; [done|]. apply Forall_replicate. intros k d. cbn. by rewrite lookup_empty.
Qed.

(** ** A stopped and restarted collector *)

Section restart.
Context (im : IANAInfoModel) (unix_now : nat -> Z) (mirrorEnabled : bool).
Context (Hnow : forall n, - 2 ^ 63 <= unix_now n < 2 ^ 63).

Lemma ipfixWorker_file_ok fuel msgs (c : Collector (MC:=MemCache TemplateRecord)) :
  file_ok (co_mCache c) -> file_ok (co_mCache (ipfixWorker im unix_now mirrorEnabled fuel msgs c).1).
Proof.
  assert (forall msg, keeps (fun c => file_ok (co_mCache c)) (fun _ => True) (worker_decode im unix_now fuel msg)) as Hd.
  { intros msg. apply keeps_any. intros c1 Hc. unfold worker_decode. rewrite bind_get.
    destruct (Decode_keeps im (um_raddr msg) unix_now (um_body msg) file_ok) with (fuel := fuel)
      (m := co_mCache c1) (q := co_rpcChan c1) (k := co_clock c1) as [H _].
    - intros id m Hm. by apply file_ok_retrieve.
    - intros t n m Ht Hm. apply file_ok_insert; [done|by eapply carried_range|apply Hnow].
    - done.
    - destruct (Decode _ _ _ _ _) as [d o]. rewrite bind_modify. by destruct o. }
  assert (keeps (fun c => file_ok (co_mCache c)) (fun _ => True) (ipfixWorker im unix_now mirrorEnabled fuel msgs)) as H.
  { induction msgs as [|msg msgs IH]; cbn [ipfixWorker]; [by apply keeps_ret|].
    apply keeps_seq; [|done]. unfold ipfixWorker_round. apply keeps_seq.
    - destruct mirrorEnabled; [by apply keeps_modify|by apply keeps_ret].
    - intros _. apply keeps_seq; [apply Hd|]. intros [m|]; [|by apply keeps_ret].
      apply keeps_seq; [by apply keeps_modify|]. intros _. apply keeps_any. intros c1 Hc.
      unfold worker_publish. destruct (_ >? 0); [|done]. rewrite JSONMarshal_run. by destruct (last_err _ _). }
  intros Hc. by apply H.
Qed.

(** C19: templates survive a restart.  Whatever datagrams a worker received, from whatever
    exporters, the file that [Dump] writes at the end, read by [GetCache] at the next
    start, gives back the cache: every template with its key and time stamp, and none
    besides.  The JSON reader is only assumed to read back compact texts without
    escapes in valid UTF-8. *)
Theorem templates_survive_restart (json_parse : string -> option json) (WriteFile : string -> bool)
    (Hp : reads_back json_parse)
    (fuel : nat) (msgs : list IPFIXUDPMsg) (c : Collector (MC:=MemCache TemplateRecord))
    (Hc : file_ok (co_mCache c)) :
  let m := co_mCache (ipfixWorker im unix_now mirrorEnabled fuel msgs c).1 in
  of_file (GetCache_file template_codec json_parse (Some (Dump_file template_codec WriteFile m).1)) = Some m.
Proof.
  intros m. apply (GetCache_Dump template_codec template_range template_codec_ok template_codec_utf8); [done|].
  apply (ipfixWorker_file_ok fuel msgs c Hc).
Qed.

End restart.

Lemma templates_survive_restart_witness :
  let m := co_mCache (ipfixWorker InfoModel (fun _ => 1500000000) false 100
                        (map datagram_msg example_stream) fresh_collector).1 in
  of_file (GetCache_file template_codec parse_json (Some (Dump_file template_codec (fun _ => true) m).1)) = Some m.
Proof.
  apply (templates_survive_restart InfoModel (fun _ => 1500000000) false).
  - intros n. lia.
  - apply parse_json_reads_back.
  - apply file_ok_fresh.
Defined.

(** The number of shards in the file is not compared with [shardNo]: after a file with this
    member and no shards, the cache is empty and every access to it panics. *)
Theorem short_cache_panics :
  let file := print (JObj [("Cache", JNull); ("ShardNo", JNum 32)]) in
  of_file (GetCache_file template_codec parse_json (Some file)) = Some [] /\
  forall id addr, (MemCache_retrieve (T:=TemplateRecord) id addr []).2 = Panic.
Proof.
  split; [reflexivity|]. intros id addr. unfold MemCache_retrieve, getShard. unmonad.
  rewrite index_panic; [done|]. right. rewrite len_nil. by apply Z.mod_pos_bound.
Qed.
