(* ===== verification/NetflowCacheFile.v ===== *)
(** The NetFlow v9 cache file: the codec of the templates of [src/netflow/v9/decoder.go], and
    that what [Dump] writes is what [GetCache] reads. *)

From Stdlib Require Import Strings.Ascii.
From S2P Require Import Prelude GoNet Json GoStrings Stats GoJson CacheFile TemplateCache NetflowDecoder.

Local Open Scope string_scope.
Local Open Scope list_scope.
Open Scope Z_scope.

Definition v9_spec_codec : codec TemplateFieldSpecifier :=
  struct_codec (mkFieldSpecifier 0 0)
    [fld "ElementID" uint16_codec fs_ElementID (fun z f => mkFieldSpecifier z (fs_Length f));
     fld "Length" uint16_codec fs_Length (fun z f => mkFieldSpecifier (fs_ElementID f) z)].

Definition v9_template_codec : codec TemplateRecord :=
  struct_codec zeroTemplateRecord
    [fld "TemplateID" uint16_codec tr_TemplateID (fun z t =>
       mkTemplateRecord z (tr_FieldCount t) (tr_FieldSpecifiers t) (tr_ScopeFieldCount t) (tr_ScopeFieldSpecifiers t));
     fld "FieldCount" uint16_codec tr_FieldCount (fun z t =>
       mkTemplateRecord (tr_TemplateID t) z (tr_FieldSpecifiers t) (tr_ScopeFieldCount t) (tr_ScopeFieldSpecifiers t));
     fld "FieldSpecifiers" (slice_codec v9_spec_codec) tr_FieldSpecifiers (fun l t =>
       mkTemplateRecord (tr_TemplateID t) (tr_FieldCount t) l (tr_ScopeFieldCount t) (tr_ScopeFieldSpecifiers t));
     fld "ScopeFieldCount" uint16_codec tr_ScopeFieldCount (fun z t =>
       mkTemplateRecord (tr_TemplateID t) (tr_FieldCount t) (tr_FieldSpecifiers t) z (tr_ScopeFieldSpecifiers t));
     fld "ScopeFieldSpecifiers" (slice_codec v9_spec_codec) tr_ScopeFieldSpecifiers (fun l t =>
       mkTemplateRecord (tr_TemplateID t) (tr_FieldCount t) (tr_FieldSpecifiers t) (tr_ScopeFieldCount t) l)].

(** The file of this package's cache. *)
Definition v9_Dump_file : (string -> bool) -> MemCache TemplateRecord -> string * bool :=
  Dump_file v9_template_codec.
Definition v9_GetCache_file : (string -> option json) -> option string -> list (option (FileShard TemplateRecord)) :=
  GetCache_file v9_template_codec.

Definition v9_spec_range (f : TemplateFieldSpecifier) : Prop :=
  0 <= fs_ElementID f < 65536 /\ 0 <= fs_Length f < 65536.

Definition v9_template_range (t : TemplateRecord) : Prop :=
  0 <= tr_TemplateID t < 65536 /\ 0 <= tr_FieldCount t < 65536 /\ Forall v9_spec_range (tr_FieldSpecifiers t) /\
  0 <= tr_ScopeFieldCount t < 65536 /\ Forall v9_spec_range (tr_ScopeFieldSpecifiers t).

Lemma v9_spec_codec_ok : codec_ok v9_spec_codec v9_spec_range.
Proof.
  intros [e l] (H1 & H2). cbn in H1, H2. pose proof (uint_ok 16 e H1) as [_ E1].
  pose proof (uint_ok 16 l H2) as [_ E2]. cbn in E1, E2. split; cbn; [repeat constructor|]. by rewrite E1, E2.
Qed.

Lemma v9_template_codec_ok : codec_ok v9_template_codec v9_template_range.
Proof.
  intros [id n fs sn sfs] (H1 & H2 & H3 & H4 & H5). cbn in H1, H2, H3, H4, H5.
  pose proof (uint_ok 16 id H1) as [_ E1]. pose proof (uint_ok 16 n H2) as [_ E2].
  destruct (slice_ok' v9_spec_codec _ v9_spec_codec_ok fs H3) as [S3 E3].
  pose proof (uint_ok 16 sn H4) as [_ E4].
  destruct (slice_ok' v9_spec_codec _ v9_spec_codec_ok sfs H5) as [S5 E5].
  split; [cbn -[slice_codec]; repeat first [done|constructor]|].
  change (jzero (slice_codec v9_spec_codec)) with (@nil TemplateFieldSpecifier) in E3, E5.
  cbn -[slice_codec] in *. rewrite E1, E2. cbn -[slice_codec]. rewrite E3. cbn -[slice_codec].
  rewrite E4. cbn -[slice_codec]. by rewrite E5.
Qed.

Lemma v9_template_codec_utf8 : codec_utf8 v9_template_codec.
Proof.
  assert (codec_utf8 v9_spec_codec) by (struct_utf8 ltac:(apply number_utf8)).
  struct_utf8 ltac:(first [by apply slice_utf8|apply number_utf8]).
Qed.

(** What [Dump] wrote, [GetCache] reads back: the same shards, keys, templates and time
    stamps. *)
Theorem v9_cache_file_roundtrip (json_parse : string -> option json) (WriteFile : string -> bool)
    (Hp : reads_back json_parse)
    (m : MemCache TemplateRecord) (Hm : cache_range v9_template_range m) :
  of_file (v9_GetCache_file json_parse (Some (v9_Dump_file WriteFile m).1)) = Some m.
Proof. by apply (GetCache_Dump v9_template_codec v9_template_range v9_template_codec_ok v9_template_codec_utf8). Qed.
