(* ===== verification/Monitor.v ===== *)
(** The monitor, [src/monitor]: it reads the statistics service, keeps the last answer in a
    file, and stores the rates in InfluxDB or OpenTSDB.

    HTTP, the clock and the host name are parameters; the file of the last answer is the
    state.  A run ends normally, with an error, by [os.Exit] or by a panic.  Host names are
    taken to be texts that JSON writes as they are. *)

From Stdlib Require Import Strings.Ascii.
From S2P Require Import Prelude GoNet Json GoStrings Flags Stats.

Local Open Scope string_scope.
Local Open Scope list_scope.
Open Scope Z_scope.

(** What a run comes to. *)
Inductive Out (A : Type) : Type := Done (a : A) | OErr | OExit | OPanic.
Arguments Done {A}. Arguments OErr {A}. Arguments OExit {A}. Arguments OPanic {A}.

Definition obind {A B} (o : Out A) (k : A -> Out B) : Out B :=
  match o with Done a => k a | OErr => OErr | OExit => OExit | OPanic => OPanic end.

(** [abs]: a negative number ends the process. *)
Definition abs (a : Z) : Out Z := if a <? 0 then OExit else Done a.

(** [abs((a - b) / delta)] on [int64]. *)
Definition rate (a b delta : Z) : Out Z :=
  if delta =? 0 then OPanic else abs (int64 (Z.quot (int64 (a - b)) delta)).

Fixpoint rates (l : list (Z * Z)) (delta : Z) : Out (list Z) :=
  match l with
  | [] => Done []
  | (a, b) :: l' => obind (rate a b delta) (fun v => obind (rates l' delta) (fun vs => Done (v :: vs)))
  end.

(** ** [store.go] *)

Section store.
(** [json.Unmarshal]'s reading of a text; HTTP answers ([None] an error). *)
Context (json_parse : string -> option json).
Context (http_Get : string -> option string) (http_Post : string -> string -> string -> option string).

(** [Client.Get] into a struct: [None] an error. *)
Definition Client_Get {R} (decode : json -> R -> R * bool) (url : string) (r : R) : option R :=
  match http_Get url with
  | None => None
  | Some body =>
      match json_parse body with
      | None => None
      | Some j => let '(r, ok) := decode j r in if ok then Some r else None
      end
  end.

(** [Client.Post]: the body of the answer. *)
Definition Client_Post (url cType query : string) : option string := http_Post url cType query.

(** [getFlow]: the flow read, the last flow, and what the file holds afterwards.  A JSON
    [null] in the file makes [lastFlow] a nil pointer. *)
Definition getFlow (now : Z) (vhost : string) (file : option string) : option string * Out (Flow * Flow) :=
  match Client_Get decode_flow (vhost +:+ "/flow") zeroFlow with
  | None => (file, OErr)
  | Some f =>
      let flow := mkFlow (fl_StartTime f) now (fl_IPFIX f) (fl_SFlow f) (fl_NetflowV9 f) in
      match file with
      | None => (Some (print (Flow_json flow)), OErr)
      | Some b =>
          match json_parse b with
          | None => (file, OErr)
          | Some JNull => (Some (print (Flow_json flow)), OPanic)
          | Some j =>
              let '(lastFlow, ok) := decode_flow j zeroFlow in
              if negb ok then (file, OErr)
              else (Some (print (Flow_json flow)),
                    if negb (fl_StartTime flow =? fl_StartTime lastFlow) then OExit else Done (flow, lastFlow))
          end
      end
  end.

(** ** [influxdb.go] *)

Definition line (metric type host : string) (value : Z) : string :=
  metric +:+ ",type=" +:+ type +:+ ",host=" +:+ host +:+ " value=" +:+ FormatInt value +:+ String "010"%char "".

(** The counters whose rates are stored, in order, now and before. *)
Definition influx_pairs (f l : Flow) : list (Z * Z) :=
  let i c := (c (ipfix_counters (fl_IPFIX f)), c (ipfix_counters (fl_IPFIX l))) in
  let s c := (c (fl_SFlow f), c (fl_SFlow l)) in
  let n c := (c (fl_NetflowV9 f), c (fl_NetflowV9 l)) in
  [i UDPCount; s UDPCount; n UDPCount; i DecodedCount; s DecodedCount; n DecodedCount;
   i MQErrorCount; s MQErrorCount; n MQErrorCount].

Definition rate_names : list (string * string) :=
  [("udp.rate", "ipfix"); ("udp.rate", "sflow"); ("udp.rate", "netflowv9");
   ("decode.rate", "ipfix"); ("decode.rate", "sflow"); ("decode.rate", "netflowv9");
   ("mq.error.rate", "ipfix"); ("mq.error.rate", "sflow"); ("mq.error.rate", "netflowv9")].

(** The gauges that follow the rates. *)
Definition influx_gauges (f : Flow) : list (string * string * Z) :=
  let i := ipfix_counters (fl_IPFIX f) in
  let s := fl_SFlow f in
  let n := fl_NetflowV9 f in
  [("workers", "ipfix", Workers i); ("workers", "sflow", Workers s); ("workers", "netflowv9", Workers n);
   ("udp.queue", "ipfix", UDPQueue i); ("udp.queue", "sflow", UDPQueue s); ("udp.queue", "netflowv9", UDPQueue n);
   ("mq.queue", "ipfix", MessageQueue i); ("mq.queue", "sflow", MessageQueue s);
   ("mq.queue", "netflowv9", MessageQueue n); ("udp.mirror.queue", "ipfix", UDPMirrorQueue (fl_IPFIX f))].

Definition influx_query (host : string) (f : Flow) (values : list Z) : string :=
  join "" (zip_with (fun mt v => line mt.1 mt.2 host v) rate_names values ++
           map (fun g => line g.1.1 g.1.2 host g.2) (influx_gauges f)).

(** The answer to a write: any text is an error. *)
Definition influx_write (API DB query : string) : Out string :=
  match Client_Post (API +:+ "/write?db=" +:+ DB) "text/plain" query with
  | None => OErr
  | Some b => if negb (String.eqb b "") then OErr else Done query
  end.

(** [InfluxDB.Netflow]: the query written, when there is no error. *)
Definition InfluxDB_Netflow (API DB VHost host : string) (now : Z) (file : option string) :
    option string * Out string :=
  let '(file, got) := getFlow now VHost file in
  (file, obind got (fun '(flow, lastFlow) =>
     let delta := int64 (fl_Timestamp flow - fl_Timestamp lastFlow) in
     obind (rates (influx_pairs flow lastFlow) delta) (fun values =>
     influx_write API DB (influx_query host flow values)))).

Definition sys_line (metric host : string) (value : Z) : string :=
  metric +:+ ",host=" +:+ host +:+ " value=" +:+ FormatInt value +:+ String "010"%char "".

Definition sys_metrics (sys : Sys) : list (string * Z) :=
  [("mem.heap.alloc", s_MemHeapAlloc sys); ("mem.alloc", s_MemAlloc sys); ("mcache.inuse", s_MCacheInuse sys);
   ("mem.total.alloc", s_MemTotalAlloc sys); ("mem.heap.sys", s_MemHeapSys sys);
   ("num.goroutine", s_NumGoroutine sys)].

Definition InfluxDB_System (API DB VHost host : string) : Out string :=
  match Client_Get decode_sys (VHost +:+ "/sys") zeroSys with
  | None => OErr
  | Some sys => influx_write API DB (join "" (map (fun m => sys_line m.1 host m.2) (sys_metrics sys)))
  end.

(** ** [tsdb.go] *)

Record TSDBDataPoint : Type := mkDataPoint {
  dp_Metric : string; dp_Timestamp : Z; dp_Value : Z; dp_Host : string; dp_Type : string
}.

Definition TSDBDataPoint_json (d : TSDBDataPoint) : json :=
  JObj [("metric", JStr (dp_Metric d)); ("timestamp", JNum (dp_Timestamp d)); ("value", JNum (dp_Value d));
        ("Tags", JObj [("host", JStr (dp_Host d)); ("type", JStr (dp_Type d))])].

(** [put]: the answer is decoded into a copy, so that [Failed] stays 0 and no answer is an
    error. *)
Definition put (API : string) (dps : list TSDBDataPoint) : Out (list TSDBDataPoint) :=
  match Client_Post (API +:+ "/api/put") "application/json" (print (JArr (map TSDBDataPoint_json dps))) with
  | None => OErr
  | Some b => let resp_Failed := 0 in if resp_Failed >? 0 then OErr else Done dps
  end.

Definition tsdb_pairs (f l : Flow) : list (Z * Z) :=
  let i c := (c (ipfix_counters (fl_IPFIX f)), c (ipfix_counters (fl_IPFIX l))) in
  let s c := (c (fl_SFlow f), c (fl_SFlow l)) in
  [i UDPCount; s UDPCount; i DecodedCount; s DecodedCount; i MQErrorCount; s MQErrorCount].

Definition tsdb_metrics : list (string * string) :=
  [("ipfix", "udp.rate"); ("sflow", "udp.rate"); ("ipfix", "decode.rate"); ("sflow", "decode.rate");
   ("ipfix", "mq.error.rate"); ("sflow", "mq.error.rate"); ("ipfix", "workers"); ("sflow", "workers")].

Definition TSDB_Netflow (API VHost host : string) (now : Z) (file : option string) :
    option string * Out (list TSDBDataPoint) :=
  let '(file, got) := getFlow now VHost file in
  (file, obind got (fun '(flow, lastFlow) =>
     let delta := int64 (fl_Timestamp flow - fl_Timestamp lastFlow) in
     obind (rates (tsdb_pairs flow lastFlow) delta) (fun values =>
     let values := values ++ [Workers (ipfix_counters (fl_IPFIX flow)); Workers (fl_SFlow flow)] in
     put API (zip_with (fun m v => mkDataPoint m.2 now v host m.1) tsdb_metrics values)))).

Definition TSDB_System (API VHost host : string) (now : Z) : Out (list TSDBDataPoint) :=
  match Client_Get decode_sys (VHost +:+ "/sys") zeroSys with
  | None => OErr
  | Some sys => put API (map (fun m => mkDataPoint m.1 now m.2 host "") (sys_metrics sys))
  end.

(** ** [monitor.go] *)

Record options : Type := mkMonitorOptions {
  DBType : string; VFlowHost : string; InfluxDBAPI : string; InfluxDBName : string; TSDBAPI : string;
  Hostname : string
}.

Definition default_options : options :=
  mkMonitorOptions "influxdb" "http://localhost:8081" "http://localhost:8086" "vflow" "http://localhost:4242" "na".

(** [init]: the flags. *)
Definition monitor_flags : list (string * setter options) :=
  [("db-type", StringVar (fun v '(mkMonitorOptions a b c d e f) => mkMonitorOptions v b c d e f));
   ("vflow-host", StringVar (fun v '(mkMonitorOptions a b c d e f) => mkMonitorOptions a v c d e f));
   ("influxdb-api-addr", StringVar (fun v '(mkMonitorOptions a b c d e f) => mkMonitorOptions a b v d e f));
   ("influxdb-db-name", StringVar (fun v '(mkMonitorOptions a b c d e f) => mkMonitorOptions a b c v e f));
   ("tsdb-api-addr", StringVar (fun v '(mkMonitorOptions a b c d e f) => mkMonitorOptions a b c d v f));
   ("hostname", StringVar (fun v '(mkMonitorOptions a b c d e f) => mkMonitorOptions a b c d e v))].

Definition monitor_init (args : list string) : option options := ParseTable monitor_flags args default_options.

(** A storage: [Netflow] and [System], as texts of what was stored. *)
Record Storage : Type := mkStorage {
  st_Netflow : string -> Z -> option string -> option string * Out string;
  st_System : string -> Z -> Out string
}.

Definition out_map {A B} (f : A -> B) (o : Out A) : Out B := obind o (fun a => Done (f a)).

Definition dps_text (dps : list TSDBDataPoint) : string := print (JArr (map TSDBDataPoint_json dps)).

Definition storage (o : options) : option Storage :=
  if String.eqb (DBType o) "influxdb" then
    Some (mkStorage (InfluxDB_Netflow (InfluxDBAPI o) (InfluxDBName o) (VFlowHost o))
                    (fun host _ => InfluxDB_System (InfluxDBAPI o) (InfluxDBName o) (VFlowHost o) host))
  else if String.eqb (DBType o) "tsdb" then
    Some (mkStorage (fun host now file =>
                       let '(file, out) := TSDB_Netflow (TSDBAPI o) (VFlowHost o) host now file in
                       (file, out_map dps_text out))
                    (fun host now => out_map dps_text (TSDB_System (TSDBAPI o) (VFlowHost o) host now)))
  else None.

(** [main]: the errors of the two are only logged; an exit or a panic of the first leaves
    the second undone. *)
Definition monitor_main (os_Hostname : option string) (now : Z) (o : options) (file : option string) :
    option string * Out (list string) :=
  match storage o with
  | None => (file, OExit)
  | Some st =>
      let host := if String.eqb (Hostname o) "na" then default "" os_Hostname else Hostname o in
      let '(file, r1) := st_Netflow st host now file in
      let logged r := match r with Done q => [q] | _ => [] end in
      (file, match r1 with
             | OExit => OExit
             | OPanic => OPanic
             | _ => match st_System st host now with
                    | OExit => OExit
                    | OPanic => OPanic
                    | r2 => Done (logged r1 ++ logged r2)
                    end
             end)
  end.
End store.

(** ** From the server's counters to the stored rates *)

Definition count_pair_ok (p : Z * Z) : Prop := 0 <= p.1 < 2 ^ 63 /\ 0 <= p.2 < 2 ^ 63.
Definition quotient (delta : Z) (p : Z * Z) : Z := Z.quot (p.1 - p.2) delta.

Lemma quot_small a d : - 2 ^ 63 < a < 2 ^ 63 -> d <> 0 -> - 2 ^ 63 < Z.quot a d < 2 ^ 63.
Proof.
  intros Ha Hd. pose proof (Z.quot_abs a d Hd) as H. pose proof (Z.quot_pos (Z.abs a) (Z.abs d)).
  assert (Z.quot (Z.abs a) (Z.abs d) <= Z.abs a).
  { destruct (Z.eq_dec (Z.abs d) 1) as [-> |]; [by rewrite Z.quot_1_r|].
    destruct (Z.eq_dec (Z.abs a) 0) as [-> |]; [by rewrite Z.quot_0_l; lia|].
    apply Z.lt_le_incl, Z.quot_lt; lia. }
  lia.
Qed.

Lemma rate_ok p delta :
  count_pair_ok p -> delta <> 0 ->
  rate p.1 p.2 delta = if quotient delta p <? 0 then OExit else Done (quotient delta p).
Proof.
  intros [H1 H2] Hd. unfold rate, abs, quotient. destruct (Z.eqb_spec delta 0); [done|].
  rewrite (wrapS_small 64 (p.1 - p.2)) by lia. pose proof (quot_small (p.1 - p.2) delta).
  rewrite wrapS_small by lia. done.
Qed.

Lemma rates_ok l delta :
  Forall count_pair_ok l -> delta <> 0 ->
  rates l delta = if existsb (fun p => quotient delta p <? 0) l then OExit else Done (map (quotient delta) l).
Proof.
  intros H Hd. induction H as [|[a b] l Hp _ IH]; [done|]. cbn [rates existsb map].
  pose proof (rate_ok (a, b) delta Hp Hd) as Hr. cbn [fst snd] in Hr. rewrite Hr, IH.
  destruct (quotient delta (a, b) <? 0); [done|]. by destruct (existsb _ l).
Qed.

Lemma rates_zero a b l : rates ((a, b) :: l) 0 = OPanic.
Proof. done. Qed.

Section run.
Context (json_parse : string -> option json).
Hypothesis parse_print : reads_back json_parse.

(** An answer of the server, read. *)
Lemma Client_Get_flow http_Get url d :
  http_Get url = Some (StatsFlowHandler d) -> data_ok d = true ->
  Client_Get json_parse http_Get decode_flow url zeroFlow = Some (flow_of d 0).
Proof using parse_print.
  intros Hg Hd. unfold Client_Get. rewrite Hg. unfold StatsFlowHandler. rewrite parse_print by (apply FlowData_safe || reflexivity).
  destruct (decode_FlowData d zeroFlow) as (f & -> & Hf). by rewrite Hd, (Hf Hd).
Qed.

(** The first answer is stored, the next one is compared with it. *)
Lemma getFlow_first http_Get vhost now d :
  http_Get (vhost +:+ "/flow") = Some (StatsFlowHandler d) -> data_ok d = true ->
  getFlow json_parse http_Get now vhost None = (Some (print (Flow_json (flow_of d now))), OErr).
Proof using parse_print.
  intros Hg Hd. unfold getFlow. by rewrite (Client_Get_flow _ _ d Hg Hd).
Qed.

Lemma getFlow_next http_Get vhost now d last :
  http_Get (vhost +:+ "/flow") = Some (StatsFlowHandler d) -> data_ok d = true -> flow_ok last = true ->
  getFlow json_parse http_Get now vhost (Some (print (Flow_json last))) =
  (Some (print (Flow_json (flow_of d now))),
   if negb (fd_StartTime d =? fl_StartTime last) then OExit else Done (flow_of d now, last)).
Proof using parse_print.
  intros Hg Hd Hl. unfold getFlow. rewrite (Client_Get_flow _ _ d Hg Hd), parse_print by (apply Flow_safe || reflexivity).
  pose proof (decode_Flow last zeroFlow Hl) as E.
  assert (exists ms, Flow_json last = JObj ms) as [ms Hm] by by eexists. rewrite Hm in *. by rewrite E.
Qed.
End run.

(** The counts of two answers, in the order of the rates. *)
Definition answer_pairs (d2 d1 : FlowData) : list (Z * Z) := influx_pairs (flow_of d2 0) (flow_of d1 0).

Lemma flow_of_ok d t : data_ok d = true -> in_int64 t = true -> flow_ok (flow_of d t) = true.
Proof.
  unfold data_ok, flow_ok, flow_of. cbn [fl_StartTime fl_Timestamp fl_IPFIX fl_SFlow fl_NetflowV9].
  intros Hd ->. rewrite andb_true_r. done.
Qed.

(** C35: Two runs of the monitor against the server, at the times [t1] and [t2], the server
    answering with its counters [d1] and [d2].  The first run stores the answer and reports
    an error.  The second ends the process when the server was restarted in between; it
    panics when both runs fall in the same second; it ends the process when a counter has
    gone down far enough to make a rate negative; and otherwise it writes, for each counter
    in order, its increase divided by the seconds between the two answers. *)
Theorem monitor_rates (json_parse : string -> option json)
    (Hparse : reads_back json_parse)
    (http1 http2 : string -> option string) (post : string -> string -> string -> option string)
    (API DB VHost host : string) (d1 d2 : FlowData) (t1 t2 : Z) :
  http1 (VHost +:+ "/flow") = Some (StatsFlowHandler d1) ->
  http2 (VHost +:+ "/flow") = Some (StatsFlowHandler d2) ->
  data_ok d1 = true -> data_ok d2 = true -> Forall count_pair_ok (answer_pairs d2 d1) ->
  0 <= t1 < 2 ^ 62 -> 0 <= t2 < 2 ^ 62 ->
  let run1 := InfluxDB_Netflow json_parse http1 post API DB VHost host t1 None in
  let run2 := InfluxDB_Netflow json_parse http2 post API DB VHost host t2 run1.1 in
  run1.2 = OErr /\
  run2.2 =
    if negb (fd_StartTime d2 =? fd_StartTime d1) then OExit
    else if t2 =? t1 then OPanic
    else if existsb (fun p => quotient (t2 - t1) p <? 0) (answer_pairs d2 d1) then OExit
    else influx_write post API DB
           (influx_query host (flow_of d2 t2) (map (quotient (t2 - t1)) (answer_pairs d2 d1))).
Proof.
  intros H1 H2 Hd1 Hd2 Hc Ht1 Ht2. cbv zeta. unfold InfluxDB_Netflow.
  rewrite (getFlow_first json_parse Hparse http1 VHost t1 d1 H1 Hd1). cbn [fst snd obind].
  assert (Hi : in_int64 t1 = true) by (unfold in_int64; apply andb_true_iff; lia).
  rewrite (getFlow_next json_parse Hparse http2 VHost t2 d2 _ H2 Hd2 (flow_of_ok d1 t1 Hd1 Hi)).
  cbn [fst snd]. split; [done|]. change (fl_StartTime (flow_of d1 t1)) with (fd_StartTime d1).
  destruct (negb _); [done|]. cbn [obind].
  change (fl_Timestamp (flow_of d2 t2)) with t2. change (fl_Timestamp (flow_of d1 t1)) with t1.
  rewrite wrapS_small by lia. change (influx_pairs _ _) with (answer_pairs d2 d1).
  destruct (Z.eqb_spec t2 t1) as [-> |Hn]; [by rewrite Z.sub_diag|].
  rewrite rates_ok by (done || lia). by destruct (existsb _ _).
Qed.

(** Ten seconds apart, 500 more IPFIX datagrams. *)
Definition example_data (n : Z) : FlowData :=
  mkFlowData 1500000000 (mkIPFIXCounters 0 (mkCounters 0 0 n n 0 8)) zeroCounters zeroCounters.

Lemma monitor_rates_witness :
  let d1 := example_data 1000 in
  let d2 := example_data 1500 in
  let run1 := InfluxDB_Netflow parse_json (fun _ => Some (StatsFlowHandler d1)) (fun _ _ _ => Some "") "db" "vflow"
                "http://v:8081" "h" 100 None in
  (InfluxDB_Netflow parse_json (fun _ => Some (StatsFlowHandler d2)) (fun _ _ _ => Some "") "db" "vflow"
     "http://v:8081" "h" 110 run1.1).2 =
  Done (influx_query "h" (flow_of d2 110) [50; 0; 0; 50; 0; 0; 0; 0; 0]).
Proof.
  cbv zeta.
  destruct (monitor_rates parse_json parse_json_reads_back (fun _ => Some (StatsFlowHandler (example_data 1000)))
    (fun _ => Some (StatsFlowHandler (example_data 1500))) (fun _ _ _ => Some "") "db" "vflow" "http://v:8081" "h"
    (example_data 1000) (example_data 1500) 100 110) as [_ H];
    [reflexivity|reflexivity|reflexivity|reflexivity|repeat constructor; cbn; lia|lia|lia|].
  exact H.
Defined.
