(* ===== verification/Disc.v ===== *)
(** Node discovery by multicast, [src/disc/disc.go], and the sockets under the one of
    [src/ipfix/memcache_rpc.go]: the interfaces, the local addresses, joining the group,
    the hello packets, and [Nodes], which repeats [rpcServers] of Discovery.v.

    The network interfaces and the system calls are parameters.  The iteration over a Go
    map is a list of its entries in any order. *)

From Stdlib Require Import Strings.Ascii.
From S2P Require Import Prelude GoNet Json GoStrings Discovery.

Local Open Scope string_scope.
Local Open Scope list_scope.
Open Scope Z_scope.

(** ** Host and port *)

(** The text before the last [c] and the text after it. *)
Fixpoint split_last (c : Ascii.ascii) (s : string) : option (string * string) :=
  match s with
  | "" => None
  | String a s' =>
      match split_last c s' with
      | Some (l, r) => Some (String a l, r)
      | None => if Ascii.eqb a c then Some ("", s') else None
      end
  end.

(** The text before the first [c] and the text after it. *)
Fixpoint split_first (c : Ascii.ascii) (s : string) : option (string * string) :=
  match s with
  | "" => None
  | String a s' =>
      if Ascii.eqb a c then Some ("", s')
      else match split_first c s' with
           | Some (l, r) => Some (String a l, r)
           | None => None
           end
  end.

(** [net.SplitHostPort]; [None] is an error. *)
Definition SplitHostPort (s : string) : option (string * string) :=
  match split_last ":" s with
  | None => None
  | Some (front, port) =>
      match s with
      | String "["%char s' =>
          match split_first "]" s' with
          | None => None
          | Some (host, rest) =>
              if String.eqb rest (":" +:+ port) then
                if Contains "[" host || Contains "[" rest || Contains "]" rest then None
                else Some (host, port)
              else None
          end
      | _ =>
          if Contains ":" front || Contains "[" s || Contains "]" s then None else Some (front, port)
      end
  end.

(** [net.JoinHostPort]. *)
Definition JoinHostPort (host port : string) : string :=
  if Contains ":" host || Contains "%" host then "[" +:+ host +:+ "]:" +:+ port
  else host +:+ ":" +:+ port.

(** ** Interfaces *)

(** An interface: its flags and the addresses [ParseCIDR] reads from [Addrs()], [None] an
    error. *)
Record Interface : Type := mkInterface { Flags : Z; Addrs : option (list (list byte)) }.

(** [getMulticastIfs]: the interfaces that are up and can broadcast and multicast, and
    nothing else; [None] when there is none. *)
Definition getMulticastIfs (Interfaces : option (list Interface)) : option (list Interface) :=
  match Interfaces with
  | None => None
  | Some ifs =>
      let out := List.filter (fun i => Flags i =? 19) ifs in
      if len out <? 1 then None else Some out
  end.

(** [getLocalIPs]: the texts of the addresses of those interfaces. *)
Definition getLocalIPs (Interfaces : option (list Interface)) : option (gset string) :=
  match Interfaces with
  | None => None
  | Some ifs =>
      Some (fold_left (fun ips i =>
        match Addrs i with
        | Some addrs =>
            if negb (Flags i =? 19) then ips
            else fold_left (fun ips ip => {[IP_String ip]} ∪ ips) addrs ips
        | None => ips
        end) ifs ∅)
  end.

(** ** Joining the group *)

(** The packet connection, by family. *)
Inductive PacketConn : Type := PacketConn4 | PacketConn6.

(** What the set-up comes to. *)
Inductive Joined : Type := JoinErr | JoinPanic | JoinFatal | JoinOk (conn : PacketConn) (laddrs : gset string).

Section join.
Context (ListenPacket : string -> bool) (Interfaces : option (list Interface)).
Context (JoinGroup : PacketConn -> Interface -> bool).

(** The loop of type assertions to [want] and [JoinGroup] calls. *)
Fixpoint join_all (want conn : PacketConn) (ifs : list Interface) : res bool :=
  match ifs with
  | [] => Ok true
  | i :: ifs' =>
      match want, conn with
      | PacketConn4, PacketConn4 | PacketConn6, PacketConn6 =>
          if JoinGroup conn i then join_all want conn ifs' else Ok false
      | _, _ => Panic
      end
  end.

Definition is_v4 (ip : list byte) : bool := bool_decide (is_Some (To4 ip)).

(** [disc.Listen] up to the goroutine; [ip] is the parsed address. *)
Definition Listen (ip : list byte) (addr : string) : Joined :=
  if negb (ListenPacket addr) then JoinErr
  else match getMulticastIfs Interfaces with
  | None => JoinErr
  | Some ifs =>
      let conn := if is_v4 ip then PacketConn4 else PacketConn6 in
      match join_all PacketConn4 conn ifs with
      | Ok true => match getLocalIPs Interfaces with
                   | Some laddrs => JoinOk conn laddrs
                   | None => JoinFatal
                   end
      | Ok false => JoinErr
      | _ => JoinPanic
      end
  end.

(** The template exchange has its own copies of these two functions, with the same text. *)
Definition ipfix_getMulticastIfs : option (list Interface) := getMulticastIfs Interfaces.
Definition ipfix_getLocalIPs : option (gset string) := getLocalIPs Interfaces.

(** [mConn] of the template exchange, followed by the receiver's set-up. *)
Definition mConn (group : list byte) (port : Z) : Joined :=
  if negb (ListenPacket (JoinHostPort "" (FormatInt port))) then JoinErr
  else match ipfix_getMulticastIfs with
  | None => JoinErr
  | Some ifs =>
      let conn := if is_v4 group then PacketConn4 else PacketConn6 in
      match join_all conn conn ifs with
      | Ok true => match ipfix_getLocalIPs with
                   | Some laddrs => JoinOk conn laddrs
                   | None => JoinFatal
                   end
      | Ok false => JoinErr
      | _ => JoinPanic
      end
  end.
End join.

(** [vFlowDiscovery]: the group and the port are fixed. *)
Definition vFlowDiscovery (ListenPacket : string -> bool) (Interfaces : option (list Interface))
    (JoinGroup : PacketConn -> Interface -> bool) : Joined :=
  mConn ListenPacket Interfaces JoinGroup (bytes [224; 0; 0; 55]) 1024.

(** ** Hello packets *)

(** One round of the receiver ([receiverV4], [receiverV6], the goroutine of [Listen]): the
    sender's address and the time, [None] a read error. *)
Definition receiver_round (laddrs : gset string) (read : option (string * Z)) (s : vFlowServers) : vFlowServers :=
  match read with
  | None => s
  | Some (addr, now) =>
      match SplitHostPort addr with
      | None => s
      | Some (host, _) => if bool_decide (host ∈ laddrs) then s else <[host := now]> s
      end
  end.

(** One tick of [startV4] and [startV6], and of [disc.Run]: a packet written to the group. *)
Definition start_tick (sent : list string) : list string := sent ++ ["Hello vFlow"].
Definition startV6_tick : list string -> list string := start_tick.
Definition Run_tick (sent : list string) : list string := sent ++ ["hello vflow"].

(** ** [Nodes] *)

(** The loop over the entries of the map, in the order of the iteration. *)
Fixpoint Nodes_loop (now : Z) (entries : list (string * Z)) (servers : list string) (m : vFlowServers) :
    list string * vFlowServers :=
  match entries with
  | [] => (servers, m)
  | (ip, timestamp) :: entries' =>
      if now - timestamp <? 300 then Nodes_loop now entries' (servers ++ [ip]) m
      else Nodes_loop now entries' servers (delete ip m)
  end.

Definition Nodes (now : Z) (order : list (string * Z)) (m : vFlowServers) : list string * vFlowServers :=
  Nodes_loop now order [] m.

(** ** Facts *)

Lemma app_String a s t : String a s +:+ t = String a (s +:+ t).
Proof. reflexivity. Qed.

Lemma Contains_app c s t : Contains c (s +:+ t) = Contains c s || Contains c t.
Proof. induction s as [|a s IH]; [done|]. rewrite app_String. cbn. by rewrite IH, orb_assoc. Qed.

Lemma split_last_none c s : Contains c s = false -> split_last c s = None.
Proof.
  induction s as [|a s IH]; [done|]. cbn. intros [Ha Hs]%orb_false_iff. by rewrite IH, Ha.
Qed.

Lemma split_last_app c s t : Contains c t = false -> split_last c (s +:+ String c t) = Some (s, t).
Proof.
  intros Ht. induction s as [|a s IH]; [change ("" +:+ String c t) with (String c t)|rewrite app_String]; cbn.
  - by rewrite (split_last_none c t Ht), Ascii.eqb_refl.
  - by rewrite IH.
Qed.

Lemma split_first_app c s t : Contains c s = false -> split_first c (s +:+ String c t) = Some (s, t).
Proof.
  induction s as [|a s IH]; [intros _; change ("" +:+ String c t) with (String c t); cbn; by rewrite Ascii.eqb_refl|].
  rewrite app_String. cbn. intros [-> Hs]%orb_false_iff. by rewrite IH.
Qed.

(** A text with no brackets and no colon. *)
Definition port_text (s : string) : Prop :=
  Contains ":" s = false /\ Contains "[" s = false /\ Contains "]" s = false.

Lemma SplitHostPort_bracket host port :
  Contains "[" host = false -> Contains "]" host = false -> port_text port ->
  SplitHostPort ("[" +:+ host +:+ "]:" +:+ port) = Some (host, port).
Proof.
  intros H1 H2 (P1 & P2 & P3).
  assert (E1 : "[" +:+ host +:+ "]:" +:+ port = ("[" +:+ host +:+ "]") +:+ String ":" port).
  { rewrite !append_assoc. reflexivity. }
  assert (E2 : "[" +:+ host +:+ "]:" +:+ port = String "[" (host +:+ String "]" (String ":" port))).
  { reflexivity. }
  unfold SplitHostPort. rewrite E1 at 1. rewrite split_last_app by done. rewrite E2.
  rewrite split_first_app by done. change (String ":" port) with (":" +:+ port). rewrite String.eqb_refl, H1, !Contains_app.
  cbn [Contains]. by rewrite P2, P3.
Qed.

Lemma SplitHostPort_plain host port :
  port_text host -> port_text port -> SplitHostPort (host +:+ ":" +:+ port) = Some (host, port).
Proof.
  intros (H1 & H2 & H3) (P1 & P2 & P3). unfold SplitHostPort. change (":" +:+ port) with (String ":" port).
  rewrite split_last_app by done. rewrite !Contains_app, H1, H2, H3. cbn. rewrite P2, P3.
  destruct host as [|a host]; [done|]. cbn in H2. apply orb_false_iff in H2 as [H2 _].
  cbn. destruct a as [[] [] [] [] [] [] [] []]; done.
Qed.

(** The address of a packet's sender, as the package [net] writes it, gives its host. *)
Lemma SplitHostPort_Join host port :
  Contains "[" host = false -> Contains "]" host = false -> port_text port ->
  SplitHostPort (JoinHostPort host port) = Some (host, port).
Proof.
  intros H1 H2 Hp. unfold JoinHostPort. destruct (Contains ":" host) eqn:Hc; [by apply SplitHostPort_bracket|].
  destruct (Contains "%" host); [by apply SplitHostPort_bracket|]. by apply SplitHostPort_plain.
Qed.

Lemma receiver_round_hello laddrs host port now s :
  Contains "[" host = false -> Contains "]" host = false -> port_text port ->
  receiver_round laddrs (Some (JoinHostPort host port, now)) s = receive_hello laddrs host now s.
Proof. intros H1 H2 Hp. unfold receiver_round. by rewrite SplitHostPort_Join. Qed.

(** The local addresses are those of the multicast interfaces. *)
Lemma getLocalIPs_elem ifs laddrs host :
  getLocalIPs (Some ifs) = Some laddrs ->
  host ∈ laddrs <-> exists i addrs ip, i ∈ ifs /\ Flags i = 19 /\ Addrs i = Some addrs /\ ip ∈ addrs /\ host = IP_String ip.
Proof.
  cbn. intros [= <-]. enough (forall acc, host ∈ fold_left (fun ips i =>
    match Addrs i with
    | Some addrs => if negb (Flags i =? 19) then ips else fold_left (fun ips ip => {[IP_String ip]} ∪ ips) addrs ips
    | None => ips end) ifs acc <-> host ∈ acc \/ exists i addrs ip, i ∈ ifs /\ Flags i = 19 /\ Addrs i = Some addrs /\ ip ∈ addrs /\ host = IP_String ip) as H
    by (rewrite H; set_solver).
  assert (Hin : forall addrs (acc : gset string), host ∈ fold_left (fun ips ip => {[IP_String ip]} ∪ ips) addrs acc <->
    host ∈ acc \/ exists ip, ip ∈ addrs /\ host = IP_String ip).
  { induction addrs as [|a addrs IHa]; intros acc; [set_solver|]. cbn. rewrite IHa. set_solver. }
  induction ifs as [|i ifs IH]; intros acc; [set_solver|]. cbn. rewrite IH.
  destruct (Addrs i) as [addrs|] eqn:Ea; [|set_solver].
  destruct (Z.eqb_spec (Flags i) 19); cbn; [rewrite Hin|]; set_solver.
Qed.

Lemma Nodes_loop_eq now entries servers m :
  Nodes_loop now entries servers m =
  (servers ++ (filter (alive now) entries).*1,
   fold_left (fun m e => if decide (alive now e) then m else delete e.1 m) entries m).
Proof.
  revert servers m. induction entries as [|[ip ts] entries IH]; intros servers m; cbn [Nodes_loop].
  { by rewrite app_nil_r. }
  cbn [fold_left]. rewrite filter_cons. destruct (Z.ltb_spec (now - ts) 300), (decide (alive now (ip, ts))) as [Ha|Ha];
    unfold alive in Ha; cbn in Ha; try lia; rewrite IH; cbn; [by rewrite <- app_assoc|done].
Qed.

Lemma fold_delete_lookup now entries (m : vFlowServers) host :
  fold_left (fun m e => if decide (alive now e) then m else delete e.1 m) entries m !! host =
  if existsb (fun e => String.eqb e.1 host && negb (bool_decide (alive now e))) entries then None else m !! host.
Proof.
  revert m. induction entries as [|e entries IH]; intros m; [done|]. cbn [fold_left existsb]. rewrite IH.
  destruct (existsb _ entries); [by rewrite orb_true_r|]. rewrite orb_false_r.
  destruct (String.eqb_spec e.1 host) as [<- |Hn]; cbn.
  - case_bool_decide; [by rewrite decide_True|]. rewrite decide_False by done. by rewrite lookup_delete_eq.
  - destruct (decide (alive now e)); [done|]. by rewrite lookup_delete_ne.
Qed.

Lemma map_to_list_alive now (m : vFlowServers) :
  filter (alive now) (map_to_list m) ≡ₚ map_to_list (filter (alive now) m).
Proof.
  apply NoDup_Permutation; [apply NoDup_filter, NoDup_map_to_list|apply NoDup_map_to_list|]. intros [h t].
  rewrite list_elem_of_filter, !elem_of_map_to_list, map_lookup_filter_Some. tauto.
Qed.

(** [Nodes] of the discovery package is [rpcServers] of the template exchange: whatever
    the order in which the map is iterated, it returns the same hosts, each once, and leaves
    the same map. *)
Theorem Nodes_is_rpcServers (now : Z) (m : vFlowServers) (order : list (string * Z)) :
  order ≡ₚ map_to_list m ->
  (Nodes now order m).1 ≡ₚ (rpcServers now m).1 /\ (Nodes now order m).2 = (rpcServers now m).2.
Proof.
  intros Ho. unfold Nodes, rpcServers. rewrite Nodes_loop_eq. cbn. split.
  - rewrite Ho. apply fmap_Permutation, map_to_list_alive.
  - apply map_eq. intros host. rewrite fold_delete_lookup, map_lookup_filter.
    destruct (m !! host) as [ts|] eqn:E; cbn; [|by destruct (existsb _ _)].
    destruct (decide (alive now (host, ts))) as [Ha|Ha]; [rewrite option_guard_True by done|rewrite option_guard_False by done].
    + destruct (existsb _ order) eqn:Ex; [|done]. apply existsb_exists in Ex as ([h t] & He & Hb).
      apply andb_true_iff in Hb as [Hh%String.eqb_eq Hn]. cbn in Hh. subst h. apply list_elem_of_In in He.
      rewrite Ho in He. apply elem_of_map_to_list in He. simplify_eq. cbn in Hn. by rewrite bool_decide_eq_true_2 in Hn.
    + assert (existsb (fun e => String.eqb e.1 host && negb (bool_decide (alive now e))) order = true) as ->; [|done].
      apply existsb_exists. exists (host, ts). split.
      * apply list_elem_of_In. rewrite Ho. by apply elem_of_map_to_list.
      * cbn. rewrite String.eqb_refl. by rewrite bool_decide_eq_false_2.
Qed.

Lemma Nodes_is_rpcServers_witness :
  let m := <["192.0.2.7" := 1000]> (<["192.0.2.8" := 600]> ∅) : vFlowServers in
  (Nodes 1100 (map_to_list m) m).2 = (rpcServers 1100 m).2.
Proof. cbv zeta. apply (Nodes_is_rpcServers 1100). reflexivity. Defined.

(** What starting the discovery comes to.  With an IPv6 group the package's [Listen]
    panics as soon as there is an interface to join; with an IPv4 one it agrees with [mConn]
    of the template exchange: an error when the socket cannot be opened, when no interface
    is up for multicast or when one cannot join, and otherwise the set of the addresses of
    those interfaces, by which a node ignores its own packets. *)
Theorem Listen_outcome (ListenPacket : string -> bool) (ifs : list Interface)
    (JoinGroup : PacketConn -> Interface -> bool) (ip : list byte) (addr : string) :
  let multicast := List.filter (fun i => Flags i =? 19) ifs in
  let listen := Listen ListenPacket (Some ifs) JoinGroup ip addr in
  if negb (ListenPacket addr) || (len multicast <? 1) then listen = JoinErr
  else if negb (is_v4 ip) then listen = JoinPanic
  else if forallb (JoinGroup PacketConn4) multicast
  then exists laddrs, listen = JoinOk PacketConn4 laddrs /\ getLocalIPs (Some ifs) = Some laddrs
  else listen = JoinErr.
Proof.
  cbv zeta. unfold Listen, getMulticastIfs. destruct (ListenPacket addr); [|done]. cbn [negb orb].
  set (mc := List.filter _ ifs). destruct (Z.ltb_spec (len mc) 1) as [|Hl]; [done|].
  destruct (is_v4 ip); cbn [negb].
  - assert (Hj : forall l, join_all JoinGroup PacketConn4 PacketConn4 l = Ok (forallb (JoinGroup PacketConn4) l)).
    { induction l as [|i l IH]; [done|]. cbn. by destruct (JoinGroup PacketConn4 i). }
    rewrite Hj. destruct (forallb _ mc); [|done]. cbn. by eexists.
  - destruct mc as [|i mc']; [by change (len []) with 0 in Hl|done].
Qed.
