(* ===== verification/Cluster.v ===== *)
(** A cluster of collectors that exchange templates: the client and the server of
    [src/ipfix/memcache_rpc.go] over the network, and the runs of several nodes that
    receive datagrams, hear each other's hello packets and answer each other's requests.

    TCP and [net/rpc] are the network of the model: a dial succeeds when the node with that
    address is there and can be reached, and a call runs the called method on that node and
    delivers its answer.  Which nodes can be reached is chosen anew at every step. *)

From Stdlib Require Import Strings.Ascii.
From S2P Require Import Prelude GoNet Json GoStrings InfoModel Interpret TemplateCache Interleave Reader IpfixDecoder IpfixFacts IpfixDecode IpfixWire IpfixMessage IpfixShared IpfixSource Discovery Disc.

Local Open Scope string_scope.
Local Open Scope list_scope.
Open Scope Z_scope.

(** ** Client and server *)

Record RPCConfig : Type := mkRPCConfig { Enabled : bool; Port : Z; Addr : list byte }.

Record IRPC (MC : Type) : Type := mkIRPC { reqCount : Z; irpc_mCache : MC }.
Arguments mkIRPC {MC} _ _.
Arguments reqCount {MC} _.
Arguments irpc_mCache {MC} _.

Definition NewRPC {MC} (mCache : MC) : IRPC MC := mkIRPC 0 mCache.

(** [RPCServer]: the service that [rpc.Accept] runs for every connection, [None] when the
    port cannot be listened on. *)
Definition RPCServer {MC} (Listen : string -> bool) (mCache : MC) : option (IRPC MC) :=
  let r := NewRPC mCache in
  if Listen ":8085" then Some r else None.

(** [NewRPCClient]: the connection, [None] when the dial fails or takes a second. *)
Definition NewRPCClient {Conn} (DialTimeout : string -> option Conn) (r : string) : option Conn :=
  DialTimeout (JoinHostPort r "8085").

(** [RPCClient.Get]: the answer, [None] for an error. *)
Definition RPCClient_Get {Conn} (Call : Conn -> string -> RPCRequest -> option TemplateRecord)
    (conn : Conn) (req : RPCRequest) : option TemplateRecord :=
  Call conn "IRPC.Get" req.

(** The two in the body of [RPC]'s loop over the servers. *)
Definition RPC_call {Conn} (DialTimeout : string -> option Conn)
    (Call : Conn -> string -> RPCRequest -> option TemplateRecord) (rpcServer : string)
    (req : RPCRequest) : option TemplateRecord :=
  match NewRPCClient DialTimeout rpcServer with
  | None => None
  | Some r => RPCClient_Get Call r req
  end.

(** The start of [RPC]: nothing happens when it is disabled or discovery fails. *)
Inductive RPCStart : Type := RPCOff | RPCNoDiscovery | RPCPanics | RPCFatal | RPCOn (laddrs : gset string).

Definition RPC_start (config : RPCConfig) (disc : Joined) : RPCStart :=
  if negb (Enabled config) then RPCOff
  else match disc with
  | JoinErr => RPCNoDiscovery
  | JoinPanic => RPCPanics
  | JoinFatal => RPCFatal
  | JoinOk _ laddrs => RPCOn laddrs
  end.

(** ** The network *)

Section cluster.
Context (im : IANAInfoModel) {MC : Type} `{!TemplateStore TemplateRecord MC}.

(** The nodes by their address. *)
Abbreviation Cluster := (gmap string (Node (MC:=MC))).

(** A connection to the RPC port of a node, when it is there and [up]. *)
Definition net_Dial (nodes : Cluster) (up : string -> bool) (addr : string) : option string :=
  match SplitHostPort addr with
  | Some (host, port) =>
      if String.eqb port "8085" && up host && bool_decide (is_Some (nodes !! host))
      then Some host else None
  | None => None
  end.

(** A call on the connection: the method of the service registered there. *)
Definition net_Call (nodes : Cluster) (host method : string) (req : RPCRequest) : option TemplateRecord :=
  match nodes !! host with
  | None => None
  | Some n =>
      if String.eqb method "IRPC.Get" then
        match (IRPC_Get req (irpc_mCache (NewRPC (nd_cache n)))).2 with Ok tr => Some tr | _ => None end
      else None
  end.

(** What happens in the cluster. *)
Inductive event : Type :=
| Receives (host : string) (raddr body : list byte) (unix_now : nat -> Z)
| Hears (host peer : string) (now : Z)
| Exchanges (host : string) (now : Z) (up : string -> bool).

(** A worker of [host] decodes a datagram. *)
Definition node_receives (raddr body : list byte) (unix_now : nat -> Z) (n : Node (MC:=MC)) : Node :=
  let s := (Decode im raddr unix_now (S (length body)) (NewDecoder body (nd_cache n) (nd_rpcChan n) 0)).1 in
  mkNode (st_mem s) (nd_servers n) (st_rpcChan s).

Definition cluster_step (e : event) (nodes : Cluster) : option Cluster :=
  match e with
  | Receives host raddr body unix_now =>
      n ← nodes !! host; Some (<[host := node_receives raddr body unix_now n]> nodes)
  | Hears host peer now =>
      n ← nodes !! host;
      Some (<[host := mkNode (nd_cache n) (receive_hello {[host]} peer now (nd_servers n)) (nd_rpcChan n)]> nodes)
  | Exchanges host now up =>
      n ← nodes !! host;
      match RPC_round (RPC_call (net_Dial nodes up) (net_Call nodes)) now n with
      | (n', Ok _) => Some (<[host := n']> nodes)
      | _ => None
      end
  end.

(** ** Facts *)

Lemma IRPC_Get_run req (m : MC) : ts_wf m ->
  match (IRPC_Get req m).2 with Ok tr => Some tr | _ => None end =
  ts_lookup m (cache_key (rpc_ID req) (rpc_IP req)).
Proof.
  intros Hm. unfold IRPC_Get. rewrite (bind_run (ts_retrieve_ok _ _ _ Hm)). by destruct (ts_lookup _ _).
Qed.

(** An answer is what some node of the cluster has stored under the request's key. *)
Lemma RPC_call_inv (nodes : Cluster) up host req tr :
  (forall h n, nodes !! h = Some n -> ts_wf (nd_cache n)) ->
  RPC_call (net_Dial nodes up) (net_Call nodes) host req = Some tr ->
  exists h n, nodes !! h = Some n /\ ts_lookup (nd_cache n) (cache_key (rpc_ID req) (rpc_IP req)) = Some tr.
Proof.
  intros Hwf. unfold RPC_call, NewRPCClient, RPCClient_Get, net_Call.
  destruct (net_Dial nodes up _) as [h|]; [|done]. destruct (nodes !! h) as [n|] eqn:E; [|done].
  change (String.eqb "IRPC.Get" "IRPC.Get") with true. cbn [NewRPC irpc_mCache].
  rewrite IRPC_Get_run by (by eapply Hwf). eauto.
Qed.

(** A reachable node answers from its cache. *)
Lemma RPC_call_up (nodes : Cluster) up host n req :
  Contains "[" host = false -> Contains "]" host = false ->
  nodes !! host = Some n -> up host = true -> ts_wf (nd_cache n) ->
  RPC_call (net_Dial nodes up) (net_Call nodes) host req =
  ts_lookup (nd_cache n) (cache_key (rpc_ID req) (rpc_IP req)).
Proof.
  intros H1 H2 Hn Hu Hwf. unfold RPC_call, NewRPCClient, RPCClient_Get, net_Dial, net_Call.
  rewrite SplitHostPort_Join by done. rewrite Hu, Hn. cbn. rewrite Hn. by apply IRPC_Get_run.
Qed.

(** *** Where templates come from *)

(** The template stands in a datagram that some node received, from an exporter with this
    key. *)
Definition received (es : list event) (k : Z) (t : TemplateRecord) : Prop :=
  exists host raddr body unix_now, In (Receives host raddr body unix_now) es /\
    carried body t /\ k = cache_key (tr_TemplateID t) raddr.

Definition cluster_ok (es : list event) (nodes : Cluster) : Prop :=
  forall host n, nodes !! host = Some n -> sourced (received es) (nd_cache n).

Lemma received_wf es k t : received es k t -> tr_wf t.
Proof. intros (h & ra & b & now & _ & Hc & _). by eapply carried_wf. Qed.

Lemma cluster_ok_insert es (nodes : Cluster) host n :
  cluster_ok es nodes -> sourced (received es) (nd_cache n) -> cluster_ok es (<[host := n]> nodes).
Proof. intros Hok Hn h n'. rewrite lookup_insert_Some. intros [[_ <-]|[_ H]]; [done|by eapply Hok]. Qed.

Lemma cluster_ok_step es e (nodes nodes' : Cluster) :
  In e es -> cluster_ok es nodes -> cluster_step e nodes = Some nodes' -> cluster_ok es nodes'.
Proof.
  intros Hin Hok. destruct e as [host raddr body unix_now|host peer now|host now up]; cbn [cluster_step];
    destruct (nodes !! host) as [n|] eqn:En; try done; cbn; intros Hs.
  - simplify_eq. apply cluster_ok_insert; [done|].
    apply (Decode_sourced im raddr unix_now body (received es)).
    + apply received_wf.
    + intros t Ht. by exists host, raddr, body, unix_now.
    + by eapply Hok.
  - simplify_eq. apply cluster_ok_insert; [done|]. exact (Hok _ _ En).
  - destruct (RPC_round _ now n) as [n' [u|v err| |]] eqn:Er; simplify_eq.
    apply cluster_ok_insert; [done|]. revert Er. unfold RPC_round.
    pose proof (Hok host n En) as [Hw Hs].
    destruct (nd_rpcChan n) as [|req q]; [intros [= <- _]; by split|].
    destruct (RPC_ask_ok (RPC_call (net_Dial nodes up) (net_Call nodes)) (rpcServers now (nd_servers n)).1
      req now (nd_cache n) Hw) as (m' & E & Hw' & Hl).
    rewrite (surjective_pairing (rpcServers _ _)), E. intros [= <- _]. cbn. split; [done|].
    destruct Hl as [(h & tr & _ & Hc & Hl)|[_ ->]]; [|done].
    intros k t. rewrite Hl. case_decide as Hk; [|apply Hs]. intros [= <-].
    apply RPC_call_inv in Hc as (h2 & n2 & Hn2 & Hl2); [|intros ?? H; by eapply Hok].
    destruct (Hok h2 n2 Hn2) as [_ Hs2]. subst k. by apply Hs2.
Qed.

(** C17: the templates of a cluster.  In every run of any number of collectors that receive
    any datagrams, hear each other's hello packets and exchange templates while nodes come
    and go, every template that a node holds stands, byte for byte, in a datagram that some
    node received, and it is stored under the key of the exporter of that datagram and of
    its own id: no exchange, error or malformed datagram makes up or misplaces a
    template. *)
Theorem cluster_templates (es : list event) (nodes nodes' : Cluster)
    (H0 : forall host n, nodes !! host = Some n ->
            ts_wf (nd_cache n) /\ forall k, ts_lookup (nd_cache n) k = None)
    (He : exec_with cluster_step es nodes = Some nodes') :
  forall host n k t, nodes' !! host = Some n -> ts_lookup (nd_cache n) k = Some t ->
    exists h raddr body unix_now, In (Receives h raddr body unix_now) es /\
      carried body t /\ k = cache_key (tr_TemplateID t) raddr.
Proof.
  intros host n k t Hn Ht.
  assert (cluster_ok es nodes') as Hok.
  { apply (exec_with_inv_in cluster_step (cluster_ok es) es) with nodes; [|intros h m Hm|done].
    - intros l s s' Hl. by apply cluster_ok_step.
    - destruct (H0 h m Hm) as [Hw Hl]. split; [done|]. intros k' t'. by rewrite Hl. }
  by apply (Hok host n Hn).
Qed.

(** *** Learning from a peer *)

(** C18: the exchange works.  A node that asked for a template and can reach a peer it has
    heard of within 300 seconds (whose name contains no brackets), the peer holding the
    template and no node of the cluster holding a different one under its key, all caches
    being well-formed, decodes after the exchange every datagram of that exporter exactly as
    the peer does, provided the two nodes agreed before on every other template of the
    exporter. *)
Theorem exchange_teaches (nodes : Cluster) (a b : string) (na nb : Node (MC:=MC)) (id : Z)
    (raddr : list byte) (tr : TemplateRecord) (q : list RPCRequest) (now t : Z) (up : string -> bool)
    (Ha : nodes !! a = Some na) (Hb : nodes !! b = Some nb)
    (Hok : forall h n, nodes !! h = Some n -> cache_ok (nd_cache n))
    (Hq : nd_rpcChan na = mkRPCRequest id raddr :: q)
    (Hlive : nd_servers na !! b = Some t) (Ht : now - t < 300) (Hup : up b = true)
    (Hhost : Contains "[" b = false /\ Contains "]" b = false)
    (Hknow : ts_lookup (nd_cache nb) (cache_key id raddr) = Some tr)
    (Hothers : forall h n, nodes !! h = Some n ->
       ts_lookup (nd_cache n) (cache_key id raddr) ∈ [None; Some tr])
    (Hsame : forall id', cache_key id' raddr <> cache_key id raddr ->
       ts_lookup (nd_cache na) (cache_key id' raddr) = ts_lookup (nd_cache nb) (cache_key id' raddr)) :
  exists na', cluster_step (Exchanges a now up) nodes = Some (<[a := na']> nodes) /\ nd_rpcChan na' = q /\
    forall unix_now fuel body k,
      let d m := Decode im raddr unix_now fuel (NewDecoder body m [] k) in
      (d (nd_cache na')).2 = (d (nd_cache nb)).2.
Proof.
  cbn [cluster_step]. rewrite Ha. cbn. set (call := RPC_call (net_Dial nodes up) (net_Call nodes)).
  assert (call b (mkRPCRequest id raddr) = Some tr) as Hcall.
  { unfold call. rewrite (RPC_call_up nodes up b nb); try tauto. apply (Hok b nb Hb). }
  destruct (RPC_ask_ok call (rpcServers now (nd_servers na)).1 (mkRPCRequest id raddr) now (nd_cache na)
    (proj1 (Hok a na Ha))) as (m' & E & Hw' & Hl).
  unfold RPC_round. rewrite Hq, (surjective_pairing (rpcServers _ _)), E.
  eexists. split; [reflexivity|]. split; [done|]. intros unix_now fuel body k. cbn [nd_cache].
  apply (Decode_agree im raddr unix_now fuel body m' (nd_cache nb) [] k). cbn [rpc_ID rpc_IP] in Hl.
  destruct Hl as [(h & tr' & _ & Hc & Hl)|[Hn _]].
  2: { rewrite Hn in Hcall; [done|]. apply rpcServers_alive. eauto. }
  apply RPC_call_inv in Hc as (h2 & n2 & Hn2 & Hl2); [|intros ?? H; by apply (Hok _ _ H)].
  assert (tr' = tr) as ->.
  { pose proof (Hothers h2 n2 Hn2) as Ho. cbn [rpc_ID rpc_IP] in Hl2. rewrite Hl2 in Ho. set_solver. }
  split; [|split; [by eapply Hok|]].
  - split; [done|]. intros k' t'. rewrite Hl. case_decide; [|by apply (Hok a na Ha)].
    intros [= <-]. by eapply (Hok b nb Hb).
  - intros id'. rewrite Hl. case_decide as Hk; [by rewrite Hk, Hknow|]. by apply Hsame.
Qed.

End cluster.

(** ** Examples *)

Definition example_exporter : list byte := bytes [192; 0; 2; 1].

Definition template_datagram : list byte :=
  encode_message example_header [WTemplates [example_template] 0].

Definition data_datagram : list byte :=
  encode_message example_header [WData 256 [bytes [192; 0; 2; 1; 6; 0; 0; 0; 0; 0; 0; 16; 0]]].

Definition fresh_node : Node (MC:=MemCache TemplateRecord) := mkNode (GetCache None) ∅ [].

Definition fresh_cluster : gmap string (Node (MC:=MemCache TemplateRecord)) :=
  <["10.0.0.1" := fresh_node]> (<["10.0.0.2" := fresh_node]> ∅).

(** The exporter announces to the second node and sends records to the first, which has
    heard of the second and asks it. *)
Definition example_events : list event :=
  [Receives "10.0.0.2" example_exporter template_datagram (fun _ => 0);
   Hears "10.0.0.1" "10.0.0.2" 100;
   Receives "10.0.0.1" example_exporter data_datagram (fun _ => 0);
   Exchanges "10.0.0.1" 101 (fun _ => true)].

Lemma fresh_cluster_empty host n : fresh_cluster !! host = Some n ->
  ts_wf (nd_cache n) /\ forall k, ts_lookup (nd_cache n) k = None.
Proof.
  unfold fresh_cluster. rewrite !lookup_insert_Some, lookup_empty.
  intros [[_ <-]|[_ [[_ <-]|[_ [=]]]]]; (split; [apply (GetCache_fresh_wf (T:=TemplateRecord))|intros k; apply (GetCache_fresh_lookup (T:=TemplateRecord))]).
Qed.

(** The first node has the template then. *)
Definition first_knows (nodes : gmap string (Node (MC:=MemCache TemplateRecord))) : bool :=
  match nodes !! "10.0.0.1" with
  | Some n => bool_decide (ts_lookup (nd_cache n) (cache_key 256 example_exporter) = Some example_template)
  | None => false
  end.

Lemma example_events_run : exists nodes,
  exec_with (cluster_step InfoModel) example_events fresh_cluster = Some nodes /\ first_knows nodes = true.
Proof. apply eval_some. vm_compute. reflexivity. Qed.

Lemma cluster_templates_witness :
  exists h raddr body unix_now, In (Receives h raddr body unix_now) example_events /\
    carried body example_template /\
    cache_key 256 example_exporter = cache_key (tr_TemplateID example_template) raddr.
Proof.
  destruct example_events_run as (nodes & He & Hk). unfold first_knows in Hk.
  destruct (nodes !! "10.0.0.1") as [n|] eqn:En; [|done]. apply bool_decide_eq_true in Hk.
  exact (cluster_templates InfoModel example_events fresh_cluster nodes fresh_cluster_empty He
    "10.0.0.1" n (cache_key 256 example_exporter) example_template En Hk).
Defined.

(** The state before the exchange. *)
Definition asking_node : Node (MC:=MemCache TemplateRecord) :=
  mkNode (GetCache None) (<["10.0.0.2" := 100]> ∅) [mkRPCRequest 256 example_exporter].

Definition knowing_node : Node (MC:=MemCache TemplateRecord) :=
  mkNode (ts_insert 256 example_exporter example_template 0 (GetCache None)).1 ∅ [].

Definition asking_cluster : gmap string (Node (MC:=MemCache TemplateRecord)) :=
  <["10.0.0.1" := asking_node]> (<["10.0.0.2" := knowing_node]> ∅).

Lemma knowing_node_cache :
  cache_ok (nd_cache knowing_node) /\
  forall k, ts_lookup (nd_cache knowing_node) k =
    if decide (k = cache_key 256 example_exporter) then Some example_template else None.
Proof.
  destruct (cache_ok_insert (GetCache None) 256 example_exporter example_template 0 cache_ok_fresh)
    as (m' & E & Hm & Hl); [by repeat constructor|].
  cbn [knowing_node nd_cache]. rewrite E. split; [done|]. intros k. cbn [fst]. rewrite Hl.
  case_decide; [done|]. apply (GetCache_fresh_lookup (T:=TemplateRecord)).
Qed.

Lemma asking_cluster_nodes h n : asking_cluster !! h = Some n -> n = asking_node \/ n = knowing_node.
Proof.
  unfold asking_cluster. rewrite !lookup_insert_Some, lookup_empty.
  intros [[_ <-]|[_ [[_ <-]|[_ [=]]]]]; auto.
Qed.

Lemma exchange_teaches_witness :
  exists na', cluster_step InfoModel (Exchanges "10.0.0.1" 101 (fun _ => true)) asking_cluster =
      Some (<["10.0.0.1" := na']> asking_cluster) /\
    forall body, (Decode InfoModel example_exporter (fun _ => 0) 100 (NewDecoder body (nd_cache na') [] 0)).2 =
      (Decode InfoModel example_exporter (fun _ => 0) 100 (NewDecoder body (nd_cache knowing_node) [] 0)).2.
Proof.
  destruct knowing_node_cache as [Hok Hl].
  assert (forall k, ts_lookup (nd_cache asking_node) k = None) as Ha
    by (intros k; apply (GetCache_fresh_lookup (T:=TemplateRecord))).
  destruct (exchange_teaches InfoModel asking_cluster "10.0.0.1" "10.0.0.2" asking_node knowing_node 256
    example_exporter example_template [] 101 100 (fun _ => true)) as (na' & E & _ & Hd).
  - apply lookup_insert_eq.
  - apply lookup_insert_Some. right. split; [done|]. apply lookup_insert_eq.
  - intros h n [-> | ->]%asking_cluster_nodes; [apply cache_ok_fresh|exact Hok].
  - reflexivity.
  - apply lookup_insert_eq.
  - lia.
  - reflexivity.
  - split; reflexivity.
  - rewrite Hl. by apply decide_True.
  - intros h n [-> | ->]%asking_cluster_nodes; [rewrite Ha; by left|]. rewrite Hl, decide_True by reflexivity.
    right. by left.
  - intros id' Hne. rewrite Ha, Hl. by rewrite decide_False.
  - exists na'. split; [exact E|]. intros body. apply (Hd (fun _ => 0) 100%nat body 0%nat).
Defined.
