(* ===== verification/Hammer.v ===== *)
(** The stress tool, [src/stress]: [hammer.IPFIX] and [hammer.SFlow] build packets from
    recorded datagrams with the header templates of [src/mirror] and send them at a limited
    rate.

    The recorded samples are arguments.  A packet is built in a fresh buffer of 1500
    bytes; the two headers are shared by all the packets of a call. *)

From S2P Require Import Prelude GoNet Packet PacketWire Mirror Dispatcher.

Open Scope Z_scope.

Record HPacket : Type := mkHPacket { hp_payload : list byte; hp_length : Z }.

(** [IPFIX] and [SFlow] of the package, the channel and the connection apart. *)
Record Generator : Type := mkGenerator {
  g_conn : Conn; g_srcs : list (list byte); g_vflow : list byte; g_MaxRouter : Z; g_Port : Z; g_RateLimit : Z
}.

(** [NewIPFIX] and [NewSFlow]. *)
Definition NewIPFIX (Socket : Family -> option Z) (raddr : list byte) : option Generator :=
  let '(conn, ok) := NewRawConn Socket raddr in
  if negb ok then None else Some (mkGenerator conn [] raddr 10 0 250000).

Definition NewSFlow (Socket : Family -> option Z) (raddr : list byte) : option Generator :=
  let '(conn, ok) := NewRawConn Socket raddr in
  if negb ok then None else Some (mkGenerator conn [] raddr 10 0 250000).

(** [net.ParseIP(fmt.Sprintf("192.168.1.%d", j))]. *)
Definition source_ip (j : Z) : list byte :=
  if (0 <=? j) && (j <=? 255) then bytes [0; 0; 0; 0; 0; 0; 0; 0; 0; 0; 255; 255; 192; 168; 1; j] else [].

(** The loop [for j := 1; j < MaxRouter; j++]. *)
Definition router_sources (MaxRouter : Z) : list (list byte) :=
  map (fun k => source_ip (Z.of_nat k)) (seq 1 (Z.to_nat (MaxRouter - 1))).

(** ** Packets *)

(** The two headers while packets are built. *)
Abbreviation Headers := (list byte * list byte)%type.

Definition gen_packet (vflow data src : list byte) : M Headers HPacket :=
  s ← get;
  let payload := make_bytes 1500 in
  u ← UDP_SetLen s.2 (len data);
  h ← IPv4_SetAddrs s.1 src vflow;
  put (h, u);;
  p ← copy_into payload 0 IPv4HLen h;
  p ← copy_into p IPv4HLen (IPv4HLen + 8) u;
  p ← copy_into p (IPv4HLen + 8) (len p) data;
  mret (mkHPacket p (IPv4HLen + 8 + len data)).

(** [for _, src := range srcs] for one sample, and the loop over the samples. *)
Fixpoint gen_sources (vflow data : list byte) (srcs : list (list byte)) : M Headers (list HPacket) :=
  match srcs with
  | [] => mret []
  | src :: srcs' =>
      p ← gen_packet vflow data src;
      ps ← gen_sources vflow data srcs';
      mret (p :: ps)
  end.

Fixpoint gen_samples (vflow : list byte) (srcs samples : list (list byte)) : M Headers (list HPacket) :=
  match samples with
  | [] => mret []
  | data :: samples' =>
      ps ← gen_sources vflow data srcs;
      qs ← gen_samples vflow srcs samples';
      mret (ps ++ qs)
  end.

Definition genPackets (g : Generator) (samples : list (list byte)) : M Headers (list HPacket) :=
  udpHdr ← UDP_Marshal (mkUDPTpl 55117 (g_Port g) 0 0);
  ipHdr ← IPv4_Marshal (NewIPv4HeaderTpl UDPProto);
  put (ipHdr, udpHdr);;
  gen_samples (g_vflow g) (g_srcs g) samples.

(** The samples [IPFIX.genPackets] chooses by type. *)
Inductive sample_type : Type := dataType | templateType | templateOptType | sFlowDataType.

Record Samples : Type := mkSamples {
  ipfixDataSamples : list (list byte); ipfixTemplates : list (list byte);
  ipfixTemplatesOpt : list (list byte); sFlowDataSamples : list (list byte)
}.

Definition samples_of (s : Samples) (typ : sample_type) : list (list byte) :=
  match typ with
  | dataType => ipfixDataSamples s
  | templateType => ipfixTemplates s
  | templateOptType => ipfixTemplatesOpt s
  | sFlowDataType => sFlowDataSamples s
  end.

Definition IPFIX_genPackets (s : Samples) (g : Generator) (typ : sample_type) : M Headers (list HPacket) :=
  genPackets g (samples_of s typ).

Definition SFlow_genPackets (s : Samples) (g : Generator) : M Headers (list HPacket) :=
  genPackets g (sFlowDataSamples s).

(** The sending goroutine of [Run]: [p.payload[:p.length]]. *)
Definition wire {S} (p : HPacket) : M S (list byte) := slice (hp_payload p) 0 (hp_length p).

(** ** The rate *)

(** The interval of [time.Tick] in nanoseconds; [None] is the nil channel, from which a
    receive never returns ([time.Tick] gives it for an interval that is not positive). *)
Definition throttle (RateLimit : Z) : option Z :=
  if RateLimit >? 0 then
    let d := Z.quot 1000000 RateLimit * 1000 in
    if d <=? 0 then None else Some d
  else None.

(** [sendData]: the packets given to the channel at the first [n] ticks. *)
Definition sendData (RateLimit : Z) (packets : list HPacket) (n : nat) : list HPacket :=
  match throttle RateLimit with
  | None => []
  | Some _ => take n (concat (replicate n packets))
  end.

(** [sendTemplate] and [sendTemplateOpt]: the packets at the start and at each of [n] ticks. *)
Definition sendTemplate (packets : list HPacket) (n : nat) : list HPacket := concat (replicate (S n) packets).

(** [Run] sets the sources. *)
Definition with_sources (g : Generator) : Generator :=
  mkGenerator (g_conn g) (g_srcs g ++ router_sources (g_MaxRouter g)) (g_vflow g) (g_MaxRouter g) (g_Port g)
    (g_RateLimit g).

(** [main]'s goroutines: the constructor's error is ignored, and a nil generator panics. *)
Definition stress_start (new : option Generator) (port rate : Z) : res Generator :=
  match new with
  | None => Panic
  | Some g => Ok (with_sources (mkGenerator (g_conn g) (g_srcs g) (g_vflow g) (g_MaxRouter g) port rate))
  end.

(** ** What is built *)

(** The header of a generated packet; its length field is left 0. *)
Definition ham_hdr (vflow src : list byte) : list byte :=
  encode_network (IP4 0 0 0 0 0 64 0 (last4 src) (last4 vflow)) 17.

Definition ham_inv (port : Z) (s : Headers) : Prop :=
  (exists b c, length b = 4%nat /\ length c = 4%nat /\ s.1 = encode_network (IP4 0 0 0 0 0 64 0 b c) 17) /\
  exists n, s.2 = udp_hdr port n.

Lemma SetAddrs_ham {S} (b c src vflow : list byte) (s : S) :
  length b = 4%nat -> length c = 4%nat -> length src = 16%nat -> length vflow = 16%nat ->
  IPv4_SetAddrs (encode_network (IP4 0 0 0 0 0 64 0 b c) 17) src vflow s = (s, Ok (ham_hdr vflow src)).
Proof.
  intros Hb Hc Hs Hv. unfold ham_hdr, last4. explicit 4 b. explicit 4 c. explicit 16 src. explicit 16 vflow.
  vm_compute. reflexivity.
Qed.

(** The packet of a sample from a source: the 1500 bytes, filled with zeros. *)
Definition ham_packet (port : Z) (vflow data src : list byte) : HPacket :=
  let b := ham_hdr vflow src ++ udp_hdr port (len data) ++ data in
  mkHPacket (b ++ replicate (1500 - length b) x00) (28 + len data).

Lemma copy_payload (h u data : list byte) (s : Headers) :
  len h = 20 -> len u = 8 -> len data <= 1472 ->
  (p ← copy_into (make_bytes 1500) 0 20 h;
   p ← copy_into p 20 28 u;
   copy_into p 28 (len p) data) s =
  (s, Ok ((h ++ u ++ data) ++ replicate (1500 - length (h ++ u ++ data)) x00)).
Proof.
  intros Hh Hu Hd. pose proof (len_nonneg data).
  assert (Hm : make_bytes 1500 = replicate 1500 x00) by reflexivity. rewrite Hm. clear Hm.
  assert (len (replicate 1500 x00) = 1500) as Hr by apply len_replicate.
  rewrite (bind_run (copy_into_app [] (replicate 1500 x00) 0 20 h _ eq_refl ltac:(lia) ltac:(lia))). cbn [app].
  rewrite drop_replicate.
  erewrite bind_run by (apply copy_into_app; rewrite ?len_replicate; unfold len in *; lia).
  rewrite app_assoc, drop_replicate.
  rewrite copy_into_app by (rewrite ?len_app, ?len_replicate; unfold len in *; lia).
  rewrite drop_replicate. do 2 f_equal. rewrite <- !app_assoc. do 3 f_equal. f_equal.
  rewrite !length_app. lia.
Qed.

Lemma len_ham_hdr vflow src :
  length vflow = 16%nat -> length src = 16%nat -> len (ham_hdr vflow src) = 20.
Proof.
  intros Hv Hs. unfold ham_hdr, encode_network, last4. autorewrite with len.
  rewrite !(len_take 4) by (unfold len; rewrite length_drop, ?Hs, ?Hv; lia). done.
Qed.

Section generated.
Context (g : Generator) (Hv : length (g_vflow g) = 16%nat).

Lemma gen_packet_ok data src s :
  ham_inv (g_Port g) s -> length src = 16%nat -> len data <= 1472 ->
  exists s', gen_packet (g_vflow g) data src s = (s', Ok (ham_packet (g_Port g) (g_vflow g) data src)) /\
    ham_inv (g_Port g) s'.
Proof using Hv.
  intros ((b & c & Hb & Hc & H1) & n & H2) Hs Hd. unfold gen_packet. rewrite bind_get, H1, H2.
  rewrite (bind_run (UDP_SetLen_udp (g_Port g) n (len data) s)).
  rewrite (bind_run (SetAddrs_ham b c src (g_vflow g) s Hb Hc Hs Hv)).
  set (h := ham_hdr (g_vflow g) src). set (u := udp_hdr (g_Port g) (len data)). exists (h, u). split.
  - pose proof (copy_payload h u data (h, u) (len_ham_hdr _ src Hv Hs) (len_udp_hdr (g_Port g) _) Hd) as E.
    unfold mbind, M_bind, put in *. change IPv4HLen with 20. cbn beta iota zeta in *.
    destruct (copy_into (make_bytes 1500) 0 20 h (h, u)) as [s1 [p1| | |]]; try done.
    change (20 + 8) with 28. destruct (copy_into p1 20 28 u s1) as [s2 [p2| | |]]; try done.
    rewrite E. done.
  - split; [|by eexists]. exists (last4 src), (last4 (g_vflow g)). unfold last4.
    rewrite !length_take, !length_drop, Hs, Hv. done.
Qed.

Lemma gen_sources_ok data srcs s :
  ham_inv (g_Port g) s -> Forall (fun src => length src = 16%nat) srcs -> len data <= 1472 ->
  exists s', gen_sources (g_vflow g) data srcs s =
    (s', Ok (map (ham_packet (g_Port g) (g_vflow g) data) srcs)) /\ ham_inv (g_Port g) s'.
Proof using Hv.
  intros Hi H Hd. revert s Hi. induction H as [|src srcs Hs _ IH]; intros s Hi; [by exists s|].
  cbn [gen_sources map]. destruct (gen_packet_ok data src s Hi Hs Hd) as (s1 & E1 & Hi1). rewrite (bind_run E1).
  destruct (IH s1 Hi1) as (s2 & E2 & Hi2). rewrite (bind_run E2). by exists s2.
Qed.

Lemma gen_samples_ok srcs samples s :
  ham_inv (g_Port g) s -> Forall (fun src => length src = 16%nat) srcs ->
  Forall (fun data => len data <= 1472) samples ->
  exists s', gen_samples (g_vflow g) srcs samples s =
    (s', Ok (concat (map (fun data => map (ham_packet (g_Port g) (g_vflow g) data) srcs) samples))) /\
    ham_inv (g_Port g) s'.
Proof using Hv.
  intros Hi Hs H. revert s Hi. induction H as [|data samples Hd _ IH]; intros s Hi; [by exists s|].
  cbn [gen_samples map concat]. destruct (gen_sources_ok data srcs s Hi Hs Hd) as (s1 & E1 & Hi1).
  rewrite (bind_run E1). destruct (IH s1 Hi1) as (s2 & E2 & Hi2). rewrite (bind_run E2). by exists s2.
Qed.
End generated.

Lemma wire_ham {S} port vflow data src (s : S) :
  length vflow = 16%nat -> length src = 16%nat -> len data <= 1472 ->
  wire (ham_packet port vflow data src) s =
  (s, Ok (ham_hdr vflow src ++ udp_hdr port (len data) ++ data)).
Proof.
  intros Hv Hs Hd. unfold wire, ham_packet. cbn [hp_payload hp_length].
  set (b := ham_hdr vflow src ++ udp_hdr port (len data) ++ data).
  assert (len b = 28 + len data) as Hb.
  { unfold b. rewrite !len_app, len_udp_hdr, (len_ham_hdr vflow src Hv Hs). lia. }
  pose proof (len_nonneg data). rewrite slice_ok.
  - rewrite Z.sub_0_r, drop_0, <- Hb. by rewrite take_len_app.
  - lia.
  - rewrite len_app, len_replicate. unfold len in *. lia.
Qed.

(** The packets of the stress tool.  For a 16-byte target and sources, and samples of
    at most 1472 bytes, every sample is sent from every source, sample by sample, as an
    IPv4 packet from that source to the target with a UDP header of the sample's length, the
    sample being its payload; the length field of the IP header is 0. *)
Theorem genPackets_wire (g : Generator) (samples : list (list byte)) (s : Headers) :
  length (g_vflow g) = 16%nat -> Forall (fun src => length src = 16%nat) (g_srcs g) ->
  Forall (fun data => len data <= 1472) samples ->
  exists s' packets,
    genPackets g samples s = (s', Ok packets) /\
    Forall2 (fun p b => forall st : Headers, wire p st = (st, Ok b)) packets
      (concat (map (fun data =>
         map (fun src => ham_hdr (g_vflow g) src ++ udp_hdr (g_Port g) (len data) ++ data) (g_srcs g)) samples)).
Proof.
  intros Hv Hs Hd. unfold genPackets. rewrite (bind_run (UDP_Marshal_udp (g_Port g) s)).
  assert (E : IPv4_Marshal (NewIPv4HeaderTpl UDPProto) s =
              (s, Ok (encode_network (IP4 0 0 0 0 0 64 0 (replicate 4 x00) (replicate 4 x00)) 17))).
  { vm_compute. reflexivity. }
  rewrite (bind_run E).
  edestruct (gen_samples_ok g Hv (g_srcs g) samples (encode_network (IP4 0 0 0 0 0 64 0 (replicate 4 x00) (replicate 4 x00)) 17,
    udp_hdr (g_Port g) 0)) as (s' & E' & _); [|exact Hs|exact Hd|].
  { split; [by exists (replicate 4 x00), (replicate 4 x00)|by exists 0]. }
  exists s', (concat (map (fun data => map (ham_packet (g_Port g) (g_vflow g) data) (g_srcs g)) samples)).
  split; [exact E'|]. clear E' E. induction Hd as [|data samples Hl _ IH]; [constructor|]. cbn [map concat].
  apply Forall2_app; [|exact IH]. clear IH. induction Hs as [|src srcs Hr _ IH]; [constructor|].
  cbn [map]. constructor; [|exact IH]. intros st. by apply wire_ham.
Qed.

(** The rate limit.  Data is sent at all only for a limit between one and a million
    packets a second; the interval between packets is then rounded down to whole
    microseconds, so that the limit is exceeded by less than a factor of two. *)
Theorem throttle_bounds (RateLimit : Z) :
  match throttle RateLimit with
  | None => RateLimit < 1 \/ 1000000 < RateLimit
  | Some d => 1 <= RateLimit <= 1000000 /\ d * RateLimit <= 1000000000 < 2 * d * RateLimit
  end.
Proof.
  unfold throttle. destruct (Z.gtb_spec RateLimit 0); [|lia]. cbv zeta.
  rewrite Z.quot_div_nonneg by lia. destruct (Z.leb_spec (1000000 / RateLimit * 1000) 0).
  - right. assert (1000000 / RateLimit <= 0) by lia. destruct (Z.lt_ge_cases 1000000 RateLimit); [done|].
    pose proof (Z.div_str_pos 1000000 RateLimit). lia.
  - pose proof (Z.mul_div_le 1000000 RateLimit ltac:(lia)).
    pose proof (Z.mul_succ_div_gt 1000000 RateLimit ltac:(lia)). nia.
Qed.

(** The default of nine sources. *)
Lemma router_sources_ok : Forall (fun src => length src = 16%nat) (router_sources 10).
Proof. by repeat constructor. Qed.

Lemma genPackets_wire_witness :
  let g := with_sources (mkGenerator (mkConn AF_INET 3 NilSockaddr) [] (source_ip 200) 10 4739 1000) in
  exists s' packets, genPackets g [bytes [0; 10]; bytes [1; 2; 3]] ([], []) = (s', Ok packets) /\
    len packets = 18.
Proof.
  cbv zeta. edestruct (genPackets_wire (with_sources (mkGenerator (mkConn AF_INET 3 NilSockaddr) [] (source_ip 200) 10 4739 1000))
    [bytes [0; 10]; bytes [1; 2; 3]] ([], [])) as (s' & packets & E & H);
    [reflexivity|exact router_sources_ok|apply Forall_cons_2; [done|apply Forall_cons_2; [done|apply Forall_nil_2]]|].
  exists s', packets. split; [exact E|]. apply Forall2_length in H. unfold len. rewrite H. reflexivity.
Defined.
