(* ===== verification/StressRuns.v ===== *)
(** The stress tool at work: [init] and [main] of [src/stress/stress.go] and the goroutines
    of [IPFIX.Run] and [SFlow.Run] of [src/stress/hammer/hammer.go].

    A goroutine that fills the channel ([sendTemplate], [sendTemplateOpt], [sendData]) is a
    [Feeder]; the tickers fire whenever they like.  [net.ParseIP] and [time.ParseDuration]
    are arguments. *)

From Stdlib Require Import Strings.Ascii.
From S2P Require Import Prelude GoNet Json GoStrings Flags Packet PacketWire Mirror Dispatcher Hammer.

Local Open Scope string_scope.
Local Open Scope list_scope.
Open Scope Z_scope.

(** ** Flags *)

Record stress_options : Type := mkStressOptions {
  vflowAddr : string; ipfixPort : Z; sflowPort : Z; ipfixTick : string; ipfixRateLimit : Z; sflowRateLimit : Z
}.

Definition default_stress_options : stress_options := mkStressOptions "127.0.0.1" 4739 6343 "10s" 25000 25000.

Definition stress_flags : list (string * setter stress_options) :=
  [("ipfix-port", IntVar (fun v '(mkStressOptions a b c d e f) => mkStressOptions a v c d e f));
   ("sflow-port", IntVar (fun v '(mkStressOptions a b c d e f) => mkStressOptions a b v d e f));
   ("ipfix-interval", StringVar (fun v '(mkStressOptions a b c d e f) => mkStressOptions a b c v e f));
   ("ipfix-rate-limit", IntVar (fun v '(mkStressOptions a b c d e f) => mkStressOptions a b c d v f));
   ("sflow-rate-limit", IntVar (fun v '(mkStressOptions a b c d e f) => mkStressOptions a b c d e v));
   ("vflow-addr", StringVar (fun v '(mkStressOptions a b c d e f) => mkStressOptions v b c d e f))].

Definition stress_init (args : list string) : option stress_options :=
  ParseTable stress_flags args default_stress_options.

(** ** The goroutines of [Run] *)

(** When a feeder waits for its ticker: before every round but the first, or before every
    packet. *)
Inductive Pace : Type := PerRound | PerPacket.

(** The packets of a round, those left of it, whether the ticker's channel holds a tick,
    whether the feeder has received one for what it sends next, and what it has sent. *)
Record Feeder : Type := mkFeeder {
  fd_packets : list HPacket; fd_pace : Pace; fd_ticker : bool;
  fd_rest : list HPacket; fd_tick : bool; fd_go : bool; fd_fed : list HPacket
}.

(** [sendTemplate] and [sendTemplateOpt] send a round at once; [for range c] on a nil
    channel waits for ever. *)
Definition template_feeder (Tick : Z) (packets : list HPacket) : Feeder :=
  mkFeeder packets PerRound (0 <? Tick) packets false true [].

(** [sendData]. *)
Definition data_feeder (RateLimit : Z) (packets : list HPacket) : Feeder :=
  mkFeeder packets PerPacket (bool_decide (is_Some (throttle RateLimit))) packets false false [].

(** The ticker fires; a tick that nobody has taken is not stored twice. *)
Definition fires (f : Feeder) : option Feeder :=
  if fd_ticker f then
    Some (mkFeeder (fd_packets f) (fd_pace f) (fd_ticker f) (fd_rest f) true (fd_go f) (fd_fed f))
  else None.

(** [<-c] and [<-throttle]. *)
Definition receives (f : Feeder) : option Feeder :=
  if fd_tick f && negb (fd_go f) then
    Some (mkFeeder (fd_packets f) (fd_pace f) (fd_ticker f) (fd_rest f) false true (fd_fed f))
  else None.

(** After a packet: the next of the round, or the next round, for which a feeder of
    templates waits. *)
Definition next_packet (f : Feeder) (rest fed : list HPacket) : Feeder :=
  mkFeeder (fd_packets f) (fd_pace f) (fd_ticker f)
    (match rest with [] => fd_packets f | _ => rest end) (fd_tick f)
    (match fd_pace f, rest with PerRound, _ :: _ => true | _, _ => false end) fed.

(** [ch <- packets[j]]: the packet and the feeder after it. *)
Definition feeds (f : Feeder) : option (HPacket * Feeder) :=
  match fd_rest f with
  | p :: rest => if fd_go f then Some (p, next_packet f rest (fd_fed f ++ [p])) else None
  | [] => None
  end.

(** The feeders, the channel and what went to the connection, with the feeder each packet is
    from; whether the first second is over, and whether the process has panicked. *)
Record Run : Type := mkRun {
  r_feeders : list Feeder; r_ch : list (nat * HPacket); r_sent : list (nat * list byte);
  r_awake : bool; r_panic : bool
}.

Inductive run_label : Type := Fires (i : nat) | Receives (i : nat) | Feeds (i : nat) | SendsPacket | Awakes.

(** [IPFIX.Run] starts the data after a second: before that only the feeders in front of the
    last one move. *)
Definition started (r : Run) (i : nat) : bool := r_awake r || (S i <? length (r_feeders r))%nat.

Definition with_feeder (i : nat) (f : Feeder) (r : Run) : Run :=
  mkRun (<[i := f]> (r_feeders r)) (r_ch r) (r_sent r) (r_awake r) (r_panic r).

Definition run_step (l : run_label) (r : Run) : option Run :=
  if r_panic r then None else
  match l with
  | Fires i =>
      if started r i then f ← r_feeders r !! i; f' ← fires f; Some (with_feeder i f' r) else None
  | Receives i =>
      if started r i then f ← r_feeders r !! i; f' ← receives f; Some (with_feeder i f' r) else None
  | Feeds i =>
      if started r i && (len (r_ch r) <? 10000) then
        f ← r_feeders r !! i;
        match feeds f with
        | Some (p, f') =>
            Some (mkRun (<[i := f']> (r_feeders r)) (r_ch r ++ [(i, p)]) (r_sent r) (r_awake r) (r_panic r))
        | None => None
        end
      else None
  | SendsPacket =>
      match r_ch r with
      | (i, p) :: ch' =>
          match wire p tt with
          | (_, Ok b) => Some (mkRun (r_feeders r) ch' (r_sent r ++ [(i, b)]) (r_awake r) (r_panic r))
          | _ => Some (mkRun (r_feeders r) ch' (r_sent r) (r_awake r) true)
          end
      | [] => None
      end
  | Awakes => Some (mkRun (r_feeders r) (r_ch r) (r_sent r) true (r_panic r))
  end.

Definition run_of (feeders : list Feeder) (awake : bool) : Run := mkRun feeders [] [] awake false.

(** [IPFIX.Run] after its sources are set, with the packets each goroutine builds. *)
Definition IPFIX_Run (s : Samples) (g : Generator) (Tick : Z) : res Run :=
  match (IPFIX_genPackets s g templateType ([], [])).2, (IPFIX_genPackets s g templateOptType ([], [])).2,
        (IPFIX_genPackets s g dataType ([], [])).2 with
  | Ok templates, Ok templatesOpt, Ok data =>
      Ok (run_of [template_feeder Tick templates; template_feeder Tick templatesOpt;
                  data_feeder (g_RateLimit g) data] false)
  | _, _, _ => Panic
  end.

(** [SFlow.Run]. *)
Definition SFlow_Run (s : Samples) (g : Generator) : res Run :=
  match (SFlow_genPackets s g ([], [])).2 with
  | Ok data => Ok (run_of [data_feeder (g_RateLimit g) data] true)
  | _ => Panic
  end.

(** ** [main] *)

(** How a goroutine of [main] begins: a nil generator panics; a bad duration ends the
    process. *)
Inductive Begin : Type := Begins (r : Run) | BeginFatal | BeginPanic.

Section main.
Context (ParseIP : string -> list byte) (ParseDuration : string -> option Z)
        (Socket : Family -> option Z) (samples : Samples).

Definition stress_ipfix (o : stress_options) : Begin :=
  match stress_start (NewIPFIX Socket (ParseIP (vflowAddr o))) (ipfixPort o) (ipfixRateLimit o) with
  | Ok g =>
      match ParseDuration (ipfixTick o) with
      | None => BeginFatal
      | Some d => match IPFIX_Run samples g d with Ok r => Begins r | _ => BeginPanic end
      end
  | _ => BeginPanic
  end.

Definition stress_sflow (o : stress_options) : Begin :=
  match stress_start (NewSFlow Socket (ParseIP (vflowAddr o))) (sflowPort o) (sflowRateLimit o) with
  | Ok g => match SFlow_Run samples g with Ok r => Begins r | _ => BeginPanic end
  | _ => BeginPanic
  end.

End main.

(** ** What is sent *)

(** What is sent of a packet. *)
Definition hp_bytes (p : HPacket) : list byte := take (Z.to_nat (hp_length p)) (hp_payload p).

Definition sendable (p : HPacket) : Prop := 0 <= hp_length p <= len (hp_payload p).

Lemma wire_sendable {S} p (st : S) : sendable p -> wire p st = (st, Ok (hp_bytes p)).
Proof.
  intros H. unfold wire, hp_bytes, sendable in *. by rewrite slice_ok, Z.sub_0_r, drop_0 by lia.
Qed.

(** What belongs to one feeder. *)
Definition of_feeder {A} (i : nat) (l : list (nat * A)) : list A :=
  map snd (List.filter (fun e => (e.1 =? i)%nat) l).

Lemma of_feeder_app {A} i (l1 l2 : list (nat * A)) : of_feeder i (l1 ++ l2) = of_feeder i l1 ++ of_feeder i l2.
Proof. unfold of_feeder. by rewrite List.filter_app, map_app. Qed.

(** A feeder sends its rounds one after the other. *)
Definition feeder_ok (f : Feeder) : Prop :=
  Forall sendable (fd_packets f) /\ exists k, fd_fed f ++ fd_rest f = concat (replicate k (fd_packets f)).

(** Every packet a feeder gave to the channel is in it or was sent, in order. *)
Record run_ok (r : Run) : Prop := mkRunOk {
  ro_feeders : Forall feeder_ok (r_feeders r);
  ro_order : forall i f, r_feeders r !! i = Some f ->
    of_feeder i (r_sent r) ++ map hp_bytes (of_feeder i (r_ch r)) = map hp_bytes (fd_fed f);
  ro_ch : Forall (fun e => sendable e.2) (r_ch r) /\ len (r_ch r) <= 10000;
  ro_panic : r_panic r = false
}.

Lemma feeds_ok f p f' : feeder_ok f -> feeds f = Some (p, f') ->
  feeder_ok f' /\ sendable p /\ fd_fed f' = fd_fed f ++ [p] /\ fd_packets f' = fd_packets f.
Proof.
  unfold feeds. intros [Hs [k Hk]] E. destruct (fd_rest f) as [|q rest] eqn:Er; [done|].
  destruct (fd_go f); [|done]. injection E as <- <-.
  assert (q ∈ concat (replicate k (fd_packets f))) as Hq by (rewrite <- Hk; set_solver).
  unfold feeder_ok, next_packet. cbn [fd_packets fd_fed fd_rest]. split_and!; try done.
  - destruct rest as [|q' rest].
    + exists (S k). rewrite replicate_S_end, concat_app, <- Hk. cbn. by rewrite app_nil_r.
    + exists k. by rewrite <- Hk, <- app_assoc.
  - apply list_elem_of_In, in_concat in Hq as (l & Hl & Hq).
    apply list_elem_of_In, elem_of_replicate in Hl as [-> _]. rewrite List.Forall_forall in Hs. by apply Hs.
Qed.

(** Replacing a feeder by one that has fed the same. *)
Lemma with_feeder_ok i f f' r :
  run_ok r -> r_feeders r !! i = Some f -> feeder_ok f' -> fd_fed f' = fd_fed f -> run_ok (with_feeder i f' r).
Proof.
  intros [Hf Ho Hc Hp] Hl Hok Hfed. split; cbn; try done; [by apply Forall_insert|].
  intros j g [(<- & <- & _)|[_ Hg]]%list_lookup_insert_Some; [rewrite Hfed; by apply Ho|by apply Ho].
Qed.

Lemma with_feeder_packets i f f' (l : list Feeder) :
  l !! i = Some f -> fd_packets f' = fd_packets f -> map fd_packets (<[i := f']> l) = map fd_packets l.
Proof.
  intros Hl E. change (fd_packets <$> <[i := f']> l = fd_packets <$> l). rewrite (list_fmap_insert fd_packets l i f'), E. apply list_insert_id.
  by rewrite list_lookup_fmap, Hl.
Qed.

Lemma run_step_ok l r r' : run_ok r -> run_step l r = Some r' ->
  run_ok r' /\ map fd_packets (r_feeders r') = map fd_packets (r_feeders r).
Proof.
  intros Hr E. pose proof Hr as [Hf Ho [Hs Hc] Hp]. unfold run_step in E. rewrite Hp in E.
  destruct l as [i|i|i| |].
  - destruct (started r i); [|done]. destruct (r_feeders r !! i) as [f|] eqn:Hl; [|done]. cbn in E.
    unfold fires in E. destruct (fd_ticker f); [|done]. injection E as <-.
    split; [|by apply (with_feeder_packets _ f)]. apply (with_feeder_ok _ f); try done.
    by apply (Forall_lookup_1 _ _ _ _ Hf) in Hl.
  - destruct (started r i); [|done]. destruct (r_feeders r !! i) as [f|] eqn:Hl; [|done]. cbn in E.
    unfold receives in E. destruct (_ && _); [|done]. injection E as <-.
    split; [|by apply (with_feeder_packets _ f)]. apply (with_feeder_ok _ f); try done.
    by apply (Forall_lookup_1 _ _ _ _ Hf) in Hl.
  - destruct (started r i); [|done]. cbn [andb] in E. destruct (Z.ltb_spec (len (r_ch r)) 10000); [|done].
    destruct (r_feeders r !! i) as [f|] eqn:Hl; [|done]. cbn in E.
    destruct (feeds f) as [[p f']|] eqn:Ef; [|done]. injection E as <-.
    destruct (feeds_ok f p f' (Forall_lookup_1 _ _ _ _ Hf Hl) Ef) as (Hok & Hsp & Hfed & Hpk).
    split; [|by apply (with_feeder_packets _ f)]. split; cbn [r_feeders r_ch r_sent r_panic]; [by apply Forall_insert| | |done].
    + intros j g. rewrite of_feeder_app, map_app, app_assoc. unfold of_feeder at 3. cbn [List.filter fst].
      intros [(<- & <- & _)|[Hne Hg]]%list_lookup_insert_Some.
      * rewrite Nat.eqb_refl, (Ho _ _ Hl), Hfed, map_app. done.
      * rewrite (proj2 (Nat.eqb_neq i j) Hne), (Ho _ _ Hg). cbn. by rewrite app_nil_r.
    + split; [apply Forall_app; split; [done|by constructor]|].
      rewrite (len_app (r_ch r)). change (len [_]) with 1. lia.
  - destruct (r_ch r) as [|[i p] ch'] eqn:Ec; [done|]. inversion_clear Hs as [|?? Hsp Hs']. cbn in Hsp.
    rewrite wire_sendable in E by done. injection E as <-. split; [|done].
    split; cbn [r_feeders r_ch r_sent r_panic]; [done| |split; [done|]|done].
    + intros j f Hl. rewrite <- (Ho j f Hl), of_feeder_app, <- app_assoc. f_equal.
      unfold of_feeder. cbn [List.filter fst]. by destruct (i =? j)%nat.
    + rewrite len_cons in Hc. lia.
  - injection E as <-. by split.
Qed.

(** The packets of one sample set, as bytes. *)
Definition datagrams (g : Generator) (samples : list (list byte)) : list (list byte) :=
  concat (map (fun data =>
    map (fun src => ham_hdr (g_vflow g) src ++ udp_hdr (g_Port g) (len data) ++ data) (g_srcs g)) samples).

(** The kinds of packets of the goroutines of [IPFIX.Run], in order. *)
Definition ipfix_kinds : list sample_type := [templateType; templateOptType; dataType].

Lemma wire_Ok p b : wire p ([], []) = (([], []) : Headers, Ok b) -> sendable p /\ hp_bytes p = b.
Proof.
  unfold wire, slice, sendable, hp_bytes. rewrite Z.sub_0_r, drop_0.
  destruct (Z.leb_spec 0 (hp_length p)), (Z.leb_spec (hp_length p) (len (hp_payload p))); cbn; intros [=]; try done.
Qed.

Lemma genPackets_bytes g samples :
  length (g_vflow g) = 16%nat -> Forall (fun src => length src = 16%nat) (g_srcs g) ->
  Forall (fun data => len data <= 1472) samples ->
  exists packets, (genPackets g samples ([], [])).2 = Ok packets /\
    Forall sendable packets /\ map hp_bytes packets = datagrams g samples.
Proof.
  intros Hv Hs Hd. destruct (genPackets_wire g samples ([], []) Hv Hs Hd) as (s' & packets & E & H).
  exists packets. rewrite E. split; [done|]. fold (datagrams g samples) in H.
  clear E. induction H as [|p b packets bs Hp _ IH]; [done|]. destruct (wire_Ok p b (Hp _)) as [H1 <-].
  destruct IH as [H2 H3]. split; [by constructor|]. cbn. by rewrite H3.
Qed.

Lemma run_of_ok feeders awake :
  Forall feeder_ok feeders -> Forall (fun f => fd_fed f = []) feeders -> run_ok (run_of feeders awake).
Proof.
  intros Hf He. split; cbn; try done. intros i f Hl. by rewrite (Forall_lookup_1 _ _ _ _ He Hl).
Qed.

Lemma template_feeder_ok Tick packets : Forall sendable packets -> feeder_ok (template_feeder Tick packets).
Proof. intros H. split; [done|]. exists 1%nat. cbn. by rewrite app_nil_r. Qed.

Lemma data_feeder_ok RateLimit packets : Forall sendable packets -> feeder_ok (data_feeder RateLimit packets).
Proof. intros H. split; [done|]. exists 1%nat. cbn. by rewrite app_nil_r. Qed.

(** What a run has sent of a feeder. *)
Lemma exec_run_ok ls r0 r :
  run_ok r0 -> exec_with run_step ls r0 = Some r ->
  r_panic r = false /\ len (r_ch r) <= 10000 /\
  forall i packets, map fd_packets (r_feeders r0) !! i = Some packets ->
    exists k, of_feeder i (r_sent r) `prefix_of` concat (replicate k (map hp_bytes packets)).
Proof.
  intros H0 E.
  destruct (exec_with_inv run_step (fun r => run_ok r /\ map fd_packets (r_feeders r) = map fd_packets (r_feeders r0))
    ltac:(intros l s s' [Hs <-] Hst; by apply run_step_ok in Hst) ls r0 r (conj H0 eq_refl) E) as [Hr Hpk].
  split; [apply Hr|]. split; [apply Hr|]. intros i packets Hi. rewrite <- Hpk in Hi.
  apply list_lookup_fmap_Some in Hi as (f & -> & Hl).
  destruct (Forall_lookup_1 _ _ _ _ (ro_feeders _ Hr) Hl) as [_ [k Hk]]. exists k.
  apply (f_equal (map hp_bytes)) in Hk. rewrite map_app, <- (ro_order _ Hr _ _ Hl), concat_map, fmap_replicate in Hk.
  rewrite <- Hk, <- app_assoc. by apply prefix_app_r.
Qed.

(** What the stress tool puts on the wire.  In every interleaving of the goroutines of
    [IPFIX.Run] and of their tickers, for a target and sources of 16 bytes and samples that
    fit a packet, nothing panics, the channel holds at most 10000 packets, and what was sent
    of each kind (templates, option templates, data) is the beginning of the endless
    repetition of the samples of that kind, each from every source, in order. *)
Theorem stress_traffic (s : Samples) (g : Generator) (Tick : Z)
    (Hv : length (g_vflow g) = 16%nat) (Hs : Forall (fun src => length src = 16%nat) (g_srcs g))
    (Hd : forall typ, Forall (fun data => len data <= 1472) (samples_of s typ)) :
  exists r0, IPFIX_Run s g Tick = Ok r0 /\
  forall ls r, exec_with run_step ls r0 = Some r ->
    r_panic r = false /\ len (r_ch r) <= 10000 /\
    forall i typ, ipfix_kinds !! i = Some typ ->
      exists k, of_feeder i (r_sent r) `prefix_of` concat (replicate k (datagrams g (samples_of s typ))).
Proof.
  destruct (genPackets_bytes g _ Hv Hs (Hd templateType)) as (ps1 & E1 & S1 & B1).
  destruct (genPackets_bytes g _ Hv Hs (Hd templateOptType)) as (ps2 & E2 & S2 & B2).
  destruct (genPackets_bytes g _ Hv Hs (Hd dataType)) as (ps3 & E3 & S3 & B3).
  unfold IPFIX_Run, IPFIX_genPackets. rewrite E1, E2, E3. eexists. split; [reflexivity|]. intros ls r E.
  apply exec_run_ok in E as (H1 & H2 & H3).
  - split; [done|]. split; [done|]. intros i typ Hi.
    destruct i as [|[|[|i]]]; cbn in Hi; simplify_eq;
      [rewrite <- B1|rewrite <- B2|rewrite <- B3]; by apply H3.
  - apply run_of_ok; [|by repeat constructor].
    constructor; [by apply template_feeder_ok|]. constructor; [by apply template_feeder_ok|].
    constructor; [by apply data_feeder_ok|constructor].
Qed.

Definition example_generator : Generator :=
  with_sources (mkGenerator (mkConn AF_INET 3 NilSockaddr) [] (source_ip 200) 3 4739 1000).

Definition example_samples : Samples :=
  mkSamples [bytes [0; 10; 1]] [bytes [0; 10; 2]] [bytes [0; 10; 3]] [].

(** Templates, the first second, a tick and a data packet. *)
Definition example_labels : list run_label :=
  [Feeds 0; Feeds 1; Feeds 0; SendsPacket; Awakes; Fires 2; Receives 2; Feeds 2; SendsPacket; SendsPacket; SendsPacket].

Definition four_sent (r : Run) : bool := (length (r_sent r) =? 4)%nat && (length (of_feeder 2 (r_sent r)) =? 1)%nat.

Lemma example_run :
  exists r, match IPFIX_Run example_samples example_generator 10 with
            | Ok r0 => exec_with run_step example_labels r0
            | _ => None
            end = Some r /\ four_sent r = true.
Proof. apply eval_some. vm_compute. reflexivity. Qed.

Lemma stress_traffic_witness :
  exists r k, four_sent r = true /\
    of_feeder 2 (r_sent r) `prefix_of` concat (replicate k (datagrams example_generator [bytes [0; 10; 1]])).
Proof.
  destruct (stress_traffic example_samples example_generator 10) as (r0 & E & H).
  - reflexivity.
  - by repeat constructor.
  - intros []; repeat constructor; vm_compute; discriminate.
  - destruct example_run as (r & Er & Ht). rewrite E in Er.
    destruct (H _ _ Er) as (_ & _ & Hk). destruct (Hk 2%nat dataType eq_refl) as [k Hp].
    exists r, k. split; [exact Ht|exact Hp].
Defined.
