(* ===== verification/StressSamples.v ===== *)
(** The recorded datagrams of the stress tool, [src/stress/hammer/ipfix_samples.go] and
    [src/stress/hammer/sflow_samples.go], and what the collector does with them: real
    traffic of routers, on which the models of the decoders are run. *)

From S2P Require Import Prelude GoNet InfoModel Interpret TemplateCache Reader Json Marshal IpfixDecoder IpfixFacts MarshalIpfix Mirror Collector SFlow SFlowCollector Hammer.

Open Scope Z_scope.

Definition recorded_ipfixDataSamples : list (list byte) :=
  [bytes [0; 10; 1; 164; 88; 108; 45; 226; 85; 129; 63; 45; 0; 0; 128; 3; 1; 0; 1; 148; 192; 16; 48; 217; 186; 19;
      213; 240; 2; 6; 1; 187; 251; 125; 0; 0; 0; 0; 3; 43; 0; 0; 24; 20; 250; 86; 234; 0; 0; 0; 108; 99; 189;
      125; 9; 213; 16; 0; 0; 4; 89; 0; 0; 0; 0; 0; 0; 87; 228; 0; 0; 0; 0; 0; 0; 0; 15; 63; 63; 0; 0; 1; 89;
      102; 146; 79; 138; 0; 0; 1; 89; 102; 146; 238; 48; 2; 0; 0; 0; 0; 177; 207; 76; 243; 192; 16; 58; 8; 0;
      6; 232; 183; 0; 80; 0; 0; 0; 0; 4; 5; 0; 0; 21; 24; 0; 0; 73; 193; 250; 86; 234; 0; 192; 16; 41; 54; 16;
      0; 0; 4; 17; 0; 0; 0; 0; 0; 0; 0; 40; 0; 0; 0; 0; 0; 0; 0; 1; 124; 124; 0; 0; 1; 89; 102; 146; 76; 40;
      0; 0; 1; 89; 102; 146; 76; 40; 1; 0; 0; 0; 0; 200; 73; 55; 34; 192; 16; 48; 217; 0; 6; 39; 179; 1; 187;
      0; 0; 0; 0; 4; 89; 0; 0; 18; 24; 0; 0; 73; 59; 250; 86; 234; 0; 192; 16; 41; 49; 16; 0; 0; 4; 17; 0; 0;
      0; 0; 0; 0; 0; 52; 0; 0; 0; 0; 0; 0; 0; 1; 53; 53; 0; 0; 1; 89; 102; 146; 65; 79; 0; 0; 1; 89; 102; 146;
      65; 79; 1; 0; 0; 0; 0; 179; 108; 135; 20; 192; 16; 48; 217; 40; 6; 186; 131; 1; 187; 0; 0; 0; 0; 4; 5;
      0; 0; 24; 24; 0; 4; 3; 61; 250; 86; 234; 0; 192; 16; 41; 49; 16; 0; 0; 4; 17; 0; 0; 0; 0; 0; 0; 0; 52;
      0; 0; 0; 0; 0; 0; 0; 1; 55; 55; 0; 0; 1; 89; 102; 146; 80; 69; 0; 0; 1; 89; 102; 146; 80; 69; 1; 0; 0;
      0; 0; 189; 81; 235; 191; 192; 16; 48; 200; 0; 6; 199; 88; 1; 187; 0; 0; 0; 0; 4; 89; 0; 0; 19; 24; 0; 0;
      30; 58; 250; 86; 234; 0; 192; 16; 41; 49; 16; 0; 0; 4; 17; 0; 0; 0; 0; 0; 0; 0; 188; 0; 0; 0; 0; 0; 0;
      0; 4; 120; 120; 0; 0; 1; 89; 102; 146; 62; 251; 0; 0; 1; 89; 102; 146; 117; 142; 2; 0; 0; 0; 0];
   bytes [0; 10; 0; 180; 88; 144; 213; 243; 37; 76; 211; 64; 0; 0; 132; 0; 1; 0; 0; 164; 192; 229; 211; 40; 216;
      109; 51; 51; 0; 6; 0; 80; 222; 182; 0; 0; 0; 0; 2; 225; 0; 0; 24; 18; 250; 86; 234; 0; 0; 0; 13; 136;
      62; 115; 9; 129; 16; 0; 0; 8; 245; 0; 0; 0; 0; 0; 0; 5; 140; 0; 0; 0; 0; 0; 0; 0; 1; 63; 63; 0; 0; 1;
      89; 245; 194; 196; 175; 0; 0; 1; 89; 245; 194; 196; 175; 1; 0; 0; 0; 0; 192; 229; 187; 163; 198; 7; 21;
      111; 0; 6; 215; 160; 1; 187; 0; 0; 0; 0; 2; 225; 0; 0; 25; 24; 0; 0; 59; 29; 0; 0; 59; 29; 62; 115; 9;
      129; 16; 0; 0; 8; 245; 0; 0; 0; 0; 0; 0; 0; 40; 0; 0; 0; 0; 0; 0; 0; 1; 63; 63; 0; 0; 1; 89; 245; 194;
      207; 130; 0; 0; 1; 89; 245; 194; 207; 130; 1; 0; 0; 0; 0];
   bytes [0; 10; 1; 164; 88; 144; 214; 77; 43; 234; 148; 189; 0; 0; 128; 0; 1; 0; 1; 148; 170; 74; 248; 21; 72;
      21; 81; 200; 0; 6; 200; 52; 1; 187; 0; 0; 0; 0; 6; 94; 0; 0; 22; 24; 0; 0; 19; 185; 250; 86; 234; 0;
      192; 229; 156; 44; 16; 0; 0; 3; 192; 0; 0; 0; 0; 0; 0; 0; 40; 0; 0; 0; 0; 0; 0; 0; 1; 58; 58; 0; 0; 1;
      89; 245; 196; 47; 76; 0; 0; 1; 89; 245; 196; 47; 76; 1; 0; 0; 0; 0; 72; 21; 91; 70; 198; 245; 192; 136;
      0; 6; 1; 187; 154; 220; 0; 0; 0; 0; 3; 171; 0; 0; 24; 24; 250; 86; 234; 0; 0; 0; 13; 28; 4; 68; 71; 197;
      16; 0; 0; 6; 94; 0; 0; 0; 0; 0; 0; 5; 220; 0; 0; 0; 0; 0; 0; 0; 1; 63; 63; 0; 0; 1; 89; 245; 196; 41;
      49; 0; 0; 1; 89; 245; 196; 41; 49; 1; 0; 0; 0; 0; 192; 229; 210; 181; 165; 230; 225; 12; 0; 6; 1; 187;
      112; 29; 0; 0; 0; 0; 3; 171; 0; 0; 24; 23; 250; 86; 234; 0; 0; 0; 0; 46; 63; 65; 186; 49; 16; 0; 0; 6;
      97; 0; 0; 0; 0; 0; 0; 11; 184; 0; 0; 0; 0; 0; 0; 0; 2; 63; 63; 0; 0; 1; 89; 245; 196; 50; 15; 0; 0; 1;
      89; 245; 196; 50; 111; 1; 0; 0; 0; 0; 192; 229; 210; 181; 104; 201; 248; 78; 0; 6; 0; 80; 134; 108; 0;
      0; 0; 0; 3; 171; 0; 0; 24; 18; 250; 86; 234; 0; 0; 0; 116; 152; 4; 68; 71; 197; 16; 0; 0; 6; 94; 0; 0;
      0; 0; 0; 0; 5; 146; 0; 0; 0; 0; 0; 0; 0; 1; 63; 63; 0; 0; 1; 89; 245; 196; 40; 233; 0; 0; 1; 89; 245;
      196; 40; 233; 1; 0; 0; 0; 0; 72; 21; 81; 253; 167; 21; 142; 42; 0; 6; 0; 80; 18; 206; 0; 0; 0; 0; 3;
      171; 0; 0; 24; 17; 250; 86; 234; 0; 0; 0; 119; 177; 4; 68; 71; 197; 16; 0; 0; 6; 94; 0; 0; 0; 0; 0; 0;
      29; 76; 0; 0; 0; 0; 0; 0; 0; 5; 63; 63; 0; 0; 1; 89; 245; 189; 197; 214; 0; 0; 1; 89; 245; 196; 238; 75;
      2; 0; 0; 0; 0];
   bytes [0; 10; 1; 164; 88; 108; 45; 226; 67; 123; 171; 206; 0; 0; 138; 3; 1; 0; 1; 148; 184; 179; 110; 162; 192;
      229; 211; 40; 0; 6; 215; 45; 0; 80; 0; 0; 0; 0; 7; 72; 0; 0; 22; 24; 0; 0; 88; 245; 250; 86; 234; 0;
      192; 229; 130; 47; 16; 0; 0; 3; 237; 0; 0; 0; 0; 0; 0; 0; 68; 0; 0; 0; 0; 0; 0; 0; 1; 123; 123; 0; 0; 1;
      89; 102; 146; 69; 149; 0; 0; 1; 89; 102; 146; 69; 149; 1; 0; 0; 0; 0; 68; 96; 107; 3; 192; 229; 163;
      248; 0; 6; 217; 193; 1; 187; 0; 0; 0; 0; 7; 72; 0; 0; 19; 24; 0; 0; 88; 245; 0; 0; 173; 59; 192; 229;
      130; 46; 16; 0; 0; 3; 237; 0; 0; 0; 0; 0; 0; 0; 80; 0; 0; 0; 0; 0; 0; 0; 2; 124; 124; 0; 0; 1; 89; 102;
      146; 67; 134; 0; 0; 1; 89; 102; 146; 70; 24; 1; 0; 0; 0; 0; 72; 21; 91; 9; 70; 180; 141; 250; 0; 6; 0;
      80; 232; 73; 0; 0; 0; 0; 3; 235; 0; 0; 24; 17; 0; 0; 173; 59; 0; 0; 88; 245; 70; 167; 151; 65; 16; 0; 0;
      6; 110; 0; 0; 0; 0; 0; 0; 5; 220; 0; 0; 0; 0; 0; 0; 0; 1; 63; 63; 0; 0; 1; 89; 102; 146; 70; 124; 0; 0;
      1; 89; 102; 146; 70; 124; 1; 0; 0; 0; 0; 72; 193; 67; 55; 192; 229; 210; 163; 0; 6; 196; 158; 1; 187; 0;
      0; 0; 0; 7; 72; 0; 0; 16; 24; 0; 0; 88; 245; 0; 0; 173; 59; 192; 229; 130; 40; 16; 0; 0; 3; 237; 0; 0;
      0; 0; 0; 0; 0; 40; 0; 0; 0; 0; 0; 0; 0; 1; 59; 59; 0; 0; 1; 89; 102; 146; 75; 102; 0; 0; 1; 89; 102;
      146; 75; 102; 1; 0; 0; 0; 0; 192; 229; 173; 95; 68; 108; 146; 39; 0; 6; 1; 187; 153; 236; 0; 0; 0; 0; 3;
      235; 0; 0; 24; 18; 0; 0; 173; 59; 0; 0; 88; 245; 72; 215; 224; 170; 16; 0; 0; 7; 72; 0; 0; 0; 0; 0; 0;
      5; 220; 0; 0; 0; 0; 0; 0; 0; 1; 63; 63; 0; 0; 1; 89; 102; 146; 72; 126; 0; 0; 1; 89; 102; 146; 72; 126;
      1; 0; 0; 0; 0]].

Definition recorded_ipfixTemplates : list (list byte) :=
  [bytes [0; 10; 0; 124; 88; 144; 213; 244; 0; 0; 0; 0; 0; 0; 138; 0; 0; 2; 0; 108; 1; 0; 0; 25; 0; 8; 0; 4; 0;
      12; 0; 4; 0; 5; 0; 1; 0; 4; 0; 1; 0; 7; 0; 2; 0; 11; 0; 2; 0; 32; 0; 2; 0; 10; 0; 4; 0; 58; 0; 2; 0; 9;
      0; 1; 0; 13; 0; 1; 0; 16; 0; 4; 0; 17; 0; 4; 0; 15; 0; 4; 0; 6; 0; 1; 0; 14; 0; 4; 0; 1; 0; 8; 0; 2; 0;
      8; 0; 52; 0; 1; 0; 53; 0; 1; 0; 152; 0; 8; 0; 153; 0; 8; 0; 136; 0; 1; 0; 243; 0; 2; 0; 245; 0; 2];
   bytes [0; 10; 0; 124; 88; 144; 213; 244; 0; 4; 0; 0; 0; 0; 170; 0; 0; 2; 0; 108; 1; 1; 0; 25; 0; 27; 0; 16; 0;
      28; 0; 16; 0; 5; 0; 1; 0; 4; 0; 1; 0; 7; 0; 2; 0; 11; 0; 2; 0; 139; 0; 2; 0; 10; 0; 4; 0; 58; 0; 2; 0;
      29; 0; 1; 0; 30; 0; 1; 0; 16; 0; 4; 0; 17; 0; 4; 0; 62; 0; 16; 0; 6; 0; 1; 0; 14; 0; 4; 0; 1; 0; 8; 0;
      2; 0; 8; 0; 52; 0; 1; 0; 53; 0; 1; 0; 152; 0; 8; 0; 153; 0; 8; 0; 136; 0; 1; 0; 243; 0; 2; 0; 245; 0; 2];
   bytes [0; 10; 0; 124; 88; 108; 45; 226; 20; 129; 175; 46; 0; 0; 135; 0; 0; 2; 0; 108; 1; 0; 0; 25; 0; 8; 0; 4;
      0; 12; 0; 4; 0; 5; 0; 1; 0; 4; 0; 1; 0; 7; 0; 2; 0; 11; 0; 2; 0; 32; 0; 2; 0; 10; 0; 4; 0; 58; 0; 2; 0;
      9; 0; 1; 0; 13; 0; 1; 0; 16; 0; 4; 0; 17; 0; 4; 0; 15; 0; 4; 0; 6; 0; 1; 0; 14; 0; 4; 0; 1; 0; 8; 0; 2;
      0; 8; 0; 52; 0; 1; 0; 53; 0; 1; 0; 152; 0; 8; 0; 153; 0; 8; 0; 136; 0; 1; 0; 243; 0; 2; 0; 245; 0; 2];
   bytes [0; 10; 0; 124; 88; 108; 45; 226; 0; 0; 0; 0; 0; 0; 135; 1; 0; 2; 0; 108; 1; 0; 0; 25; 0; 8; 0; 4; 0; 12;
      0; 4; 0; 5; 0; 1; 0; 4; 0; 1; 0; 7; 0; 2; 0; 11; 0; 2; 0; 32; 0; 2; 0; 10; 0; 4; 0; 58; 0; 2; 0; 9; 0;
      1; 0; 13; 0; 1; 0; 16; 0; 4; 0; 17; 0; 4; 0; 15; 0; 4; 0; 6; 0; 1; 0; 14; 0; 4; 0; 1; 0; 8; 0; 2; 0; 8;
      0; 52; 0; 1; 0; 53; 0; 1; 0; 152; 0; 8; 0; 153; 0; 8; 0; 136; 0; 1; 0; 243; 0; 2; 0; 245; 0; 2]].

Definition recorded_ipfixTemplatesOpt : list (list byte) :=
  [bytes [0; 10; 0; 52; 88; 144; 214; 78; 0; 31; 77; 35; 0; 0; 139; 0; 0; 3; 0; 36; 2; 0; 0; 6; 0; 1; 0; 144; 0;
      4; 0; 160; 0; 8; 0; 130; 0; 4; 0; 131; 0; 16; 0; 214; 0; 1; 0; 215; 0; 1; 0; 0];
   bytes [0; 10; 0; 52; 88; 108; 45; 226; 0; 13; 204; 100; 0; 0; 135; 0; 0; 3; 0; 36; 2; 0; 0; 6; 0; 1; 0; 144; 0;
      4; 0; 160; 0; 8; 0; 130; 0; 4; 0; 131; 0; 16; 0; 214; 0; 1; 0; 215; 0; 1; 0; 0];
   bytes [0; 10; 0; 52; 88; 108; 45; 226; 0; 35; 251; 25; 0; 0; 130; 0; 0; 3; 0; 36; 2; 0; 0; 6; 0; 1; 0; 144; 0;
      4; 0; 160; 0; 8; 0; 130; 0; 4; 0; 131; 0; 16; 0; 214; 0; 1; 0; 215; 0; 1; 0; 0]].

Definition recorded_sFlowDataSamples : list (list byte) :=
  [bytes [0; 0; 0; 5; 0; 0; 0; 1; 192; 229; 214; 0; 0; 0; 0; 0; 0; 0; 95; 169; 178; 163; 138; 199; 0; 0; 0; 1; 0;
      0; 0; 1; 0; 0; 0; 164; 0; 0; 0; 0; 0; 0; 2; 22; 0; 0; 7; 208; 0; 0; 0; 0; 0; 0; 0; 0; 0; 0; 2; 22; 0; 0;
      2; 26; 0; 0; 0; 2; 0; 0; 0; 1; 0; 0; 0; 100; 0; 0; 0; 1; 0; 0; 0; 86; 0; 0; 0; 4; 0; 0; 0; 82; 212; 4;
      255; 1; 24; 30; 222; 173; 122; 72; 204; 55; 129; 0; 0; 7; 8; 0; 69; 0; 0; 64; 227; 167; 0; 0; 4; 1; 62;
      195; 192; 229; 214; 23; 192; 16; 61; 69; 8; 0; 99; 58; 143; 68; 5; 129; 0; 0; 0; 0; 0; 0; 0; 0; 0; 0; 0;
      0; 0; 0; 0; 0; 0; 0; 0; 0; 0; 0; 0; 0; 0; 0; 0; 0; 0; 0; 0; 0; 0; 0; 0; 0; 0; 0; 0; 0; 3; 233; 0; 0; 0;
      16; 0; 0; 0; 7; 0; 0; 0; 0; 0; 0; 0; 0; 0; 0; 0; 0];
   bytes [0; 0; 0; 5; 0; 0; 0; 1; 192; 229; 214; 0; 0; 0; 0; 0; 0; 0; 71; 124; 178; 164; 59; 29; 0; 0; 0; 1; 0; 0;
      0; 1; 0; 0; 0; 160; 0; 0; 0; 0; 0; 0; 2; 49; 0; 0; 31; 64; 0; 0; 0; 0; 0; 0; 0; 0; 0; 0; 2; 49; 0; 0; 2;
      26; 0; 0; 0; 2; 0; 0; 0; 1; 0; 0; 0; 96; 0; 0; 0; 1; 0; 0; 0; 82; 0; 0; 0; 4; 0; 0; 0; 78; 212; 4; 255;
      1; 31; 94; 244; 204; 85; 222; 26; 146; 8; 0; 69; 0; 0; 64; 230; 71; 0; 0; 5; 1; 64; 5; 192; 229; 216;
      53; 192; 16; 54; 69; 8; 0; 166; 2; 75; 121; 6; 132; 0; 0; 0; 0; 0; 0; 0; 0; 0; 0; 0; 0; 0; 0; 0; 0; 0;
      0; 0; 0; 0; 0; 0; 0; 0; 0; 0; 0; 0; 0; 0; 0; 0; 0; 0; 0; 0; 0; 0; 0; 3; 233; 0; 0; 0; 16; 0; 0; 0; 0; 0;
      0; 0; 0; 0; 0; 0; 0; 0; 0; 0; 0];
   bytes [0; 0; 0; 5; 0; 0; 0; 1; 192; 229; 214; 0; 0; 0; 0; 0; 0; 0; 71; 121; 178; 164; 42; 131; 0; 0; 0; 1; 0;
      0; 0; 1; 0; 0; 0; 184; 0; 0; 0; 0; 0; 0; 2; 26; 0; 0; 7; 208; 0; 0; 0; 0; 0; 0; 0; 0; 0; 0; 1; 254; 0;
      0; 2; 26; 0; 0; 0; 2; 0; 0; 0; 1; 0; 0; 0; 120; 0; 0; 0; 1; 0; 0; 0; 107; 0; 0; 0; 4; 0; 0; 0; 103; 132;
      24; 136; 242; 233; 152; 212; 4; 255; 1; 29; 145; 8; 0; 69; 0; 0; 89; 18; 116; 0; 0; 62; 17; 26; 75; 192;
      229; 216; 141; 65; 55; 117; 43; 109; 166; 0; 53; 0; 69; 204; 217; 208; 196; 0; 0; 0; 1; 0; 0; 0; 0; 0;
      1; 10; 99; 111; 108; 99; 111; 110; 116; 101; 110; 116; 4; 98; 108; 111; 98; 4; 99; 111; 114; 101; 7;
      119; 105; 110; 100; 111; 119; 115; 3; 110; 101; 116; 0; 0; 1; 0; 1; 0; 0; 41; 16; 0; 0; 0; 128; 0; 0; 0;
      0; 0; 0; 3; 233; 0; 0; 0; 16; 0; 0; 0; 0; 0; 0; 0; 0; 0; 0; 0; 0; 0; 0; 0; 0];
   bytes [0; 0; 0; 5; 0; 0; 0; 1; 192; 229; 214; 0; 0; 0; 0; 0; 0; 0; 95; 168; 178; 163; 123; 248; 0; 0; 0; 1; 0;
      0; 0; 1; 0; 0; 0; 164; 0; 0; 0; 0; 0; 0; 2; 22; 0; 0; 7; 208; 0; 0; 0; 0; 0; 0; 0; 0; 0; 0; 2; 22; 0; 0;
      2; 40; 0; 0; 0; 2; 0; 0; 0; 1; 0; 0; 0; 100; 0; 0; 0; 1; 0; 0; 0; 86; 0; 0; 0; 4; 0; 0; 0; 82; 212; 4;
      255; 1; 24; 30; 222; 173; 122; 72; 204; 55; 129; 0; 0; 7; 8; 0; 69; 0; 0; 64; 134; 65; 0; 0; 10; 1; 28;
      101; 192; 229; 214; 23; 46; 22; 73; 4; 8; 0; 112; 59; 56; 64; 79; 132; 0; 0; 0; 0; 0; 0; 0; 0; 0; 0; 0;
      0; 0; 0; 0; 0; 0; 0; 0; 0; 0; 0; 0; 0; 0; 0; 0; 0; 0; 0; 0; 0; 0; 0; 0; 0; 0; 0; 0; 0; 3; 233; 0; 0; 0;
      16; 0; 0; 0; 7; 0; 0; 0; 0; 0; 0; 0; 0; 0; 0; 0; 0]].

Definition recorded : Samples :=
  mkSamples recorded_ipfixDataSamples recorded_ipfixTemplates recorded_ipfixTemplatesOpt
    recorded_sFlowDataSamples.

(** The first source of the tool. *)
Definition recorded_source : list byte := source_ip 1.

(** One worker that receives the templates, the option templates and the data. *)
Definition recorded_ipfix : Collector (MC:=MemCache TemplateRecord) * res () :=
  ipfixWorker InfoModel (fun _ => 0) false 500
    (map (mkUDPMsg recorded_source)
       (recorded_ipfixTemplates ++ recorded_ipfixTemplatesOpt ++ recorded_ipfixDataSamples))
    (mkCollector (GetCache None) [] 0 0 [] [] []).

Definition recorded_sflow : SFCollector * res () :=
  sFlowWorker [] (fun _ => 0) 500 (map (mkSFUDPMsg recorded_source) recorded_sFlowDataSamples)
    (mkSFCollector 0 0 [] []).

(** The text is JSON, and the number of its data sets. *)
Definition text_sets (text : string) : option nat :=
  match parse_json text with
  | Some (JObj ms) =>
      match List.find (fun e => String.eqb e.1 "DataSets") ms with
      | Some (_, JArr l) => Some (length l)
      | _ => None
      end
  | _ => None
  end.

(** All recorded datagrams fit a packet of the tool. *)
Lemma recorded_fit typ : Forall (fun data => len data <= 1472) (samples_of recorded typ).
Proof. apply (bool_decide_unpack _). destruct typ; vm_compute; exact I. Qed.

(** Recorded traffic.  Fed the eleven recorded IPFIX datagrams of the stress tool, a
    worker decodes all of them without an error and publishes one JSON text for each of the
    four with data, with five, two, five and five flow records; fed the four recorded sFlow
    datagrams, the sFlow worker publishes four JSON texts. *)
Theorem recorded_traffic :
  recorded_ipfix.2 = Ok tt /\ co_DecodedCount recorded_ipfix.1 = 11 /\ co_log recorded_ipfix.1 = [] /\
  map text_sets (co_MQCh recorded_ipfix.1) = [Some 5; Some 2; Some 5; Some 5]%nat /\
  recorded_sflow.2 = Ok tt /\ sc_DecodedCount recorded_sflow.1 = 4 /\ sc_log recorded_sflow.1 = [] /\
  Forall (fun text => is_Some (parse_json text)) (sc_MQCh recorded_sflow.1) /\ len (sc_MQCh recorded_sflow.1) = 4.
Proof.
  split_and!; try (vm_compute; reflexivity).
  apply (bool_decide_unpack _). vm_compute. exact I.
Qed.
