(* ===== verification/Consumers.v ===== *)
(** The consumers of the IPFIX topic, [src/consumers/clickhouse/main.go] and
    [src/consumers/cli/main.go]: they read back the JSON the collector publishes, store a
    row per record in ClickHouse, or print the records with a given field.

    Kafka, the database and the JSON reader are parameters, the latter with the law of
    Stats.v.  A value of a field is an [interface{}], kept as the JSON value: numbers are
    [float64] there, whose conversion to an unsigned integer is a parameter that is exact
    on the integers a [float64] represents exactly. *)

From Stdlib Require Import Strings.Ascii.
From S2P Require Import Prelude GoNet Reader Interpret InfoModel TemplateCache IpfixDecoder IpfixTypes Json GoStrings Marshal MarshalIpfix Stats.

Local Open Scope string_scope.
Local Open Scope list_scope.
Open Scope Z_scope.

(** ** The messages *)

(** A slice that [json.Unmarshal] decodes into: the cells of its array and how many of them
    are in use.  A later message is decoded over what the cells hold, also over those past
    the length; cells that no message has used yet are zero. *)
Record gslice (A : Type) : Type := mkSlice { cells : list A; sl_len : nat }.
Arguments mkSlice {A}.
Arguments cells {A}.
Arguments sl_len {A}.

Definition nil_slice {A} : gslice A := mkSlice [] 0.
Definition elements {A} (s : gslice A) : list A := take (sl_len s) (cells s).

Record dataField : Type := mkDataField { df_I : Z; df_V : json }.

Record ipfix : Type := mkIpfix { AgentID : string; DataSets : gslice (gslice dataField) }.

Definition zeroDataField : dataField := mkDataField 0 JNull.
Definition zeroIpfix : ipfix := mkIpfix "" nil_slice.

(** The records of a message. *)
Definition records (m : ipfix) : list (list dataField) := map elements (elements (DataSets m)).

Definition decode_string (j : json) (old : string) : string * bool :=
  match j with JStr s => (s, true) | JNull => (old, true) | _ => (old, false) end.

(** A JSON array into a slice: an empty one, like null, makes a new slice. *)
Fixpoint decode_cells {A} (zero : A) (decode : json -> A -> A * bool) (l : list json) (old : list A) :
    list A * bool :=
  match l with
  | [] => (old, true)
  | j :: l' =>
      let '(a, ok) := decode j (hd zero old) in
      let '(c, ok') := decode_cells zero decode l' (tl old) in
      (a :: c, ok && ok')
  end.

Definition decode_slice {A} (zero : A) (decode : json -> A -> A * bool) (j : json) (old : gslice A) :
    gslice A * bool :=
  match j with
  | JArr [] | JNull => (nil_slice, true)
  | JArr l => let '(c, ok) := decode_cells zero decode l (cells old) in (mkSlice c (length l), ok)
  | _ => (old, false)
  end.

Definition assign_dataField (k : string) (j : json) (f : dataField) : dataField * bool :=
  match find_field (fun x => x) ["I"; "V"] k with
  | Some "I" => let '(z, ok) := decode_int64 j (df_I f) in (mkDataField z (df_V f), ok)
  | Some _ => (mkDataField (df_I f) j, true)
  | None => (f, true)
  end.

Definition decode_dataField : json -> dataField -> dataField * bool := decode_object assign_dataField.

Definition decode_record : json -> gslice dataField -> gslice dataField * bool :=
  decode_slice zeroDataField decode_dataField.

Definition assign_ipfix (k : string) (j : json) (m : ipfix) : ipfix * bool :=
  match find_field (fun x => x) ["AgentID"; "DataSets"] k with
  | Some "AgentID" => let '(s, ok) := decode_string j (AgentID m) in (mkIpfix s (DataSets m), ok)
  | Some _ => let '(l, ok) := decode_slice nil_slice decode_record j (DataSets m) in (mkIpfix (AgentID m) l, ok)
  | None => (m, true)
  end.

Definition decode_ipfix : json -> ipfix -> ipfix * bool := decode_object assign_ipfix.

Section consumers.
Context (json_parse : string -> option json) (float_uint : json -> Z).

(** [json.Unmarshal(msg.Value, &objmap)]: what it leaves in [objmap], and whether it
    succeeded.  A text that is not JSON leaves [objmap] alone; a value of the wrong type is
    skipped. *)
Definition Unmarshal_ipfix (text : string) (objmap : ipfix) : ipfix * bool :=
  match json_parse text with
  | None => (objmap, false)
  | Some j => decode_ipfix j objmap
  end.

(** ** ClickHouse *)

(** A row: the device and the fields of [dIPFIXSample]. *)
Record Row : Type := mkRow {
  device : string; src : string; dst : string; srcASN : Z; dstASN : Z; proto : Z
}.

(** [dd.V.(string)] and [dd.V.(float64)]; a failed type assertion panics. *)
Definition assert_string (v : json) : res string := match v with JStr s => Ok s | _ => Panic end.
Definition assert_float (v : json) : res Z :=
  match v with JNum _ | JReal _ => Ok (float_uint v) | _ => Panic end.

(** The switch on the field's id. *)
Definition ingest_field (s : Row) (dd : dataField) : res Row :=
  let v := df_V dd in
  match df_I dd with
  | 8 | 27 =>
      match assert_string v with
      | Ok t => Ok (mkRow (device s) t (dst s) (srcASN s) (dstASN s) (proto s))
      | _ => Panic
      end
  | 12 | 28 =>
      match assert_string v with
      | Ok t => Ok (mkRow (device s) (src s) t (srcASN s) (dstASN s) (proto s))
      | _ => Panic
      end
  | 16 =>
      match assert_float v with
      | Ok z => Ok (mkRow (device s) (src s) (dst s) (uint64 z) (dstASN s) (proto s))
      | _ => Panic
      end
  | 17 =>
      match assert_float v with
      | Ok z => Ok (mkRow (device s) (src s) (dst s) (srcASN s) (uint64 z) (proto s))
      | _ => Panic
      end
  | 4 =>
      match assert_float v with
      | Ok z => Ok (mkRow (device s) (src s) (dst s) (srcASN s) (dstASN s) (uint8 z))
      | _ => Panic
      end
  | _ => Ok s
  end.

Fixpoint ingest_record (data : list dataField) (s : Row) : res Row :=
  match data with
  | [] => Ok s
  | dd :: data' => match ingest_field s dd with Ok s' => ingest_record data' s' | o => o end
  end.

(** The rows given to [stmt.Exec] for one message. *)
Fixpoint ingest_sample (agent : string) (sets : list (list dataField)) : res (list Row) :=
  match sets with
  | [] => Ok []
  | data :: sets' =>
      match ingest_record data (mkRow agent "" "" 0 0 0) with
      | Ok row =>
          match ingest_sample agent sets' with Ok rows => Ok (row :: rows) | o => o end
      | _ => Panic
      end
  end.

(** One message of [ingestClickHouse]: a transaction takes 10000 of them and is then given
    to a goroutine that commits it. *)
Record Ingest : Type := mkIngest { in_count : Z; in_open : list Row; in_commits : list (list Row) }.

Definition ingestClickHouse (sample : ipfix) (st : Ingest) : res Ingest :=
  match ingest_sample (AgentID sample) (records sample) with
  | Ok rows =>
      let open := in_open st ++ rows in
      if in_count st + 1 <? 10000 then Ok (mkIngest (in_count st + 1) open (in_commits st))
      else Ok (mkIngest 0 [] (in_commits st ++ [open]))
  | _ => Panic
  end.

(** ** The command line *)

(** [dd.V == opts.Value]: an [interface{}] against a string. *)
Definition equals_string (v : json) (s : string) : bool :=
  match v with JStr t => String.eqb t s | _ => false end.

(** The records printed for a message, once per matching field. *)
Definition cli_print (Id : Z) (Value : string) (m : ipfix) : list (list dataField) :=
  concat (map (fun data =>
    map (fun _ => data) (List.filter (fun dd => (df_I dd =? Id) && equals_string (df_V dd) Value) data))
    (records m)).

End consumers.

(** ** Reading back what the collector publishes *)

Definition to_dataField (f : DecodedField) : dataField := mkDataField (df_ID f) (json_value (df_Value f)).

(** The sample holds the message, whatever its slices held before. *)
Definition holds (sample : ipfix) (m : Message) : Prop :=
  AgentID sample = msg_AgentID m /\ records sample = map (map to_dataField) (msg_DataSets m).

Lemma decode_dataField_ok f old :
  int64_range (df_ID f) -> decode_dataField (json_field f) old = (to_dataField f, true).
Proof.
  intros H. assert (Hi : in_int64 (df_ID f) = true) by (unfold in_int64, int64_range in *; apply andb_true_iff; lia).
  unfold decode_dataField, json_field. cbn [decode_object app decode_members].
  unfold assign_dataField at 1. change (find_field (fun x => x) ["I"; "V"] "I") with (Some "I").
  rewrite decode_int64_num, Hi. cbn iota beta.
  by destruct (df_EnterpriseNo f =? 0).
Qed.

(** An array decoded over anything, when its elements are. *)
Lemma decode_slice_map {A B X} (zero : A) (decode : json -> A -> A * bool) (view : A -> B)
    (g : X -> json) (h : X -> B) (l : list X) old :
  Forall (fun x => forall o, view (decode (g x) o).1 = h x /\ (decode (g x) o).2 = true) l ->
  map view (elements (decode_slice zero decode (JArr (map g l)) old).1) = map h l /\
  (decode_slice zero decode (JArr (map g l)) old).2 = true.
Proof.
  intros H.
  assert (forall o, map view (take (length l) (decode_cells zero decode (map g l) o).1) = map h l /\
    (decode_cells zero decode (map g l) o).2 = true) as Hc.
  { induction H as [|x l Hx _ IH]; intros o; [done|]. cbn [map decode_cells].
    specialize (Hx (hd zero o)). specialize (IH (tl o)).
    destruct (decode (g x) _) as [a ok], (decode_cells _ _ _ (tl o)) as [c ok'].
    cbn in *. destruct Hx as [-> ->], IH as [-> ->]. done. }
  specialize (Hc (cells old)). destruct l as [|x l]; [done|]. cbn [map decode_slice] in Hc |- *.
  destruct (decode_cells _ _ _ _) as [c ok]. unfold elements. cbn [cells sl_len fst snd] in *.
  cbn [length]. by rewrite length_map.
Qed.

Lemma decode_ipfix_ok m old : marshalable_message m ->
  holds (decode_ipfix (json_message m) old).1 m /\ (decode_ipfix (json_message m) old).2 = true.
Proof.
  intros (_ & _ & Hd). unfold decode_ipfix, json_message. cbn [decode_object decode_members].
  destruct (decode_slice_map nil_slice decode_record elements (fun ds => JArr (map json_field ds))
    (map to_dataField) (msg_DataSets m) (DataSets old)) as [E1 E2].
  { eapply Forall_impl; [exact Hd|]. intros ds Hds o. rewrite <- (map_id (elements _)).
    apply (decode_slice_map zeroDataField decode_dataField (fun x => x) json_field to_dataField).
    eapply Forall_impl; [exact Hds|]. intros f (Hf & _) o'. by rewrite decode_dataField_ok. }
  unfold assign_ipfix. change (find_field (fun x => x) ["AgentID"; "DataSets"] "AgentID") with (Some "AgentID").
  change (find_field (fun x => x) ["AgentID"; "DataSets"] "Header") with (@None string).
  change (find_field (fun x => x) ["AgentID"; "DataSets"] "DataSets") with (Some "DataSets").
  cbn iota beta zeta. cbn [decode_string AgentID DataSets].
  destruct (decode_slice _ _ _ _) as [l ok]. cbn [fst snd] in *. subst ok. split; [|done]. by split.
Qed.

(** What the collector publishes for a message is read back over any earlier one. *)
Lemma Unmarshal_published (json_parse : string -> option json) m old :
  reads_back json_parse -> marshalable_message m -> utf8_message m = true ->
  exists sample, Unmarshal_ipfix json_parse (message_text m) old = (sample, true) /\ holds sample m.
Proof.
  intros Hparse Hm Hu. unfold Unmarshal_ipfix.
  rewrite message_text_print, Hparse by (done || by apply json_message_safe || by apply utf8_json_message).
  destruct (decode_ipfix_ok m old Hm) as [H1 H2]. destruct (decode_ipfix _ _) as [sample ok].
  cbn in *. subst. eauto.
Qed.

(** ** Rows *)

(** The fields the consumer reads, and the types of their elements. *)
Definition consumer_entry_ok (e : ElementKey * InfoElementEntry) : bool :=
  match FieldID e.2, Type_ e.2 with
  | 8, Ipv4Address | 27, Ipv6Address | 12, Ipv4Address | 28, Ipv6Address => true
  | 16, Uint32 | 17, Uint32 | 4, Uint8 => true
  | (8 | 27 | 12 | 28 | 16 | 17 | 4), _ => false
  | _, _ => true
  end.

Lemma InfoModel_consumer k m : InfoModel !! k = Some m -> consumer_entry_ok (k, m) = true.
Proof.
  intros H. apply elem_of_list_to_map_2 in H. apply list_elem_of_In in H. revert H.
  apply (proj1 (forallb_forall consumer_entry_ok _)). reflexivity.
Qed.

(** The text of a value that JSON writes as a string, and the number of an unsigned one. *)
Definition text_of (v : Value) : string := match json_value v with JStr s => s | _ => "" end.
Definition num_of (v : Value) : Z := match v with VUint8 z | VUint32 z => z | _ => 0 end.

(** What a field gives to a column that reads the ids [i] and [j]. *)
Definition text_at (i j : Z) (f : DecodedField) : option string :=
  if (df_ID f =? i) || (df_ID f =? j) then Some (text_of (df_Value f)) else None.
Definition num_at (i : Z) (f : DecodedField) : option Z :=
  if df_ID f =? i then Some (num_of (df_Value f)) else None.

(** The last field of a record that gives something. *)
Definition last_of {A} (sel : DecodedField -> option A) (d : A) (ds : list DecodedField) : A :=
  default d (last (omap sel ds)).

(** The row of a record. *)
Definition row_of (agent : string) (ds : list DecodedField) : Row :=
  mkRow agent (last_of (text_at 8 27) "" ds) (last_of (text_at 12 28) "" ds)
    (last_of (num_at 16) 0 ds) (last_of (num_at 17) 0 ds) (last_of (num_at 4) 0 ds).

(** An AS number or a protocol that was exported shorter than its type is not a number in
    the JSON text. *)
Definition field_ok (f : DecodedField) : bool :=
  match df_ID f, df_Value f with
  | 16, VBytes _ | 17, VBytes _ | 4, VBytes _ => false
  | _, _ => true
  end.

Lemma last_of_cons {A} (sel : DecodedField -> option A) d f ds :
  last_of sel d (f :: ds) = last_of sel (default d (sel f)) ds.
Proof.
  unfold last_of. cbn. destruct (sel f) as [a|]; [|done]. rewrite last_cons. by destruct (last _).
Qed.

Section rows.
Context (float_uint : json -> Z).
Hypothesis float_exact : forall z, 0 <= z < 2 ^ 53 -> float_uint (JNum z) = z.

Lemma assert_float_typed t v :
  has_type t v -> t = InfoModel.Uint32 \/ t = InfoModel.Uint8 ->
  match v with
  | VBytes _ => assert_float float_uint (json_value v) = Panic
  | _ => assert_float float_uint (json_value v) = Ok (num_of v) /\ 0 <= num_of v < 2 ^ 32
         /\ (t = InfoModel.Uint8 -> num_of v < 2 ^ 8)
  end.
Proof using float_exact.
  intros [Hr Ht] [-> | ->]; destruct v; try done; cbn in *; rewrite float_exact by lia; split_and!; try done; lia.
Qed.

Lemma assert_string_typed t v :
  has_type t v -> t = Ipv4Address \/ t = Ipv6Address -> assert_string (json_value v) = Ok (text_of v).
Proof. intros [_ Ht] [-> | ->]; by destruct v. Qed.

Lemma ingest_field_typed s f :
  field_typed InfoModel f ->
  ingest_field float_uint s (to_dataField f) =
  if field_ok f then
    Ok (mkRow (device s) (default (src s) (text_at 8 27 f)) (default (dst s) (text_at 12 28 f))
          (default (srcASN s) (num_at 16 f)) (default (dstASN s) (num_at 17 f)) (default (proto s) (num_at 4 f)))
  else Panic.
Proof using float_exact.
  intros (k & m & Hm & Hid & Ht). apply InfoModel_consumer in Hm. unfold consumer_entry_ok in Hm. cbn [snd] in Hm.
  rewrite <- Hid in Hm. unfold ingest_field, to_dataField, field_ok, text_at, num_at. cbn [df_I df_V].
  destruct f as [id v e]. cbn [df_ID df_Value] in *. clear Hid k e. destruct s as [dev sr ds sa da pr].
  pose proof (assert_string_typed (Type_ m) v Ht) as Hs. pose proof (assert_float_typed (Type_ m) v Ht) as Hf.
  destruct id as [|p|p]; [done| |done].
  do 5 try (destruct p as [p|p|]; cbn -[wrapU] in Hm |- *; try done);
    (destruct (Type_ m); try discriminate Hm);
    try (by rewrite Hs by auto);
    (specialize (Hf ltac:(auto)); destruct v; try (by rewrite Hf);
     destruct Hf as (-> & Hn & Hb); try specialize (Hb eq_refl); by rewrite wrapU_small by lia).
Qed.
Lemma ingest_record_typed ds s :
  Forall (field_typed InfoModel) ds ->
  ingest_record float_uint (map to_dataField ds) s =
  if forallb field_ok ds then
    Ok (mkRow (device s) (last_of (text_at 8 27) (src s) ds) (last_of (text_at 12 28) (dst s) ds)
          (last_of (num_at 16) (srcASN s) ds) (last_of (num_at 17) (dstASN s) ds) (last_of (num_at 4) (proto s) ds))
  else Panic.
Proof using float_exact.
  intros H. revert s. induction H as [|f ds Hf _ IH]; intros s; [by destruct s|].
  cbn [map ingest_record forallb]. rewrite ingest_field_typed by done. destruct (field_ok f); [|done].
  cbn [andb]. rewrite IH, !last_of_cons. done.
Qed.

Lemma ingest_sample_typed agent dss :
  Forall (Forall (field_typed InfoModel)) dss ->
  ingest_sample float_uint agent (map (map to_dataField) dss) =
  if forallb (forallb field_ok) dss then Ok (map (row_of agent) dss) else Panic.
Proof using float_exact.
  intros H. induction H as [|ds dss Hd _ IH]; [done|]. cbn [map ingest_sample forallb].
  rewrite ingest_record_typed by done. destruct (forallb field_ok ds); [|done]. cbn [andb]. rewrite IH.
  by destruct (forallb _ dss).
Qed.
End rows.

(** The message [Decode] returned, with or without an error: the collector publishes both. *)
Definition returned {S} (out : S * res Message) (m : Message) : Prop :=
  match out.2 with Ok m' | Err (Some m') _ => m' = m | _ => False end.

(** C9: From a datagram to the database.  Take a message that the IPFIX [Decode] returned
    for some datagram and that has a JSON text: no booleans among its values, no unsigned
    64-bit value of 2^63 or more, and only strings that need no escaping and are valid
    UTF-8.  The collector publishes it, the consumer reads it, and the rows it stores are
    those of the records: the exporter's address, the last source and destination address
    of either family, the last AS numbers and protocol, with the defaults where a record
    has none.  If any record holds an AS number or a protocol exported shorter than its
    type, the consumer panics instead. *)
Theorem clickhouse_rows {MC} `{!TemplateStore TemplateRecord MC} (raddr : list byte) (unix_now : nat -> Z)
    (fuel : nat) (datagram : list byte) (mem : MC) (q : list RPCRequest) (clock : nat) (m : Message)
    (json_parse : string -> option json) (Hparse : reads_back json_parse)
    (float_uint : json -> Z) (Hfloat : forall z, 0 <= z < 2 ^ 53 -> float_uint (JNum z) = z) :
  returned (Decode InfoModel raddr unix_now fuel (NewDecoder datagram mem q clock)) m ->
  marshalable_message m -> utf8_message m = true ->
  exists text sample,
    (JSONMarshal m "").2 = Ok text /\ Unmarshal_ipfix json_parse text zeroIpfix = (sample, true) /\
    ingest_sample float_uint (AgentID sample) (records sample) =
      if forallb (forallb field_ok) (msg_DataSets m)
      then Ok (map (row_of (msg_AgentID m)) (msg_DataSets m)) else Panic.
Proof.
  intros Hd Hm Hu. destruct (Unmarshal_published json_parse m zeroIpfix Hparse Hm Hu) as (sample & Hs & Ha & Hr).
  exists (message_text m), sample.
  assert (Ht : Forall (Forall (field_typed InfoModel)) (msg_DataSets m)).
  { pose proof (Decode_typed_lemma InfoModel raddr unix_now fuel datagram mem q clock) as H.
    unfold returned in Hd. by destruct (Decode _ _ _ _ _).2 as [|[]| |]; subst. }
  split_and!.
  - rewrite JSONMarshal_run, last_err_marshalable; [done|]. destruct Hm as (_ & _ & Hf).
    unfold all_fields. by apply Forall_concat.
  - exact Hs.
  - rewrite Ha, Hr. by apply ingest_sample_typed.
Qed.

(** A template of the four fields, the AS number with [n] bytes, and one record. *)
Definition consumer_datagram (n : Z) (asn : list Z) : list byte :=
  bytes ([0; 10; 0; 53 + n; 88; 108; 45; 226; 0; 0; 0; 1; 0; 0; 0; 7;
          0; 2; 0; 24; 1; 0; 0; 4; 0; 8; 0; 4; 0; 12; 0; 4; 0; 16; 0; n; 0; 4; 0; 1;
          1; 0; 0; 13 + n; 192; 0; 2; 1; 198; 51; 100; 2] ++ asn ++ [6]).

Definition decode_message (d : list byte) : Message :=
  match (Decode InfoModel (bytes [192; 0; 2; 9]) (fun _ => 0) 60 (NewDecoder d (GetCache None) [] 0)).2 with
  | Ok m => m
  | _ => zeroMessage
  end.

Definition consumer_msg4 : Message := Eval vm_compute in decode_message (consumer_datagram 4 [0; 0; 253; 232]).
Definition consumer_msg2 : Message := Eval vm_compute in decode_message (consumer_datagram 2 [253; 232]).

Definition float_small (j : json) : Z := match j with JNum z => z | _ => 0 end.

Lemma marshalable_consumer_msg4 : marshalable_message consumer_msg4.
Proof.
  split; [plain_lit|]. split.
  - repeat apply Forall_cons_2; try apply Forall_nil_2; cbn; unfold int64_range; lia.
  - repeat apply Forall_cons_2; try apply Forall_nil_2; unfold marshalable_field; cbn; unfold int64_range; lia.
Qed.

Lemma clickhouse_rows_witness :
  exists text sample,
    (JSONMarshal consumer_msg4 "").2 = Ok text /\ Unmarshal_ipfix parse_json text zeroIpfix = (sample, true) /\
    ingest_sample float_small (AgentID sample) (records sample) =
      Ok [mkRow "192.0.2.9" "192.0.2.1" "198.51.100.2" 65000 0 6].
Proof.
  destruct (clickhouse_rows (bytes [192; 0; 2; 9]) (fun _ => 0) 60 (consumer_datagram 4 [0; 0; 253; 232])
    (GetCache None) [] 0 consumer_msg4 parse_json parse_json_reads_back float_small (fun z _ => eq_refl))
    as (text & sample & H1 & H2 & H3).
  - vm_compute. reflexivity.
  - exact marshalable_consumer_msg4.
  - reflexivity.
  - exists text, sample. split; [exact H1|]. split; [exact H2|]. rewrite H3. reflexivity.
Defined.

(** The same record with a two-byte AS number. *)
Example consumer_msg2_panics : forallb (forallb field_ok) (msg_DataSets consumer_msg2) = false.
Proof. reflexivity. Qed.
