(* ===== verification/ConsumerRuns.v ===== *)
(** The two consumers at work, [main] of [src/consumers/clickhouse/main.go] and of
    [src/consumers/cli/main.go]: the flags, the goroutines that read the topic, the channel
    and the goroutines that write to ClickHouse.

    A goroutine of the topic sees its own sequence of messages (the Kafka client is outside
    the repository) and marks each when it is done with it.  The ClickHouse consumer is a
    labelled transition system whose labels say which goroutine moves; any call of the
    database may end the process ([log.Fatal]). *)

From Stdlib Require Import Strings.Ascii.
From S2P Require Import Prelude GoNet Reader Interpret InfoModel TemplateCache IpfixDecoder IpfixTypes Json GoStrings Flags Marshal MarshalIpfix Stats Consumers Totals.

Local Open Scope string_scope.
Local Open Scope list_scope.
Open Scope Z_scope.

(** ** Flags *)

Module Cli.

Record options : Type := mkOptions {
  Broker : string; Topic : string; Id : Z; Value : string; Debug : bool; Workers : Z
}.

Definition flags : list (string * setter options) :=
  [("broker", StringVar (fun v '(mkOptions a b c d e f) => mkOptions v b c d e f));
   ("topic", StringVar (fun v '(mkOptions a b c d e f) => mkOptions a v c d e f));
   ("value", StringVar (fun v '(mkOptions a b c d e f) => mkOptions a b c v e f));
   ("debug", BoolVar (fun v '(mkOptions a b c d e f) => mkOptions a b c d v f));
   ("id", IntVar (fun v '(mkOptions a b c d e f) => mkOptions a b v d e f));
   ("workers", IntVar (fun v '(mkOptions a b c d e f) => mkOptions a b c d e v))].

(** [init]: the defaults are those of the flags. *)
Definition init (args : list string) : option options :=
  ParseTable flags args (mkOptions "127.0.0.1:9092" "vflow.ipfix" 12 "8.8.8.8" false 16).

End Cli.

Module ClickHouse.

Record options : Type := mkOptions { Broker : string; Topic : string; Debug : bool; Workers : Z }.

Definition flags : list (string * setter options) :=
  [("broker", StringVar (fun v '(mkOptions a b c d) => mkOptions v b c d));
   ("topic", StringVar (fun v '(mkOptions a b c d) => mkOptions a v c d));
   ("debug", BoolVar (fun v '(mkOptions a b c d) => mkOptions a b v d));
   ("workers", IntVar (fun v '(mkOptions a b c d) => mkOptions a b c v))].

Definition init (args : list string) : option options :=
  ParseTable flags args (mkOptions "127.0.0.1:9092" "vflow.ipfix" false 16).

End ClickHouse.

(** ** The loop over the topic *)

(** [pCount], [count] and the rates that were logged. *)
Record Counter : Type := mkCounter { pCount : Z; count : Z; rates : list Z }.

Definition start_counter : Counter := mkCounter 0 0 [].

(** [case <-tik]. *)
Definition tick (debug : bool) (c : Counter) : Counter :=
  mkCounter (count c) (count c)
    (if debug then rates c ++ [Z.quot (int64 (count c - pCount c)) 10] else rates c).

(** [count++]. *)
Definition counted (c : Counter) : Counter := mkCounter (pCount c) (int64 (count c + 1)) (rates c).

(** What [select] chooses: the ticker, a message, or the closed channel. *)
Inductive select_case : Type := Tik | Msg (text : string) | Closed.

Section loops.
Context (json_parse : string -> option json).

(** *** The command line *)

(** A goroutine of the command line: [objmap] lives as long as the goroutine. *)
Record CliWorker : Type := mkCliWorker {
  cw_objmap : ipfix; cw_counter : Counter; cw_printed : list (list dataField); cw_marked : list string
}.

Definition cli_start : CliWorker := mkCliWorker zeroIpfix start_counter [] [].

Definition cli_select (o : Cli.options) (c : select_case) (w : CliWorker) : CliWorker :=
  match c with
  | Tik => mkCliWorker (cw_objmap w) (tick (Cli.Debug o) (cw_counter w)) (cw_printed w) (cw_marked w)
  | Msg text =>
      let '(objmap, ok) := Unmarshal_ipfix json_parse text (cw_objmap w) in
      let printed := if ok then cli_print (Cli.Id o) (Cli.Value o) objmap else [] in
      mkCliWorker objmap (counted (cw_counter w)) (cw_printed w ++ printed) (cw_marked w ++ [text])
  | Closed => w
  end.

Definition cli_run (o : Cli.options) (cs : list select_case) (w : CliWorker) : CliWorker :=
  fold_left (fun w c => cli_select o c w) cs w.

(** [main] of both consumers: [wg.Add] panics for a negative number of workers, and a
    goroutine whose Kafka consumer cannot be made panics the process. *)
Definition start_workers {A} (NewConsumer : nat -> bool) (Workers : Z) (start : nat -> A) : res (list A) :=
  if Workers <? 0 then Panic
  else
    let ids := seq 0 (Z.to_nat Workers) in
    if forallb NewConsumer ids then Ok (map start ids) else Panic.

Definition cli_main (NewConsumer : nat -> bool) (o : Cli.options) : res (list CliWorker) :=
  start_workers NewConsumer (Cli.Workers o) (fun _ => cli_start).

(** *** ClickHouse *)

Context (float_uint : json -> Z).

(** A goroutine that reads the topic: the messages still to come, the one it is sending,
    those it has marked. *)
Record TopicWorker : Type := mkTopicWorker {
  tw_todo : list string; tw_hand : option (string * ipfix); tw_marked : list string; tw_counter : Counter
}.

(** How the process ended. *)
Inductive Ending : Type := Fatal | Panicked.

Record Pipeline : Type := mkPipeline {
  pl_workers : list TopicWorker;
  pl_ch : list ipfix;
  pl_ingest : list Ingest;
  pl_committed : list (list Row);
  pl_end : option Ending
}.

Definition ch_cap : nat := Z.to_nat 10000.

Inductive pipe_label : Type :=
| Ticks (w : nat)
| Takes (w : nat)
| Sends (w : nat)
| Ingests (i : nat)
| Commits (i k : nat)
| DatabaseFails.

Definition with_worker (w : nat) (tw : TopicWorker) (p : Pipeline) : Pipeline :=
  mkPipeline (<[w := tw]> (pl_workers p)) (pl_ch p) (pl_ingest p) (pl_committed p) (pl_end p).

(** The message is marked and counted. *)
Definition mark (text : string) (tw : TopicWorker) (todo : list string) : TopicWorker :=
  mkTopicWorker todo None (tw_marked tw ++ [text]) (counted (tw_counter tw)).

Definition take_message (w : nat) (tw : TopicWorker) (p : Pipeline) : option Pipeline :=
  match tw_hand tw, tw_todo tw with
  | None, text :: todo =>
      let '(objmap, ok) := Unmarshal_ipfix json_parse text zeroIpfix in
      Some (with_worker w
        (if ok then mkTopicWorker todo (Some (text, objmap)) (tw_marked tw) (tw_counter tw)
         else mark text tw todo) p)
  | _, _ => None
  end.

(** [ch <- objmap] waits while the channel is full. *)
Definition send_message (w : nat) (tw : TopicWorker) (p : Pipeline) : option Pipeline :=
  match tw_hand tw with
  | Some (text, objmap) =>
      if (length (pl_ch p) <? ch_cap)%nat then
        Some (mkPipeline (<[w := mark text tw (tw_todo tw)]> (pl_workers p)) (pl_ch p ++ [objmap])
                (pl_ingest p) (pl_committed p) (pl_end p))
      else None
  | None => None
  end.

(** [sample = <-ch] of an ingesting goroutine and the rows of that message. *)
Definition ingest_message (i : nat) (st : Ingest) (p : Pipeline) : option Pipeline :=
  match pl_ch p with
  | sample :: ch' =>
      match ingestClickHouse float_uint sample st with
      | Ok st' => Some (mkPipeline (pl_workers p) ch' (<[i := st']> (pl_ingest p)) (pl_committed p) (pl_end p))
      | _ => Some (mkPipeline (pl_workers p) ch' (pl_ingest p) (pl_committed p) (Some Panicked))
      end
  | [] => None
  end.

(** One of the goroutines that commit a finished transaction. *)
Definition commit (i k : nat) (st : Ingest) (p : Pipeline) : option Pipeline :=
  rows ← in_commits st !! k;
  Some (mkPipeline (pl_workers p) (pl_ch p)
    (<[i := mkIngest (in_count st) (in_open st) (delete k (in_commits st))]> (pl_ingest p))
    (pl_committed p ++ [rows]) (pl_end p)).

Definition pipe_step (debug : bool) (l : pipe_label) (p : Pipeline) : option Pipeline :=
  match pl_end p with
  | Some _ => None
  | None =>
      match l with
      | Ticks w => tw ← pl_workers p !! w;
                   Some (with_worker w (mkTopicWorker (tw_todo tw) (tw_hand tw) (tw_marked tw)
                                          (tick debug (tw_counter tw))) p)
      | Takes w => tw ← pl_workers p !! w; take_message w tw p
      | Sends w => tw ← pl_workers p !! w; send_message w tw p
      | Ingests i => st ← pl_ingest p !! i; ingest_message i st p
      | Commits i k => st ← pl_ingest p !! i; commit i k st p
      | DatabaseFails => Some (mkPipeline (pl_workers p) (pl_ch p) (pl_ingest p) (pl_committed p) (Some Fatal))
      end
  end.

(** [main]: a goroutine per partition, and five for the database, less those whose [Ping]
    fails. *)
Definition pipe_start (Ping : nat -> bool) (topic : list (list string)) : Pipeline :=
  mkPipeline (map (fun texts => mkTopicWorker texts None [] start_counter) topic) []
    (map (fun _ => mkIngest 0 [] []) (List.filter Ping (seq 0 5))) [] None.

(** [main] with the messages that Kafka gives to each goroutine. *)
Definition clickhouse_main (NewConsumer Ping : nat -> bool) (messages : nat -> list string)
    (o : ClickHouse.options) : res Pipeline :=
  match start_workers NewConsumer (ClickHouse.Workers o) messages with
  | Ok topic => Ok (pipe_start Ping topic)
  | _ => Panic
  end.

End loops.

(** ** What the command line prints *)

(** The records of a message with the field, once per field that has the value. *)
Definition selected (o : Cli.options) (m : Message) : list (list dataField) :=
  concat (map (fun ds =>
    repeat (map to_dataField ds)
      (length (List.filter (fun f => (df_ID f =? Cli.Id o) && equals_string (json_value (df_Value f)) (Cli.Value o)) ds)))
    (msg_DataSets m)).

(** The messages among what [select] chose. *)
Definition case_text (c : select_case) : list string := match c with Msg text => [text] | _ => [] end.
Definition case_texts (cs : list select_case) : list string := cs ≫= case_text.

Lemma cli_print_selected o m sample :
  holds sample m -> cli_print (Cli.Id o) (Cli.Value o) sample = selected o m.
Proof.
  intros [_ Hr]. unfold cli_print, selected. rewrite Hr, map_map. f_equal. apply map_ext. intros ds.
  generalize (map to_dataField ds) at 1 3 as d. intros d. induction ds as [|f ds IH]; [done|].
  cbn [map List.filter to_dataField df_I df_V]. destruct (_ && _); cbn; by rewrite IH.
Qed.

Section cli.
Context (json_parse : string -> option json) (o : Cli.options).
Hypothesis Hparse : reads_back json_parse.

Lemma cli_run_selected cs ms w :
  Forall (fun m => marshalable_message m /\ utf8_message m = true) ms -> case_texts cs = map message_text ms ->
  cw_printed (cli_run json_parse o cs w) = cw_printed w ++ (ms ≫= selected o) /\
  cw_marked (cli_run json_parse o cs w) = cw_marked w ++ map message_text ms.
Proof using Hparse.
  revert ms w. induction cs as [|c cs IH]; intros ms w Hm Ht.
  - destruct ms; [|done]. cbn. by rewrite !app_nil_r.
  - destruct c as [|text|]; [by apply (IH ms (cli_select json_parse o Tik w))| |by apply IH].
    destruct ms as [|m ms]; [done|]. cbn in Ht. injection Ht as -> Ht. inversion_clear Hm as [|?? [Hm1 Hu] Hm2].
    destruct (Unmarshal_published json_parse m (cw_objmap w) Hparse Hm1 Hu) as (sample & E & Hs).
    cbn [cli_run fold_left cli_select]. rewrite E.
    destruct (IH ms (mkCliWorker sample (counted (cw_counter w))
      (cw_printed w ++ cli_print (Cli.Id o) (Cli.Value o) sample) (cw_marked w ++ [message_text m])) Hm2 Ht)
      as [H1 H2]. unfold cli_run in H1, H2. rewrite H1, H2. cbn [cw_printed cw_marked map].
    rewrite (cli_print_selected o m sample Hs). cbn. by rewrite <- !app_assoc.
Qed.

End cli.

(** What the command line prints.  Whatever a goroutine has read before, and wherever
    the ticker fires, for a sequence of messages with a JSON text in valid UTF-8 it prints the
    records that contain the wanted field, once per field with the wanted value and in
    order, and marks every message: that [objmap] is decoded over the previous message
    again and again makes no difference. *)
Theorem cli_prints (json_parse : string -> option json)
    (Hparse : reads_back json_parse)
    (o : Cli.options) (cs : list select_case) (ms : list Message) (w : CliWorker) :
  Forall (fun m => marshalable_message m /\ utf8_message m = true) ms -> case_texts cs = map message_text ms ->
  cw_printed (cli_run json_parse o cs w) = cw_printed w ++ (ms ≫= selected o) /\
  cw_marked (cli_run json_parse o cs w) = cw_marked w ++ map message_text ms.
Proof. by apply cli_run_selected. Qed.

(** ** Where the rows are *)

#[global] Instance Row_eq_dec : EqDecision Row.
Proof. solve_decision. Defined.

Section pipeline.
Context (json_parse : string -> option json) (float_uint : json -> Z) (debug : bool).

(** The rows of a sample, and of a text. *)
Definition sample_rows (sample : ipfix) : list Row :=
  match ingest_sample float_uint (AgentID sample) (records sample) with Ok rows => rows | _ => [] end.

Definition readable (text : string) : bool := (Unmarshal_ipfix json_parse text zeroIpfix).2.

Definition text_rows (text : string) : list Row :=
  if readable text then sample_rows (Unmarshal_ipfix json_parse text zeroIpfix).1 else [].

(** What a goroutine was given is what it has marked, holds, and has still to take. *)
Definition worker_ok (texts : list string) (tw : TopicWorker) : Prop :=
  texts = tw_marked tw ++ match tw_hand tw with Some (text, _) => [text] | None => [] end ++ tw_todo tw /\
  match tw_hand tw with
  | Some (text, sample) => Unmarshal_ipfix json_parse text zeroIpfix = (sample, true)
  | None => True
  end.

(** The rows somewhere between the channel and the database, and those of the marked
    messages, weighed by any [f]. *)
Definition ingest_weight (f : Row -> Z) (st : Ingest) : Z := total (total f) (in_commits st) + total f (in_open st).

Definition stored_weight (f : Row -> Z) (p : Pipeline) : Z :=
  total (total f) (pl_committed p) + total (ingest_weight f) (pl_ingest p) +
  total (fun sample => total f (sample_rows sample)) (pl_ch p).

Definition marked_weight (f : Row -> Z) (p : Pipeline) : Z :=
  total (fun tw => total (fun text => total f (text_rows text)) (tw_marked tw)) (pl_workers p).

(** The same for the number of messages: a transaction that was closed has 10000. *)
Definition ingest_messages (st : Ingest) : Z := in_count st + 10000 * len (in_commits st).

Definition stored_messages (p : Pipeline) : Z :=
  10000 * len (pl_committed p) + total ingest_messages (pl_ingest p) + len (pl_ch p).

Definition marked_messages (p : Pipeline) : Z :=
  total (fun tw => len (List.filter readable (tw_marked tw))) (pl_workers p).

Record pipe_inv (topic : list (list string)) (p : Pipeline) : Prop := mkPipeInv {
  pi_workers : Forall2 worker_ok topic (pl_workers p);
  pi_rows : pl_end p <> Some Panicked -> forall f, stored_weight f p = marked_weight f p;
  pi_messages : pl_end p <> Some Panicked -> stored_messages p = marked_messages p;
  pi_ch : (length (pl_ch p) <= ch_cap)%nat;
  pi_ingest : Forall (fun st => 0 <= in_count st < 10000) (pl_ingest p)
}.

(** The fields of an updated pipeline. *)
Ltac pipe_simpl := cbn [with_worker pl_workers pl_ch pl_ingest pl_committed pl_end].

(** One goroutine of the topic changes. *)
Lemma workers_insert topic ws w tw tw' :
  Forall2 worker_ok topic ws -> ws !! w = Some tw -> (forall texts, worker_ok texts tw -> worker_ok texts tw') ->
  Forall2 worker_ok topic (<[w := tw']> ws).
Proof.
  intros H Hw Hok. destruct (Forall2_lookup_r _ _ _ _ _ H Hw) as (texts & Ht & Hx).
  rewrite <- (list_insert_id topic w texts Ht). apply Forall2_insert; auto.
Qed.

(** Marking a message adds its rows and counts it when it is readable. *)
Lemma mark_totals ws w tw text todo :
  ws !! w = Some tw ->
  (forall f, total (fun tw => total (fun t => total f (text_rows t)) (tw_marked tw)) (<[w := mark text tw todo]> ws) =
     total (fun tw => total (fun t => total f (text_rows t)) (tw_marked tw)) ws + total f (text_rows text)) /\
  total (fun tw => len (List.filter readable (tw_marked tw))) (<[w := mark text tw todo]> ws) =
    total (fun tw => len (List.filter readable (tw_marked tw))) ws + (if readable text then 1 else 0).
Proof.
  intros Hw. split; [intros f|]; rewrite (total_insert _ _ _ _ _ Hw); cbn [mark tw_marked].
  - rewrite total_snoc. lia.
  - rewrite len_filter_snoc. lia.
Qed.

Lemma ingestClickHouse_ok sample st st' :
  ingestClickHouse float_uint sample st = Ok st' -> 0 <= in_count st < 10000 ->
  (forall f, ingest_weight f st' = ingest_weight f st + total f (sample_rows sample)) /\
  ingest_messages st' = ingest_messages st + 1 /\ 0 <= in_count st' < 10000.
Proof.
  unfold ingestClickHouse, sample_rows, ingest_weight, ingest_messages. intros E Hc.
  destruct (ingest_sample _ _ _) as [rows|v e| |]; try done.
  destruct (Z.ltb_spec (in_count st + 1) 10000); injection E as <-; cbn [in_count in_open in_commits]; split_and!; try lia.
  - intros f. rewrite total_app. lia.
  - intros f. rewrite total_snoc, total_app. cbn. lia.
  - rewrite (len_app (in_commits st)). change (len [_]) with 1. lia.
Qed.

Lemma take_inv topic w tw p p' :
  pipe_inv topic p -> pl_workers p !! w = Some tw -> take_message json_parse w tw p = Some p' -> pipe_inv topic p'.
Proof.
  intros [Hw Hr Hm Hc Hi] Hl E. unfold take_message in E.
  destruct (tw_hand tw) as [|] eqn:Eh; [done|]. destruct (tw_todo tw) as [|text todo] eqn:Et; [done|].
  destruct (Unmarshal_ipfix json_parse text zeroIpfix) as [objmap ok] eqn:Eu. injection E as <-.
  destruct ok.
  - split; pipe_simpl; try done.
    + eapply workers_insert; [done..|]. unfold worker_ok. rewrite Eh, Et. intros texts [-> _]. by split.
    + intros He f. specialize (Hr He f). unfold stored_weight, marked_weight in *. pipe_simpl.
      rewrite Hr, (total_insert _ _ _ _ _ Hl). cbn [tw_marked]. lia.
    + intros He. specialize (Hm He). unfold stored_messages, marked_messages in *. pipe_simpl.
      rewrite Hm, (total_insert _ _ _ _ _ Hl). cbn [tw_marked]. lia.
  - destruct (mark_totals (pl_workers p) w tw text todo Hl) as [H1 H2].
    assert (readable text = false) as Er by (unfold readable; by rewrite Eu).
    split; pipe_simpl; try done.
    + eapply workers_insert; [done..|]. unfold worker_ok. rewrite Eh, Et. intros texts [-> _].
      cbn. by rewrite <- app_assoc.
    + intros He f. specialize (Hr He f). unfold stored_weight, marked_weight in *. pipe_simpl.
      rewrite Hr, H1. unfold text_rows at 3. rewrite Er. cbn [total fold_right]. lia.
    + intros He. specialize (Hm He). unfold stored_messages, marked_messages in *. pipe_simpl.
      rewrite Hm, H2, Er. lia.
Qed.

Lemma send_inv topic w tw p p' :
  pipe_inv topic p -> pl_workers p !! w = Some tw -> send_message w tw p = Some p' -> pipe_inv topic p'.
Proof.
  intros [Hw Hr Hm Hc Hi] Hl E. unfold send_message in E.
  destruct (tw_hand tw) as [[text objmap]|] eqn:Eh; [|done].
  destruct (Nat.ltb_spec (length (pl_ch p)) ch_cap); [|done]. injection E as <-.
  destruct (mark_totals (pl_workers p) w tw text (tw_todo tw) Hl) as [H1 H2].
  destruct (Forall2_lookup_r _ _ _ _ _ Hw Hl) as (texts & _ & _ & Hu). rewrite Eh in Hu.
  assert (readable text = true) as Er by (unfold readable; by rewrite Hu).
  split; pipe_simpl; try done.
  - eapply workers_insert; [done..|]. unfold worker_ok. rewrite Eh. intros ? [-> _]. cbn. by rewrite <- app_assoc.
  - intros He f. specialize (Hr He f). unfold stored_weight, marked_weight in *. pipe_simpl.
    rewrite H1, total_snoc. unfold text_rows at 2. rewrite Er, Hu. cbn [fst]. lia.
  - intros He. specialize (Hm He). unfold stored_messages, marked_messages in *. pipe_simpl.
    rewrite H2, Er, (len_app (pl_ch p)). change (len [_]) with 1. lia.
  - rewrite length_app. cbn. lia.
Qed.

Lemma ingest_inv topic i st p p' :
  pipe_inv topic p -> pl_end p = None -> pl_ingest p !! i = Some st ->
  ingest_message float_uint i st p = Some p' -> pipe_inv topic p'.
Proof.
  intros [Hw Hr Hm Hc Hi] He Hl E. unfold ingest_message in E. rewrite He in Hr, Hm.
  destruct (pl_ch p) as [|sample ch'] eqn:Ec; [done|]. cbn [length] in Hc.
  pose proof (Forall_lookup_1 _ _ _ _ Hi Hl) as Hst. cbn beta in Hst.
  destruct (ingestClickHouse float_uint sample st) as [st'|? ?| |] eqn:Ei; injection E as <-;
    try (split; pipe_simpl; try done; lia).
  destruct (ingestClickHouse_ok sample st st' Ei Hst) as (H1 & H2 & H3).
  split; pipe_simpl; try done; try lia.
  - intros _ f. specialize (Hr ltac:(done) f). unfold stored_weight, marked_weight in *. pipe_simpl.
    rewrite Ec in Hr. rewrite (total_insert _ _ _ _ _ Hl), H1. cbn [total fold_right] in Hr. unfold total in *. lia.
  - intros _. specialize (Hm ltac:(done)). unfold stored_messages, marked_messages in *. pipe_simpl.
    rewrite Ec, len_cons in Hm. rewrite (total_insert _ _ _ _ _ Hl), H2. lia.
  - by apply Forall_insert.
Qed.

Lemma commit_inv topic i k st p p' :
  pipe_inv topic p -> pl_ingest p !! i = Some st -> commit i k st p = Some p' -> pipe_inv topic p'.
Proof.
  intros [Hw Hr Hm Hc Hi] Hl E. unfold commit in E.
  destruct (in_commits st !! k) as [rows|] eqn:Ek; [|done]. injection E as <-.
  split; pipe_simpl; try done.
  - intros He f. specialize (Hr He f). unfold stored_weight, marked_weight in *. pipe_simpl.
    rewrite total_snoc, (total_insert _ _ _ _ _ Hl). unfold ingest_weight at 3. cbn [in_commits in_open].
    rewrite (total_delete _ _ _ _ Ek). unfold ingest_weight at 2. lia.
  - intros He. specialize (Hm He). unfold stored_messages, marked_messages in *. pipe_simpl.
    rewrite (len_app (pl_committed p)), (total_insert _ _ _ _ _ Hl). change (len [rows]) with 1.
    unfold ingest_messages at 2 3. cbn [in_commits in_count].
    assert (len (delete k (in_commits st)) = len (in_commits st) - 1) as ->; [|lia].
    unfold len. rewrite length_delete by done. apply lookup_lt_Some in Ek. lia.
  - apply Forall_insert; [done|]. by apply (Forall_lookup_1 _ _ _ _ Hi Hl).
Qed.

Lemma pipe_step_inv topic l p p' :
  pipe_inv topic p -> pipe_step json_parse float_uint debug l p = Some p' -> pipe_inv topic p'.
Proof.
  intros Hp E. unfold pipe_step in E. destruct (pl_end p) eqn:He; [done|].
  destruct l as [w|w|w|i|i k|].
  - destruct (pl_workers p !! w) as [tw|] eqn:Hl; [|done]. injection E as <-.
    destruct Hp as [Hw Hr Hm Hc Hi]. split; pipe_simpl; try done.
    + eapply workers_insert; [done..|]. by unfold worker_ok.
    + intros _ f. unfold stored_weight, marked_weight in *. pipe_simpl.
      rewrite (total_insert _ _ _ _ _ Hl). cbn [tw_marked]. rewrite <- Hr by (by rewrite He). lia.
    + intros _. unfold stored_messages, marked_messages in *. pipe_simpl.
      rewrite (total_insert _ _ _ _ _ Hl). cbn [tw_marked]. rewrite <- Hm by (by rewrite He). lia.
  - destruct (pl_workers p !! w) as [tw|] eqn:Hl; [|done]. by eapply take_inv.
  - destruct (pl_workers p !! w) as [tw|] eqn:Hl; [|done]. by eapply send_inv.
  - destruct (pl_ingest p !! i) as [st|] eqn:Hl; [|done]. by eapply ingest_inv.
  - destruct (pl_ingest p !! i) as [st|] eqn:Hl; [|done]. by eapply commit_inv.
  - injection E as <-. destruct Hp as [Hw Hr Hm Hc Hi]. rewrite He in *.
    split; pipe_simpl; try done; intros _; [by apply Hr|by apply Hm].
Qed.

Lemma pipe_start_inv Ping topic : pipe_inv topic (pipe_start Ping topic).
Proof.
  unfold pipe_start. split; pipe_simpl.
  - induction topic; cbn; constructor; [by split|done].
  - intros _ f. unfold stored_weight, marked_weight. pipe_simpl. cbn [total fold_right].
    rewrite !total_zero; [done|intros tw (texts & <- & _)%in_map_iff; done|intros st (n & <- & _)%in_map_iff; done].
  - intros _. unfold stored_messages, marked_messages. pipe_simpl.
    rewrite !total_zero; [done|intros tw (texts & <- & _)%in_map_iff; done|intros st (n & <- & _)%in_map_iff; done].
  - unfold ch_cap. cbn [length]. lia.
  - apply Forall_forall. intros st (n & <- & _)%list_elem_of_In%in_map_iff. cbn. lia.
Qed.

(** A sample whose rows can be built. *)
Definition ingestable (sample : ipfix) : Prop :=
  exists rows, ingest_sample float_uint (AgentID sample) (records sample) = Ok rows.

(** No panic when the samples of the topic can be ingested. *)
Lemma pipe_step_alive topic l p p' :
  Forall (Forall (fun text => readable text = true -> ingestable (Unmarshal_ipfix json_parse text zeroIpfix).1)) topic ->
  pipe_inv topic p /\ pl_end p <> Some Panicked /\ Forall ingestable (pl_ch p) ->
  pipe_step json_parse float_uint debug l p = Some p' ->
  pipe_inv topic p' /\ pl_end p' <> Some Panicked /\ Forall ingestable (pl_ch p').
Proof.
  intros Ht (Hp & He & Hc) E. split; [by eapply pipe_step_inv|]. unfold pipe_step in E.
  destruct (pl_end p) eqn:Ee; [done|]. destruct l as [w|w|w|i|i k|].
  - destruct (pl_workers p !! w); [|done]. injection E as <-. pipe_simpl. by rewrite Ee.
  - destruct (pl_workers p !! w) as [tw|]; [|done]. cbn in E. unfold take_message in E.
    destruct (tw_hand tw), (tw_todo tw); try done. destruct (Unmarshal_ipfix _ _ _). injection E as <-. pipe_simpl. by rewrite Ee.
  - destruct (pl_workers p !! w) as [tw|] eqn:Hl; [|done]. cbn in E. unfold send_message in E.
    destruct (tw_hand tw) as [[text sample]|] eqn:Eh; [|done]. destruct (_ <? _)%nat; [|done]. injection E as <-. pipe_simpl.
    rewrite Ee. split; [done|]. apply Forall_app. split; [done|]. constructor; [|done].
    destruct (Forall2_lookup_r _ _ _ _ _ (pi_workers _ _ Hp) Hl) as (texts & Htx & Hok & Hu). rewrite Eh in Hok, Hu.
    eapply Forall_lookup_1 in Ht; [|exact Htx]. rewrite Hok in Ht. apply Forall_app in Ht as [_ Ht].
    inversion_clear Ht as [|?? Hi _]. unfold readable in Hi. rewrite Hu in Hi. by apply Hi.
  - destruct (pl_ingest p !! i) as [st|]; [|done]. cbn in E. unfold ingest_message in E.
    destruct (pl_ch p) as [|sample ch']; [done|]. inversion_clear Hc as [|?? [rows Hi] Hc'].
    unfold ingestClickHouse in E. rewrite Hi in E. destruct (_ <? _); injection E as <-; pipe_simpl; by rewrite Ee.
  - destruct (pl_ingest p !! i) as [st|]; [|done]. cbn in E. unfold commit in E.
    destruct (in_commits st !! k); [|done]. injection E as <-. pipe_simpl. by rewrite Ee.
  - injection E as <-. by pipe_simpl.
Qed.

(** Rows that are with an ingesting goroutine or committed, and rows of the queue. *)
Definition stored_rows (p : Pipeline) : list Row :=
  concat (pl_committed p) ++ (pl_ingest p ≫= fun st => concat (in_commits st) ++ in_open st) ++
  (pl_ch p ≫= sample_rows).

Lemma stored_rows_weight f p : total f (stored_rows p) = stored_weight f p.
Proof.
  unfold stored_rows, stored_weight. rewrite !total_app, !total_bind, total_concat, Z.add_assoc.
  f_equal. f_equal. apply total_ext. intros st. unfold ingest_weight. by rewrite total_app, total_concat.
Qed.

(** Every message is somewhere: the rows of the marked messages are those that are stored,
    open, on their way to the commit or queued. *)
Lemma pipe_rows topic p :
  pipe_inv topic p -> pl_end p <> Some Panicked ->
  Permutation (stored_rows p) (concat (map tw_marked (pl_workers p)) ≫= text_rows).
Proof.
  intros Hp He. apply totals_permutation. intros f. rewrite stored_rows_weight, (pi_rows _ _ Hp He).
  unfold marked_weight. rewrite total_bind, total_concat.
  induction (pl_workers p) as [|tw l IH]; [done|]. cbn in *. unfold total in *. by rewrite IH.
Qed.

End pipeline.

(** ** From the collector to the database *)

(** The rows of a message. *)
Definition message_rows (m : Message) : list Row := map (row_of (msg_AgentID m)) (msg_DataSets m).

(** A message with fields of the types of their elements, as [Decode] returns them, that has
    a JSON text in valid UTF-8, and whose AS numbers and protocols have the width of their
    types. *)
Definition storable (m : Message) : Prop :=
  marshalable_message m /\ utf8_message m = true /\ Forall (Forall (field_typed InfoModel)) (msg_DataSets m) /\
  forallb (forallb field_ok) (msg_DataSets m) = true.

Section stores.
Context (json_parse : string -> option json) (float_uint : json -> Z).
Hypothesis Hparse : reads_back json_parse.
Hypothesis Hfloat : forall z, 0 <= z < 2 ^ 53 -> float_uint (JNum z) = z.

Lemma storable_text m : storable m ->
  readable json_parse (message_text m) = true /\
  ingestable float_uint (Unmarshal_ipfix json_parse (message_text m) zeroIpfix).1 /\
  text_rows json_parse float_uint (message_text m) = message_rows m.
Proof using Hparse Hfloat.
  intros (Hm & Hu & Ht & Hf). destruct (Unmarshal_published json_parse m zeroIpfix Hparse Hm Hu) as (sample & E & Ha & Hr).
  assert (ingest_sample float_uint (AgentID sample) (records sample) = Ok (message_rows m)) as Ei
    by (rewrite Ha, Hr, ingest_sample_typed, Hf by done; done).
  unfold text_rows, readable, sample_rows. rewrite E. cbn [fst snd]. split_and!; [done| |by rewrite Ei].
  by exists (message_rows m).
Qed.

(** What the goroutines of the topic have marked is the texts of a prefix of their
    messages. *)
Lemma marked_prefixes (topic : list (list Message)) ws :
  Forall2 (worker_ok json_parse) (map (map message_text) topic) ws ->
  exists taken, Forall2 prefix taken topic /\ map tw_marked ws = map (map message_text) taken.
Proof.
  revert ws. induction topic as [|ms topic IH]; intros ws H; cbn in H; inversion_clear H as [|? tw ? ws' [Hm _] Hw].
  - by exists [].
  - destruct (IH ws' Hw) as (taken & H1 & H2).
    exists (take (length (tw_marked tw)) ms :: taken). split.
    + constructor; [apply prefix_take|done].
    + cbn [map]. rewrite H2. f_equal. rewrite <- (firstn_map message_text), Hm. by rewrite take_app_length.
Qed.

(** Every run on a topic of storable messages. *)
Lemma pipe_exec debug Ping (topic : list (list Message)) ls p :
  Forall (Forall storable) topic ->
  exec_with (pipe_step json_parse float_uint debug) ls (pipe_start Ping (map (map message_text) topic)) = Some p ->
  pipe_inv json_parse float_uint (map (map message_text) topic) p /\ pl_end p <> Some Panicked.
Proof using Hparse Hfloat.
  intros Ht E. set (texts := map (map message_text) topic) in *.
  destruct (exec_with_inv _ (fun p => pipe_inv json_parse float_uint texts p /\ pl_end p <> Some Panicked /\
    Forall (ingestable float_uint) (pl_ch p))
    (fun l p p' => pipe_step_alive json_parse float_uint debug texts l p p'
       ltac:(apply Forall_map; eapply Forall_impl; [exact Ht|]; intros ms Hms; apply Forall_map;
             eapply Forall_impl; [exact Hms|]; intros m Hm _; by apply storable_text))
    ls _ p ltac:(split_and!; [apply pipe_start_inv|done|constructor]) E) as (Hp & He & _).
  done.
Qed.

(** The rows of published messages. *)
Lemma published_rows ms : Forall storable ms ->
  map message_text ms ≫= text_rows json_parse float_uint = ms ≫= message_rows.
Proof using Hparse Hfloat.
  induction 1 as [|m ms Hm _ IH]; [done|]. destruct (storable_text m Hm) as (_ & _ & Hr). cbn. by rewrite Hr, IH.
Qed.

End stores.

(** The number of marked messages, when all of them are readable. *)
Lemma marked_count json_parse p (taken : list (list Message)) :
  map tw_marked (pl_workers p) = map (map message_text) taken ->
  Forall (Forall (fun m => readable json_parse (message_text m) = true)) taken ->
  marked_messages json_parse p = len (concat taken).
Proof.
  intros H Hr. unfold marked_messages. rewrite <- (total_map (fun l => len (List.filter (readable json_parse) l)) tw_marked), H.
  rewrite total_map. clear H p. induction Hr as [|ms taken Hm _ IH]; [done|]. cbn [concat total fold_right].
  unfold total in IH. rewrite IH, len_app. f_equal. induction Hm as [|m ms Hm _ IHm]; [done|].
  cbn [map List.filter]. by rewrite Hm, !len_cons, IHm.
Qed.

(** C10: the ClickHouse consumer loses and invents nothing while it runs.  In every
    interleaving of the goroutines of the topic, of those of the database and of their
    commits, on a topic of storable messages (with a JSON text in valid UTF-8 and AS numbers
    and protocols of full width), the consumer does not panic; each goroutine
    has marked a prefix of its messages; the rows of all marked messages are, up to order,
    exactly the rows that are committed, in a transaction or in the channel; and of the
    marked messages at most 10000 are in the channel, 9999 per goroutine of the database in
    open transactions, and 10000 per unfinished commit: no more is lost if the process
    ends there. *)
Theorem clickhouse_conserves (json_parse : string -> option json) (float_uint : json -> Z)
    (Hparse : reads_back json_parse)
    (Hfloat : forall z, 0 <= z < 2 ^ 53 -> float_uint (JNum z) = z)
    (debug : bool) (Ping : nat -> bool) (topic : list (list Message)) (ls : list pipe_label) (p : Pipeline) :
  Forall (Forall storable) topic ->
  exec_with (pipe_step json_parse float_uint debug) ls (pipe_start Ping (map (map message_text) topic)) = Some p ->
  pl_end p <> Some Panicked /\
  exists taken : list (list Message),
    Forall2 prefix taken topic /\ map tw_marked (pl_workers p) = map (map message_text) taken /\
    Permutation (stored_rows float_uint p) (concat taken ≫= message_rows) /\
    len (concat taken) <= 10000 * len (pl_committed p) + 10000 + 9999 * len (pl_ingest p) +
      10000 * total (fun st => len (in_commits st)) (pl_ingest p).
Proof.
  intros Ht E. destruct (pipe_exec json_parse float_uint Hparse Hfloat debug Ping topic ls p Ht E) as [Hp He].
  split; [done|].
  destruct (marked_prefixes json_parse topic (pl_workers p) (pi_workers _ _ _ _ Hp)) as (taken & H1 & H2).
  assert (Forall (Forall storable) taken) as Hs.
  { clear - Ht H1. induction H1 as [|t ms taken topic [k ->] _ IH]; [done|]. inversion_clear Ht as [|?? Hm Ht'].
    constructor; [by apply Forall_app in Hm as [? _]|by apply IH]. }
  exists taken. split_and!; [done..| |].
  - rewrite (pipe_rows json_parse float_uint _ p Hp He), H2, <- concat_map.
    rewrite (published_rows json_parse float_uint Hparse Hfloat); [done|by apply Forall_concat].
  - pose proof (pi_messages _ _ _ _ Hp He) as Hn. pose proof (pi_ch _ _ _ _ Hp) as Hch.
    rewrite (marked_count json_parse p taken H2) in Hn.
    2: { eapply Forall_impl; [exact Hs|]. intros ms Hms. eapply Forall_impl; [exact Hms|].
         intros m Hm. by apply (storable_text json_parse float_uint Hparse Hfloat). }
    unfold stored_messages, ingest_messages in Hn. rewrite total_plus, total_scale in Hn.
    pose proof (total_bounds in_count (pl_ingest p) 9999) as Hb. unfold ch_cap in Hch. unfold len at 3 in Hn.
    assert (total in_count (pl_ingest p) <= 9999 * len (pl_ingest p)); [|lia].
    apply Hb. eapply Forall_impl; [exact (pi_ingest _ _ _ _ Hp)|]. cbn. lia.
Qed.

(** ** Everything gets there *)

(** The goroutines of the topic have nothing left to do. *)
Definition all_taken (p : Pipeline) : Prop := Forall (fun tw => tw_todo tw = [] /\ tw_hand tw = None) (pl_workers p).

Lemma all_taken_marked json_parse texts p :
  Forall2 (worker_ok json_parse) texts (pl_workers p) -> all_taken p -> map tw_marked (pl_workers p) = texts.
Proof.
  unfold all_taken. induction 1 as [|t tw texts ws [Ht _] _ IH]; [done|]. intros [[H1 H2] Hws]%Forall_cons.
  rewrite H1, H2 in Ht. cbn in *. rewrite app_nil_r in Ht. by rewrite IH, Ht.
Qed.

(** A step of the goroutines and of the commits: not of the ticker, nor the end. *)
Definition is_move (l : pipe_label) : bool :=
  match l with Takes _ | Sends _ | Ingests _ | Commits _ _ => true | _ => false end.

(** What is left to do: a message to take is taken, sent, ingested and perhaps committed. *)
Definition worker_work (tw : TopicWorker) : Z :=
  4 * len (tw_todo tw) + match tw_hand tw with Some _ => 3 | None => 0 end.

Definition pipe_work (p : Pipeline) : Z :=
  total worker_work (pl_workers p) + 2 * len (pl_ch p) + total (fun st => len (in_commits st)) (pl_ingest p).

Lemma pipe_work_nonneg p : 0 <= pipe_work p.
Proof.
  pose proof (total_nonneg worker_work (pl_workers p)) as H1.
  pose proof (total_nonneg (fun st => len (in_commits st)) (pl_ingest p) (fun st => Nat2Z.is_nonneg _)) as H2.
  unfold pipe_work. assert (0 <= total worker_work (pl_workers p)); [|unfold len in *; lia].
  apply H1. intros tw. unfold worker_work, len. case_match; lia.
Qed.

Section drains.
Context (json_parse : string -> option json) (float_uint : json -> Z) (debug : bool).

(** Each such step leaves less to do. *)
Lemma pipe_step_work l p p' :
  is_move l = true -> pipe_step json_parse float_uint debug l p = Some p' -> pipe_work p' < pipe_work p.
Proof.
  intros Hl E. unfold pipe_step in E. destruct (pl_end p); [done|]. destruct l as [w|w|w|i|i k|]; try done.
  - destruct (pl_workers p !! w) as [tw|] eqn:Hw; [|done]. cbn in E. unfold take_message in E.
    destruct (tw_hand tw) eqn:Eh, (tw_todo tw) as [|text todo] eqn:Et; try done.
    destruct (Unmarshal_ipfix _ _ _) as [o []]; injection E as <-; unfold pipe_work; cbn [with_worker pl_workers pl_ch pl_ingest];
      rewrite (total_insert _ _ _ _ _ Hw); unfold worker_work at 2 3; cbn [mark tw_todo tw_hand]; rewrite Eh, Et, len_cons; lia.
  - destruct (pl_workers p !! w) as [tw|] eqn:Hw; [|done]. cbn in E. unfold send_message in E.
    destruct (tw_hand tw) as [[text o]|] eqn:Eh; [|done]. destruct (_ <? _)%nat; [|done]. injection E as <-.
    unfold pipe_work; cbn [pl_workers pl_ch pl_ingest]. rewrite (total_insert _ _ _ _ _ Hw), len_app.
    unfold worker_work at 2 3. cbn [mark tw_todo tw_hand]. rewrite Eh. change (len [o]) with 1. lia.
  - destruct (pl_ingest p !! i) as [st|] eqn:Hi; [|done]. cbn in E. unfold ingest_message in E.
    destruct (pl_ch p) as [|sample ch'] eqn:Ec; [done|]. unfold ingestClickHouse in E.
    destruct (ingest_sample _ _ _); [destruct (_ <? _)|..]; injection E as <-; unfold pipe_work; cbn [pl_workers pl_ch pl_ingest];
      rewrite ?(total_insert _ _ _ _ _ Hi), Ec, len_cons; cbn [in_commits]; rewrite ?len_app; change (len [_]) with 1; lia.
  - destruct (pl_ingest p !! i) as [st|] eqn:Hi; [|done]. cbn in E. unfold commit in E.
    destruct (in_commits st !! k) as [rows|] eqn:Ek; [|done]. injection E as <-.
    unfold pipe_work; cbn [pl_workers pl_ch pl_ingest]. rewrite (total_insert _ _ _ _ _ Hi). cbn [in_commits].
    pose proof (length_delete (in_commits st) k). unfold len. rewrite H by done. apply lookup_lt_Some in Ek. lia.
Qed.

Lemma pipe_run_work ls p p' :
  Forall (fun l => is_move l = true) ls -> exec_with (pipe_step json_parse float_uint debug) ls p = Some p' ->
  len ls <= pipe_work p.
Proof.
  intros Hl. revert p. induction Hl as [|l ls Hl _ IH]; intros p E; [apply pipe_work_nonneg|]. cbn in E.
  destruct (pipe_step json_parse float_uint debug l p) as [q|] eqn:Es; [|done].
  specialize (IH q E). pose proof (pipe_step_work l p q Hl Es). rewrite len_cons. lia.
Qed.

(** When no such step is left, everything was taken, the channel is empty and every commit
    has finished. *)
Lemma stuck_drained p :
  pl_end p = None -> pl_ingest p <> [] ->
  (forall l, is_move l = true -> pipe_step json_parse float_uint debug l p = None) ->
  all_taken p /\ pl_ch p = [] /\ Forall (fun st => in_commits st = []) (pl_ingest p).
Proof.
  intros He Hi Hs. assert (pl_ch p = []) as Hc.
  { destruct (pl_ch p) as [|sample ch] eqn:Ec; [done|]. destruct (pl_ingest p) as [|st l] eqn:Ei; [done|].
    specialize (Hs (Ingests 0) eq_refl). unfold pipe_step in Hs. rewrite He, Ei in Hs. cbn in Hs.
    unfold ingest_message in Hs. rewrite Ec in Hs. by destruct (ingestClickHouse _ _ _). }
  split_and!; [|done|].
  - apply Forall_lookup_2. intros w tw Hw.
    pose proof (Hs (Takes w) eq_refl) as Ht. pose proof (Hs (Sends w) eq_refl) as Hn.
    unfold pipe_step in Ht, Hn. rewrite He, Hw in Ht, Hn. cbn in Ht, Hn. unfold take_message, send_message in *.
    rewrite Hc in Hn. destruct (tw_hand tw) as [[text o]|]; [done|]. destruct (tw_todo tw); [done|].
    by destruct (Unmarshal_ipfix _ _ _).
  - apply Forall_lookup_2. intros i st Hst. specialize (Hs (Commits i 0) eq_refl).
    unfold pipe_step in Hs. rewrite He, Hst in Hs. cbn in Hs. unfold commit in Hs. by destruct (in_commits st).
Qed.

(** The converse, for a state at hand. *)
Definition drained (p : Pipeline) : bool :=
  forallb (fun tw => match tw_todo tw, tw_hand tw with [], None => true | _, _ => false end) (pl_workers p) &&
  match pl_ch p with [] => true | _ => false end &&
  forallb (fun st => match in_commits st with [] => true | _ => false end) (pl_ingest p).

Lemma drained_stuck p l : drained p = true -> is_move l = true -> pipe_step json_parse float_uint debug l p = None.
Proof.
  unfold drained. intros [[Hw Hc]%andb_prop Hi]%andb_prop Hl.
  apply Is_true_true, forallb_True in Hw. apply Is_true_true, forallb_True in Hi.
  rewrite Forall_lookup in Hw. rewrite Forall_lookup in Hi. unfold pipe_step. destruct (pl_end p); [done|].
  destruct l as [w|w|w|i|i k|]; try done.
  - destruct (pl_workers p !! w) as [tw|] eqn:E; [|done]. specialize (Hw _ _ E). cbn. unfold take_message.
    by destruct (tw_hand tw), (tw_todo tw).
  - destruct (pl_workers p !! w) as [tw|] eqn:E; [|done]. specialize (Hw _ _ E). cbn. unfold send_message.
    by destruct (tw_hand tw), (tw_todo tw).
  - destruct (pl_ingest p !! i); [|done]. cbn. unfold ingest_message. by destruct (pl_ch p).
  - destruct (pl_ingest p !! i) as [st|] eqn:E; [|done]. specialize (Hi _ _ E). cbn. unfold commit.
    by destruct (in_commits st).
Qed.
End drains.

(** C11: the consumer finishes.  From any state it can reach on storable messages (with a
    JSON text in valid UTF-8 and AS numbers and protocols of full width), with the process
    running and at least one of the database's goroutines alive, the goroutines and the
    commits make only so many more steps, whatever their order; and when none of them can
    make another, every goroutine of the topic has marked all its messages, and the rows
    committed or in an open transaction are exactly those of all the messages. *)
Theorem pipeline_drains (json_parse : string -> option json) (float_uint : json -> Z)
    (Hparse : reads_back json_parse)
    (Hfloat : forall z, 0 <= z < 2 ^ 53 -> float_uint (JNum z) = z)
    (debug : bool) (Ping : nat -> bool) (topic : list (list Message)) (ls : list pipe_label) (p : Pipeline) :
  Forall (Forall storable) topic ->
  exec_with (pipe_step json_parse float_uint debug) ls (pipe_start Ping (map (map message_text) topic)) = Some p ->
  pl_end p = None -> pl_ingest p <> [] ->
  (forall ls' p', Forall (fun l => is_move l = true) ls' ->
     exec_with (pipe_step json_parse float_uint debug) ls' p = Some p' -> len ls' <= pipe_work p) /\
  ((forall l, is_move l = true -> pipe_step json_parse float_uint debug l p = None) ->
     map tw_marked (pl_workers p) = map (map message_text) topic /\
     Permutation (concat (pl_committed p) ++ (pl_ingest p ≫= in_open)) (concat topic ≫= message_rows)).
Proof.
  intros Ht E He Hi. split; [intros ls' p'; apply pipe_run_work|]. intros Hs.
  destruct (stuck_drained json_parse float_uint debug p He Hi Hs) as (Ha & Hc & Hk).
  destruct (pipe_exec json_parse float_uint Hparse Hfloat debug Ping topic ls p Ht E) as [Hp Hn].
  pose proof (all_taken_marked json_parse _ p (pi_workers _ _ _ _ Hp) Ha) as Hm. split; [done|].
  transitivity (stored_rows float_uint p).
  - unfold stored_rows. rewrite Hc, app_nil_r. apply reflexive_eq. f_equal.
    clear - Hk. induction Hk as [|st l H _ IH]; [done|]. cbn. rewrite H. by rewrite IH.
  - rewrite (pipe_rows json_parse float_uint _ p Hp Hn), Hm, <- concat_map.
    rewrite (published_rows json_parse float_uint Hparse Hfloat); [done|by apply Forall_concat].
Qed.

(** ** Examples *)

Definition example_options : Cli.options := Cli.mkOptions "127.0.0.1:9092" "vflow.ipfix" 12 "198.51.100.2" true 1.

Lemma cli_prints_witness :
  cw_printed (cli_run parse_json example_options
    [Msg (message_text consumer_msg4); Tik; Msg (message_text consumer_msg4)] cli_start) =
  [map to_dataField (hd [] (msg_DataSets consumer_msg4)); map to_dataField (hd [] (msg_DataSets consumer_msg4))].
Proof.
  refine (proj1 (cli_prints parse_json parse_json_reads_back example_options
    [Msg (message_text consumer_msg4); Tik; Msg (message_text consumer_msg4)]
    [consumer_msg4; consumer_msg4] cli_start _ _)).
  - do 2 (constructor; [split; [exact marshalable_consumer_msg4|reflexivity]|]). constructor.
  - reflexivity.
Defined.

Lemma storable_consumer_msg4 : storable consumer_msg4.
Proof.
  split; [exact marshalable_consumer_msg4|]. split; [reflexivity|]. split; [|reflexivity].
  pose proof (Decode_typed_lemma InfoModel (bytes [192; 0; 2; 9]) (fun _ => 0) 60 (consumer_datagram 4 [0; 0; 253; 232])
    (GetCache None) [] 0) as H.
  assert ((Decode InfoModel (bytes [192; 0; 2; 9]) (fun _ => 0) 60
    (NewDecoder (consumer_datagram 4 [0; 0; 253; 232]) (GetCache None) [] 0)).2 = Ok consumer_msg4) as E
    by (vm_compute; reflexivity).
  by rewrite E in H.
Qed.

(** One message, taken, queued and inserted, when the database goes away. *)
Definition lost_run : list pipe_label := [Takes 0; Sends 0; Ingests 2; DatabaseFails].

Abbreviation lost_state :=
  (exec_with (pipe_step parse_json float_small false) lost_run
    (pipe_start (fun _ => true) (map (map message_text) [[consumer_msg4]]))).

(** Marked, and not stored. *)
Definition marked_not_stored (p : Pipeline) : bool :=
  match map tw_marked (pl_workers p), pl_committed p with [[_]], [] => true | _, _ => false end.

Lemma lost_run_ok : exists p, lost_state = Some p /\ marked_not_stored p = true.
Proof. apply eval_some. vm_compute. reflexivity. Qed.

Lemma clickhouse_conserves_witness :
  exists p taken, lost_state = Some p /\ marked_not_stored p = true /\
    Permutation (stored_rows float_small p) (concat taken ≫= message_rows).
Proof.
  destruct lost_run_ok as (p & E & Hl).
  destruct (clickhouse_conserves parse_json float_small parse_json_reads_back (fun z _ => eq_refl) false (fun _ => true)
    [[consumer_msg4]] lost_run p) as (_ & taken & _ & _ & Hp & _).
  - constructor; [|constructor]. constructor; [exact storable_consumer_msg4|constructor].
  - exact E.
  - exists p, taken. split; [exact E|]. split; [exact Hl|exact Hp].
Defined.

(** The same message when the database stays. *)
Definition drained_run : list pipe_label := [Takes 0; Sends 0; Ingests 2].

Abbreviation drained_state :=
  (exec_with (pipe_step parse_json float_small false) drained_run
    (pipe_start (fun _ => true) (map (map message_text) [[consumer_msg4]]))).

Definition running_drained (p : Pipeline) : bool :=
  match pl_end p, pl_ingest p with None, _ :: _ => drained p | _, _ => false end.

Lemma drained_run_ok : exists p, drained_state = Some p /\ running_drained p = true.
Proof. apply eval_some. vm_compute. reflexivity. Qed.

Lemma pipeline_drains_witness :
  exists p, drained_state = Some p /\ running_drained p = true /\
    Permutation (concat (pl_committed p) ++ (pl_ingest p ≫= in_open)) (concat [[consumer_msg4]] ≫= message_rows).
Proof.
  destruct drained_run_ok as (p & E & Hd). exists p. split; [exact E|]. split; [exact Hd|]. unfold running_drained in Hd.
  destruct (pl_end p) as [|] eqn:He; [discriminate|]. destruct (pl_ingest p) as [|st l] eqn:Hi; [discriminate|]. rewrite <- Hi.
  refine (proj2 (proj2 (pipeline_drains parse_json float_small parse_json_reads_back (fun z _ => eq_refl) false (fun _ => true)
    [[consumer_msg4]] drained_run p _ E He _) _)).
  - constructor; [|constructor]. constructor; [exact storable_consumer_msg4|constructor].
  - rewrite Hi. discriminate.
  - intros l'. apply drained_stuck. exact Hd.
Defined.
