(* ===== verification/EndToEnd.v ===== *)
(** From the wire to the database: an IPFIX worker, the producer of any queue, the topic and
    the ClickHouse consumer one after the other; and several workers at once, with the
    producer taking from their channel while they publish.

    The broker is outside the repository: the messages that were handed over are spread over
    partitions, each in some order. *)

From Stdlib Require Import Strings.Ascii.
From S2P Require Import Prelude GoNet Reader InfoModel Interpret TemplateCache IpfixDecoder IpfixFacts IpfixMessage IpfixTypes Json Marshal MarshalIpfix Mirror Collector Interleave IpfixShared IpfixWorkers Producers Stats Consumers ConsumerRuns MQRuns.

Local Open Scope string_scope.
Local Open Scope list_scope.
Open Scope Z_scope.

#[global] Instance DecodedField_eq_dec : EqDecision DecodedField.
Proof. solve_decision. Defined.
#[global] Instance MessageHeader_eq_dec : EqDecision MessageHeader.
Proof. solve_decision. Defined.
#[global] Instance Message_eq_dec : EqDecision Message.
Proof. solve_decision. Defined.

(** ** The messages of a stream are typed *)

Lemma sem_stream_typed {MC} `{!TemplateStore TemplateRecord MC} (im : IANAInfoModel) fuel ds env q (m : MC) :
  stream_wf im fuel ds env q -> cache_repr env m ->
  Forall (fun msg => Forall (Forall (field_typed im)) (msg_DataSets msg)) (sem_stream im ds env q).1.
Proof.
  revert env q m. induction ds as [|d ds IH]; intros env q m; [constructor|].
  cbn [stream_wf sem_stream]. intros [(H1 & H2 & H3 & H4 & H5) Hwf] Hm.
  destruct (Decode_message im (dg_raddr d) (fun _ => 0) (dg_header d) (dg_sets d) (dg_trail d) env m q 0 fuel)
    as (s' & E & Hc & _); try done.
  pose proof (Decode_typed_lemma im (dg_raddr d) (fun _ => 0) fuel
    (encode_message (dg_header d) (dg_sets d) ++ dg_trail d) m q 0) as Ht.
  specialize (IH _ _ _ Hwf Hc). destruct (sem_stream _ ds _ _) as [ms env']. constructor; [|done].
  rewrite E in Ht. cbn [snd] in Ht. by destruct (combineErrors _).
Qed.

(** ** What a producer hands over *)

(** The payloads of the attempts that succeeded. *)
Definition delivered (log : list Attempt) : list string := map fst (List.filter (fun a => is_sent a.2) log).

Lemma delivered_app l1 l2 : delivered (l1 ++ l2) = delivered l1 ++ delivered l2.
Proof. unfold delivered. by rewrite List.filter_app, map_app. Qed.

Lemma delivered_failed k m : delivered (replicate k (m, Failed)) = [].
Proof. by induction k. Qed.

Lemma attempts_delivered b R m r : attempts b R m r ->
  delivered r = [m] \/ (delivered r = [] /\ 0 < failures r).
Proof.
  intros [k Hk|_|_].
  - left. by rewrite delivered_app, delivered_failed.
  - right. rewrite delivered_failed, failures_replicate. split; [done|lia].
  - right. by split.
Qed.

(** The messages handed over: some of them, in order, each once; all when nothing failed. *)
Lemma runs_delivered b R (ms : list Message) runs :
  Forall2 (fun m r => attempts b R m r) (map message_text ms) runs ->
  exists sent, sublist sent ms /\ delivered (concat runs) = map message_text sent /\
    (failures (concat runs) = 0 -> sent = ms).
Proof.
  revert runs. induction ms as [|m ms IH]; intros runs H; cbn in H; inversion_clear H as [|? r ? runs' Hr Hrs].
  - by exists [].
  - destruct (IH runs' Hrs) as (sent & H1 & H2 & H3). cbn [concat]. rewrite delivered_app, failures_app, H2.
    pose proof (attempts_failures _ _ _ _ Hr). assert (0 <= failures (concat runs')) by apply len_nonneg.
    destruct (attempts_delivered _ _ _ _ Hr) as [-> |[-> Hf]].
    + exists (m :: sent). split_and!; [by constructor|done|]. intros E. by rewrite H3 by lia.
    + exists sent. split_and!; [by constructor|done|lia].
Qed.

(** ** End to end *)

Section end_to_end.
Context {MC : Type} `{!TemplateStore TemplateRecord MC}.
Context (unix_now : nat -> Z) (mirrorEnabled : bool) (fuel : nat).
Context (json_parse : string -> option json) (float_uint : json -> Z).
Hypothesis Hparse : reads_back json_parse.
Hypothesis Hfloat : forall z, 0 <= z < 2 ^ 53 -> float_uint (JNum z) = z.

(** A message whose records the consumer can store: AS numbers and protocols of the width of
    their types, and strings in valid UTF-8. *)
Definition row_fields (m : Message) : bool :=
  forallb (forallb field_ok) (msg_DataSets m) && utf8_fields (msg_DataSets m).

Lemma sem_stream_agents ds env rc :
  Forall (fun m => utf8 (msg_AgentID m) = true) (sem_stream InfoModel ds env rc).1.
Proof.
  revert env rc. induction ds as [|d ds IH]; intros env rc; [constructor|]. cbn [sem_stream].
  specialize (IH (sem_env (sem_datagram InfoModel d env rc)) (sem_rpc (sem_datagram InfoModel d env rc))).
  destruct (sem_stream _ ds _ _) as [ms env']. constructor; [apply utf8_IP|done].
Qed.

(** The messages of a stream can be stored. *)
Lemma stream_storable ds env rc (m : MC) :
  stream_wf InfoModel fuel ds env rc -> cache_repr env m ->
  Forall (fun m => row_fields m = true) (List.filter has_data (sem_stream InfoModel ds env rc).1) ->
  Forall storable (List.filter has_data (sem_stream InfoModel ds env rc).1).
Proof.
  intros Hwf Hm Hok. apply Forall_forall. intros msg Hin.
  assert (In msg (sem_stream InfoModel ds env rc).1) as Hin' by (by apply list_elem_of_In, filter_In in Hin as [? _]).
  rewrite Forall_forall in Hok. specialize (Hok msg Hin). apply andb_true_iff in Hok as [Hf Hu].
  pose proof (sem_stream_marshalable InfoModel fuel ds env _ Hwf) as H1. rewrite List.Forall_forall in H1.
  pose proof (sem_stream_agents ds env rc) as H2. rewrite List.Forall_forall in H2.
  pose proof (sem_stream_typed InfoModel fuel ds env _ _ Hwf Hm) as H3. rewrite List.Forall_forall in H3.
  split_and!; [by apply H1| |by apply H3|done]. apply andb_true_iff. split; [by apply H2|done].
Qed.

(** What the consumer makes of the messages that were handed over. *)
Lemma handed_over_rows (sent : list Message) (parts : list (list Message)) debug Ping ls p :
  Forall storable sent -> Permutation (concat parts) sent ->
  exec_with (pipe_step json_parse float_uint debug) ls (pipe_start Ping (map (map message_text) parts)) = Some p ->
  pl_end p <> Some Panicked /\
  (all_taken p -> Permutation (stored_rows float_uint p) (sent ≫= message_rows)).
Proof using Hparse Hfloat.
  intros Hs Hp Hx. assert (Forall storable (concat parts)) as Hst by (by rewrite Hp).
  destruct (pipe_exec json_parse float_uint Hparse Hfloat debug Ping parts ls p) as [Hi He]; [by apply Forall_concat|done|].
  split; [done|]. intros Ha. rewrite (pipe_rows json_parse float_uint _ p Hi He).
  rewrite (all_taken_marked json_parse _ p (pi_workers _ _ _ _ Hi) Ha), <- concat_map.
  rewrite (published_rows json_parse float_uint Hparse Hfloat) by done. by rewrite Hp.
Qed.

(** From the wire to the database.  Take any stream of datagrams that encode well-formed
    messages with AS numbers and protocols of full width and strings in UTF-8, any queue that meets the
    producer's contract and hands the text over as it is, and any spread of what it handed
    over to partitions.  The worker publishes the messages with data; the producer hands
    over some of them, in order and each once, and all of them if no attempt failed; and
    whatever the goroutines of the ClickHouse consumer do, it does not panic, and when it
    has taken everything, the rows it holds are exactly the rows of the messages that were
    handed over: one per record, with what the record says. *)
Theorem datagrams_to_rows (ds : list datagram) (env : gmap Z TemplateRecord) (c : Collector (MC:=MC))
    (q : MQueue) (Hq : MQueueSpec q) (topic : string) (s : mq_State q) (ec : Z) :
  let ms := List.filter has_data (sem_stream InfoModel ds env (co_rpcChan c)).1 in
  stream_wf InfoModel fuel ds env (co_rpcChan c) -> cache_repr env (co_mCache c) ->
  co_MQCh c = [] -> len ds <= chan_cap -> 0 <= co_DecodedCount c < 2 ^ 64 ->
  Forall (fun m => row_fields m = true) ms ->
  (forall text, mq_payload q text = text) -> 0 <= ec < 2 ^ 64 ->
  exists c' s' ec' log sent,
    ipfixWorker InfoModel unix_now mirrorEnabled fuel (map datagram_msg ds) c = (c', Ok tt) /\
    mq_inputMsg q topic (co_MQCh c') (s, ec) = Some (s', ec') /\ mq_log q s' = mq_log q s ++ log /\
    delivered log = map message_text sent /\ sublist sent ms /\ (failures log = 0 -> sent = ms) /\
    forall (parts : list (list Message)) debug Ping ls p, Permutation (concat parts) sent ->
      exec_with (pipe_step json_parse float_uint debug) ls (pipe_start Ping (map (map message_text) parts)) = Some p ->
      pl_end p <> Some Panicked /\
      (all_taken p -> Permutation (stored_rows float_uint p) (sent ≫= message_rows)).
Proof using Hparse Hfloat.
  intros ms Hwf Hm Hc Hl Hn Hok Hpay Hec.
  destruct (ipfixWorker_texts InfoModel unix_now mirrorEnabled fuel ds env c Hwf Hm) as (c' & E & H1 & _ & _);
    [rewrite Hc; change (0 + len ds <= chan_cap); lia|done|]. fold ms in H1. rewrite Hc in H1. cbn in H1.
  destruct (Hq topic (co_MQCh c') s ec Hec) as (s' & runs & Hr & E' & Hlog).
  rewrite H1 in Hr. destruct (runs_delivered (mq_skips q) (mq_retries q s) ms runs) as (sent & S1 & S2 & S3).
  { eapply Forall2_impl; [exact Hr|]. intros text r. cbn. by rewrite Hpay. }
  exists c', s', (uint64 (ec + failures (concat runs))), (concat runs), sent. split_and!; try done.
  intros parts debug Ping ls p. apply handed_over_rows. apply Forall_forall. intros m Hin.
  pose proof (stream_storable ds env _ _ Hwf Hm Hok) as Hst. rewrite Forall_forall in Hst. apply Hst.
  by eapply elem_of_sublist.
Qed.

(** ** Several workers at once *)

(** C1: Everything at once, from the wire to the database.  Any number of workers on one
    template cache, each with a stream of well-formed messages with marshalable fields,
    interleaved at every access and free of races on templates, come to the end of their
    streams; they publish into one channel of 1000 texts that drops when it is full, while a
    producer whose queue hands texts over unchanged takes texts out; and then the goroutines
    of the ClickHouse consumer run in any order.  What is handed over are messages of the
    streams, each at most once; all of them when everything was offered, the channel is
    drained, nothing was dropped (which happens only after 1000 texts were taken in) and
    the producer met no error.  If the messages have AS numbers and protocols of full width
    and strings in valid UTF-8, the consumer does not panic, and when it has taken everything
    its rows are exactly those of the messages handed over. *)
Theorem workers_to_rows (dss : list (list datagram)) (env : gmap Z TemplateRecord) (m : MC)
    (ls : list nat) (sys : System TemplateRecord MC) (pls : list pub_label) (pb : Publishing string)
    (q : MQueue) (Hq : MQueueSpec q) (topic : string) (s : mq_State q) (ec : Z) :
  let ps := ipfixWorkers InfoModel unix_now mirrorEnabled fuel (map (map datagram_msg) dss) in
  let ms := concat (map (stream_messages InfoModel env) dss) in
  cache_repr env m -> Forall (fun ds => stream_wf InfoModel fuel ds env []) dss ->
  Forall (fun msg => row_fields msg = true) ms ->
  exec_with (worker_step ps) ls (sys_start ps m) = Some sys -> race_free sys -> all_returned ps sys ->
  exec_with pub_step pls (pub_start (offered ps sys)) = Some pb ->
  (forall text, mq_payload q text = text) -> 0 <= ec < 2 ^ 64 ->
  exists s' ec' log sent,
    mq_inputMsg q topic (pb_taken pb) (s, ec) = Some (s', ec') /\ mq_log q s' = mq_log q s ++ log /\
    delivered log = map message_text sent /\ sent ⊆+ ms /\
    (pb_dropped pb <> [] -> 1000 <= len (pb_ch pb) + len (pb_taken pb)) /\
    (concat (pb_todo pb) = [] -> pb_ch pb = [] -> pb_dropped pb = [] -> failures log = 0 -> Permutation sent ms) /\
    forall (parts : list (list Message)) debug Ping cls p, Permutation (concat parts) sent ->
      exec_with (pipe_step json_parse float_uint debug) cls (pipe_start Ping (map (map message_text) parts)) = Some p ->
      pl_end p <> Some Panicked /\
      (all_taken p -> Permutation (stored_rows float_uint p) (sent ≫= message_rows)).
Proof using Hparse Hfloat.
  intros ps ms Hm Hwf Hok He Hr Hall Hpub Hpay Hec. subst ps.
  rewrite (offered_texts InfoModel unix_now mirrorEnabled fuel dss env m ls sys Hm Hwf He Hr Hall) in Hpub.
  set (mss := map (stream_messages InfoModel env) dss) in *.
  destruct (pub_exec_map message_text pls (pub_start mss) pb Hpub) as (p & Hp & ->).
  pose proof (pub_inv_exec mss pls p Hp) as Hi. pose proof (pub_places mss p Hi) as Hpl. cbn [pub_map pb_taken].
  destruct (Hq topic (map message_text (pb_taken p)) s ec Hec) as (s' & runs & Hruns & E' & Hlog).
  destruct (runs_delivered (mq_skips q) (mq_retries q s) (pb_taken p) runs) as (sent & S1 & S2 & S3).
  { eapply Forall2_impl; [exact Hruns|]. intros text r. cbn. by rewrite Hpay. }
  assert (sent ⊆+ ms) as Hsent.
  { unfold ms. rewrite Hpl. do 2 apply submseteq_inserts_l. by apply submseteq_inserts_r, sublist_submseteq. }
  exists s', (uint64 (ec + failures (concat runs))), (concat runs), sent. split_and!; try done.
  - cbn. unfold len. rewrite !length_map. intros Hd. apply (pb_drop _ _ Hi). intros E. apply Hd. by rewrite E.
  - intros Ht Hc Hd Hf. rewrite (S3 Hf). unfold ms. rewrite Hpl. cbn in Ht, Hc, Hd.
    rewrite <- concat_map in Ht. apply map_eq_nil in Ht, Hc, Hd. by rewrite Ht, Hc, Hd, app_nil_r.
  - intros parts debug Ping cls p'. apply handed_over_rows. apply Forall_forall. intros msg Hin.
    assert (msg ∈ ms) as Hin'; [by eapply elem_of_submseteq|]. unfold ms, mss in *.
    apply list_elem_of_In, in_concat in Hin' as (l & (ds & <- & Hds)%in_map_iff & Hl).
    rewrite List.Forall_forall in Hwf.
    pose proof (stream_storable ds env [] m (Hwf ds Hds) Hm) as Hst. rewrite !Forall_forall in Hst. apply Hst; [|by apply list_elem_of_In].
    intros x Hx. rewrite Forall_forall in Hok. apply Hok. apply list_elem_of_In, in_concat.
    exists (stream_messages InfoModel env ds). split; [by apply in_map|by apply list_elem_of_In].
Qed.
End end_to_end.

(** ** Example: the stream of Collector.v through NSQ *)

Abbreviation example_queue := (NSQ.queue (fun _ => None) (fun b c => (c, true)) (fun _ => true) (fun _ _ _ => true)).

Abbreviation example_messages := (List.filter has_data (sem_stream InfoModel example_stream ∅ []).1).

Lemma example_messages_ok :
  forallb row_fields example_messages = true.
Proof. vm_compute. reflexivity. Qed.

Lemma datagrams_to_rows_witness :
  exists c' log sent,
    ipfixWorker InfoModel (fun _ => 0) false 100 (map datagram_msg example_stream) fresh_collector = (c', Ok tt) /\
    delivered log = map message_text sent /\ sublist sent example_messages /\
    forall debug Ping ls p,
      exec_with (pipe_step parse_json float_small debug) ls (pipe_start Ping (map (map message_text) [sent])) = Some p ->
      all_taken p -> Permutation (stored_rows float_small p) (sent ≫= message_rows).
Proof.
  destruct (datagrams_to_rows (fun _ => 0) false 100 parse_json float_small parse_json_reads_back (fun z _ => eq_refl)
    example_stream ∅ fresh_collector example_queue (NSQ.queue_spec _ _ _ _) "vflow.ipfix" (mq_new example_queue) 0)
    as (c' & s' & ec' & log & sent & H1 & _ & _ & H2 & H3 & _ & H4).
  - exact example_stream_wf.
  - exact cache_repr_fresh.
  - reflexivity.
  - vm_compute. discriminate.
  - cbn. lia.
  - apply List.Forall_forall. apply (proj1 (forallb_forall _ _) example_messages_ok).
  - reflexivity.
  - lia.
  - exists c', log, sent. split; [exact H1|]. split; [exact H2|]. split; [exact H3|].
    intros debug Ping ls p Hx. apply (H4 [sent] debug Ping ls p); [|exact Hx].
    cbn. rewrite app_nil_r. reflexivity.
Defined.

(** ** Example: two workers of IpfixWorkers.v, and the producer taking as they publish *)

Lemma two_messages_ok :
  forallb row_fields (concat (map (stream_messages InfoModel ∅) two_streams)) = true.
Proof. vm_compute. reflexivity. Qed.

Lemma workers_to_rows_witness :
  exists (pb : Publishing string) log sent,
    length (pb_taken pb) = 2%nat /\ delivered log = map message_text sent /\
    (failures log = 0 -> Permutation sent (concat (map (stream_messages InfoModel ∅) two_streams))) /\
    forall debug Ping ls p,
      exec_with (pipe_step parse_json float_small debug) ls (pipe_start Ping (map (map message_text) [sent])) = Some p ->
      all_taken p -> Permutation (stored_rows float_small p) (sent ≫= message_rows).
Proof.
  destruct two_run_ok as ([sys pb] & E & He). destruct (run_both_some _ _ _ _ _ _ E) as [Es Ep].
  destruct (two_ended_spec sys pb He) as (Hr & Hf & H5 & H6 & H7 & H8).
  destruct (workers_to_rows (fun _ => 0) false 100 parse_json float_small parse_json_reads_back (fun z _ => eq_refl)
    two_streams ∅ (GetCache None) [0; 1; 1; 0]%nat sys [Publishes 1; Publishes 0; Produces; Produces] pb
    example_queue (NSQ.queue_spec _ _ _ _) "vflow.ipfix" (mq_new example_queue) 0)
    as (s' & ec' & log & sent & _ & _ & H2 & _ & _ & H3 & H4).
  - exact cache_repr_fresh.
  - exact example_streams_wf.
  - apply List.Forall_forall. apply (proj1 (forallb_forall _ _) two_messages_ok).
  - exact Es.
  - exact Hr.
  - exact Hf.
  - exact Ep.
  - reflexivity.
  - lia.
  - exists pb, log, sent. split; [exact H8|]. split; [exact H2|]. split; [exact (H3 H5 H6 H7)|].
    intros debug Ping ls p Hx. apply (H4 [sent] debug Ping ls p); [|exact Hx]. cbn. rewrite app_nil_r. reflexivity.
Defined.
